(* ===== verification/_CoqProject ===== *)
-Q . S2P
Prelude.v
GoSort.v
GoFloat.v
GoText.v
GoJson.v
GoStd.v
GoStrconv.v
JsonDoc.v
GoTab.v
GoSha256.v
GoFlag.v
RingBuffer.v
Growth.v
ApiTypes.v
Metrics.v
PromClient.v
K8s.v
Watcher.v
Risk.v
Summary.v
Workload.v
Budget.v
Anomaly.v
Llm.v
Providers.v
PlanLLM.v
Children.v
PlanReconcile.v
PlanCircuit.v
UsagePipeline.v
OperatorStart.v
Notification.v
AlertReceiver.v
CiVerify.v
CiConfig.v
CiWorld.v
CiLogic.v
CiWaitProps.v
CiWaits.v
CiManifests.v
CiImages.v
CiRunner.v
CiFigures.v
PlanChecks.v
RiskDigest.v
CiSetup.v
CiSetupProps.v
CiGrowth.v
CiGrowthProps.v
CiAlerts.v
AlertPipeline.v
CiNightly.v
CiDiagnostics.v
CiReport.v
CiIntegration.v
CiDemo.v
CiRunProps.v
CiExamples.v
Commands.v
CmdVerify.v
CiClients.v
CmdRunner.v
CmdReceiver.v
CommandProps.v
