(* ===== verification/Prelude.v ===== *)
(** * Capacity planning operator: a verification library

    The operator watches the persistent volume claims of a cluster, keeps the recent
    usage samples of each in memory, fits a growth line through them, and publishes
    for one active [CapacityPlan] a status, Prometheus series, an alert rule and a
    dashboard; a second controller sends the risk digest to Slack or by mail.
    Beside the operator the repository has a webhook receiver for alerts, a program
    of verification commands, and the runners of the integration pipeline, which set
    a cluster up, drive the operator in it and decide whether it works.  This library
    models the Go code of these parts (paths are below src/) as executable
    definitions and proves what they are for.

    ** Parts, files and code

    Foundations, no code of the repository:
    - this file: machine integers, errors as values ([error], [res], [let?]), map
      iteration in an arbitrary order ([MapRange]), tactics and shared lemmas;
    - [GoSort]: sort.Slice as an interface ([SliceSorter]: a permutation, sorted when
      the comparison is a total preorder), with insertion sort as an instance;
    - [GoFloat]: float64 as the IEEE specification of the standard library, with the
      conversions and the %f verbs; [Platform] covers the conversion of an
      out-of-range float to an integer, which Go leaves to the machine;
    - [GoText], [GoStd], [GoStrconv]: strings, times, durations, paths, URL escapes,
      and the numbers of strconv in both directions;
    - [GoJson], [JsonDoc]: JSON strings, and whole documents as encoding/json reads,
      writes and stores them;
    - [GoSha256]: SHA-256, for the hashes of risks and budgets; [GoTab]: the
      tables of text/tabwriter; [GoFlag]: the flag package.

    The operator:
    - [RingBuffer], [Growth]: internal/analysis.  The buffer is its array with head
      and count; [CalculateGrowth] is written once over an arithmetic interface,
      with binary64 (the code) and exact rationals (the reference) as instances;
    - [ApiTypes], [K8s]: the structs of api/v1 and the reads of the API server ([Api]);
    - [Metrics]: internal/metrics and the series of internal/operator/metrics.go;
      [PromClient]: its Prometheus client, requests and decoding included;
    - [Watcher]: internal/controller/pvcwatcher_controller.go.  State objects and
      buffers live in a heap, so that the pointer a running reconcile holds can
      alias or miss the one the map holds; [step] is the relation of the atomic
      steps of concurrent reconciles, reconfigurations and deletions;
    - [Risk], [Summary], [Workload], [Budget], [Anomaly], [PlanLLM], [Children],
      [PlanReconcile]: internal/controller/capacityplan_controller.go.
      [PlanReconcile.PlanReconcile] is the whole reconcile: it configures the
      watcher, lists the claims, summarises each from [Watcher.GetSnapshot], derives
      risks, workloads, budgets, anomalies and texts, sets the series, writes the
      children and then the status.  It returns the result, the writes in order,
      and the new world: the watcher with the series, the client cache, and the
      log of the exchanges with language model backends, each under the key of its
      client;
    - [Llm], [Providers]: internal/llm, prompts, configuration, factory and backends;
      a FastAPI call takes the breaker state and returns the next one, with the probes
      and posts it made and what came back;
    - [Notification]: internal/controller/capacityplannotification_controller.go; a
      reconcile returns its effects (POST, mail, status update) in order, and [run]
      chains reconciles through the stored status;
    - compositions, with no definitions of code: [UsagePipeline] follows a number from
      the Prometheus server through [Watcher] into the status, [RiskDigest] the growing
      claims from [PlanReconcile] into the message of [Notification], [PlanCircuit] the
      circuit breaker through a series of plan reconciles, [PlanChecks] the published
      plan into the checks of the integration run.

    Beside the operator:
    - [AlertReceiver]: internal/alertreceiver, the log file as its content;
    - [CiVerify]: internal/civerify, with the time of a polling run as an argument.
      Its growth comparison is one definition, [compare_growth], over any monad: as a
      function it is [CompareGrowth], and the programs run it with their queries.

    The runners, internal/cirunner:
    - [CiConfig]: config.go and the text helpers; the environment is a function;
    - [CiWorld]: what a runner does outside its memory is a [call] (the clock, a
      sleep, a GET, a command, a request to the API server, a file) and a [World]
      answers the calls one after another, changing with each, so that a run sees a
      cluster that changes under it.  A runner is a program of the monad [M]: state
      of its own, the world, the error that stops it, [defer], and a fuel for
      polling.  util.go's waitUntil, portforward.go and the HTTP helpers are here;
    - [CiLogic]: the judgements the proofs about such programs are made of;
    - [CiClients] (kube.go, the clients made from a kubeconfig), [CiWaits] (waits.go,
      kube.go), [CiManifests] (apply.go), [CiImages] (import_image.go); [CiRunner] (the
      state of an integration run), [CiFigures] (its tables and the checks of the
      plan), [CiSetup], [CiGrowth], [CiAlerts], [CiReport], [CiIntegration]:
      integration.go in the order of a run; [CiNightly] (nightly_alert_delivery.go); [CiDiagnostics]
      (diagnostics.go, ending in [CiVerify]'s summary);
    - [CiDemo]: a calm cluster as an instance of [World]; [CiExamples] runs the
      programs on it;
    - [CiWaitProps], [CiSetupProps], [CiGrowthProps], [CiRunProps]: theorems about
      waits, the setup, the growth comparison and the whole run; [AlertPipeline]
      links what [AlertReceiver] stores to what [CiAlerts] and [CiNightly] read.

    The programs, cmd/:
    - [OperatorStart]: the process of cmd/main.go, its flags, the options of the
      manager, the backfill of [Watcher], the settings [PlanReconcile] gets from it, the
      registration of the controllers and the exit code;
    - [Commands]: how a program ends and what it prints;
    - [CmdVerify], [CmdRunner], [CmdReceiver]: cmd/ci-verify over [CiVerify] and
      [CiReport], cmd/ci-runner over the runners, cmd/alert-receiver over
      [AlertReceiver]; [CommandProps] has their theorems.

    ** What is proved

    Sampling.  The ring buffer refines a bounded queue and stays in its array.  The
    watcher keeps one well-formed, unshared buffer of the configured capacity per
    PVC under every interleaving of steps, and a reconcile refines the obvious
    update of "samples known per PVC"; reconfiguring keeps the newest samples,
    backfill does not stop at a failing PVC, a deleted PVC leaves no series.  The
    Prometheus client returns what the documents of the server hold, and a stored
    usage reaches the status and the gauges of the plan.
    Growth.  In exact arithmetic the slope is the least-squares slope, R2 lies in
    [[0,1]] and lines are recovered exactly; the binary64 code is characterised
    where it gives no result, and its rounding defect is exhibited.
    Plan.  One plan is active; the rankings are what they claim to be and do not
    depend on listing order or sorting algorithm; changes, anomalies, budgets and
    workload owners are complete and correct; the status and the exported series
    agree with each other and with the sample buffers; an inactive plan is cleared;
    which plans pass the checks of the integration run.
    Language models.  When a model is asked, what is kept when it fails, and that a
    rotated secret gets a new client.  A cached client has counted exactly the failed
    exchanges of its log since the last good one, over every series of reconciles of
    any plans; an outage costs at most two requests a claim, and none while the circuit
    is open.
    Notifications.  Deliveries keep their distance over every run, the status only
    claims deliveries that happened, and under fair reconciles the claims that
    grow fastest are eventually named in a message that every channel takes.
    Receiver and checks.  Posted payloads, with a declared length or in chunks, are
    stored and read back, by the receiver and by the runners; a request is stored whole or refused; polling terminates; the growth
    cross-check decides what it reports.
    Runners.  A loaded configuration is usable whatever the environment holds.  An
    integration run ends, closes every port forward it started exactly once and
    reports success only when every check has passed; a wait ends in one of three
    ways and each says what was seen; its growth comparison judges the
    rates Prometheus answered, claim by claim, and reports what failed; applying the manager's settings twice changes
    nothing more; claims never share a backend directory; a nightly run that
    succeeds has seen the stored payloads grow; diagnostics fail only when their
    directories cannot be made.
    Programs.  The operator starts without the history Prometheus has, because the
    backfill reads through a cache that is not started, and says so in its log and in
    the BackfillReady condition; its exit code says whether the setup went through.
    ci-verify and ci-runner always end, with 0 or with a text that says why not, except
    that the cross-check dies silently where no kubeconfig is found; exit code 0 of an integration run means
    that every check passed, exit code 0 of the cross-check that enough growth rates
    agree, and the report command prints the report its flags describe.
    Some theorems state defects, with the word for what goes wrong in their name
    ([failed_delivery_is_not_retried], [accepted_payload_breaks_records],
    [reconfiguration_can_lose_a_sample], [diagnostics_shift_conditions],
    [get_usage_panics_on_short_value], [slow_growth_projects_into_the_past],
    [usage_alert_threshold_is_rounded], [zero_days_threshold_means_seven],
    [flat_volume_reports_growth], [old_payload_confirms_delivery],
    [diagnostics_leave_a_port_forward_open], [PollInterval_wraps],
    [model_of_longer_name], [operator_starts_without_history], [command_help_fails]).

    ** Conventions, parameters and bounds

    Integers are [Z] with int64 sums wrapped where the code does not guard them
    (usage totals, budget differences, poll intervals); times are nanoseconds since
    the epoch and durations int64, with [time.Time.Sub] saturating. A method that
    runs under a mutex is one step. Clock readings are arguments of the operator's
    functions and answers of a runner's world. The answers of the API server are
    fixed during one reconcile ([Api], [ChildApi]), and a plan reconcile reads
    the watcher as it is after the configuration: samples that arrive while it runs
    belong to the next one. What belongs to neither the repository nor the language is
    a class parameter: the API server ([Api], [ChildApi]), a FastAPI backend and the
    HTTP answers it gives ([FastAPIEnv]), Prometheus servers ([PromEnv], with the
    clients made for a URL, [PromClients], and in the runners [CiEnv]), the other SDKs
    and net/url ([LlmEnv]), the texts of JSON errors and which runes print ([GoLib]),
    webhooks and SMTP ([NotifyEnv]), the manager of controller-runtime ([ManagerLib]),
    client-go ([KubeLib], [RetryLib], and what ci-verify's
    client needs, [kube_lib]), YAML ([YamlLib]), resource quantities ([QuantityLib]), the metrics registry
    ([MetricsLib]), meta.SetStatusCondition ([ConditionLib]), and the cluster of a
    runner ([World]). These carry no laws but those stated in their classes: of
    sort.Slice, of map iteration, of a metrics registry, of SetStatusCondition, that a
    converted float is an int64 ([Platform]), that the error of an unstarted cache has a
    text ([ManagerLib]), and of a [World] that time does not go
    back and that a sleep and a deadline pass; each has an instance. A theorem that
    needs an answer says so in a hypothesis (a server that stores a document, a backend
    that is down, services that are up).
    Fuel: [count_fuel] (strings.Count) runs with the length of its text, of which
    each turn consumes a byte, and so do the parsers of [JsonDoc] and of durations
    ([parse_fuel_enough], [duration_terms_enough]);
    [CiVerify.wait_loop] is the polling loop of one check, and
    [wait_until_terminates] shows [timeout / interval + 1] turns are enough.  The
    fuel of the runners' monad bounds the turns of their polls; [Runs] says that
    some fuel gives a result and more fuel gives the same one, it is proved for
    every program of the runners, [integration_run_terminates] is its instance for
    a whole run and [programs_end_honestly] for the processes.

    ** Not modelled

    Log lines of the operator (cmd/main.go's own are), the help the flag package
    prints, and of the output of a run the source counts of the growth comparison, the
    claims still awaited and the plan dumped on an invalid ratio; the listening HTTP
    server of the alert receiver; the discovery behind the REST mapper; the deep copies
    controller-gen generates, the scheme registration, and the scaffold's Sample
    controller, which no program starts; a nil watcher, which no program passes.
    The names and label lists of the series are data; help texts are not kept. *)

From stdpp Require Import base list strings gmap.
From Stdlib Require Import ZArith Lia.

(** ** Machine integers

    Go's [int64] (and [int], 64 bits on the platforms the operator ships for)
    is a [Z] in [[-2^63, 2^63)]; the sums the code does not guard wrap. *)

Definition int64_min : Z := (- 2 ^ 63)%Z.
Definition int64_max : Z := (2 ^ 63 - 1)%Z.
Definition is_int64 (z : Z) : Prop := (int64_min ≤ z ≤ int64_max)%Z.
Definition wrap64 (z : Z) : Z := ((z + 2 ^ 63) `mod` 2 ^ 64 - 2 ^ 63)%Z.

(** Durations are [int64] nanoseconds. *)
Definition nanosecond : Z := 1%Z.
Definition second : Z := 1000000000%Z.
Definition minute : Z := (60 * second)%Z.
Definition hour : Z := (60 * minute)%Z.

(** ** Errors

    A Go [error] is its message plus what the code asks of it with
    [errors.Is]/[errors.As]: whether the chain holds a not-found status error
    of the API server, and whether it holds a deadline or network timeout. *)
Record error := mkError {
  err_msg : string;
  err_notfound : bool;
  err_timeout : bool;
}.

Definition errorf (msg : string) : error := mkError msg false false.

(** [fmt.Errorf("...%w", err)]: a new text, the wrapped chain kept. *)
Definition wrap_error (prefix : string) (e : error) : error :=
  mkError (prefix +:+ err_msg e) (err_notfound e) (err_timeout e).

(** The result of a Go function that returns a value and an error. *)
Inductive res (A : Type) : Type :=
| Ok (a : A)
| Err (e : error).
Arguments Ok {A} a.
Arguments Err {A} e.

Definition res_bind {A B} (r : res A) (k : A → res B) : res B :=
  match r with Ok a => k a | Err e => Err e end.

(** The values of all, or the first error. *)
Fixpoint res_all {A} (l : list (res A)) : res (list A) :=
  match l with
  | [] => Ok []
  | r :: l => res_bind r (λ x, res_bind (res_all l) (λ y, Ok (x :: y)))
  end.

Definition res_is_ok {A} (r : res A) : bool :=
  match r with Ok _ => true | Err _ => false end.

Declare Scope go_scope.
Delimit Scope go_scope with go.
Notation "'let?' x := r 'in' k" := (res_bind r (λ x, k))
  (at level 10, x pattern, r at level 100, k at level 200) : go_scope.
Notation "a ⊞ b" := (wrap64 (a + b)%Z) (at level 50, left associativity) : go_scope.
Notation "a ⊟ b" := (wrap64 (a - b)%Z) (at level 50, left associativity) : go_scope.

(** ** Keys: ["namespace/name"] *)
Definition pvc_key (ns name : string) : string := (ns +:+ "/" +:+ name)%string.

(** The last [n] elements of a list: Go's [l[len(l)-n:]] when [n ≤ len(l)]. *)
Definition lastn {A} (n : nat) (l : list A) : list A := drop (length l - n) l.

(** A Go map iterated with [range]: the order is the runtime's, all the code can
    rely on is that every pair comes once. *)
Class MapRange := {
  map_range : ∀ {A}, gmap string A → list (string * A);
  map_range_perm {A} (m : gmap string A) : map_range m ≡ₚ map_to_list m;
}.

(** One such order, for running the model. *)
#[export] Instance list_range : MapRange := {
  map_range A m := map_to_list m;
  map_range_perm A m := Permutation_refl _;
}.

(** ** Tactics *)

Create HintDb go.

(** Case analysis on every [if]/[match] scrutinee that is not a variable. *)
Ltac split_ifs :=
  repeat match goal with
  | |- context [if ?b then _ else _] =>
      lazymatch b with context [if _ then _ else _] => fail | _ => destruct b eqn:? end
  | H : context [if ?b then _ else _] |- _ =>
      lazymatch b with context [if _ then _ else _] => fail | _ => destruct b eqn:? end
  end.

(** Turns boolean comparisons of [Z] and [nat] in the context into propositions. *)
Ltac bool_to_prop :=
  repeat match goal with
  | H : (_ && _)%bool = true |- _ => apply andb_true_iff in H as [? ?]
  | H : (_ || _)%bool = false |- _ => apply orb_false_iff in H as [? ?]
  | H : negb _ = true |- _ => apply negb_true_iff in H
  | H : negb _ = false |- _ => apply negb_false_iff in H
  | H : (_ <=? _)%Z = true |- _ => apply Z.leb_le in H
  | H : (_ <=? _)%Z = false |- _ => apply Z.leb_gt in H
  | H : (_ <? _)%Z = true |- _ => apply Z.ltb_lt in H
  | H : (_ <? _)%Z = false |- _ => apply Z.ltb_ge in H
  | H : (_ =? _)%Z = true |- _ => apply Z.eqb_eq in H
  | H : (_ =? _)%Z = false |- _ => apply Z.eqb_neq in H
  | H : (_ =? _)%string = true |- _ => apply String.eqb_eq in H
  | H : (_ =? _)%string = false |- _ => apply String.eqb_neq in H
  end.

(** ** Lemmas on integers *)

Lemma wrap64_id z : is_int64 z → wrap64 z = z.
Proof. unfold is_int64, wrap64, int64_min, int64_max. intros. rewrite Z.mod_small; lia. Qed.

Lemma wrap64_range z : is_int64 (wrap64 z).
Proof.
  unfold is_int64, wrap64, int64_min, int64_max.
  pose proof (Z.mod_pos_bound (z + 2 ^ 63) (2 ^ 64) ltac:(lia)). lia.
Qed.

Lemma wrap64_idemp_l a b : wrap64 (wrap64 a + b) = wrap64 (a + b).
Proof.
  unfold wrap64. f_equal.
  replace ((a + 2 ^ 63) `mod` 2 ^ 64 - 2 ^ 63 + b + 2 ^ 63)%Z
    with ((a + 2 ^ 63) `mod` 2 ^ 64 + b)%Z by lia.
  rewrite Z.add_mod_idemp_l by lia. f_equal. lia.
Qed.
#[export] Hint Resolve wrap64_range : go.

(** ** Lemmas on lists *)

Section lastn.
Context {A : Type}.
Implicit Types l k : list A.

Lemma lastn_all n l : length l ≤ n → lastn n l = l.
Proof. unfold lastn. intros. replace (length l - n) with 0 by lia. apply drop_0. Qed.

Lemma length_lastn n l : length (lastn n l) = min n (length l).
Proof. unfold lastn. rewrite length_drop. lia. Qed.

Lemma lastn_snoc_full n l x :
  0 < n → length l = n → lastn n (l ++ [x]) = tail l ++ [x].
Proof.
  unfold lastn. intros Hn Hl. rewrite length_app. simpl.
  replace (length l + 1 - n) with 1 by lia. destruct l; [simpl in *; lia | done].
Qed.

(** Truncating before or after a further append makes no difference. *)
Lemma lastn_app_lastn n l k : lastn n (lastn n l ++ k) = lastn n (l ++ k).
Proof.
  unfold lastn. rewrite !length_app, length_drop.
  rewrite <-(drop_app_le l k (length l - n)) by lia.
  rewrite drop_drop. f_equal. lia.
Qed.

Lemma lastn_lastn n m l : n ≤ m → lastn n (lastn m l) = lastn n l.
Proof. unfold lastn. intros. rewrite drop_drop, length_drop. f_equal. lia. Qed.
End lastn.
Create Rewrite HintDb go_rw.
#[export] Hint Rewrite @length_lastn : go_rw.

(** A loop that keeps the elements passing a test. *)
Lemma elem_of_bfilter {A} (f : A → bool) l x : x ∈ List.filter f l ↔ x ∈ l ∧ f x = true.
Proof. by rewrite !list_elem_of_In, filter_In. Qed.

Lemma bfilter_perm {A} (f : A → bool) l k : l ≡ₚ k → List.filter f l ≡ₚ List.filter f k.
Proof.
  induction 1; simpl; repeat case_match; eauto using Permutation_skip, Permutation_swap, Permutation_trans.
Qed.

Lemma length_bfilter {A} (f : A → bool) l : length (List.filter f l) ≤ length l.
Proof. induction l; simpl; [done|]. case_match; simpl; lia. Qed.

(** ** Lemmas on strings *)

Lemma string_app_cons a (s t : string) : (String a s +:+ t = String a (s +:+ t))%string.
Proof. done. Qed.

Lemma string_app_nil_l (s : string) : ("" +:+ s = s)%string.
Proof. done. Qed.

Lemma string_app_nil_r (s : string) : (s +:+ "" = s)%string.
Proof. induction s; [done|]. rewrite string_app_cons. by f_equal. Qed.

Lemma string_app_assoc (a b c : string) : (a +:+ (b +:+ c) = (a +:+ b) +:+ c)%string.
Proof. induction a; [done|]. rewrite !string_app_cons. by f_equal. Qed.

Lemma string_length_app (a b : string) :
  String.length (a +:+ b) = String.length a + String.length b.
Proof. induction a; [done|]. rewrite string_app_cons. simpl. by f_equal. Qed.
#[export] Hint Rewrite string_app_cons string_app_nil_l string_app_nil_r string_length_app : go_rw.
