(* ===== verification/GoSort.v ===== *)
(** * Ordering and [sort.Slice]

    The comparison functions the code hands to [sort.Slice] are nested tests
    on a list of keys.  This file gives the three-way comparisons they stand
    for, the closure lemmas that make them total preorders, and the interface
    [SliceSorter] of Go's sort with its law; [insertion_sorter] is Go's own
    code for slices of at most 12 elements.  Clients prove their theorems
    against the interface, hence for pdqsort too. *)

From stdpp Require Import base list strings sorting sets gmap.
From S2P Require Import Prelude.

(** ** Three-way comparisons *)

Definition cmp_lex {A} (c1 c2 : A → A → comparison) (x y : A) : comparison :=
  match c1 x y with Eq => c2 x y | r => r end.
Definition cmp_on {A K} (f : A → K) (c : K → K → comparison) (x y : A) : comparison :=
  c (f x) (f y).
Definition cmp_rev {A} (c : A → A → comparison) (x y : A) : comparison := c y x.
Definition less_of {A} (c : A → A → comparison) (x y : A) : bool :=
  match c x y with Lt => true | _ => false end.

(** Go compares strings byte by byte. *)
Definition str_cmp (a b : string) : comparison := String.compare a b.
Definition str_ltb (a b : string) : bool := less_of str_cmp a b.

(** A total preorder on the elements that satisfy [P]. *)
Class TotalCmp {A} (P : A → Prop) (c : A → A → comparison) : Prop := {
  cmp_antisym x y : P x → P y → c y x = CompOpp (c x y);
  cmp_trans x y z : P x → P y → P z → c x y ≠ Gt → c y z ≠ Gt → c x z ≠ Gt;
}.

Arguments cmp_antisym {A} P c {_} x y _ _.
Arguments cmp_trans {A} P c {_} x y z _ _ _ _ _.

(** The strict weak orders [sort.Slice] asks for, on the elements of [l]. *)
Record strict_weak_on {A} (less : A → A → bool) (l : list A) : Prop := {
  swo_irrefl x : x ∈ l → less x x = false;
  swo_trans x y z : x ∈ l → y ∈ l → z ∈ l →
    less x y = true → less y z = true → less x z = true;
  swo_neg_trans x y z : x ∈ l → y ∈ l → z ∈ l →
    less x y = false → less y z = false → less x z = false;
}.

Definition sorted_by {A} (less : A → A → bool) : list A → Prop :=
  StronglySorted (λ a b, less b a = false).

(** ** The sort *)

(** [sort.Slice]: a permutation of the slice, in order when the comparison is
    a strict weak order (the documented contract of the package). *)
Class SliceSorter := {
  sort_slice {A} (less : A → A → bool) (l : list A) : list A;
  sort_slice_perm {A} (less : A → A → bool) (l : list A) : sort_slice less l ≡ₚ l;
  sort_slice_sorted {A} (less : A → A → bool) (l : list A) :
    strict_weak_on less l → sorted_by less (sort_slice less l);
}.

(** Go's [insertionSort_func]: the sorted prefix is kept reversed, so its head
    is the neighbour the new element is first compared with. *)
Fixpoint insert_back {A} (less : A → A → bool) (x : A) (rp : list A) : list A :=
  match rp with
  | [] => [x]
  | p :: ps => if less x p then p :: insert_back less x ps else x :: p :: ps
  end.

Definition insertion_sort {A} (less : A → A → bool) (l : list A) : list A :=
  reverse (fold_left (λ rp x, insert_back less x rp) l []).

(** ** Lemmas *)

Section total_cmp.
Context {A : Type}.
Implicit Types (P : A → Prop) (c : A → A → comparison).

Lemma cmp_refl P c `{!TotalCmp P c} x : P x → c x x = Eq.
Proof. intros Hx. pose proof (cmp_antisym P c x x Hx Hx). by destruct (c x x). Qed.

Lemma cmp_lt_gt P c `{!TotalCmp P c} x y : P x → P y → c x y = Lt ↔ c y x = Gt.
Proof. intros Hx Hy. rewrite (cmp_antisym P c x y) by done. by destruct (c x y). Qed.

Lemma cmp_eq_sym P c `{!TotalCmp P c} x y : P x → P y → c x y = Eq → c y x = Eq.
Proof. intros Hx Hy E. rewrite (cmp_antisym P c x y) by done. by rewrite E. Qed.

Lemma cmp_eq_trans P c `{!TotalCmp P c} x y z :
  P x → P y → P z → c x y = Eq → c y z = Eq → c x z = Eq.
Proof.
  intros Hx Hy Hz E1 E2.
  assert (c x z ≠ Gt) by (apply (cmp_trans P c x y z); congruence).
  assert (c z x ≠ Gt).
  { apply (cmp_trans P c z y x); try done; rewrite (cmp_eq_sym P c); congruence. }
  rewrite (cmp_antisym P c x z) in * by done. by destruct (c x z).
Qed.

Lemma cmp_lt_le_trans P c `{!TotalCmp P c} x y z :
  P x → P y → P z → c x y = Lt → c y z ≠ Gt → c x z = Lt.
Proof.
  intros Hx Hy Hz E1 E2.
  assert (c x z ≠ Gt) by (apply (cmp_trans P c x y z); congruence).
  destruct (c x z) eqn:E3; try done.
  assert (c z x ≠ Gt) by (rewrite (cmp_antisym P c x z), E3 by done; done).
  assert (c y x ≠ Gt) by (by apply (cmp_trans P c y z x)).
  rewrite (cmp_antisym P c x y), E1 in * by done. done.
Qed.

Lemma cmp_le_lt_trans P c `{!TotalCmp P c} x y z :
  P x → P y → P z → c x y ≠ Gt → c y z = Lt → c x z = Lt.
Proof.
  intros Hx Hy Hz E1 E2.
  assert (c x z ≠ Gt) by (apply (cmp_trans P c x y z); congruence).
  destruct (c x z) eqn:E3; try done.
  assert (c z x ≠ Gt) by (rewrite (cmp_antisym P c x z), E3 by done; done).
  assert (c z y ≠ Gt) by (by apply (cmp_trans P c z x y)).
  rewrite (cmp_antisym P c y z), E2 in * by done. done.
Qed.

#[export] Instance cmp_lex_total P c1 c2 :
  TotalCmp P c1 → TotalCmp P c2 → TotalCmp P (cmp_lex c1 c2).
Proof.
  intros T1 T2. split; unfold cmp_lex.
  - intros x y Hx Hy. rewrite (cmp_antisym P c1 x y) by done.
    destruct (c1 x y); simpl; [by apply (cmp_antisym P c2) | done | done].
  - intros x y z Hx Hy Hz H1 H2.
    destruct (c1 x y) eqn:E1, (c1 y z) eqn:E2; try done.
    + rewrite (cmp_eq_trans P c1 x y z) by done. by apply (cmp_trans P c2 x y z).
    + rewrite (cmp_le_lt_trans P c1 x y z) by (done || congruence). done.
    + rewrite (cmp_lt_le_trans P c1 x y z) by (done || congruence). done.
    + rewrite (cmp_lt_le_trans P c1 x y z) by (done || congruence). done.
Qed.

#[export] Instance cmp_rev_total P c : TotalCmp P c → TotalCmp P (cmp_rev c).
Proof.
  intros T. split; unfold cmp_rev.
  - intros. by apply (cmp_antisym P c).
  - intros x y z ?????. by apply (cmp_trans P c z y x).
Qed.

Lemma cmp_on_total {K} (f : A → K) (Q : K → Prop) P (k : K → K → comparison) :
  (∀ x, P x → Q (f x)) → TotalCmp Q k → TotalCmp P (cmp_on f k).
Proof.
  intros Hf T. split; unfold cmp_on.
  - intros. apply (cmp_antisym Q k); auto.
  - intros x y z ???. apply (cmp_trans Q k (f x) (f y) (f z)); auto.
Qed.
End total_cmp.

Lemma less_of_swo {A} (P : A → Prop) c (l : list A) :
  TotalCmp P c → Forall P l → strict_weak_on (less_of c) l.
Proof.
  intros T HP. rewrite Forall_forall in HP. unfold less_of. split.
  - intros x Hx. by rewrite (cmp_refl P c) by auto.
  - intros x y z Hx Hy Hz H1 H2.
    destruct (c x y) eqn:E1, (c y z) eqn:E2; try done.
    rewrite (cmp_lt_le_trans P c x y z) by (auto; congruence). done.
  - intros x y z Hx Hy Hz H1 H2.
    destruct (c x z) eqn:E; try done. exfalso.
    assert (c z y ≠ Gt).
    { rewrite (cmp_antisym P c y z) by auto. by destruct (c y z). }
    assert (c x y = Lt) as E' by (apply (cmp_lt_le_trans P c x z y); auto).
    by rewrite E' in H1.
Qed.

Lemma strict_weak_on_mono {A} (less : A → A → bool) (l k : list A) :
  (∀ x, x ∈ k → x ∈ l) → strict_weak_on less l → strict_weak_on less k.
Proof. intros Hkl [H1 H2 H3]. split; eauto. Qed.

Lemma ascii_cmp_trans (a b c : Ascii.ascii) :
  Ascii.compare a b ≠ Gt → Ascii.compare b c ≠ Gt → Ascii.compare a c ≠ Gt.
Proof. unfold Ascii.compare. rewrite !N.compare_le_iff. lia. Qed.

Lemma ascii_compare_antisym (a b : Ascii.ascii) :
  Ascii.compare b a = CompOpp (Ascii.compare a b).
Proof. apply N.compare_antisym. Qed.

Lemma ascii_compare_eq (a b : Ascii.ascii) : Ascii.compare a b = Eq → a = b.
Proof.
  unfold Ascii.compare. intros H%N.compare_eq_iff.
  by rewrite <-(Ascii.ascii_N_embedding a), <-(Ascii.ascii_N_embedding b), H.
Qed.

(** The string order as a lexicographic comparison of its first byte. *)
Lemma str_cmp_cons x a y b :
  str_cmp (String x a) (String y b) =
  match Ascii.compare x y with Eq => str_cmp a b | r => r end.
Proof. unfold str_cmp. simpl. by destruct (Ascii.compare x y). Qed.

#[export] Instance ascii_total : TotalCmp (λ _, True) Ascii.compare.
Proof. split; intros; [apply ascii_compare_antisym | by eapply ascii_cmp_trans]. Qed.

#[export] Instance str_total : TotalCmp (λ _, True) str_cmp.
Proof.
  split.
  - intros x y _ _. apply String.compare_antisym.
  - intros x. induction x as [|a x IH]; intros [|b y] [|d z] _ _ _; try done.
    rewrite !str_cmp_cons. intros H1 H2.
    destruct (Ascii.compare a b) eqn:E1, (Ascii.compare b d) eqn:E2; try done.
    + rewrite (cmp_eq_trans (λ _, True) Ascii.compare a b d) by done. by apply (IH y z).
    + rewrite (cmp_le_lt_trans (λ _, True) Ascii.compare a b d) by (done || congruence). done.
    + rewrite (cmp_lt_le_trans (λ _, True) Ascii.compare a b d) by (done || congruence). done.
    + rewrite (cmp_lt_le_trans (λ _, True) Ascii.compare a b d) by (done || congruence). done.
Qed.

Lemma str_cmp_eq a b : str_cmp a b = Eq ↔ a = b.
Proof.
  split; [apply String.compare_eq_iff |].
  intros ->. by apply (cmp_refl (λ _, True) str_cmp).
Qed.

#[export] Instance Z_total : TotalCmp (λ _, True) Z.compare.
Proof.
  split.
  - intros. apply Z.compare_antisym.
  - intros x y z _ _ _. rewrite !Z.compare_le_iff. lia.
Qed.

(** *** Insertion sort implements the interface *)

Section insertion.
Context {A : Type} (less : A → A → bool).

Lemma insert_back_perm x rp : insert_back less x rp ≡ₚ x :: rp.
Proof.
  induction rp as [|p ps IH]; simpl; [done|].
  destruct (less x p); [|done]. rewrite IH. apply Permutation_swap.
Qed.

Lemma insert_back_sorted x rp :
  strict_weak_on less (x :: rp) →
  StronglySorted (λ a b, less a b = false) rp →
  StronglySorted (λ a b, less a b = false) (insert_back less x rp).
Proof.
  intros Hw. induction rp as [|p ps IH]; simpl; intros Hs.
  { by repeat constructor. }
  apply StronglySorted_inv in Hs as [Hs Hp].
  destruct (less x p) eqn:E.
  - constructor.
    + apply IH; [|done]. revert Hw. apply strict_weak_on_mono. set_solver.
    + apply Forall_forall. intros q. rewrite insert_back_perm, elem_of_cons.
      intros [->|Hq]; [|by eapply Forall_forall in Hp].
      destruct (less p x) eqn:E'; [|done].
      rewrite <-(swo_irrefl _ _ Hw x) by set_solver.
      symmetry. apply (swo_trans _ _ Hw x p x); set_solver.
  - constructor; [by constructor|]. constructor; [done|].
    apply Forall_forall. intros q Hq. eapply Forall_forall in Hp; [|done].
    apply (swo_neg_trans _ _ Hw x p q); set_solver.
Qed.

Lemma fold_insert_perm l rp :
  fold_left (λ rp x, insert_back less x rp) l rp ≡ₚ l ++ rp.
Proof.
  revert rp. induction l as [|x l IH]; simpl; intros rp; [done|].
  rewrite IH, insert_back_perm. by rewrite Permutation_middle.
Qed.

Lemma fold_insert_sorted l rp :
  strict_weak_on less (l ++ rp) →
  StronglySorted (λ a b, less a b = false) rp →
  StronglySorted (λ a b, less a b = false)
    (fold_left (λ rp x, insert_back less x rp) l rp).
Proof.
  revert rp. induction l as [|x l IH]; simpl; intros rp Hw Hs; [done|].
  assert (∀ y, y ∈ insert_back less x rp → y ∈ x :: rp) as Hin.
  { intros y. by rewrite insert_back_perm. }
  apply IH.
  - revert Hw. apply strict_weak_on_mono. set_solver.
  - apply insert_back_sorted; [|done]. revert Hw. apply strict_weak_on_mono. set_solver.
Qed.
End insertion.

Lemma StronglySorted_reverse {A} (R : A → A → Prop) (l : list A) :
  StronglySorted R l → StronglySorted (λ a b, R b a) (reverse l).
Proof.
  induction 1 as [|x l _ IH HF]; [constructor|].
  rewrite reverse_cons. apply StronglySorted_app. split_and!.
  - intros a b Ha Hb. rewrite elem_of_reverse in Ha. apply list_elem_of_singleton in Hb as ->.
    rewrite Forall_forall in HF. by apply HF.
  - done.
  - repeat constructor.
Qed.

#[export, program] Instance insertion_sorter : SliceSorter := {
  sort_slice := @insertion_sort;
}.
Next Obligation.
  intros A less l. unfold insertion_sort. rewrite reverse_Permutation, fold_insert_perm.
  by rewrite app_nil_r.
Qed.
Next Obligation.
  intros A less l Hw. unfold insertion_sort, sorted_by.
  apply (StronglySorted_reverse (λ a b, less a b = false)), fold_insert_sorted;
    [by rewrite app_nil_r | constructor].
Qed.

(** *** What clients use *)

Section clients.
Context `{!SliceSorter} {A : Type} (P : A → Prop) (c : A → A → comparison).
Context `{!TotalCmp P c}.

Lemma sort_slice_of_sorted (l : list A) :
  Forall P l → sorted_by (less_of c) (sort_slice (less_of c) l).
Proof. intros. by apply sort_slice_sorted, (less_of_swo P). Qed.

(** The sorted slice does not depend on the input order when no two
    elements of it compare equal, nor on the sorting algorithm. *)
Lemma sort_slice_unique (l k : list A) :
  Forall P l → l ≡ₚ k →
  (∀ x y, x ∈ l → y ∈ l → c x y = Eq → x = y) →
  sort_slice (less_of c) l = sort_slice (less_of c) k.
Proof.
  intros HP Hlk Huniq.
  apply (StronglySorted_unique_strong (λ a b, less_of c b a = false)).
  - intros x y. rewrite sort_slice_perm, sort_slice_perm, <-Hlk.
    intros Hx Hy. unfold less_of. rewrite Forall_forall in HP.
    rewrite (cmp_antisym P c x y) by auto.
    destruct (c x y) eqn:E; simpl; try done. by auto.
  - by apply sort_slice_of_sorted.
  - apply sort_slice_of_sorted. by rewrite <-Hlk.
  - by rewrite !sort_slice_perm.
Qed.

(** The first [n] of a sorted slice precede every element left out. *)
Lemma sorted_take_before n (l : list A) x y :
  sorted_by (less_of c) l → x ∈ take n l → y ∈ drop n l → less_of c y x = false.
Proof.
  intros Hs Hx Hy. rewrite <-(take_drop n l) in Hs.
  by apply (StronglySorted_app_1_elem_of _ _ _ _ _ Hs).
Qed.
End clients.

Lemma sorted_by_take {A} (less : A → A → bool) n (l : list A) :
  sorted_by less l → sorted_by less (take n l).
Proof.
  intros Hs. rewrite <-(take_drop n l) in Hs. by apply StronglySorted_app_1_l in Hs.
Qed.

(** Replacing a comparison function by one equal to it. *)
Lemma insertion_sort_ext {A} (f g : A → A → bool) l :
  (∀ x y, f x y = g x y) → insertion_sort f l = insertion_sort g l.
Proof.
  intros H. unfold insertion_sort. f_equal. generalize (@nil A).
  induction l as [|x l IH]; simpl; intros rp; [done|].
  assert (insert_back f x rp = insert_back g x rp) as ->; [|apply IH].
  induction rp as [|p ps IHp]; simpl; [done|]. by rewrite H, IHp.
Qed.

(** *** Comparison functions written test by test

    [less] agrees with a three-way comparison on the elements the code sorts. *)

Lemma StronglySorted_elem_mono {A} (R R' : A → A → Prop) (l : list A) :
  (∀ x y, x ∈ l → y ∈ l → R x y → R' x y) → StronglySorted R l → StronglySorted R' l.
Proof.
  intros HR. induction 1 as [|x l Hs IH Hx]; constructor.
  - apply IH. intros y z Hy Hz. apply HR; by right.
  - rewrite Forall_forall in Hx |- *. intros y Hy. apply HR; [by left|by right|by apply Hx].
Qed.

Section written.
Context {A : Type} (P : A → Prop) (c : A → A → comparison) `{!TotalCmp P c}.
Context (less : A → A → bool).
Hypothesis less_spec : ∀ x y, P x → P y → less x y = less_of c x y.

Lemma written_swo l : Forall P l → strict_weak_on less l.
Proof.
  intros HP. destruct (less_of_swo P c l _ HP) as [H1 H2 H3]. rewrite Forall_forall in HP. split.
  - intros x Hx. rewrite less_spec by auto. by apply H1.
  - intros x y z ???. rewrite !less_spec by auto. by apply H2.
  - intros x y z ???. rewrite !less_spec by auto. by apply H3.
Qed.

Lemma written_sorted `{!SliceSorter} l : Forall P l → sorted_by less (sort_slice less l).
Proof. intros. by apply sort_slice_sorted, written_swo. Qed.

Lemma written_sorted_cmp l : Forall P l → sorted_by less l → sorted_by (less_of c) l.
Proof.
  intros HP. apply StronglySorted_elem_mono. rewrite Forall_forall in HP.
  intros x y Hx Hy. by rewrite less_spec by auto.
Qed.

(** Two orderings of the same elements, none of which compare equal, coincide:
    the result depends neither on the input order nor on the algorithm. *)
Lemma written_unique (l k : list A) :
  Forall P l → l ≡ₚ k → (∀ x y, x ∈ l → y ∈ l → c x y = Eq → x = y) →
  sorted_by less l → sorted_by less k → l = k.
Proof.
  intros HP Hlk Huniq Hl Hk.
  apply (StronglySorted_unique_strong (λ a b, less b a = false)); try done.
  rewrite Forall_forall in HP. intros x y Hx Hy. rewrite <-Hlk in Hy.
  rewrite !less_spec by auto. unfold less_of. rewrite (cmp_antisym P c x y) by auto.
  destruct (c x y) eqn:E; simpl; try done. by auto.
Qed.

Lemma written_sort_unique (S1 S2 : SliceSorter) (l k : list A) :
  Forall P l → l ≡ₚ k → (∀ x y, x ∈ l → y ∈ l → c x y = Eq → x = y) →
  @sort_slice S1 A less l = @sort_slice S2 A less k.
Proof.
  intros HP Hlk Huniq. assert (Forall P k) as HPk by (by rewrite <-Hlk). apply written_unique.
  - by rewrite sort_slice_perm.
  - by rewrite !sort_slice_perm.
  - intros x y. rewrite sort_slice_perm. by apply Huniq.
  - by apply written_sorted.
  - by apply written_sorted.
Qed.

(** The first [n] after sorting: in order, and nothing left out goes before them. *)
Lemma written_top `{!SliceSorter} n l :
  Forall P l →
  let s := sort_slice less l in
  take n s ++ drop n s ≡ₚ l ∧ sorted_by less (take n s) ∧
  (∀ x y, x ∈ take n s → y ∈ drop n s → less y x = false) ∧
  length (take n s) = min n (length l).
Proof.
  intros HP s. pose proof (written_sorted l HP) as Hs. fold s in Hs. split_and!.
  - rewrite take_drop. apply sort_slice_perm.
  - by apply sorted_by_take.
  - intros x y Hx Hy. rewrite <-(take_drop n s) in Hs.
    by apply (StronglySorted_app_1_elem_of _ _ _ _ _ Hs).
  - rewrite length_take. f_equal. subst s. by rewrite sort_slice_perm.
Qed.
End written.
