(* ===== verification/GoFloat.v ===== *)
(** * IEEE 754 binary64 as the code uses it

    Go's [float64] is the kernel-checked specification of binary64 of the
    standard library ([SpecFloat], precision 53, maximal exponent 1024), every
    operation rounded to nearest even.  The file adds the conversions from and
    to [int64], the [%.Nf] verbs of [fmt], and the order lemmas the sorted
    reports rely on.  No operation is fused (the amd64 code generator does not
    contract [x*y+z]). *)

From stdpp Require Import base list strings pretty.
From Stdlib Require Import ZArith Lia SpecFloat Ascii.
From S2P Require Import Prelude GoSort.

Definition float : Type := spec_float.

Definition fadd : float → float → float := SFadd 53 1024.
Definition fsub : float → float → float := SFsub 53 1024.
Definition fmul : float → float → float := SFmul 53 1024.
Definition fdiv : float → float → float := SFdiv 53 1024.
Definition fopp : float → float := SFopp.
Definition fabs : float → float := SFabs.
Definition feqb : float → float → bool := SFeqb.
Definition fltb : float → float → bool := SFltb.
Definition fleb : float → float → bool := SFleb.

(** [a > b] and [a >= b] are [b < a] and [b <= a]. *)
Definition fgtb (a b : float) : bool := fltb b a.
Definition fgeb (a b : float) : bool := fleb b a.

Definition fzero : float := S754_zero false.
Definition is_nan (f : float) : bool := match f with S754_nan => true | _ => false end.
Definition is_inf (f : float) : bool := match f with S754_infinity _ => true | _ => false end.

(** [float64(z)]: round to nearest even. *)
Definition f_of_Z (z : Z) : float := binary_normalize 53 1024 z 0 false.

(** A decimal constant [n/d] of the source, correctly rounded. *)
Definition f_of_ratio (n d : positive) : float :=
  let '(mz, ez, lz) := SFdiv_core_binary 53 1024 (Zpos n) 0 (Zpos d) 0 in
  binary_round_aux 53 1024 false mz ez lz.

Definition max_float64 : float := SFmax_float 53 1024.

(** The integer part, rounded toward zero; [None] for infinities and NaN. *)
Definition f_trunc (f : float) : option Z :=
  match f with
  | S754_zero _ => Some 0%Z
  | S754_finite s m e =>
      let a := if (0 <=? e)%Z then (Zpos m * 2 ^ e)%Z else (Zpos m / 2 ^ (- e))%Z in
      Some (if s then - a else a)%Z
  | _ => None
  end.

(** [int64(f)].  The language leaves the result open when the integer part does
    not fit: that value is the platform's, an argument here. *)
Class Platform := { oob_int64 : float → Z; oob_int64_range f : is_int64 (oob_int64 f) }.

(** amd64: the "integer indefinite" value of CVTTSD2SQ. *)
#[program] Definition amd64 : Platform := {| oob_int64 := λ _, int64_min |}.
Next Obligation. unfold is_int64, int64_min, int64_max. lia. Qed.

(** arm64: FCVTZS saturates, and gives 0 for NaN. *)
#[program] Definition arm64 : Platform := {|
  oob_int64 := λ f, if is_nan f then 0%Z
                    else if fltb f fzero then int64_min else int64_max |}.
Next Obligation.
  intros f. unfold is_int64, int64_min, int64_max. split_ifs; simpl; lia.
Qed.

Definition f_to_int64 `{Platform} (f : float) : Z :=
  match f_trunc f with
  | Some z => if (int64_min <=? z)%Z && (z <=? int64_max)%Z then z else oob_int64 f
  | None => oob_int64 f
  end.

(** ** [fmt]: the verbs %.Nf and %+.Nf *)

Fixpoint zeros (n : nat) : string :=
  match n with O => "" | S n => String "0"%char (zeros n) end.

Definition pad_zeros (n : nat) (s : string) : string :=
  (zeros (n - String.length s) +:+ s)%string.

(** [m * 2^e * 10^n] rounded to an integer, halves to even. *)
Definition scaled_digits (m : positive) (e : Z) (n : nat) : Z :=
  let p := (Zpos m * 10 ^ Z.of_nat n)%Z in
  if (0 <=? e)%Z then (p * 2 ^ e)%Z
  else
    let d := (2 ^ (- e))%Z in
    let q := (p / d)%Z in
    let r := (p mod d)%Z in
    match (2 * r ?= d)%Z with
    | Lt => q
    | Gt => (q + 1)%Z
    | Eq => if Z.even q then q else (q + 1)%Z
    end.

Definition fixed_digits (m : positive) (e : Z) (n : nat) : string :=
  let v := scaled_digits m e n in
  let k := (10 ^ Z.of_nat n)%Z in
  match n with
  | O => pretty v
  | _ => (pretty (v / k)%Z +:+ "." +:+ pad_zeros n (pretty (v mod k)%Z))%string
  end.

(** The text of [|f|], without a sign. *)
Definition abs_text (n : nat) (f : float) : string :=
  match f with
  | S754_zero _ => (match n with O => "0" | _ => "0." +:+ zeros n end)%string
  | S754_infinity _ => "Inf"
  | S754_nan => "NaN"
  | S754_finite _ m e => fixed_digits m e n
  end.

Definition f_sign (f : float) : bool :=
  match f with
  | S754_zero s | S754_infinity s | S754_finite s _ _ => s
  | S754_nan => false
  end.

(** [fmt.Sprintf("%.<n>f", f)]; an infinity always shows its sign. *)
Definition sprintf_f (n : nat) (f : float) : string :=
  ((if f_sign f then "-" else if is_inf f then "+" else "") +:+ abs_text n f)%string.

(** [fmt.Sprintf("%+.<n>f", f)]. *)
Definition sprintf_plus_f (n : nat) (f : float) : string :=
  ((if f_sign f then "-" else "+") +:+ abs_text n f)%string.

(** [fmt.Sprintf("%d", z)] and [strconv.Itoa]. *)
Definition itoa (z : Z) : string := pretty z.

(** ** Order *)

Definition not_nan (f : float) : Prop := is_nan f = false.
#[export] Instance not_nan_dec f : Decision (not_nan f) := _.

(** The comparison of two numbers; NaN compares equal to everything here and is
    excluded by the lemmas. *)
Definition f_cmp (x y : float) : comparison := default Eq (SFcompare x y).

(** Nonnegative (either zero counts) and not NaN. *)
Definition f_nonneg (f : float) : Prop := fleb fzero f = true.

(** A key that orders the floats: the class of the number, then exponent and
    mantissa, mirrored for negative numbers. *)
Definition f_key (f : float) : Z * (Z * Z) :=
  match f with
  | S754_infinity true => (-2, (0, 0))
  | S754_finite true m e => (-1, (- e, Zneg m))
  | S754_zero _ | S754_nan => (0, (0, 0))
  | S754_finite false m e => (1, (e, Zpos m))
  | S754_infinity false => (2, (0, 0))
  end%Z.

Definition key_cmp : Z * (Z * Z) → Z * (Z * Z) → comparison :=
  cmp_lex (cmp_on fst Z.compare)
    (cmp_lex (cmp_on (λ k, k.2.1) Z.compare) (cmp_on (λ k, k.2.2) Z.compare)).

#[export] Instance key_cmp_total : TotalCmp (λ _, True) key_cmp.
Proof.
  apply cmp_lex_total; [| apply cmp_lex_total];
    by apply (cmp_on_total _ (λ _, True)); auto using Z_total.
Qed.

Lemma SFcompare_key x y :
  not_nan x → not_nan y → SFcompare x y = Some (key_cmp (f_key x) (f_key y)).
Proof.
  destruct x as [sx|sx| |sx mx ex], y as [sy|sy| |sy my ey];
    intros Hx Hy; try discriminate;
    repeat match goal with s : bool |- _ => destruct s end; try reflexivity;
    unfold key_cmp, cmp_lex, cmp_on, SFcompare, f_key; cbn [fst snd].
  rewrite (Z.compare_opp ex ey), (Z.compare_antisym ex ey).
  by destruct (ex ?= ey)%Z.
Qed.

Lemma f_cmp_key x y : not_nan x → not_nan y → f_cmp x y = key_cmp (f_key x) (f_key y).
Proof. intros. unfold f_cmp. by rewrite SFcompare_key. Qed.

#[export] Instance f_cmp_total : TotalCmp not_nan f_cmp.
Proof.
  split.
  - intros x y Hx Hy. rewrite !f_cmp_key by done.
    by apply (cmp_antisym (λ _, True) key_cmp).
  - intros x y z Hx Hy Hz. rewrite !f_cmp_key by done.
    by apply (cmp_trans (λ _, True) key_cmp).
Qed.

Lemma fltb_cmp x y : not_nan x → not_nan y → fltb x y = less_of f_cmp x y.
Proof.
  intros. unfold fltb, SFltb, less_of, f_cmp. by rewrite SFcompare_key.
Qed.

Lemma feqb_cmp x y :
  not_nan x → not_nan y → feqb x y = match f_cmp x y with Eq => true | _ => false end.
Proof. intros. unfold feqb, SFeqb, f_cmp. by rewrite SFcompare_key. Qed.

Lemma fltb_not_nan x y : fltb x y = true → not_nan x ∧ not_nan y.
Proof.
  unfold fltb, SFltb, not_nan. by destruct x, y.
Qed.

Lemma fleb_not_nan x y : fleb x y = true → not_nan x ∧ not_nan y.
Proof. unfold fleb, SFleb, not_nan. by destruct x, y. Qed.

Lemma fltb_irrefl x : fltb x x = false.
Proof.
  destruct (is_nan x) eqn:E; [by destruct x|].
  rewrite fltb_cmp by done. unfold less_of. by rewrite (cmp_refl not_nan f_cmp).
Qed.

Lemma fltb_trans x y z : fltb x y = true → fltb y z = true → fltb x z = true.
Proof.
  intros H1 H2. destruct (fltb_not_nan _ _ H1), (fltb_not_nan _ _ H2).
  rewrite fltb_cmp in * by done. unfold less_of in *.
  destruct (f_cmp x y) eqn:E1, (f_cmp y z) eqn:E2; try done.
  by rewrite (cmp_lt_le_trans not_nan f_cmp x y z) by (done || congruence).
Qed.

Lemma fltb_fleb x y : fltb x y = true → fleb x y = true.
Proof. unfold fltb, fleb, SFltb, SFleb. by destruct (SFcompare x y) as [[]|]. Qed.

Lemma fleb_alt x y : not_nan x → not_nan y → fleb x y = negb (fltb y x).
Proof.
  intros. unfold fleb, fltb, SFleb, SFltb. rewrite !SFcompare_key by done.
  rewrite (cmp_antisym (λ _, True) key_cmp (f_key x) (f_key y)) by done.
  by destruct (key_cmp _ _).
Qed.

(** ** Signs of results *)

(** Nonnegative as a shape. *)
Lemma f_nonneg_shape f :
  f_nonneg f ↔ match f with
               | S754_zero _ | S754_infinity false | S754_finite false _ _ => True
               | _ => False end.
Proof. unfold f_nonneg, fleb, SFleb. destruct f as [[]|[]| |[] ? ?]; simpl; intuition discriminate. Qed.

Lemma shr_1_nonneg r : (0 <= shr_m r)%Z → (0 <= shr_m (shr_1 r))%Z.
Proof. by destruct r as [[|[]|] ? ?]; simpl; lia. Qed.

Lemma iter_shr_nonneg p r : (0 <= shr_m r)%Z → (0 <= shr_m (iter_pos shr_1 p r))%Z.
Proof. revert r. induction p; simpl; eauto using shr_1_nonneg. Qed.

Lemma shr_fexp_nonneg m e l : (0 <= m)%Z → (0 <= shr_m (shr_fexp 53 1024 m e l).1)%Z.
Proof.
  intros. unfold shr_fexp, shr.
  assert (0 <= shr_m (shr_record_of_loc m l))%Z by (by destruct l as [|[]]).
  destruct (_ - _)%Z; simpl; auto using iter_shr_nonneg.
Qed.

Lemma round_ne_nonneg m l : (0 <= m)%Z → (0 <= round_nearest_even m l)%Z.
Proof. destruct l as [|[]]; simpl; try lia. destruct (Z.even m); lia. Qed.

(** Rounding a nonnegative mantissa keeps the sign and never yields NaN. *)
Lemma round_aux_sign s m e l :
  (0 <= m)%Z →
  match binary_round_aux 53 1024 s m e l with
  | S754_zero s' | S754_infinity s' | S754_finite s' _ _ => s' = s
  | S754_nan => False
  end.
Proof.
  intros Hm. unfold binary_round_aux.
  pose proof (shr_fexp_nonneg m e l Hm) as H1.
  destruct (shr_fexp 53 1024 m e l) as [r1 e1]. simpl in H1.
  pose proof (shr_fexp_nonneg _ e1 loc_Exact
                (round_ne_nonneg _ (loc_of_shr_record r1) H1)) as H2.
  destruct (shr_fexp 53 1024 _ e1 loc_Exact) as [r2 e2]. simpl in H2.
  destruct (shr_m r2); [done| by destruct (_ <=? _)%Z | lia].
Qed.

Lemma div_core_nonneg m1 e1 m2 e2 :
  (0 <= (SFdiv_core_binary 53 1024 (Zpos m1) e1 (Zpos m2) e2).1.1)%Z.
Proof.
  unfold SFdiv_core_binary.
  set (m' := match (_ - _ - _)%Z with Z0 => _ | _ => _ end).
  assert (0 <= m')%Z.
  { subst m'. destruct (_ - _ - _)%Z; try lia. apply Z.shiftl_nonneg. lia. }
  pose proof (Z_div_mod m' (Zpos m2) ltac:(lia)) as Hd.
  destruct (Z.div_eucl m' (Zpos m2)) as [q r]. simpl. nia.
Qed.

Lemma fdiv_nonneg x y :
  f_nonneg x → f_nonneg y → fltb fzero y = true → is_inf x = false → f_nonneg (fdiv x y).
Proof.
  rewrite !f_nonneg_shape. intros Hx Hy Hlt Hi. unfold fdiv, SFdiv.
  destruct x as [[]|[]| |[] mx ex], y as [[]|[]| |[] my ey]; try done.
  pose proof (div_core_nonneg mx ex my ey) as Hm.
  destruct (SFdiv_core_binary _ _ _ _ _ _) as [[mz ez] lz]. simpl in Hm.
  pose proof (round_aux_sign false mz ez lz Hm) as Hs. simpl.
  destruct (binary_round_aux 53 1024 false mz ez lz) as [?|[]| |[] ? ?]; done.
Qed.

Lemma fmul_nonneg x y :
  f_nonneg x → f_nonneg y → is_inf x = false → is_inf y = false → f_nonneg (fmul x y).
Proof.
  rewrite !f_nonneg_shape. intros Hx Hy Hi Hj. unfold fmul, SFmul.
  destruct x as [[]|[]| |[] mx ex], y as [[]|[]| |[] my ey]; try done.
  pose proof (round_aux_sign false (Zpos (mx * my)) (ex + ey) loc_Exact ltac:(lia)) as Hs.
  simpl. destruct (binary_round_aux _ _ _ _ _ _) as [?|[]| |[] ? ?]; done.
Qed.

(** The sign of a normalized integer mantissa, whatever the exponent. *)
Lemma normalize_sign z e :
  match binary_normalize 53 1024 z e false with
  | S754_zero s | S754_infinity s | S754_finite s _ _ => s = true → (z < 0)%Z
  | S754_nan => False
  end.
Proof.
  unfold binary_normalize. destruct z as [|p|p]; [done| |];
    unfold binary_round; destruct (shl_align _ _ _) as [mz ez];
    pose proof (round_aux_sign false (Zpos mz) ez loc_Exact ltac:(lia)) as H1;
    pose proof (round_aux_sign true (Zpos mz) ez loc_Exact ltac:(lia)) as H2.
  - destruct (binary_round_aux 53 1024 false _ _ _); try done; by subst.
  - destruct (binary_round_aux 53 1024 true _ _ _); done || (intros; lia).
Qed.

Lemma f_of_Z_sign z :
  match f_of_Z z with
  | S754_zero s | S754_infinity s | S754_finite s _ _ => s = true → (z < 0)%Z
  | S754_nan => False
  end.
Proof. apply normalize_sign. Qed.

Lemma f_of_Z_not_nan z : not_nan (f_of_Z z).
Proof. unfold not_nan. pose proof (f_of_Z_sign z). by destruct (f_of_Z z). Qed.

Lemma f_of_Z_nonneg z : (0 <= z)%Z → f_nonneg (f_of_Z z).
Proof.
  intros. rewrite f_nonneg_shape. pose proof (f_of_Z_sign z) as Hs.
  destruct (f_of_Z z) as [|[]| |[] ? ?]; try done; specialize (Hs eq_refl); lia.
Qed.

Lemma f_trunc_nonneg f z : f_nonneg f → f_trunc f = Some z → (0 <= z)%Z.
Proof.
  rewrite f_nonneg_shape. destruct f as [[]|[]| |[] m e]; try done; simpl;
    intros _ [= <-]; try lia.
  case_match; [apply Z.mul_nonneg_nonneg | apply Z.div_pos]; lia.
Qed.

Lemma f_to_int64_range `{Platform} f : is_int64 (f_to_int64 f).
Proof.
  unfold f_to_int64. destruct (f_trunc f); [|apply oob_int64_range].
  case_match; [|apply oob_int64_range].
  unfold is_int64. bool_to_prop. lia.
Qed.

(** ** Conversions of [int64] are finite *)

Lemma digits2_lb p : (2 ^ (Zpos (digits2_pos p) - 1) <= Zpos p)%Z.
Proof.
  induction p as [p IH|p IH|]; simpl digits2_pos; [| |by vm_compute];
    rewrite Pos2Z.inj_succ, Z.sub_1_r, Z.pred_succ;
    replace (Zpos (digits2_pos p)) with (Z.succ (Zpos (digits2_pos p) - 1)) by lia;
    rewrite Z.pow_succ_r by lia; lia.
Qed.

Lemma digits2_ub p : (Zpos p < 2 ^ Zpos (digits2_pos p))%Z.
Proof.
  induction p as [p IH|p IH|]; simpl digits2_pos; [| |by vm_compute];
    rewrite Pos2Z.inj_succ, Z.pow_succ_r by lia; lia.
Qed.

Lemma digits2_le p k : (0 <= k)%Z → (Zpos p < 2 ^ k)%Z → (Zpos (digits2_pos p) <= k)%Z.
Proof.
  intros Hk Hp. pose proof (digits2_lb p).
  assert (Zpos (digits2_pos p) - 1 < k)%Z; [|lia].
  apply (Z.pow_lt_mono_r_iff 2); lia.
Qed.

Lemma shr_1_le r : (0 <= shr_m r)%Z → (shr_m (shr_1 r) <= shr_m r)%Z.
Proof. by destruct r as [[|[]|] ? ?]; simpl; lia. Qed.

Lemma iter_shr_le p r : (0 <= shr_m r)%Z → (shr_m (iter_pos shr_1 p r) <= shr_m r)%Z.
Proof.
  revert r. induction p as [p IH|p IH|]; simpl; intros r Hr; [| |by apply shr_1_le].
  - pose proof (shr_1_nonneg r Hr). pose proof (shr_1_le r Hr).
    pose proof (iter_shr_nonneg p (shr_1 r)).
    pose proof (IH (shr_1 r)). pose proof (IH (iter_pos shr_1 p (shr_1 r))). lia.
  - pose proof (iter_shr_nonneg p r).
    pose proof (IH r). pose proof (IH (iter_pos shr_1 p r)). lia.
Qed.

(** One rounding step of a mantissa below [2^k] at exponent [e]. *)
Lemma shr_fexp_bound m e k :
  (0 <= m < 2 ^ k)%Z → (53 <= k)%Z → (-1000 <= e)%Z →
  (0 <= shr_m (shr_fexp 53 1024 m e loc_Exact).1 <= m)%Z ∧
  (e <= (shr_fexp 53 1024 m e loc_Exact).2 <= e + (k - 53))%Z.
Proof.
  intros Hm Hk He.
  pose proof (shr_fexp_nonneg m e loc_Exact ltac:(lia)) as Hn. revert Hn.
  unfold shr_fexp, shr, shr_record_of_loc, fexp, emin.
  assert (Zdigits2 m <= k)%Z as Hd.
  { destruct m as [|p|p]; simpl; try lia. apply digits2_le; lia. }
  destruct (Z.max _ _ - e)%Z as [|p|p] eqn:E; simpl; intros Hn; try lia.
  split; [split; [done|]|].
  - by apply (iter_shr_le p {| shr_m := m; shr_r := false; shr_s := false |}); simpl; lia.
  - lia.
Qed.

Lemma iter_xO p m : (Zpos (Pos.iter xO m p) = Zpos m * 2 ^ Zpos p)%Z.
Proof.
  induction p using Pos.peano_ind; [simpl; lia|].
  rewrite Pos.iter_succ, Pos2Z.inj_succ, Z.pow_succ_r by lia.
  rewrite Pos2Z.inj_xO, IHp. lia.
Qed.

Lemma shl_align_bound mx e k :
  (Zpos mx < 2 ^ k)%Z → (53 <= k)%Z → (-500 <= e)%Z →
  let r := shl_align mx e (fexp 53 1024 (Zpos (digits2_pos mx) + e)) in
  (Zpos r.1 < 2 ^ k)%Z ∧ (e - 53 <= r.2 <= e)%Z.
Proof.
  intros Hm Hk He. unfold shl_align, fexp, emin. simpl.
  pose proof (digits2_ub mx) as Hub. pose proof (digits2_le mx k ltac:(lia) Hm).
  destruct (Z.max _ _ - e)%Z as [|p|p] eqn:E; simpl; try (split; [done|lia]).
  assert (Zpos p = 53 - Zpos (digits2_pos mx))%Z as Hp by lia. split; [|lia].
  assert (Zpos (Pos.iter xO mx p) = Zpos mx * 2 ^ Zpos p)%Z as ->.
  { apply iter_xO. }
  assert (Zpos mx * 2 ^ Zpos p < 2 ^ Zpos (digits2_pos mx) * 2 ^ Zpos p)%Z as Hlt.
  { apply Z.mul_lt_mono_pos_r; lia. }
  rewrite <-Z.pow_add_r in Hlt by lia. rewrite Hp in Hlt at 2.
  replace (Zpos (digits2_pos mx) + (53 - Zpos (digits2_pos mx)))%Z with 53%Z in Hlt by lia.
  assert (2 ^ 53 <= 2 ^ k)%Z by (apply Z.pow_le_mono_r; lia). lia.
Qed.

(** The shape of a rounded mantissa below [2^k]: never infinite. *)
Definition bounded_shape (k lo hi : Z) (f : float) : Prop :=
  match f with
  | S754_finite _ m e => (Zpos m < 2 ^ k)%Z ∧ (lo <= e <= hi)%Z
  | S754_zero _ => True
  | _ => False
  end.

Lemma binary_round_shape s mx e k :
  (Zpos mx < 2 ^ k)%Z → (53 <= k <= 300)%Z → (-400 <= e <= 130)%Z →
  bounded_shape (k + 1) (e - 53) (e + 2 * k) (binary_round 53 1024 s mx e).
Proof.
  intros Hm Hk He. unfold binary_round.
  pose proof (shl_align_bound mx e k Hm ltac:(lia) ltac:(lia)) as [H1 H2].
  destruct (shl_align _ _ _) as [mz ez]. simpl in H1, H2.
  unfold binary_round_aux.
  pose proof (shr_fexp_bound (Zpos mz) ez k ltac:(lia) ltac:(lia) ltac:(lia)) as [B1 B2].
  destruct (shr_fexp 53 1024 (Zpos mz) ez loc_Exact) as [r1 e1]. simpl in B1, B2.
  set (m2 := round_nearest_even _ _).
  assert (0 <= m2 < 2 ^ (k + 1))%Z.
  { subst m2. rewrite Z.pow_add_r by lia. unfold round_nearest_even.
    destruct (loc_of_shr_record r1) as [|[]]; try lia. destruct (Z.even _); lia. }
  pose proof (shr_fexp_bound m2 e1 (k + 1) ltac:(lia) ltac:(lia) ltac:(lia)) as [C1 C2].
  destruct (shr_fexp 53 1024 m2 e1 loc_Exact) as [r2 e2]. simpl in C1, C2.
  destruct (shr_m r2) eqn:Er; simpl; try done; [|lia].
  destruct (Z.leb_spec e2 (1024 - 53)); simpl; lia.
Qed.

Lemma normalize_shape z e k :
  (Z.abs z < 2 ^ k)%Z → (53 <= k <= 300)%Z → (-400 <= e <= 130)%Z →
  bounded_shape (k + 1) (e - 53) (e + 2 * k) (binary_normalize 53 1024 z e false).
Proof. intros. destruct z; [done| |]; simpl; apply binary_round_shape; lia. Qed.

Lemma bounded_shape_finite k lo hi f : bounded_shape k lo hi f → is_inf f = false.
Proof. by destruct f. Qed.

Lemma f_of_Z_shape z : is_int64 z → bounded_shape 65 (-53) 128 (f_of_Z z).
Proof.
  unfold is_int64, int64_min, int64_max, f_of_Z. intros Hz.
  apply (normalize_shape z 0 64); lia.
Qed.

Lemma f_of_Z_finite z : is_int64 z → is_inf (f_of_Z z) = false.
Proof. intros. by eapply bounded_shape_finite, f_of_Z_shape. Qed.

Lemma shl_align_to m e e' :
  (e' <= e)%Z → (Zpos (shl_align m e e').1 = Zpos m * 2 ^ (e - e'))%Z.
Proof.
  intros He. unfold shl_align. destruct (e' - e)%Z as [|p|p] eqn:E; [|lia|].
  - replace (e - e')%Z with 0%Z by lia. simpl. lia.
  - simpl. rewrite iter_xO. f_equal. f_equal. lia.
Qed.

(** The difference of two converted [int64]s does not overflow. *)
Lemma fsub_int64_finite a b :
  is_int64 a → is_int64 b → is_inf (fsub (f_of_Z a) (f_of_Z b)) = false.
Proof.
  intros Ha%f_of_Z_shape Hb%f_of_Z_shape. unfold fsub, SFsub.
  destruct (f_of_Z a) as [sa|sa| |sa ma ea], (f_of_Z b) as [sb|sb| |sb mb eb]; try done.
  - by destruct sa, sb.
  - simpl in Ha, Hb. destruct Ha as [Ha1 Ha2], Hb as [Hb1 Hb2].
    set (ez := Z.min ea eb).
    pose proof (shl_align_to ma ea ez ltac:(lia)) as Ea.
    pose proof (shl_align_to mb eb ez ltac:(lia)) as Eb.
    assert (∀ m d, (0 < m < 2 ^ 65)%Z → (0 <= d <= 181)%Z → (0 < m * 2 ^ d < 2 ^ 246)%Z) as B.
    { intros m d Hm Hd. assert (0 < 2 ^ d)%Z by (by apply Z.pow_pos_nonneg; lia).
      assert (2 ^ d <= 2 ^ 181)%Z by (apply Z.pow_le_mono_r; lia).
      split; [lia|]. apply Z.lt_le_trans with (2 ^ 65 * 2 ^ d)%Z;
        [apply Z.mul_lt_mono_pos_r; lia|].
      change (2 ^ 246)%Z with (2 ^ 65 * 2 ^ 181)%Z. apply Z.mul_le_mono_nonneg_l; lia. }
    pose proof (B (Zpos ma) (ea - ez)%Z ltac:(lia) ltac:(lia)) as Ba.
    pose proof (B (Zpos mb) (eb - ez)%Z ltac:(lia) ltac:(lia)) as Bb.
    rewrite <-Ea in Ba. rewrite <-Eb in Bb. clear Ea Eb B.
    eapply bounded_shape_finite, (normalize_shape _ ez 247); [|lia|].
    + change (2 ^ 247)%Z with (2 * 2 ^ 246)%Z.
      unfold cond_Zopp. destruct sa, sb; lia.
    + lia.
Qed.

Lemma digits2_shift p m : (Zpos (digits2_pos (Pos.iter xO m p)) = Zpos (digits2_pos m) + Zpos p)%Z.
Proof.
  induction p using Pos.peano_ind; [simpl; lia|].
  rewrite Pos.iter_succ, Pos2Z.inj_succ. cbn [digits2_pos]. rewrite Pos2Z.inj_succ, IHp. lia.
Qed.

(** Rounding a mantissa of 53 bits at its own exponent changes nothing. *)
Lemma round_aux_exact s m e :
  Zpos (digits2_pos m) = 53%Z → (-1074 <= e <= 971)%Z →
  binary_round_aux 53 1024 s (Zpos m) e loc_Exact = S754_finite s m e.
Proof.
  intros Hd He. unfold binary_round_aux.
  assert (shr_fexp 53 1024 (Zpos m) e loc_Exact = ({| shr_m := Zpos m; shr_r := false; shr_s := false |}, e)) as E.
  { unfold shr_fexp, fexp, emin. cbn [Zdigits2]. rewrite Hd.
    replace (Z.max (53 + e - 53) (3 - 1024 - 53) - e)%Z with 0%Z by lia. done. }
  rewrite E. cbn [loc_of_shr_record shr_m round_nearest_even]. rewrite E. cbn [shr_m].
  destruct (Z.leb_spec e (1024 - 53)); [done|lia].
Qed.

(** Integers below [2^53] are represented exactly. *)
Lemma f_of_Z_exact z : (Z.abs z < 2 ^ 53)%Z → f_trunc (f_of_Z z) = Some z.
Proof.
  assert (∀ s p, (Zpos p < 2 ^ 53)%Z → f_trunc (binary_round 53 1024 s p 0) = Some (if s then Zneg p else Zpos p)) as H.
  { intros s p Hp. pose proof (digits2_le p 53 ltac:(lia) Hp) as Hd. unfold binary_round, shl_align, fexp, emin.
    replace (Z.max (Zpos (digits2_pos p) + 0 - 53) (3 - 1024 - 53) - 0)%Z with (Zpos (digits2_pos p) - 53)%Z by lia.
    destruct (Zpos (digits2_pos p) - 53)%Z as [|k|k] eqn:E; [|lia|].
    - rewrite round_aux_exact by lia. cbn [f_trunc]. rewrite Z.leb_refl, Z.mul_1_r. by destruct s.
    - pose proof (digits2_shift k p) as Hs. rewrite round_aux_exact by lia. cbn [f_trunc].
      replace (Z.max _ _)%Z with (Zneg k) by lia. change (0 <=? Zneg k)%Z with false. cbn iota.
      rewrite iter_xO. change (- Zneg k)%Z with (Zpos k).
      rewrite Z.div_mul by (apply Z.pow_nonzero; lia). by destruct s. }
  intros Hz. unfold f_of_Z, binary_normalize. destruct z as [|p|p]; [done|by apply (H false)|by apply (H true)].
Qed.

Lemma f_to_int64_of_Z `{Platform} z : (Z.abs z < 2 ^ 53)%Z → f_to_int64 (f_of_Z z) = z.
Proof.
  intros Hz. unfold f_to_int64. rewrite f_of_Z_exact by done. unfold int64_min, int64_max.
  destruct (_ && _) eqn:E; [done|]. apply andb_false_iff in E as [E%Z.leb_gt|E%Z.leb_gt]; lia.
Qed.

(** The difference of two finite numbers is a number. *)
Lemma fsub_not_nan x y :
  not_nan x → not_nan y → is_inf x = false → is_inf y = false → not_nan (fsub x y).
Proof.
  unfold not_nan, fsub, SFsub. intros.
  destruct x as [sx|sx| |sx mx ex], y as [sy|sy| |sy my ey]; try done.
  - by destruct sx, sy.
  - pose proof (normalize_sign (cond_Zopp sx (Zpos (shl_align mx ex (Z.min ex ey)).1)
      - cond_Zopp sy (Zpos (shl_align my ey (Z.min ex ey)).1)) (Z.min ex ey)) as Hs.
    by destruct (binary_normalize _ _ _ _ _).
Qed.

#[export] Hint Resolve f_of_Z_not_nan f_of_Z_nonneg f_to_int64_range : go.

(** ** Reference values *)
Example sprintf_f_pos : sprintf_f 2 (f_of_ratio 85 100) = "0.85".
Proof. vm_compute. reflexivity. Qed.
Example sprintf_half_even : sprintf_f 0 (f_of_ratio 5 2) = "2".
Proof. vm_compute. reflexivity. Qed.
Example sprintf_plus : sprintf_plus_f 1 (fopp (f_of_ratio 1234 100)) = "-12.3".
Proof. vm_compute. reflexivity. Qed.
