(* ===== verification/GoText.v ===== *)
(** * Strings and times of the Go standard library, as the code uses them

    A Go string is a sequence of bytes: a [string] of the standard library.  An
    instant ([time.Time], [metav1.Time]) is its number of nanoseconds since the
    Unix epoch, a [Z]; a [time.Duration] is an [int64] count of nanoseconds. *)

From stdpp Require Import base list strings pretty.
From Stdlib Require Import ZArith Lia Ascii.
From S2P Require Import Prelude GoFloat.

Local Open Scope string_scope.

(** ** [strings] *)

Definition byte_of (a : ascii) : N := N_of_ascii a.
Definition chr (n : N) : ascii := ascii_of_N n.

Definition nl : string := String (chr 10) "".
Definition crlf : string := String (chr 13) nl.

(** The ASCII white space of [unicode.IsSpace]. *)
Definition is_space (a : ascii) : bool :=
  let n := byte_of a in ((9 <=? n) && (n <=? 13) || (n =? 32))%N.

(** The other runes of [unicode.IsSpace], in UTF-8. *)
Definition is_space2 (a b : ascii) : bool :=
  ((byte_of a =? 194) && ((byte_of b =? 133) || (byte_of b =? 160)))%N.
Definition is_space3 (a b c : ascii) : bool :=
  let x := byte_of a in let y := byte_of b in let z := byte_of c in
  ((x =? 225) && (y =? 154) && (z =? 128)
   || (x =? 226) && (y =? 128)
      && ((128 <=? z) && (z <=? 138) || (z =? 168) || (z =? 169) || (z =? 175))
   || (x =? 226) && (y =? 129) && (z =? 159)
   || (x =? 227) && (y =? 128) && (z =? 128))%N.

Fixpoint trim_left (s : string) : string :=
  match s with
  | String a r =>
      if is_space a then trim_left r
      else match r with
           | String b r2 =>
               if is_space2 a b then trim_left r2
               else match r2 with
                    | String c r3 => if is_space3 a b c then trim_left r3 else s
                    | "" => s
                    end
           | "" => s
           end
  | "" => ""
  end.

(** The same from the end, on the reversed bytes. *)
Fixpoint trim_rev (s : string) : string :=
  match s with
  | String a r =>
      if is_space a then trim_rev r
      else match r with
           | String b r2 =>
               if is_space2 b a then trim_rev r2
               else match r2 with
                    | String c r3 => if is_space3 c b a then trim_rev r3 else s
                    | "" => s
                    end
           | "" => s
           end
  | "" => ""
  end.

Definition trim_space (s : string) : string :=
  String.rev (trim_rev (String.rev (trim_left s))).

Fixpoint join (sep : string) (l : list string) : string :=
  match l with
  | [] => ""
  | [x] => x
  | x :: r => x +:+ sep +:+ join sep r
  end.

Definition has_prefix (s p : string) : bool := String.prefix p s.

Definition str_drop (n : nat) (s : string) : string := String.substring n (String.length s - n) s.
Definition str_take (n : nat) (s : string) : string := String.substring 0 n s.

Definition trim_prefix (s p : string) : string :=
  if has_prefix s p then str_drop (String.length p) s else s.

Definition has_suffix (s p : string) : bool := String.prefix (String.rev p) (String.rev s).

Definition trim_suffix (s p : string) : string :=
  if has_suffix s p then str_take (String.length s - String.length p) s else s.

Lemma str_take_app a b : str_take (String.length a) (a +:+ b) = a.
Proof.
  unfold str_take. induction a as [|c a IH]; rewrite ?string_app_cons; simpl.
  - by destruct b.
  - by rewrite IH.
Qed.

Lemma substring_all s n : (String.length s ≤ n)%nat → String.substring 0 n s = s.
Proof.
  revert n. induction s as [|c s IH]; intros [|n] Hn; simpl in *; try done; try lia.
  rewrite IH by lia. done.
Qed.

Lemma str_drop_app a b : str_drop (String.length a) (a +:+ b) = b.
Proof.
  unfold str_drop. rewrite string_length_app.
  replace (String.length a + String.length b - String.length a) with (String.length b) by lia.
  induction a as [|c a IH]; rewrite ?string_app_cons; simpl; [|done].
  by rewrite string_app_nil_l, substring_all.
Qed.

(** [strings.Split(s, sep)] for a one-byte separator. *)
Fixpoint split_on (sep : ascii) (s : string) : list string :=
  match s with
  | "" => [""]
  | String a r =>
      if (a =? sep)%char then "" :: split_on sep r
      else match split_on sep r with
           | [] => [String a ""]
           | x :: l => String a x :: l
           end
  end.

Fixpoint contains (s p : string) : bool :=
  String.prefix p s || match s with "" => false | String _ r => contains r p end.

(** [strings.Count(s, p)], [p] nonempty: non-overlapping occurrences. *)
Fixpoint count_fuel (fuel : nat) (s p : string) : nat :=
  match fuel, s with
  | S f, String _ r =>
      if String.prefix p s then S (count_fuel f (str_drop (String.length p) s) p)
      else count_fuel f r p
  | _, _ => 0
  end.
Definition count (s p : string) : nat := count_fuel (String.length s) s p.

Definition to_lower_ascii (a : ascii) : ascii :=
  let n := byte_of a in if ((65 <=? n) && (n <=? 90))%N then chr (n + 32) else a.

Fixpoint to_lower (s : string) : string :=
  match s with "" => "" | String a r => String (to_lower_ascii a) (to_lower r) end.

(** [strings.EqualFold]: exact as soon as one side is ASCII, which the kinds of
    owner references are.  The two non-ASCII runes that fold to an ASCII letter
    are the long s (C5 BF) and the Kelvin sign (E2 84 AA). *)
Fixpoint fold_ascii (s : string) : string :=
  match s with
  | "" => ""
  | String a r =>
      match r with
      | String b r2 =>
          if ((byte_of a =? 197) && (byte_of b =? 191))%N then String "s" (fold_ascii r2)
          else match r2 with
               | String c r3 =>
                   if ((byte_of a =? 226) && (byte_of b =? 132) && (byte_of c =? 170))%N
                   then String "k" (fold_ascii r3)
                   else String (to_lower_ascii a) (fold_ascii r)
               | "" => String (to_lower_ascii a) (fold_ascii r)
               end
      | "" => String (to_lower_ascii a) ""
      end
  end.
Definition equal_fold (a b : string) : bool := fold_ascii a =? fold_ascii b.

Definition bool_text (b : bool) : string := if b then "true" else "false".

(** [errors.Join]: nothing for no errors. *)
Definition join_errors (errs : list error) : option error :=
  match errs with
  | [] => None
  | _ => Some (mkError (join nl (map err_msg errs)) (existsb err_notfound errs) (existsb err_timeout errs))
  end.

(** ** [strconv.Atoi] and [strconv.ParseInt(s, 10, 64)] *)

Definition digit_of (a : ascii) : option Z :=
  let n := byte_of a in
  if ((48 <=? n) && (n <=? 57))%N then Some (Z.of_N (n - 48)%N) else None.

Fixpoint digits_of (acc : Z) (s : string) : option Z :=
  match s with
  | "" => Some acc
  | String a r => match digit_of a with Some d => digits_of (10 * acc + d)%Z r | None => None end
  end.

Definition unsigned_of (s : string) : option Z := if s =? "" then None else digits_of 0 s.

(** The value, or the text of the error: an optional sign and decimal digits, in the
    range of [int]. *)
Definition atoi (s : string) : Z + string :=
  let v :=
    match s with
    | String a r =>
        if (a =? "-")%char then option_map Z.opp (unsigned_of r)
        else if (a =? "+")%char then unsigned_of r else unsigned_of s
    | "" => None
    end in
  match v with
  | None => inr "invalid syntax"
  | Some z => if ((int64_min <=? z) && (z <=? int64_max))%Z then inl z else inr "value out of range"
  end.

(** ** [time] *)

Abbreviation time := Z (only parsing).
Abbreviation duration := Z (only parsing).

(** The zero [time.Time]: January 1, year 1. *)
Definition zero_time : time := (-62135596800 * second)%Z.

Definition t_unix (t : time) : Z := (t / second)%Z.
Definition t_add (t : time) (d : duration) : time := (t + d)%Z.
Definition t_before (a b : time) : bool := (a <? b)%Z.
Definition t_equal (a b : time) : bool := (a =? b)%Z.

(** [t.Sub(u)] saturates at the extreme durations. *)
Definition t_sub (t u : time) : duration := Z.max int64_min (Z.min int64_max (t - u)%Z).

(** [d.Seconds()]. *)
Definition duration_seconds (d : duration) : float :=
  fadd (f_of_Z (Z.quot d second)) (fdiv (f_of_Z (Z.rem d second)) (f_of_Z 1000000000)).

(** Year, month and day of a day number counted from 1970-01-01, in the
    proleptic Gregorian calendar. *)
Definition civil (days : Z) : Z * Z * Z :=
  let z := (days + 719468)%Z in
  let era := (z / 146097)%Z in
  let doe := (z mod 146097)%Z in
  let yoe := ((doe - doe / 1460 + doe / 36524 - doe / 146096) / 365)%Z in
  let doy := (doe - (365 * yoe + yoe / 4 - yoe / 100))%Z in
  let mp := ((5 * doy + 2) / 153)%Z in
  let d := (doy - (153 * mp + 2) / 5 + 1)%Z in
  let m := (if mp <? 10 then mp + 3 else mp - 9)%Z in
  let y := (yoe + era * 400 + (if m <=? 2 then 1 else 0))%Z in
  (y, m, d).

Definition pad_int (w : nat) (z : Z) : string :=
  if (z <? 0)%Z then "-" +:+ pad_zeros w (itoa (- z)) else pad_zeros w (itoa z).

(** [t.UTC().Format("2006-01-02")]. *)
Definition format_date (t : time) : string :=
  let '(y, m, d) := civil (t_unix t / 86400) in
  pad_int 4 y +:+ "-" +:+ pad_int 2 m +:+ "-" +:+ pad_int 2 d.

(** [t.UTC().Format(time.RFC3339)]. *)
Definition format_rfc3339 (t : time) : string :=
  let s := (t_unix t mod 86400)%Z in
  format_date t +:+ "T" +:+ pad_int 2 (s / 3600) +:+ ":"
    +:+ pad_int 2 (s / 60 mod 60) +:+ ":" +:+ pad_int 2 (s mod 60) +:+ "Z".

(** ** Lemmas *)

Lemma t_sub_exact t u : is_int64 (t - u)%Z → t_sub t u = (t - u)%Z.
Proof. unfold is_int64, t_sub. lia. Qed.

Lemma t_sub_range t u : is_int64 (t_sub t u).
Proof. unfold is_int64, t_sub, int64_min, int64_max. lia. Qed.

Example format_date_epoch : format_date 0%Z = "1970-01-01".
Proof. vm_compute. reflexivity. Qed.
Example format_rfc3339_leap : format_rfc3339 (1709251199 * second)%Z = "2024-02-29T23:59:59Z".
Proof. vm_compute. reflexivity. Qed.
Example trim_space_both : trim_space ("  a b" +:+ nl) = "a b".
Proof. vm_compute. reflexivity. Qed.
Example equal_fold_kind : equal_fold "deployment" "Deployment" = true.
Proof. vm_compute. reflexivity. Qed.

(** ** Lemmas: reversal and trimming *)

Lemma rev_app_append s t : String.rev_app s t = String.rev s +:+ t.
Proof.
  unfold String.rev. revert t. induction s as [|a s IH]; intros t; [done|]. simpl.
  rewrite IH, (IH (String a "")), <-string_app_assoc. done.
Qed.

Lemma rev_cons a s : String.rev (String a s) = String.rev s +:+ String a "".
Proof. unfold String.rev at 1. simpl. apply rev_app_append. Qed.

Lemma rev_append s t : String.rev (s +:+ t) = String.rev t +:+ String.rev s.
Proof.
  induction s as [|a s IH]; [by rewrite string_app_nil_l, string_app_nil_r|].
  by rewrite string_app_cons, !rev_cons, IH, string_app_assoc.
Qed.

Lemma rev_involutive s : String.rev (String.rev s) = s.
Proof. induction s as [|a s IH]; [done|]. by rewrite rev_cons, rev_append, IH. Qed.

(** A visible ASCII byte. *)
Definition visible (a : ascii) : bool := ((33 <=? byte_of a) && (byte_of a <? 128))%N.

Lemma visible_bounds a : visible a = true → (33 ≤ byte_of a < 128)%N.
Proof. intros [?%N.leb_le ?%N.ltb_lt]%andb_true_iff. done. Qed.

Lemma trim_left_visible a s : visible a = true → trim_left (String a s) = String a s.
Proof.
  intros Ha%visible_bounds. simpl.
  assert (is_space a = false) as -> by (unfold is_space; apply orb_false_iff; split;
    [apply andb_false_iff; right; apply N.leb_gt; lia|apply N.eqb_neq; lia]).
  destruct s as [|b s]; [done|].
  assert (is_space2 a b = false) as ->.
  { unfold is_space2. apply andb_false_iff. left. apply N.eqb_neq. lia. }
  destruct s as [|c s]; [done|].
  assert (∀ n, (128 ≤ n)%N → (byte_of a =? n)%N = false) as Hn by (intros; apply N.eqb_neq; lia).
  unfold is_space3. by rewrite !Hn by lia.
Qed.

Lemma trim_rev_visible a s : visible a = true → trim_rev (String a s) = String a s.
Proof.
  intros Ha%visible_bounds. simpl.
  assert (is_space a = false) as -> by (unfold is_space; apply orb_false_iff; split;
    [apply andb_false_iff; right; apply N.leb_gt; lia|apply N.eqb_neq; lia]).
  assert (∀ n, (128 ≤ n)%N → (byte_of a =? n)%N = false) as Hn by (intros; apply N.eqb_neq; lia).
  assert (∀ n, (128 ≤ n)%N → (n <=? byte_of a)%N = false) as Hl by (intros; apply N.leb_gt; lia).
  destruct s as [|b s]; [done|].
  assert (is_space2 b a = false) as -> by (unfold is_space2; rewrite !Hn by lia; by rewrite andb_false_r).
  destruct s as [|c s]; [done|].
  assert (is_space3 c b a = false) as -> by (unfold is_space3; rewrite !Hn, !Hl by lia;
    by rewrite ?andb_false_r, ?orb_false_r, ?andb_false_r).
  done.
Qed.

(** Text between two visible bytes is not trimmed. *)
Lemma trim_space_visible a s b :
  visible a = true → visible b = true → trim_space (String a (s +:+ String b "")) = String a (s +:+ String b "").
Proof.
  intros Ha Hb. unfold trim_space. rewrite trim_left_visible by done.
  rewrite <-(string_app_cons a s), rev_append. change (String.rev (String b "")) with (String b "").
  rewrite string_app_cons, trim_rev_visible by done. rewrite <-string_app_cons.
  change (String b "") with (String.rev (String b "")). by rewrite <-rev_append, rev_involutive.
Qed.

Lemma length_str_take n s : String.length (str_take n s) = min n (String.length s).
Proof.
  unfold str_take. revert n. induction s as [|a s IH]; intros [|n]; simpl; try done. by rewrite IH.
Qed.
