(* ===== verification/GoJson.v ===== *)
(** * JSON strings as encoding/json writes and reads them

    [json.Marshal] of a Go string (with HTML escaping, the default) and
    [json.Unmarshal] into one, with the UTF-8 rules of unicode/utf8 they follow.
    Reading back what was written gives the string, if it is valid UTF-8. *)

From stdpp Require Import base list strings.
From Stdlib Require Import ZArith Lia Ascii.
From S2P Require Import Prelude GoFloat GoText.

Local Open Scope string_scope.

(** ** UTF-8 *)

Definition in_range (lo hi : N) (a : ascii) : bool := ((lo <=? byte_of a) && (byte_of a <=? hi))%N.
Definition continuation (a : ascii) : bool := in_range 128 191 a.

(** The byte sequences of length 2, 3 and 4 that encode a rune. *)
Definition rune2 (a b : ascii) : bool := in_range 194 223 a && continuation b.
Definition rune3 (a b c : ascii) : bool :=
  (in_range 224 224 a && in_range 160 191 b
   || (in_range 225 236 a || in_range 238 239 a) && continuation b
   || in_range 237 237 a && in_range 128 159 b) && continuation c.
Definition rune4 (a b c d : ascii) : bool :=
  (in_range 240 240 a && in_range 144 191 b
   || in_range 241 243 a && continuation b
   || in_range 244 244 a && in_range 128 143 b) && continuation c && continuation d.

Definition is_ascii (a : ascii) : bool := (byte_of a <? 128)%N.

Fixpoint valid_utf8 (s : string) : bool :=
  match s with
  | "" => true
  | String a r =>
      if is_ascii a then valid_utf8 r
      else match r with
           | String b r2 =>
               if rune2 a b then valid_utf8 r2
               else match r2 with
                    | String c r3 =>
                        if rune3 a b c then valid_utf8 r3
                        else match r3 with
                             | String d r4 => rune4 a b c d && valid_utf8 r4
                             | "" => false
                             end
                    | "" => false
                    end
           | "" => false
           end
  end.

(** ** Writing *)

Definition quote_char : ascii := chr 34.
Definition backslash : ascii := chr 92.
Definition esc (s : string) : string := String backslash s.

Definition hex_digit (n : N) : ascii := if (n <? 10)%N then chr (48 + n) else chr (87 + n).

(** One ASCII byte. *)
Definition quote_ascii (a : ascii) : string :=
  let n := byte_of a in
  if (n =? 34)%N || (n =? 92)%N then esc (String a "")
  else if (n =? 8)%N then esc "b"
  else if (n =? 12)%N then esc "f"
  else if (n =? 10)%N then esc "n"
  else if (n =? 13)%N then esc "r"
  else if (n =? 9)%N then esc "t"
  else if (n <? 32)%N || (n =? 60)%N || (n =? 62)%N || (n =? 38)%N
  then esc ("u00" +:+ String (hex_digit (n / 16)) (String (hex_digit (n mod 16)) ""))
  else String a "".

(** U+2028 and U+2029. *)
Definition is_separator (a b c : ascii) : bool :=
  ((byte_of a =? 226) && (byte_of b =? 128) && ((byte_of c =? 168) || (byte_of c =? 169)))%N.

Definition bad_byte : string := esc "ufffd".

Fixpoint quote_body (s : string) : string :=
  match s with
  | "" => ""
  | String a r =>
      if is_ascii a then quote_ascii a +:+ quote_body r
      else match r with
           | String b r2 =>
               if rune2 a b then String a (String b (quote_body r2))
               else match r2 with
                    | String c r3 =>
                        if rune3 a b c then
                          (if is_separator a b c then esc ("u202" +:+ String (hex_digit (byte_of c mod 16)) "")
                           else String a (String b (String c ""))) +:+ quote_body r3
                        else match r3 with
                             | String d r4 =>
                                 if rune4 a b c d
                                 then String a (String b (String c (String d (quote_body r4))))
                                 else bad_byte +:+ quote_body r
                             | "" => bad_byte +:+ quote_body r
                             end
                    | "" => bad_byte +:+ quote_body r
                    end
           | "" => bad_byte +:+ quote_body r
           end
  end.

(** [json.Marshal(s)]. *)
Definition json_quote (s : string) : string :=
  String quote_char (quote_body s +:+ String quote_char "").

(** ** Reading *)

Definition hex_value (a : ascii) : option N :=
  let n := byte_of a in
  if in_range 48 57 a then Some (n - 48)%N
  else if in_range 97 102 a then Some (n - 87)%N
  else if in_range 65 70 a then Some (n - 55)%N
  else None.

Definition hex4 (a b c d : ascii) : option N :=
  match hex_value a, hex_value b, hex_value c, hex_value d with
  | Some a, Some b, Some c, Some d => Some (4096 * a + 256 * b + 16 * c + d)%N
  | _, _, _, _ => None
  end.

(** [utf8.AppendRune] of a code point that is not a surrogate. *)
Definition utf8_of (r : N) : string :=
  if (r <? 128)%N then String (chr r) ""
  else if (r <? 2048)%N then String (chr (192 + r / 64)) (String (chr (128 + r mod 64)) "")
  else if (r <? 65536)%N then
    String (chr (224 + r / 4096)) (String (chr (128 + r / 64 mod 64)) (String (chr (128 + r mod 64)) ""))
  else
    String (chr (240 + r / 262144)) (String (chr (128 + r / 4096 mod 64))
      (String (chr (128 + r / 64 mod 64)) (String (chr (128 + r mod 64)) ""))).

Definition replacement : string := utf8_of 65533.

Definition high_surrogate (r : N) : bool := ((55296 <=? r) && (r <? 56320))%N.
Definition low_surrogate (r : N) : bool := ((56320 <=? r) && (r <? 57344))%N.

(** The byte an escape other than [\u] stands for. *)
Definition simple_escape (a : ascii) : option ascii :=
  let n := byte_of a in
  if (n =? 34)%N || (n =? 92)%N || (n =? 47)%N then Some a
  else if (n =? 98)%N then Some (chr 8)
  else if (n =? 102)%N then Some (chr 12)
  else if (n =? 110)%N then Some (chr 10)
  else if (n =? 114)%N then Some (chr 13)
  else if (n =? 116)%N then Some (chr 9)
  else None.

(** The body of a string literal, up to a closing quote that ends the input. *)
Fixpoint unquote_body (s : string) : option string :=
  match s with
  | "" => None
  | String a r =>
      if (a =? quote_char)%char then match r with "" => Some "" | _ => None end
      else if (a =? backslash)%char then
        match r with
        | "" => None
        | String e r1 =>
            if (e =? "u")%char then
              match r1 with
              | String h1 (String h2 (String h3 (String h4 r5))) =>
                  match hex4 h1 h2 h3 h4 with
                  | None => None
                  | Some u =>
                      if high_surrogate u then
                        match r5 with
                        | String b1 (String e1 (String k1 (String k2 (String k3 (String k4 r11))))) =>
                            match (if (b1 =? backslash)%char && (e1 =? "u")%char
                                   then hex4 k1 k2 k3 k4 else None) with
                            | Some u2 =>
                                if low_surrogate u2 then
                                  option_map (String.append (utf8_of (65536 + (u - 55296) * 1024 + (u2 - 56320))%N))
                                    (unquote_body r11)
                                else option_map (String.append replacement) (unquote_body r5)
                            | None => option_map (String.append replacement) (unquote_body r5)
                            end
                        | _ => option_map (String.append replacement) (unquote_body r5)
                        end
                      else if low_surrogate u then option_map (String.append replacement) (unquote_body r5)
                      else option_map (String.append (utf8_of u)) (unquote_body r5)
                  end
              | _ => None
              end
            else
              match simple_escape e with
              | Some x => option_map (String x) (unquote_body r1)
              | None => None
              end
        end
      else if (byte_of a <? 32)%N then None
      else if is_ascii a then option_map (String a) (unquote_body r)
      else match r with
           | String b r2 =>
               if rune2 a b then option_map (λ t, String a (String b t)) (unquote_body r2)
               else match r2 with
                    | String c r3 =>
                        if rune3 a b c then option_map (λ t, String a (String b (String c t))) (unquote_body r3)
                        else match r3 with
                             | String d r4 =>
                                 if rune4 a b c d
                                 then option_map (λ t, String a (String b (String c (String d t)))) (unquote_body r4)
                                 else option_map (String.append replacement) (unquote_body r)
                             | "" => option_map (String.append replacement) (unquote_body r)
                             end
                    | "" => option_map (String.append replacement) (unquote_body r)
                    end
           | "" => option_map (String.append replacement) (unquote_body r)
           end
  end.

(** [json.Unmarshal] of an input without surrounding white space into a string that
    is empty before: a string literal, or [null], which leaves it empty; [None] is
    an error. *)
Definition json_unquote (s : string) : option string :=
  if s =? "null" then Some ""
  else match s with
       | String a r => if (a =? quote_char)%char then unquote_body r else None
       | "" => None
       end.

Example json_quote_demo :
  json_quote ("<a>" +:+ String quote_char nl) = String quote_char
    (esc "u003ca" +:+ esc "u003e" +:+ esc (String quote_char (esc "n")) +:+ String quote_char "").
Proof. vm_compute. reflexivity. Qed.

(** A surrogate pair (U+1F600), then a lone surrogate. *)
Example json_unquote_demo :
  json_unquote (String quote_char (esc "ud83d" +:+ esc "ude00" +:+ esc "ud83dx" +:+ String quote_char "")) =
  Some (String (chr 240) (String (chr 159) (String (chr 152) (String (chr 128) (replacement +:+ "x"))))).
Proof. vm_compute. reflexivity. Qed.

(** ** Lemmas *)

(** Induction along the runes of a valid string. *)
Lemma utf8_ind (P : string → Prop) :
  P "" →
  (∀ a r, is_ascii a = true → P r → P (String a r)) →
  (∀ a b r, is_ascii a = false → rune2 a b = true → P r → P (String a (String b r))) →
  (∀ a b c r, is_ascii a = false → rune2 a b = false → rune3 a b c = true → P r →
     P (String a (String b (String c r)))) →
  (∀ a b c d r, is_ascii a = false → rune2 a b = false → rune3 a b c = false → rune4 a b c d = true → P r →
     P (String a (String b (String c (String d r))))) →
  ∀ s, valid_utf8 s = true → P s.
Proof.
  intros H0 H1 H2 H3 H4. fix IH 1. intros [|a r]; [done|]. simpl.
  destruct (is_ascii a) eqn:Ea; [auto|]. destruct r as [|b r]; [done|].
  destruct (rune2 a b) eqn:E2; [auto|]. destruct r as [|c r]; [done|].
  destruct (rune3 a b c) eqn:E3; [auto|]. destruct r as [|d r]; [done|].
  intros [E4 Hv]%andb_true_iff. auto.
Qed.

Lemma unquote_ascii a r :
  is_ascii a = true → unquote_body (quote_ascii a +:+ r) = option_map (String a) (unquote_body r).
Proof.
  destruct a as [[] [] [] [] [] [] [] []]; intros Ha; try discriminate Ha; vm_compute (quote_ascii _); 
    reflexivity.
Qed.

Lemma unquote_separator a b c r :
  is_separator a b c = true →
  unquote_body (esc ("u202" +:+ String (hex_digit (byte_of c mod 16)) "") +:+ r) =
  option_map (λ t, String a (String b (String c t))) (unquote_body r).
Proof.
  unfold is_separator. intros [[Ha Hb]%andb_true_iff Hc]%andb_true_iff.
  assert (∀ x n, (byte_of x =? n)%N = true → x = chr n) as Hx.
  { intros x n E%N.eqb_eq. unfold chr. rewrite <-E. symmetry. apply ascii_N_embedding. }
  apply Hx in Ha, Hb. apply orb_true_iff in Hc as [Hc%Hx|Hc%Hx]; subst; reflexivity.
Qed.

(** The lead byte of a longer rune is not special to the reader. *)
Lemma lead_byte a :
  is_ascii a = false →
  (a =? quote_char)%char = false ∧ (a =? backslash)%char = false ∧ (byte_of a <? 32)%N = false.
Proof.
  destruct a as [[] [] [] [] [] [] [] []]; intros Ha; try discriminate Ha; by split_and!.
Qed.

Lemma unquote_quote_body s :
  valid_utf8 s = true → unquote_body (quote_body s +:+ String quote_char "") = Some s.
Proof.
  revert s. apply utf8_ind.
  - done.
  - intros a r Ha IH. simpl quote_body. rewrite Ha, <-string_app_assoc, unquote_ascii by done. by rewrite IH.
  - intros a b r Ha H2 IH. destruct (lead_byte a Ha) as (Hq & Hb & Hs).
    cbn [quote_body]. rewrite Ha, H2, !string_app_cons. cbn [unquote_body].
    by rewrite Hq, Hb, Hs, Ha, H2, IH.
  - intros a b c r Ha H2 H3 IH. destruct (lead_byte a Ha) as (Hq & Hb & Hs).
    cbn [quote_body]. rewrite Ha, H2, H3. destruct (is_separator a b c) eqn:Hsep.
    + rewrite <-string_app_assoc, (unquote_separator a b c) by done. by rewrite IH.
    + rewrite !string_app_cons, string_app_nil_l. cbn [unquote_body].
      by rewrite Hq, Hb, Hs, Ha, H2, H3, IH.
  - intros a b c d r Ha H2 H3 H4 IH. destruct (lead_byte a Ha) as (Hq & Hb & Hs).
    cbn [quote_body]. rewrite Ha, H2, H3, H4, !string_app_cons. cbn [unquote_body].
    by rewrite Hq, Hb, Hs, Ha, H2, H3, H4, IH.
Qed.

(** What is written is read back. *)
Lemma json_unquote_quote s : valid_utf8 s = true → json_unquote (json_quote s) = Some s.
Proof.
  intros Hs. unfold json_unquote, json_quote.
  assert ((String quote_char (quote_body s +:+ String quote_char "") =? "null") = false) as -> by done.
  rewrite Ascii.eqb_refl. by apply unquote_quote_body.
Qed.

(** ** Sizes and bytes of a quoted string *)

(** At most six bytes for one. *)
Lemma length_quote_ascii a : (String.length (quote_ascii a) ≤ 6)%nat.
Proof. destruct a as [[] [] [] [] [] [] [] []]; apply Nat.leb_le; reflexivity. Qed.

Lemma length_quote_body s : (String.length (quote_body s) ≤ 6 * String.length s)%nat.
Proof.
  revert s. fix IH 1. intros [|a r]; [simpl; lia|]. cbn [quote_body].
  pose proof (IH r) as Hr. pose proof (length_quote_ascii a) as Ha.
  assert (String.length bad_byte = 6) as Hbad by done.
  destruct (is_ascii a); [rewrite string_length_app; simpl in *; lia|].
  destruct r as [|b r2]; [rewrite string_length_app; simpl in *; lia|].
  destruct (rune2 a b); [pose proof (IH r2); simpl in *; lia|].
  destruct r2 as [|c r3]; [rewrite string_length_app; simpl in *; lia|].
  destruct (rune3 a b c).
  { pose proof (IH r3) as Hr3. rewrite string_length_app.
    destruct (is_separator a b c); simpl in *; lia. }
  destruct r3 as [|d r4]; [rewrite string_length_app; simpl in *; lia|].
  destruct (rune4 a b c d); [pose proof (IH r4); simpl in *; lia|].
  rewrite string_length_app. simpl in *. lia.
Qed.

(** Quoted text holds no control byte, so no line break. *)
Fixpoint all_bytes (p : ascii → bool) (s : string) : bool :=
  match s with "" => true | String a r => p a && all_bytes p r end.

Lemma all_bytes_app p s t : all_bytes p (s +:+ t) = all_bytes p s && all_bytes p t.
Proof. induction s as [|a s IH]; [done|]. rewrite string_app_cons. simpl. by rewrite IH, andb_assoc. Qed.

Definition printable (a : ascii) : bool := (32 <=? byte_of a)%N.

Lemma printable_quote_ascii a : all_bytes printable (quote_ascii a) = true.
Proof. destruct a as [[] [] [] [] [] [] [] []]; reflexivity. Qed.

Lemma printable_high a : is_ascii a = false → printable a = true.
Proof. unfold is_ascii, printable. intros H%N.ltb_ge. apply N.leb_le. lia. Qed.

Lemma printable_range lo hi a : (32 <= lo)%N → in_range lo hi a = true → printable a = true.
Proof. unfold in_range, printable. intros Hlo [H%N.leb_le _]%andb_true_iff. apply N.leb_le. lia. Qed.

Lemma printable_rune2 a b : rune2 a b = true → printable b = true.
Proof. intros [_ H]%andb_true_iff. by eapply printable_range, H. Qed.

Lemma printable_rune3 a b c : rune3 a b c = true → printable b = true ∧ printable c = true.
Proof.
  intros [H1 H2]%andb_true_iff. split; [|by eapply printable_range, H2].
  apply orb_true_iff in H1 as [[[_ H]%andb_true_iff|[_ H]%andb_true_iff]%orb_true_iff|[_ H]%andb_true_iff];
    by eapply printable_range, H.
Qed.

Lemma printable_rune4 a b c d :
  rune4 a b c d = true → printable b = true ∧ printable c = true ∧ printable d = true.
Proof.
  intros [[H1 H2]%andb_true_iff H3]%andb_true_iff. split_and!; [|by eapply printable_range, H2|by eapply printable_range, H3].
  apply orb_true_iff in H1 as [[[_ H]%andb_true_iff|[_ H]%andb_true_iff]%orb_true_iff|[_ H]%andb_true_iff];
    by eapply printable_range, H.
Qed.

Lemma printable_separator c : all_bytes printable (esc ("u202" +:+ String (hex_digit (byte_of c mod 16)) "")) = true.
Proof. destruct c as [[] [] [] [] [] [] [] []]; reflexivity. Qed.

Lemma printable_quote_body s : all_bytes printable (quote_body s) = true.
Proof.
  revert s. fix IH 1. intros [|a r]; [done|]. cbn [quote_body].
  assert (all_bytes printable (bad_byte +:+ quote_body r) = true) as Hbad
    by (rewrite all_bytes_app; by rewrite IH).
  destruct (is_ascii a) eqn:Ha; [by rewrite all_bytes_app, printable_quote_ascii, IH|].
  apply printable_high in Ha. destruct r as [|b r2]; [done|].
  destruct (rune2 a b) eqn:H2; [simpl; by rewrite Ha, (printable_rune2 a b), IH|].
  destruct r2 as [|c r3]; [done|]. destruct (rune3 a b c) eqn:H3.
  { destruct (printable_rune3 a b c H3) as [Hb Hc]. rewrite all_bytes_app, IH, andb_true_r.
    destruct (is_separator a b c); [apply printable_separator|]. simpl. by rewrite Ha, Hb, Hc. }
  destruct r3 as [|d r4]; [done|]. destruct (rune4 a b c d) eqn:H4; [|done].
  destruct (printable_rune4 a b c d H4) as (Hb & Hc & Hd). simpl. by rewrite Ha, Hb, Hc, Hd, IH.
Qed.

Lemma printable_json_quote s : all_bytes printable (json_quote s) = true.
Proof. unfold json_quote. simpl. by rewrite all_bytes_app, printable_quote_body. Qed.

Lemma length_json_quote s : String.length (json_quote s) = S (S (String.length (quote_body s))).
Proof. unfold json_quote. simpl. rewrite string_length_app. simpl. lia. Qed.
