(* ===== verification/GoStd.v ===== *)
(** * More of the Go standard library

    The text functions the integration runner adds to [GoText]: the searches and
    splits of strings, [strconv.ParseFloat] (decimal, hexadecimal, underscores,
    infinities and NaN), [time.ParseDuration], [filepath.Join] and [sort.Strings]. *)

From stdpp Require Import base list strings sorting.
From Stdlib Require Import ZArith Lia Ascii SpecFloat.
From S2P Require Import Prelude GoSort GoFloat GoText.

Local Open Scope string_scope.

(** ** [strings] *)

(** [strings.IndexByte] and [strings.LastIndexByte]; [None] for -1. *)
Fixpoint index_byte (s : string) (c : ascii) : option nat :=
  match s with
  | "" => None
  | String a r => if (a =? c)%char then Some 0 else option_map S (index_byte r c)
  end.

Fixpoint last_index_byte (s : string) (c : ascii) : option nat :=
  match s with
  | "" => None
  | String a r =>
      match last_index_byte r c with
      | Some n => Some (S n)
      | None => if (a =? c)%char then Some 0 else None
      end
  end.

(** [strings.SplitN(s, sep, 2)]: what is before and after the first separator. *)
Definition split_2 (s : string) (c : ascii) : string * option string :=
  match index_byte s c with
  | Some n => (str_take n s, Some (str_drop (S n) s))
  | None => (s, None)
  end.

(** [strings.Trim(s, string(c))]. *)
Fixpoint trim_left_byte (c : ascii) (s : string) : string :=
  match s with
  | String a r => if (a =? c)%char then trim_left_byte c r else s
  | "" => ""
  end.
Definition trim_byte (c : ascii) (s : string) : string :=
  String.rev (trim_left_byte c (String.rev (trim_left_byte c s))).

(** The words between separators, given how many bytes at the head of the text are
    one separator; [cur] is the word being read, backwards. *)
Definition flush (cur : string) (l : list string) : list string :=
  if cur =? "" then l else String.rev cur :: l.

Fixpoint words_of (is_sep : ascii → bool) (cur s : string) : list string :=
  match s with
  | "" => flush cur []
  | String a r =>
      if is_sep a || is_space a then flush cur (words_of is_sep "" r)
      else match r with
           | "" => flush (String a cur) []
           | String b r2 =>
               if is_space2 a b then flush cur (words_of is_sep "" r2)
               else match r2 with
                    | String c r3 =>
                        if is_space3 a b c then flush cur (words_of is_sep "" r3)
                        else words_of is_sep (String a cur) r
                    | "" => words_of is_sep (String a cur) r
                    end
           end
  end.

(** [strings.Fields]. *)
Definition fields : string → list string := words_of (λ _, false) "".

(** [strings.ToUpper] of ASCII text. *)
Definition to_upper_ascii (a : ascii) : ascii :=
  let n := byte_of a in if ((97 <=? n) && (n <=? 122))%N then chr (n - 32) else a.
Fixpoint to_upper (s : string) : string :=
  match s with "" => "" | String a r => String (to_upper_ascii a) (to_upper r) end.

(** [sort.Strings]. *)
Definition sort_strings `{SliceSorter} (l : list string) : list string := sort_slice str_ltb l.

(** ** [strconv.ParseFloat] *)

Definition hex_digit_of (a : ascii) : option Z :=
  let n := byte_of a in
  match digit_of a with
  | Some d => Some d
  | None => if ((97 <=? n) && (n <=? 102))%N then Some (Z.of_N (n - 87))
            else if ((65 <=? n) && (n <=? 70))%N then Some (Z.of_N (n - 55)) else None
  end.

(** The digits of a mantissa with at most one dot: their number, their value, how
    many stand after the dot, and the rest. *)
Fixpoint read_mantissa (digit : ascii → option Z) (base : Z) (dot : bool) (n : nat) (m e : Z) (s : string) :
    nat * Z * Z * string :=
  match s with
  | "" => (n, m, e, "")
  | String a r =>
      if (a =? ".")%char then if dot then (n, m, e, s) else read_mantissa digit base true n m e r
      else match digit a with
           | Some d => read_mantissa digit base dot (S n) (base * m + d)%Z (if dot then e + 1 else e)%Z r
           | None => (n, m, e, s)
           end
  end.

(** Exponent digits; Go stops accumulating at 10000. *)
Fixpoint read_exp (e : Z) (s : string) : option Z :=
  match s with
  | "" => Some e
  | String a r =>
      match digit_of a with
      | Some d => read_exp (if e <? 10000 then 10 * e + d else e)%Z r
      | None => None
      end
  end.

(** The exponent: nothing, or the letter, a sign and at least one digit. *)
Definition exponent (letter : ascii) (required : bool) (s : string) : option Z :=
  match s with
  | "" => if required then None else Some 0%Z
  | String a r =>
      if (to_lower_ascii a =? letter)%char then
        match r with
        | "" => None
        | String c r2 =>
            if (c =? "+")%char then if r2 =? "" then None else read_exp 0 r2
            else if (c =? "-")%char then if r2 =? "" then None else option_map Z.opp (read_exp 0 r2)
            else read_exp 0 r
        end
      else None
  end.

(** The nearest binary64 to [m * 10^e] and to [m * 2^e]; ties to even. *)
Definition f_of_decimal (m e : Z) : float :=
  match m with
  | Zpos p =>
      if (0 <=? e)%Z then binary_normalize 53 1024 (Zpos p * 10 ^ e) 0 false
      else let '(mz, ez, lz) := SFdiv_core_binary 53 1024 (Zpos p) 0 (10 ^ (- e)) 0 in
           binary_round_aux 53 1024 false mz ez lz
  | _ => fzero
  end.
Definition f_of_binary (m e : Z) : float := binary_normalize 53 1024 m e false.

Definition parse_magnitude (s : string) : option float :=
  if (1 <? String.length s)%nat && (str_take 2 (to_lower s) =? "0x") then
    let '(n, m, e, r) := read_mantissa hex_digit_of 16 false 0 0 0 (str_drop 2 s) in
    if (n =? 0)%nat then None
    else option_map (λ x, f_of_binary m (x - 4 * e)) (exponent "p" true r)
  else
    let '(n, m, e, r) := read_mantissa digit_of 10 false 0 0 0 s in
    if (n =? 0)%nat then None
    else option_map (λ x, f_of_decimal m (x - e)) (exponent "e" false r).

(** Underscores may stand between digits, and after the base prefix. *)
Fixpoint underscores_ok (hex : bool) (prev : ascii) (s : string) : bool :=
  match s with
  | "" => negb (prev =? "_")%char
  | String a r =>
      if is_Some_dec (if hex then hex_digit_of a else digit_of a) then underscores_ok hex "0" r
      else if (a =? "_")%char then (prev =? "0")%char && underscores_ok hex "_" r
      else negb (prev =? "_")%char && underscores_ok hex "!" r
  end.

Fixpoint drop_underscores (s : string) : string :=
  match s with
  | "" => ""
  | String a r => if (a =? "_")%char then drop_underscores r else String a (drop_underscores r)
  end.

(** What reading a number comes to: the value, or one of strconv's two errors. *)
Inductive number (A : Type) := Num (a : A) | BadSyntax | OutOfRange.
Arguments Num {A} _.
Arguments BadSyntax {A}.
Arguments OutOfRange {A}.

Definition number_map {A B} (f : A → B) (n : number A) : number B :=
  match n with Num a => Num (f a) | BadSyntax => BadSyntax | OutOfRange => OutOfRange end.
Definition number_value {A} (n : number A) : option A := match n with Num a => Some a | _ => None end.

Definition unsigned_float (s : string) : number float :=
  let l := to_lower s in
  if (l =? "inf") || (l =? "infinity") then Num (S754_infinity false)
  else
    let hex := (str_take 2 l =? "0x") in
    if (if hex then underscores_ok true "0" (str_drop 2 s) else underscores_ok false "^" s) then
      match parse_magnitude (drop_underscores s) with
      | Some f => if is_inf f then OutOfRange else Num f
      | None => BadSyntax
      end
    else BadSyntax.

(** [strconv.ParseFloat(s, 64)], and the same without the kind of its error. *)
Definition read_float (s : string) : number float :=
  match s with
  | String a r =>
      if (a =? "+")%char then unsigned_float r
      else if (a =? "-")%char then number_map fopp (unsigned_float r)
      else if to_lower s =? "nan" then Num S754_nan
      else unsigned_float s
  | "" => BadSyntax
  end.
Definition parse_float (s : string) : option float := number_value (read_float s).

Example parse_float_demo :
  map parse_float ["1.5e3"; "-0x1p-2"; "1_0.5"; "+Inf"; "1e400"; "1e"; "."; ""; "0.1"] =
  [Some (f_of_Z 1500); Some (fopp (f_of_ratio 1 4)); Some (f_of_ratio 21 2); Some (S754_infinity false);
   None; None; None; None; Some (f_of_ratio 1 10)].
Proof. vm_compute. reflexivity. Qed.

(** ** [time.ParseDuration] *)

(** [leadingInt]: digits up to [2^63]. *)
Fixpoint leading_int (x : Z) (s : string) : option (Z * string) :=
  match s with
  | "" => Some (x, "")
  | String a r =>
      match digit_of a with
      | None => Some (x, s)
      | Some d =>
          if (2 ^ 63 / 10 <? x)%Z then None
          else let y := (10 * x + d)%Z in if (2 ^ 63 <? y)%Z then None else leading_int y r
      end
  end.

(** [leadingFraction]: digits that would overflow are skipped. *)
Fixpoint leading_fraction (x : Z) (scale : float) (overflow : bool) (s : string) : Z * float * string :=
  match s with
  | "" => (x, scale, "")
  | String a r =>
      match digit_of a with
      | None => (x, scale, s)
      | Some d =>
          let y := (10 * x + d)%Z in
          if overflow || ((2 ^ 63 - 1) / 10 <? x)%Z || (2 ^ 63 <? y)%Z then leading_fraction x scale true r
          else leading_fraction y (fmul scale (f_of_Z 10)) false r
      end
  end.

Fixpoint unit_name (s : string) : string * string :=
  match s with
  | "" => ("", "")
  | String a r =>
      if (a =? ".")%char || (if digit_of a then true else false) then ("", s)
      else let '(u, t) := unit_name r in (String a u, t)
  end.

(** The micro sign is U+00B5 or U+03BC. *)
Definition micro_1 : string := String (chr 194) (String (chr 181) "s").
Definition micro_2 : string := String (chr 206) (String (chr 188) "s").

Definition unit_of (u : string) : option Z :=
  if u =? "ns" then Some nanosecond
  else if (u =? "us") || (u =? micro_1) || (u =? micro_2) then Some 1000%Z
  else if u =? "ms" then Some 1000000%Z
  else if u =? "s" then Some second
  else if u =? "m" then Some minute
  else if u =? "h" then Some hour
  else None.

(** One number with its unit. *)
Definition duration_term (s : string) : option (Z * string) :=
  match leading_int 0 s with
  | None => None
  | Some (v, s1) =>
      let pre := negb (String.length s1 =? String.length s)%nat in
      let '(f, scale, s2, post) :=
        match s1 with
        | String a r =>
            if (a =? ".")%char then
              let '(f, scale, t) := leading_fraction 0 (f_of_Z 1) false r in
              (f, scale, t, negb (String.length t =? String.length r)%nat)
            else (0%Z, f_of_Z 1, s1, false)
        | "" => (0%Z, f_of_Z 1, s1, false)
        end in
      if negb pre && negb post then None
      else
        let '(u, t) := unit_name s2 in
        match unit_of u with
        | None => None
        | Some unit =>
            if (2 ^ 63 / unit <? v)%Z then None
            else
              let v := (v * unit)%Z in
              let v := if (0 <? f)%Z
                       then (v + default 0%Z (f_trunc (fmul (f_of_Z f) (fdiv (f_of_Z unit) scale))))%Z else v in
              if (2 ^ 63 <? v)%Z then None else Some (v, t)
        end
  end.

(** The terms; each consumes a byte of the text, whose length is the fuel. *)
Fixpoint duration_terms (fuel : nat) (d : Z) (s : string) : option Z :=
  if s =? "" then Some d
  else
    match fuel with
    | O => None
    | S fuel =>
        match duration_term s with
        | None => None
        | Some (v, t) => if (2 ^ 63 <? d + v)%Z then None else duration_terms fuel (d + v) t
        end
    end.

Definition parse_duration (s : string) : option duration :=
  let '(neg, s) :=
    match s with
    | String a r => if (a =? "-")%char then (true, r) else if (a =? "+")%char then (false, r) else (false, s)
    | "" => (false, s)
    end in
  if s =? "0" then Some 0%Z
  else if s =? "" then None
  else
    match duration_terms (String.length s) 0 s with
    | None => None
    | Some d => if neg then Some (- d)%Z else if (2 ^ 63 - 1 <? d)%Z then None else Some d
    end.

Example parse_duration_demo :
  map parse_duration ["1h30m"; "1.5s"; "-5ms"; "0"; "15"; ""; "9223372036854775808ns"; "-9223372036854775808ns"; ".s"] =
  [Some (90 * minute); Some (1500000000); Some (-5000000); Some 0; None; None; None; Some int64_min; None]%Z.
Proof. vm_compute. reflexivity. Qed.

(** [Duration.String]: a fraction without its trailing zeros. *)
Fixpoint trim_zeros_rev (s : string) : string :=
  match s with String a r => if (a =? "0")%char then trim_zeros_rev r else s | "" => "" end.

Definition frac_text (v : Z) (prec : nat) : string :=
  let d := String.rev (trim_zeros_rev (String.rev (pad_int prec (v mod 10 ^ Z.of_nat prec)))) in
  itoa (v / 10 ^ Z.of_nat prec) +:+ (if d =? "" then "" else "." +:+ d).

Definition duration_text (d : duration) : string :=
  let u := Z.abs d in
  let text :=
    if (u =? 0)%Z then "0s"
    else if (u <? 1000)%Z then itoa u +:+ "ns"
    else if (u <? 1000000)%Z then frac_text u 3 +:+ micro_1
    else if (u <? second)%Z then frac_text u 6 +:+ "ms"
    else
      let secs := frac_text (u mod minute) 9 +:+ "s" in
      let m := (u / minute)%Z in
      if (m =? 0)%Z then secs
      else if (m <? 60)%Z then itoa m +:+ "m" +:+ secs
      else itoa (m / 60) +:+ "h" +:+ itoa (m mod 60) +:+ "m" +:+ secs in
  if (d <? 0)%Z then "-" +:+ text else text.

Example duration_text_demo :
  map duration_text [300 * second; 1500000000; 90 * minute; -1500; 0; 1000000]%Z =
  ["5m0s"; "1.5s"; "1h30m0s"; "-1.5" +:+ micro_1; "0s"; "1ms"].
Proof. vm_compute. reflexivity. Qed.

(** ** [url.QueryEscape] *)

Definition hex_upper (n : N) : ascii := if (n <? 10)%N then chr (48 + n) else chr (55 + n).

(** Letters, digits and four marks stand for themselves. *)
Definition unreserved (a : ascii) : bool :=
  let n := byte_of a in
  ((48 <=? n) && (n <=? 57) || (65 <=? n) && (n <=? 90) || (97 <=? n) && (n <=? 122)
   || (n =? 45) || (n =? 95) || (n =? 46) || (n =? 126))%N.

Fixpoint query_escape (s : string) : string :=
  match s with
  | "" => ""
  | String a r =>
      if unreserved a then String a (query_escape r)
      else if (a =? " ")%char then String "+" (query_escape r)
      else String "%" (String (hex_upper (byte_of a / 16)) (String (hex_upper (byte_of a mod 16)) (query_escape r)))
  end.

Example query_escape_demo : query_escape "up{job=~a b.~*}" = "up%7Bjob%3D~a+b.~%2A%7D".
Proof. vm_compute. reflexivity. Qed.

(** ** [filepath.Join] on Unix *)

Definition clean_step (rooted : bool) (out : list string) (c : string) : list string :=
  if (c =? "") || (c =? ".") then out
  else if c =? ".." then
    match out with
    | p :: r => if p =? ".." then c :: out else r
    | [] => if rooted then [] else [c]
    end
  else c :: out.

(** [filepath.Clean]: the kept components, last one first. *)
Definition path_clean (p : string) : string :=
  let rooted := has_prefix p "/" in
  let out := join "/" (reverse (foldl (clean_step rooted) [] (split_on "/" p))) in
  if rooted then "/" +:+ out else if out =? "" then "." else out.

Definition path_join (elems : list string) : string :=
  match List.filter (λ e, negb (e =? "")) elems with
  | [] => ""
  | l => path_clean (join "/" l)
  end.

(** [filepath.Dir]: what precedes the last slash, cleaned. *)
Definition path_dir (p : string) : string :=
  match last_index_byte p "/" with
  | Some n => path_clean (str_take (S n) p)
  | None => "."
  end.

Example path_dir_demo : map path_dir ["/tmp/out/llm/a.txt"; "a"; "/a"; "a/b/"] = ["/tmp/out/llm"; "."; "/"; "a/b"].
Proof. vm_compute. reflexivity. Qed.

Example path_join_demo :
  map path_join [["hack/ci"; "workloads"]; ["a//b"; "../c/."]; ["/.."; "x"]; [""; ""]; ["a"; ".."; ".."]] =
  ["hack/ci/workloads"; "a/c"; "/x"; ""; ".."].
Proof. vm_compute. reflexivity. Qed.

(** ** Lemmas *)

Lemma leading_int_length x s y t : leading_int x s = Some (y, t) → (String.length t ≤ String.length s)%nat.
Proof.
  revert x. induction s as [|a s IH]; intros x; cbn [leading_int]; [by intros [= _ <-]|].
  destruct (digit_of a); [|by intros [= _ <-]]. destruct (_ <? x)%Z; [done|]. destruct (_ <? _)%Z; [done|].
  intros H%IH. simpl. lia.
Qed.

Lemma leading_fraction_length x sc o s : (String.length (leading_fraction x sc o s).2 ≤ String.length s)%nat.
Proof.
  revert x sc o. induction s as [|a s IH]; intros x sc o; cbn [leading_fraction]; [done|].
  destruct (digit_of a); [|done]. destruct (_ || _ || _); etrans; try apply IH; simpl; lia.
Qed.

Lemma unit_name_length s : (String.length (unit_name s).1 + String.length (unit_name s).2 = String.length s)%nat.
Proof.
  induction s as [|a s IH]; [done|]. cbn [unit_name]. destruct (_ || _); [done|].
  destruct (unit_name s). simpl in *. lia.
Qed.

Lemma duration_term_length s v t : duration_term s = Some (v, t) → (String.length t < String.length s)%nat.
Proof.
  unfold duration_term. destruct (leading_int 0 s) as [[y s1]|] eqn:E1; [|done]. apply leading_int_length in E1.
  destruct (match s1 with "" => _ | String _ _ => _ end) as [[[f sc] s2] post] eqn:E2.
  assert (String.length s2 ≤ String.length s1)%nat as H2.
  { destruct s1 as [|a r]; [by injection E2 as _ _ <- _|]. destruct (a =? ".")%char; [|by injection E2 as _ _ <- _].
    pose proof (leading_fraction_length 0 (f_of_Z 1) false r) as H.
    destruct (leading_fraction 0 (f_of_Z 1) false r) as [[? ?] u]. injection E2 as _ _ <- _. cbn [snd String.length] in *. lia. }
  destruct (negb _ && negb post); [done|]. pose proof (unit_name_length s2) as Hu.
  destruct (unit_name s2) as [u w]. destruct (unit_of u) eqn:Eu; [|done].
  assert (0 < String.length u)%nat by (destruct u; [done|simpl; lia]).
  destruct (_ <? y)%Z; [done|]. destruct (_ <? _)%Z; [done|]. intros [= _ <-]. simpl in *. lia.
Qed.

(** The length of the text is enough fuel. *)
Lemma duration_terms_enough s n d :
  (String.length s ≤ n)%nat → duration_terms n d s = duration_terms (S n) d s.
Proof.
  revert s d. induction n as [|n IH]; intros s d Hs; [destruct s; [done|simpl in Hs; lia]|].
  change (duration_terms (S (S n)) d s) with (if s =? "" then Some d else
    match duration_term s with None => None | Some (v, t) =>
      if (2 ^ 63 <? d + v)%Z then None else duration_terms (S n) (d + v) t end).
  cbn [duration_terms]. destruct (s =? ""); [done|]. destruct (duration_term s) as [[v t]|] eqn:E; [|done].
  apply duration_term_length in E. destruct (_ <? _)%Z; [done|]. apply IH. lia.
Qed.

(** Sorting the same strings, in whatever order they come, gives the same list. *)
Lemma str_ltb_swo (l : list string) : strict_weak_on str_ltb l.
Proof. apply (less_of_swo (λ _, True)); [apply _|]. by apply Forall_true. Qed.

Lemma sort_strings_perm `{SliceSorter} l : sort_strings l ≡ₚ l.
Proof. apply sort_slice_perm. Qed.

Lemma sort_strings_sorted `{SliceSorter} l : sorted_by str_ltb (sort_strings l).
Proof. apply sort_slice_sorted, str_ltb_swo. Qed.

(** ** What [strings.TrimSpace] leaves *)

Section trimming.
Variable (sp1 : ascii → bool) (sp2 : ascii → ascii → bool) (sp3 : ascii → ascii → ascii → bool).

(** [trim_left] and [trim_rev] for any notion of a space of one, two or three bytes. *)
Fixpoint trim_with (s : string) : string :=
  match s with
  | String a r =>
      if sp1 a then trim_with r
      else match r with
           | String b r2 =>
               if sp2 a b then trim_with r2
               else match r2 with
                    | String c r3 => if sp3 a b c then trim_with r3 else s
                    | "" => s
                    end
           | "" => s
           end
  | "" => ""
  end.

(** Either nothing is taken off, or a space and what follows it. *)
Lemma trim_with_cases s :
  trim_with s = s ∨ ∃ p r, s = p +:+ r ∧ p ≠ "" ∧ trim_with s = trim_with r ∧ ∀ q, trim_with (p +:+ q) = trim_with q.
Proof.
  destruct s as [|a s]; [by left|]. destruct (sp1 a) eqn:E1.
  { right. exists (String a ""), s. rewrite string_app_cons, string_app_nil_l. split_and!; [done..|by cbn; rewrite E1|].
    intros q. rewrite string_app_cons, string_app_nil_l. cbn. by rewrite E1. }
  destruct s as [|b s]; [left; cbn; by rewrite E1|]. destruct (sp2 a b) eqn:E2.
  { right. exists (String a (String b "")), s. rewrite !string_app_cons, string_app_nil_l.
    split_and!; [done..|by cbn; rewrite E1, E2|]. intros q. rewrite !string_app_cons, string_app_nil_l. cbn. by rewrite E1, E2. }
  destruct s as [|c s]; [left; cbn; by rewrite E1, E2|]. destruct (sp3 a b c) eqn:E3; [|left; cbn; by rewrite E1, E2, E3].
  right. exists (String a (String b (String c ""))), s. rewrite !string_app_cons, string_app_nil_l.
  split_and!; [done..|by cbn; rewrite E1, E2, E3|]. intros q. rewrite !string_app_cons, string_app_nil_l. cbn.
  by rewrite E1, E2, E3.
Qed.

Lemma trim_with_suffix s : ∃ p, s = p +:+ trim_with s ∧ trim_with (trim_with s) = trim_with s.
Proof.
  induction s as [s IH] using (induction_ltof1 _ String.length). unfold ltof in IH.
  destruct (trim_with_cases s) as [E|(p & r & -> & Hp & -> & _)].
  - exists "". rewrite string_app_nil_l. by rewrite !E.
  - destruct (IH r) as (p' & Hr & Hi). { rewrite string_length_app. destruct p; [done|simpl; lia]. }
    exists (p +:+ p'). split; [|done]. by rewrite <-string_app_assoc, <-Hr.
Qed.

Lemma trim_with_length s : (String.length (trim_with s) ≤ String.length s)%nat.
Proof. destruct (trim_with_suffix s) as (p & E & _). rewrite E at 2. rewrite string_length_app. lia. Qed.

(** The head of a text without leading space has none. *)
Lemma trim_with_head p q : trim_with (p +:+ q) = p +:+ q → trim_with p = p.
Proof.
  intros Hpq. destruct (trim_with_cases p) as [|(u & r & -> & Hu & _ & Hq)]; [done|].
  rewrite <-string_app_assoc, Hq in Hpq. pose proof (trim_with_length (r +:+ q)) as Hl. rewrite Hpq in Hl.
  rewrite !string_length_app in Hl. destruct u; [done|simpl in Hl; lia].
Qed.

(** A byte that belongs to no space stays, with all that follows it. *)
Lemma trim_with_keeps c :
  sp1 c = false → (∀ a, sp2 c a = false ∧ sp2 a c = false) →
  (∀ a b, sp3 c a b = false ∧ sp3 a c b = false ∧ sp3 a b c = false) →
  ∀ p q, ∃ p', trim_with (p +:+ String c q) = p' +:+ String c q.
Proof.
  intros H1 H2 H3 p q. induction p as [p IH] using (induction_ltof1 _ String.length). unfold ltof in IH.
  assert (∀ r, r = p → trim_with (r +:+ String c q) = r +:+ String c q →
    ∃ p', trim_with (p +:+ String c q) = p' +:+ String c q) as Hsame by (intros r -> ->; by exists p).
  destruct p as [|a p].
  { apply (Hsame ""); [done|]. rewrite string_app_nil_l. cbn. rewrite H1.
    destruct q as [|b q]; [done|]. destruct (H2 b) as [-> _]. destruct q as [|d q]; [done|]. by destruct (H3 b d) as [-> _]. }
  rewrite string_app_cons in *. cbn [trim_with]. destruct (sp1 a) eqn:E1; [apply IH; cbn; lia|].
  destruct p as [|b p].
  { exists (String a ""). rewrite string_app_cons, string_app_nil_l. destruct (H2 a) as [_ ->].
    destruct q as [|d q]; [done|]. by destruct (H3 a d) as (_ & -> & _). }
  rewrite string_app_cons. destruct (sp2 a b) eqn:E2; [apply IH; cbn; lia|]. destruct p as [|d p].
  { exists (String a (String b "")). rewrite !string_app_cons, !string_app_nil_l. by destruct (H3 a b) as (_ & _ & ->). }
  rewrite string_app_cons. destruct (sp3 a b d) eqn:E3; [apply IH; cbn; lia|].
  exists (String a (String b (String d p))). by rewrite !string_app_cons.
Qed.
End trimming.

Lemma trim_left_with s : trim_left s = trim_with is_space is_space2 is_space3 s.
Proof. done. Qed.
Lemma trim_rev_with s : trim_rev s = trim_with is_space (λ a b, is_space2 b a) (λ a b c, is_space3 c b a) s.
Proof. done. Qed.

(** A visible byte belongs to no space. *)
Section visible_byte.
Context (c : ascii) (Hc : visible c = true).

Lemma visible_no_space :
  is_space c = false ∧ (∀ a, is_space2 c a = false ∧ is_space2 a c = false) ∧
  (∀ a b, is_space3 c a b = false ∧ is_space3 a c b = false ∧ is_space3 a b c = false).
Proof.
  apply visible_bounds in Hc.
  assert (∀ n, (128 ≤ n)%N → (byte_of c =? n)%N = false) as Hn by (intros; apply N.eqb_neq; lia).
  assert (∀ n, (128 ≤ n)%N → (n <=? byte_of c)%N = false) as Hl by (intros; apply N.leb_gt; lia).
  split; [|split; [intros a; unfold is_space2; rewrite !Hn by lia; by rewrite andb_false_r|]].
  - unfold is_space. apply orb_false_iff; split; [apply andb_false_iff; right; apply N.leb_gt; lia|apply N.eqb_neq; lia].
  - intros a b. unfold is_space3. rewrite !Hn, !Hl by lia. by rewrite ?andb_false_r, ?andb_false_l.
Qed.

Lemma trim_left_keeps p q : ∃ p', trim_left (p +:+ String c q) = p' +:+ String c q.
Proof. destruct visible_no_space as (H1 & H2 & H3). rewrite trim_left_with. by apply trim_with_keeps. Qed.

Lemma trim_rev_keeps p q : ∃ p', trim_rev (p +:+ String c q) = p' +:+ String c q.
Proof.
  destruct visible_no_space as (H1 & H2 & H3). rewrite trim_rev_with. apply trim_with_keeps; [done| |].
  - intros a. by destruct (H2 a).
  - intros a b. destruct (H3 b a) as (? & ? & ?). by destruct (H3 a b) as (? & ? & ?).
Qed.
End visible_byte.

(** What stands between two visible bytes stays. *)
Lemma trim_space_keeps c d p q r :
  visible c = true → visible d = true →
  ∃ p' r', trim_space (p +:+ String c (q +:+ String d r)) = p' +:+ String c (q +:+ String d r').
Proof.
  intros Hc Hd. unfold trim_space. destruct (trim_left_keeps c Hc p (q +:+ String d r)) as [p' ->].
  rewrite <-(string_app_cons c q), <-(string_app_nil_l r), <-string_app_cons, !string_app_assoc, rev_append.
  set (front := String.rev (((p' +:+ String c q) +:+ String d ""))).
  assert (String.rev ((p' +:+ String c q) +:+ String d "") = String d (String.rev (p' +:+ String c q))) as E
    by (rewrite rev_append; done).
  unfold front. rewrite E. destruct (trim_rev_keeps d Hd (String.rev r) (String.rev (p' +:+ String c q))) as [r' ->].
  exists p', (String.rev r'). rewrite rev_append, rev_cons, rev_involutive, <-!string_app_assoc.
  by rewrite !string_app_cons, string_app_nil_l.
Qed.

(** A text with a visible byte is not blank. *)
Lemma visible_not_blank c p q : visible c = true → trim_space (p +:+ String c q) <> "".
Proof.
  intros Hc. unfold trim_space. destruct (trim_left_keeps c Hc p q) as [p' ->].
  rewrite rev_append, rev_cons, <-string_app_assoc. change (String c "" +:+ String.rev p') with (String c (String.rev p')).
  destruct (trim_rev_keeps c Hc (String.rev q) (String.rev p')) as [p2 ->].
  rewrite rev_append, rev_cons. intros E. apply (f_equal String.length) in E.
  rewrite !string_length_app in E. simpl in E. lia.
Qed.

Lemma trim_space_trimmed s : trim_space (trim_space s) = trim_space s.
Proof.
  unfold trim_space at 1. assert (trim_left (trim_space s) = trim_space s) as ->.
  { unfold trim_space. destruct (trim_with_suffix is_space is_space2 is_space3 s) as (p & _ & Hl). rewrite <-trim_left_with in Hl.
    destruct (trim_with_suffix is_space (λ a b, is_space2 b a) (λ a b c, is_space3 c b a) (String.rev (trim_left s)))
      as (q & E & _). rewrite <-trim_rev_with in E.
    apply (trim_with_head _ _ _ _ (String.rev q)). rewrite <-rev_append, <-E, rev_involutive. exact Hl. }
  unfold trim_space. rewrite rev_involutive. f_equal.
  destruct (trim_with_suffix is_space (λ a b, is_space2 b a) (λ a b c, is_space3 c b a) (String.rev (trim_left s)))
    as (q & _ & E). exact E.
Qed.

(** The sorted list does not depend on the order it came in, nor on the algorithm. *)
Lemma sort_strings_canonical (S1 S2 : SliceSorter) l k :
  l ≡ₚ k → sort_strings (H := S1) l = sort_strings (H := S2) k.
Proof.
  intros Hlk. apply (StronglySorted_unique_strong (λ a b, str_ltb b a = false)).
  - intros x y _ _. unfold str_ltb, less_of. rewrite (cmp_antisym (λ _, True) str_cmp x y) by done.
    destruct (str_cmp x y) eqn:E; simpl; try done. intros _ _. by apply str_cmp_eq.
  - apply sort_strings_sorted.
  - apply sort_strings_sorted.
  - by rewrite !sort_strings_perm.
Qed.
