(* ===== verification/GoStrconv.v ===== *)
(** * Texts of values: quoting, floating point, URL queries

    [strconv.Quote] (the verb [%q]), [strconv.FormatFloat] with the shortest digits
    and with a number of significant digits, the errors of [strconv.ParseFloat], and
    [url.Values.Encode].  The class [GoLib] holds the two tables of the standard
    library that are not written out: which runes beyond ASCII are printable, and the
    wording of encoding/json's errors. *)

From stdpp Require Import base list strings.
From Stdlib Require Import ZArith Lia Ascii SpecFloat.
From S2P Require Import Prelude GoSort GoFloat GoText GoJson GoStd.

Local Open Scope string_scope.

Class GoLib := {
  json_error : string → error;
  is_print : N → bool;
}.

(** All runes printable, one text for every error: for the runs on concrete inputs. *)
Definition demo_go : GoLib := {| json_error _ := errorf "invalid JSON"; is_print _ := true |}.

(** ** [strconv.Quote] *)

Definition low_bits (n : N) (a : ascii) : N := N.land (byte_of a) n.
Definition rune_of2 (a b : ascii) : N := (low_bits 31 a * 64 + low_bits 63 b)%N.
Definition rune_of3 (a b c : ascii) : N := ((low_bits 15 a * 64 + low_bits 63 b) * 64 + low_bits 63 c)%N.
Definition rune_of4 (a b c d : ascii) : N :=
  (((low_bits 7 a * 64 + low_bits 63 b) * 64 + low_bits 63 c) * 64 + low_bits 63 d)%N.

(** [n] lower-case hexadecimal digits. *)
Fixpoint hex_text (n : nat) (z : N) : string :=
  match n with
  | O => ""
  | S n => String (hex_digit ((z / 16 ^ N.of_nat n) mod 16)) (hex_text n z)
  end.

Definition hex_byte (a : ascii) : string := esc ("x" +:+ hex_text 2 (byte_of a)).

Definition go_quote_ascii (a : ascii) : string :=
  let n := byte_of a in
  if (a =? quote_char)%char || (a =? backslash)%char then esc (String a "")
  else if ((32 <=? n) && (n <? 127))%N then String a ""
  else if (n =? 7)%N then esc "a"
  else if (n =? 8)%N then esc "b"
  else if (n =? 12)%N then esc "f"
  else if (n =? 10)%N then esc "n"
  else if (n =? 13)%N then esc "r"
  else if (n =? 9)%N then esc "t"
  else if (n =? 11)%N then esc "v"
  else hex_byte a.

Section quoting.
Context `{GoLib}.

(** A rune beyond ASCII: itself, or its number. *)
Definition quote_rune (r : N) (bytes : string) : string :=
  if is_print r then bytes
  else if (r <? 65536)%N then esc ("u" +:+ hex_text 4 r)
  else esc ("U" +:+ hex_text 8 r).

Fixpoint go_quote_body (s : string) : string :=
  match s with
  | "" => ""
  | String a r =>
      if is_ascii a then go_quote_ascii a +:+ go_quote_body r
      else match r with
           | String b r2 =>
               if rune2 a b then quote_rune (rune_of2 a b) (String a (String b "")) +:+ go_quote_body r2
               else match r2 with
                    | String c r3 =>
                        if rune3 a b c then
                          quote_rune (rune_of3 a b c) (String a (String b (String c ""))) +:+ go_quote_body r3
                        else match r3 with
                             | String d r4 =>
                                 if rune4 a b c d then
                                   quote_rune (rune_of4 a b c d) (String a (String b (String c (String d ""))))
                                     +:+ go_quote_body r4
                                 else hex_byte a +:+ go_quote_body r
                             | "" => hex_byte a +:+ go_quote_body r
                             end
                    | "" => hex_byte a +:+ go_quote_body r
                    end
           | "" => hex_byte a +:+ go_quote_body r
           end
  end.

Definition go_quote (s : string) : string := String quote_char (go_quote_body s +:+ String quote_char "").

(** [strconv.ParseFloat(s, 64)] with its error. *)
Definition ParseFloat (s : string) : res float :=
  let failed why := Err (errorf ("strconv.ParseFloat: parsing " +:+ go_quote s +:+ ": " +:+ why)) in
  match read_float s with
  | Num f => Ok f
  | BadSyntax => failed "invalid syntax"
  | OutOfRange => failed "value out of range"
  end.
End quoting.

Example go_quote_demo :
  go_quote (H := demo_go) ("a" +:+ nl +:+ String quote_char (String (chr 195) (String (chr 169) (String (chr 255) "")))) =
  String quote_char ("a" +:+ esc "n" +:+ esc (String quote_char (String (chr 195) (String (chr 169) (esc "xff" +:+ String quote_char ""))))).
Proof. vm_compute. reflexivity. Qed.

(** ** [strconv.FormatFloat] *)

(** Decimal digits without a zero at either end and the position of the point:
    [0.d1d2... * 10^dp]; no digits for zero. *)
Record decimal := mkDecimal { dc_digits : string; dc_point : Z }.

Definition trim_zeros (s : string) : string := String.rev (trim_zeros_rev (String.rev s)).

(** [c * 10^k] as digits. *)
Definition decimal_of (c k : Z) : decimal :=
  if (c =? 0)%Z then mkDecimal "" 0
  else mkDecimal (trim_zeros (itoa c)) (Z.of_nat (String.length (itoa c)) + k)%Z.

(** [m * 2^e] as a fraction. *)
Definition as_ratio (m : positive) (e : Z) : Z * Z :=
  if (0 <=? e)%Z then ((Zpos m * 2 ^ e)%Z, 1%Z) else (Zpos m, (2 ^ (- e))%Z).

Definition digits_in (z : Z) : Z := Z.of_nat (String.length (itoa z)).

(** The position of the point: [10^(dp-1) <= num/den < 10^dp]. *)
Definition point_of (num den : Z) : Z :=
  if (den <=? num)%Z then digits_in (num / den) else (1 - digits_in ((den - 1) / num))%Z.

(** [num/den * 10^k]: its integer part and twice the rest against the unit. *)
Definition scaled (num den k : Z) : Z * comparison :=
  let '(num, den) := if (0 <=? k)%Z then ((num * 10 ^ k)%Z, den) else (num, (den * 10 ^ (- k))%Z) in
  (num / den, 2 * (num mod den) ?= den)%Z.

Definition nearest (lo : Z) (rest : comparison) : Z :=
  match rest with
  | Lt => lo
  | Gt => (lo + 1)%Z
  | Eq => if Z.even lo then lo else (lo + 1)%Z
  end.

(** The number with [n] significant digits nearest to the value, ties to even. *)
Definition round_digits (n : Z) (m : positive) (e : Z) : decimal :=
  let '(num, den) := as_ratio m e in
  let k := (n - point_of num den)%Z in
  let '(lo, rest) := scaled num den k in
  decimal_of (nearest lo rest) (- k).

(** Among the numbers of [n] digits next to the value, the nearest that reads back
    as the value. *)
Definition reading_back (n : Z) (m : positive) (e : Z) : option decimal :=
  let '(num, den) := as_ratio m e in
  let k := (n - point_of num den)%Z in
  let '(lo, rest) := scaled num den k in
  let ok c := feqb (f_of_decimal c (- k)) (S754_finite false m e) in
  match ok lo, ok (lo + 1)%Z with
  | true, true => Some (decimal_of (nearest lo rest) (- k))
  | true, false => Some (decimal_of lo (- k))
  | false, true => Some (decimal_of (lo + 1) (- k))
  | false, false => None
  end.

(** The shortest digits that read back; 17 are always enough for a [float64]. *)
Fixpoint shortest_from (fuel : nat) (n : Z) (m : positive) (e : Z) : decimal :=
  match fuel with
  | O => round_digits 17 m e
  | S fuel =>
      match reading_back n m e with
      | Some d => d
      | None => shortest_from fuel (n + 1) m e
      end
  end.
Definition shortest (m : positive) (e : Z) : decimal := shortest_from 17 1 m e.

(** [fmtE] and [fmtF] with all the digits there are. *)
Definition exponent_text (x : Z) : string :=
  "e" +:+ (if (x <? 0)%Z then "-" else "+") +:+ pad_int 2 (Z.abs x).

Definition e_text (exponent : Z → string) (d : decimal) : string :=
  match dc_digits d with
  | "" => "0" +:+ exponent 0%Z
  | String a "" => String a (exponent (dc_point d - 1)%Z)
  | String a r => String a ("." +:+ r +:+ exponent (dc_point d - 1)%Z)
  end.

Definition f_text (d : decimal) : string :=
  let n := Z.of_nat (String.length (dc_digits d)) in
  let whole :=
    if (dc_point d <=? 0)%Z then "0"
    else str_take (Z.to_nat (dc_point d)) (dc_digits d) +:+ zeros (Z.to_nat (dc_point d - n)) in
  let frac := zeros (Z.to_nat (- dc_point d)) +:+ str_drop (Z.to_nat (dc_point d)) (dc_digits d) in
  if (dc_point d <? n)%Z then whole +:+ "." +:+ frac else whole.

(** The verb [g]: exponents below -4 or from [eprec] on are written out. *)
Definition g_text (eprec : Z) (d : decimal) : string :=
  let x := (dc_point d - 1)%Z in
  if (x <? -4)%Z || (eprec <=? x)%Z then e_text exponent_text d else f_text d.

(** A finite number by its digits, the others by name. *)
Definition float_text (digits : positive → Z → decimal) (text : decimal → string) (f : float) : string :=
  match f with
  | S754_nan => "NaN"
  | S754_infinity s => if s then "-Inf" else "+Inf"
  | S754_zero s => (if s then "-" else "") +:+ text (mkDecimal "" 0)
  | S754_finite s m e => (if s then "-" else "") +:+ text (digits m e)
  end.

(** [strconv.FormatFloat(f, 'g', -1, 64)]. *)
Definition format_g : float → string := float_text shortest (g_text 6).

(** [fmt.Sprintf("%.<n>g", f)], [n > 0]. *)
Definition sprintf_g (n : Z) : float → string :=
  float_text (round_digits n)
    (λ d, let nd := Z.of_nat (String.length (dc_digits d)) in
          g_text (if (nd <? n)%Z && (dc_point d <=? nd)%Z then nd else n) d).

(** How encoding/json writes a number: [e-09] is shortened to [e-9], infinities and
    NaN are refused. *)
Definition json_exponent (x : Z) : string :=
  if (-10 <? x)%Z && (x <? 0)%Z then "e-" +:+ itoa (- x) else exponent_text x.

Definition json_float (f : float) : option string :=
  if is_nan f || is_inf f then None
  else
    let a := fabs f in
    let written_out := feqb a fzero || negb (fltb a (f_of_ratio 1 1000000) || fleb (f_of_Z (10 ^ 21)) a) in
    Some (float_text shortest (if written_out then f_text else e_text json_exponent) f).

Example format_g_demo :
  map format_g [f_of_ratio 1 10; f_of_Z 123456789; f_of_Z 100000; f_of_Z 1000000; fopp (f_of_ratio 3 2);
                f_of_ratio 1 3; f_of_ratio 1 100000; fzero; f_of_Z (2 ^ 53 + 2)] =
  ["0.1"; "1.23456789e+08"; "100000"; "1e+06"; "-1.5"; "0.3333333333333333"; "1e-05"; "0"; "9.007199254740994e+15"].
Proof. vm_compute. reflexivity. Qed.
Example sprintf_g_demo :
  map (sprintf_g 12) [f_of_ratio 1 3; f_of_Z 123456789; f_of_Z (10 ^ 12); f_of_Z 1234567890123; f_of_ratio 25 2; fzero] =
  ["0.333333333333"; "123456789"; "1e+12"; "1.23456789012e+12"; "12.5"; "0"].
Proof. vm_compute. reflexivity. Qed.
Example json_float_demo :
  map json_float [f_of_ratio 1 10; f_of_Z (10 ^ 20); f_of_Z (10 ^ 21); f_of_ratio 1 10000000; fopp (f_of_ratio 5 2); S754_nan] =
  [Some "0.1"; Some "100000000000000000000"; Some "1e+21"; Some "1e-7"; Some "-2.5"; None].
Proof. vm_compute. reflexivity. Qed.

(** ** [url.Values.Encode] *)

(** Keys, each set once, in the order of their bytes. *)
Definition url_encode (params : list (string * string)) : string :=
  join "&" (map (λ kv, query_escape kv.1 +:+ "=" +:+ query_escape kv.2)
    (insertion_sort (λ a b : string * string, str_ltb a.1 b.1) params)).

Example url_encode_demo : url_encode [("step", "300"); ("query", "up{a=~b}")] = "query=up%7Ba%3D~b%7D&step=300".
Proof. vm_compute. reflexivity. Qed.
