(* ===== verification/JsonDoc.v ===== *)
(** * JSON documents as encoding/json reads and writes them

    The document tree, [json.Marshal] and [json.MarshalIndent] of it, the parser
    behind [json.Unmarshal] (white space, literals, numbers, strings, arrays, objects
    and nothing after the value; the limit of 10000 nested values is not modelled) and
    the rules by which a value is stored in a Go variable: [null] changes nothing,
    another kind of value is an error, object keys match field names up to case and
    unknown ones are skipped.  The parser reads back every text of a document, with
    any white space between its tokens; both writers produce such texts. *)

From stdpp Require Import base list strings gmap pretty.
From Stdlib Require Import ZArith Lia Ascii.
From S2P Require Import Prelude GoFloat GoText GoJson GoStd GoStrconv.

Local Open Scope string_scope.

(** A number is kept as its literal. *)
Inductive json :=
| JNull
| JBool (b : bool)
| JNum (lit : string)
| JStr (s : string)
| JArr (l : list json)
| JObj (ms : list (string * json)).

(** Induction with the hypothesis for every element. *)
Lemma json_nested_ind (P : json → Prop) :
  P JNull → (∀ b, P (JBool b)) → (∀ n, P (JNum n)) → (∀ s, P (JStr s)) →
  (∀ l, Forall P l → P (JArr l)) → (∀ ms, Forall (λ m, P m.2) ms → P (JObj ms)) →
  ∀ v, P v.
Proof.
  intros H0 H1 H2 H3 H4 H5. fix IH 1. intros [| | | |l|ms]; [done|auto|auto|auto| |].
  - apply H4. induction l; constructor; auto.
  - apply H5. induction ms as [|[k v] ms IHm]; constructor; auto.
Qed.

(** ** Writing *)

Definition member (k : string) (text : string) : string := json_quote k +:+ ":" +:+ text.

(** [json.Marshal], for a document whose members are in the order of the struct. *)
Fixpoint render (v : json) : string :=
  match v with
  | JNull => "null"
  | JBool b => bool_text b
  | JNum n => n
  | JStr s => json_quote s
  | JArr l => "[" +:+ join "," (map render l) +:+ "]"
  | JObj ms => "{" +:+ join "," (map (λ m, member m.1 (render m.2)) ms) +:+ "}"
  end.

(** [json.MarshalIndent(v, "", "  ")]: a line for each element and member, two more
    spaces for each level; nothing between the brackets of an empty value. *)
Fixpoint spaces (n : nat) : string := match n with O => "" | S n => String " " (spaces n) end.
Definition new_line (level : nat) : string := nl +:+ spaces (2 * level).

Fixpoint render_indent (level : nat) (v : json) : string :=
  match v with
  | JArr (x :: l) =>
      "[" +:+ join "," (map (λ v, new_line (S level) +:+ render_indent (S level) v) (x :: l)) +:+ new_line level +:+ "]"
  | JObj (m :: ms) =>
      "{" +:+ join "," (map (λ m, new_line (S level) +:+ json_quote m.1 +:+ ":" +:+ " " +:+ render_indent (S level) m.2) (m :: ms))
        +:+ new_line level +:+ "}"
  | _ => render v
  end.

(** A [float64]: infinities and NaN are errors. *)
Definition float_doc (f : float) : res json :=
  match json_float f with
  | Some lit => Ok (JNum lit)
  | None => Err (errorf ("json: unsupported value: " +:+ format_g f))
  end.

(** A struct: its fields in order, those tagged [omitempty] left out when empty; the
    first value that cannot be written is the error. *)
Definition field_value (k : string) (v : json) : res (list (string * json)) := Ok [(k, v)].
Definition field_omit (empty : bool) (k : string) (v : json) : res (list (string * json)) :=
  Ok (if empty then [] else [(k, v)]).
Definition field_string (k s : string) : res (list (string * json)) := field_value k (JStr s).
Definition field_text (k s : string) : res (list (string * json)) := field_omit (s =? "") k (JStr s).
Definition field_int (k : string) (z : Z) : res (list (string * json)) := field_value k (JNum (itoa z)).
Definition field_float (k : string) (f : float) : res (list (string * json)) := res_bind (float_doc f) (field_value k).
Definition field_float_ptr (k : string) (f : option float) : res (list (string * json)) :=
  match f with Some f => field_float k f | None => Ok [] end.
(** A slice tagged [omitempty]. *)
Definition field_slice {A} (k : string) (doc : A → res json) (l : list A) : res (list (string * json)) :=
  match l with [] => Ok [] | _ => res_bind (res_all (map doc l)) (λ ds, field_value k (JArr ds)) end.

Definition struct_doc (fields : list (res (list (string * json)))) : res json :=
  res_bind (res_all fields) (λ ms, Ok (JObj (concat ms))).

(** ** Reading *)

Definition is_json_space (a : ascii) : bool :=
  let n := byte_of a in ((n =? 32) || (n =? 9) || (n =? 10) || (n =? 13))%N.

Fixpoint skip_ws (s : string) : string :=
  match s with
  | String a r => if is_json_space a then skip_ws r else s
  | "" => ""
  end.

(** The body of a string literal with its closing quote, and what follows. *)
Fixpoint scan_literal (s : string) : option (string * string) :=
  match s with
  | "" => None
  | String a r =>
      if (a =? quote_char)%char then Some (String a "", r)
      else if (a =? backslash)%char then
        match r with
        | "" => None
        | String b r2 =>
            match scan_literal r2 with
            | Some (l, t) => Some (String a (String b l), t)
            | None => None
            end
        end
      else match scan_literal r with Some (l, t) => Some (String a l, t) | None => None end
  end.

Definition is_digit (a : ascii) : bool := in_range 48 57 a.
Arguments is_digit : simpl never.

Fixpoint scan_digits (s : string) : string * string :=
  match s with
  | String a r => if is_digit a then let '(d, t) := scan_digits r in (String a d, t) else ("", s)
  | "" => ("", "")
  end.

(** At least one digit, after a given prefix. *)
Definition some_digits (p s : string) : option (string * string) :=
  match scan_digits s with
  | ("", _) => None
  | (d, t) => Some (p +:+ d, t)
  end.

Definition scan_int (s : string) : option (string * string) :=
  match s with
  | String "0" r => Some ("0", r)
  | _ => some_digits "" s
  end.

Definition scan_frac (s : string) : option (string * string) :=
  match s with
  | String "." r => some_digits "." r
  | _ => Some ("", s)
  end.

Definition scan_exp (s : string) : option (string * string) :=
  match s with
  | String e r =>
      if (e =? "e")%char || (e =? "E")%char then
        match r with
        | String c r2 =>
            if (c =? "+")%char || (c =? "-")%char then some_digits (String e (String c "")) r2
            else some_digits (String e "") r
        | "" => None
        end
      else Some ("", s)
  | "" => Some ("", s)
  end.

Definition scan_number (s : string) : option (string * string) :=
  let '(sign, s) := match s with String "-" r => ("-", r) | _ => ("", s) end in
  match scan_int s with
  | None => None
  | Some (i, s) =>
      match scan_frac s with
      | None => None
      | Some (f, s) =>
          match scan_exp s with
          | None => None
          | Some (e, s) => Some (sign +:+ i +:+ f +:+ e, s)
          end
      end
  end.

(** The three words. *)
Definition scan_word (s : string) : option (json * string) :=
  if has_prefix s "null" then Some (JNull, str_drop 4 s)
  else if has_prefix s "true" then Some (JBool true, str_drop 4 s)
  else if has_prefix s "false" then Some (JBool false, str_drop 5 s)
  else None.

(** A value that is not an array or an object. *)
Definition scan_scalar (s : string) : option (json * string) :=
  match s with
  | String a r =>
      if (a =? quote_char)%char then
        match scan_literal r with
        | Some (l, t) => match unquote_body l with Some x => Some (JStr x, t) | None => None end
        | None => None
        end
      else if (a =? "-")%char || is_digit a then
        match scan_number s with Some (n, t) => Some (JNum n, t) | None => None end
      else scan_word s
  | "" => None
  end.

(** The text after a given byte and the white space before it. *)
Definition after (c : ascii) (s : string) : option string :=
  match skip_ws s with
  | String a t => if (a =? c)%char then Some t else None
  | "" => None
  end.

(** The key of a member, up to the colon. *)
Definition scan_key (s : string) : option (string * string) :=
  match after quote_char s with
  | None => None
  | Some r =>
      match scan_literal r with
      | None => None
      | Some (l, t) =>
          match unquote_body l, after ":" t with
          | Some k, Some t => Some (k, t)
          | _, _ => None
          end
      end
  end.

Fixpoint parse_value (fuel : nat) (s : string) : option (json * string) :=
  match fuel with
  | O => None
  | S fuel =>
      match after "[" s, after "{" s with
      | Some r, _ =>
          match after "]" r with
          | Some t => Some (JArr [], t)
          | None => match parse_elems fuel r with Some (l, t) => Some (JArr l, t) | None => None end
          end
      | None, Some r =>
          match after "}" r with
          | Some t => Some (JObj [], t)
          | None => match parse_members fuel r with Some (ms, t) => Some (JObj ms, t) | None => None end
          end
      | None, None => scan_scalar (skip_ws s)
      end
  end
with parse_elems (fuel : nat) (s : string) : option (list json * string) :=
  match fuel with
  | O => None
  | S fuel =>
      match parse_value fuel s with
      | None => None
      | Some (v, t) =>
          match after "," t, after "]" t with
          | Some t, _ => match parse_elems fuel t with Some (l, t) => Some (v :: l, t) | None => None end
          | None, Some t => Some ([v], t)
          | None, None => None
          end
      end
  end
with parse_members (fuel : nat) (s : string) : option (list (string * json) * string) :=
  match fuel with
  | O => None
  | S fuel =>
      match scan_key s with
      | None => None
      | Some (k, t) =>
          match parse_value fuel t with
          | None => None
          | Some (v, t) =>
              match after "," t, after "}" t with
              | Some t, _ =>
                  match parse_members fuel t with Some (ms, t) => Some ((k, v) :: ms, t) | None => None end
              | None, Some t => Some ([(k, v)], t)
              | None, None => None
              end
          end
      end
  end.

(** Two turns for a byte are enough. *)
Definition parse_fuel (s : string) : nat := 2 * String.length s + 2.

(** The document of [json.Unmarshal]; [None] is a syntax error. *)
Definition json_parse (s : string) : option json :=
  match parse_value (parse_fuel s) s with
  | Some (v, t) => if skip_ws t =? "" then Some v else None
  | None => None
  end.

(** ** Storing a value in a Go variable

    [None] is an [UnmarshalTypeError]; the variable's old value is an argument. *)

Definition dec_string (v : json) (old : string) : option string :=
  match v with JNull => Some old | JStr s => Some s | _ => None end.

Definition dec_bool (v : json) (old : bool) : option bool :=
  match v with JNull => Some old | JBool b => Some b | _ => None end.

Definition dec_int (v : json) (old : Z) : option Z :=
  match v with
  | JNull => Some old
  | JNum n => match atoi n with inl z => Some z | inr _ => None end
  | _ => None
  end.

(** A slice, its elements decoded into zero values. *)
Definition dec_list {A} (dec : json → option A) (v : json) : option (list A) :=
  match v with JNull => Some [] | JArr l => mapM dec l | _ => None end.

(** A [map[string]string]. *)
Definition dec_map (v : json) (old : gmap string string) : option (gmap string string) :=
  match v with
  | JNull => Some ∅
  | JObj ms => foldl (λ acc m, m' ← acc; x ← dec_string m.2 ""; Some (<[m.1:=x]> m')) (Some old) ms
  | _ => None
  end.

(** A struct: the setter takes each member in turn and skips the unknown. *)
Definition dec_struct {A} (set : string → json → A → option A) (v : json) (zero : A) : option A :=
  match v with
  | JNull => Some zero
  | JObj ms => foldl (λ acc m, acc ≫= set m.1 m.2) (Some zero) ms
  | _ => None
  end.

(** A value stored in an [interface{}]: every number in it must fit a [float64]. *)
Fixpoint numbers_fit (v : json) : bool :=
  match v with
  | JNum n => match parse_float n with Some _ => true | None => false end
  | JArr l => forallb numbers_fit l
  | JObj ms => forallb (λ m, numbers_fit m.2) ms
  | _ => true
  end.

(** [json.Unmarshal] into a variable: a syntax error, or what the decoder says. *)
Definition unmarshal `{GoLib} {A} (dec : json → option A) (body : string) : res A :=
  match json_parse body ≫= dec with
  | Some a => Ok a
  | None => Err (json_error body)
  end.

(** Go matches the name of a key up to case. *)
Definition key_is (k name : string) : bool := equal_fold k name.

Example json_parse_demo :
  json_parse (" {" +:+ member "a" " [1, -2.5e3 ,null]" +:+ " , " +:+ member "b" "{}" +:+ "} ") =
  Some (JObj [("a", JArr [JNum "1"; JNum "-2.5e3"; JNull]); ("b", JObj [])]).
Proof. vm_compute. reflexivity. Qed.
Example json_parse_rejects : map json_parse ["01"; "[1,]"; "nul"; "1 2"] = [None; None; None; None].
Proof. vm_compute. reflexivity. Qed.

(** ** Lemmas: string literals *)

Definition scan_then (p : string) (o : option (string * string)) : option (string * string) :=
  match o with Some (l, t) => Some (p +:+ l, t) | None => None end.

Lemma scan_quote_ascii a r :
  is_ascii a = true → scan_literal (quote_ascii a +:+ r) = scan_then (quote_ascii a) (scan_literal r).
Proof.
  intros Ha. destruct (scan_literal r) as [[l t]|] eqn:E;
    destruct a as [[] [] [] [] [] [] [] []]; try discriminate Ha; vm_compute (quote_ascii _);
    rewrite ?string_app_cons, ?string_app_nil_l; cbn; by rewrite E.
Qed.

Lemma scan_high a r : is_ascii a = false → scan_literal (String a r) = scan_then (String a "") (scan_literal r).
Proof. intros Ha. destruct (lead_byte a Ha) as (Hq & Hb & _). cbn [scan_literal]. by rewrite Hq, Hb. Qed.

Lemma in_range_high lo hi a : (128 <= lo)%N → in_range lo hi a = true → is_ascii a = false.
Proof. unfold in_range, is_ascii. intros Hlo [H%N.leb_le _]%andb_true_iff. apply N.ltb_ge. lia. Qed.

Ltac rune_high :=
  unfold rune2, rune3, rune4, continuation in *;
  repeat match goal with
  | H : (_ && _)%bool = true |- _ => apply andb_true_iff in H as [? ?]
  | H : (_ || _)%bool = true |- _ => apply orb_true_iff in H as [?|?]
  end;
  try (eapply in_range_high; [|eassumption]; lia).

Lemma rune2_high a b : rune2 a b = true → is_ascii b = false.
Proof. intros H. rune_high. Qed.

Lemma rune3_high a b c : rune3 a b c = true → is_ascii b = false ∧ is_ascii c = false.
Proof. intros H. split; rune_high. Qed.

Lemma rune4_high a b c d : rune4 a b c d = true → is_ascii b = false ∧ is_ascii c = false ∧ is_ascii d = false.
Proof. intros H. split_and!; rune_high. Qed.

Lemma scan_separator a b c r :
  is_separator a b c = true →
  let p := esc ("u202" +:+ String (hex_digit (byte_of c mod 16)) "") in
  scan_literal (p +:+ r) = scan_then p (scan_literal r).
Proof.
  intros [_ [H%N.eqb_eq|H%N.eqb_eq]%orb_true_iff]%andb_true_iff; rewrite H;
    cbv zeta; vm_compute (hex_digit _); destruct (scan_literal r) as [[l t]|] eqn:E; unfold esc;
    repeat rewrite ?string_app_cons, ?string_app_nil_l; simpl; by rewrite E.
Qed.

Lemma scan_then_app p q o : scan_then (p +:+ q) o = scan_then p (scan_then q o).
Proof. destruct o as [[l t]|]; [|done]. cbn. by rewrite string_app_assoc. Qed.

(** The reader finds the end of a quoted string. *)
Lemma scan_quote_body s rest :
  valid_utf8 s = true →
  scan_literal (quote_body s +:+ String quote_char rest) = Some (quote_body s +:+ String quote_char "", rest).
Proof.
  intros Hs. cut (scan_literal (quote_body s +:+ String quote_char rest)
    = scan_then (quote_body s) (Some (String quote_char "", rest))); [done|].
  revert s Hs. apply utf8_ind.
  - done.
  - intros a r Ha IH. simpl quote_body. rewrite Ha, <-string_app_assoc, scan_quote_ascii, IH by done.
    by rewrite scan_then_app.
  - intros a b r Ha H2 IH. cbn [quote_body]. rewrite Ha, H2, !string_app_cons.
    rewrite !scan_high by eauto using rune2_high. by rewrite IH.
  - intros a b c r Ha H2 H3 IH. cbn [quote_body]. rewrite Ha, H2, H3, <-string_app_assoc.
    destruct (rune3_high _ _ _ H3) as [Hb Hc]. destruct (is_separator a b c) eqn:Hsep.
    + rewrite (scan_separator a b c) by done. by rewrite IH, scan_then_app.
    + rewrite !string_app_cons, string_app_nil_l, !scan_high by done. by rewrite IH.
  - intros a b c d r Ha H2 H3 H4 IH. cbn [quote_body]. rewrite Ha, H2, H3, H4, !string_app_cons.
    destruct (rune4_high _ _ _ _ H4) as (Hb & Hc & Hd). rewrite !scan_high by done. by rewrite IH.
Qed.

(** ** Lemmas: numbers *)

Fixpoint all_digits (s : string) : bool :=
  match s with "" => true | String a r => is_digit a && all_digits r end.

Lemma all_digits_app s t : all_digits (s +:+ t) = all_digits s && all_digits t.
Proof. induction s as [|a s IH]; [done|]. rewrite string_app_cons. simpl. by rewrite IH, andb_assoc. Qed.

Lemma all_digits_cons a s : all_digits (String a s) = is_digit a && all_digits s.
Proof. done. Qed.

Definition no_digit_first (s : string) : bool :=
  match s with "" => true | String a _ => negb (is_digit a) end.

Lemma scan_digits_app d rest :
  all_digits d = true → no_digit_first rest = true → scan_digits (d +:+ rest) = (d, rest).
Proof.
  intros Hd Hr. induction d as [|a d IH].
  - rewrite string_app_nil_l. destruct rest as [|a rest]; [done|]. cbn in *. by apply negb_true_iff in Hr as ->.
  - cbn in Hd. apply andb_true_iff in Hd as [Ha Hd]. rewrite string_app_cons. cbn. by rewrite Ha, IH.
Qed.

Lemma pretty_N_char_digit x : (x < 10)%N → digit_of (pretty_N_char x) = Some (Z.of_N x) ∧
  is_digit (pretty_N_char x) = true ∧ (x ≠ 0%N → (pretty_N_char x =? "0")%char = false).
Proof.
  intros Hx. assert (x = 0 ∨ x = 1 ∨ x = 2 ∨ x = 3 ∨ x = 4 ∨ x = 5 ∨ x = 6 ∨ x = 7 ∨ x = 8 ∨ x = 9)%N
    as H by lia. by repeat destruct H as [->|H]; [..|subst x].
Qed.

(** The decimal text of a positive number: its digits, its value, its first digit. *)
Lemma pretty_N_go_digits x s :
  (0 < x)%N →
  ∃ a d, pretty_N_go x s = String a d +:+ s ∧ all_digits (String a d) = true ∧ (a =? "0")%char = false ∧
    ∀ acc t, digits_of acc (String a d +:+ t) =
      digits_of (acc * 10 ^ Z.of_nat (S (String.length d)) + Z.of_N x) t.
Proof.
  revert s. induction (N.lt_wf_0 x) as [x _ IH]; intros s Hx.
  rewrite pretty_N_go_step by done. pose proof (N.div_mod x 10 ltac:(done)) as Hdm.
  assert (x mod 10 < 10)%N as Hm by (by apply N.mod_lt).
  destruct (pretty_N_char_digit _ Hm) as (Hv & Hd & H0).
  destruct (decide (x / 10 = 0)%N) as [E|E].
  - rewrite E, pretty_N_go_0. exists (pretty_N_char (x mod 10)), "".
    split_and!; [done|by rewrite all_digits_cons, Hd|apply H0; lia|].
    intros acc t. rewrite string_app_cons, string_app_nil_l. cbn [digits_of]. rewrite Hv. f_equal.
    change (Z.of_nat (S (String.length ""))) with 1%Z. lia.
  - destruct (IH (x / 10)%N) with (s := String (pretty_N_char (x mod 10)) s) as (a & d & Hp & Ha & Hz & Hval);
      [by apply N.div_lt|lia|].
    exists a, (d +:+ String (pretty_N_char (x mod 10)) ""). split_and!; [| |done|].
    + rewrite Hp, <-string_app_cons, <-string_app_assoc. done.
    + by rewrite <-string_app_cons, all_digits_app, Ha, all_digits_cons, Hd.
    + intros acc t. rewrite <-string_app_cons, <-string_app_assoc, Hval, string_app_cons, string_app_nil_l.
      cbn [digits_of]. rewrite Hv. f_equal. rewrite string_length_app. cbn [String.length].
      rewrite Nat.add_1_r, !Nat2Z.inj_succ, !Z.pow_succ_r by lia. lia.
Qed.

(** [strconv.Itoa] writes digits that [strconv.Atoi] reads back. *)
Lemma itoa_positive p :
  ∃ a d, itoa (Zpos p) = String a d ∧ all_digits (String a d) = true ∧ (a =? "0")%char = false ∧
    unsigned_of (itoa (Zpos p)) = Some (Zpos p).
Proof.
  destruct (pretty_N_go_digits (Npos p) "") as (a & d & Hp & Hd & Hz & Hv); [done|].
  rewrite string_app_nil_r in Hp. exists a, d.
  assert (itoa (Zpos p) = String a d) as -> by (unfold itoa, pretty, pretty_Z, pretty, pretty_positive, pretty, pretty_N; done).
  split_and!; [done..|]. unfold unsigned_of. cbn [String.eqb]. specialize (Hv 0%Z "").
  rewrite string_app_nil_r in Hv. by rewrite Hv.
Qed.

(** A text that cannot continue a number. *)
Definition ends_number (s : string) : bool :=
  match s with
  | "" => true
  | String a _ => negb (is_digit a || (a =? ".")%char || (a =? "e")%char || (a =? "E")%char)
  end.

Lemma ends_number_rest s :
  ends_number s = true → no_digit_first s = true ∧ scan_frac s = Some ("", s) ∧ scan_exp s = Some ("", s).
Proof.
  destruct s as [|a s]; [done|]. cbn [ends_number]. intros H%negb_true_iff.
  repeat (apply orb_false_iff in H as [H ?]). split_and!.
  - cbn [no_digit_first]. by rewrite H.
  - unfold scan_frac. destruct a as [[] [] [] [] [] [] [] []]; by try discriminate.
  - unfold scan_exp. by repeat match goal with E : (_ =? _)%char = false |- _ => rewrite E; clear E end.
Qed.

Lemma scan_int_positive p rest :
  no_digit_first rest = true → scan_int (itoa (Zpos p) +:+ rest) = Some (itoa (Zpos p), rest).
Proof.
  destruct (itoa_positive p) as (a & d & E & Hd & Hz & _). rewrite E. intros Hr.
  assert (scan_int (String a d +:+ rest) = some_digits "" (String a d +:+ rest)) as ->.
  { rewrite string_app_cons. unfold scan_int. apply Ascii.eqb_neq in Hz.
    destruct a as [[] [] [] [] [] [] [] []]; done || (by destruct Hz). }
  unfold some_digits. by rewrite scan_digits_app.
Qed.

Lemma scan_number_itoa z rest :
  ends_number rest = true → scan_number (itoa z +:+ rest) = Some (itoa z, rest).
Proof.
  intros Hr. destruct (ends_number_rest _ Hr) as (Hd & Hf & He). destruct z as [|p|p].
  - change (itoa 0) with "0". unfold scan_number. rewrite string_app_cons, string_app_nil_l. cbn [scan_int].
    by rewrite Hf, He.
  - pose proof (scan_int_positive p rest Hd) as Hi. destruct (itoa_positive p) as (a & d & E & Ha & _).
    unfold scan_number. rewrite E in *. rewrite string_app_cons in *.
    assert (a ≠ "-"%char) as Hm.
    { intros ->. rewrite all_digits_cons in Ha. by apply andb_true_iff in Ha as [? _]. }
    assert ((match String a (d +:+ rest) with String "-" r => ("-", r) | _ => ("", String a (d +:+ rest)) end)
      = ("", String a (d +:+ rest))) as -> by (destruct a as [[] [] [] [] [] [] [] []]; done || (by destruct Hm)).
    rewrite Hi, Hf, He. by rewrite string_app_nil_l, !string_app_nil_r.
  - pose proof (scan_int_positive p rest Hd) as Hi. unfold scan_number.
    change (itoa (Zneg p)) with ("-" +:+ itoa (Zpos p)). rewrite <-string_app_assoc, string_app_cons, string_app_nil_l.
    rewrite Hi, Hf, He. by rewrite string_app_nil_l, !string_app_nil_r.
Qed.

(** [strconv.Atoi] after [strconv.Itoa]. *)
Lemma atoi_itoa z : is_int64 z → atoi (itoa z) = inl z.
Proof.
  intros Hz. unfold is_int64 in Hz.
  assert ((int64_min <=? z)%Z && (z <=? int64_max)%Z = true) as Hb
    by (apply andb_true_iff; split; apply Z.leb_le; lia).
  destruct z as [|p|p]; [done| |].
  - destruct (itoa_positive p) as (a & d & E & Ha & _ & Hu). unfold atoi. rewrite E in *.
    assert ((a =? "-")%char = false ∧ (a =? "+")%char = false) as [-> ->].
    { rewrite all_digits_cons in Ha. apply andb_true_iff in Ha as [Ha _].
      destruct a as [[] [] [] [] [] [] [] []]; done. }
    by rewrite Hu, Hb.
  - destruct (itoa_positive p) as (a & d & _ & _ & _ & Hu). unfold atoi.
    change (itoa (Zneg p)) with ("-" +:+ itoa (Zpos p)). rewrite string_app_cons, string_app_nil_l.
    rewrite Ascii.eqb_refl, Hu. cbn [option_map]. change (- Zpos p)%Z with (Zneg p). by rewrite Hb.
Qed.

(** ** Reading what was written *)

(** How the fields of a struct come to be written: one lemma for a kind of field. *)
Create HintDb fields.

(** The literals a number may have. *)
Definition json_number (n : string) : Prop :=
  (∃ a t, n = String a t ∧ (a =? "-")%char || is_digit a = true) ∧
  ∀ rest, ends_number rest = true → scan_number (n +:+ rest) = Some (n, rest).

(** White space. *)
Fixpoint blank (w : string) : bool :=
  match w with "" => true | String a r => is_json_space a && blank r end.

(** The texts of a document: any white space between its tokens. *)
Inductive writes : json → string → Prop :=
| writes_null : writes JNull "null"
| writes_bool b : writes (JBool b) (bool_text b)
| writes_num n : json_number n → writes (JNum n) n
| writes_str s : valid_utf8 s = true → writes (JStr s) (json_quote s)
| writes_arr_nil w : blank w = true → writes (JArr []) ("[" +:+ w +:+ "]")
| writes_arr l t : writes_elems l t → writes (JArr l) ("[" +:+ t +:+ "]")
| writes_obj_nil w : blank w = true → writes (JObj []) ("{" +:+ w +:+ "}")
| writes_obj ms t : writes_members ms t → writes (JObj ms) ("{" +:+ t +:+ "}")
with writes_elems : list json → string → Prop :=
| writes_last w v t w' : blank w = true → writes v t → blank w' = true → writes_elems [v] (w +:+ t +:+ w')
| writes_more w v t w' l u :
    blank w = true → writes v t → blank w' = true → writes_elems l u →
    writes_elems (v :: l) (w +:+ t +:+ w' +:+ "," +:+ u)
with writes_members : list (string * json) → string → Prop :=
| writes_last_member w k x v t w' :
    blank w = true → valid_utf8 k = true → blank x = true → writes v t → blank w' = true →
    writes_members [(k, v)] (w +:+ json_quote k +:+ ":" +:+ x +:+ t +:+ w')
| writes_more_members w k x v t w' ms u :
    blank w = true → valid_utf8 k = true → blank x = true → writes v t → blank w' = true → writes_members ms u →
    writes_members ((k, v) :: ms) (w +:+ json_quote k +:+ ":" +:+ x +:+ t +:+ w' +:+ "," +:+ u).

Scheme writes_mut := Induction for writes Sort Prop
  with writes_elems_mut := Induction for writes_elems Sort Prop
  with writes_members_mut := Induction for writes_members Sort Prop.
Combined Scheme writes_all_ind from writes_mut, writes_elems_mut, writes_members_mut.

Lemma skip_blank w s : blank w = true → skip_ws (w +:+ s) = skip_ws s.
Proof.
  induction w as [|a w IH]; [by rewrite string_app_nil_l|]. cbn [blank]. intros [Ha Hw]%andb_true_iff.
  rewrite string_app_cons. cbn [skip_ws]. rewrite Ha. auto.
Qed.

Lemma after_blank c w s : blank w = true → after c (w +:+ s) = after c s.
Proof. intros Hw. unfold after. by rewrite skip_blank. Qed.

Lemma after_head c a t : is_json_space a = false → after c (String a t) = if (a =? c)%char then Some t else None.
Proof. intros Ha. unfold after. cbn [skip_ws]. by rewrite Ha. Qed.

Lemma after_same c t : is_json_space c = false → after c (String c t) = Some t.
Proof. intros Hc. by rewrite after_head, Ascii.eqb_refl. Qed.

Lemma skip_ws_head a t : is_json_space a = false → skip_ws (String a t) = String a t.
Proof. intros Ha. cbn [skip_ws]. by rewrite Ha. Qed.

Lemma parse_value_blank n w s : blank w = true → parse_value n (w +:+ s) = parse_value n s.
Proof. intros Hw. destruct n; [done|]. cbn [parse_value]. by rewrite !after_blank, skip_blank by done. Qed.

Lemma ends_blank w s : blank w = true → ends_number s = true → ends_number (w +:+ s) = true.
Proof.
  destruct w as [|a w]; [by rewrite string_app_nil_l|]. cbn [blank]. intros [Ha _]%andb_true_iff _.
  rewrite string_app_cons. by destruct a as [[] [] [] [] [] [] [] []].
Qed.

(** A value starts with a byte that is neither white space nor the end of a list. *)
Definition opens (t : string) : Prop :=
  ∃ a r, t = String a r ∧ is_json_space a = false ∧ (a =? "]")%char = false ∧ (a =? "}")%char = false.

Lemma number_head a : (a =? "-")%char || is_digit a = true →
  is_json_space a = false ∧ (a =? "]")%char = false ∧ (a =? "}")%char = false ∧ (a =? "[")%char = false ∧
  (a =? "{")%char = false ∧ (a =? quote_char)%char = false.
Proof. destruct a as [[] [] [] [] [] [] [] []]; intros Ha; try discriminate Ha; by split_and!. Qed.

Lemma writes_opens v t : writes v t → opens t.
Proof.
  destruct 1 as [|[]|n [(a & t & -> & Ha) _]| | | | |]; try (rewrite ?string_app_cons; by do 2 eexists).
  destruct (number_head a Ha) as (? & ? & ? & _). by do 2 eexists.
Qed.

Lemma opens_not_closed c w t s : blank w = true → opens t → (c = "]" ∨ c = "}")%char → after c (w +:+ t +:+ s) = None.
Proof.
  intros Hw (a & r & -> & Hs & H1 & H2) Hc. rewrite after_blank, string_app_cons, after_head by done.
  destruct Hc as [->| ->]; by rewrite ?H1, ?H2.
Qed.

(** What the parser finds at the text of a value, of a list of elements and of
    members up to the closing byte. *)
Definition parses (v : json) (t : string) : Prop := ∀ fuel rest,
  (2 * String.length t + 1 ≤ fuel)%nat → ends_number rest = true → parse_value fuel (t +:+ rest) = Some (v, rest).
Definition parses_elems (l : list json) (t : string) : Prop := ∀ fuel rest,
  (2 * String.length t + 2 ≤ fuel)%nat →
  parse_elems fuel (t +:+ String "]" rest) = Some (l, rest) ∧ after "]" (t +:+ String "]" rest) = None.
Definition parses_members (ms : list (string * json)) (t : string) : Prop := ∀ fuel rest,
  (2 * String.length t + 2 ≤ fuel)%nat →
  parse_members fuel (t +:+ String "}" rest) = Some (ms, rest) ∧ after "}" (t +:+ String "}" rest) = None.

Lemma scan_key_quote w k x t :
  blank w = true → valid_utf8 k = true → blank x = true →
  scan_key (w +:+ json_quote k +:+ ":" +:+ x +:+ t) = Some (k, x +:+ t).
Proof.
  intros Hw Hk Hx. unfold scan_key, json_quote. rewrite after_blank by done. rewrite !string_app_cons, after_same by done.
  rewrite <-!string_app_assoc, !string_app_cons, !string_app_nil_l, scan_quote_body, unquote_quote_body by done.
  by rewrite after_same.
Qed.

Lemma prefix_app p s : has_prefix (p +:+ s) p = true.
Proof.
  unfold has_prefix. induction p as [|a p IH]; [by destruct s|]. rewrite string_app_cons. cbn.
  by destruct (ascii_dec a a).
Qed.

Lemma parse_scalar v fuel a t rest :
  (a =? "[")%char = false → (a =? "{")%char = false → is_json_space a = false →
  scan_scalar (String a t +:+ rest) = Some (v, rest) → parse_value (S fuel) (String a t +:+ rest) = Some (v, rest).
Proof.
  intros H1 H2 Hs Hv. rewrite string_app_cons in *. cbn [parse_value].
  rewrite !after_head, H1, H2, skip_ws_head by done. exact Hv.
Qed.

Lemma scan_word_render w v rest :
  (w = "null" ∧ v = JNull) ∨ (w = "true" ∧ v = JBool true) ∨ (w = "false" ∧ v = JBool false) →
  scan_scalar (w +:+ rest) = Some (v, rest).
Proof.
  assert (∀ p, has_prefix (p +:+ rest) p = true) as Hp by (intros; apply prefix_app).
  assert (∀ p, str_drop (String.length p) (p +:+ rest) = rest) as Hd by (intros; apply str_drop_app).
  intros [[-> ->]|[[-> ->]|[-> ->]]].
  - change (scan_word ("null" +:+ rest) = Some (JNull, rest)). unfold scan_word. rewrite Hp.
    do 2 f_equal. apply (Hd "null").
  - change (scan_word ("true" +:+ rest) = Some (JBool true, rest)). unfold scan_word.
    change (has_prefix ("true" +:+ rest) "null") with false. rewrite (Hp "true"). do 2 f_equal. apply (Hd "true").
  - change (scan_word ("false" +:+ rest) = Some (JBool false, rest)). unfold scan_word.
    change (has_prefix ("false" +:+ rest) "null") with false. change (has_prefix ("false" +:+ rest) "true") with false.
    rewrite (Hp "false"). do 2 f_equal. apply (Hd "false").
Qed.

Lemma parses_number n : json_number n → parses (JNum n) n.
Proof.
  intros [(a & t & -> & Ha) Hn] [|fuel] rest Hf Hr; [lia|].
  destruct (number_head a Ha) as (Hs & _ & _ & H1 & H2 & Hq). apply parse_scalar; [done..|].
  specialize (Hn rest Hr). rewrite string_app_cons in *. cbn [scan_scalar]. by rewrite Hq, Ha, Hn.
Qed.

Lemma parses_string s : valid_utf8 s = true → parses (JStr s) (json_quote s).
Proof.
  intros Hs [|fuel] rest Hf Hr; [lia|]. unfold json_quote. apply parse_scalar; [done..|].
  rewrite string_app_cons, <-string_app_assoc, string_app_cons, string_app_nil_l. cbn [scan_scalar].
  rewrite Ascii.eqb_refl, scan_quote_body by done. by rewrite unquote_quote_body.
Qed.

Ltac flat := rewrite <-?string_app_assoc, ?string_app_cons, ?string_app_nil_l.

Lemma parses_bracket v p q t rest fuel (c : ascii) :
  (2 * String.length (p +:+ t +:+ q) + 1 ≤ fuel)%nat → p = String c "" → String.length q = 1 →
  (∀ fuel, (2 * String.length t + 2 ≤ fuel)%nat → parse_value (S fuel) (String c (t +:+ q +:+ rest)) = Some (v, rest)) →
  parse_value fuel ((p +:+ t +:+ q) +:+ rest) = Some (v, rest).
Proof.
  rewrite !string_length_app. intros Hf -> Hq H. destruct fuel as [|fuel]; [simpl in *; lia|]. flat. apply H. simpl in *; lia.
Qed.

(** The parser reads every text of a document. *)
Lemma parse_writes :
  (∀ v t, writes v t → parses v t) ∧ (∀ l t, writes_elems l t → parses_elems l t) ∧
  (∀ ms t, writes_members ms t → parses_members ms t).
Proof.
  apply writes_all_ind.
  - intros [|fuel] rest Hf Hr; [lia|]. apply parse_scalar; [done..|]. apply (scan_word_render "null"). by left.
  - intros b [|fuel] rest Hf Hr; [lia|]. destruct b; (apply parse_scalar; [done..|]);
      [apply (scan_word_render "true")|apply (scan_word_render "false")]; auto.
  - intros n Hn. by apply parses_number.
  - intros s Hs. by apply parses_string.
  - intros w Hw fuel rest Hf Hr. eapply parses_bracket; [done..|]. intros n Hn. cbn [parse_value].
    flat. by rewrite after_same, after_blank, after_same.
  - intros l t _ IH fuel rest Hf Hr. eapply parses_bracket; [done..|]. intros n Hn. cbn [parse_value].
    flat. rewrite after_same by done. by destruct (IH n rest Hn) as [-> ->].
  - intros w Hw fuel rest Hf Hr. eapply parses_bracket; [done..|]. intros n Hn. cbn [parse_value].
    flat. rewrite after_head by done. cbn iota. by rewrite after_same, after_blank, after_same.
  - intros l t _ IH fuel rest Hf Hr. eapply parses_bracket; [done..|]. intros n Hn. cbn [parse_value].
    flat. rewrite after_head by done. cbn iota. rewrite after_same by done. by destruct (IH n rest Hn) as [-> ->].
  - intros w v t w' Hw Hv IH Hw' [|fuel] rest Hf; [lia|]. rewrite !string_length_app in Hf. flat.
    split; [|apply opens_not_closed; eauto using writes_opens]. cbn [parse_elems].
    rewrite parse_value_blank, IH by (done || lia || by apply ends_blank).
    by rewrite !after_blank, after_head, after_same by done.
  - intros w v t w' l u Hw Hv IH Hw' _ IHl [|fuel] rest Hf; [lia|]. rewrite !string_length_app in Hf. flat.
    split; [|apply opens_not_closed; eauto using writes_opens]. cbn [parse_elems]. simpl in Hf.
    rewrite parse_value_blank, IH by (done || lia || by apply ends_blank).
    rewrite !after_blank, after_same by done. by destruct (IHl fuel rest) as [-> _]; [lia|].
  - intros w k x v t w' Hw Hk Hx Hv IH Hw' [|fuel] rest Hf; [lia|]. rewrite !string_length_app in Hf. flat.
    split; [|rewrite after_blank by done; apply after_head; done]. cbn [parse_members].
    pose proof (scan_key_quote w k x (t +:+ w' +:+ String "}" rest) Hw Hk Hx) as Hkey. revert Hkey. flat. intros ->.
    rewrite parse_value_blank, IH by (done || lia || by apply ends_blank).
    by rewrite !after_blank, after_head, after_same by done.
  - intros w k x v t w' ms u Hw Hk Hx Hv IH Hw' _ IHl [|fuel] rest Hf; [lia|]. rewrite !string_length_app in Hf. flat.
    split; [|rewrite after_blank by done; apply after_head; done]. cbn [parse_members]. simpl in Hf.
    pose proof (scan_key_quote w k x (t +:+ w' +:+ String "," (u +:+ String "}" rest)) Hw Hk Hx) as Hkey. revert Hkey. flat. intros ->.
    rewrite parse_value_blank, IH by (done || lia || by apply ends_blank).
    rewrite !after_blank, after_same by done. by destruct (IHl fuel rest) as [-> _]; [lia|].
Qed.

(** Parsing a text of a document gives the document, with white space after it too. *)
Lemma json_parse_blank v t w : writes v t → blank w = true → json_parse (t +:+ w) = Some v.
Proof.
  intros Hv Hw. destruct parse_writes as (H & _). unfold json_parse. rewrite (H v t Hv).
  - rewrite <-(string_app_nil_r w), skip_blank by done. done.
  - unfold parse_fuel. rewrite string_length_app. lia.
  - rewrite <-(string_app_nil_r w). by apply ends_blank.
Qed.

Lemma json_parse_writes v t : writes v t → json_parse t = Some v.
Proof. intros Hv. rewrite <-(string_app_nil_r t). by apply json_parse_blank. Qed.

(** *** The literals that are written *)

Lemma json_number_itoa z : json_number (itoa z).
Proof.
  split; [|intros; by apply scan_number_itoa]. destruct z as [|p|p]; [by do 2 eexists| |by do 2 eexists].
  destruct (itoa_positive p) as (a & d & E & Ha & _). exists a, d. split; [done|].
  rewrite all_digits_cons in Ha. apply andb_true_iff in Ha as [-> _]. by rewrite orb_true_r.
Qed.

Lemma valid_digits s : all_digits s = true → valid_utf8 s = true.
Proof.
  induction s as [|a s IH]; [done|]. rewrite all_digits_cons. intros [Ha Hs]%andb_true_iff. cbn [valid_utf8].
  assert (is_ascii a = true) as -> by (destruct a as [[] [] [] [] [] [] [] []]; try discriminate Ha; done). auto.
Qed.

Lemma valid_itoa z : valid_utf8 (itoa z) = true.
Proof.
  destruct z as [|p|p]; [done| |]; destruct (itoa_positive p) as (a & d & E & Hd & _).
  - rewrite E. by apply valid_digits.
  - change (itoa (Z.neg p)) with ("-" +:+ itoa (Z.pos p)). rewrite E, string_app_cons, string_app_nil_l.
    by apply (valid_digits (String a d)).
Qed.

Lemma string_last s : s = "" ∨ ∃ p b, s = p +:+ String b "".
Proof.
  induction s as [|a s [->|(p & b & ->)]]; [by left|right..]; [by exists "", a|].
  exists (String a p), b. by rewrite string_app_cons.
Qed.

(** A number is not trimmed. *)
Lemma trim_digits s : all_digits s = true → trim_space s = s.
Proof.
  assert (∀ c, is_digit c = true → visible c = true) as Hv by (by intros [[] [] [] [] [] [] [] []]).
  destruct s as [|a s]; [done|]. rewrite all_digits_cons. intros [Ha Hs]%andb_true_iff.
  destruct (string_last s) as [->|(p & b & ->)].
  - unfold trim_space. rewrite trim_left_visible by auto. change (String.rev (String a "")) with (String a "").
    by rewrite trim_rev_visible by auto.
  - rewrite all_digits_app, all_digits_cons in Hs. apply andb_true_iff in Hs as [_ [Hb _]%andb_true_iff].
    apply trim_space_visible; auto.
Qed.

Lemma trim_space_itoa z : (0 ≤ z)%Z → trim_space (itoa z) = itoa z.
Proof.
  intros Hz. destruct z as [|p|p]; [done| |lia]. destruct (itoa_positive p) as (a & d & -> & Hd & _).
  by apply trim_digits.
Qed.

(** The parts of a literal: the whole part, the fraction, the exponent. *)
Definition whole_part (i : string) : Prop :=
  i = "0" ∨ ∃ a d, i = String a d ∧ all_digits i = true ∧ (a =? "0")%char = false.
Definition digits_1 (d : string) : Prop := ∃ a r, d = String a r ∧ all_digits d = true.
Definition frac_part (f : string) : Prop := f = "" ∨ ∃ d, f = String "." d ∧ digits_1 d.
Definition exp_part (x : string) : Prop :=
  x = "" ∨ ∃ c d, x = String "e" (String c d) ∧ ((c =? "+")%char || (c =? "-")%char) = true ∧ digits_1 d.

Lemma some_digits_app p d rest :
  digits_1 d → no_digit_first rest = true → some_digits p (d +:+ rest) = Some (p +:+ d, rest).
Proof. intros (a & r & -> & Hd) Hr. unfold some_digits. by rewrite scan_digits_app. Qed.

Lemma no_digit_exp x rest : exp_part x → no_digit_first rest = true → no_digit_first (x +:+ rest) = true.
Proof. intros [->|(c & d & -> & _)] Hr; by rewrite ?string_app_nil_l, ?string_app_cons. Qed.

Lemma scan_exp_part x rest : exp_part x → ends_number rest = true → scan_exp (x +:+ rest) = Some (x, rest).
Proof.
  intros [->|(c & d & -> & Hc & Hd)] Hr; destruct (ends_number_rest _ Hr) as (Hn & _ & He).
  - by rewrite string_app_nil_l.
  - rewrite !string_app_cons. cbn [scan_exp]. rewrite Ascii.eqb_refl. cbn [orb]. by rewrite Hc, some_digits_app.
Qed.

Lemma scan_frac_part f x rest :
  frac_part f → exp_part x → ends_number rest = true → scan_frac (f +:+ x +:+ rest) = Some (f, x +:+ rest).
Proof.
  intros Hf Hx Hr. destruct (ends_number_rest _ Hr) as (Hn & Hfr & _). destruct Hf as [->|(d & -> & Hd)].
  - rewrite string_app_nil_l. destruct Hx as [->|(c & e & -> & _)]; [by rewrite string_app_nil_l|].
    by rewrite !string_app_cons.
  - rewrite string_app_cons. cbn [scan_frac]. by rewrite some_digits_app by (auto using no_digit_exp).
Qed.

Lemma no_digit_frac f x rest :
  frac_part f → exp_part x → ends_number rest = true → no_digit_first (f +:+ x +:+ rest) = true.
Proof.
  intros [->|(d & -> & _)] Hx (Hn & _)%ends_number_rest; [|done]. rewrite string_app_nil_l. by apply no_digit_exp.
Qed.

Lemma scan_int_part i rest : whole_part i → no_digit_first rest = true → scan_int (i +:+ rest) = Some (i, rest).
Proof.
  intros [->|(a & d & -> & Hd & Hz)] Hr; [done|].
  assert (scan_int (String a d +:+ rest) = some_digits "" (String a d +:+ rest)) as ->.
  { rewrite string_app_cons. unfold scan_int. apply Ascii.eqb_neq in Hz.
    destruct a as [[] [] [] [] [] [] [] []]; done || (by destruct Hz). }
  rewrite some_digits_app; [done|by do 2 eexists|done].
Qed.

Lemma whole_head i : whole_part i → ∃ a d, i = String a d ∧ is_digit a = true ∧ a ≠ "-"%char.
Proof.
  intros [->|(a & d & -> & Hd & _)]; [by do 2 eexists|]. rewrite all_digits_cons in Hd.
  apply andb_true_iff in Hd as [Ha _]. exists a, d. split_and!; [done..|]. by intros ->.
Qed.

Lemma json_number_parts (neg : bool) i f x :
  whole_part i → frac_part f → exp_part x → json_number ((if neg then "-" else "") +:+ i +:+ f +:+ x).
Proof.
  intros Hi Hf Hx. destruct (whole_head i Hi) as (a & d & E & Ha & Hm). split.
  { destruct neg; [by do 2 eexists|]. rewrite string_app_nil_l, E, string_app_cons. do 2 eexists. split; [done|].
    by rewrite Ha, orb_true_r. }
  intros rest Hr. rewrite <-!string_app_assoc. unfold scan_number.
  assert (match (if neg then "-" else "") +:+ i +:+ f +:+ x +:+ rest with String "-" r => ("-", r)
    | _ => ("", (if neg then "-" else "") +:+ i +:+ f +:+ x +:+ rest) end
    = (if neg then "-" else "", i +:+ f +:+ x +:+ rest)) as ->.
  { destruct neg; [done|]. rewrite string_app_nil_l, E, string_app_cons.
    destruct a as [[] [] [] [] [] [] [] []]; done || by destruct Hm. }
  rewrite scan_int_part by eauto using no_digit_frac. rewrite scan_frac_part by done. by rewrite scan_exp_part.
Qed.

Lemma all_digits_zeros n : all_digits (zeros n) = true.
Proof. by induction n. Qed.

Lemma all_digits_itoa z : (0 ≤ z)%Z → all_digits (itoa z) = true.
Proof. destruct z as [|p|p]; [done| |lia]. by destruct (itoa_positive p) as (a & d & -> & ? & _). Qed.

Lemma digits_1_itoa z : (0 ≤ z)%Z → digits_1 (itoa z).
Proof.
  intros Hz. pose proof (all_digits_itoa z Hz) as H. destruct z as [|p|p]; [by do 2 eexists| |lia].
  destruct (itoa_positive p) as (a & d & E & _). rewrite E in *. by do 2 eexists.
Qed.

Lemma digits_1_app_r p d : all_digits p = true → digits_1 d → digits_1 (p +:+ d).
Proof.
  intros Hp (a & r & -> & Hd). destruct p as [|b p]; [rewrite string_app_nil_l; by do 2 eexists|].
  rewrite string_app_cons. do 2 eexists. split; [done|]. by rewrite <-string_app_cons, all_digits_app, Hp, Hd.
Qed.

Lemma pad_int_digits w z : (0 ≤ z)%Z → digits_1 (pad_int w z).
Proof.
  intros Hz. unfold pad_int. destruct (z <? 0)%Z eqn:E; [lia|]. unfold pad_zeros.
  apply digits_1_app_r; auto using all_digits_zeros, digits_1_itoa.
Qed.

Lemma exponent_text_part x : exp_part (exponent_text x).
Proof.
  right. exists (if (x <? 0)%Z then "-" else "+")%char, (pad_int 2 (Z.abs x)).
  unfold exponent_text. destruct (x <? 0)%Z; split_and!; try done; apply pad_int_digits; lia.
Qed.

Lemma json_exponent_part x : exp_part (json_exponent x).
Proof.
  unfold json_exponent. destruct (_ && _) eqn:E; [|apply exponent_text_part].
  right. exists "-"%char, (itoa (- x)). split_and!; [done..|]. apply digits_1_itoa. lia.
Qed.

(** Digits without a leading zero. *)
Definition leads (s : string) : Prop := ∃ a d, s = String a d ∧ all_digits s = true ∧ (a =? "0")%char = false.
Definition decimal_ok (d : decimal) : Prop := (d = mkDecimal "" 0) ∨ leads (dc_digits d).

Lemma trim_zeros_rev_suffix s : ∃ p, s = p +:+ trim_zeros_rev s ∧ all_bytes (λ a, (a =? "0")%char) p = true.
Proof.
  induction s as [|a s (p & E & Hp)]; [by exists ""|]. cbn [trim_zeros_rev]. destruct (a =? "0")%char eqn:Ha.
  - exists (String a p). rewrite string_app_cons, <-E. split; [done|]. cbn. by rewrite Ha.
  - by exists "".
Qed.

Lemma trim_zeros_leads s : leads s → leads (trim_zeros s).
Proof.
  intros (a & d & -> & Hd & Ha). destruct (trim_zeros_rev_suffix (String.rev (String a d))) as (p & E & Hp).
  apply (f_equal String.rev) in E. rewrite rev_involutive, rev_append in E. fold (trim_zeros (String a d)) in E.
  destruct (trim_zeros (String a d)) as [|b r].
  - rewrite string_app_nil_l in E. assert (all_bytes (λ a, (a =? "0")%char) (String.rev p) = true) as H0.
    { clear -Hp. induction p as [|c p IH]; [done|]. rewrite rev_cons, all_bytes_app. cbn in *.
      apply andb_true_iff in Hp as [-> Hp]. by rewrite IH. }
    rewrite <-E in H0. cbn in H0. by rewrite Ha in H0.
  - rewrite string_app_cons in E. injection E as -> E. do 2 eexists. split_and!; [done| |done].
    rewrite E, <-string_app_cons, all_digits_app in Hd. by apply andb_true_iff in Hd as [? _].
Qed.

Lemma decimal_of_ok c k : (0 ≤ c)%Z → decimal_ok (decimal_of c k).
Proof.
  intros Hc. unfold decimal_of. destruct (Z.eqb_spec c 0) as [|Hn]; [by left|right]. cbn [dc_digits].
  apply trim_zeros_leads. destruct c as [|p|p]; [done| |lia].
  destruct (itoa_positive p) as (a & d & -> & ? & ? & _). by do 2 eexists.
Qed.

Lemma scaled_nonneg num den k : (0 < num)%Z → (0 < den)%Z → (0 ≤ (scaled num den k).1)%Z.
Proof.
  intros Hn Hd. unfold scaled. destruct (Z.leb_spec 0 k); cbn [fst]; apply Z.div_pos; lia.
Qed.

Lemma as_ratio_pos m e : (0 < (as_ratio m e).1)%Z ∧ (0 < (as_ratio m e).2)%Z.
Proof.
  unfold as_ratio. destruct (Z.leb_spec 0 e); cbn [fst snd]; split; lia.
Qed.

Lemma nearest_nonneg lo c : (0 ≤ lo)%Z → (0 ≤ nearest lo c)%Z.
Proof. intros. unfold nearest. destruct c; try lia. destruct (Z.even lo); lia. Qed.

Lemma round_digits_ok n m e : decimal_ok (round_digits n m e).
Proof.
  unfold round_digits. pose proof (as_ratio_pos m e) as [Hn Hd]. destruct (as_ratio m e) as [num den]. cbn [fst snd] in *.
  pose proof (scaled_nonneg num den (n - point_of num den) Hn Hd). destruct (scaled _ _ _) as [lo c].
  by apply decimal_of_ok, nearest_nonneg.
Qed.

Lemma reading_back_ok n m e d : reading_back n m e = Some d → decimal_ok d.
Proof.
  unfold reading_back. pose proof (as_ratio_pos m e) as [Hn Hd]. destruct (as_ratio m e) as [num den]. cbn [fst snd] in *.
  pose proof (scaled_nonneg num den (n - point_of num den) Hn Hd) as Hlo. destruct (scaled _ _ _) as [lo c]. cbn [fst] in Hlo.
  destruct (feqb _ _), (feqb _ _); intros [= <-]; apply decimal_of_ok; auto using nearest_nonneg; lia.
Qed.

Lemma shortest_ok m e : decimal_ok (shortest m e).
Proof.
  unfold shortest. generalize 1%Z as n. generalize 17%nat as fuel. induction fuel as [|fuel IH]; intros n; cbn [shortest_from].
  - apply round_digits_ok.
  - destruct (reading_back n m e) eqn:E; [|apply IH]. by eapply reading_back_ok.
Qed.

Lemma all_digits_take n s : all_digits s = true → all_digits (str_take n s) = true.
Proof.
  revert n. induction s as [|a s IH]; intros [|n]; try done. unfold str_take. cbn. intros [-> ?]%andb_true_iff. by apply IH.
Qed.

Lemma str_drop_S n a s : str_drop (S n) (String a s) = str_drop n s.
Proof. done. Qed.
Lemma str_drop_0 s : str_drop 0 s = s.
Proof. unfold str_drop. rewrite Nat.sub_0_r. by apply substring_all. Qed.

Lemma digits_1_drop n s : all_digits s = true → (n < String.length s)%nat → digits_1 (str_drop n s).
Proof.
  revert n. induction s as [|a s IH]; intros n Hs Hn; [simpl in Hn; lia|]. destruct n as [|n].
  - rewrite str_drop_0. by do 2 eexists.
  - rewrite str_drop_S. rewrite all_digits_cons in Hs. apply andb_true_iff in Hs as [_ Hs]. apply IH; [done|simpl in Hn; lia].
Qed.

(** The text of a number with a written-out fraction or exponent. *)
Definition unsigned_literal (t : string) : Prop :=
  ∃ i f x, t = i +:+ f +:+ x ∧ whole_part i ∧ frac_part f ∧ exp_part x.

Lemma f_text_literal d : decimal_ok d → unsigned_literal (f_text d).
Proof.
  intros [->|(a & r & E & Hd & Ha)]; [exists "0", "", ""; split_and!; [done|by left..]|].
  unfold f_text. rewrite E in *. set (dp := dc_point d). set (n := Z.of_nat (String.length (String a r))).
  set (whole := if (dp <=? 0)%Z then "0" else _).
  assert (whole_part whole) as Hw.
  { subst whole. destruct (Z.leb_spec dp 0); [by left|]. right. destruct (Z.to_nat dp) as [|k] eqn:Ek; [lia|].
    change (str_take (S k) (String a r)) with (String a (str_take k r)). rewrite string_app_cons. do 2 eexists.
    split_and!; [done| |done]. rewrite all_digits_cons in *. apply andb_true_iff in Hd as [-> Hd].
    by rewrite all_digits_app, all_digits_take, all_digits_zeros. }
  destruct (Z.ltb_spec dp n) as [Hlt|Hge].
  - exists whole, ("." +:+ (zeros (Z.to_nat (- dp)) +:+ str_drop (Z.to_nat dp) (String a r))), "".
    rewrite string_app_nil_r. split_and!; [done..| |by left]. right. eexists. rewrite string_app_cons, string_app_nil_l. split; [done|].
    apply digits_1_app_r; [apply all_digits_zeros|]. apply digits_1_drop; [done|]. subst n. simpl in *. lia.
  - exists whole, "", "". rewrite !string_app_nil_r. split_and!; [done..|by left|by left].
Qed.

Lemma e_text_literal xt d : (∀ x, exp_part (xt x)) → decimal_ok d → unsigned_literal (e_text xt d).
Proof.
  intros Hx [->|(a & r & E & Hd & Ha)]; [exists "0", "", (xt 0%Z); split_and!; [done|by left|by left|done]|].
  unfold e_text. rewrite E in *. rewrite all_digits_cons in Hd. apply andb_true_iff in Hd as [Hd Hr].
  assert (whole_part (String a "")) as Hw by (right; do 2 eexists; split_and!; [done|by rewrite all_digits_cons, Hd|done]).
  destruct r as [|b r].
  - exists (String a ""), "", (xt (dc_point d - 1)%Z). split_and!; [done..|by left|done].
  - exists (String a ""), ("." +:+ String b r), (xt (dc_point d - 1)%Z). split_and!; [|done| |done].
    + by rewrite <-string_app_assoc, !string_app_cons.
    + right. eexists. split; [done|]. by do 2 eexists.
Qed.

(** What encoding/json writes for a [float64] is a number of a JSON document. *)
Lemma json_number_float f lit : json_float f = Some lit → json_number lit.
Proof.
  unfold json_float. destruct (is_nan f || is_inf f) eqn:E; [done|]. intros [= <-].
  match goal with |- context [if ?c then f_text else _] => generalize c; intros written_out end.
  set (text := if written_out then f_text else e_text json_exponent).
  assert (∀ d, decimal_ok d → unsigned_literal (text d)) as Ht.
  { intros d Hd. subst text. destruct written_out; auto using f_text_literal, e_text_literal, json_exponent_part. }
  destruct f as [s|s| |s m e]; try done; cbn [float_text].
  - destruct (Ht (mkDecimal "" 0)) as (i & fr & x & -> & ? & ? & ?); [by left|]. by apply json_number_parts.
  - destruct (Ht (shortest m e)) as (i & fr & x & -> & ? & ? & ?); [apply shortest_ok|]. by apply json_number_parts.
Qed.

(** Documents of valid strings and numbers. *)
Fixpoint doc_ok (v : json) : Prop :=
  match v with
  | JNull | JBool _ => True
  | JNum n => json_number n
  | JStr s => valid_utf8 s = true
  | JArr l => foldr (λ v P, doc_ok v ∧ P) True l
  | JObj ms => foldr (λ m P, valid_utf8 m.1 = true ∧ doc_ok m.2 ∧ P) True ms
  end.

Lemma doc_ok_arr l : doc_ok (JArr l) ↔ Forall doc_ok l.
Proof. cbn [doc_ok]. induction l; cbn [foldr]; rewrite ?Forall_cons; naive_solver. Qed.

Lemma doc_ok_obj ms : doc_ok (JObj ms) ↔ Forall (λ m, valid_utf8 m.1 = true ∧ doc_ok m.2) ms.
Proof. cbn [doc_ok]. induction ms; cbn [foldr]; rewrite ?Forall_cons; naive_solver. Qed.

(** Elements and members written one after the other. *)
Lemma writes_join (f : json → string) w w' v l :
  blank w = true → blank w' = true → Forall (λ v, writes v (f v)) (v :: l) →
  writes_elems (v :: l) (join "," (map (λ v, w +:+ f v) (v :: l)) +:+ w').
Proof.
  intros Hw Hw'. revert v. induction l as [|x l IH]; intros v [Hv Hl]%Forall_cons.
  - cbn [map join]. rewrite <-string_app_assoc. by constructor.
  - change (join "," (map (λ v, w +:+ f v) (v :: x :: l)))
      with ((w +:+ f v) +:+ "," +:+ join "," (map (λ v, w +:+ f v) (x :: l))).
    rewrite <-!string_app_assoc. apply (writes_more w v (f v) ""); auto.
Qed.

Lemma writes_join_members (f : json → string) w x w' m ms :
  blank w = true → blank x = true → blank w' = true → Forall (λ m, valid_utf8 m.1 = true ∧ writes m.2 (f m.2)) (m :: ms) →
  writes_members (m :: ms) (join "," (map (λ m, w +:+ json_quote m.1 +:+ ":" +:+ x +:+ f m.2) (m :: ms)) +:+ w').
Proof.
  intros Hw Hx Hw'. revert m. induction ms as [|n ms IH]; intros [k v] [[Hk Hv] Hl]%Forall_cons.
  - cbn [map join]. rewrite <-!string_app_assoc. by constructor.
  - change (join "," (map (λ m, w +:+ json_quote m.1 +:+ ":" +:+ x +:+ f m.2) ((k, v) :: n :: ms)))
      with ((w +:+ json_quote k +:+ ":" +:+ x +:+ f v) +:+ "," +:+
            join "," (map (λ m, w +:+ json_quote m.1 +:+ ":" +:+ x +:+ f m.2) (n :: ms))).
    rewrite <-!string_app_assoc. apply (writes_more_members w k x v (f v) ""); auto.
Qed.

Lemma writes_render v : doc_ok v → writes v (render v).
Proof.
  revert v. apply (json_nested_ind (λ v, doc_ok v → writes v (render v))); try (intros; by constructor).
  - intros l IH Hl%doc_ok_arr. cbn [render]. destruct l as [|v l]; [by apply (writes_arr_nil "")|].
    apply writes_arr. rewrite <-(string_app_nil_r (join _ _)). apply (writes_join render ""); [done..|].
    clear -IH Hl. revert Hl. induction IH; intros Hl; inversion_clear Hl; constructor; auto.
  - intros ms IH Hl%doc_ok_obj. cbn [render]. destruct ms as [|m ms]; [by apply (writes_obj_nil "")|].
    apply writes_obj. rewrite <-(string_app_nil_r (join _ _)). apply (writes_join_members render "" ""); [done..|].
    clear -IH Hl. revert Hl. induction IH; intros Hl; inversion_clear Hl; constructor; naive_solver.
Qed.

Lemma blank_new_line n : blank (new_line n) = true.
Proof. unfold new_line. generalize (2 * n). intros k. change (blank (spaces k) = true). by induction k. Qed.

Lemma writes_render_indent v : doc_ok v → ∀ n, writes v (render_indent n v).
Proof.
  revert v. apply (json_nested_ind (λ v, doc_ok v → ∀ n, writes v (render_indent n v))); try (intros; by constructor).
  - intros l IH Hl%doc_ok_arr n. destruct l as [|v l]; [by apply (writes_arr_nil "")|]. cbn [render_indent].
    rewrite (string_app_assoc (join _ _)). apply writes_arr, writes_join; auto using blank_new_line.
    clear -IH Hl. revert Hl. induction IH; intros Hl; inversion_clear Hl; constructor; auto.
  - intros ms IH Hl%doc_ok_obj n. destruct ms as [|m ms]; [by apply (writes_obj_nil "")|]. cbn [render_indent].
    rewrite (string_app_assoc (join _ _)). apply writes_obj, (writes_join_members _ _ " "); auto using blank_new_line.
    clear -IH Hl. revert Hl. induction IH; intros Hl; inversion_clear Hl; constructor; naive_solver.
Qed.

(** Parsing what [json.Marshal] or [json.MarshalIndent] wrote gives the document. *)
Lemma json_parse_render v : doc_ok v → json_parse (render v) = Some v.
Proof. intros. by apply json_parse_writes, writes_render. Qed.

Lemma json_parse_render_indent v : doc_ok v → json_parse (render_indent 0 v) = Some v.
Proof. intros. by apply json_parse_writes, writes_render_indent. Qed.

(** *** Documents of structs *)

(** The two parts of [doc_ok]: the texts are given, the numbers are written here. *)
Fixpoint texts_ok (v : json) : bool :=
  match v with
  | JStr s => valid_utf8 s
  | JArr l => forallb texts_ok l
  | JObj ms => forallb (λ m, valid_utf8 m.1 && texts_ok m.2) ms
  | _ => true
  end.

Fixpoint numbers_ok (v : json) : Prop :=
  match v with
  | JNum n => json_number n
  | JArr l => foldr (λ v P, numbers_ok v ∧ P) True l
  | JObj ms => foldr (λ m P, numbers_ok m.2 ∧ P) True ms
  | _ => True
  end.

Lemma numbers_ok_arr l : numbers_ok (JArr l) ↔ Forall numbers_ok l.
Proof. cbn [numbers_ok]. induction l; cbn [foldr]; rewrite ?Forall_cons; naive_solver. Qed.
Lemma numbers_ok_obj ms : numbers_ok (JObj ms) ↔ Forall (λ m, numbers_ok m.2) ms.
Proof. cbn [numbers_ok]. induction ms; cbn [foldr]; rewrite ?Forall_cons; naive_solver. Qed.

Lemma doc_ok_parts v : texts_ok v = true → numbers_ok v → doc_ok v.
Proof.
  revert v. apply (json_nested_ind (λ v, texts_ok v = true → numbers_ok v → doc_ok v)); try done.
  - intros l IH Ht Hn%numbers_ok_arr. apply doc_ok_arr. cbn [texts_ok] in Ht. revert Ht Hn.
    induction IH as [|v l Hv _ IH]; intros Ht Hn; [constructor|]. cbn in Ht. apply andb_true_iff in Ht as [? ?].
    inversion_clear Hn. constructor; auto.
  - intros ms IH Ht Hn%numbers_ok_obj. apply doc_ok_obj. cbn [texts_ok] in Ht. revert Ht Hn.
    induction IH as [|m ms Hv _ IH]; intros Ht Hn; [constructor|]. cbn in Ht.
    apply andb_true_iff in Ht as [[? ?]%andb_true_iff ?]. inversion_clear Hn. constructor; auto.
Qed.

(** Fields that can be written, and what is written for them. *)
Definition finite (f : float) : Prop := is_nan f = false ∧ is_inf f = false.

Definition writable (P : Prop) (f : res (list (string * json))) : Prop :=
  (res_is_ok f = true ↔ P) ∧ ∀ ms, f = Ok ms → Forall (λ m, numbers_ok m.2) ms.
Definition document (P : Prop) (d : res json) : Prop :=
  (res_is_ok d = true ↔ P) ∧ ∀ v, d = Ok v → numbers_ok v.

Lemma writable_string k s : writable True (field_string k s).
Proof. split; [done|]. intros ms [= <-]. by repeat constructor. Qed.
Lemma writable_text k s : writable True (field_text k s).
Proof. split; [done|]. intros ms [= <-]. destruct (s =? ""); by repeat constructor. Qed.
Lemma writable_bool k b : writable True (field_value k (JBool b)).
Proof. split; [done|]. intros ms [= <-]. by repeat constructor. Qed.
Lemma writable_int k z : writable True (field_int k z).
Proof. split; [done|]. intros ms [= <-]. constructor; [apply json_number_itoa|constructor]. Qed.

Lemma json_float_finite f : is_Some (json_float f) ↔ finite f.
Proof.
  unfold json_float, finite. destruct (is_nan f), (is_inf f); cbn [orb]; split; try (by intros [? ?]); try (by intros [? ?]); by eexists.
Qed.

Lemma writable_float k f : writable (finite f) (field_float k f).
Proof.
  unfold field_float, float_doc. pose proof (json_float_finite f) as Hf. destruct (json_float f) as [lit|] eqn:E; cbn.
  - split; [naive_solver|]. intros ms [= <-]. constructor; [by eapply json_number_float|constructor].
  - split; [|done]. split; [done|]. intros H%Hf. by destruct H.
Qed.

Lemma writable_float_ptr k f : writable (from_option finite True f) (field_float_ptr k f).
Proof. destruct f as [f|]; [apply writable_float|]. split; [done|]. intros ms [= <-]. constructor. Qed.

Lemma res_all_ok {A} (l : list (res A)) : res_is_ok (res_all l) = forallb res_is_ok l.
Proof. induction l as [|[x|e] l IH]; cbn; [done| |done]. rewrite <-IH. by destruct (res_all l). Qed.

Lemma res_all_Forall {A} (P : A → Prop) l xs :
  res_all l = Ok xs → Forall (λ r, ∀ x, r = Ok x → P x) l → Forall P xs.
Proof.
  revert xs. induction l as [|[x|e] l IH]; cbn; [by intros xs [= <-]| |done].
  intros xs. destruct (res_all l) as [ys|]; [|done]. intros [= <-] [Hx Hl]%Forall_cons. constructor; auto.
Qed.

Lemma writable_slice {A} k (doc : A → res json) (P : A → Prop) l :
  (∀ x, document (P x) (doc x)) → writable (Forall P l) (field_slice k doc l).
Proof.
  intros Hd. assert ((res_is_ok (res_all (map doc l)) = true ↔ Forall P l) ∧
    ∀ ds, res_all (map doc l) = Ok ds → numbers_ok (JArr ds)) as [H1 H2].
  { split.
    - rewrite res_all_ok. induction l as [|x l IH]; [done|]. cbn. rewrite andb_true_iff, IH, Forall_cons. by rewrite (proj1 (Hd x)).
    - intros ds E. apply numbers_ok_arr. eapply res_all_Forall; [exact E|]. apply Forall_map, Forall_true. intros x. apply Hd. }
  unfold field_slice. destruct l as [|x l]; [split; [done|]; by intros ms [= <-]|].
  destruct (res_all _) as [ds|] eqn:E; cbn in *; (split; [done|]); [|done].
  intros ms [= <-]. constructor; [by apply H2|constructor].
Qed.

Lemma document_struct Ps fields :
  Forall2 writable Ps fields → document (foldr and True Ps) (struct_doc fields).
Proof.
  intros HF. assert ((res_is_ok (res_all fields) = true ↔ foldr and True Ps) ∧
    ∀ l, res_all fields = Ok l → Forall (λ m, numbers_ok m.2) (concat l)) as [H1 H2].
  { induction HF as [|P f Ps fs [Hf Hm] _ [IH1 IH2]]; cbn; [split; [done|]; intros l [= <-]; constructor|].
    rewrite <-Hf, <-IH1. destruct f as [ms|e]; cbn; [|by split; [naive_solver|]].
    destruct (res_all fs) as [l|e]; cbn; [|by split; [naive_solver|]].
    split; [naive_solver|]. intros l' [= <-]. apply Forall_app. auto. }
  unfold struct_doc. destruct (res_all fields) as [l|e]; cbn in *; (split; [done|]); [|done].
  intros v [= <-]. apply numbers_ok_obj. auto.
Qed.

#[export] Hint Resolve writable_string writable_text writable_bool writable_int writable_float writable_float_ptr
  writable_slice : fields.

(** ** The fuel is enough

    Every turn but one in two consumes a byte, so more fuel than [parse_fuel]
    changes nothing: [json_parse] fails on syntax errors only. *)

Lemma skip_ws_length s : (String.length (skip_ws s) ≤ String.length s)%nat.
Proof. induction s as [|a s IH]; [done|]. cbn [skip_ws]. destruct (is_json_space a); simpl; lia. Qed.

Lemma scan_literal_length s l t : scan_literal s = Some (l, t) → (String.length t < String.length s)%nat.
Proof.
  revert l. assert (∀ n l, (String.length s ≤ n)%nat → scan_literal s = Some (l, t) → (String.length t < String.length s)%nat)
    as H; [|eauto]. intros n. revert s. induction n as [|n IH]; intros [|a s] l Hn; [done|simpl in Hn; lia|done|].
  cbn [scan_literal String.length] in *. destruct (a =? quote_char)%char; [intros [= _ <-]; lia|].
  destruct (a =? backslash)%char.
  - destruct s as [|b s]; [done|]. cbn [String.length] in *. destruct (scan_literal s) as [[l' t']|] eqn:E; [|done].
    intros [= _ <-]. apply IH in E; lia.
  - destruct (scan_literal s) as [[l' t']|] eqn:E; [|done]. intros [= _ <-]. apply IH in E; lia.
Qed.

Lemma scan_digits_length s : (String.length (scan_digits s).2 + String.length (scan_digits s).1 = String.length s)%nat.
Proof.
  induction s as [|a s IH]; [done|]. cbn [scan_digits]. destruct (is_digit a); [|simpl; lia].
  destruct (scan_digits s) as [d t]. simpl in *. lia.
Qed.

Lemma some_digits_length p s d t : some_digits p s = Some (d, t) → (String.length t < String.length s)%nat.
Proof.
  unfold some_digits. pose proof (scan_digits_length s) as H. destruct (scan_digits s) as [[|a x] y]; [done|].
  intros [= _ <-]. simpl in *. lia.
Qed.

Lemma scan_int_length s d t : scan_int s = Some (d, t) → (String.length t < String.length s)%nat.
Proof.
  destruct s as [|a s]; [done|]. unfold scan_int.
  destruct a as [[] [] [] [] [] [] [] []]; try (apply some_digits_length). intros [= _ <-]. simpl. lia.
Qed.

Lemma scan_frac_length s d t : scan_frac s = Some (d, t) → (String.length t ≤ String.length s)%nat.
Proof.
  destruct s as [|a s]; [by intros [= _ <-]|]. unfold scan_frac.
  destruct a as [[] [] [] [] [] [] [] []]; try (intros [= _ <-]; done).
  intros H%some_digits_length. simpl. lia.
Qed.

Lemma scan_exp_length s d t : scan_exp s = Some (d, t) → (String.length t ≤ String.length s)%nat.
Proof.
  destruct s as [|a s]; [by intros [= _ <-]|]. unfold scan_exp. destruct (_ || _); [|by intros [= _ <-]].
  destruct s as [|c s]; [done|]. destruct (_ || _); intros H%some_digits_length; simpl in *; lia.
Qed.

Lemma scan_number_length s d t : scan_number s = Some (d, t) → (String.length t < String.length s)%nat.
Proof.
  unfold scan_number. destruct (match s with String "-" r => ("-", r) | _ => ("", s) end) as [sg u] eqn:Eu.
  assert (String.length u ≤ String.length s)%nat as Hu.
  { destruct s as [|a s]; [injection Eu as <- <-; done|].
    destruct a as [[] [] [] [] [] [] [] []]; injection Eu as <- <-; simpl; lia. }
  destruct (scan_int u) as [[i u1]|] eqn:E1; [|done]. destruct (scan_frac u1) as [[f u2]|] eqn:E2; [|done].
  destruct (scan_exp u2) as [[e u3]|] eqn:E3; [|done]. intros [= _ <-].
  apply scan_int_length in E1. apply scan_frac_length in E2. apply scan_exp_length in E3. lia.
Qed.

Lemma str_drop_length n s : String.length (str_drop n s) = (String.length s - n)%nat.
Proof.
  unfold str_drop. revert n. induction s as [|a s IH]; intros [|n]; try done.
  - cbn [String.substring String.length Nat.sub]. f_equal. by rewrite substring_all.
  - cbn [String.substring String.length Nat.sub]. apply IH.
Qed.

Lemma scan_word_length s v t : s ≠ "" → scan_word s = Some (v, t) → (String.length t < String.length s)%nat.
Proof.
  intros Hs. assert (0 < String.length s)%nat by (destruct s; [done|simpl; lia]).
  unfold scan_word. repeat destruct (has_prefix s _); intros [= _ <-]; rewrite str_drop_length; lia.
Qed.

Lemma scan_scalar_length s v t : scan_scalar s = Some (v, t) → (String.length t < String.length s)%nat.
Proof.
  destruct s as [|a s]; [done|]. unfold scan_scalar. destruct (a =? quote_char)%char.
  - destruct (scan_literal s) as [[l u]|] eqn:E; [|done]. destruct (unquote_body l); [|done]. intros [= _ <-].
    apply scan_literal_length in E. simpl. lia.
  - destruct (_ || _); [|by apply scan_word_length].
    destruct (scan_number _) as [[n u]|] eqn:E; [|done]. intros [= _ <-]. by apply scan_number_length in E.
Qed.

Lemma after_length c s t : after c s = Some t → (String.length t < String.length s)%nat.
Proof.
  unfold after. pose proof (skip_ws_length s). destruct (skip_ws s) as [|a u]; [done|].
  destruct (a =? c)%char; [|done]. intros [= <-]. simpl in *. lia.
Qed.

Lemma scan_key_length s k t : scan_key s = Some (k, t) → (String.length t < String.length s)%nat.
Proof.
  unfold scan_key. destruct (after quote_char s) as [u|] eqn:Eu; [|done]. apply after_length in Eu.
  destruct (scan_literal u) as [[l w]|] eqn:E; [|done]. apply scan_literal_length in E.
  destruct (unquote_body l); [|done]. destruct (after ":" w) as [x|] eqn:Ex; [|done]. apply after_length in Ex.
  intros [= _ <-]. lia.
Qed.

(** One parser step consumes, and agrees with a step of one more unit of fuel. *)
Definition steady {A} (f : nat → string → option (A * string)) (bound : nat) (n : nat) : Prop :=
  ∀ s, (2 * String.length s + bound ≤ n)%nat →
    f n s = f (S n) s ∧ ∀ v t, f n s = Some (v, t) → (String.length t < String.length s)%nat.

Ltac steady_step H :=
  match type of H with
  | steady ?f _ ?n =>
      match goal with
      | |- context [f n ?s] =>
          let E := fresh "E" in let L := fresh "L" in
          destruct (H s) as [E L]; [lia|]; rewrite <-E; clear E;
          let o := fresh "o" in destruct (f n s) as [[? ?]|];
          [specialize (L _ _ eq_refl)|clear L]
      end
  end.

Lemma steady_value n :
  steady parse_elems 2 n → steady parse_members 2 n → steady parse_value 1 (S n).
Proof.
  intros IHe IHm s Hs.
  change (parse_value (S (S n)) s) with
    (match after "[" s, after "{" s with
     | Some r, _ => match after "]" r with Some t => Some (JArr [], t)
         | None => match parse_elems (S n) r with Some (l, t) => Some (JArr l, t) | None => None end end
     | None, Some r => match after "}" r with Some t => Some (JObj [], t)
         | None => match parse_members (S n) r with Some (ms, t) => Some (JObj ms, t) | None => None end end
     | None, None => scan_scalar (skip_ws s) end).
  cbn [parse_value]. destruct (after "[" s) as [r|] eqn:E1; [apply after_length in E1|].
  - destruct (after "]" r) as [t|] eqn:E2; [apply after_length in E2; split; [done|intros v u [= _ <-]; lia]|].
    steady_step IHe; (split; [done|]); [intros v u [= _ <-]; lia|done].
  - destruct (after "{" s) as [r|] eqn:E3; [apply after_length in E3|].
    + destruct (after "}" r) as [t|] eqn:E2; [apply after_length in E2; split; [done|intros v u [= _ <-]; lia]|].
      steady_step IHm; (split; [done|]); [intros v u [= _ <-]; lia|done].
    + split; [done|]. intros v t H%scan_scalar_length. pose proof (skip_ws_length s). lia.
Qed.

Lemma parse_elems_S n s :
  parse_elems (S n) s =
  match parse_value n s with
  | None => None
  | Some (v, t) =>
      match after "," t, after "]" t with
      | Some t, _ => match parse_elems n t with Some (l, t) => Some (v :: l, t) | None => None end
      | None, Some t => Some ([v], t)
      | None, None => None
      end
  end.
Proof. done. Qed.

Lemma parse_members_S n s :
  parse_members (S n) s =
  match scan_key s with
  | None => None
  | Some (k, t) =>
      match parse_value n t with
      | None => None
      | Some (v, t) =>
          match after "," t, after "}" t with
          | Some t, _ => match parse_members n t with Some (ms, t) => Some ((k, v) :: ms, t) | None => None end
          | None, Some t => Some ([(k, v)], t)
          | None, None => None
          end
      end
  end.
Proof. done. Qed.

Lemma steady_elems n : steady parse_value 1 n → steady parse_elems 2 n → steady parse_elems 2 (S n).
Proof.
  intros IHv IHe s Hs.
  rewrite (parse_elems_S (S n) s), (parse_elems_S n s). steady_step IHv; [|done]. destruct (after "," s0) as [t|] eqn:E1; [apply after_length in E1|].
  - steady_step IHe; (split; [done|]); [intros v u [= _ <-]; lia|done].
  - destruct (after "]" s0) as [t|] eqn:E2; [apply after_length in E2|]; (split; [done|]); [intros v u [= _ <-]; lia|done].
Qed.

Lemma steady_members n : steady parse_value 1 n → steady parse_members 2 n → steady parse_members 2 (S n).
Proof.
  intros IHv IHm s Hs.
  rewrite (parse_members_S (S n) s), (parse_members_S n s). destruct (scan_key s) as [[k r]|] eqn:E0; [apply scan_key_length in E0|done].
  steady_step IHv; [|done]. destruct (after "," s0) as [t|] eqn:E1; [apply after_length in E1|].
  - steady_step IHm; (split; [done|]); [intros v u [= _ <-]; lia|done].
  - destruct (after "}" s0) as [t|] eqn:E2; [apply after_length in E2|]; (split; [done|]); [intros v u [= _ <-]; lia|done].
Qed.

Lemma parse_steady n : steady parse_value 1 n ∧ steady parse_elems 2 n ∧ steady parse_members 2 n.
Proof.
  induction n as [|n (IHv & IHe & IHm)]; [split_and!; intros s Hs; lia|].
  auto using steady_value, steady_elems, steady_members.
Qed.

Lemma parse_fuel_enough s n : (parse_fuel s ≤ n)%nat → parse_value n s = parse_value (parse_fuel s) s.
Proof.
  intros Hn. induction Hn as [|n Hn IH]; [done|]. rewrite <-IH.
  destruct (parse_steady n) as (Hv & _). destruct (Hv s) as [<- _]; [unfold parse_fuel in Hn; lia|done].
Qed.
