(* ===== verification/GoTab.v ===== *)
(** * Tables on the terminal: text/tabwriter

    [tabwriter.NewWriter(w, 0, 0, 2, ' ', 0)] and its [Flush]: the cells of a line end
    at tabs, the cells of adjacent lines under each other form a column, and every
    column is as wide as its widest cell and two spaces.  The text after the last tab
    of a line belongs to no column. *)

From stdpp Require Import base list strings.
From Stdlib Require Import ZArith Lia Ascii Bool.
From S2P Require Import Prelude GoFloat GoText GoJson JsonDoc.

Local Open Scope string_scope.

Definition tab : ascii := chr 9.

(** [utf8.RuneCountInString]: an invalid byte counts as one. *)
Fixpoint rune_count (s : string) : nat :=
  match s with
  | "" => 0
  | String a r =>
      S (if is_ascii a then rune_count r
         else match r with
              | String b r2 =>
                  if rune2 a b then rune_count r2
                  else match r2 with
                       | String c r3 =>
                           if rune3 a b c then rune_count r3
                           else match r3 with
                                | String d r4 => if rune4 a b c d then rune_count r4 else rune_count r
                                | "" => rune_count r
                                end
                       | "" => rune_count r
                       end
              | "" => rune_count r
              end)
  end.

(** The pieces between the bytes for which [p] holds. *)
Fixpoint split_where (p : ascii → bool) (s : string) : list string :=
  match s with
  | "" => [""]
  | String a r =>
      if p a then "" :: split_where p r
      else match split_where p r with
           | [] => [String a ""]
           | x :: l => String a x :: l
           end
  end.

(** A vertical tab ends a cell too. *)
Definition cells_of (line : string) : list string :=
  split_where (λ a, (a =? tab)%char || (byte_of a =? 11)%N) line.

(** Cells that have a column are padded to its width. *)
Fixpoint write_line (widths : list nat) (cells : list string) : string :=
  match cells, widths with
  | c :: cells, w :: widths => c +:+ spaces (w - rune_count c) +:+ write_line widths cells
  | c :: cells, [] => c +:+ write_line [] cells
  | [], _ => ""
  end.

Definition has_column (column : nat) (line : list string) : bool := (column <? length line - 1)%nat.

(** Runs of adjacent lines that have a cell in the column, or have none. *)
Fixpoint blocks (column : nat) (lines : list (list string)) : list (bool * list (list string)) :=
  match lines with
  | [] => []
  | line :: lines =>
      let b := has_column column line in
      match blocks column lines with
      | (b', block) :: rest => if Bool.eqb b b' then (b, line :: block) :: rest else (b, [line]) :: (b', block) :: rest
      | [] => [(b, [line])]
      end
  end.

Definition column_width (column : nat) (block : list (list string)) : nat :=
  foldr (λ line w, (rune_count (default "" (line !! column)) + 2) `max` w) 0 block.

(** [Writer.format]: the widths of the columns to the left are known. *)
Fixpoint format_lines (fuel : nat) (widths : list nat) (lines : list (list string)) : list string :=
  match fuel with
  | O => map (write_line widths) lines
  | S fuel =>
      let column := length widths in
      concat (map (λ '(has, block),
        if has : bool then format_lines fuel (widths ++ [column_width column block])%list block
        else map (write_line widths) block) (blocks column lines))
  end.

(** No line has more columns than its cells. *)
Definition format_fuel (lines : list (list string)) : nat := S (foldr (λ l n, length l `max` n) 0 lines).
Definition format_table (lines : list (list string)) : list string := format_lines (format_fuel lines) [] lines.

(** The text written for a whole text; a form feed ends a line and all columns. *)
Definition tab_section (s : string) : string := join nl (format_table (map cells_of (split_on (chr 10) s))).
Definition tab_text (s : string) : string := join nl (map tab_section (split_on (chr 12) s)).

(** A row of a table, and a table with its header. *)
Definition tab_row (cells : list string) : string := join (String tab "") cells +:+ nl.
Definition table (rows : list (list string)) : string := tab_text (String.concat "" (map tab_row rows)).

Example table_demo :
  split_on (chr 10) (table [["  pvc"; "used"; "match"]; ["  data-0"; "5"; "yes"]; ["  a"; "1048576"; "no"]]) =
  ["  pvc     used     match"; "  data-0  5        yes"; "  a       1048576  no"; ""].
Proof. vm_compute. reflexivity. Qed.

(** A line with fewer cells interrupts a column. *)
Example table_interrupted :
  split_on (chr 10) (tab_text (tab_row ["a"; "b"; "c"] +:+ tab_row ["long"; "b"] +:+ tab_row ["a"; "bb"; "c"])) =
  ["a     b  c"; "long  b"; "a     bb  c"; ""].
Proof. vm_compute. reflexivity. Qed.

(** ** Tables whose rows have the same cells

    [Writer.format] then is the obvious thing: every column has one width. *)

(** The widths of all columns but the last. *)
Definition plain_widths (n from : nat) (lines : list (list string)) : list nat :=
  map (λ column, column_width column lines) (seq from n).

Lemma blocks_uniform column b lines :
  lines ≠ [] → Forall (λ l, has_column column l = b) lines → blocks column lines = [(b, lines)].
Proof.
  intros Hne HF. induction HF as [|l lines Hl HF IH]; [done|]. cbn [blocks]. rewrite Hl.
  destruct lines as [|l' lines]; [done|]. rewrite IH by done. by rewrite eqb_reflx.
Qed.

Lemma format_lines_nil fuel widths : format_lines fuel widths [] = [].
Proof. by destruct fuel. Qed.

Lemma format_rectangular k fuel widths lines :
  Forall (λ l, length l = S (length widths + k)) lines → (k < fuel)%nat →
  format_lines fuel widths lines = map (write_line (widths ++ plain_widths k (length widths) lines)) lines.
Proof.
  revert fuel widths. induction k as [|k IH]; intros fuel widths HF Hk; destruct fuel as [|fuel]; try lia;
    (destruct (decide (lines = [])) as [->|Hne]; [by rewrite format_lines_nil|]); cbn [format_lines].
  - rewrite (blocks_uniform _ false) by (done || (eapply Forall_impl; [exact HF|]; intros l Hl; cbn beta in Hl;
      unfold has_column; apply Nat.ltb_ge; lia)).
    cbn [map concat]. by rewrite !app_nil_r.
  - rewrite (blocks_uniform _ true) by (done || (eapply Forall_impl; [exact HF|]; intros l Hl; cbn beta in Hl;
      unfold has_column; apply Nat.ltb_lt; lia)).
    cbn [map concat]. rewrite app_nil_r, IH; [|rewrite length_app; cbn [length];
      eapply Forall_impl; [exact HF|]; intros l Hl; cbn beta in *; lia|lia].
    unfold plain_widths. rewrite <-app_assoc, length_app. cbn [length app seq map]. by rewrite Nat.add_1_r.
Qed.

Lemma format_fuel_bound lines : Forall (λ l, (length l < format_fuel lines)%nat) lines.
Proof.
  unfold format_fuel. induction lines as [|l lines IH]; [done|]. cbn [foldr]. constructor; [lia|].
  eapply Forall_impl; [exact IH|]. intros x Hx. cbn beta in *. lia.
Qed.

(** Every line is written with the same columns, each as wide as its widest cell and
    two spaces. *)
Lemma format_table_rectangular k lines :
  Forall (λ l, length l = S k) lines →
  format_table lines = map (write_line (plain_widths k 0 lines)) lines.
Proof.
  intros HF. unfold format_table. destruct lines as [|l lines]; [done|].
  rewrite (format_rectangular k); [done|done|]. pose proof (format_fuel_bound (l :: lines)) as Hb.
  inversion_clear HF. inversion_clear Hb. lia.
Qed.

(** Lines are neither lost nor added. *)
Lemma blocks_concat column lines : concat (map snd (blocks column lines)) = lines.
Proof.
  induction lines as [|l lines IH]; [done|]. cbn [blocks]. destruct (blocks column lines) as [|[b block] rest]; cbn in *.
  - by rewrite <-IH.
  - rewrite <-IH. by destruct (Bool.eqb _ _).
Qed.

Lemma length_format_lines fuel widths lines : length (format_lines fuel widths lines) = length lines.
Proof.
  revert widths lines. induction fuel as [|fuel IH]; intros widths lines; cbn [format_lines]; [by rewrite length_map|].
  rewrite <-(blocks_concat (length widths) lines) at 2. induction (blocks (length widths) lines) as [|[b block] rest IHb]; [done|].
  cbn [map concat snd]. rewrite !length_app, IHb. destruct b; [by rewrite IH|by rewrite length_map].
Qed.
