(* ===== verification/GoSha256.v ===== *)
(** * SHA-256 as crypto/sha256 computes it

    The digest of the two snapshot hashes: [sha256.Sum256] after FIPS 180-4 on 32-bit
    words kept as [Z], and [hex.EncodeToString] of its 32 bytes. *)

From stdpp Require Import base list strings.
From Stdlib Require Import ZArith Lia Ascii.
From S2P Require Import Prelude GoFloat GoText GoJson.

Local Open Scope Z_scope.

(** ** 32-bit words *)

Definition w32 (z : Z) : Z := z mod 2 ^ 32.
Definition add32 (a b : Z) : Z := w32 (a + b).
Definition shr32 (n x : Z) : Z := Z.shiftr x n.
Definition rotr32 (n x : Z) : Z := Z.lor (Z.shiftr x n) (w32 (Z.shiftl x (32 - n))).
Definition not32 (x : Z) : Z := Z.lxor x (2 ^ 32 - 1).

Definition Ch (x y z : Z) : Z := Z.lxor (Z.land x y) (Z.land (not32 x) z).
Definition Maj (x y z : Z) : Z := Z.lxor (Z.lxor (Z.land x y) (Z.land x z)) (Z.land y z).
Definition Sigma0 (x : Z) : Z := Z.lxor (Z.lxor (rotr32 2 x) (rotr32 13 x)) (rotr32 22 x).
Definition Sigma1 (x : Z) : Z := Z.lxor (Z.lxor (rotr32 6 x) (rotr32 11 x)) (rotr32 25 x).
Definition sigma0 (x : Z) : Z := Z.lxor (Z.lxor (rotr32 7 x) (rotr32 18 x)) (shr32 3 x).
Definition sigma1 (x : Z) : Z := Z.lxor (Z.lxor (rotr32 17 x) (rotr32 19 x)) (shr32 10 x).

(** The first 32 bits of the fractional parts of the cube roots of the first 64
    primes, and of the square roots of the first 8: computed, not copied. *)
Fixpoint primes_from (fuel : nat) (n : Z) (known : list Z) : list Z :=
  match fuel with
  | O => known
  | S fuel =>
      if forallb (λ p, negb (n mod p =? 0)) known then primes_from fuel (n + 1) (known ++ [n])%list
      else primes_from fuel (n + 1) known
  end.
Definition primes : list Z := primes_from 310 2 [].

(** The integer cube root, bit by bit from the top. *)
Fixpoint cbrt_bits (bits : nat) (acc n : Z) : Z :=
  match bits with
  | O => acc
  | S b => let t := acc + 2 ^ Z.of_nat b in cbrt_bits b (if t * t * t <=? n then t else acc) n
  end.

Definition sha_K : list Z := Eval vm_compute in map (λ p, w32 (cbrt_bits 36 0 (p * 2 ^ 96))) (take 64 primes).
Definition sha_H0 : list Z := Eval vm_compute in map (λ p, w32 (Z.sqrt (p * 2 ^ 64))) (take 8 primes).

Example sha_K_ends : (length primes, hd 0 sha_K, List.last sha_K 0) = (64%nat, 1116352408, 3329325298).
Proof. vm_compute. reflexivity. Qed.

(** ** Padding *)

(** [n] bytes of a number, the highest first. *)
Fixpoint be_bytes (n : nat) (z : Z) : list Z :=
  match n with
  | O => []
  | S n => (z / 2 ^ (8 * Z.of_nat n)) mod 256 :: be_bytes n z
  end.

Fixpoint bytes_of (s : string) : list Z :=
  match s with
  | EmptyString => []
  | String a r => Z.of_N (byte_of a) :: bytes_of r
  end.

(** The message, a 1 bit, zeros, and its length in bits: a multiple of 64 bytes. *)
Definition padding (len : Z) : list Z :=
  (128 :: repeat 0 (Z.to_nat ((55 - len) mod 64)) ++ be_bytes 8 (8 * len))%list.
Definition padded (msg : list Z) : list Z := (msg ++ padding (Z.of_nat (length msg)))%list.

(** ** Compression *)

Fixpoint words (bs : list Z) : list Z :=
  match bs with
  | a :: b :: c :: d :: r => a * 2 ^ 24 + b * 2 ^ 16 + c * 2 ^ 8 + d :: words r
  | _ => []
  end.

(** The last sixteen words of the schedule, the newest first, give the next. *)
Definition next_word (w : list Z) : Z :=
  match w with
  | [_; w2; _; _; _; _; w7; _; _; _; _; _; _; _; w15; w16] =>
      add32 (add32 (add32 (sigma1 w2) w7) (sigma0 w15)) w16
  | _ => 0
  end.

Definition sha_state : Type := Z * Z * Z * Z * Z * Z * Z * Z.

Definition sha_round (s : sha_state) (k w : Z) : sha_state :=
  let '(a, b, c, d, e, f, g, h) := s in
  let t1 := add32 (add32 (add32 (add32 h (Sigma1 e)) (Ch e f g)) k) w in
  let t2 := add32 (Sigma0 a) (Maj a b c) in
  (add32 t1 t2, a, b, c, add32 d t1, e, f, g).

(** One round for a constant: [w] holds the words of the next sixteen rounds,
    the newest first. *)
Fixpoint sha_rounds (ks : list Z) (w : list Z) (s : sha_state) : sha_state :=
  match ks with
  | [] => s
  | k :: ks => sha_rounds ks (next_word w :: removelast w) (sha_round s k (List.last w 0))
  end.

Definition sha_add (s t : sha_state) : sha_state :=
  let '(a, b, c, d, e, f, g, h) := s in
  let '(a', b', c', d', e', f', g', h') := t in
  (add32 a a', add32 b b', add32 c c', add32 d d', add32 e e', add32 f f', add32 g g', add32 h h').

Definition sha_block (s : sha_state) (block : list Z) : sha_state :=
  sha_add s (sha_rounds sha_K (rev (words block)) s).

(** The blocks of a padded message, [n] of them. *)
Fixpoint sha_blocks (n : nat) (s : sha_state) (bs : list Z) : sha_state :=
  match n with
  | O => s
  | S n => sha_blocks n (sha_block s (take 64 bs)) (drop 64 bs)
  end.

Definition sha_init : sha_state :=
  Eval vm_compute in
    match sha_H0 with
    | [a; b; c; d; e; f; g; h] => (a, b, c, d, e, f, g, h)
    | _ => (0, 0, 0, 0, 0, 0, 0, 0)
    end.

Definition sha256_words (msg : list Z) : list Z :=
  let bs := padded msg in
  let '(a, b, c, d, e, f, g, h) := sha_blocks (length bs / 64) sha_init bs in
  [a; b; c; d; e; f; g; h].

(** ** Hexadecimal text *)

Definition hex_nibble (z : Z) : ascii := hex_digit (Z.to_N z).
Fixpoint hex_word (n : nat) (z : Z) : string :=
  match n with
  | O => ""
  | S n => String (hex_nibble ((z / 2 ^ (4 * Z.of_nat n)) mod 16)) (hex_word n z)
  end.

(** [hex.EncodeToString(sum[:])] after [sha256.Sum256([]byte(s))]. *)
Definition sha256_hex (s : string) : string := String.concat "" (map (hex_word 8) (sha256_words (bytes_of s))).

Example sha256_empty :
  sha256_hex "" = "e3b0c44298fc1c149afbf4c8996fb92427ae41e4649b934ca495991b7852b855"%string.
Proof. vm_compute. reflexivity. Qed.
Example sha256_abc :
  sha256_hex "abc" = "ba7816bf8f01cfea414140de5dae2223b00361a396177a9cb410ff61f20015ad"%string.
Proof. vm_compute. reflexivity. Qed.
Example sha256_two_blocks :
  sha256_hex "abcdbcdecdefdefgefghfghighijhijkijkljklmklmnlmnomnopnopq" =
  "248d6a61d20638b8e5c026930c3e6039a33ce45964ff2167f6ecedd419db06c1"%string.
Proof. vm_compute. reflexivity. Qed.

(** ** Lemmas *)

(** Padding fills whole blocks. *)
Lemma length_be_bytes n z : length (be_bytes n z) = n.
Proof. induction n; simpl; congruence. Qed.

Lemma padded_blocks msg : (length (padded msg) mod 64)%nat = 0%nat.
Proof.
  unfold padded, padding. rewrite length_app, length_cons, length_app, repeat_length, length_be_bytes.
  apply Nat2Z.inj. rewrite Nat2Z.inj_mod, !Nat2Z.inj_add, Nat2Z.inj_succ, Nat2Z.inj_add, Z2Nat.id by (apply Z.mod_pos_bound; lia).
  set (n := Z.of_nat (length msg)). change (Z.of_nat 64) with 64. change (Z.of_nat 0) with 0. change (Z.of_nat 8) with 8.
  pose proof (Z.div_mod (55 - n) 64 ltac:(lia)) as E.
  replace (n + Z.succ ((55 - n) mod 64 + 8)) with ((1 - (55 - n) / 64) * 64) by lia.
  by rewrite Z.mod_mul by lia.
Qed.

(** The digest has 64 hexadecimal digits, whatever the message. *)
Lemma length_hex_word n z : String.length (hex_word n z) = n.
Proof. induction n; simpl; congruence. Qed.

Lemma length_sha256_words msg : length (sha256_words msg) = 8%nat.
Proof. unfold sha256_words. by destruct (sha_blocks _ _ _) as [[[[[[[? ?] ?] ?] ?] ?] ?] ?]. Qed.

Lemma length_concat_const n l : Forall (λ s, String.length s = n) l → String.length (String.concat "" l) = (length l * n)%nat.
Proof.
  induction 1 as [|s l Hs Hl IH]; [done|]. destruct l as [|t l]; [simpl in *; lia|].
  change (String.concat "" (s :: t :: l)) with (s +:+ String.concat "" (t :: l)).
  rewrite string_length_app, IH. simpl in *. lia.
Qed.

Lemma length_sha256_hex s : String.length (sha256_hex s) = 64%nat.
Proof.
  unfold sha256_hex. rewrite (length_concat_const 8).
  - by rewrite length_map, length_sha256_words.
  - apply Forall_map, Forall_true. intros. apply length_hex_word.
Qed.

(** Its digits are visible characters. *)
Lemma hex_nibble_visible z : visible (hex_nibble (z mod 16)) = true.
Proof.
  assert (forallb (λ z, visible (hex_nibble z)) (seqZ 0 16) = true) as Hall by (vm_compute; reflexivity).
  rewrite forallb_forall in Hall. apply Hall, list_elem_of_In, elem_of_seqZ. pose proof (Z.mod_pos_bound z 16). lia.
Qed.

Lemma sha256_hex_head s : ∃ c r, sha256_hex s = String c r ∧ visible c = true.
Proof.
  unfold sha256_hex, sha256_words. destruct (sha_blocks _ _ _) as [[[[[[[a b] c] d] e] f] g] h].
  cbn [map hex_word String.concat]. do 2 eexists. split; [by rewrite string_app_cons|apply hex_nibble_visible].
Qed.
