(* ===== verification/GoFlag.v ===== *)
(** * Go's flag package

    [FlagSet.Parse] as the command line programs use it: a set of typed flags with
    their values, the syntax of the arguments, the integers of [strconv.ParseInt]
    with base 0, and the error of every malformed argument.  The help text the
    package prints is left out. *)

From stdpp Require Import base list strings gmap.
From Stdlib Require Import ZArith Lia Ascii.
From S2P Require Import Prelude GoFloat GoText GoJson JsonDoc GoStd.

Local Open Scope go_scope.
Local Open Scope string_scope.

(** ** [strconv.ParseInt(s, 0, 64)] *)

Definition any_digit (a : ascii) : option Z :=
  let n := byte_of (to_lower_ascii a) in
  match digit_of a with
  | Some d => Some d
  | None => if ((97 <=? n) && (n <=? 122))%N then Some (Z.of_N (n - 87)) else None
  end.

(** Digits below the base, underscores skipped; the first digit too many decides. *)
Fixpoint read_digits (base n : Z) (s : string) : number Z :=
  match s with
  | "" => Num n
  | String a r =>
      if (a =? "_")%char then read_digits base n r
      else
        match any_digit a with
        | None => BadSyntax
        | Some d =>
            if (base <=? d)%Z then BadSyntax
            else if (2 ^ 64 <=? base * n + d)%Z then OutOfRange
            else read_digits base (base * n + d) r
        end
  end.

(** The base and the digits after a prefix; a leading zero alone means octal. *)
Definition base_prefix (s : string) : Z * string :=
  match s with
  | String "0" (String c (String x r)) =>
      let c := to_lower_ascii c in
      if (c =? "b")%char then (2%Z, String x r)
      else if (c =? "o")%char then (8%Z, String x r)
      else if (c =? "x")%char then (16%Z, String x r)
      else (8%Z, str_drop 1 s)
  | String "0" r => (8%Z, r)
  | _ => (10%Z, s)
  end.

(** [underscoreOK]; the prefix counts as a digit. *)
Definition placed_underscores (s : string) : bool :=
  match s with
  | String "0" (String c r) =>
      let l := to_lower_ascii c in
      if (l =? "b")%char || (l =? "o")%char then underscores_ok false "0" r
      else if (l =? "x")%char then underscores_ok true "0" r
      else underscores_ok false "^" s
  | _ => underscores_ok false "^" s
  end.

Definition parse_uint (s : string) : number Z :=
  if s =? "" then BadSyntax
  else
    let '(base, digits) := base_prefix s in
    match read_digits base 0 digits with
    | Num n => if placed_underscores s then Num n else BadSyntax
    | e => e
    end.

Definition parse_int (s : string) : number Z :=
  match s with
  | "" => BadSyntax
  | String a r =>
      let neg := (a =? "-")%char in
      match parse_uint (if neg || (a =? "+")%char then r else s) with
      | Num n =>
          if neg then if (2 ^ 63 <? n)%Z then OutOfRange else Num (- n)%Z
          else if (2 ^ 63 <=? n)%Z then OutOfRange else Num n
      | e => e
      end
  end.

Example parse_int_demo :
  map parse_int ["240"; "-7"; "0x1F"; "1_000"; "010"; "0b101"; "08"; "_1"; "1__0"; "";
    "9223372036854775807"; "9223372036854775808"; "-9223372036854775808"; "99999999999999999999x"] =
  [Num 240; Num (-7); Num 31; Num 1000; Num 8; Num 5; BadSyntax; BadSyntax; BadSyntax; BadSyntax;
   Num int64_max; OutOfRange; Num int64_min; OutOfRange]%Z.
Proof. vm_compute. reflexivity. Qed.

(** [strconv.ParseBool]. *)
Definition parse_bool (s : string) : option bool :=
  if existsb (String.eqb s) ["1"; "t"; "T"; "TRUE"; "true"; "True"] then Some true
  else if existsb (String.eqb s) ["0"; "f"; "F"; "FALSE"; "false"; "False"] then Some false
  else None.

(** ** Flags *)

Inductive flag_value :=
| FString (s : string)
| FInt (z : Z)          (* Int and Int64 *)
| FFloat (f : float)
| FBool (b : bool)
| FDuration (d : duration).

Definition same_kind (a b : flag_value) : bool :=
  match a, b with
  | FString _, FString _ | FInt _, FInt _ | FFloat _, FFloat _ | FBool _, FBool _ | FDuration _, FDuration _ => true
  | _, _ => false
  end.

Definition is_bool_flag (v : flag_value) : bool := match v with FBool _ => true | _ => false end.

(** The flags of a set with their values. *)
Abbreviation FlagSet := (gmap string flag_value) (only parsing).

Definition parsed {A} (f : A → flag_value) (n : number A) : flag_value + string :=
  match n with
  | Num a => inl (f a)
  | BadSyntax => inr "parse error"
  | OutOfRange => inr "value out of range"
  end.
Definition parsed_option {A} (f : A → flag_value) (o : option A) : flag_value + string :=
  parsed f (match o with Some a => Num a | None => BadSyntax end).

(** [Value.Set]: the new value or the text of the error. *)
Definition set_value (old : flag_value) (s : string) : flag_value + string :=
  match old with
  | FString _ => inl (FString s)
  | FInt _ => parsed FInt (parse_int s)
  | FFloat _ => parsed FFloat (read_float s)
  | FBool _ => parsed_option FBool (parse_bool s)
  | FDuration _ => parsed_option FDuration (parse_duration s)
  end.

(** What an argument is. *)
Inductive argument := Positional | Terminator | BadFlag | Named (name : string) (value : option string).

Definition argument_of (s : string) : argument :=
  match s with
  | String "-" (String c r) =>
      let name := if (c =? "-")%char then r else String c r in
      if (c =? "-")%char && (r =? "") then Terminator
      else
        match name with
        | "" => BadFlag
        | String a _ =>
            if (a =? "-")%char || (a =? "=")%char then BadFlag
            else let '(n, v) := split_2 name "=" in Named n v
        end
  | _ => Positional
  end.

Definition help_requested : error := errorf "flag: help requested".

Section parse.
Variable quote : string → string.   (* the verb %q *)

(** Setting a flag from the text of an argument. *)
Definition assign (fs : FlagSet) (name value : string) : res FlagSet :=
  match fs !! name with
  | None =>
      Err (if (name =? "help") || (name =? "h") then help_requested
           else errorf ("flag provided but not defined: -" +:+ name))
  | Some old =>
      match set_value old value with
      | inl new => Ok (<[name := new]> fs)
      | inr e =>
          Err (errorf ("invalid " +:+ (if is_bool_flag old then "boolean value " else "value ") +:+ quote value
                 +:+ " for " +:+ (if is_bool_flag old then "-" else "flag -") +:+ name +:+ ": " +:+ e))
      end
  end.

(** Does the flag take the next argument as its value? *)
Definition takes_next (fs : FlagSet) (name : string) : bool :=
  match fs !! name with Some v => negb (is_bool_flag v) | None => false end.

(** The flags up to the first argument that is none, and the arguments left. *)
Fixpoint Parse (fs : FlagSet) (args : list string) : res (FlagSet * list string) :=
  match args with
  | [] => Ok (fs, [])
  | s :: rest =>
      match argument_of s with
      | Positional => Ok (fs, args)
      | Terminator => Ok (fs, rest)
      | BadFlag => Err (errorf ("bad flag syntax: " +:+ s))
      | Named name value =>
          match value, takes_next fs name, rest with
          | Some v, _, _ => let? fs := assign fs name v in Parse fs rest
          | None, false, _ => let? fs := assign fs name "true" in Parse fs rest
          | None, true, v :: rest => let? fs := assign fs name v in Parse fs rest
          | None, true, [] => Err (errorf ("flag needs an argument: -" +:+ name))
          end
      end
  end.

(** ** Reading a flag *)

Definition flag_string (fs : FlagSet) (name : string) : string :=
  match fs !! name with Some (FString s) => s | _ => "" end.
Definition flag_int (fs : FlagSet) (name : string) : Z :=
  match fs !! name with Some (FInt z) => z | _ => 0%Z end.
Definition flag_float (fs : FlagSet) (name : string) : float :=
  match fs !! name with Some (FFloat f) => f | _ => fzero end.
Definition flag_bool (fs : FlagSet) (name : string) : bool :=
  match fs !! name with Some (FBool b) => b | _ => false end.
Definition flag_duration (fs : FlagSet) (name : string) : duration :=
  match fs !! name with Some (FDuration d) => d | _ => 0%Z end.
End parse.

(** ** What parsing keeps *)

(** The flags of [fs'] are those of [fs], each of its own kind. *)
Definition same_flags (fs fs' : FlagSet) : Prop :=
  ∀ name, match fs !! name, fs' !! name with
          | Some v, Some v' => same_kind v v' = true
          | None, None => True
          | _, _ => False
          end.

Lemma same_kind_refl v : same_kind v v = true.
Proof. by destruct v. Qed.

Lemma same_kind_trans a b c : same_kind a b = true → same_kind b c = true → same_kind a c = true.
Proof. by destruct a, b, c. Qed.

#[export] Instance same_flags_pre : PreOrder same_flags.
Proof.
  split.
  - intros fs name. destruct (fs !! name); [apply same_kind_refl|done].
  - intros a b c Hab Hbc name. specialize (Hab name). specialize (Hbc name).
    destruct (a !! name), (b !! name), (c !! name); try done. by eapply same_kind_trans.
Qed.

Lemma set_value_kind old s new : set_value old s = inl new → same_kind old new = true.
Proof.
  destruct old; cbn [set_value]; [by intros [= <-]|..]; unfold parsed_option, parsed.
  - by destruct (parse_int s); [intros [= <-]|..].
  - by destruct (read_float s); [intros [= <-]|..].
  - by destruct (parse_bool s); [intros [= <-]|..].
  - by destruct (parse_duration s); [intros [= <-]|..].
Qed.

Lemma assign_kinds quote fs name value fs' : assign quote fs name value = Ok fs' → same_flags fs fs'.
Proof.
  unfold assign. destruct (fs !! name) as [old|] eqn:E; [|done].
  destruct (set_value old value) as [new|] eqn:Es; [|done]. intros [= <-] k.
  destruct (decide (k = name)) as [->|Hk].
  - rewrite E, lookup_insert_eq. by eapply set_value_kind.
  - rewrite lookup_insert_ne by done. destruct (fs !! k); [apply same_kind_refl|done].
Qed.

Lemma parse_kinds quote args fs fs' rest : Parse quote fs args = Ok (fs', rest) → same_flags fs fs'.
Proof.
  assert (∀ n l fs, (length l ≤ n)%nat → Parse quote fs l = Ok (fs', rest) → same_flags fs fs') as Hn;
    [|by apply (Hn (length args))].
  assert (∀ n fs name v l, (∀ l fs, (length l ≤ n)%nat → Parse quote fs l = Ok (fs', rest) → same_flags fs fs') →
    (length l ≤ n)%nat → (let? fs := assign quote fs name v in Parse quote fs l) = Ok (fs', rest) → same_flags fs fs') as Ha.
  { intros n fs0 name v l IH Hl. destruct (assign quote fs0 name v) as [fs1|] eqn:E; [|done]. cbn. intros Hp.
    transitivity fs1; [by eapply assign_kinds|by apply (IH l)]. }
  induction n as [|n IH]; intros [|s l] fs0 Hl; cbn [length] in Hl; try lia; cbn [Parse].
  1,2: by intros [= <- _].
  destruct (argument_of s) as [| | |name [v|]]; try done.
  1,2: by intros [= <- _].
  - apply (Ha n); [done|lia].
  - destruct (takes_next fs0 name); [destruct l as [|v l]; [done|]|]; apply (Ha n); try done; cbn [length] in Hl; lia.
Qed.

(** So the readers of flags never fall back. *)
Lemma parsed_flags_keep_their_kinds quote declared args fs rest :
  Parse quote declared args = Ok (fs, rest) →
  dom fs = dom declared ∧
  ∀ name v, declared !! name = Some v → ∃ v', fs !! name = Some v' ∧ same_kind v v' = true.
Proof.
  intros Hp. apply parse_kinds in Hp. split.
  - apply set_eq. intros name. rewrite !elem_of_dom. specialize (Hp name).
    destruct (declared !! name), (fs !! name); try done; split; intros [? ?]; eauto.
  - intros name v Hv. specialize (Hp name). rewrite Hv in Hp. destruct (fs !! name) as [v'|]; [by exists v'|done].
Qed.

(** ** Reading what was written *)

(** [--name=value]. *)
Definition written (p : string * string) : string := "--" +:+ p.1 +:+ "=" +:+ p.2.

Definition flag_name (name : string) : bool :=
  match name with
  | "" => false
  | String a _ => negb (a =? "-")%char && match index_byte name "=" with None => true | Some _ => false end
  end.

Lemma split_2_app n c v : index_byte n c = None → split_2 (n +:+ String c v) c = (n, Some v).
Proof.
  intros Hn. unfold split_2.
  assert (index_byte (n +:+ String c v) c = Some (String.length n)) as ->.
  { induction n as [|a n IH]; [rewrite string_app_nil_l; cbn; by rewrite Ascii.eqb_refl|].
    rewrite string_app_cons. cbn in *. destruct (a =? c)%char; [done|]. destruct (index_byte n c); [done|]. by rewrite IH. }
  rewrite str_take_app. f_equal. f_equal. clear Hn.
  assert (n +:+ String c v = (n +:+ String c "") +:+ v) as -> by (by rewrite <-string_app_assoc, string_app_cons, string_app_nil_l).
  replace (S (String.length n)) with (String.length (n +:+ String c "")); [apply str_drop_app|].
  rewrite string_length_app. cbn [String.length]. lia.
Qed.

Lemma argument_written name v : flag_name name = true → argument_of (written (name, v)) = Named name (Some v).
Proof.
  intros Hn. destruct name as [|a n]; [done|]. cbn [flag_name] in Hn.
  apply andb_true_iff in Hn as [Ha%negb_true_iff Hi]. destruct (index_byte (String a n) "=") eqn:E; [done|].
  assert ((a =? "=")%char = false) as He by (cbn in E; by destruct (a =? "=")%char).
  change (written (String a n, v)) with (String "-" (String "-" (String a n +:+ String "=" v))).
  rewrite string_app_cons. cbn [argument_of]. rewrite Ascii.eqb_refl. cbn [String.eqb andb].
  rewrite Ha, He, <-string_app_cons. cbn [orb]. by rewrite split_2_app.
Qed.

Fixpoint assign_all (quote : string → string) (fs : FlagSet) (l : list (string * string)) : res FlagSet :=
  match l with
  | [] => Ok fs
  | (name, v) :: l => let? fs := assign quote fs name v in assign_all quote fs l
  end.

(** Written assignments are carried out in their order, and what follows is parsed. *)
Lemma parse_written quote fs l rest :
  Forall (λ p, flag_name p.1 = true) l →
  Parse quote fs (map written l ++ rest)%list = (let? fs := assign_all quote fs l in Parse quote fs rest).
Proof.
  intros Hl. revert fs. induction Hl as [|[name v] l Hn Hl IH]; intros fs; [done|]. cbn [map app].
  cbn [Parse]. rewrite argument_written by done. cbn [assign_all].
  destruct (assign quote fs name v) as [fs1|]; [apply IH|done].
Qed.

Lemma digit_of_range a d : digit_of a = Some d → (0 <= d < 10)%Z.
Proof.
  unfold digit_of. destruct (_ <=? _)%N eqn:E1; [|done]. destruct (_ <=? 57)%N eqn:E2; [|done]. cbn. intros [= <-].
  apply N.leb_le in E1, E2. lia.
Qed.

(** Decimal integers are read as what they are. *)
Lemma read_digits_decimal s acc z :
  (0 <= acc)%Z → digits_of acc s = Some z → (z < 2 ^ 64)%Z → (acc <= z)%Z ∧ read_digits 10 acc s = Num z.
Proof.
  revert acc. induction s as [|a s IH]; intros acc H0 Hv Hz; [injection Hv as ->; by split|].
  cbn [digits_of] in Hv. cbn [read_digits]. destruct (digit_of a) as [d|] eqn:E; [|done].
  assert (0 <= d < 10)%Z as Hd by (by eapply digit_of_range).
  apply IH in Hv as [Hle Hv]; [|lia|done].
  assert ((a =? "_")%char = false) as -> by (apply Ascii.eqb_neq; by intros ->).
  unfold any_digit. rewrite E. rewrite (proj2 (Z.leb_gt 10 d)) by lia.
  rewrite (proj2 (Z.leb_gt (2 ^ 64) _)) by lia. split; [lia|done].
Qed.

Lemma is_digit_of a : is_digit a = true → ∃ x, digit_of a = Some x.
Proof. unfold is_digit, in_range, digit_of. intros H. eexists. by rewrite H. Qed.

Lemma parse_uint_decimal a d z :
  (a =? "0")%char = false → unsigned_of (String a d) = Some z → all_digits (String a d) = true →
  (z < 2 ^ 64)%Z → parse_uint (String a d) = Num z.
Proof.
  intros Ha Hu Hd Hz. unfold unsigned_of in Hu. cbn [String.eqb] in Hu.
  assert (base_prefix (String a d) = (10%Z, String a d) ∧ placed_underscores (String a d) = underscores_ok false "^" (String a d))
    as [Hb Hp] by (apply Ascii.eqb_neq in Ha; destruct a as [[] [] [] [] [] [] [] []]; done || by destruct Ha).
  unfold parse_uint. cbn [String.eqb]. rewrite Hb, Hp.
  destruct (read_digits_decimal _ _ _ ltac:(done) Hu Hz) as [_ ->].
  assert (∀ s p, all_digits s = true → (p =? "_")%char = false → underscores_ok false p s = true) as Hok; [|by rewrite Hok].
  clear. induction s as [|a s IH]; intros p Hs Hp; cbn [underscores_ok]; [by rewrite Hp|].
  rewrite all_digits_cons in Hs. apply andb_true_iff in Hs as [Ha Hs].
  destruct (is_digit_of a Ha) as [x Hx]. destruct (is_Some_dec (digit_of a)) as [_|Hno]; [by apply IH|].
  destruct Hno. by eexists.
Qed.

Lemma parse_int_itoa z : is_int64 z → parse_int (itoa z) = Num z.
Proof.
  unfold is_int64, int64_min, int64_max. intros Hz. destruct z as [|p|p]; [done| |].
  - destruct (itoa_positive p) as (a & d & E & Hd & H0 & Hu). rewrite E in *. unfold parse_int.
    assert ((a =? "-")%char = false ∧ (a =? "+")%char = false) as [-> ->].
    { rewrite all_digits_cons in Hd. apply andb_true_iff in Hd as [Ha _]. by destruct a as [[] [] [] [] [] [] [] []]. }
    cbn [orb]. rewrite (parse_uint_decimal _ _ (Zpos p)) by (done || lia). by rewrite (proj2 (Z.leb_gt _ _)) by lia.
  - destruct (itoa_positive p) as (a & d & E & Hd & H0 & Hu). change (itoa (Zneg p)) with (String "-" (itoa (Zpos p))).
    unfold parse_int. rewrite Ascii.eqb_refl. cbn [orb]. rewrite E in *.
    rewrite (parse_uint_decimal _ _ (Zpos p)) by (done || lia). by rewrite (proj2 (Z.ltb_ge _ _)) by lia.
Qed.
