(* ===== verification/RingBuffer.v ===== *)
(** * internal/analysis/ringbuffer.go

    The fixed-capacity sample buffer of one PVC.  Every method runs under the
    buffer's mutex, so a method is one step and a concurrent use is a sequence
    of steps.  [abs] is the queue the buffer stands for; the refinement lemmas
    relate every method to the queue. *)

From stdpp Require Import base list.
From Stdlib Require Import ZArith Lia.
From S2P Require Import Prelude GoText.

(* go: internal/analysis/ringbuffer.go Sample *)
Record Sample := mkSample { Timestamp : time; UsedBytes : Z }.

#[export] Instance Sample_eq_dec : EqDecision Sample.
Proof. solve_decision. Defined.

(* go: internal/analysis/ringbuffer.go RingBuffer *)
Record RingBuffer := mkRingBuffer {
  buf : list Sample;
  head : nat;
  count : nat;
  capacity : nat;
}.

(** The zero [Sample] that [make] fills the slots with. *)
Definition zero_sample : Sample := mkSample zero_time 0.
#[export] Instance Sample_inhabited : Inhabited Sample := populate zero_sample.

(* go: internal/analysis/ringbuffer.go NewRingBuffer *)
Definition NewRingBuffer (cap : Z) : RingBuffer :=
  let cap := if (cap <? 1)%Z then 1%Z else cap in
  let n := Z.to_nat cap in
  mkRingBuffer (replicate n zero_sample) 0 0 n.

(* go: internal/analysis/ringbuffer.go Push *)
Definition Push (s : Sample) (r : RingBuffer) : RingBuffer :=
  mkRingBuffer
    (<[head r := s]> (buf r))
    ((head r + 1) mod capacity r)
    (if count r <? capacity r then count r + 1 else count r)
    (capacity r).

(** The slot read at an index; the indices of [Snapshot] are in range
    ([wf_snapshot_in_range]), out of range Go would panic. *)
Definition slot (r : RingBuffer) (i : nat) : Sample := buf r !!! i.

(* go: internal/analysis/ringbuffer.go Snapshot *)
Definition Snapshot (r : RingBuffer) : list Sample :=
  if count r =? 0 then []
  else
    let start := (head r + capacity r - count r) mod capacity r in
    map (λ i, slot r ((start + i) mod capacity r)) (seq 0 (count r)).

(* go: internal/analysis/ringbuffer.go Len *)
Definition Len (r : RingBuffer) : nat := count r.

(* go: internal/analysis/ringbuffer.go Reset *)
Definition Reset (r : RingBuffer) : RingBuffer :=
  mkRingBuffer (buf r) 0 0 (capacity r).

(** ** The abstract buffer: a bounded queue *)

(** A queue that keeps its last [cap] elements. *)
Record bounded_queue := mkQueue { q_cap : nat; q_items : list Sample }.

Definition q_push (s : Sample) (q : bounded_queue) : bounded_queue :=
  mkQueue (q_cap q) (lastn (q_cap q) (q_items q ++ [s])).

Definition q_reset (q : bounded_queue) : bounded_queue := mkQueue (q_cap q) [].

Definition abs (r : RingBuffer) : bounded_queue := mkQueue (capacity r) (Snapshot r).

(** The methods that change the buffer, as operations. *)
Inductive rb_op := OpPush (s : Sample) | OpReset.

Definition rb_run (op : rb_op) (r : RingBuffer) : RingBuffer :=
  match op with OpPush s => Push s r | OpReset => Reset r end.

Definition q_run (op : rb_op) (q : bounded_queue) : bounded_queue :=
  match op with OpPush s => q_push s q | OpReset => q_reset q end.

(** The samples pushed since the last reset, oldest first. *)
Definition pushed_since_reset (ops : list rb_op) : list Sample :=
  fold_left (λ acc op, match op with OpPush s => acc ++ [s] | OpReset => [] end) ops [].

(** ** The invariant *)

Record wf (r : RingBuffer) : Prop := {
  wf_capacity : 0 < capacity r;
  wf_buf : length (buf r) = capacity r;
  wf_head : head r < capacity r;
  wf_count : count r ≤ capacity r;
}.

(** ** Lemmas *)

Lemma mod_wrap a n : 0 < n → a < 2 * n → a mod n = if a <? n then a else a - n.
Proof.
  intros Hn Ha. destruct (Nat.ltb_spec a n); [by apply Nat.mod_small|].
  replace a with (a - n + 1 * n) at 1 by lia.
  rewrite Nat.Div0.mod_add. apply Nat.mod_small. lia.
Qed.

(** Resolves the innermost [mod]s first, splitting on whether they wrap. *)
Ltac wrap :=
  repeat match goal with
  | |- context [?a mod ?n] =>
      lazymatch a with
      | context [_ mod _] => fail
      | _ => rewrite (mod_wrap a n) by lia; destruct (Nat.ltb_spec a n)
      end
  end;
  repeat match goal with |- context [?a <? ?b] => destruct (Nat.ltb_spec a b) end;
  try lia.

Lemma wf_new c : wf (NewRingBuffer c).
Proof.
  unfold NewRingBuffer. split; simpl; rewrite ?length_replicate; try lia;
    destruct (Z.ltb_spec c 1); lia.
Qed.

Lemma wf_push s r : wf r → wf (Push s r).
Proof.
  intros [Hc Hb Hh Hn]. split; simpl; [done| by rewrite length_insert | |].
  - apply Nat.mod_upper_bound. lia.
  - destruct (Nat.ltb_spec (count r) (capacity r)); lia.
Qed.

Lemma wf_reset r : wf r → wf (Reset r).
Proof. intros [Hc Hb Hh Hn]. split; simpl; lia. Qed.
#[export] Hint Resolve wf_new wf_push wf_reset : go.

(** Every index [Snapshot] reads is a slot of the buffer. *)
Lemma wf_snapshot_in_range r i :
  wf r → (((head r + capacity r - count r) mod capacity r + i) mod capacity r) < length (buf r).
Proof. intros [Hc Hb Hh Hn]. rewrite Hb. apply Nat.mod_upper_bound. lia. Qed.

Lemma length_Snapshot r : length (Snapshot r) = Len r.
Proof.
  unfold Snapshot, Len. destruct (Nat.eqb_spec (count r) 0) as [->|]; [done|].
  by rewrite length_map, length_seq.
Qed.

Lemma lookup_Snapshot r i :
  wf r → i < count r →
  Snapshot r !! i =
  Some (slot r (let k := head r + capacity r - count r + i in
                if k <? capacity r then k else k - capacity r)).
Proof.
  intros [Hc Hb Hh Hn] Hi. unfold Snapshot.
  destruct (Nat.eqb_spec (count r) 0); [lia|].
  rewrite list_lookup_fmap, lookup_seq_lt by lia. simpl. f_equal. f_equal. cbv zeta. wrap.
Qed.

Lemma slot_push_eq s r : wf r → slot (Push s r) (head r) = s.
Proof. intros [Hc Hb Hh Hn]. apply list_lookup_total_insert_eq. lia. Qed.

Lemma slot_push_ne s r i : i ≠ head r → slot (Push s r) i = slot r i.
Proof. intros. by apply list_lookup_total_insert_ne. Qed.

(** A push appends to the snapshot and drops what no longer fits. *)
Lemma Snapshot_Push s r :
  wf r → Snapshot (Push s r) = lastn (capacity r) (Snapshot r ++ [s]).
Proof.
  intros Hw. pose proof (wf_push s r Hw) as Hw'.
  pose proof Hw as [Hc Hb Hh Hn].
  apply list_eq_same_length with (length (Snapshot (Push s r))); [|done|].
  { rewrite length_lastn, length_app, !length_Snapshot. unfold Len. simpl.
    destruct (Nat.ltb_spec (count r) (capacity r)); lia. }
  intros i x y Hi Hx Hy.
  rewrite length_Snapshot in Hi. unfold Len in Hi.
  rewrite lookup_Snapshot in Hx by done. injection Hx as <-.
  unfold lastn in Hy. rewrite lookup_drop, length_app, length_Snapshot in Hy.
  unfold Len in Hy. simpl in *.
  set (off := count r + 1 - capacity r) in Hy.
  destruct (decide (off + i < count r)) as [Hlt|Hge].
  - rewrite lookup_app_l in Hy by (rewrite length_Snapshot; done).
    rewrite lookup_Snapshot in Hy by done. injection Hy as <-.
    subst off. destruct (Nat.ltb_spec (count r) (capacity r));
      rewrite slot_push_ne; try f_equal; wrap.
  - rewrite lookup_app_r in Hy by (rewrite length_Snapshot; unfold Len; lia).
    rewrite length_Snapshot in Hy. apply list_lookup_singleton_Some in Hy as [Hz <-].
    unfold Len in Hz. subst off. rewrite <-(slot_push_eq s r Hw) at 2.
    f_equal. destruct (Nat.ltb_spec (count r) (capacity r)); wrap.
Qed.

Lemma Snapshot_new c : Snapshot (NewRingBuffer c) = [].
Proof. done. Qed.

Lemma Snapshot_Reset r : Snapshot (Reset r) = [].
Proof. done. Qed.

Lemma capacity_run op r : capacity (rb_run op r) = capacity r.
Proof. by destruct op. Qed.

Lemma capacity_runs ops r : capacity (fold_left (λ r op, rb_run op r) ops r) = capacity r.
Proof.
  revert r. induction ops as [|op ops IH]; simpl; intros r; [done|].
  by rewrite IH, capacity_run.
Qed.

Lemma wf_run op r : wf r → wf (rb_run op r).
Proof. destruct op; simpl; auto with go. Qed.

Lemma abs_run op r : wf r → abs (rb_run op r) = q_run op (abs r).
Proof.
  intros Hw. destruct op; unfold abs, q_push, q_reset; simpl; [|done].
  by rewrite Snapshot_Push.
Qed.

(** Any state reached from [NewRingBuffer c]: the invariant holds and the buffer
    stands for the queue that ran the same operations. *)
Lemma reach_refines ops r q :
  wf r → abs r = q →
  wf (fold_left (λ r op, rb_run op r) ops r) ∧
  abs (fold_left (λ r op, rb_run op r) ops r) = fold_left (λ q op, q_run op q) ops q.
Proof.
  revert r q. induction ops as [|op ops IH]; simpl; intros r q Hw <-; [done|].
  apply IH; [by apply wf_run | by apply abs_run].
Qed.

Lemma q_runs ops q acc :
  q_items q = lastn (q_cap q) acc →
  fold_left (λ q op, q_run op q) ops q =
  mkQueue (q_cap q)
    (lastn (q_cap q)
       (fold_left (λ acc op, match op with OpPush s => acc ++ [s] | OpReset => [] end) ops acc)).
Proof.
  revert q acc. induction ops as [|op ops IH]; simpl; intros [c l] acc; simpl; intros ->; [done|].
  destruct op as [s|]; [rewrite (IH _ (acc ++ [s])) | rewrite (IH _ [])]; simpl; try done.
  by rewrite lastn_app_lastn.
Qed.

(** ** Properties *)

(** C9. Refinement: after any sequence of [Push] and [Reset] calls on a buffer
    made by [NewRingBuffer c], [Snapshot] returns, oldest first, exactly the last
    [max 1 c] samples pushed since the last [Reset], and [Len] is their number. *)
Theorem ring_buffer_is_bounded_queue (c : Z) (ops : list rb_op) :
  let r := fold_left (λ r op, rb_run op r) ops (NewRingBuffer c) in
  Snapshot r = lastn (Z.to_nat (Z.max 1 c)) (pushed_since_reset ops) ∧
  Len r = length (Snapshot r).
Proof.
  intros r. split; [|by rewrite length_Snapshot].
  destruct (reach_refines ops (NewRingBuffer c) _ (wf_new c) eq_refl) as [_ Habs].
  rewrite (q_runs ops _ []) in Habs by done.
  replace (Z.to_nat (Z.max 1 c)) with (capacity (NewRingBuffer c)).
  { by apply (f_equal q_items) in Habs. }
  unfold NewRingBuffer. simpl. destruct (Z.ltb_spec c 1); f_equal; lia.
Qed.

(** Safety: in every reachable state, the index [Push] writes and every index
    [Snapshot] reads are inside the backing slice, and the number of stored
    samples never exceeds the capacity, so no method can panic. *)
Theorem ring_buffer_indices_in_range (c : Z) (ops : list rb_op) (i : nat) :
  let r := fold_left (λ r op, rb_run op r) ops (NewRingBuffer c) in
  head r < length (buf r) ∧ Len r ≤ capacity r ∧ capacity r = Z.to_nat (Z.max 1 c) ∧
  ((head r + capacity r - count r) mod capacity r + i) mod capacity r < length (buf r).
Proof.
  intros r. assert (wf r) as Hw by (by apply (reach_refines ops _ _ (wf_new c) eq_refl)).
  assert (capacity r = Z.to_nat (Z.max 1 c)) as Hcap.
  { subst r. rewrite capacity_runs. unfold NewRingBuffer. simpl.
    destruct (Z.ltb_spec c 1); f_equal; lia. }
  split_and!; [| by destruct Hw | done | by apply wf_snapshot_in_range].
  destruct Hw. congruence || lia.
Qed.
