(* ===== verification/Growth.v ===== *)
(** * internal/analysis/growth.go

    [CalculateGrowth] over an interface of the arithmetic it uses.  The binary64
    instance is the code; the instance on exact rationals is the algorithm
    without rounding, for which the least-squares theorems are proved: the
    line it computes minimises the squared error, and R2 lies in [[0,1]]. *)

From stdpp Require Import base list.
From Stdlib Require Import ZArith Lia QArith Qfield Lqa SpecFloat.
From S2P Require Import Prelude GoSort GoFloat GoText RingBuffer.

(** The operations of [float64] that growth.go uses. *)
Class GoArith (F : Type) := {
  a_of_Z : Z → F;
  a_add : F → F → F;
  a_sub : F → F → F;
  a_mul : F → F → F;
  a_div : F → F → F;
  a_eqb : F → F → bool;
  a_ltb : F → F → bool;
  a_leb : F → F → bool;
}.

#[export] Instance float_arith : GoArith float := {
  a_of_Z := f_of_Z; a_add := fadd; a_sub := fsub; a_mul := fmul; a_div := fdiv;
  a_eqb := feqb; a_ltb := fltb; a_leb := fleb;
}.

#[export] Instance Q_arith : GoArith Q := {
  a_of_Z := inject_Z; a_add := Qplus; a_sub := Qminus; a_mul := Qmult; a_div := Qdiv;
  a_eqb := Qeq_bool; a_ltb := λ x y, negb (Qle_bool y x); a_leb := Qle_bool;
}.

Section calculate.
Context {F : Type} `{GoArith F}.

Definition a_zero : F := a_of_Z 0.

(* go: internal/analysis/growth.go secondsPerDay *)
Definition secondsPerDay : F := a_of_Z 86400.

(* go: internal/analysis/growth.go GrowthResult *)
Record GrowthResult := mkGrowth {
  GrowthBytesPerDay : F;
  DaysUntilFull : option F;
  ConfidenceR2 : F;
}.

Definition zero_growth : GrowthResult := mkGrowth a_zero None a_zero.

(* go: internal/analysis/growth.go:61-61 x *)
Definition sample_x (t0 : Z) (s : Sample) : F :=
  a_div (a_of_Z (wrap64 (t_unix (Timestamp s) - t0))) secondsPerDay.
Definition sample_y (s : Sample) : F := a_of_Z (UsedBytes s).

(** The four accumulators of the first loop. *)
Record sums := mkSums { sumX : F; sumY : F; sumXY : F; sumX2 : F }.

(* go: internal/analysis/growth.go:60-67 CalculateGrowth *)
Definition accumulate_step (t0 : Z) (a : sums) (s : Sample) : sums :=
  let x := sample_x t0 s in
  let y := sample_y s in
  mkSums (a_add (sumX a) x) (a_add (sumY a) y)
         (a_add (sumXY a) (a_mul x y)) (a_add (sumX2 a) (a_mul x x)).

(* go: internal/analysis/growth.go:59-67 CalculateGrowth *)
Definition accumulate (t0 : Z) (samples : list Sample) : sums :=
  fold_left (accumulate_step t0) samples (mkSums a_zero a_zero a_zero a_zero).

(** One turn of the second loop, on [(ssTot, ssRes)]. *)
(* go: internal/analysis/growth.go:82-88 CalculateGrowth *)
Definition residuals_step (t0 : Z) (slope intercept meanY : F) (a : F * F) (s : Sample) : F * F :=
  let x := sample_x t0 s in
  let yHat := a_add (a_mul slope x) intercept in
  let y := sample_y s in
  (a_add a.1 (a_mul (a_sub y meanY) (a_sub y meanY)),
   a_add a.2 (a_mul (a_sub y yHat) (a_sub y yHat))).

(* go: internal/analysis/growth.go:81-88 CalculateGrowth *)
Definition residuals (t0 : Z) (slope intercept meanY : F) (samples : list Sample) : F * F :=
  fold_left (residuals_step t0 slope intercept meanY) samples (a_zero, a_zero).

(* go: internal/analysis/growth.go:100-112 CalculateGrowth *)
Definition days_until_full (slope : F) (capacityBytes lastBytes : Z) : option F :=
  if a_ltb a_zero slope && (0 <? capacityBytes)%Z then
    let lastUsed := a_of_Z lastBytes in
    let remaining := a_sub (a_of_Z capacityBytes) lastUsed in
    if a_leb remaining a_zero then Some a_zero else Some (a_div remaining slope)
  else None.

(* go: internal/analysis/growth.go CalculateGrowth *)
Definition CalculateGrowth (samples : list Sample) (capacityBytes : Z) : GrowthResult :=
  match samples, last samples with
  | s0 :: _ :: _, Some s_last =>
      let t0 := t_unix (Timestamp s0) in
      let a := accumulate t0 samples in
      let fn := a_of_Z (Z.of_nat (length samples)) in
      let denom := a_sub (a_mul fn (sumX2 a)) (a_mul (sumX a) (sumX a)) in
      if a_eqb denom a_zero then zero_growth
      else
        let slope := a_div (a_sub (a_mul fn (sumXY a)) (a_mul (sumX a) (sumY a))) denom in
        let intercept := a_div (a_sub (sumY a) (a_mul slope (sumX a))) fn in
        let meanY := a_div (sumY a) fn in
        let '(ssTot, ssRes) := residuals t0 slope intercept meanY samples in
        let r2 := if a_ltb a_zero ssTot then a_sub (a_of_Z 1) (a_div ssRes ssTot)
                  else a_zero in
        mkGrowth slope (days_until_full slope capacityBytes (UsedBytes s_last)) r2
  | _, _ => zero_growth
  end.

End calculate.
Arguments GrowthResult F : clear implicits.
Arguments sums F : clear implicits.

(** ** Lemmas: the loops as separate sums *)

Section loops.
Context {F : Type} `{GoArith F}.

Definition asum (f : Sample → F) (l : list Sample) (a : F) : F :=
  fold_left (λ a s, a_add a (f s)) l a.

Lemma accumulate_asum t0 l :
  accumulate t0 l =
  mkSums (asum (sample_x t0) l a_zero) (asum sample_y l a_zero)
         (asum (λ s, a_mul (sample_x t0 s) (sample_y s)) l a_zero)
         (asum (λ s, a_mul (sample_x t0 s) (sample_x t0 s)) l a_zero).
Proof.
  unfold accumulate.
  assert (∀ a b c d, fold_left (accumulate_step t0) l (mkSums a b c d) =
    mkSums (asum (sample_x t0) l a) (asum sample_y l b)
         (asum (λ s, a_mul (sample_x t0 s) (sample_y s)) l c)
         (asum (λ s, a_mul (sample_x t0 s) (sample_x t0 s)) l d)) as E; [|apply E].
  induction l as [|s l IH]; simpl; intros; [done|]. apply IH.
Qed.

Lemma residuals_asum t0 slope b m l :
  residuals t0 slope b m l =
  (asum (λ s, a_mul (a_sub (sample_y s) m) (a_sub (sample_y s) m)) l a_zero,
   asum (λ s, let e := a_sub (sample_y s) (a_add (a_mul slope (sample_x t0 s)) b) in
              a_mul e e) l a_zero).
Proof.
  unfold residuals.
  assert (∀ p q, fold_left (residuals_step t0 slope b m) l (p, q) =
    (asum (λ s, a_mul (a_sub (sample_y s) m) (a_sub (sample_y s) m)) l p,
     asum (λ s, let e := a_sub (sample_y s) (a_add (a_mul slope (sample_x t0 s)) b) in
              a_mul e e) l q)) as E; [|apply E].
  induction l as [|s l IH]; simpl; intros; [done|]. apply IH.
Qed.
End loops.

(** ** Exact arithmetic *)

Local Open Scope Q_scope.

Definition qsum (f : Sample → Q) (l : list Sample) : Q := asum f l 0.

Lemma asum_acc (f : Sample → Q) l a : asum f l a == a + qsum f l.
Proof.
  unfold qsum, asum. revert a. induction l as [|s l IH]; simpl; intros a; [ring|].
  rewrite IH, (IH (0 + f s)). simpl. ring.
Qed.

Lemma qsum_cons f s l : qsum f (s :: l) == f s + qsum f l.
Proof. unfold qsum at 1. simpl. rewrite asum_acc. simpl. ring. Qed.

Lemma qsum_nonneg f l : (∀ s, 0 <= f s) → 0 <= qsum f l.
Proof.
  intros Hf. induction l as [|s l IH]; [by unfold qsum|].
  rewrite qsum_cons. specialize (Hf s). lra.
Qed.

(** The squared error of the line [a*x + b], in terms of the sums. *)
Definition sse (x y : Sample → Q) (a b : Q) (l : list Sample) : Q :=
  qsum (λ s, let e := y s - (a * x s + b) in e * e) l.

Lemma sse_expand x y a b l :
  sse x y a b l ==
  qsum (λ s, y s * y s) l - 2 * a * qsum (λ s, x s * y s) l - 2 * b * qsum y l
  + a * a * qsum (λ s, x s * x s) l + 2 * a * b * qsum x l
  + b * b * inject_Z (Z.of_nat (length l)).
Proof.
  unfold sse. induction l as [|s l IH].
  - unfold qsum; simpl. ring.
  - rewrite !qsum_cons, IH. simpl length. rewrite Nat2Z.inj_succ, <-Z.add_1_r, inject_Z_plus.
    ring.
Qed.

Lemma Q_sq_nonneg (e : Q) : 0 <= e * e.
Proof. nra. Qed.

Lemma Q_pos_cancel (n d : Q) : 0 < n → 0 <= n * d → 0 <= d.
Proof. nra. Qed.

Lemma sse_nonneg x y a b l : 0 <= sse x y a b l.
Proof. apply qsum_nonneg. intros s. apply Q_sq_nonneg. Qed.

Section ols.
Variables (x y : Sample → Q) (l : list Sample).
Local Abbreviation n := (inject_Z (Z.of_nat (length l))).
Local Abbreviation Sx := (qsum x l).
Local Abbreviation Sy := (qsum y l).
Local Abbreviation Sxy := (qsum (λ s, x s * y s) l).
Local Abbreviation Sxx := (qsum (λ s, x s * x s) l).
Definition ols_denom : Q := n * Sxx - Sx * Sx.
Definition ols_slope : Q := (n * Sxy - Sx * Sy) / ols_denom.
Definition ols_intercept : Q := (Sy - ols_slope * Sx) / n.

Hypothesis Hn : 0 < n.

Lemma denom_nonneg : 0 <= ols_denom.
Proof.
  pose proof (sse_nonneg (λ _, 0) x 0 (Sx / n) l) as Hs. rewrite sse_expand in Hs.
  assert (n * (Sx / n) == Sx) as Hm by (field; lra).
  assert (ols_denom == n * (Sxx - (Sx / n) * Sx)) as ->.
  { unfold ols_denom. field. lra. }
  apply Qmult_le_0_compat; [lra|].
  assert (qsum (λ s, 0 * x s) l == 0) as E1.
  { clear. induction l as [|s k IH]; [done|]. rewrite qsum_cons, IH. ring. }
  assert (qsum (λ _, 0 * 0) l == 0) as E2.
  { clear. induction l as [|s k IH]; [done|]. rewrite qsum_cons, IH. ring. }
  assert (qsum (λ _, 0) l == 0) as E3.
  { clear. induction l as [|s k IH]; [done|]. rewrite qsum_cons, IH. ring. }
  rewrite E1, E2, E3 in Hs.
  assert (Sx / n * (Sx / n) * n == Sx / n * Sx) as E4 by (field; lra). lra.
Qed.

Hypothesis Hd : ~ ols_denom == 0.

Lemma normal_1 : ols_slope * Sx + n * ols_intercept == Sy.
Proof. unfold ols_intercept. field. lra. Qed.

Lemma normal_2 : ols_slope * Sxx + ols_intercept * Sx == Sxy.
Proof.
  assert (n * (ols_slope * Sxx + ols_intercept * Sx) == n * Sxy) as E.
  { assert (n * (ols_slope * Sxx + ols_intercept * Sx)
            == ols_slope * ols_denom + Sx * Sy) as ->.
    { unfold ols_intercept, ols_denom. field. lra. }
    unfold ols_slope. field_simplify_eq; [|done]. ring. }
  apply Qmult_inj_l in E; [done|lra].
Qed.

(** The error of any line exceeds that of the computed line by a square form. *)
Lemma sse_gap a b :
  n * (sse x y a b l - sse x y ols_slope ols_intercept l) ==
  (n * (b - ols_intercept) + (a - ols_slope) * Sx)
    * (n * (b - ols_intercept) + (a - ols_slope) * Sx)
  + (a - ols_slope) * (a - ols_slope) * ols_denom.
Proof.
  rewrite !sse_expand. pose proof normal_1 as N1. pose proof normal_2 as N2.
  rewrite <-N1, <-N2 at 1. unfold ols_denom.
  rewrite <-N1, <-N2. ring.
Qed.

Lemma ols_optimal a b : sse x y ols_slope ols_intercept l <= sse x y a b l.
Proof.
  pose proof (sse_gap a b) as G. pose proof denom_nonneg.
  assert (0 <= n * (sse x y a b l - sse x y ols_slope ols_intercept l)).
  { rewrite G. set (t := n * (b - ols_intercept) + (a - ols_slope) * Sx).
    pose proof (Q_sq_nonneg t). pose proof (Q_sq_nonneg (a - ols_slope)).
    assert (0 <= (a - ols_slope) * (a - ols_slope) * ols_denom) by
      (apply Qmult_le_0_compat; done). lra. }
  apply Q_pos_cancel in H0; [lra|done].
Qed.

Lemma ols_exact a b : sse x y a b l == 0 → ols_slope == a.
Proof.
  intros E. pose proof (sse_gap a b) as G. rewrite E in G.
  pose proof (sse_nonneg x y ols_slope ols_intercept l). pose proof denom_nonneg.
  assert (0 < ols_denom) by lra.
  set (d := a - ols_slope) in *. set (t := n * (b - ols_intercept) + d * Sx) in *.
  assert (d * d * ols_denom <= 0) by nra.
  assert (d * d == 0) as Hdd by nra.
  apply Qmult_integral in Hdd. subst d. lra.
Qed.
End ols.

Lemma qsum_ext f g l : (∀ s, f s == g s) → qsum f l == qsum g l.
Proof.
  intros Hfg. induction l as [|s l IH]; [done|]. by rewrite !qsum_cons, IH, Hfg.
Qed.

Lemma qsum_zero_each f l s :
  (∀ s, 0 <= f s) → qsum f l == 0 → s ∈ l → f s == 0.
Proof.
  intros Hf. induction l as [|s' l IH]; intros E Hs; [by apply not_elem_of_nil in Hs|].
  rewrite qsum_cons in E. pose proof (Hf s'). pose proof (qsum_nonneg f l Hf).
  apply elem_of_cons in Hs as [->|Hs]; [lra|]. apply IH; [lra|done].
Qed.

Lemma sse_zero_on_line x y a b l :
  (∀ u, u ∈ l → y u == a * x u + b) → sse x y a b l == 0.
Proof.
  unfold sse. induction l as [|u k IH]; intros Hline; [done|]. rewrite qsum_cons, IH.
  - rewrite Hline by left. ring.
  - intros v Hv. apply Hline. by right.
Qed.

Lemma length_pos (l : list Sample) s : s ∈ l → 0 < inject_Z (Z.of_nat (length l)).
Proof.
  intros Hs. change 0 with (inject_Z 0). rewrite <-Zlt_Qlt.
  destruct l; [by apply not_elem_of_nil in Hs|]. simpl. lia.
Qed.

(** The denominator vanishes only when all abscissas are equal. *)
Lemma denom_zero_same x l s s' :
  ols_denom x l == 0 → s ∈ l → s' ∈ l → x s == x s'.
Proof.
  intros E Hs Hs'. pose proof (length_pos l s Hs) as Hn.
  set (m := qsum x l / inject_Z (Z.of_nat (length l))).
  assert (sse (λ _, 0) x 0 m l == 0) as Hz.
  { assert (inject_Z (Z.of_nat (length l)) * sse (λ _, 0) x 0 m l == ols_denom x l) as Hg.
    { rewrite sse_expand. unfold ols_denom.
      assert (qsum (λ _, 0 * 0) l == 0) as -> by
        (clear; induction l as [|? k IH]; [done|]; rewrite qsum_cons, IH; ring).
      assert (qsum (λ _, 0) l == 0) as -> by
        (clear; induction l as [|? k IH]; [done|]; rewrite qsum_cons, IH; ring).
      subst m. field. lra. }
    rewrite E in Hg. apply Qmult_integral in Hg as [Hg|Hg]; [lra|done]. }
  assert (∀ t, t ∈ l → x t == m) as Hm.
  { intros t Ht. unfold sse in Hz.
    pose proof (qsum_zero_each _ l t (λ u, Q_sq_nonneg _) Hz Ht) as Hq. simpl in Hq.
    apply Qmult_integral in Hq as [Hq|Hq]; lra. }
  by rewrite !Hm.
Qed.

Lemma last_is_some (s : Sample) l : ∃ z, last (s :: l) = Some z.
Proof. destruct (last (s :: l)) eqn:E; [eauto | by rewrite last_None in E]. Qed.

(** What [CalculateGrowth] computes in exact arithmetic. *)
Lemma calculate_growth_exact s0 s1 rest cap :
  let l := s0 :: s1 :: rest in
  let x := sample_x (t_unix (Timestamp s0)) in
  let y := sample_y in
  ¬ ols_denom x l == 0 →
  let n := inject_Z (Z.of_nat (length l)) in
  let ssTot := qsum (λ s, (y s - qsum y l / n) * (y s - qsum y l / n)) l in
  let ssRes := sse x y (ols_slope x y l) (ols_intercept x y l) l in
  GrowthBytesPerDay (CalculateGrowth l cap) = ols_slope x y l ∧
  ConfidenceR2 (CalculateGrowth l cap) =
    if negb (Qle_bool ssTot 0) then 1 - ssRes / ssTot else 0.
Proof.
  intros l x y Hd n ssTot ssRes. unfold CalculateGrowth. subst l.
  destruct (last_is_some s0 (s1 :: rest)) as [z El]. rewrite !El.
  rewrite accumulate_asum.
  rewrite residuals_asum.
  destruct (a_eqb _ _) eqn:Eb; [|by split; reflexivity].
  exfalso. apply Hd. by apply Qeq_bool_eq in Eb.
Qed.

Lemma calculate_growth_exact_zero s0 s1 rest cap :
  let l := s0 :: s1 :: rest in
  ols_denom (sample_x (t_unix (Timestamp s0))) l == 0 →
  CalculateGrowth (F := Q) l cap = zero_growth.
Proof.
  intros l Hd. unfold CalculateGrowth. subst l.
  destruct (last_is_some s0 (s1 :: rest)) as [z El]. rewrite !El.
  rewrite accumulate_asum.
  rewrite residuals_asum.
  destruct (a_eqb _ _) eqn:Eb; [done|].
  exfalso. revert Eb. apply not_false_iff_true, Qeq_bool_iff, Hd.
Qed.

Local Close Scope Q_scope.

(** ** Binary64 facts *)

Lemma f_of_Z_small_finite n : (Z.of_nat n ≤ 8760)%Z → is_inf (f_of_Z (Z.of_nat n)) = false.
Proof. intros. apply f_of_Z_finite. unfold is_int64, int64_min, int64_max. lia. Qed.

(** A zero times a finite number is a zero. *)
Definition is_zero (f : float) : bool := match f with S754_zero _ => true | _ => false end.

Lemma fmul_zero_r x : is_inf x = false → not_nan x → is_zero (fmul x fzero) = true.
Proof. by destruct x. Qed.

(** When all samples carry the same Unix second the abscissas are [+0]. *)
Lemma sample_x_same t0 (s : Sample) : t_unix (Timestamp s) = t0 → sample_x t0 s = fzero.
Proof. intros <-. unfold sample_x. rewrite Z.sub_diag. vm_compute. reflexivity. Qed.

Lemma accumulate_same_instant t0 (l : list Sample) :
  Forall (λ s, t_unix (Timestamp s) = t0) l →
  sumX (accumulate t0 l) = fzero ∧ sumX2 (accumulate t0 l) = fzero.
Proof.
  intros Hl. rewrite accumulate_asum. cbn [sumX sumX2].
  assert (∀ f : Sample → float, Forall (λ s, f s = fzero) l → asum f l fzero = fzero) as E.
  { clear Hl. intros f. unfold asum. induction 1 as [|s k Hs _ IH]; [done|].
    simpl. rewrite Hs. apply IH. }
  assert (∀ s, t_unix (Timestamp s) = t0 → sample_x t0 s = fzero) as Ex
    by (by apply sample_x_same).
  split; apply E; (eapply Forall_impl; [exact Hl|]); intros s Hs; cbn beta;
    by rewrite Ex.
Qed.

Lemma days_until_full_spec (slope : float) cap lastb :
  is_int64 cap → is_int64 lastb →
  match days_until_full slope cap lastb with
  | Some d => fltb fzero slope = true ∧ (0 < cap)%Z ∧ f_nonneg d
  | None => fltb fzero slope = false ∨ (cap ≤ 0)%Z
  end.
Proof.
  intros Hc Hl. unfold days_until_full. change (@a_zero float _) with fzero.
  cbn [a_ltb a_leb a_sub a_div a_of_Z float_arith].
  destruct (fltb fzero slope) eqn:Es; simpl; [|by left].
  destruct (Z.ltb_spec 0 cap); [|by right].
  destruct (fleb _ fzero) eqn:Er.
  - by split_and!.
  - split_and!; [done|done|].
    assert (not_nan (fsub (f_of_Z cap) (f_of_Z lastb))) as Hn.
    { apply fsub_not_nan; auto using f_of_Z_not_nan, f_of_Z_finite. }
    apply fdiv_nonneg; [| |done|by apply fsub_int64_finite].
    + rewrite fleb_alt in Er by done. apply negb_false_iff in Er. by apply fltb_fleb.
    + by apply fltb_fleb.
Qed.

(** ** Properties *)

(** C8. In exact arithmetic the growth rate of [CalculateGrowth] is the slope of
    the ordinary least-squares line: with some intercept it has the smallest
    squared error among all lines, as soon as two samples differ in time. *)
Theorem growth_is_least_squares (l : list Sample) (cap : Z) s0 rest s s' :
  l = s0 :: rest → s ∈ l → s' ∈ l →
  let x := sample_x (t_unix (Timestamp s0)) in
  ¬ (x s == x s')%Q →
  ∃ b, ∀ a' b',
    (sse x sample_y (GrowthBytesPerDay (CalculateGrowth l cap)) b l
     <= sse x sample_y a' b' l)%Q.
Proof.
  intros -> Hs Hs' x Hne.
  destruct rest as [|s1 rest].
  { apply list_elem_of_singleton in Hs as ->, Hs' as ->. by destruct Hne. }
  set (l := s0 :: s1 :: rest) in *.
  assert (¬ (ols_denom x l == 0)%Q) as Hd.
  { intros E. by apply Hne, (denom_zero_same x l). }
  pose proof (calculate_growth_exact s0 s1 rest cap Hd) as [E _]. cbv zeta in E.
  fold l x in E. rewrite E.
  exists (ols_intercept x sample_y l). intros a' b'.
  apply ols_optimal; [by apply (length_pos l s)|done].
Qed.

Definition gw (t u : Z) : Sample := mkSample (t * second)%Z u.

Lemma growth_is_least_squares_witness :
  ∃ b, ∀ a' b',
    (sse (sample_x 0) sample_y (GrowthBytesPerDay (CalculateGrowth (F := Q)
       [gw 0 100; gw 86400 250; gw 172800 300] 1000)) b
       [gw 0 100; gw 86400 250; gw 172800 300]
     <= sse (sample_x 0) sample_y a' b' [gw 0 100; gw 86400 250; gw 172800 300])%Q.
Proof.
  apply (growth_is_least_squares _ 1000 (gw 0 100) [gw 86400 250; gw 172800 300]
           (gw 0 100) (gw 86400 250) eq_refl).
  - left.
  - right. left.
  - by vm_compute.
Defined.

(** In exact arithmetic the confidence R2 always lies in [[0, 1]], the range
    its documentation gives. *)
Theorem growth_r2_in_unit_interval (l : list Sample) (cap : Z) :
  (0 <= ConfidenceR2 (CalculateGrowth (F := Q) l cap) <= 1)%Q.
Proof.
  destruct l as [|s0 [|s1 rest]]; [by split|by split|].
  set (l := s0 :: s1 :: rest). set (x := sample_x (t_unix (Timestamp s0))).
  destruct (Qeq_bool (ols_denom x l) 0) eqn:Eb.
  { apply Qeq_bool_eq in Eb. unfold l. rewrite calculate_growth_exact_zero by done. by split. }
  apply Qeq_bool_neq in Eb.
  pose proof (calculate_growth_exact s0 s1 rest cap Eb) as [_ E]. cbv zeta in E.
  fold l x in E. rewrite E. clear E.
  set (n := inject_Z (Z.of_nat (length l))). set (m := (qsum sample_y l / n)%Q).
  set (tot := qsum _ l). set (res := sse _ _ _ _ l).
  destruct (Qle_bool tot 0) eqn:Et; [by split|]. simpl.
  assert (0 < tot)%Q as Htot.
  { apply Qnot_le_lt. intros H%Qle_bool_iff. congruence. }
  assert (0 <= res)%Q by apply sse_nonneg.
  assert (res <= tot)%Q.
  { apply Qle_trans with (sse x sample_y 0 m l).
    - apply ols_optimal; [by apply (length_pos l s0); left|done].
    - unfold tot. apply Qle_lteq. right. apply qsum_ext. intros s. subst m. simpl. ring. }
  assert (0 <= res / tot)%Q by (apply Qle_shift_div_l; lra).
  assert (res / tot <= 1)%Q by (apply Qle_shift_div_r; lra).
  lra.
Qed.

(** On samples that lie exactly on a line the exact computation returns the
    rate of that line, whatever the sampling times. *)
Theorem growth_exact_on_lines (l : list Sample) (cap : Z) s0 rest s s' (a b : Q) :
  l = s0 :: rest → s ∈ l → s' ∈ l →
  let x := sample_x (t_unix (Timestamp s0)) in
  ¬ (x s == x s')%Q →
  (∀ u, u ∈ l → (sample_y u == a * x u + b)%Q) →
  (GrowthBytesPerDay (CalculateGrowth (F := Q) l cap) == a)%Q.
Proof.
  intros -> Hs Hs' x Hne Hline.
  destruct rest as [|s1 rest].
  { apply list_elem_of_singleton in Hs as ->, Hs' as ->. by destruct Hne. }
  set (l := s0 :: s1 :: rest) in *.
  assert (¬ (ols_denom x l == 0)%Q) as Hd.
  { intros E. by apply Hne, (denom_zero_same x l). }
  pose proof (calculate_growth_exact s0 s1 rest cap Hd) as [E _]. cbv zeta in E.
  fold l x in E. rewrite E.
  apply (ols_exact x sample_y l (length_pos l s Hs) Hd a b).
  by apply sse_zero_on_line.
Qed.

Lemma growth_exact_on_lines_witness :
  (GrowthBytesPerDay (CalculateGrowth (F := Q)
     [gw 0 100; gw 43200 150; gw 172800 300] 1000) == 100)%Q.
Proof.
  apply (growth_exact_on_lines _ 1000 (gw 0 100) [gw 43200 150; gw 172800 300]
           (gw 0 100) (gw 172800 300) 100 100 eq_refl).
  - left.
  - right. right. left.
  - by vm_compute.
  - intros u Hu. repeat (apply elem_of_cons in Hu as [->|Hu]; [by vm_compute|]).
    by apply not_elem_of_nil in Hu.
Defined.

(** The binary64 code returns the zero result for fewer than two samples and
    for samples that all carry the same Unix second (no time has elapsed), for
    every retention the API accepts (at most 8760 samples). *)
Theorem growth_needs_elapsed_time (l : list Sample) (cap t0 : Z) :
  (Z.of_nat (length l) ≤ 8760)%Z →
  length l < 2 ∨ Forall (λ s, t_unix (Timestamp s) = t0) l →
  CalculateGrowth (F := float) l cap = zero_growth.
Proof.
  intros Hlen H. destruct l as [|s0 [|s1 rest]]; [done|done|].
  destruct H as [H|H]; [simpl in H; lia|].
  assert (t_unix (Timestamp s0) = t0) as E0 by (by apply Forall_inv in H).
  set (l := s0 :: s1 :: rest) in *. unfold CalculateGrowth.
  destruct (last_is_some s0 (s1 :: rest)) as [z El]. unfold l at 1. rewrite !El. fold l.
  rewrite E0. destruct (accumulate_same_instant t0 l H) as [E1 E2].
  rewrite E1, E2. cbn [a_eqb a_sub a_mul a_of_Z float_arith].
  pose proof (fmul_zero_r (f_of_Z (Z.of_nat (length l))) (f_of_Z_small_finite _ Hlen)
                (f_of_Z_not_nan _)) as Hz.
  destruct (fmul _ fzero) as [[]| | |] eqn:Em; try done.
Qed.

Lemma growth_needs_elapsed_time_witness :
  CalculateGrowth (F := float) [gw 7 100; gw 7 4611686018427387904] 50 = zero_growth.
Proof.
  apply (growth_needs_elapsed_time _ 50 7); [simpl; lia|].
  right. repeat constructor.
Defined.

(** The binary64 code predicts a fill date exactly when the growth rate is
    positive and the capacity known, and the prediction is then never negative
    and never NaN. *)
Theorem days_until_full_nonnegative (l : list Sample) (cap : Z) :
  is_int64 cap → Forall (λ s, is_int64 (UsedBytes s)) l →
  let g := CalculateGrowth (F := float) l cap in
  match DaysUntilFull g with
  | Some d => fltb fzero (GrowthBytesPerDay g) = true ∧ (0 < cap)%Z ∧ f_nonneg d
  | None => fltb fzero (GrowthBytesPerDay g) = false ∨ (cap ≤ 0)%Z
  end.
Proof.
  intros Hc Hl g. subst g. unfold CalculateGrowth.
  destruct l as [|s0 [|s1 rest]]; [by simpl; left|by simpl; left|].
  destruct (last_is_some s0 (s1 :: rest)) as [z El]. rewrite !El.
  destruct (a_eqb _ _); [by simpl; left|].
  destruct (residuals _ _ _ _ _) as [tot res]. simpl DaysUntilFull. simpl GrowthBytesPerDay.
  apply days_until_full_spec; [done|].
  apply last_Some in El as [k Ek]. rewrite Ek in Hl.
  by apply Forall_app in Hl as [_ Hl]; apply Forall_inv in Hl.
Qed.

Lemma days_until_full_nonnegative_witness :
  match DaysUntilFull (CalculateGrowth (F := float) [gw 0 100; gw 86400 200] 1000) with
  | Some d => fltb fzero (GrowthBytesPerDay (CalculateGrowth [gw 0 100; gw 86400 200] 1000)) = true
              ∧ (0 < 1000)%Z ∧ f_nonneg d
  | None => fltb fzero (GrowthBytesPerDay (CalculateGrowth [gw 0 100; gw 86400 200] 1000)) = false
            ∨ (1000 ≤ 0)%Z
  end.
Proof.
  apply (days_until_full_nonnegative [gw 0 100; gw 86400 200] 1000).
  - unfold is_int64, int64_min, int64_max. lia.
  - repeat constructor; unfold is_int64, int64_min, int64_max; simpl; lia.
Defined.

(** The samples of a volume that holds a constant 20 TiB and one byte, taken
    every five minutes for sixty hours (the default retention of 720). *)
Definition flat_volume : list Sample :=
  map (λ i, gw (300 * Z.of_nat i) 21990232555521) (seq 0 720).

(** Rounding: on a volume whose usage never changes the binary64 code can
    report a positive growth rate and a confidence below zero, outside the
    documented range. *)
Theorem flat_volume_reports_growth :
  let g := CalculateGrowth (F := float) flat_volume 31990232555520 in
  fltb fzero (GrowthBytesPerDay g) = true ∧ fltb (ConfidenceR2 g) fzero = true.
Proof. split; vm_compute; reflexivity. Qed.
