(* ===== verification/ApiTypes.v ===== *)
(** * api/v1: the custom resources

    The Go structs of capacityplan_types.go and capacityplannotification_types.go
    that the controllers read and write, field by field.  A pointer field is an
    [option]; a [metav1.Time] is an instant and a [metav1.Duration] a duration
    ([GoText]).  Object metadata is cut to what the controllers use. *)

From stdpp Require Import base list strings.
From Stdlib Require Import ZArith.
From S2P Require Import Prelude GoFloat GoText.

(** ** Spec *)

(* go: api/v1/capacityplan_types.go ThresholdSpec *)
Record ThresholdSpec := mkThresholdSpec {
  ts_UsageRatio : string;
  ts_DaysUntilFull : Z;
}.

(* go: api/v1/capacityplan_types.go NamespaceBudgetSpec *)
Record NamespaceBudgetSpec := mkNamespaceBudgetSpec {
  nb_Namespace : string;
  nb_Budget : string;
}.

(* go: api/v1/capacityplan_types.go WorkloadBudgetSpec *)
Record WorkloadBudgetSpec := mkWorkloadBudgetSpec {
  wb_Namespace : string;
  wb_Kind : string;
  wb_Name : string;
  wb_Budget : string;
}.

(* go: api/v1/capacityplan_types.go BudgetSpec *)
Record BudgetSpec := mkBudgetSpec {
  NamespaceBudgets : list NamespaceBudgetSpec;
  WorkloadBudgets : list WorkloadBudgetSpec;
}.

(* go: api/v1/capacityplan_types.go OpenAIProviderSpec *)
Record OpenAIProviderSpec := mkOpenAIProviderSpec {
  oa_SecretRefName : string;
  oa_SecretKey : string;
  oa_BaseURL : string;
}.

(* go: api/v1/capacityplan_types.go AnthropicProviderSpec *)
Record AnthropicProviderSpec := mkAnthropicProviderSpec {
  an_SecretRefName : string;
  an_SecretKey : string;
  an_BaseURL : string;
}.

(* go: api/v1/capacityplan_types.go FastAPIProviderSpec *)
Record FastAPIProviderSpec := mkFastAPIProviderSpec {
  fa_URL : string;
  fa_AuthSecretRefName : string;
  fa_AuthSecretKey : string;
  fa_TLSSkipVerify : bool;
  fa_HealthURL : string;
  fa_FailureThreshold : Z;
  fa_Cooldown : duration;
}.

(* go: api/v1/capacityplan_types.go OllamaProviderSpec *)
Record OllamaProviderSpec := mkOllamaProviderSpec { ol_URL : string }.

(* go: api/v1/capacityplan_types.go LLMProviderSpec *)
Record LLMProviderSpec := mkLLMProviderSpec {
  lp_Provider : string;
  lp_Model : string;
  lp_Timeout : duration;
  lp_MaxTokens : Z;
  lp_Temperature : option float;
  lp_OnlyAlertingPVCs : bool;
  lp_OpenAI : OpenAIProviderSpec;
  lp_Anthropic : AnthropicProviderSpec;
  lp_FastAPI : FastAPIProviderSpec;
  lp_Ollama : OllamaProviderSpec;
}.

(* go: api/v1/capacityplan_types.go CapacityPlanSpec *)
Record CapacityPlanSpec := mkCapacityPlanSpec {
  sp_Namespaces : list string;
  sp_SampleRetention : Z;
  sp_ReconcileInterval : duration;
  sp_SampleInterval : duration;
  sp_PrometheusURL : string;
  sp_Thresholds : ThresholdSpec;
  sp_Budgets : BudgetSpec;
  sp_LLMInsightsInterval : duration;
  sp_LLM : LLMProviderSpec;
  sp_GrafanaDashboardNamespace : string;
}.

(** ** Status *)

(* go: api/v1/capacityplan_types.go PVCSummary *)
Record PVCSummary := mkPVCSummary {
  ps_Namespace : string;
  ps_Name : string;
  ps_CapacityBytes : Z;
  ps_UsedBytes : Z;
  ps_UsageRatio : float;
  ps_GrowthBytesPerDay : float;
  ps_DaysUntilFull : option float;
  ps_ConfidenceR2 : float;
  ps_SamplesCount : Z;
  ps_LastSampleTime : option time;
  ps_LLMInsight : string;
  ps_LastLLMTime : option time;
  ps_AlertFiring : bool;
}.

(** The zero value, which a Go map lookup gives for an absent key. *)
Definition zero_PVCSummary : PVCSummary :=
  mkPVCSummary "" "" 0 0 fzero fzero None fzero 0 None "" None false.

(* go: api/v1/capacityplan_types.go PVCSummaryBrief *)
Record PVCSummaryBrief := mkPVCSummaryBrief {
  pb_Namespace : string;
  pb_Name : string;
  pb_UsageRatio : float;
  pb_GrowthBytesPerDay : float;
  pb_DaysUntilFull : option float;
  pb_AlertFiring : bool;
}.

(* go: api/v1/capacityplan_types.go CapacityPlanSummary *)
Record CapacityPlanSummary := mkCapacityPlanSummary {
  cs_TotalPVCs : Z;
  cs_AlertingPVCs : Z;
  cs_TopByUsage : list PVCSummaryBrief;
  cs_TopBySoonestToFull : list PVCSummaryBrief;
  cs_TopByGrowth : list PVCSummaryBrief;
}.

(* go: api/v1/capacityplan_types.go PVCRiskSummary *)
Record PVCRiskSummary := mkPVCRiskSummary {
  rs_Namespace : string;
  rs_Name : string;
  rs_WorkloadKind : string;
  rs_WorkloadName : string;
  rs_WorkloadNamespace : string;
  rs_UsedBytes : Z;
  rs_CapacityBytes : Z;
  rs_UsageRatio : float;
  rs_WeeklyGrowthBytesPerDay : float;
  rs_DailyGrowthBytesPerDay : float;
  rs_GrowthAcceleration : float;
  rs_ConfidenceR2 : float;
  rs_DaysUntilFull : option float;
  rs_ProjectedFullAt : option time;
  rs_LLMInsight : string;
  rs_AlertFiring : bool;
}.

(* go: api/v1/capacityplan_types.go PVCRiskChange *)
Record PVCRiskChange := mkPVCRiskChange {
  rc_Type : string;
  rc_Namespace : string;
  rc_Name : string;
  rc_PreviousWeeklyGrowthBytesPerDay : float;
  rc_CurrentWeeklyGrowthBytesPerDay : float;
  rc_PreviousProjectedFullAt : option time;
  rc_CurrentProjectedFullAt : option time;
  rc_Message : string;
  rc_Time : time;
}.

(* go: api/v1/capacityplan_types.go StorageBudgetForecast *)
Record StorageBudgetForecast := mkStorageBudgetForecast {
  sf_Scope : string;
  sf_Namespace : string;
  sf_Kind : string;
  sf_Name : string;
  sf_BudgetBytes : Z;
  sf_UsedBytes : Z;
  sf_UsageRatio : float;
  sf_GrowthBytesPerDay : float;
  sf_DaysUntilBreach : option float;
  sf_ProjectedBreachAt : option time;
}.

(* go: api/v1/capacityplan_types.go PVCAnomaly *)
Record PVCAnomaly := mkPVCAnomaly {
  pa_Namespace : string;
  pa_Name : string;
  pa_Type : string;
  pa_Severity : string;
  pa_Message : string;
  pa_Time : time;
  pa_WorkloadKind : string;
  pa_WorkloadName : string;
  pa_WeeklyGrowthBytesPerDay : float;
  pa_DailyGrowthBytesPerDay : float;
  pa_GrowthAcceleration : float;
  pa_ConfidenceR2 : float;
}.

(** [metav1.ConditionStatus] and [metav1.Condition] (the transition time is the
    API library's). *)
Inductive ConditionStatus := ConditionTrue | ConditionFalse | ConditionUnknown.

Record Condition := mkCondition {
  cd_Type : string;
  cd_Status : ConditionStatus;
  cd_ObservedGeneration : Z;
  cd_Reason : string;
  cd_Message : string;
}.

(* go: api/v1/capacityplan_types.go CapacityPlanStatus *)
Record CapacityPlanStatus := mkCapacityPlanStatus {
  st_Conditions : list Condition;
  st_PVCs : list PVCSummary;
  st_Summary : CapacityPlanSummary;
  st_TopRisks : list PVCRiskSummary;
  st_RiskDigest : string;
  st_RiskChanges : list PVCRiskChange;
  st_RiskChangeSummary : string;
  st_LLMRiskChangeSummary : string;
  st_LastLLMRiskChangeTime : option time;
  st_RiskSnapshotHash : string;
  st_NamespaceForecasts : list StorageBudgetForecast;
  st_WorkloadForecasts : list StorageBudgetForecast;
  st_LLMBudgetRecommendations : string;
  st_LastLLMBudgetRecommendationsTime : option time;
  st_Anomalies : list PVCAnomaly;
  st_AnomalySummary : string;
  st_LastReconcileTime : option time;
  st_ObservedGeneration : Z;
}.

(* go: api/v1/capacityplan_types.go CapacityPlan *)
Record CapacityPlan := mkCapacityPlan {
  cp_Name : string;
  cp_Generation : Z;
  cp_CreationTimestamp : time;
  cp_Spec : CapacityPlanSpec;
  cp_Status : CapacityPlanStatus;
}.

Definition empty_summary : CapacityPlanSummary := mkCapacityPlanSummary 0 0 [] [] [].

Definition empty_status : CapacityPlanStatus :=
  mkCapacityPlanStatus [] [] empty_summary [] "" [] "" "" None "" [] [] "" None [] "" None 0.

(** A plan whose spec leaves every field to its zero value. *)
Definition empty_spec : CapacityPlanSpec :=
  mkCapacityPlanSpec [] 0 0 0 "" (mkThresholdSpec "" 0) (mkBudgetSpec [] []) 0
    (mkLLMProviderSpec "" "" 0 0 None false (mkOpenAIProviderSpec "" "" "")
       (mkAnthropicProviderSpec "" "" "") (mkFastAPIProviderSpec "" "" "" false "" 0 0)
       (mkOllamaProviderSpec "")) "".

Definition with_conditions (st : CapacityPlanStatus) (cs : list Condition) : CapacityPlanStatus :=
  mkCapacityPlanStatus cs (st_PVCs st) (st_Summary st) (st_TopRisks st) (st_RiskDigest st)
    (st_RiskChanges st) (st_RiskChangeSummary st) (st_LLMRiskChangeSummary st)
    (st_LastLLMRiskChangeTime st) (st_RiskSnapshotHash st) (st_NamespaceForecasts st)
    (st_WorkloadForecasts st) (st_LLMBudgetRecommendations st)
    (st_LastLLMBudgetRecommendationsTime st) (st_Anomalies st) (st_AnomalySummary st)
    (st_LastReconcileTime st) (st_ObservedGeneration st).

Definition with_status (p : CapacityPlan) (st : CapacityPlanStatus) : CapacityPlan :=
  mkCapacityPlan (cp_Name p) (cp_Generation p) (cp_CreationTimestamp p) (cp_Spec p) st.

(** ** Notifications *)

(* go: api/v1/capacityplannotification_types.go SlackNotificationSpec *)
Record SlackNotificationSpec := mkSlackNotificationSpec {
  sl_Enabled : bool;
  sl_WebhookSecretRefName : string;
  sl_WebhookSecretKey : string;
}.

(* go: api/v1/capacityplannotification_types.go EmailNotificationSpec *)
Record EmailNotificationSpec := mkEmailNotificationSpec {
  em_Enabled : bool;
  em_SMTPSecretRefName : string;
  em_SMTPHostKey : string;
  em_SMTPPortKey : string;
  em_SMTPUsernameKey : string;
  em_SMTPPasswordKey : string;
  em_From : string;
  em_To : list string;
  em_SubjectPrefix : string;
}.

(* go: api/v1/capacityplannotification_types.go CapacityPlanNotificationSpec *)
Record CapacityPlanNotificationSpec := mkCapacityPlanNotificationSpec {
  ns_PlanRefName : string;
  ns_Cooldown : duration;
  ns_OnChangeOnly : bool;
  ns_DryRun : bool;
  ns_Slack : SlackNotificationSpec;
  ns_Email : EmailNotificationSpec;
}.

(* go: api/v1/capacityplannotification_types.go CapacityPlanNotificationStatus *)
Record CapacityPlanNotificationStatus := mkCapacityPlanNotificationStatus {
  nt_Conditions : list Condition;
  nt_LastSentTime : option time;
  nt_LastDigestHash : string;
  nt_LastMessage : string;
  nt_LastSentChannels : list string;
}.

(* go: api/v1/capacityplannotification_types.go CapacityPlanNotification *)
Record CapacityPlanNotification := mkCapacityPlanNotification {
  cn_Namespace : string;
  cn_Name : string;
  cn_Generation : Z;
  cn_Spec : CapacityPlanNotificationSpec;
  cn_Status : CapacityPlanNotificationStatus;
}.

(** ** Status conditions

    [meta.SetStatusCondition] of apimachinery, of which the code relies on two
    documented facts: the condition of the given type becomes the new one, and
    those of other types stay. *)
Definition find_condition (t : string) (cs : list Condition) : option Condition :=
  head (filter (λ c, cd_Type c = t) cs).

Class ConditionLib := {
  SetStatusCondition : list Condition → Condition → list Condition;
  set_condition_same cs c : find_condition (cd_Type c) (SetStatusCondition cs c) = Some c;
  set_condition_other cs c t :
    t ≠ cd_Type c → find_condition t (SetStatusCondition cs c) = find_condition t cs;
}.

(** Replacement in place, or a new last element. *)
Fixpoint upsert_condition (cs : list Condition) (c : Condition) : list Condition :=
  match cs with
  | [] => [c]
  | d :: r => if decide (cd_Type d = cd_Type c) then c :: r else d :: upsert_condition r c
  end.

#[export, program] Instance upsert_lib : ConditionLib := {
  SetStatusCondition := upsert_condition;
}.
Next Obligation.
  intros cs c. unfold find_condition. induction cs as [|d r IH]; simpl.
  - rewrite filter_cons_True by done. done.
  - case_decide as E; [by rewrite filter_cons_True|]. by rewrite filter_cons_False.
Qed.
Next Obligation.
  intros cs c t Ht. unfold find_condition. induction cs as [|d r IH]; simpl.
  - by rewrite filter_cons_False by done.
  - case_decide as E.
    + rewrite !filter_cons_False; [done| congruence | congruence].
    + rewrite !filter_cons. by case_decide.
Qed.
