(* ===== verification/Metrics.v ===== *)
(** * internal/metrics and internal/operator

    The interface of the metrics backends the watcher reads usage from, its mock, and
    the Prometheus series the operator exports.  The Prometheus client is in
    PromClient.v. *)

From stdpp Require Import base list strings gmap.
From Stdlib Require Import ZArith Lia.
From S2P Require Import Prelude GoFloat GoText RingBuffer.

(** ** The client interface *)

(* go: internal/metrics/interface.go PVCKey *)
Record PVCKey := mkPVCKey { pk_Namespace : string; pk_Name : string }.

(* go: internal/metrics/interface.go PVCUsage *)
Record PVCUsage := mkPVCUsage { pu_UsedBytes : Z; pu_CapacityBytes : Z }.

(* go: internal/metrics/interface.go RangePoint *)
Record RangePoint := mkRangePoint { rp_Timestamp : time; rp_UsedBytes : Z }.

(* go: internal/metrics/interface.go PVCMetricsClient *)
Record PVCMetricsClient := mkClient {
  GetUsage : PVCKey → res PVCUsage;
  GetUsageRange : PVCKey → time → time → duration → res (list RangePoint);
}.

(** ** The mock client *)

(* go: internal/metrics/mock_client.go MockPVCMetricsClient *)
Record MockPVCMetricsClient := mkMock {
  mock_Data : gmap string PVCUsage;
  mock_RangeData : gmap string (list RangePoint);
  mock_Err : option error;
}.

(* go: internal/metrics/mock_client.go NewMockPVCMetricsClient *)
Definition NewMockPVCMetricsClient : MockPVCMetricsClient := mkMock ∅ ∅ None.

(* go: internal/metrics/mock_client.go MockPVCMetricsClient.GetUsage *)
Definition mock_GetUsage (m : MockPVCMetricsClient) (key : PVCKey) : res PVCUsage :=
  match mock_Err m with
  | Some e => Err e
  | None =>
      let k := pvc_key (pk_Namespace key) (pk_Name key) in
      match mock_Data m !! k with
      | None => Err (errorf ("mock: no data for " +:+ k)%string)
      | Some usage => Ok usage
      end
  end.

(* go: internal/metrics/mock_client.go MockPVCMetricsClient.GetUsageRange *)
Definition mock_GetUsageRange (m : MockPVCMetricsClient) (key : PVCKey)
    (_ _ : time) (_ : duration) : res (list RangePoint) :=
  match mock_Err m with
  | Some e => Err e
  | None => Ok (default [] (mock_RangeData m !! pvc_key (pk_Namespace key) (pk_Name key)))
  end.

Definition mock_client (m : MockPVCMetricsClient) : PVCMetricsClient :=
  mkClient (mock_GetUsage m) (mock_GetUsageRange m).

(** The zero mock that stands in for a nil client: its map lookups all miss. *)
Definition empty_mock : PVCMetricsClient := mock_client (mkMock ∅ ∅ None).

(** ** Exported series

    The metric vectors of internal/operator/metrics.go, each its name and label
    names.  The vectors themselves are the Prometheus client library's: the class
    [MetricsLib] states what the code relies on, [gmap_metrics] realises it. *)

Record metric_vec := mkVec { mv_name : string; mv_labels : list string }.

(* go: internal/operator/metrics.go PVCUsageBytes *)
Definition PVCUsageBytes := mkVec "capacityplan_pvc_usage_bytes" ["namespace"; "pvc"].
(* go: internal/operator/metrics.go PVCCapacityBytes *)
Definition PVCCapacityBytes := mkVec "capacityplan_pvc_capacity_bytes" ["namespace"; "pvc"].
(* go: internal/operator/metrics.go PVCUsageRatio *)
Definition PVCUsageRatio := mkVec "capacityplan_pvc_usage_ratio" ["namespace"; "pvc"].
(* go: internal/operator/metrics.go PVCGrowthBytesPerDay *)
Definition PVCGrowthBytesPerDay :=
  mkVec "capacityplan_pvc_growth_bytes_per_day" ["namespace"; "pvc"].
(* go: internal/operator/metrics.go PVCDaysUntilFull *)
Definition PVCDaysUntilFull := mkVec "capacityplan_pvc_days_until_full" ["namespace"; "pvc"].
(* go: internal/operator/metrics.go PVCProjectedFullTimestampSeconds *)
Definition PVCProjectedFullTimestampSeconds :=
  mkVec "capacityplan_pvc_projected_full_timestamp_seconds" ["namespace"; "pvc"].
(* go: internal/operator/metrics.go PVCGrowthAcceleration *)
Definition PVCGrowthAcceleration :=
  mkVec "capacityplan_pvc_growth_acceleration" ["namespace"; "pvc"].
(* go: internal/operator/metrics.go PVCRiskChangesTotal *)
Definition PVCRiskChangesTotal := mkVec "capacityplan_pvc_risk_changes_total" ["type"].
(* go: internal/operator/metrics.go NamespaceBudgetDaysToBreach *)
Definition NamespaceBudgetDaysToBreach :=
  mkVec "capacityplan_namespace_budget_days_to_breach" ["namespace"].
(* go: internal/operator/metrics.go WorkloadBudgetDaysToBreach *)
Definition WorkloadBudgetDaysToBreach :=
  mkVec "capacityplan_workload_budget_days_to_breach" ["namespace"; "kind"; "workload"].
(* go: internal/operator/metrics.go PVCAnomaly *)
Definition PVCAnomalyVec := mkVec "capacityplan_pvc_anomaly" ["namespace"; "pvc"; "type"].
(* go: internal/operator/metrics.go PVCAnomaliesTotal *)
Definition PVCAnomaliesTotal := mkVec "capacityplan_pvc_anomalies_total" ["type"].
(* go: internal/operator/metrics.go PVCSamplesCount *)
Definition PVCSamplesCount := mkVec "capacityplan_pvc_samples_count" ["namespace"; "pvc"].
(* go: internal/operator/metrics.go LLMRequestsTotal *)
Definition LLMRequestsTotal := mkVec "capacityplan_llm_requests_total" ["provider"; "model"].
(* go: internal/operator/metrics.go LLMErrorsTotal *)
Definition LLMErrorsTotal := mkVec "capacityplan_llm_errors_total" ["provider"; "model"].
(* go: internal/operator/metrics.go LLMTimeoutsTotal *)
Definition LLMTimeoutsTotal := mkVec "capacityplan_llm_timeouts_total" ["provider"; "model"].

(* go: internal/operator/metrics.go LLMLatencySeconds *)
Definition LLMLatencySeconds := mkVec "capacityplan_llm_latency_seconds" ["provider"; "model"].

(* go: internal/operator/metrics.go init *)
Definition registered : list metric_vec :=
  [PVCUsageBytes; PVCCapacityBytes; PVCUsageRatio; PVCGrowthBytesPerDay; PVCDaysUntilFull;
   PVCProjectedFullTimestampSeconds; PVCGrowthAcceleration; PVCRiskChangesTotal; NamespaceBudgetDaysToBreach;
   WorkloadBudgetDaysToBreach; PVCAnomalyVec; PVCAnomaliesTotal; PVCSamplesCount; LLMRequestsTotal; LLMErrorsTotal;
   LLMTimeoutsTotal; LLMLatencySeconds].

(** [MustRegister] does not panic: the names are distinct. *)
Lemma registered_distinct : NoDup (map mv_name registered).
Proof. apply (bool_decide_unpack _). vm_compute. reflexivity. Qed.

(** A gauge or counter has a value once it was set; a histogram keeps its observations
    (the library keeps their number, sum and buckets, which they determine). *)
Class MetricsLib := {
  mstore : Type;
  mget : mstore → metric_vec → list string → option float;
  mobserved : mstore → metric_vec → list string → list float;
  mset : mstore → metric_vec → list string → float → mstore;
  mdelete : mstore → metric_vec → list string → mstore;
  mreset : mstore → metric_vec → mstore;
  mobserve : mstore → metric_vec → list string → float → mstore;
  mget_mset s v l x v' l' :
    mget (mset s v l x) v' l' =
    if decide (mv_name v = mv_name v' ∧ l = l') then Some x else mget s v' l';
  mget_mdelete s v l v' l' :
    mget (mdelete s v l) v' l' =
    if decide (mv_name v = mv_name v' ∧ l = l') then None else mget s v' l';
  mget_mreset s v v' l' :
    mget (mreset s v) v' l' =
    if decide (mv_name v = mv_name v') then None else mget s v' l';
  mget_mobserve s v l x v' l' : mget (mobserve s v l x) v' l' = mget s v' l';
  mobserved_mset s v l x v' l' : mobserved (mset s v l x) v' l' = mobserved s v' l';
  mobserved_mobserve s v l x v' l' :
    mobserved (mobserve s v l x) v' l' =
    if decide (mv_name v = mv_name v' ∧ l = l') then mobserved s v' l' ++ [x] else mobserved s v' l';
}.

(** [Inc] of a counter: its value plus one. *)
Definition minc `{MetricsLib} (s : mstore) (v : metric_vec) (l : list string) : mstore :=
  mset s v l (fadd (default fzero (mget s v l)) (f_of_Z 1)).

(** The instance: a value and the observations per series. *)
Abbreviation series_store := (gmap (string * list string) (option float * list float)) (only parsing).
Definition cell (s : series_store) (k : string * list string) : option float * list float :=
  default (None, []) (s !! k).

Lemma cell_insert s k c k' : cell (<[k := c]> s) k' = if decide (k = k') then c else cell s k'.
Proof. unfold cell. by rewrite lookup_insert; case_decide. Qed.

#[local] Ltac by_cell :=
  intros; cbn beta; rewrite cell_insert; repeat case_decide;
  repeat match goal with
  | Hp : (_, _) = (_, _) |- _ => injection Hp as ? ?
  | Hn : ¬ (_ ∧ _) |- _ => destruct Hn; split; congruence
  | Ha : _ ∧ _ |- _ => destruct Ha
  end; simpl; congruence.

Definition clear_value (name : string) (k : string * list string) (c : option float * list float) :
    option (option float * list float) :=
  Some (if decide (k.1 = name) then (None, c.2) else c).

#[export, program] Instance gmap_metrics : MetricsLib := {
  mstore := series_store;
  mget s v l := (cell s (mv_name v, l)).1;
  mobserved s v l := (cell s (mv_name v, l)).2;
  mset s v l x := <[(mv_name v, l) := (Some x, (cell s (mv_name v, l)).2)]> s;
  mdelete s v l := <[(mv_name v, l) := (None, (cell s (mv_name v, l)).2)]> s;
  mreset s v := map_imap (clear_value (mv_name v)) s;
  mobserve s v l x := <[(mv_name v, l) := ((cell s (mv_name v, l)).1, (cell s (mv_name v, l)).2 ++ [x])]> s;
}.
Next Obligation. by_cell. Qed.
Next Obligation. by_cell. Qed.
Next Obligation.
  intros s v v' l'. unfold cell. rewrite map_lookup_imap.
  destruct (s !! (mv_name v', l')) as [c|]; cbn; [|by case_decide]. unfold clear_value. cbn [fst].
  repeat case_decide; done || naive_solver.
Qed.
Next Obligation. by_cell. Qed.
Next Obligation. by_cell. Qed.
Next Obligation. by_cell. Qed.

(** ** Lemmas *)

Section metrics_lemmas.
Context `{MetricsLib}.

Lemma mget_mset_eq s v l x : mget (mset s v l x) v l = Some x.
Proof. rewrite mget_mset. by case_decide; [|naive_solver]. Qed.

Lemma mget_mset_ne s v l x v' l' :
  mv_name v ≠ mv_name v' ∨ l ≠ l' → mget (mset s v l x) v' l' = mget s v' l'.
Proof. rewrite mget_mset. case_decide; naive_solver. Qed.

Lemma mget_mdelete_eq s v l : mget (mdelete s v l) v l = None.
Proof. rewrite mget_mdelete. by case_decide; [|naive_solver]. Qed.

Lemma mget_minc_eq s v l :
  mget (minc s v l) v l = Some (fadd (default fzero (mget s v l)) (f_of_Z 1)).
Proof. apply mget_mset_eq. Qed.

Lemma mget_minc_ne s v l v' l' :
  mv_name v ≠ mv_name v' ∨ l ≠ l' → mget (minc s v l) v' l' = mget s v' l'.
Proof. apply mget_mset_ne. Qed.

(** Deleting a series never creates one. *)
Lemma mget_mdelete_none s v l v' l' : mget s v' l' = None → mget (mdelete s v l) v' l' = None.
Proof. rewrite mget_mdelete. by case_decide. Qed.
End metrics_lemmas.
