(* ===== verification/PromClient.v ===== *)
(** * internal/metrics: the Prometheus client

    [PrometheusClient] of internal/metrics/prometheus_client.go: the queries it sends,
    the decoding of the answers and the two requests built from them.  The HTTP round
    trip is the parameter [prom_get]; everything else the client uses (JSON, quoting,
    URL escaping, numbers) is the standard library as modelled in the Go files.

    Against a server that follows the Prometheus HTTP API the client returns what the
    server stores; an answer without a value pair makes it panic. *)

From stdpp Require Import base list strings gmap.
From Stdlib Require Import ZArith Lia Ascii SpecFloat.
From S2P Require Import Prelude GoFloat GoText GoJson GoStd GoStrconv JsonDoc RingBuffer Metrics.

Local Open Scope string_scope.

(** ** The Prometheus client *)

(** A decoded [interface{}] of a JSON array, as far as the code looks. *)
Inductive json_value :=
| JString (s : string)
| JNumber (f : float)
| JOther.

(** One element of [data.result]. *)
Record prom_series := mkSeries { pr_Value : list json_value; pr_Values : list (list json_value) }.

(* go: internal/metrics/prometheus_client.go prometheusResponse *)
Record prometheusResponse := mkPromResponse {
  pr_Status : string;
  pr_Result : list prom_series;
  pr_Error : string;
  pr_ErrorType : string;
}.

(** How a GET ends: it cannot be built or sent, its body cannot be read, or it is
    answered with a status and a body. *)
Inductive get_outcome := BuildFails (e : error) | CallFails (e : error) | ReadFails (e : error)
  | Answered (code : Z) (body : string).

(** What the client calls outside the repository: the HTTP round trip. *)
Class PromEnv := {
  prom_get : string → get_outcome;
}.

(** *** Decoding

    Each value of the answer is stored as encoding/json does; the fields the code
    does not read are only checked for their types. *)

Definition dec_interface (v : json) : option json_value :=
  if numbers_fit v then
    Some (match v with
          | JStr s => JString s
          | JNum n => match parse_float n with Some f => JNumber f | None => JOther end
          | _ => JOther
          end)
  else None.
Definition dec_pair : json → option (list json_value) := dec_list dec_interface.

(* go: internal/metrics/prometheus_client.go:77-81 prometheusResponse *)
Definition set_series (k : string) (v : json) (s : prom_series) : option prom_series :=
  if key_is k "metric" then _ ← dec_map v ∅; Some s
  else if key_is k "value" then l ← dec_pair v; Some (mkSeries l (pr_Values s))
  else if key_is k "values" then l ← dec_list dec_pair v; Some (mkSeries (pr_Value s) l)
  else Some s.

Definition with_result (l : list prom_series) (r : prometheusResponse) : prometheusResponse :=
  mkPromResponse (pr_Status r) l (pr_Error r) (pr_ErrorType r).

(* go: internal/metrics/prometheus_client.go:75-82 prometheusResponse *)
Definition set_data (k : string) (v : json) (r : prometheusResponse) : option prometheusResponse :=
  if key_is k "resultType" then _ ← dec_string v ""; Some r
  else if key_is k "result" then l ← dec_list (λ v, dec_struct set_series v (mkSeries [] [])) v; Some (with_result l r)
  else Some r.

(* go: internal/metrics/prometheus_client.go:73-85 prometheusResponse *)
Definition set_response (data : string → json → prometheusResponse → option prometheusResponse) (k : string) (v : json)
    (r : prometheusResponse) : option prometheusResponse :=
  if key_is k "status" then s ← dec_string v (pr_Status r); Some (mkPromResponse s (pr_Result r) (pr_Error r) (pr_ErrorType r))
  else if key_is k "data" then dec_struct data v r
  else if key_is k "error" then s ← dec_string v (pr_Error r); Some (mkPromResponse (pr_Status r) (pr_Result r) s (pr_ErrorType r))
  else if key_is k "errorType" then s ← dec_string v (pr_ErrorType r); Some (mkPromResponse (pr_Status r) (pr_Result r) (pr_Error r) s)
  else Some r.

(** [json.Unmarshal] into a [prometheusResponse]. *)
Definition prom_decode `{GoLib} : string → res prometheusResponse :=
  unmarshal (λ v, dec_struct (set_response set_data) v (mkPromResponse "" [] "" "")).

(** A Go call can also panic: [queryInstant] indexes the decoded pair. *)
Inductive outcome (A : Type) := Returns (r : res A) | Panics.
Arguments Returns {A} r.
Arguments Panics {A}.

Definition outcome_bind {A B} (o : outcome A) (k : res A → outcome B) : outcome B :=
  match o with Returns r => k r | Panics => Panics end.

Section prometheus.
Context `{GoLib} `{PromEnv} `{Platform}.

(** The body of an answer of any status; the errors carry the texts of the caller. *)
Definition get_body (calling reading url : string) : res string :=
  match prom_get url with
  | BuildFails e => Err e
  | CallFails e => Err (wrap_error calling e)
  | ReadFails e => Err (wrap_error reading e)
  | Answered _ body => Ok body
  end.

(* go: internal/metrics/prometheus_client.go PrometheusClient.queryInstant *)
Definition queryInstant (baseURL query : string) : outcome Z :=
  let u := baseURL +:+ "/api/v1/query?query=" +:+ query_escape query in
  match get_body "prometheus request failed: " "reading prometheus response: " u with
  | Err e => Returns (Err e)
  | Ok body =>
      match prom_decode body with
      | Err e => Returns (Err (wrap_error "decoding prometheus response: " e))
      | Ok pr =>
          if negb (pr_Status pr =? "success") then
            Returns (Err (errorf ("prometheus error (" +:+ pr_ErrorType pr +:+ "): " +:+ pr_Error pr)))
          else
            match pr_Result pr with
            | [] => Returns (Ok 0%Z)
            | s :: _ =>
                match pr_Value s !! 1 with
                | None => Panics
                | Some (JString valStr) =>
                    match ParseFloat valStr with
                    | Err e => Returns (Err (wrap_error ("parsing prometheus value " +:+ go_quote valStr +:+ ": ") e))
                    | Ok f => Returns (Ok (f_to_int64 f))
                    end
                | Some _ => Returns (Err (errorf "unexpected value type in prometheus response"))
                end
            end
      end
  end.

(** One [[timestamp, "value"]] pair of a range result; malformed pairs are skipped. *)
(* go: internal/metrics/prometheus_client.go:167-185 queryRange *)
Definition range_point (pair : list json_value) : option RangePoint :=
  match pair with
  | JNumber ts :: JString valStr :: _ =>
      match ParseFloat valStr with
      | Ok f => Some (mkRangePoint (f_to_int64 ts * second)%Z (f_to_int64 f))
      | Err _ => None
      end
  | _ => None
  end.

(* go: internal/metrics/prometheus_client.go:131-137 PrometheusClient.queryRange *)
Definition range_url (baseURL query : string) (start end_ : time) (step : duration) : string :=
  let params := [("query", query);
                 ("start", sprintf_f 0 (f_of_Z (t_unix start)));
                 ("end", sprintf_f 0 (f_of_Z (t_unix end_)));
                 ("step", sprintf_f 0 (duration_seconds step))] in
  baseURL +:+ "/api/v1/query_range?" +:+ url_encode params.

(* go: internal/metrics/prometheus_client.go PrometheusClient.queryRange *)
Definition queryRange (baseURL query : string) (start end_ : time) (step : duration) :
    res (list RangePoint) :=
  let u := range_url baseURL query start end_ step in
  match get_body "prometheus range request failed: " "reading prometheus range response: " u with
  | Err e => Err e
  | Ok body =>
      match prom_decode body with
      | Err e => Err (wrap_error "decoding prometheus range response: " e)
      | Ok pr =>
          if negb (pr_Status pr =? "success") then
            Err (errorf ("prometheus error (" +:+ pr_ErrorType pr +:+ "): " +:+ pr_Error pr))
          else
            match pr_Result pr with
            | [] => Ok []
            | s :: _ => Ok (omap range_point (pr_Values s))
            end
      end
  end.

(** [{namespace=%q,persistentvolumeclaim=%q}]. *)
Definition pvc_selector (key : PVCKey) : string :=
  "{namespace=" +:+ go_quote (pk_Namespace key) +:+ ",persistentvolumeclaim="
    +:+ go_quote (pk_Name key) +:+ "}".

Definition used_query (key : PVCKey) : string :=
  "max(kubelet_volume_stats_used_bytes" +:+ pvc_selector key +:+ ")".

Definition capacity_query (key : PVCKey) : string :=
  "max(kube_persistentvolumeclaim_resource_requests_storage_bytes" +:+ pvc_selector key
    +:+ ") or max(kubelet_volume_stats_capacity_bytes" +:+ pvc_selector key +:+ ")".

(* go: internal/metrics/prometheus_client.go PrometheusClient.GetUsage *)
Definition prom_GetUsage (baseURL : string) (key : PVCKey) : outcome PVCUsage :=
  let where_ := pk_Namespace key +:+ "/" +:+ pk_Name key +:+ ": " in
  outcome_bind (queryInstant baseURL (used_query key)) (λ r,
    match r with
    | Err e => Returns (Err (wrap_error ("querying used bytes for " +:+ where_) e))
    | Ok used =>
        outcome_bind (queryInstant baseURL (capacity_query key)) (λ r,
          match r with
          | Err e => Returns (Err (wrap_error ("querying capacity bytes for " +:+ where_) e))
          | Ok cap => Returns (Ok (mkPVCUsage used cap))
          end)
    end).

(* go: internal/metrics/prometheus_client.go PrometheusClient.GetUsageRange *)
Definition prom_GetUsageRange (baseURL : string) (key : PVCKey)
    (start end_ : time) (step : duration) : res (list RangePoint) :=
  queryRange baseURL (used_query key) start end_ step.

(** What a client of the operator made for a base URL promises to its callers: the
    answers of the methods above.  Of a call that panics nothing is said. *)
(* go: internal/metrics/prometheus_client.go NewPrometheusClient *)
Class PromClients := {
  NewPrometheusClient : string → PVCMetricsClient;
  new_client_usage base key r : prom_GetUsage base key = Returns r → GetUsage (NewPrometheusClient base) key = r;
  new_client_range base key start end_ step :
    GetUsageRange (NewPrometheusClient base) key start end_ step = prom_GetUsageRange base key start end_ step;
}.

(** There is one: a panic as an error, as a caller that recovers sees it. *)
#[program] Definition recovering_clients : PromClients := {|
  NewPrometheusClient base :=
    mkClient (λ key, match prom_GetUsage base key with Returns r => r | Panics => Err (errorf "panic") end)
      (prom_GetUsageRange base) |}.
Next Obligation. intros base key r Hr. cbn. by rewrite Hr. Qed.
Next Obligation. done. Qed.
End prometheus.

(** ** Numbers the server writes *)

Lemma digit_of_digit a : is_digit a = true → is_Some (digit_of a).
Proof. unfold is_digit, in_range, digit_of. intros ->. by eexists. Qed.

Lemma read_mantissa_digits s n m :
  all_digits s = true →
  ∃ v, digits_of m s = Some v ∧ read_mantissa digit_of 10 false n m 0 s = (n + String.length s, v, 0%Z, "")%nat.
Proof.
  revert n m. induction s as [|a s IH]; intros n m Hs; [exists m; by rewrite Nat.add_0_r|].
  rewrite all_digits_cons in Hs. apply andb_true_iff in Hs as [Ha Hs]. cbn [digits_of read_mantissa].
  assert ((a =? ".")%char = false) as ->.
  { destruct (Ascii.eqb_spec a "."); [by subst|done]. }
  destruct (digit_of_digit a Ha) as [d ->]. destruct (IH (S n) (10 * m + d)%Z Hs) as (v & -> & ->).
  exists v. split; [done|]. simpl. by rewrite Nat.add_succ_r.
Qed.

Lemma digits_plain s :
  all_digits s = true → (∀ c, underscores_ok false c s = true ∨ s = "") ∧ drop_underscores s = s.
Proof.
  induction s as [|a s IH]; [intros; split; auto|]. rewrite all_digits_cons. intros [Ha Hs]%andb_true_iff.
  destruct (IH Hs) as [H1 H2]. split.
  - intros c. left. cbn [underscores_ok]. destruct (digit_of_digit a Ha) as [d Hd].
    destruct (is_Some_dec _) as [_|Hn]; [|destruct Hn; by eexists]. by destruct (H1 "0"%char) as [?| ->].
  - cbn [drop_underscores]. rewrite H2. destruct (Ascii.eqb_spec a "_"); [by subst|done].
Qed.

(** [strconv.ParseFloat] of a nonnegative integer below [2^53]. *)
Lemma read_float_itoa z : (0 ≤ z < 2 ^ 53)%Z → read_float (itoa z) = Num (f_of_Z z).
Proof.
  intros Hz. destruct z as [|p|p]; [by vm_compute| |lia].
  destruct (itoa_positive p) as (a & d & E & Hd & Hz0 & Hu).
  assert (is_digit a = true) as Ha by (rewrite all_digits_cons in Hd; by apply andb_true_iff in Hd as [? _]).
  assert (String.length (itoa (Z.pos p)) ≠ 0) as Hlen by (by rewrite E).
  assert (to_lower_ascii a = a) as Hl by (destruct a as [[] [] [] [] [] [] [] []]; try discriminate Ha; done).
  assert (∀ w, (∀ b w', w = String b w' → is_digit b = false) → (to_lower (String a d) =? w) = false) as Hw.
  { intros [|b w] Hb; [done|]. cbn. rewrite Hl. destruct (Ascii.eqb_spec a b); [|done]. subst.
    by rewrite (Hb b w eq_refl) in Ha. }
  assert (∀ n, str_take (S (S n)) (to_lower (String a d)) =? "0x" = false) as Hx.
  { intros n. cbn. rewrite Hl. by rewrite Hz0. }
  destruct (digits_plain _ Hd) as [Hus Hdrop]. unfold unsigned_of in Hu. rewrite E in *.
  destruct (read_mantissa_digits (String a d) 0 0%Z Hd) as (v & Hv & Hm). rewrite Hv in Hu. injection Hu as ->.
  assert (unsigned_float (String a d) = Num (f_of_Z (Z.pos p))) as Hf.
  { unfold unsigned_float. rewrite !Hw, (Hx 0) by (by intros ? ? [= <- _]). cbn [orb].
    destruct (Hus "^"%char) as [->|]; [|done]. rewrite Hdrop. unfold parse_magnitude. rewrite (Hx 0), andb_false_r, Hm.
    cbn [Nat.add String.length Nat.eqb exponent option_map]. change (f_of_decimal (Z.pos p) (0 - 0)) with
      (binary_normalize 53 1024 (Z.pos p * 1) 0 false). rewrite Z.mul_1_r. fold (f_of_Z (Z.pos p)).
    by rewrite f_of_Z_finite by (unfold is_int64, int64_min, int64_max; lia). }
  unfold read_float. destruct (Ascii.eqb_spec a "+"); [by subst|]. destruct (Ascii.eqb_spec a "-"); [by subst|].
  by rewrite Hw by (by intros ? ? [= <- _]).
Qed.

Lemma parse_float_itoa z : (0 ≤ z < 2 ^ 53)%Z → parse_float (itoa z) = Some (f_of_Z z).
Proof. intros Hz. unfold parse_float. by rewrite read_float_itoa. Qed.

(** ** A server that follows the HTTP API

    What it stores for a PVC: the two quantities, if there is a series, and the
    samples of a range. *)

Definition labels_doc (labels : list (string * string)) : json := JObj (map (λ kv, (kv.1, JStr kv.2)) labels).

Definition answer_doc (kind : string) (result : list json) : json :=
  JObj [("status", JStr "success"); ("data", JObj [("resultType", JStr kind); ("result", JArr result)])].

(** [{"metric": labels, "value": [timestamp, "value"]}], if there is a series. *)
Definition instant_doc (labels : list (string * string)) (ts : string) (v : option Z) : json :=
  answer_doc "vector"
    (match v with
     | Some v => [JObj [("metric", labels_doc labels); ("value", JArr [JNum ts; JStr (itoa v)])]]
     | None => []
     end).

Definition range_doc (labels : list (string * string)) (points : option (list (Z * Z))) : json :=
  answer_doc "matrix"
    (match points with
     | Some l => [JObj [("metric", labels_doc labels);
                        ("values", JArr (map (λ p, JArr [JNum (itoa p.1); JStr (itoa p.2)]) l))]]
     | None => []
     end).

(** A GET is answered with some text of the document, whatever the status. *)
Definition answers `{PromEnv} (url : string) (doc : json) : Prop :=
  ∃ code body, prom_get url = Answered code body ∧ writes doc body.

(** ** Lemmas: decoding the answers *)

Ltac dec_keys :=
  repeat match goal with |- context [key_is ?a ?b] =>
    let r := eval vm_compute in (key_is a b) in change (key_is a b) with r; cbv iota end.

Lemma dec_labels labels m : is_Some (dec_map (labels_doc labels) m).
Proof.
  unfold dec_map, labels_doc. assert (is_Some (Some m)) as H by eauto. revert H. generalize (Some m) as o.
  induction labels as [|[k v] labels IH]; intros o [m' ->]; [eauto|]. cbn [map foldl fst snd mbind option_bind dec_string].
  apply IH. eauto.
Qed.

Lemma decode_answer `{GoLib} body kind result l :
  writes (answer_doc kind result) body →
  mapM (λ v, dec_struct set_series v (mkSeries [] [])) result = Some l →
  prom_decode body = Ok (mkPromResponse "success" l "" "").
Proof.
  intros Hw Hl. unfold prom_decode, unmarshal. rewrite (json_parse_writes _ _ Hw).
  cbn [mbind option_bind answer_doc dec_struct foldl fst snd].
  unfold set_response at 2. dec_keys. cbn [mbind option_bind dec_string].
  unfold set_response. dec_keys. cbn [dec_struct foldl fst snd mbind option_bind].
  unfold set_data at 2. dec_keys. cbn [mbind option_bind dec_string].
  unfold set_data. dec_keys. cbn [dec_list]. by rewrite Hl.
Qed.

Lemma dec_pair_doc lit f t : parse_float lit = Some f → dec_pair (JArr [JNum lit; JStr t]) = Some [JNumber f; JString t].
Proof. intros Hf. unfold dec_pair, dec_list, dec_interface. cbn [mapM numbers_fit]. by rewrite Hf. Qed.

Lemma dec_instant labels ts f t :
  parse_float ts = Some f →
  dec_struct set_series (JObj [("metric", labels_doc labels); ("value", JArr [JNum ts; JStr t])]) (mkSeries [] []) =
  Some (mkSeries [JNumber f; JString t] []).
Proof.
  intros Hf. cbn [dec_struct foldl fst snd mbind option_bind]. unfold set_series at 2. dec_keys.
  destruct (dec_labels labels ∅) as [m ->]. cbn [mbind option_bind]. unfold set_series. dec_keys.
  by rewrite (dec_pair_doc _ f).
Qed.

Definition small (z : Z) : Prop := (0 ≤ z < 2 ^ 53)%Z.

Lemma dec_range labels l :
  Forall (λ p, small p.1) l →
  dec_struct set_series (JObj [("metric", labels_doc labels);
    ("values", JArr (map (λ p, JArr [JNum (itoa p.1); JStr (itoa p.2)]) l))]) (mkSeries [] []) =
  Some (mkSeries [] (map (λ p, [JNumber (f_of_Z p.1); JString (itoa p.2)]) l)).
Proof.
  intros Hl. cbn [dec_struct foldl fst snd mbind option_bind]. unfold set_series at 2. dec_keys.
  destruct (dec_labels labels ∅) as [m ->]. cbn [mbind option_bind]. unfold set_series. dec_keys. cbn [dec_list].
  assert (mapM dec_pair (map (λ p, JArr [JNum (itoa p.1); JStr (itoa p.2)]) l) =
    Some (map (λ p : Z * Z, [JNumber (f_of_Z p.1); JString (itoa p.2)]) l)) as ->; [|done].
  induction Hl as [|p l Hp Hl IH]; [done|]. cbn [map mapM]. rewrite (dec_pair_doc _ (f_of_Z p.1)) by (by apply parse_float_itoa).
  cbn [mbind option_bind]. by rewrite IH.
Qed.

Section server.
Context `{GoLib} `{PromEnv} `{Platform}.

Lemma instant_value base query labels ts v :
  is_Some (parse_float ts) → (∀ z, v = Some z → small z) →
  answers (base +:+ "/api/v1/query?query=" +:+ query_escape query) (instant_doc labels ts v) →
  queryInstant base query = Returns (Ok (default 0%Z v)).
Proof.
  intros [f Hf] Hv (code & body & Hget & Hw). unfold queryInstant, get_body. rewrite Hget. destruct v as [z|].
  - rewrite (decode_answer body "vector" _ [mkSeries [JNumber f; JString (itoa z)] []] Hw).
    + cbn. unfold ParseFloat. rewrite read_float_itoa by (by apply Hv). by rewrite f_to_int64_of_Z by (specialize (Hv z eq_refl); unfold small in Hv; lia).
    + cbn [mapM]. by rewrite (dec_instant labels ts f).
  - by rewrite (decode_answer body "vector" _ [] Hw).
Qed.

Lemma range_point_doc p :
  small p.1 → small p.2 →
  range_point [JNumber (f_of_Z p.1); JString (itoa p.2)] = Some (mkRangePoint (p.1 * second)%Z p.2).
Proof.
  intros Hp1 Hp2. cbn. unfold ParseFloat. rewrite read_float_itoa by done. unfold small in *. by rewrite !f_to_int64_of_Z by lia.
Qed.

Lemma usage_values base key labels ts used capacity :
  is_Some (parse_float ts) →
  (∀ z, used = Some z ∨ capacity = Some z → small z) →
  answers (base +:+ "/api/v1/query?query=" +:+ query_escape (used_query key)) (instant_doc labels ts used) →
  answers (base +:+ "/api/v1/query?query=" +:+ query_escape (capacity_query key)) (instant_doc labels ts capacity) →
  prom_GetUsage base key = Returns (Ok (mkPVCUsage (default 0%Z used) (default 0%Z capacity))).
Proof.
  intros Hts Hz Hu Hc. unfold prom_GetUsage.
  rewrite (instant_value _ _ labels ts used Hts (λ z E, Hz z (or_introl E)) Hu). cbn [outcome_bind].
  by rewrite (instant_value _ _ labels ts capacity Hts (λ z E, Hz z (or_intror E)) Hc).
Qed.

Lemma range_values base key labels samples start end_ step :
  (∀ l, samples = Some l → Forall (λ p, small p.1 ∧ small p.2) l) →
  answers (range_url base (used_query key) start end_ step) (range_doc labels samples) →
  prom_GetUsageRange base key start end_ step =
    Ok (map (λ p, mkRangePoint (p.1 * second)%Z p.2) (default [] samples)).
Proof.
  intros Hl (code & body & Hget & Hw). unfold prom_GetUsageRange, queryRange, get_body. rewrite Hget.
  destruct samples as [l|]; cbn [default from_option]; [|by rewrite (decode_answer body "matrix" _ [] Hw)].
  specialize (Hl l eq_refl). rewrite (decode_answer body "matrix" _
    [mkSeries [] (map (λ p, [JNumber (f_of_Z p.1); JString (itoa p.2)]) l)] Hw).
  - cbn [pr_Status pr_Result pr_Values negb String.eqb]. f_equal. clear -Hl. induction Hl as [|p l [Hp1 Hp2] Hl IH]; [done|].
    cbn [map]. change (omap range_point (?a :: ?b)) with
      (match range_point a with Some y => y :: omap range_point b | None => omap range_point b end).
    by rewrite range_point_doc, IH.
  - cbn [mapM]. rewrite dec_range; [done|]. eapply Forall_impl; [exact Hl|]. by intros p [? _].
Qed.

(** C39. The Prometheus client returns what the server stores.  For a server that
    follows the HTTP API - to each of the three requests the client derives from a
    PVC it sends, with whatever status, white space, labels and timestamps, a success
    document with the stored number, or with no series - [GetUsage] returns the two
    stored numbers, 0 where there is no series, and [GetUsageRange] returns the stored
    samples in their order with their times in whole seconds.  Numbers are nonnegative
    and below [2^53].  The whole way is the code's: quoting the names into PromQL,
    escaping the query, parsing the JSON text, storing it in the response struct, and
    reading the numbers. *)
Theorem client_returns_what_the_server_stores base key labels ts used capacity samples start end_ step :
  is_Some (parse_float ts) →
  (∀ z, used = Some z ∨ capacity = Some z → small z) →
  (∀ l, samples = Some l → Forall (λ p, small p.1 ∧ small p.2) l) →
  answers (base +:+ "/api/v1/query?query=" +:+ query_escape (used_query key)) (instant_doc labels ts used) →
  answers (base +:+ "/api/v1/query?query=" +:+ query_escape (capacity_query key)) (instant_doc labels ts capacity) →
  answers (range_url base (used_query key) start end_ step) (range_doc labels samples) →
  prom_GetUsage base key = Returns (Ok (mkPVCUsage (default 0%Z used) (default 0%Z capacity))) ∧
  prom_GetUsageRange base key start end_ step =
    Ok (map (λ p, mkRangePoint (p.1 * second)%Z p.2) (default [] samples)).
Proof.
  intros Hts Hz Hl Hu Hc Hr. split; [exact (usage_values _ _ _ _ _ _ Hts Hz Hu Hc)|exact (range_values _ _ _ _ _ _ _ Hl Hr)].
Qed.
End server.

(** An answer whose first series carries no value pair makes [GetUsage] panic instead
    of returning an error: the decoded pair is indexed without a length check. *)
Theorem get_usage_panics_on_short_value `{GoLib} `{PromEnv} `{Platform} base key code body pr s rest :
  prom_get (base +:+ "/api/v1/query?query=" +:+ query_escape (used_query key)) = Answered code body →
  prom_decode body = Ok pr →
  pr_Status pr = "success" → pr_Result pr = s :: rest → length (pr_Value s) < 2 →
  prom_GetUsage base key = Panics.
Proof.
  intros Hget Hdec Hs Hr Hlen. unfold prom_GetUsage, queryInstant, get_body.
  rewrite Hget, Hdec, Hs, Hr. cbn. by rewrite (lookup_ge_None_2 (pr_Value s) 1) by lia.
Qed.

(** ** A server to run on *)

(** One volume with a range of two samples and no series for its capacity. *)
Definition demo_key : PVCKey := mkPVCKey "apps" "data-0".
Definition demo_prom (used : string) : PromEnv := {|
  prom_get u :=
    if has_prefix u "http://p/api/v1/query_range?" then
      Answered 200 (render (range_doc [("job", "kubelet")] (Some [(60, 5); (120, 7)]%Z)))
    else if contains u "used_bytes" then Answered 200 used
    else Answered 200 (render (instant_doc [] "1" None)) |}.
Definition demo_used : string := render_indent 0 (instant_doc [("job", "kubelet")] "1700000000.25" (Some 1048576%Z)).

Lemma demo_doc_ok labels ts v :
  Forall (λ kv, valid_utf8 kv.1 = true ∧ valid_utf8 kv.2 = true) labels → json_number ts → doc_ok (instant_doc labels ts v).
Proof.
  intros Hl Hts. destruct v; cbn; split_and!; try done; [|apply valid_itoa].
  induction Hl as [|[k w] l [H1 H2] Hl IH]; [done|]. cbn. by split_and!.
Qed.

Lemma demo_range_written :
  writes (range_doc [("job", "kubelet")] (Some [(60, 5); (120, 7)]%Z))
    (render (range_doc [("job", "kubelet")] (Some [(60, 5); (120, 7)]%Z))).
Proof.
  apply (writes_render (range_doc [("job", "kubelet")] (Some [(60, 5); (120, 7)]%Z))).
  cbn -[itoa]; split_and!; try done; apply json_number_itoa || apply valid_itoa.
Qed.

Lemma client_returns_what_the_server_stores_witness :
  prom_GetUsage (H := demo_go) (H0 := demo_prom demo_used) (H1 := amd64) "http://p" demo_key = Returns (Ok (mkPVCUsage 1048576 0)) ∧
  prom_GetUsageRange (H := demo_go) (H0 := demo_prom demo_used) (H1 := amd64) "http://p" demo_key 0 hour minute =
    Ok [mkRangePoint (60 * second) 5; mkRangePoint (120 * second) 7].
Proof.
  assert (∀ labels ts v, Forall (λ kv, valid_utf8 kv.1 = true ∧ valid_utf8 kv.2 = true) labels → json_number ts →
    doc_ok (instant_doc labels ts v)) as Hdoc by apply demo_doc_ok.
  assert (json_number "1700000000.25") as Hn.
  { apply (json_number_parts false "1700000000" ".25" ""); [right|right|by left].
    - by do 2 eexists.
    - exists "25". split; [done|]. by do 2 eexists. }
  apply (client_returns_what_the_server_stores (H := demo_go) (H0 := demo_prom demo_used) (H1 := amd64) "http://p" demo_key
    [("job", "kubelet")] "1700000000.25" (Some 1048576%Z) None (Some [(60, 5); (120, 7)]%Z)).
  - by eexists.
  - intros z [[= <-]|[=]]. unfold small. lia.
  - intros l [= <-]. unfold small. repeat constructor; simpl; lia.
  - exists 200%Z, demo_used. split; [by vm_compute|]. apply writes_render_indent, Hdoc; [by repeat constructor|done].
  - exists 200%Z, (render (instant_doc [] "1" None)). split; [by vm_compute|].
    by apply (writes_render (instant_doc [] "1" None)).
  - exists 200%Z. eexists. split; [by vm_compute|]. apply demo_range_written.
Defined.

Lemma get_usage_panics_on_short_value_witness :
  prom_GetUsage (H := demo_go) (H0 := demo_prom (render (answer_doc "vector" [JObj []]))) (H1 := amd64) "http://p" demo_key = Panics.
Proof.
  set (body := render (answer_doc "vector" [JObj []])).
  apply (get_usage_panics_on_short_value (H := demo_go) (H0 := demo_prom body) (H1 := amd64) "http://p" demo_key 200 body
    (mkPromResponse "success" [mkSeries [] []] "" "") (mkSeries [] []) []); subst body.
  - by vm_compute.
  - by vm_compute.
  - done.
  - done.
  - simpl. lia.
Defined.
