(* ===== verification/K8s.v ===== *)
(** * The cluster objects the controllers read

    The fields of the Kubernetes API types that the code looks at, and the
    reads of the API server a controller makes through its client.  The server
    itself is not part of the repository: [Api] is the collection of its answers
    during one reconcile. *)

From stdpp Require Import base list strings gmap.
From Stdlib Require Import ZArith.
From S2P Require Import Prelude GoText ApiTypes.

(** A persistent volume claim: its identity and the storage it requests. *)
Record PersistentVolumeClaim := mkPVC {
  pvc_Namespace : string;
  pvc_Name : string;
  pvc_UID : string;
  pvc_Request : option Z;
}.

Record OwnerReference := mkOwner {
  or_Kind : string;
  or_Name : string;
  or_Controller : option bool;
}.

(** A volume of a pod: the claim it mounts, if it is a claim volume. *)
Record Pod := mkPod {
  pod_Namespace : string;
  pod_Name : string;
  pod_OwnerReferences : list OwnerReference;
  pod_Volumes : list (option string);
}.

(** A ReplicaSet or a Job: its name and owners. *)
Record Owned := mkOwned { ow_Name : string; ow_OwnerReferences : list OwnerReference }.

Record Secret := mkSecret { sec_ResourceVersion : string; sec_Data : gmap string string }.

Record ConfigMap := mkConfigMap {
  cm_Namespace : string;
  cm_Name : string;
  cm_Labels : gmap string string;
  cm_Data : gmap string string;
}.

(** Reads: [Get] by namespace and name, [List] of everything or of a namespace. *)
Class Api := {
  get_pvc : string → string → res PersistentVolumeClaim;
  list_pvcs : option string → res (list PersistentVolumeClaim);
  list_pods : string → res (list Pod);
  get_replicaset : string → string → res Owned;
  get_job : string → string → res Owned;
  get_secret : string → string → res Secret;
  list_plans : res (list CapacityPlan);
  get_plan : string → res CapacityPlan;
  get_notification : string → string → res CapacityPlanNotification;
}.

(** [ctrl.Result]: zero means no requeue was asked for. *)
Record Result := mkResult { RequeueAfter : Z }.
Definition no_requeue : Result := mkResult 0.

(** The error the API server answers with when the object does not exist. *)
Definition not_found (what : string) : error := mkError (what +:+ " not found") true false.
