(* ===== verification/Watcher.v ===== *)
(** * internal/controller/pvcwatcher_controller.go

    The data-collection half: per-PVC ring buffers and the gauges fed from them.
    [pvcStates] maps a key to a pointer, a [PVCState] holds a pointer to its ring
    buffer, and [Reconcile] keeps the state pointer while other goroutines run:
    both heaps are explicit, so that aliasing and interleavings can be stated.
    Each method that takes [r.mu] or a buffer's mutex is one step; [Reconcile]
    and [BackfillFromRange] are composed of such steps. *)

From stdpp Require Import base list strings gmap relations.
From Stdlib Require Import ZArith Lia Ascii.
From S2P Require Import Prelude GoFloat GoText RingBuffer Metrics ApiTypes K8s.

(** Addresses of heap objects. *)
Abbreviation loc := nat (only parsing).

(* go: internal/controller/pvcwatcher_controller.go:28-28 defaultPVCWatcherSampleInterval *)
Definition defaultPVCWatcherSampleInterval : Z := (30 * second)%Z.

(* go: internal/controller/pvcwatcher_controller.go PVCState *)
Record PVCState := mkPVCState {
  Buffer : loc;
  LastUID : string;
  LastCapacityBytes : Z;
}.

(* go: internal/controller/capacityplan_controller.go:61-65 supportedAnomalyTypes *)
Definition supportedAnomalyTypes : list string :=
  ["acceleration_spike"; "trend_instability"; "sudden_growth"].

Section watcher.
Context `{MetricsLib} `{MapRange}.

(** The reconciler with the heap it points into ([w_bufs], [w_objs], next free
    location [w_next]) and the exported series. *)
(* go: internal/controller/pvcwatcher_controller.go PVCWatcherReconciler *)
Record watcher := mkWatcher {
  w_bufs : gmap loc RingBuffer;
  w_objs : gmap loc PVCState;
  w_next : loc;
  w_metricsClient : option PVCMetricsClient;
  w_pvcStates : gmap string loc;
  w_retention : Z;
  w_sampleInterval : Z;
  w_series : mstore;
}.

(* go: internal/controller/pvcwatcher_controller.go NewPVCWatcherReconciler *)
Definition NewPVCWatcherReconciler (mc : option PVCMetricsClient) (cap : Z) (series : mstore) :
    watcher :=
  let cap := if (cap <? 1)%Z then 720%Z else cap in
  mkWatcher ∅ ∅ 0 mc ∅ cap defaultPVCWatcherSampleInterval series.

(** ** Memory accesses *)

Definition set_bufs (f : gmap loc RingBuffer → gmap loc RingBuffer) (w : watcher) : watcher :=
  mkWatcher (f (w_bufs w)) (w_objs w) (w_next w) (w_metricsClient w) (w_pvcStates w)
    (w_retention w) (w_sampleInterval w) (w_series w).
Definition set_objs (f : gmap loc PVCState → gmap loc PVCState) (w : watcher) : watcher :=
  mkWatcher (w_bufs w) (f (w_objs w)) (w_next w) (w_metricsClient w) (w_pvcStates w)
    (w_retention w) (w_sampleInterval w) (w_series w).
Definition set_series (f : mstore → mstore) (w : watcher) : watcher :=
  mkWatcher (w_bufs w) (w_objs w) (w_next w) (w_metricsClient w) (w_pvcStates w)
    (w_retention w) (w_sampleInterval w) (f (w_series w)).
Definition set_states (f : gmap string loc → gmap string loc) (w : watcher) : watcher :=
  mkWatcher (w_bufs w) (w_objs w) (w_next w) (w_metricsClient w) (f (w_pvcStates w))
    (w_retention w) (w_sampleInterval w) (w_series w).

(** Reading a state object or a buffer; the locations in use are allocated
    ([wf_watcher]), the default is never read. *)
Definition obj_at (w : watcher) (l : loc) : PVCState :=
  default (mkPVCState 0 "" 0) (w_objs w !! l).
Definition buf_at (w : watcher) (b : loc) : RingBuffer :=
  default (NewRingBuffer 1) (w_bufs w !! b).

(** The method calls [b.Push(s)], [b.Reset()] on the buffer at a location. *)
Definition push_buffer (b : loc) (s : Sample) (w : watcher) : watcher :=
  set_bufs (λ h, <[b := Push s (buf_at w b)]> h) w.
Definition reset_buffer (b : loc) (w : watcher) : watcher :=
  set_bufs (λ h, <[b := Reset (buf_at w b)]> h) w.

(** A new buffer in the heap. *)
Definition alloc_buffer (r : RingBuffer) (w : watcher) : loc * watcher :=
  (w_next w,
   mkWatcher (<[w_next w := r]> (w_bufs w)) (w_objs w) (S (w_next w)) (w_metricsClient w)
     (w_pvcStates w) (w_retention w) (w_sampleInterval w) (w_series w)).

(** A new state object in the heap. *)
Definition alloc_obj (o : PVCState) (w : watcher) : loc * watcher :=
  (w_next w,
   mkWatcher (w_bufs w) (<[w_next w := o]> (w_objs w)) (S (w_next w)) (w_metricsClient w)
     (w_pvcStates w) (w_retention w) (w_sampleInterval w) (w_series w)).

(** ** Methods *)

(* go: internal/controller/pvcwatcher_controller.go ensureState *)
Definition ensureState (key uid : string) (w : watcher) : loc * watcher :=
  match w_pvcStates w !! key with
  | None =>
      let '(b, w) := alloc_buffer (NewRingBuffer (w_retention w)) w in
      let '(l, w) := alloc_obj (mkPVCState b uid 0) w in
      (l, set_states (λ m, <[key := l]> m) w)
  | Some l =>
      let o := obj_at w l in
      if (LastUID o =? uid)%string then (l, w)
      else
        (l, set_objs (λ h, <[l := mkPVCState (Buffer o) uid (LastCapacityBytes o)]> h)
              (reset_buffer (Buffer o) w))
  end.

(* go: internal/controller/pvcwatcher_controller.go getMetricsClient *)
Definition getMetricsClient (w : watcher) : PVCMetricsClient :=
  default empty_mock (w_metricsClient w).

(* go: internal/controller/pvcwatcher_controller.go getSampleInterval *)
Definition getSampleInterval (w : watcher) : Z :=
  if (w_sampleInterval w <=? 0)%Z then defaultPVCWatcherSampleInterval else w_sampleInterval w.

(* go: internal/controller/pvcwatcher_controller.go GetSnapshot *)
Definition GetSnapshot (key : string) (w : watcher) : list Sample :=
  match w_pvcStates w !! key with
  | None => []
  | Some l => Snapshot (buf_at w (Buffer (obj_at w l)))
  end.

(* go: internal/controller/pvcwatcher_controller.go GetLatestCapacity *)
Definition GetLatestCapacity (key : string) (w : watcher) : option Z :=
  match w_pvcStates w !! key with
  | None => None
  | Some l =>
      let c := LastCapacityBytes (obj_at w l) in
      if (c <=? 0)%Z then None else Some c
  end.

(* go: internal/controller/pvcwatcher_controller.go AllKeys *)
Definition AllKeys (w : watcher) : list string := (map_range (w_pvcStates w)).*1.

(** The index of the first slash, if any. *)
Fixpoint slash_index (s : string) : option nat :=
  match s with
  | EmptyString => None
  | String c r => if (Ascii.eqb c "/")%char then Some 0 else S <$> slash_index r
  end.

(* go: internal/controller/pvcwatcher_controller.go splitKey *)
Definition splitKey (key : string) : string * string :=
  match slash_index key with
  | Some i => (str_take i key, str_drop (S i) key)
  | None => ("", key)
  end.

(** The series labelled with a PVC alone, in the order they are deleted. *)
Definition pvc_vectors : list metric_vec :=
  [PVCUsageBytes; PVCCapacityBytes; PVCUsageRatio; PVCSamplesCount; PVCGrowthBytesPerDay;
   PVCDaysUntilFull; PVCProjectedFullTimestampSeconds; PVCGrowthAcceleration].

(* go: internal/controller/pvcwatcher_controller.go:353-366 deleteState *)
Definition delete_series (ns name : string) (m : mstore) : mstore :=
  let m := fold_left (λ m v, mdelete m v [ns; name]) pvc_vectors m in
  fold_left (λ m t, mdelete m PVCAnomalyVec [ns; name; t]) supportedAnomalyTypes m.

(* go: internal/controller/pvcwatcher_controller.go deleteState *)
Definition deleteState (key : string) (w : watcher) : watcher :=
  match w_pvcStates w !! key with
  | None => w
  | Some _ =>
      let w := set_states (delete key) w in
      let '(ns, name) := splitKey key in
      set_series (delete_series ns name) w
  end.

(** One state's buffer replaced by a resized copy. *)
(* go: internal/controller/pvcwatcher_controller.go:309-317 Configure *)
Definition resize_state (retention : Z) (w : watcher) (l : loc) : watcher :=
  let o := obj_at w l in
  let snapshot := Snapshot (buf_at w (Buffer o)) in
  let snapshot :=
    if (retention <? Z.of_nat (length snapshot))%Z
    then lastn (Z.to_nat retention) snapshot else snapshot in
  let resized := fold_left (λ r s, Push s r) snapshot (NewRingBuffer retention) in
  let '(b, w) := alloc_buffer resized w in
  set_objs (λ h, <[l := mkPVCState b (LastUID o) (LastCapacityBytes o)]> h) w.

(* go: internal/controller/pvcwatcher_controller.go Configure *)
Definition Configure (mc : option PVCMetricsClient) (retention sampleInterval : Z)
    (w : watcher) : watcher :=
  let retention := if (retention <? 1)%Z then 720%Z else retention in
  let sampleInterval :=
    if (sampleInterval <=? 0)%Z then defaultPVCWatcherSampleInterval else sampleInterval in
  let mc := match mc with Some _ => mc | None => w_metricsClient w end in
  let same := (retention =? w_retention w)%Z in
  let w := mkWatcher (w_bufs w) (w_objs w) (w_next w) mc (w_pvcStates w)
             retention sampleInterval (w_series w) in
  if same then w
  else fold_left (resize_state retention) (map_range (w_pvcStates w)).*2 w.

(** ** Recording a sample *)

(** The steps of [Reconcile] after a successful usage query: [state.Buffer] is
    loaded, without [r.mu], and pushed to; then the gauges and the capacity
    field are written. *)
(* go: internal/controller/pvcwatcher_controller.go:107-111 Reconcile *)
Definition record_sample (l : loc) (s : Sample) (w : watcher) : watcher :=
  push_buffer (Buffer (obj_at w l)) s w.

(* go: internal/controller/pvcwatcher_controller.go:113-119 Reconcile *)
Definition effective_capacity (usage : PVCUsage) (pvc : PersistentVolumeClaim) : Z :=
  if (pu_CapacityBytes usage =? 0)%Z then default (pu_CapacityBytes usage) (pvc_Request pvc)
  else pu_CapacityBytes usage.

(* go: internal/controller/pvcwatcher_controller.go:121-131 Reconcile *)
Definition record_usage (l : loc) (ns name : string) (used cap : Z) (w : watcher) : watcher :=
  let n := Len (buf_at w (Buffer (obj_at w l))) in
  let w := set_series (λ m,
    let m := mset m PVCUsageBytes [ns; name] (f_of_Z used) in
    let m := mset m PVCCapacityBytes [ns; name] (f_of_Z cap) in
    mset m PVCSamplesCount [ns; name] (f_of_Z (Z.of_nat n))) w in
  let w := set_objs (λ h, <[l := mkPVCState (Buffer (obj_at w l)) (LastUID (obj_at w l)) cap]> h) w in
  if (0 <? cap)%Z
  then set_series (λ m, mset m PVCUsageRatio [ns; name] (fdiv (f_of_Z used) (f_of_Z cap))) w
  else w.

(* go: internal/controller/pvcwatcher_controller.go PVCWatcherReconciler.Reconcile *)
Definition Reconcile `{Api} (now : Z) (ns name : string) (w : watcher) : res Result * watcher :=
  let key := pvc_key ns name in
  match get_pvc ns name with
  | Err e =>
      if err_notfound e then (Ok no_requeue, deleteState key w) else (Err e, w)
  | Ok pvc =>
      let '(l, w) := ensureState key (pvc_UID pvc) w in
      match GetUsage (getMetricsClient w) (mkPVCKey ns name) with
      | Err _ => (Ok (mkResult (getSampleInterval w)), w)
      | Ok usage =>
          let w := record_sample l (mkSample now (pu_UsedBytes usage)) w in
          let cap := effective_capacity usage pvc in
          let w := record_usage l ns name (pu_UsedBytes usage) cap w in
          (Ok (mkResult (getSampleInterval w)), w)
      end
  end.

(** ** Backfill *)

Definition sample_of_point (p : RangePoint) : Sample :=
  mkSample (rp_Timestamp p) (rp_UsedBytes p).

(* go: internal/controller/pvcwatcher_controller.go BackfillFromRange *)
Definition BackfillFromRange (ns name uid : string) (start end_ step : Z) (w : watcher) :
    option error * watcher :=
  let key := pvc_key ns name in
  let '(l, w) := ensureState key uid w in
  match GetUsageRange (getMetricsClient w) (mkPVCKey ns name) start end_ step with
  | Err e => (Some e, w)
  | Ok points =>
      (None, fold_left (λ w p, record_sample l (sample_of_point p) w) points w)
  end.

(** One round of the loop of [BackfillAllPVCs]: successes, errors so far, state. *)
(* go: internal/controller/pvcwatcher_controller.go:235-243 BackfillAllPVCs *)
Definition backfill_one (start end_ step : Z) (acc : Z * list error * watcher)
    (pvc : PersistentVolumeClaim) : Z * list error * watcher :=
  let '(success, errs, w) := acc in
  match BackfillFromRange (pvc_Namespace pvc) (pvc_Name pvc) (pvc_UID pvc) start end_ step w with
  | (Some e, w) =>
      (success, errs ++ [wrap_error (pvc_Namespace pvc +:+ "/" +:+ pvc_Name pvc +:+ ": ") e], w)
  | (None, w) => ((success + 1)%Z, errs, w)
  end.

(* go: internal/controller/pvcwatcher_controller.go BackfillAllPVCs *)
Definition BackfillAllPVCs `{Api} (start end_ step : Z) (w : watcher) :
    Z * option error * watcher :=
  if (step <=? 0)%Z then (0%Z, Some (errorf "step must be > 0"), w)
  else
    match list_pvcs None with
    | Err e => (0%Z, Some e, w)
    | Ok items =>
        let '(success, errs, w) := fold_left (backfill_one start end_ step) items (0%Z, [], w) in
        (success, join_errors errs, w)
    end.

(** ** The abstract state: what is known of each PVC *)

Record pvc_view := mkView { v_uid : string; v_cap : Z; v_buf : bounded_queue }.

Definition obj_view (w : watcher) (l : loc) : pvc_view :=
  let o := obj_at w l in mkView (LastUID o) (LastCapacityBytes o) (abs (buf_at w (Buffer o))).

Definition view (w : watcher) (key : string) : option pvc_view :=
  obj_view w <$> (w_pvcStates w !! key).

Definition view_push (s : Sample) (v : pvc_view) : pvc_view :=
  mkView (v_uid v) (v_cap v) (q_push s (v_buf v)).

(** [ensureState]: a new empty buffer, or a reset one when the UID changed. *)
Definition view_ensure (retention : Z) (uid : string) (v : option pvc_view) : pvc_view :=
  match v with
  | None => mkView uid 0 (mkQueue (Z.to_nat retention) [])
  | Some v => if (v_uid v =? uid)%string then v else mkView uid (v_cap v) (q_reset (v_buf v))
  end.

Definition view_resize (retention : Z) (v : pvc_view) : pvc_view :=
  mkView (v_uid v) (v_cap v)
    (mkQueue (Z.to_nat retention) (lastn (Z.to_nat retention) (q_items (v_buf v)))).

(** ** The invariant *)

(** Distinct keys have distinct state objects, distinct objects (those of deleted
    PVCs that a running call still holds included) have distinct buffers, and
    nothing points outside the heap. *)
Record wf_heap (w : watcher) : Prop := {
  wh_retention : (1 ≤ w_retention w)%Z;
  wh_live k l : w_pvcStates w !! k = Some l → is_Some (w_objs w !! l);
  wh_inj k k' l : w_pvcStates w !! k = Some l → w_pvcStates w !! k' = Some l → k = k';
  wh_sep l l' o o' : w_objs w !! l = Some o → w_objs w !! l' = Some o' →
    Buffer o = Buffer o' → l = l';
  wh_obj l o : w_objs w !! l = Some o → is_Some (w_bufs w !! Buffer o);
  wh_bufs b r : w_bufs w !! b = Some r → wf r;
  wh_fresh l : w_next w ≤ l → w_objs w !! l = None ∧ w_bufs w !! l = None;
}.

(** Every tracked PVC's buffer has the configured retention as capacity. *)
Definition wf_watcher (w : watcher) : Prop :=
  wf_heap w ∧ ∀ k v, view w k = Some v → q_cap (v_buf v) = Z.to_nat (w_retention w).

(** The steps other goroutines can take between two steps of a call: each holds a
    mutex for its whole duration. *)
Inductive step : watcher → watcher → Prop :=
| step_ensure key uid w : step w (ensureState key uid w).2
| step_push b s w : is_Some (w_bufs w !! b) → step w (push_buffer b s w)
| step_capacity l c w o : w_objs w !! l = Some o →
    step w (set_objs (λ h, <[l := mkPVCState (Buffer o) (LastUID o) c]> h) w)
| step_series f w : step w (set_series f w)
| step_delete key w : step w (set_states (delete key) w)
| step_configure mc ret i w : step w (Configure mc ret i w).

(** ** Lemmas: heap accesses *)

Lemma obj_at_Some w l o : w_objs w !! l = Some o → obj_at w l = o.
Proof. unfold obj_at. by intros ->. Qed.

Lemma buf_at_Some w b r : w_bufs w !! b = Some r → buf_at w b = r.
Proof. unfold buf_at. by intros ->. Qed.

Lemma live_buffer w l o : wf_heap w → w_objs w !! l = Some o →
  ∃ r, w_bufs w !! Buffer o = Some r ∧ wf r ∧ obj_view w l = mkView (LastUID o) (LastCapacityBytes o) (abs r).
Proof.
  intros Hw Ho. destruct (wh_obj _ Hw l o Ho) as [r Hr]. exists r. split_and!; [done| by eapply wh_bufs|].
  unfold obj_view. by rewrite (obj_at_Some w l o Ho), (buf_at_Some w _ r Hr).
Qed.

(** Replacing a buffer by one of the same capacity keeps the heap well formed and
    changes the view of its owner only. *)
Lemma wf_heap_update_buf w b r : wf_heap w → is_Some (w_bufs w !! b) → wf r →
  wf_heap (set_bufs (λ h, <[b := r]> h) w).
Proof.
  intros [] Hb Hr. split; simpl; auto.
  - intros l o Ho. apply lookup_insert_is_Some'. eauto.
  - intros b' r'. rewrite lookup_insert_Some. intros [[_ <-]|[_ ?]]; eauto.
  - intros l Hl. destruct (wh_fresh0 l Hl) as [? Hf]. split; [done|].
    rewrite lookup_insert_ne; [done|]. destruct Hb. congruence.
Qed.

Lemma obj_view_update_buf w l o r l' : wf_heap w → w_objs w !! l = Some o → is_Some (w_objs w !! l') →
  obj_view (set_bufs (λ h, <[Buffer o := r]> h) w) l' =
  if decide (l = l') then mkView (LastUID o) (LastCapacityBytes o) (abs r) else obj_view w l'.
Proof.
  intros Hw Ho [o' Ho']. unfold obj_view, obj_at, buf_at. simpl. rewrite Ho'. simpl.
  case_decide as E.
  - subst l'. rewrite Ho in Ho'. injection Ho' as <-. by rewrite lookup_insert_eq.
  - rewrite lookup_insert_ne; [done|]. intros ?. by apply E, (wh_sep _ Hw l l' o o').
Qed.

Lemma wf_heap_update_obj w l o o' : wf_heap w → w_objs w !! l = Some o → Buffer o' = Buffer o →
  wf_heap (set_objs (λ h, <[l := o']> h) w).
Proof.
  intros [] Ho Hb. split; simpl; auto.
  - intros k l' Hk. apply lookup_insert_is_Some'. eauto.
  - intros l1 l2 o1 o2. rewrite !lookup_insert_Some.
    intros [[<- <-]|[? X1]] [[<- <-]|[? X2]] E; eauto; rewrite ?Hb in E; eauto.
  - intros l1 o1. rewrite lookup_insert_Some. intros [[<- <-]|[? X1]]; [rewrite Hb|]; eauto.
  - intros l1 Hl. destruct (wh_fresh0 l1 Hl) as [Hf ?]. split; [|done].
    rewrite lookup_insert_ne; [done|]. intros ->. congruence.
Qed.

Lemma obj_view_update_obj w l o' l' :
  obj_view (set_objs (λ h, <[l := o']> h) w) l' =
  if decide (l = l') then mkView (LastUID o') (LastCapacityBytes o') (abs (buf_at w (Buffer o')))
  else obj_view w l'.
Proof.
  unfold obj_view, obj_at, buf_at. simpl. case_decide as E.
  - subst. by rewrite lookup_insert_eq.
  - by rewrite lookup_insert_ne.
Qed.

Lemma view_live w k v : view w k = Some v →
  ∃ l, w_pvcStates w !! k = Some l ∧ v = obj_view w l.
Proof. unfold view. intros (l & Hl & ->)%fmap_Some. eauto. Qed.

(** A key whose state object is untouched keeps its view. *)
Lemma view_frame w w' k :
  w_pvcStates w' !! k = w_pvcStates w !! k →
  (∀ l, w_pvcStates w !! k = Some l → obj_view w' l = obj_view w l) → view w' k = view w k.
Proof.
  unfold view. intros -> Hl. destruct (w_pvcStates w !! k) as [l|] eqn:E; [|done].
  simpl. by rewrite Hl.
Qed.
(** ** Lemmas: the methods on the heap *)

(** What does not change outside the heap. *)
Definition same_settings (w w' : watcher) : Prop :=
  w_retention w' = w_retention w ∧ w_metricsClient w' = w_metricsClient w ∧
  w_sampleInterval w' = w_sampleInterval w.

Lemma push_buffer_heap w b s : wf_heap w → is_Some (w_bufs w !! b) → wf_heap (push_buffer b s w).
Proof.
  intros Hw Hb. apply wf_heap_update_buf; [done|done|]. destruct Hb as [r Hr].
  rewrite (buf_at_Some _ _ _ Hr). apply wf_push. by eapply wh_bufs.
Qed.

Lemma record_sample_heap w l s : wf_heap w → is_Some (w_objs w !! l) → wf_heap (record_sample l s w).
Proof.
  intros Hw [o Ho]. apply push_buffer_heap; [done|]. rewrite (obj_at_Some _ _ _ Ho).
  by eapply wh_obj.
Qed.

Lemma record_sample_view w l l' s :
  wf_heap w → is_Some (w_objs w !! l) → is_Some (w_objs w !! l') →
  obj_view (record_sample l s w) l' =
  if decide (l = l') then view_push s (obj_view w l) else obj_view w l'.
Proof.
  intros Hw [o Ho] Hl'. unfold record_sample, push_buffer. rewrite (obj_at_Some _ _ _ Ho).
  rewrite (obj_view_update_buf w l o) by done. case_decide; [|done].
  destruct (live_buffer w l o Hw Ho) as (r & Hr & Hwf & ->).
  rewrite (buf_at_Some _ _ _ Hr). unfold view_push. simpl. f_equal. by apply (abs_run (OpPush s)).
Qed.

(** The settings and the map of states do not depend on a sample being recorded. *)
Lemma record_sample_frame w l s :
  same_settings w (record_sample l s w) ∧ w_pvcStates (record_sample l s w) = w_pvcStates w ∧
  w_objs (record_sample l s w) = w_objs w.
Proof. done. Qed.

(** The state after recording samples one by one into the same object. *)
Lemma record_samples_spec w l ss :
  wf_heap w → is_Some (w_objs w !! l) →
  let w' := fold_left (λ w s, record_sample l s w) ss w in
  wf_heap w' ∧ same_settings w w' ∧ w_pvcStates w' = w_pvcStates w ∧ w_objs w' = w_objs w ∧
  ∀ l', is_Some (w_objs w !! l') →
    obj_view w' l' = if decide (l = l') then fold_left (λ v s, view_push s v) ss (obj_view w l)
                     else obj_view w l'.
Proof.
  revert w. induction ss as [|s ss IH]; simpl; intros w Hw Hl.
  { split_and!; try done. intros l' _. by case_decide; subst. }
  destruct (IH (record_sample l s w)) as (Hw' & Hs & Hm & Ho & Hv); [by apply record_sample_heap|done|].
  split_and!; try done. intros l' Hl'. rewrite Hv by done.
  rewrite !record_sample_view by done. case_decide; [|done]. by rewrite decide_True.
Qed.

(** A new state object for a new key. *)
Lemma alloc_state_spec w key uid r :
  wf_heap w → w_pvcStates w !! key = None → wf r →
  let '(b, w1) := alloc_buffer r w in
  let '(l, w2) := alloc_obj (mkPVCState b uid 0) w1 in
  let w' := set_states (λ m, <[key := l]> m) w2 in
  wf_heap w' ∧ obj_view w' l = mkView uid 0 (abs r) ∧
  (∀ l', is_Some (w_objs w !! l') → obj_view w' l' = obj_view w l').
Proof.
  intros Hw Hk Hr. simpl.
  assert (∀ l o, w_objs w !! l = Some o → l < w_next w ∧ Buffer o < w_next w) as Hlt.
  { intros l o Ho. destruct (wh_obj _ Hw l o Ho) as [rb Hrb]. split; apply not_ge.
    - intros Hge. destruct (wh_fresh _ Hw l Hge). congruence.
    - intros Hge. destruct (wh_fresh _ Hw _ Hge). congruence. }
  assert (∀ k l, w_pvcStates w !! k = Some l → l < w_next w) as Hlive.
  { intros k l Hl. destruct (wh_live _ Hw k l Hl) as [o Ho]. by apply (Hlt l o). }
  split_and!.
  - destruct Hw. split; simpl.
    + done.
    + intros k l. rewrite lookup_insert_Some. intros [[_ <-]|[_ Hl]].
      * rewrite lookup_insert_eq. eauto.
      * apply lookup_insert_is_Some'. eauto.
    + intros k k' l. rewrite !lookup_insert_Some.
      intros [[<- <-]|[? X1]] [[<- E]|[? X2]]; eauto; subst.
      * apply Hlive in X2. lia.
      * apply Hlive in X1. lia.
    + intros l1 l2 o1 o2. rewrite !lookup_insert_Some.
      intros [[<- <-]|[? X1]] [[<- <-]|[? X2]] E; simpl in E; eauto.
      * apply Hlt in X2 as [? ?]. lia.
      * apply Hlt in X1 as [? ?]. lia.
    + intros l1 o1. rewrite lookup_insert_Some. intros [[<- <-]|[? X1]]; simpl.
      * rewrite lookup_insert_eq. eauto.
      * apply lookup_insert_is_Some'. eauto.
    + intros b1 r1. rewrite lookup_insert_Some. intros [[_ <-]|[_ ?]]; eauto.
    + intros l Hl. destruct (wh_fresh0 l) as [? ?]; [lia|]. rewrite !lookup_insert_ne by lia. done.
  - unfold obj_view, obj_at, buf_at. simpl. rewrite lookup_insert_eq. simpl.
    by rewrite lookup_insert_eq.
  - intros l' [o Ho]. destruct (Hlt l' o Ho). unfold obj_view, obj_at, buf_at. simpl.
    rewrite lookup_insert_ne by lia. rewrite Ho. simpl. by rewrite lookup_insert_ne by lia.
Qed.

Lemma ensureState_spec w key uid :
  wf_heap w →
  let '(l, w') := ensureState key uid w in
  wf_heap w' ∧ same_settings w w' ∧ w_series w' = w_series w ∧
  w_pvcStates w' !! key = Some l ∧
  obj_view w' l = view_ensure (w_retention w) uid (view w key) ∧
  (∀ k, k ≠ key → view w' k = view w k).
Proof.
  intros Hw. unfold ensureState, view at 1. destruct (w_pvcStates w !! key) as [l|] eqn:Hk.
  - destruct (wh_live _ Hw key l Hk) as [o Ho]. rewrite (obj_at_Some _ _ _ Ho).
    destruct (live_buffer w l o Hw Ho) as (r & Hr & Hwf & Hv).
    change (obj_view w <$> Some l) with (Some (obj_view w l)). rewrite Hv. simpl.
    destruct (String.eqb_spec (LastUID o) uid) as [Huid|Huid].
    { by split_and!. }
    unfold reset_buffer. rewrite (buf_at_Some _ _ _ Hr).
    assert (wf_heap (set_bufs (λ h, <[Buffer o := Reset r]> h) w)) as Hw1.
    { apply wf_heap_update_buf; eauto with go. }
    split_and!; try done.
    + by apply (wf_heap_update_obj _ l o).
    + rewrite obj_view_update_obj, decide_True by done. simpl. unfold buf_at. simpl.
      by rewrite lookup_insert_eq.
    + intros k Hne. apply view_frame; [done|]. intros l' Hl'.
      assert (l ≠ l') as Hll by (intros ->; apply Hne; by eapply (wh_inj _ Hw)).
      rewrite obj_view_update_obj, decide_False by done.
      rewrite (obj_view_update_buf w l o), decide_False by (done || by eapply wh_live). done.
  - pose proof (alloc_state_spec w key uid (NewRingBuffer (w_retention w)) Hw Hk (wf_new _)) as Ha.
    simpl in *. destruct Ha as (Hw' & Hv & Hf). split_and!; try done.
    + by rewrite lookup_insert_eq.
    + rewrite Hv. unfold view_ensure, abs. simpl.
      pose proof (wh_retention _ Hw). by destruct (Z.ltb_spec (w_retention w) 1); [lia|].
    + intros k Hne. apply view_frame; simpl; [by rewrite lookup_insert_ne|].
      intros l' Hl'. apply Hf. by eapply wh_live.
Qed.
Lemma record_usage_spec w l ns name used cap :
  wf_heap w → is_Some (w_objs w !! l) →
  let w' := record_usage l ns name used cap w in
  wf_heap w' ∧ same_settings w w' ∧ w_pvcStates w' = w_pvcStates w ∧
  ∀ l', obj_view w' l' =
        if decide (l = l') then mkView (v_uid (obj_view w l)) cap (v_buf (obj_view w l))
        else obj_view w l'.
Proof.
  intros Hw [o Ho]. unfold record_usage.
  pose proof (wf_heap_update_obj w l o (mkPVCState (Buffer o) (LastUID o) cap) Hw Ho eq_refl) as Hw1.
  assert (∀ f, wf_heap w → wf_heap (set_series f w)) as Hset by (by intros f []).
  assert (∀ w0 f, wf_heap w0 → wf_heap (set_series f w0)) as Hset' by (by intros w0 f []).
  change (obj_at (set_series _ w) l) with (obj_at w l).
  rewrite (obj_at_Some _ _ _ Ho).
  match goal with |- context [set_series ?f w] => set (ws := set_series f w) end.
  assert (wf_heap (set_objs (λ h, <[l := mkPVCState (Buffer o) (LastUID o) cap]> h) ws)) as Hws.
  { apply (wf_heap_update_obj ws l o); [by apply Hset|done|done]. }
  assert (∀ l', obj_view (set_objs (λ h, <[l := mkPVCState (Buffer o) (LastUID o) cap]> h) ws) l' =
            if decide (l = l') then mkView (v_uid (obj_view w l)) cap (v_buf (obj_view w l))
            else obj_view w l') as Hv.
  { intros l'. rewrite obj_view_update_obj. case_decide; [|done]. unfold obj_view.
    by rewrite (obj_at_Some w l o Ho). }
  destruct (0 <? cap)%Z; split_and!; try done. by apply Hset'.
Qed.

Lemma deleteState_spec w key :
  wf_heap w →
  let w' := deleteState key w in
  wf_heap w' ∧ same_settings w w' ∧ view w' key = None ∧ ∀ k, k ≠ key → view w' k = view w k.
Proof.
  intros Hw. unfold deleteState. destruct (w_pvcStates w !! key) as [l|] eqn:Hk.
  - destruct (splitKey key) as [ns name]. split_and!.
    + destruct Hw. split; simpl; auto.
      * intros k l'. rewrite lookup_delete_Some. intros [_ ?]. eauto.
      * intros k k' l'. rewrite !lookup_delete_Some. intros [_ ?] [_ ?]. eauto.
    + done.
    + unfold view. simpl. by rewrite lookup_delete_eq.
    + intros k Hne. unfold view. simpl. by rewrite lookup_delete_ne.
  - split_and!; try done. unfold view. by rewrite Hk.
Qed.

(** Pushing samples one by one keeps the last ones that fit. *)
Lemma abs_pushes r ss : wf r →
  wf (fold_left (λ r s, Push s r) ss r) ∧
  abs (fold_left (λ r s, Push s r) ss r) =
  mkQueue (capacity r) (lastn (capacity r) (Snapshot r ++ ss)).
Proof.
  revert r. induction ss as [|s ss IH]; simpl; intros r Hr.
  - rewrite app_nil_r, lastn_all; [done|]. rewrite length_Snapshot. by destruct Hr.
  - destruct (IH (Push s r)) as [Hw Ha]; [by apply wf_push|]. split; [done|].
    rewrite Ha. simpl. rewrite Snapshot_Push, lastn_app_lastn, <-app_assoc by done. done.
Qed.

Lemma view_pushes ss v :
  q_items (v_buf v) = lastn (q_cap (v_buf v)) (q_items (v_buf v)) →
  fold_left (λ v s, view_push s v) ss v =
  mkView (v_uid v) (v_cap v)
    (mkQueue (q_cap (v_buf v)) (lastn (q_cap (v_buf v)) (q_items (v_buf v) ++ ss))).
Proof.
  revert v. induction ss as [|s ss IH]; simpl; intros [u c [n q]] Hq; simpl in *.
  - by rewrite app_nil_r, <-Hq.
  - rewrite IH; simpl; [|by rewrite lastn_lastn].
    by rewrite lastn_app_lastn, <-app_assoc.
Qed.

Lemma resize_state_spec w l ret :
  wf_heap w → (1 ≤ ret)%Z → is_Some (w_objs w !! l) →
  let w' := resize_state ret w l in
  wf_heap w' ∧ same_settings w w' ∧ w_series w' = w_series w ∧ w_pvcStates w' = w_pvcStates w ∧
  (∀ l', is_Some (w_objs w !! l') → is_Some (w_objs w' !! l') ∧
     obj_view w' l' = if decide (l = l') then view_resize ret (obj_view w l) else obj_view w l').
Proof.
  intros Hw Hret [o Ho]. unfold resize_state. rewrite (obj_at_Some _ _ _ Ho).
  destruct (live_buffer w l o Hw Ho) as (r & Hr & Hwf & Hv).
  rewrite Hv, (buf_at_Some _ _ _ Hr).
  set (ss := if (ret <? Z.of_nat (length (Snapshot r)))%Z then lastn (Z.to_nat ret) (Snapshot r) else Snapshot r).
  assert (ss = lastn (Z.to_nat ret) (Snapshot r)) as Hss.
  { subst ss. destruct (Z.ltb_spec ret (Z.of_nat (length (Snapshot r)))); [done|].
    rewrite lastn_all; [done|lia]. }
  destruct (abs_pushes (NewRingBuffer ret) ss (wf_new ret)) as [Hnw Hna].
  replace (capacity (NewRingBuffer ret)) with (Z.to_nat ret) in Hna
    by (unfold NewRingBuffer; simpl; destruct (Z.ltb_spec ret 1); [lia|done]).
  rewrite Hss, Snapshot_new, app_nil_l, lastn_lastn in Hna by done. rewrite <-Hss in Hna.
  set (nb := fold_left (λ r s, Push s r) ss (NewRingBuffer ret)) in *. simpl.
  assert (∀ l o, w_objs w !! l = Some o → Buffer o ≠ w_next w) as Hfr.
  { intros l1 o1 H1 E. destruct (wh_obj _ Hw _ _ H1) as [r1 Hr1].
    destruct (wh_fresh _ Hw (w_next w)) as [_ X]; [done|]. congruence. }
  split_and!; try done.
  - destruct Hw. split; simpl; auto.
    + intros k l' Hk. apply lookup_insert_is_Some'. eauto.
    + intros l1 l2 o1 o2. rewrite !lookup_insert_Some.
      intros [[<- <-]|[? X1]] [[<- <-]|[? X2]] E; simpl in E; eauto.
      * by destruct (Hfr _ _ X2).
      * by destruct (Hfr _ _ X1).
    + intros l1 o1. rewrite lookup_insert_Some. intros [[<- <-]|[? X1]]; simpl.
      * rewrite lookup_insert_eq. eauto.
      * apply lookup_insert_is_Some'. eauto.
    + intros b1 r1. rewrite lookup_insert_Some. intros [[_ <-]|[_ ?]]; eauto.
    + intros l1 Hl. destruct (wh_fresh0 l1) as [Hf ?]; [lia|]. split.
      * rewrite lookup_insert_ne; [done|]. congruence.
      * by rewrite lookup_insert_ne by lia.
  - intros l' [o' Ho']. split; [apply lookup_insert_is_Some'; right; eauto|].
    unfold obj_view, obj_at, buf_at. simpl. case_decide as E.
    + subst l'. rewrite lookup_insert_eq. simpl. rewrite lookup_insert_eq. simpl.
      unfold view_resize. simpl. by rewrite Hna, Hss.
    + rewrite lookup_insert_ne by done. rewrite Ho'. simpl.
      rewrite lookup_insert_ne; [done|]. symmetry. by eapply Hfr.
Qed.

Lemma resize_states_spec ls w ret :
  wf_heap w → (1 ≤ ret)%Z → NoDup ls → Forall (λ l, is_Some (w_objs w !! l)) ls →
  let w' := fold_left (resize_state ret) ls w in
  wf_heap w' ∧ same_settings w w' ∧ w_series w' = w_series w ∧ w_pvcStates w' = w_pvcStates w ∧
  (∀ l', is_Some (w_objs w !! l') →
     obj_view w' l' = if decide (l' ∈ ls) then view_resize ret (obj_view w l') else obj_view w l').
Proof.
  revert w. induction ls as [|l ls IH]; simpl; intros w Hw Hret Hnd Hls.
  { split_and!; try done. }
  apply NoDup_cons in Hnd as [Hnl Hnd]. apply Forall_cons in Hls as [Hl Hls].
  destruct (resize_state_spec w l ret Hw Hret Hl) as (Hw1 & Hs1 & Hg1 & Hm1 & Hv1).
  destruct (IH (resize_state ret w l)) as (Hw2 & Hs2 & Hg2 & Hm2 & Hv2); try done.
  { apply Forall_forall. intros l' Hl'. apply Hv1. by eapply Forall_forall in Hls. }
  destruct Hs1 as (? & ? & ?), Hs2 as (? & ? & ?).
  split_and!; [done|unfold same_settings; split_and!; congruence|congruence|congruence|].
  intros l' Hl'. destruct (Hv1 l' Hl') as [Hl1 Hv]. rewrite Hv2 by done. rewrite Hv.
  destruct (decide (l = l')) as [->|Hne].
  - rewrite decide_False, decide_True by (done || by left). done.
  - destruct (decide (l' ∈ ls)); [rewrite decide_True by (by right) | rewrite decide_False by set_solver]; done.
Qed.
Lemma live_states w : wf_heap w →
  NoDup (map_range (w_pvcStates w)).*2 ∧
  (∀ l, l ∈ (map_range (w_pvcStates w)).*2 ↔ ∃ k, w_pvcStates w !! k = Some l).
Proof.
  intros Hw. assert (∀ l, l ∈ (map_range (w_pvcStates w)).*2 ↔ ∃ k, w_pvcStates w !! k = Some l) as Hin.
  { intros l. rewrite map_range_perm, list_elem_of_fmap. split.
    - intros ([k l'] & -> & Hk). exists k. by apply elem_of_map_to_list in Hk.
    - intros [k Hk]. exists (k, l). split; [done|]. by apply elem_of_map_to_list. }
  split; [|done]. rewrite map_range_perm.
  apply NoDup_fmap_2_strong; [|apply NoDup_map_to_list].
  intros [k l] [k' l'] Hk Hk' E. simpl in E. subst.
  apply elem_of_map_to_list in Hk, Hk'. f_equal. by eapply wh_inj.
Qed.

Lemma view_items w k v : wf_heap w → view w k = Some v →
  length (q_items (v_buf v)) ≤ q_cap (v_buf v).
Proof.
  intros Hw Hv. apply view_live in Hv as (l & Hl & ->).
  destruct (wh_live _ Hw k l Hl) as [o Ho].
  destruct (live_buffer w l o Hw Ho) as (r & _ & Hwf & ->). simpl.
  rewrite length_Snapshot. by destruct Hwf.
Qed.

Lemma Configure_spec w mc ret i :
  wf_watcher w →
  let ret' := if (ret <? 1)%Z then 720%Z else ret in
  let w' := Configure mc ret i w in
  wf_watcher w' ∧ w_retention w' = ret' ∧ w_series w' = w_series w ∧
  w_pvcStates w' = w_pvcStates w ∧
  (∀ k, view w' k = view_resize ret' <$> view w k).
Proof.
  intros [Hw Hcap] ret'. assert (1 ≤ ret')%Z as Hret by (subst ret'; destruct (Z.ltb_spec ret 1); lia).
  unfold Configure. fold ret'.
  set (si := if (i <=? 0)%Z then _ else i). set (mc' := match mc with Some _ => mc | None => _ end).
  set (w0 := mkWatcher (w_bufs w) (w_objs w) (w_next w) mc' (w_pvcStates w) ret' si (w_series w)).
  assert (wf_heap w0) as Hw0 by (destruct Hw; by split).
  cut (∀ w', wf_heap w' → same_settings w0 w' → w_series w' = w_series w0 →
             w_pvcStates w' = w_pvcStates w0 → (∀ k, view w' k = view_resize ret' <$> view w k) →
             wf_watcher w' ∧ w_retention w' = ret' ∧ w_series w' = w_series w ∧
             w_pvcStates w' = w_pvcStates w ∧
             (∀ k, view w' k = view_resize ret' <$> view w k)).
  { intros Hcut. destruct (Z.eqb_spec ret' (w_retention w)) as [He|_].
    - apply Hcut; try done. intros k. change (view w0 k) with (view w k).
      destruct (view w k) as [v|] eqn:Hv; [|done]. simpl. f_equal.
      pose proof (Hcap k v Hv) as Hc. pose proof (view_items w k v Hw Hv) as Hl.
      destruct v as [u c [n q]]. unfold view_resize. simpl in *. rewrite He, <-Hc, lastn_all; done.
    - destruct (live_states w0 Hw0) as [Hnd Hin].
      destruct (resize_states_spec (map_range (w_pvcStates w0)).*2 w0 ret') as (Hw' & Hs & Hg & Hm & Hv);
        try done.
      { apply Forall_forall. intros l [k Hk]%Hin. by eapply wh_live. }
      apply Hcut; try done. intros k. unfold view at 1. rewrite Hm.
      change (view w k) with (view w0 k). unfold view.
      destruct (w_pvcStates w0 !! k) as [l|] eqn:Hk; [|done]. simpl. f_equal.
      rewrite Hv by (by eapply wh_live). rewrite decide_True; [done|]. apply Hin. eauto. }
  intros w' Hw' (Hr & _ & _) Hg Hm Hv. split_and!; try done. split; [done|].
  intros k v. rewrite Hv, Hr. intros (v0 & _ & ->)%fmap_Some. done.
Qed.

Lemma step_wf w w' : step w w' → wf_watcher w → wf_watcher w'.
Proof.
  intros Hs [Hw Hcap]. destruct Hs as [key uid w|b s w Hb|l c w o Ho|f w|key w|mc ret i w].
  - pose proof (ensureState_spec w key uid Hw) as He.
    destruct (ensureState key uid w) as [l w']. destruct He as (Hw' & (Hr & _) & _ & Hk & Hv & Hf).
    split; [done|]. simpl. rewrite Hr. intros k v. destruct (decide (k = key)) as [->|Hne].
    + unfold view. rewrite Hk. simpl. rewrite Hv. intros [= <-].
      destruct (view w key) as [v|] eqn:Hvk; simpl; [|done].
      apply Hcap in Hvk. by destruct (v_uid v =? uid)%string.
    + rewrite Hf by done. apply Hcap.
  - split; [by apply push_buffer_heap|]. intros k v Hv. apply view_live in Hv as (l & Hl & ->).
    trans (q_cap (v_buf (obj_view w l))); [|apply (Hcap k); unfold view; by setoid_rewrite Hl]. simpl.
    unfold buf_at, obj_at. simpl. destruct (decide (b = Buffer (default (mkPVCState 0 "" 0) (w_objs w !! l)))) as [<-|Hne].
    + by rewrite lookup_insert_eq.
    + by rewrite lookup_insert_ne.
  - split; [by apply (wf_heap_update_obj w l o)|]. intros k v Hv. apply view_live in Hv as (l' & Hl' & ->).
    trans (q_cap (v_buf (obj_view w l'))); [|apply (Hcap k); unfold view; by setoid_rewrite Hl'].
    rewrite obj_view_update_obj. case_decide; [|done]. subst. unfold obj_view. by rewrite (obj_at_Some _ _ _ Ho).
  - split; [by destruct Hw|]. apply Hcap.
  - split.
    + destruct Hw. split; simpl; auto.
      * intros k l'. rewrite lookup_delete_Some. intros [_ ?]. eauto.
      * intros k k' l'. rewrite !lookup_delete_Some. intros [_ ?] [_ ?]. eauto.
    + intros k v. unfold view. simpl. intros (l & Hl & ->)%fmap_Some.
      apply lookup_delete_Some in Hl as [_ Hl]. apply (Hcap k). unfold view. by rewrite Hl.
  - by apply Configure_spec.
Qed.

Lemma steps_wf w w' : rtc step w w' → wf_watcher w → wf_watcher w'.
Proof. induction 1; eauto using step_wf. Qed.

Lemma wf_new_watcher mc cap series : wf_watcher (NewPVCWatcherReconciler mc cap series).
Proof.
  split; [split; simpl|]; try done. destruct (Z.ltb_spec cap 1); lia.
Qed.

Lemma GetSnapshot_view key w :
  GetSnapshot key w = default [] ((λ v, q_items (v_buf v)) <$> view w key).
Proof. unfold GetSnapshot, view. by destruct (w_pvcStates w !! key). Qed.

Lemma GetLatestCapacity_view key w :
  GetLatestCapacity key w =
  (v ← view w key; if (v_cap v <=? 0)%Z then None else Some (v_cap v)).
Proof. unfold GetLatestCapacity, view. by destruct (w_pvcStates w !! key). Qed.

(** The calls are composed of steps. *)

Lemma deleteState_steps key w : rtc step w (deleteState key w).
Proof.
  unfold deleteState. destruct (w_pvcStates w !! key); [|done]. destruct (splitKey key) as [ns name].
  eapply rtc_l; [apply (step_delete key)|]. apply rtc_once, step_series.
Qed.

Lemma record_sample_steps l s w : wf_heap w → is_Some (w_objs w !! l) → rtc step w (record_sample l s w).
Proof.
  intros Hw [o Ho]. apply rtc_once, step_push. rewrite (obj_at_Some _ _ _ Ho). by eapply wh_obj.
Qed.

Lemma record_usage_steps l ns name used cap w : is_Some (w_objs w !! l) →
  rtc step w (record_usage l ns name used cap w).
Proof.
  intros [o Ho]. unfold record_usage. change (obj_at (set_series _ w) l) with (obj_at w l).
  rewrite (obj_at_Some _ _ _ Ho).
  eapply rtc_l; [apply step_series|]. eapply rtc_l; [by apply (step_capacity l cap _ o)|].
  destruct (0 <? cap)%Z; [|done]. apply rtc_once, step_series.
Qed.

Lemma reconcile_steps `{Api} now ns name w : wf_watcher w → rtc step w (Reconcile now ns name w).2.
Proof.
  intros [Hw _]. unfold Reconcile. destruct (get_pvc ns name) as [pvc|e].
  - pose proof (ensureState_spec w (pvc_key ns name) (pvc_UID pvc) Hw) as He.
    pose proof (step_ensure (pvc_key ns name) (pvc_UID pvc) w) as Hst.
    destruct (ensureState _ _ w) as [l w1]. destruct He as (Hw1 & _ & _ & Hk & _).
    assert (is_Some (w_objs w1 !! l)) as Hl by (by eapply wh_live).
    eapply rtc_l; [exact Hst|]. destruct (GetUsage _ _); [|done].
    etrans; [by apply record_sample_steps|]. by apply record_usage_steps.
  - destruct (err_notfound e); [apply deleteState_steps|done].
Qed.

Lemma backfill_steps ns name uid start end_ stp w :
  wf_watcher w → rtc step w (BackfillFromRange ns name uid start end_ stp w).2.
Proof.
  intros [Hw _]. unfold BackfillFromRange.
  pose proof (ensureState_spec w (pvc_key ns name) uid Hw) as He.
  pose proof (step_ensure (pvc_key ns name) uid w) as Hst.
  destruct (ensureState _ _ w) as [l w1]. destruct He as (Hw1 & _ & _ & Hk & _).
  assert (is_Some (w_objs w1 !! l)) as Hl by (by eapply wh_live).
  eapply rtc_l; [exact Hst|]. destruct (GetUsageRange _ _ _ _ _) as [ps|]; [|done]. simpl. clear Hst Hk w Hw.
  revert w1 Hw1 Hl. induction ps as [|p ps IH]; simpl; intros w1 Hw1 Hl; [done|].
  etrans; [by apply record_sample_steps|]. apply IH; [by apply record_sample_heap|done].
Qed.

Lemma BackfillFromRange_spec ns name uid start end_ stp w :
  wf_heap w →
  let key := pvc_key ns name in
  let '(e, w') := BackfillFromRange ns name uid start end_ stp w in
  let v := view_ensure (w_retention w) uid (view w key) in
  wf_heap w' ∧ same_settings w w' ∧ (∀ k, k ≠ key → view w' k = view w k) ∧
  match GetUsageRange (getMetricsClient w) (mkPVCKey ns name) start end_ stp with
  | Err err => e = Some err ∧ view w' key = Some v
  | Ok ps => e = None ∧
      view w' key = Some (fold_left (λ v s, view_push s v) (map sample_of_point ps) v)
  end.
Proof.
  intros Hw key. unfold BackfillFromRange. fold key.
  pose proof (ensureState_spec w key uid Hw) as He.
  destruct (ensureState key uid w) as [l w1]. destruct He as (Hw1 & Hs1 & _ & Hk & Hv & Hf).
  pose proof Hs1 as (Hr & Hc & Hi).
  assert (getMetricsClient w1 = getMetricsClient w) as -> by (unfold getMetricsClient; by rewrite Hc).
  assert (is_Some (w_objs w1 !! l)) as Hl by (by eapply wh_live).
  destruct (GetUsageRange _ _ _ _ _) as [ps|err].
  2:{ split_and!; try done. unfold view at 1. rewrite Hk. simpl. by rewrite Hv. }
  assert (∀ w1, fold_left (λ w p, record_sample l (sample_of_point p) w) ps w1 =
                fold_left (λ w s, record_sample l s w) (map sample_of_point ps) w1) as ->.
  { induction ps as [|p ps IH]; simpl; intros; [done|]. apply IH. }
  destruct (record_samples_spec w1 l (map sample_of_point ps) Hw1 Hl) as (Hw2 & Hs2 & Hm2 & _ & Hv2).
  split_and!; [done| | |done|].
  - destruct Hs1 as (?&?&?), Hs2 as (?&?&?). unfold same_settings. split_and!; congruence.
  - intros k Hne. rewrite <-Hf by done. apply view_frame; [by rewrite Hm2|]. intros l' Hl'.
    assert (l ≠ l') by (intros ->; apply Hne; by eapply (wh_inj _ Hw1)).
    rewrite Hv2, decide_False by (done || by eapply wh_live). done.
  - unfold view at 1. rewrite Hm2, Hk. simpl. rewrite Hv2, decide_True by done. by rewrite Hv.
Qed.

(** What one PVC's backfill makes of what is known of it. *)
Definition view_backfill (mc : PVCMetricsClient) (ret start end_ stp : Z) (pvc : PersistentVolumeClaim)
    (v : option pvc_view) : pvc_view :=
  let v := view_ensure ret (pvc_UID pvc) v in
  match GetUsageRange mc (mkPVCKey (pvc_Namespace pvc) (pvc_Name pvc)) start end_ stp with
  | Err _ => v
  | Ok ps => fold_left (λ v s, view_push s v) (map sample_of_point ps) v
  end.

Definition backfill_ok (mc : PVCMetricsClient) (start end_ stp : Z) (pvc : PersistentVolumeClaim) : bool :=
  res_is_ok (GetUsageRange mc (mkPVCKey (pvc_Namespace pvc) (pvc_Name pvc)) start end_ stp).

Definition key_of (pvc : PersistentVolumeClaim) : string := pvc_key (pvc_Namespace pvc) (pvc_Name pvc).

Lemma backfill_fold_spec items start end_ stp w n errs :
  wf_heap w → NoDup (map key_of items) →
  let mc := getMetricsClient w in
  let '(n', errs', w') := fold_left (backfill_one start end_ stp) items (n, errs, w) in
  n' = (n + Z.of_nat (length (filter (λ p, backfill_ok mc start end_ stp p) items)))%Z ∧
  length errs' = length errs + length (filter (λ p, ¬ backfill_ok mc start end_ stp p) items) ∧
  (∀ p, p ∈ items → view w' (key_of p) =
     Some (view_backfill mc (w_retention w) start end_ stp p (view w (key_of p)))) ∧
  (∀ k, k ∉ map key_of items → view w' k = view w k).
Proof.
  revert n errs w. induction items as [|p items IH]; intros n errs w Hw Hnd mc; cbn [fold_left map].
  { split_and!; [simpl; lia|simpl; lia| |done]. intros p Hp. inversion Hp. }
  apply NoDup_cons in Hnd as [Hnp Hnd]. unfold backfill_one at 2.
  pose proof (BackfillFromRange_spec (pvc_Namespace p) (pvc_Name p) (pvc_UID p) start end_ stp w Hw) as Hb.
  destruct (BackfillFromRange _ _ _ _ _ _ w) as [e w1].
  destruct Hb as (Hw1 & (Hr & Hc & Hi) & Hf & Hm).
  assert (getMetricsClient w1 = mc) as Hmc by (subst mc; unfold getMetricsClient; by rewrite Hc).
  assert (view w1 (key_of p) = Some (view_backfill mc (w_retention w) start end_ stp p (view w (key_of p))) ∧
          (e = None ↔ backfill_ok mc start end_ stp p = true)) as [Hp He].
  { unfold view_backfill, backfill_ok. fold (key_of p) in Hm. subst mc. destruct (GetUsageRange _ _ _ _ _);
      destruct Hm as [-> ->]; split; done. }
  fold (key_of p) in Hf.
  assert (∀ n errs, let '(n', errs', w') := fold_left (backfill_one start end_ stp) items (n, errs, w1) in
    n' = (n + Z.of_nat (length (filter (λ p, backfill_ok mc start end_ stp p) items)))%Z ∧
    length errs' = length errs + length (filter (λ p, ¬ backfill_ok mc start end_ stp p) items) ∧
    (∀ q, q ∈ p :: items → view w' (key_of q) =
       Some (view_backfill mc (w_retention w) start end_ stp q (view w (key_of q)))) ∧
    (∀ k, k ∉ key_of p :: map key_of items → view w' k = view w k)) as Hrest.
  { intros n0 errs0. specialize (IH n0 errs0 w1 Hw1 Hnd). cbv zeta in IH. rewrite Hmc, Hr in IH.
    destruct (fold_left _ items _) as [[n' errs'] w']. destruct IH as (Hn & Hes & Hv & Hk).
    split_and!; [done|done| |].
    - intros q [->|Hq]%elem_of_cons; [by rewrite Hk|]. rewrite Hv, Hf; [done| |done].
      intros E. apply Hnp. rewrite <-E. apply list_elem_of_fmap. eauto.
    - intros k [Hk1 Hk2]%not_elem_of_cons. by rewrite Hk, Hf. }
  destruct e as [e|].
  - assert (¬ backfill_ok mc start end_ stp p) as Hno.
    { intros X. apply Is_true_true_1 in X. apply He in X. done. }
    specialize (Hrest n (errs ++ [wrap_error (pvc_Namespace p +:+ "/" +:+ pvc_Name p +:+ ": ") e])).
    destruct (fold_left _ items _) as [[n' errs'] w']. rewrite length_app in Hrest. simpl in Hrest.
    rewrite filter_cons_False, filter_cons_True by done. simpl. destruct Hrest as (?&?&?&?). split_and!; try done; lia.
  - assert (backfill_ok mc start end_ stp p) as Hyes by (apply Is_true_true_2; by apply He).
    specialize (Hrest (n + 1)%Z errs).
    destruct (fold_left _ items _) as [[n' errs'] w'].
    rewrite filter_cons_True, filter_cons_False by tauto. simpl. destruct Hrest as (?&?&?&?). split_and!; try done; lia.
Qed.

(** ** Lemmas: keys and series *)

Lemma slash_index_app ns r : slash_index ns = None → slash_index (ns +:+ String "/" r) = Some (String.length ns).
Proof.
  induction ns as [|a ns IH]; [done|]. rewrite string_app_cons. simpl.
  destruct (Ascii.eqb a "/"); [done|]. destruct (slash_index ns); [done|]. intros _. by rewrite IH.
Qed.

Lemma splitKey_pvc_key ns name : slash_index ns = None → splitKey (pvc_key ns name) = (ns, name).
Proof.
  intros Hns. unfold splitKey, pvc_key. change ("/" +:+ name) with (String "/" name).
  rewrite slash_index_app by done. f_equal; [apply str_take_app|].
  replace (ns +:+ String "/" name) with ((ns +:+ "/") +:+ name) by (by rewrite <-string_app_assoc).
  rewrite <-(str_drop_app (ns +:+ "/") name) at 2. f_equal. rewrite string_length_app. simpl. lia.
Qed.

(** The series of a PVC, as label tuples. *)
Definition pvc_series (ns name : string) : list (metric_vec * list string) :=
  map (λ v, (v, [ns; name])) pvc_vectors ++
  map (λ t, (PVCAnomalyVec, [ns; name; t])) supportedAnomalyTypes.

Lemma delete_all_get (ps : list (metric_vec * list string)) m v l :
  let m' := fold_left (λ m p, mdelete m p.1 p.2) ps m in
  ((v, l) ∈ ps → mget m' v l = None) ∧
  (Forall (λ p, mv_name p.1 ≠ mv_name v ∨ p.2 ≠ l) ps → mget m' v l = mget m v l) ∧
  (mget m v l = None → mget m' v l = None).
Proof.
  revert m. induction ps as [|[u k] ps IH]; simpl; intros m; [split_and!; try done; by inversion 1|].
  destruct (IH (mdelete m u k)) as (H1 & H2 & H3). split_and!.
  - intros [[= -> ->]|?]%elem_of_cons; [|by apply H1]. apply H3, mget_mdelete_eq.
  - intros [Hne ?]%Forall_cons. rewrite H2 by done. rewrite mget_mdelete, decide_False; [done|].
    simpl in Hne. naive_solver.
  - intros Hn. by apply H3, mget_mdelete_none.
Qed.

Lemma delete_series_all ns name m :
  delete_series ns name m = fold_left (λ m p, mdelete m p.1 p.2) (pvc_series ns name) m.
Proof. reflexivity. Qed.

Lemma resize_states_fresh ret ls w l :
  let w' := fold_left (resize_state ret) ls w in
  w_next w ≤ w_next w' ∧
  (Buffer (obj_at w' l) = Buffer (obj_at w l) ∨ w_next w ≤ Buffer (obj_at w' l)) ∧
  (l ∈ ls → w_next w ≤ Buffer (obj_at w' l)).
Proof.
  revert w. induction ls as [|l0 ls IH]; simpl; intros w; [split_and!; [lia|by left|by inversion 1]|].
  destruct (IH (resize_state ret w l0)) as (H1 & H2 & H3).
  assert (w_next (resize_state ret w l0) = S (w_next w)) as Hn by done. rewrite Hn in *.
  assert (Buffer (obj_at (resize_state ret w l0) l) =
          if decide (l0 = l) then w_next w else Buffer (obj_at w l)) as Hb.
  { unfold resize_state, obj_at. simpl. case_decide as E.
    - subst. by rewrite lookup_insert_eq.
    - by rewrite lookup_insert_ne. }
  rewrite Hb in H2. split_and!; [lia| |].
  - case_decide; destruct H2; try lia.
  - intros [->|Hin]%elem_of_cons; [rewrite decide_True in H2 by done; lia|].
    apply H3 in Hin. lia.
Qed.

(** A push into a buffer that no tracked state points to is seen by nobody. *)
Lemma push_orphan_view w b s key :
  (∀ l, w_pvcStates w !! key = Some l → Buffer (obj_at w l) ≠ b) →
  view (push_buffer b s w) key = view w key.
Proof.
  intros Hb. apply view_frame; [done|]. intros l Hl. specialize (Hb l Hl).
  unfold obj_view, obj_at, buf_at in *. simpl in *. by rewrite lookup_insert_ne.
Qed.

Lemma Reconcile_spec `{Api} now ns name w :
  wf_watcher w →
  let key := pvc_key ns name in
  let '(r, w') := Reconcile now ns name w in
  rtc step w w' ∧ (∀ k, k ≠ key → view w' k = view w k) ∧
  match get_pvc ns name with
  | Err e => if err_notfound e then r = Ok no_requeue ∧ view w' key = None else r = Err e ∧ w' = w
  | Ok pvc =>
      r = Ok (mkResult (getSampleInterval w)) ∧
      let v := view_ensure (w_retention w) (pvc_UID pvc) (view w key) in
      view w' key = Some
        match GetUsage (getMetricsClient w) (mkPVCKey ns name) with
        | Err _ => v
        | Ok u => mkView (v_uid v) (effective_capacity u pvc)
                    (q_push (mkSample now (pu_UsedBytes u)) (v_buf v))
        end
  end.
Proof.
  intros Hwf key. pose proof (reconcile_steps now ns name w Hwf) as Hst. destruct Hwf as [Hw _].
  unfold Reconcile in *. fold key in Hst |- *. destruct (get_pvc ns name) as [pvc|e].
  2:{ destruct (err_notfound e); [|done].
      destruct (deleteState_spec w key Hw) as (_ & _ & Hv & Hf). done. }
  pose proof (ensureState_spec w key (pvc_UID pvc) Hw) as He.
  destruct (ensureState key (pvc_UID pvc) w) as [l w1].
  destruct He as (Hw1 & (Hr & Hc & Hi) & _ & Hk & Hv & Hf).
  assert (getMetricsClient w1 = getMetricsClient w) as Hmc by (unfold getMetricsClient; by rewrite Hc).
  assert (getSampleInterval w1 = getSampleInterval w) as Hsi by (unfold getSampleInterval; by rewrite Hi).
  rewrite Hmc in *. assert (is_Some (w_objs w1 !! l)) as Hl by (by eapply wh_live).
  destruct (GetUsage _ _) as [u|e].
  2:{ split_and!; [done|done|by rewrite Hsi|]. unfold view at 1. rewrite Hk. simpl. by rewrite Hv. }
  set (s := mkSample now (pu_UsedBytes u)) in *. set (c := effective_capacity u pvc) in *.
  pose proof (record_sample_heap w1 l s Hw1 Hl) as Hw2.
  destruct (record_usage_spec (record_sample l s w1) l ns name (pu_UsedBytes u) c Hw2 Hl)
    as (_ & (_ & _ & Hi2) & Hm2 & Hv2).
  assert (∀ k, view (record_usage l ns name (pu_UsedBytes u) c (record_sample l s w1)) k =
               obj_view (record_usage l ns name (pu_UsedBytes u) c (record_sample l s w1)) <$> (w_pvcStates w1 !! k))
    as Hview by (intros k; unfold view; by rewrite Hm2).
  split_and!; [done| | |].
  - intros k Hne. rewrite <-Hf by done. apply view_frame; [by rewrite Hm2|]. intros l' Hl'.
    assert (l ≠ l') by (intros ->; apply Hne; by eapply (wh_inj _ Hw1)).
    rewrite Hv2, decide_False, record_sample_view, decide_False by (done || by eapply wh_live). done.
  - unfold getSampleInterval. rewrite Hi2. f_equal. f_equal. apply Hsi.
  - rewrite Hview, Hk. simpl. rewrite Hv2, decide_True by done.
    rewrite record_sample_view, decide_True by done. rewrite Hv. done.
Qed.

(** ** Properties *)

(** C1. Invariant, under every interleaving of the steps of concurrent reconciles,
    backfills, deletions and reconfigurations: no two tracked PVCs share a state
    object or a ring buffer, every pointer in use is allocated, every tracked
    PVC's ring buffer has the configured retention as capacity, and so a snapshot
    never holds more samples than that. *)
Theorem watcher_invariant mc cap series w :
  rtc step (NewPVCWatcherReconciler mc cap series) w →
  wf_watcher w ∧ ∀ key, length (GetSnapshot key w) ≤ Z.to_nat (w_retention w).
Proof.
  intros Hs. assert (wf_watcher w) as Hw by (eapply steps_wf; eauto using wf_new_watcher).
  split; [done|]. intros key. rewrite GetSnapshot_view. destruct Hw as [Hw Hcap].
  destruct (view w key) as [v|] eqn:Hv; simpl; [|lia].
  rewrite <-(Hcap key v Hv). by eapply view_items.
Qed.

(** C2. Refinement: a call of [Reconcile] acts on what is known of the PVCs as the
    abstract step says.  A missing PVC is forgotten; another read error changes
    nothing and is returned; a PVC seen for the first time or under a new UID
    starts with no samples; a usage error keeps the samples and asks to be called
    again; a usage value is appended as the newest sample within the retention
    and sets the capacity.  Other PVCs are unaffected, and the effect is a sequence
    of the atomic steps of the interleaving model. *)
Theorem reconcile_refines `{Api} now ns name w :
  wf_watcher w →
  let key := pvc_key ns name in
  let '(r, w') := Reconcile now ns name w in
  rtc step w w' ∧ (∀ k, k ≠ key → view w' k = view w k) ∧
  match get_pvc ns name with
  | Err e => if err_notfound e then r = Ok no_requeue ∧ view w' key = None else r = Err e ∧ w' = w
  | Ok pvc =>
      r = Ok (mkResult (getSampleInterval w)) ∧
      let v := view_ensure (w_retention w) (pvc_UID pvc) (view w key) in
      view w' key = Some
        match GetUsage (getMetricsClient w) (mkPVCKey ns name) with
        | Err _ => v
        | Ok u => mkView (v_uid v) (effective_capacity u pvc)
                    (q_push (mkSample now (pu_UsedBytes u)) (v_buf v))
        end
  end.
Proof. apply Reconcile_spec. Qed.

(** Reconfiguration keeps the newest samples of every PVC: [Configure] with a
    new retention leaves each PVC's identity and capacity, and exactly its last
    samples that fit; a retention below one means 720, an interval of zero or less
    means thirty seconds, and a nil client keeps the old one. *)
Theorem configure_keeps_newest_samples mc ret i w key :
  wf_watcher w →
  let ret' := if (ret <? 1)%Z then 720%Z else ret in
  let w' := Configure mc ret i w in
  GetSnapshot key w' = lastn (Z.to_nat ret') (GetSnapshot key w) ∧
  GetLatestCapacity key w' = GetLatestCapacity key w ∧
  AllKeys w' = AllKeys w ∧
  w_retention w' = ret' ∧
  getSampleInterval w' = (if (i <=? 0)%Z then defaultPVCWatcherSampleInterval else i) ∧
  getMetricsClient w' = match mc with Some c => c | None => getMetricsClient w end.
Proof.
  intros Hw ret' w'. destruct (Configure_spec w mc ret i Hw) as (_ & Hr & _ & Hm & Hv).
  fold ret' in Hr, Hv. fold w' in Hr, Hm, Hv. split_and!.
  - rewrite !GetSnapshot_view, Hv. by destruct (view w key).
  - rewrite !GetLatestCapacity_view, Hv. by destruct (view w key).
  - unfold AllKeys. by rewrite Hm.
  - done.
  - unfold getSampleInterval. subst w'. unfold Configure.
    assert (∀ ls w0, w_sampleInterval (fold_left (resize_state ret') ls w0) = w_sampleInterval w0) as Hf.
    { induction ls as [|l ls IH]; simpl; intros; [done|]. by rewrite IH. }
    fold ret'. destruct (ret' =? w_retention w)%Z; rewrite ?Hf; simpl;
      destruct (Z.leb_spec i 0) as [|Hi]; try done; by rewrite (proj2 (Z.leb_gt _ _) Hi).
  - unfold getMetricsClient. subst w'. unfold Configure.
    assert (∀ ls w0, w_metricsClient (fold_left (resize_state ret') ls w0) = w_metricsClient w0) as Hf.
    { induction ls as [|l ls IH]; simpl; intros; [done|]. by rewrite IH. }
    fold ret'. by destruct (ret' =? w_retention w)%Z, mc; rewrite ?Hf.
Qed.

(** [BackfillAllPVCs] fills every listed PVC whose range query succeeds with
    its points and goes on after one that fails: what is known of each PVC
    afterwards depends on its own query alone, the count returned is the number of
    successes, and an error is returned exactly when some query failed. *)
Theorem backfill_continues_after_failures `{Api} start end_ stp w items :
  wf_watcher w → (0 < stp)%Z → list_pvcs None = Ok items → NoDup (map key_of items) →
  let mc := getMetricsClient w in
  let '(n, e, w') := BackfillAllPVCs start end_ stp w in
  n = Z.of_nat (length (filter (λ p, backfill_ok mc start end_ stp p) items)) ∧
  (e = None ↔ ∀ p, p ∈ items → backfill_ok mc start end_ stp p) ∧
  (∀ p, p ∈ items → view w' (key_of p) =
     Some (view_backfill mc (w_retention w) start end_ stp p (view w (key_of p)))) ∧
  (∀ k, k ∉ map key_of items → view w' k = view w k).
Proof.
  intros [Hw _] Hs Hl Hnd mc. unfold BackfillAllPVCs.
  destruct (Z.leb_spec stp 0); [lia|]. rewrite Hl.
  pose proof (backfill_fold_spec items start end_ stp w 0 [] Hw Hnd) as Hf. cbv zeta in Hf. fold mc in Hf.
  destruct (fold_left _ items _) as [[n errs] w']. destruct Hf as (Hn & He & Hv & Hk).
  split_and!; try done. simpl in He.
  assert (join_errors errs = None ↔ errs = []) as -> by (by destruct errs).
  rewrite <-length_zero_iff_nil, He, length_zero_iff_nil.
  split; intros Hx.
  - intros p Hp. destruct (decide (backfill_ok mc start end_ stp p)) as [|Hno]; [done|].
    assert (p ∈ filter (λ p, ¬ backfill_ok mc start end_ stp p) items) as Hin
      by (by apply list_elem_of_filter). rewrite Hx in Hin. inversion Hin.
  - apply elem_of_nil_inv. intros p [Hno Hp]%list_elem_of_filter. by apply Hno, Hx.
Qed.

(** When a tracked PVC is gone, every series exported under its labels is
    deleted, anomaly series included, and no other series changes. *)
Theorem deleted_pvc_has_no_series `{Api} now ns name w e :
  get_pvc ns name = Err e → err_notfound e = true →
  is_Some (w_pvcStates w !! pvc_key ns name) → slash_index ns = None →
  let w' := (Reconcile now ns name w).2 in
  (∀ v l, (v, l) ∈ pvc_series ns name → mget (w_series w') v l = None) ∧
  (∀ v l, l ≠ [ns; name] → (∀ t, l ≠ [ns; name; t]) → mget (w_series w') v l = mget (w_series w) v l).
Proof.
  intros Hg Hnf [l0 Hl0] Hns. unfold Reconcile. rewrite Hg, Hnf. unfold deleteState. cbn [snd].
  rewrite Hl0, splitKey_pvc_key by done. cbn [w_series set_series set_states].
  rewrite delete_series_all. split; intros v l; destruct (delete_all_get (pvc_series ns name) (w_series w) v l) as (Hd & Ho & _).
  - exact Hd.
  - intros X1 X2. apply Ho.
    repeat (apply Forall_cons; split; [right; simpl; congruence|]). by apply Forall_nil.
Qed.

(** [splitKey] inverts the key construction for every namespace without a
    slash, and the key built from what it returns is the key it was given. *)
Theorem split_key_roundtrip ns name key :
  (slash_index ns = None → splitKey (pvc_key ns name) = (ns, name)) ∧
  (is_Some (slash_index key) → pvc_key (splitKey key).1 (splitKey key).2 = key).
Proof.
  split; [apply splitKey_pvc_key|]. intros [i Hi]. unfold splitKey. rewrite Hi. simpl.
  assert (∃ a b, slash_index a = None ∧ key = a +:+ String "/" b) as (a & b & Ha & ->).
  { revert i Hi. induction key as [|c key IH]; simpl; intros i; [done|].
    destruct (Ascii.eqb_spec c "/") as [->|Hc]; intros Hi; [by exists "", key|].
    destruct (slash_index key) as [j|] eqn:Hj; [|done].
    destruct (IH j eq_refl) as (a & b & Ha & ->). exists (String c a), b.
    rewrite string_app_cons. simpl. apply Ascii.eqb_neq in Hc. by rewrite Hc, Ha. }
  rewrite slash_index_app in Hi by done. injection Hi as <-.
  pose proof (splitKey_pvc_key a b Ha) as Hs. unfold splitKey in Hs.
  change (pvc_key a b) with (a +:+ String "/" b) in Hs.
  rewrite slash_index_app in Hs by done. by injection Hs as -> ->.
Qed.

(** Exported gauges: after a recorded sample the usage and capacity gauges hold
    the queried values and the sample gauge the number of stored samples.  The
    ratio gauge follows only when the capacity is positive; otherwise it keeps the
    ratio of an earlier call. *)
Theorem reconcile_exports_usage `{Api} now ns name w pvc u :
  wf_watcher w → get_pvc ns name = Ok pvc →
  GetUsage (getMetricsClient w) (mkPVCKey ns name) = Ok u →
  let w' := (Reconcile now ns name w).2 in
  let cap := effective_capacity u pvc in
  mget (w_series w') PVCUsageBytes [ns; name] = Some (f_of_Z (pu_UsedBytes u)) ∧
  mget (w_series w') PVCCapacityBytes [ns; name] = Some (f_of_Z cap) ∧
  mget (w_series w') PVCSamplesCount [ns; name] =
    Some (f_of_Z (Z.of_nat (length (GetSnapshot (pvc_key ns name) w')))) ∧
  mget (w_series w') PVCUsageRatio [ns; name] =
    (if (0 <? cap)%Z then Some (fdiv (f_of_Z (pu_UsedBytes u)) (f_of_Z cap))
     else mget (w_series w) PVCUsageRatio [ns; name]).
Proof.
  intros [Hw _] Hg Hu w' cap. subst w'. unfold Reconcile. rewrite Hg.
  pose proof (ensureState_spec w (pvc_key ns name) (pvc_UID pvc) Hw) as He.
  destruct (ensureState _ _ w) as [l w1]. destruct He as (Hw1 & (_ & Hc & _) & Hse & Hk & _).
  assert (getMetricsClient w1 = getMetricsClient w) as -> by (unfold getMetricsClient; by rewrite Hc).
  rewrite Hu. simpl. fold cap. rewrite <-Hse.
  assert (is_Some (w_objs w1 !! l)) as Hl by (by eapply wh_live).
  set (w2 := record_sample l _ w1).
  assert (length (GetSnapshot (pvc_key ns name) (record_usage l ns name (pu_UsedBytes u) cap w2)) =
          Len (buf_at w2 (Buffer (obj_at w2 l)))) as Hlen.
  { destruct (record_usage_spec w2 l ns name (pu_UsedBytes u) cap) as (_ & _ & Hm & Hv);
      [by apply record_sample_heap|done|].
    rewrite GetSnapshot_view. unfold view. rewrite Hm. change (w_pvcStates w2) with (w_pvcStates w1).
    rewrite Hk. simpl. specialize (Hv l). rewrite decide_True in Hv by done.
    apply (f_equal v_buf) in Hv. simpl in Hv. injection Hv as _ ->. by rewrite length_Snapshot. }
  rewrite Hlen. unfold record_usage.
  destruct (0 <? cap)%Z; cbn [w_series set_series set_objs];
    split_and!; repeat (rewrite mget_mset_eq || rewrite mget_mset_ne by (by left)); done.
Qed.

(** A lost update: [Reconcile] loads the buffer pointer outside the watcher's
    lock, so when [Configure] changes the retention between that load and the
    push, the sample goes to the buffer that was just replaced, and no snapshot
    ever shows it; taken in sequence, the two calls keep it. *)
Theorem reconfiguration_can_lose_a_sample w key l mc ret i s :
  wf_watcher w → w_pvcStates w !! key = Some l → (1 ≤ ret)%Z → ret ≠ w_retention w →
  let loaded := Buffer (obj_at w l) in
  GetSnapshot key (push_buffer loaded s (Configure mc ret i w)) =
    lastn (Z.to_nat ret) (GetSnapshot key w) ∧
  GetSnapshot key (record_sample l s (Configure mc ret i w)) =
    lastn (Z.to_nat ret) (GetSnapshot key w ++ [s]).
Proof.
  intros Hwf Hk Hret Hne loaded. pose proof (Configure_spec w mc ret i Hwf) as Hc.
  destruct (Z.ltb_spec ret 1); [lia|]. cbv zeta in Hc. destruct Hc as ([Hw' _] & _ & _ & Hm & Hv).
  destruct Hwf as [Hw _]. destruct (wh_live _ Hw key l Hk) as [o Ho].
  destruct (wh_obj _ Hw l o Ho) as [r Hr].
  assert (loaded < w_next w) as Hlt.
  { apply not_ge. intros Hge. destruct (wh_fresh _ Hw loaded Hge) as [_ X]. subst loaded.
    rewrite (obj_at_Some _ _ _ Ho) in X. congruence. }
  assert (w_next w ≤ Buffer (obj_at (Configure mc ret i w) l)) as Hfr.
  { unfold Configure. destruct (Z.ltb_spec ret 1); [lia|].
    rewrite (proj2 (Z.eqb_neq ret (w_retention w)) Hne).
    set (w0 := mkWatcher _ _ _ _ _ _ _ _).
    apply (resize_states_fresh ret (map_range (w_pvcStates w0)).*2 w0 l).
    apply (live_states w Hw). eauto. }
  assert (view w key = Some (obj_view w l)) as Hvk by (unfold view; by rewrite Hk).
  split; rewrite !GetSnapshot_view.
  - rewrite push_orphan_view, Hv, Hvk; [done|]. rewrite Hm, Hk. intros ? [= <-]. lia.
  - assert (is_Some (w_objs (Configure mc ret i w) !! l)) as Hl by (eapply wh_live; [done|by rewrite Hm]).
    set (wc := Configure mc ret i w) in *.
    assert (view (record_sample l s wc) key = Some (view_push s (obj_view wc l))) as ->.
    { unfold view at 1. change (w_pvcStates (record_sample l s wc)) with (w_pvcStates wc).
      rewrite Hm, Hk. change (obj_view ?a <$> Some ?b) with (Some (obj_view a b)).
      by rewrite record_sample_view, decide_True by done. }
    specialize (Hv key). rewrite Hvk in Hv. unfold view in Hv. rewrite Hm, Hk in Hv.
    assert (obj_view wc l = view_resize ret (obj_view w l)) as -> by exact (Some_inj _ _ Hv).
    rewrite Hvk. simpl. by rewrite lastn_app_lastn.
Qed.
End watcher.

(** ** Runs on a small cluster *)

Definition demo_client : PVCMetricsClient :=
  mock_client (mkMock {[ "ns/a" := mkPVCUsage 10 100 ]}
    {[ "ns/a" := [mkRangePoint 1 5; mkRangePoint 2 6; mkRangePoint 3 7] ]} None).

Definition demo_pvcs : list PersistentVolumeClaim :=
  [mkPVC "ns" "a" "u1" (Some 200%Z); mkPVC "ns" "b" "u2" None].

(** Two claims; "ns/c" does not exist. *)
#[local] Instance demo_api : Api := {|
  get_pvc ns name :=
    match list_find (λ p, pvc_Name p = name) demo_pvcs with
    | Some (_, p) => Ok p
    | None => Err (not_found name)
    end;
  list_pvcs _ := Ok demo_pvcs;
  list_pods _ := Ok [];
  get_replicaset _ name := Err (not_found name);
  get_job _ name := Err (not_found name);
  get_secret _ name := Err (not_found name);
  list_plans := Ok [];
  get_plan name := Err (not_found name);
  get_notification _ name := Err (not_found name);
|}.

Definition demo_watcher : watcher := NewPVCWatcherReconciler (Some demo_client) 2 ∅.

(** After "ns/a" and "ns/c" were seen once. *)
Definition demo_watcher2 : watcher :=
  (ensureState "ns/c" "u3" (Reconcile 5 "ns" "a" demo_watcher).2).2.

Lemma demo_wf : wf_watcher demo_watcher.
Proof. apply wf_new_watcher. Qed.

Lemma demo2_wf : wf_watcher demo_watcher2.
Proof.
  eapply steps_wf; [|apply demo_wf]. unfold demo_watcher2.
  eapply rtc_r; [apply reconcile_steps, demo_wf|]. apply step_ensure.
Qed.

Lemma watcher_invariant_witness :
  length (GetSnapshot "ns/a" (Reconcile 5 "ns" "a" demo_watcher).2) ≤ 2.
Proof.
  exact (proj2 (watcher_invariant (Some demo_client) 2 ∅ (Reconcile 5 "ns" "a" demo_watcher).2
           (reconcile_steps 5 "ns" "a" demo_watcher demo_wf)) "ns/a").
Defined.

Lemma reconcile_refines_witness :
  view (Reconcile 5 "ns" "a" demo_watcher).2 "ns/a" =
    Some (mkView "u1" 100 (mkQueue 2 [mkSample 5 10])) ∧
  view (Reconcile 5 "ns" "b" demo_watcher).2 "ns/b" =
    Some (mkView "u2" 0 (mkQueue 2 [])).
Proof.
  split.
  - pose proof (reconcile_refines 5 "ns" "a" demo_watcher demo_wf) as X.
    destruct (Reconcile _ _ _ _) as [r w']. by destruct X as (_ & _ & _ & X).
  - pose proof (reconcile_refines 5 "ns" "b" demo_watcher demo_wf) as X.
    destruct (Reconcile _ _ _ _) as [r w']. by destruct X as (_ & _ & _ & X).
Defined.

Lemma configure_keeps_newest_samples_witness :
  GetSnapshot "ns/a" (Configure None 1 0 demo_watcher2) = [mkSample 5 10].
Proof. by destruct (configure_keeps_newest_samples None 1 0 demo_watcher2 "ns/a" demo2_wf) as [-> _]. Defined.

Lemma backfill_continues_after_failures_witness :
  GetSnapshot "ns/a" (BackfillAllPVCs 0 10 1 demo_watcher).2 = [mkSample 2 6; mkSample 3 7].
Proof.
  assert (NoDup (map key_of demo_pvcs)) as Hnd by (by apply (bool_decide_unpack _); vm_compute).
  pose proof (backfill_continues_after_failures 0 10 1 demo_watcher demo_pvcs
                demo_wf ltac:(lia) eq_refl Hnd) as X.
  rewrite GetSnapshot_view.
  destruct (BackfillAllPVCs _ _ _ _) as [[n e] w']. destruct X as (_ & _ & X & _). simpl.
  specialize (X (mkPVC "ns" "a" "u1" (Some 200%Z)) ltac:(left)).
  change (view w' "ns/a" = Some (view_backfill demo_client 2 0 10 1
            (mkPVC "ns" "a" "u1" (Some 200%Z)) None)) in X.
  rewrite X. vm_compute. reflexivity.
Defined.

Lemma deleted_pvc_has_no_series_witness :
  mget (w_series (Reconcile 9 "ns" "c" demo_watcher2).2) PVCUsageBytes ["ns"; "c"] = None ∧
  mget (w_series (Reconcile 9 "ns" "c" demo_watcher2).2) PVCUsageBytes ["ns"; "a"] =
    mget (w_series demo_watcher2) PVCUsageBytes ["ns"; "a"].
Proof.
  destruct (deleted_pvc_has_no_series 9 "ns" "c" demo_watcher2 (not_found "c"))
    as [Hd Ho]; [reflexivity|reflexivity|vm_compute; eauto|reflexivity|].
  split; [apply Hd; left|]. by apply Ho.
Defined.

Lemma reconcile_exports_usage_witness :
  mget (w_series (Reconcile 5 "ns" "a" demo_watcher).2) PVCCapacityBytes ["ns"; "a"] =
  Some (f_of_Z 100).
Proof.
  destruct (reconcile_exports_usage 5 "ns" "a" demo_watcher
    (mkPVC "ns" "a" "u1" (Some 200%Z)) (mkPVCUsage 10 100) demo_wf) as (_ & X & _);
    [reflexivity|reflexivity|exact X].
Defined.

Lemma reconfiguration_can_lose_a_sample_witness :
  ∃ l, w_pvcStates demo_watcher2 !! "ns/a" = Some l ∧
  GetSnapshot "ns/a" (push_buffer (Buffer (obj_at demo_watcher2 l)) (mkSample 6 11)
                        (Configure None 5 0 demo_watcher2)) = [mkSample 5 10].
Proof.
  exists 1. split; [reflexivity|].
  destruct (reconfiguration_can_lose_a_sample demo_watcher2 "ns/a" 1 None 5 0 (mkSample 6 11))
    as [-> _]; [apply demo2_wf|reflexivity|lia|vm_compute; discriminate|vm_compute; reflexivity].
Defined.
