(* ===== verification/Risk.v ===== *)
(** * Risk signals and top risks

    The risk part of internal/controller/capacityplan_controller.go: the signal
    computed for each PVC from its summary and samples, the ranking of the top
    risks, the digest text, the changes between two reconciles and the snapshot
    hash that decides whether they are explained again. *)

From stdpp Require Import base list strings gmap.
From Stdlib Require Import Sorted ZArith Lia.
From S2P Require Import Prelude GoSort GoFloat GoText GoSha256 RingBuffer Growth ApiTypes.

(** ** Constants *)

(* go: internal/controller/capacityplan_controller.go statusSummaryTopN *)
Definition statusSummaryTopN : Z := 3%Z.

(* go: internal/controller/capacityplan_controller.go:50-59 riskTrendWindow *)
Definition riskTrendWindow : Z := (7 * 24 * hour)%Z.
Definition riskAccelerationWindow : Z := (24 * hour)%Z.
Definition maxRiskDigestAnnotation : Z := 700%Z.
(** 1.20, the nearest binary64. *)
Definition riskEscalationGrowthFactor : float := f_of_ratio 12 10.
Definition riskEscalationDateDelta : Z := (24 * hour)%Z.

(** [float64(1024*1024*1024)]. *)
Definition f_GiB : float := f_of_Z (1024 * 1024 * 1024).

(** ** Signals *)

(* go: internal/controller/capacityplan_controller.go pvcRiskSignal *)
Record pvcRiskSignal := mkSignal {
  sg_Namespace : string;
  sg_Name : string;
  sg_UsedBytes : Z;
  sg_CapacityBytes : Z;
  sg_UsageRatio : float;
  sg_AlertFiring : bool;
  sg_ConfidenceR2 : float;
  sg_LLMInsight : string;
  sg_WeeklyGrowthBytesPerDay : float;
  sg_DailyGrowthBytesPerDay : float;
  sg_GrowthAcceleration : float;
  sg_DaysUntilFull : option float;
  sg_ProjectedFullAt : option Z;
}.

(** What a Go map gives for an absent key. *)
Definition zero_signal : pvcRiskSignal :=
  mkSignal "" "" 0 0 fzero false fzero "" fzero fzero fzero None None.

(* go: internal/controller/capacityplan_controller.go samplesSince *)
Definition samplesSince (samples : list Sample) (since : Z) : list Sample :=
  List.filter (λ s, negb (t_before (Timestamp s) since)) samples.

(* go: internal/controller/capacityplan_controller.go growthAcceleration *)
Definition growthAcceleration (weeklyGrowth dailyGrowth : float) : float :=
  if feqb weeklyGrowth fzero then fzero
  else fdiv (fsub dailyGrowth weeklyGrowth) (fabs weeklyGrowth).

(** [time.Duration(days * 24 * float64(time.Hour))]. *)
Definition days_duration `{Platform} (days : float) : Z :=
  f_to_int64 (fmul (fmul days (f_of_Z 24)) (f_of_Z hour)).

(* go: internal/controller/capacityplan_controller.go projectedFullFromGrowth *)
Definition projectedFullFromGrowth `{Platform} (now usedBytes capacityBytes : Z)
    (growthBytesPerDay : float) : option float * option Z :=
  if fleb growthBytesPerDay fzero || (capacityBytes <=? 0)%Z then (None, None)
  else
    let remaining := f_of_Z (wrap64 (capacityBytes - usedBytes)) in
    if fleb remaining fzero then (Some fzero, Some now)
    else
      let days := fdiv remaining growthBytesPerDay in
      (Some days, Some (t_add now (days_duration days))).

(* go: internal/controller/capacityplan_controller.go buildPVCRiskSignal *)
Definition buildPVCRiskSignal `{Platform} (now : Z) (s : PVCSummary) (samples : list Sample) :
    pvcRiskSignal :=
  let weeklySamples := samplesSince samples (t_add now (- riskTrendWindow)) in
  let weeklySamples := if length weeklySamples <? 2 then samples else weeklySamples in
  let '(weeklyGrowth, weeklyR2) :=
    if 2 <=? length weeklySamples then
      let weekly := CalculateGrowth weeklySamples (ps_CapacityBytes s) in
      (GrowthBytesPerDay weekly, ConfidenceR2 weekly)
    else (ps_GrowthBytesPerDay s, ps_ConfidenceR2 s) in
  let dailySamples := samplesSince samples (t_add now (- riskAccelerationWindow)) in
  let dailyGrowth :=
    if 2 <=? length dailySamples then
      GrowthBytesPerDay (CalculateGrowth dailySamples (ps_CapacityBytes s))
    else weeklyGrowth in
  let accel := growthAcceleration weeklyGrowth dailyGrowth in
  let '(daysUntilFull, projectedFullAt) :=
    projectedFullFromGrowth now (ps_UsedBytes s) (ps_CapacityBytes s) weeklyGrowth in
  mkSignal (ps_Namespace s) (ps_Name s) (ps_UsedBytes s) (ps_CapacityBytes s)
    (ps_UsageRatio s) (ps_AlertFiring s) weeklyR2 (trim_space (ps_LLMInsight s))
    weeklyGrowth dailyGrowth accel daysUntilFull projectedFullAt.

(* go: internal/controller/capacityplan_controller.go buildPVCRiskSignals *)
Definition buildPVCRiskSignals `{Platform} (now : Z) (summaries : list PVCSummary)
    (snapshotsByKey : gmap string (list Sample)) : list pvcRiskSignal :=
  map (λ s, buildPVCRiskSignal now s
              (default [] (snapshotsByKey !! pvc_key (ps_Namespace s) (ps_Name s)))) summaries.

(** ** Top risks *)

Definition days_or_max (d : option float) : float := default max_float64 d.

(** The comparison function of the ranking, test by test. *)
(* go: internal/controller/capacityplan_controller.go:1356-1375 buildTopRisks *)
Definition risk_less (a b : pvcRiskSignal) : bool :=
  if feqb (sg_WeeklyGrowthBytesPerDay a) (sg_WeeklyGrowthBytesPerDay b) then
    let di := days_or_max (sg_DaysUntilFull a) in
    let dj := days_or_max (sg_DaysUntilFull b) in
    if feqb di dj then
      if (sg_Namespace a =? sg_Namespace b)%string then str_ltb (sg_Name a) (sg_Name b)
      else str_ltb (sg_Namespace a) (sg_Namespace b)
    else fltb di dj
  else fgtb (sg_WeeklyGrowthBytesPerDay a) (sg_WeeklyGrowthBytesPerDay b).

(* go: internal/controller/capacityplan_controller.go:1378-1393 buildTopRisks *)
Definition risk_summary (s : pvcRiskSignal) : PVCRiskSummary :=
  mkPVCRiskSummary (sg_Namespace s) (sg_Name s) "" "" "" (sg_UsedBytes s) (sg_CapacityBytes s)
    (sg_UsageRatio s) (sg_WeeklyGrowthBytesPerDay s) (sg_DailyGrowthBytesPerDay s)
    (sg_GrowthAcceleration s) (sg_ConfidenceR2 s) (sg_DaysUntilFull s) (sg_ProjectedFullAt s)
    (sg_LLMInsight s) (sg_AlertFiring s).

Definition growing (s : pvcRiskSignal) : bool := fgtb (sg_WeeklyGrowthBytesPerDay s) fzero.

(* go: internal/controller/capacityplan_controller.go buildTopRisks *)
Definition buildTopRisks `{SliceSorter} (signals : list pvcRiskSignal) (topN : Z) :
    list PVCRiskSummary :=
  let topN := if (topN <=? 0)%Z then statusSummaryTopN else topN in
  let candidates := List.filter growing signals in
  map risk_summary (take (Z.to_nat topN) (sort_slice risk_less candidates)).

(** ** Texts *)

(* go: internal/controller/capacityplan_controller.go trimForAnnotation *)
Definition trimForAnnotation (value : string) (max : Z) : string :=
  let value := trim_space value in
  if (value =? "")%string then "No risk digest available."
  else if (max <=? 0)%Z || (Z.of_nat (String.length value) <=? max)%Z then value
  else if (max <=? 3)%Z then str_take (Z.to_nat max) value
  else str_take (Z.to_nat (max - 3)) value +:+ "...".

(** One entry of the digest. *)
(* go: internal/controller/capacityplan_controller.go:1404-1424 buildRiskDigest *)
Definition digest_entry (r : PVCRiskSummary) : string :=
  rs_Namespace r +:+ "/" +:+ rs_Name r +:+ " "
    +:+ sprintf_plus_f 1 (fdiv (rs_WeeklyGrowthBytesPerDay r) f_GiB) +:+ " GiB/day" +:+
  (if negb (trim_space (rs_WorkloadKind r) =? "")%string
      && negb (trim_space (rs_WorkloadName r) =? "")%string
   then " [owner " +:+ rs_WorkloadKind r +:+ "/" +:+ rs_WorkloadName r +:+ "]" else "") +:+
  (match rs_ProjectedFullAt r with
   | Some t => " (full by " +:+ format_date t +:+ ")" | None => "" end) +:+
  (if fgtb (rs_GrowthAcceleration r) (f_of_ratio 15 100)
   then ", accelerating " +:+ sprintf_plus_f 0 (fmul (rs_GrowthAcceleration r) (f_of_Z 100)) +:+ "%"
   else "") +:+
  (if fgtb (rs_ConfidenceR2 r) fzero then ", R2 " +:+ sprintf_f 2 (rs_ConfidenceR2 r) else "") +:+
  (if negb (trim_space (rs_LLMInsight r) =? "")%string
   then ", insight: " +:+ trimForAnnotation (trim_space (rs_LLMInsight r)) 90 else "").

(* go: internal/controller/capacityplan_controller.go buildRiskDigest *)
Definition buildRiskDigest (now : Z) (topRisks : list PVCRiskSummary) : string :=
  match topRisks with
  | [] => "No PVCs currently show a positive weekly growth trend."
  | _ => "Top PVC growth trends (weekly basis, as of " +:+ format_date now +:+ "): "
           +:+ join "; " (map digest_entry topRisks) +:+ "."
  end.

(** ** Changes between reconciles *)

Definition moved_earlier (prev curr : PVCRiskSummary) : bool :=
  match rs_ProjectedFullAt prev, rs_ProjectedFullAt curr with
  | Some p, Some c => t_before c (t_add p (- riskEscalationDateDelta))
  | _, _ => false
  end.

Definition growth_jumped (prev curr : PVCRiskSummary) : bool :=
  fgtb (rs_WeeklyGrowthBytesPerDay prev) fzero &&
  fgtb (rs_WeeklyGrowthBytesPerDay curr)
       (fmul (rs_WeeklyGrowthBytesPerDay prev) riskEscalationGrowthFactor).

(* go: internal/controller/capacityplan_controller.go isEscalatedRisk *)
Definition isEscalatedRisk (prev curr : PVCRiskSummary) : bool :=
  if growth_jumped prev curr then true
  else if moved_earlier prev curr then true
  else negb (rs_AlertFiring prev) && rs_AlertFiring curr.

(* go: internal/controller/capacityplan_controller.go escalatedRiskMessage *)
Definition escalatedRiskMessage (prev curr : PVCRiskSummary) : string :=
  match rs_ProjectedFullAt prev, rs_ProjectedFullAt curr with
  | Some p, Some c =>
      if t_before c (t_add p (- riskEscalationDateDelta)) then
        "Projected full date moved earlier from " +:+ format_date p +:+ " to " +:+ format_date c
      else if growth_jumped prev curr then
        "Weekly growth increased from " +:+ sprintf_f 2 (fdiv (rs_WeeklyGrowthBytesPerDay prev) f_GiB)
          +:+ " to " +:+ sprintf_f 2 (fdiv (rs_WeeklyGrowthBytesPerDay curr) f_GiB) +:+ " GiB/day"
      else "PVC moved into alert-firing state"
  | _, _ =>
      if growth_jumped prev curr then
        "Weekly growth increased from " +:+ sprintf_f 2 (fdiv (rs_WeeklyGrowthBytesPerDay prev) f_GiB)
          +:+ " to " +:+ sprintf_f 2 (fdiv (rs_WeeklyGrowthBytesPerDay curr) f_GiB) +:+ " GiB/day"
      else "PVC moved into alert-firing state"
  end.

Definition risk_key (r : PVCRiskSummary) : string := pvc_key (rs_Namespace r) (rs_Name r).

(** A map filled by a loop over a slice: the last element of a key wins. *)
Definition by_key (l : list PVCRiskSummary) : gmap string PVCRiskSummary :=
  fold_left (λ m r, <[risk_key r := r]> m) l ∅.

(* go: internal/controller/capacityplan_controller.go:1451-1459 detectRiskChanges *)
Definition change_new (now : Z) (curr : PVCRiskSummary) : PVCRiskChange :=
  mkPVCRiskChange "new" (rs_Namespace curr) (rs_Name curr) fzero
    (rs_WeeklyGrowthBytesPerDay curr) None (rs_ProjectedFullAt curr)
    "PVC entered top risk set" now.

(* go: internal/controller/capacityplan_controller.go:1463-1473 detectRiskChanges *)
Definition change_escalated (now : Z) (prev curr : PVCRiskSummary) : PVCRiskChange :=
  mkPVCRiskChange "escalated" (rs_Namespace curr) (rs_Name curr)
    (rs_WeeklyGrowthBytesPerDay prev) (rs_WeeklyGrowthBytesPerDay curr)
    (rs_ProjectedFullAt prev) (rs_ProjectedFullAt curr) (escalatedRiskMessage prev curr) now.

(* go: internal/controller/capacityplan_controller.go:1480-1488 detectRiskChanges *)
Definition change_recovered (now : Z) (prev : PVCRiskSummary) : PVCRiskChange :=
  mkPVCRiskChange "recovered" (rs_Namespace prev) (rs_Name prev)
    (rs_WeeklyGrowthBytesPerDay prev) fzero (rs_ProjectedFullAt prev) None
    "PVC dropped out of top risk set" now.

(* go: internal/controller/capacityplan_controller.go:1491-1499 detectRiskChanges *)
Definition change_less (a b : PVCRiskChange) : bool :=
  if negb (rc_Type a =? rc_Type b)%string then str_ltb (rc_Type a) (rc_Type b)
  else if negb (rc_Namespace a =? rc_Namespace b)%string
       then str_ltb (rc_Namespace a) (rc_Namespace b)
  else str_ltb (rc_Name a) (rc_Name b).

(* go: internal/controller/capacityplan_controller.go detectRiskChanges *)
Definition detectRiskChanges `{SliceSorter} `{MapRange} (now : Z)
    (previous current : list PVCRiskSummary) : list PVCRiskChange :=
  let prevByKey := by_key previous in
  let currByKey := by_key current in
  let out := omap (λ '(key, curr),
    match prevByKey !! key with
    | None => Some (change_new now curr)
    | Some prev => if isEscalatedRisk prev curr then Some (change_escalated now prev curr) else None
    end) (map_range currByKey) in
  let out := out ++ omap (λ '(key, prev),
    match currByKey !! key with
    | Some _ => None
    | None => Some (change_recovered now prev)
    end) (map_range prevByKey) in
  sort_slice change_less out.

Definition count_type (t : string) (changes : list PVCRiskChange) : Z :=
  Z.of_nat (length (List.filter (λ c, (rc_Type c =? t)%string) changes)).

(* go: internal/controller/capacityplan_controller.go summarizeRiskChanges *)
Definition summarizeRiskChanges (changes : list PVCRiskChange) : string :=
  match changes with
  | [] => "No risk changes detected."
  | _ => "Risk changes: new=" +:+ itoa (count_type "new" changes)
           +:+ " escalated=" +:+ itoa (count_type "escalated" changes)
           +:+ " recovered=" +:+ itoa (count_type "recovered" changes)
  end.

(** ** Snapshot hash *)

(* go: internal/controller/capacityplan_controller.go:1562-1567 computeRiskSnapshotHash *)
Definition snapshot_less (a b : PVCRiskSummary) : bool :=
  if (rs_Namespace a =? rs_Namespace b)%string then str_ltb (rs_Name a) (rs_Name b)
  else str_ltb (rs_Namespace a) (rs_Namespace b).

(* go: internal/controller/capacityplan_controller.go:1569-1576 computeRiskSnapshotHash *)
Definition snapshot_line (r : PVCRiskSummary) : string :=
  rs_Namespace r +:+ "/" +:+ rs_Name r +:+ "|" +:+ sprintf_f 6 (rs_WeeklyGrowthBytesPerDay r)
    +:+ "|" +:+ sprintf_f 6 (rs_GrowthAcceleration r) +:+ "|" +:+ bool_text (rs_AlertFiring r)
    +:+ "|" +:+ (match rs_ProjectedFullAt r with Some t => format_rfc3339 t | None => "" end) +:+ nl.

(** The text that is hashed. *)
Definition snapshot_text `{SliceSorter} (topRisks : list PVCRiskSummary) : string :=
  String.concat "" (map snapshot_line (sort_slice snapshot_less topRisks)).

(* go: internal/controller/capacityplan_controller.go computeRiskSnapshotHash *)
Definition computeRiskSnapshotHash `{SliceSorter} (topRisks : list PVCRiskSummary) : string :=
  match topRisks with
  | [] => ""
  | _ => sha256_hex (snapshot_text topRisks)
  end.

(** ** Lemmas: the ranking *)

Definition risk_cmp : pvcRiskSignal → pvcRiskSignal → comparison :=
  cmp_lex (cmp_rev (cmp_on sg_WeeklyGrowthBytesPerDay f_cmp))
    (cmp_lex (cmp_on (λ s, days_or_max (sg_DaysUntilFull s)) f_cmp)
       (cmp_lex (cmp_on sg_Namespace str_cmp) (cmp_on sg_Name str_cmp))).

(** The numbers compared are numbers. *)
Definition signal_ok (s : pvcRiskSignal) : Prop :=
  not_nan (sg_WeeklyGrowthBytesPerDay s) ∧ not_nan (days_or_max (sg_DaysUntilFull s)).

#[export] Instance risk_cmp_total : TotalCmp signal_ok risk_cmp.
Proof.
  apply cmp_lex_total; [apply cmp_rev_total|apply cmp_lex_total; [|apply cmp_lex_total]];
    [apply (cmp_on_total _ not_nan) | apply (cmp_on_total _ not_nan)
    | apply (cmp_on_total _ (λ _, True)) | apply (cmp_on_total _ (λ _, True))];
    try done; try apply _; by intros s [].
Qed.

Lemma str_eqb_cmp a b : (a =? b)%string = match str_cmp a b with Eq => true | _ => false end.
Proof.
  destruct (String.eqb_spec a b) as [->|Hne].
  - by rewrite (proj2 (str_cmp_eq b b) eq_refl).
  - destruct (str_cmp a b) eqn:E; try done. by apply str_cmp_eq in E.
Qed.

Lemma risk_less_cmp a b : signal_ok a → signal_ok b → risk_less a b = less_of risk_cmp a b.
Proof.
  intros [Ha Ha'] [Hb Hb']. unfold risk_less, fgtb. rewrite !feqb_cmp, !fltb_cmp, !str_eqb_cmp by done.
  unfold str_ltb, less_of, risk_cmp, cmp_lex, cmp_rev, cmp_on.
  rewrite (cmp_antisym not_nan f_cmp (sg_WeeklyGrowthBytesPerDay a)) by done.
  destruct (f_cmp (sg_WeeklyGrowthBytesPerDay a) _); simpl; try done.
  destruct (f_cmp (days_or_max _) _); try done. by destruct (str_cmp (sg_Namespace a) _).
Qed.

(** ** Lemmas: projections *)

Lemma f_nonneg_not_nan f : f_nonneg f → not_nan f.
Proof. intros H. by apply (fleb_not_nan fzero f). Qed.

Section risk.
Context `{Platform}.

Lemma projected_days_nonneg now used cap g :
  not_nan g →
  match (projectedFullFromGrowth now used cap g).1 with Some d => f_nonneg d | None => True end.
Proof.
  intros Hg. unfold projectedFullFromGrowth.
  destruct (fleb g fzero) eqn:Eg; [done|]. destruct (cap <=? 0)%Z; [done|]. simpl.
  rewrite fleb_alt in Eg by done. apply negb_false_iff in Eg.
  set (r := f_of_Z (wrap64 (cap - used))).
  destruct (fleb r fzero) eqn:Er; [done|]. simpl.
  assert (not_nan r) as Hr by apply f_of_Z_not_nan.
  rewrite fleb_alt in Er by done. apply negb_false_iff in Er.
  apply fdiv_nonneg; [by apply fltb_fleb|by apply fltb_fleb|done|].
  apply f_of_Z_finite, wrap64_range.
Qed.

Lemma built_growing_ok now summaries snaps s :
  s ∈ List.filter growing (buildPVCRiskSignals now summaries snaps) → signal_ok s.
Proof.
  rewrite elem_of_bfilter.
  intros [(p & -> & _)%list_elem_of_fmap Hg]. unfold growing, fgtb in Hg.
  destruct (fltb_not_nan _ _ Hg) as [_ Hn]. split; [done|]. revert Hn.
  unfold buildPVCRiskSignal. destruct (if 2 <=? _ then _ else _) as [g r2].
  pose proof (projected_days_nonneg now (ps_UsedBytes p) (ps_CapacityBytes p) g) as Hd.
  destruct (projectedFullFromGrowth _ _ _ _) as [[d|] at_]; simpl in *; intros Hn.
  - by apply f_nonneg_not_nan, Hd.
  - done.
Qed.

Definition signal_key (s : pvcRiskSignal) : string := pvc_key (sg_Namespace s) (sg_Name s).

Lemma risk_cmp_eq a b : risk_cmp a b = Eq → signal_key a = signal_key b.
Proof.
  unfold risk_cmp, cmp_lex, cmp_rev, cmp_on, signal_key.
  destruct (f_cmp _ (sg_WeeklyGrowthBytesPerDay a)); try done.
  destruct (f_cmp (days_or_max _) _); try done.
  destruct (str_cmp (sg_Namespace a) _) eqn:E1; try done. intros E2.
  apply str_cmp_eq in E1, E2. congruence.
Qed.

(** Elements of a list whose keys are distinct are determined by their key. *)
Lemma NoDup_key_inj {A} (k : A → string) (l : list A) x y :
  NoDup (map k l) → x ∈ l → y ∈ l → k x = k y → x = y.
Proof.
  induction l as [|z l IH]; simpl; intros Hnd Hx Hy E; [by inversion Hx|].
  apply NoDup_cons in Hnd as [Hn Hnd]. rewrite !elem_of_cons in *.
  destruct Hx as [->|Hx], Hy as [->|Hy]; try done; [| |by apply IH];
    exfalso; apply Hn, list_elem_of_fmap; eauto.
Qed.
End risk.

(** ** Lemmas: changes *)

(** The change a PVC undergoes between two risk sets. *)
Definition risk_change (now : Z) (prev curr : option PVCRiskSummary) : option PVCRiskChange :=
  match prev, curr with
  | None, Some c => Some (change_new now c)
  | Some p, Some c => if isEscalatedRisk p c then Some (change_escalated now p c) else None
  | Some p, None => Some (change_recovered now p)
  | None, None => None
  end.

Definition change_key (c : PVCRiskChange) : string := pvc_key (rc_Namespace c) (rc_Name c).

Lemma by_key_spec l key r : by_key l !! key = Some r → risk_key r = key ∧ r ∈ l.
Proof.
  unfold by_key. assert (∀ m : gmap string PVCRiskSummary, (∀ k r, m !! k = Some r → risk_key r = k ∧ r ∈ l) →
    ∀ l', (∀ r, r ∈ l' → r ∈ l) →
    ∀ k r, fold_left (λ m r, <[risk_key r := r]> m) l' m !! k = Some r → risk_key r = k ∧ r ∈ l) as Hf.
  { intros m Hm l'. revert m Hm. induction l' as [|x l' IH]; simpl; intros m Hm Hl'; [done|].
    apply IH; [|intros; apply Hl'; by right]. intros k r'. rewrite lookup_insert_Some.
    intros [[<- <-]|[_ ?]]; [split; [done|apply Hl'; by left]|by apply Hm]. }
  apply Hf; [|done]. intros k r'. by rewrite lookup_empty.
Qed.

Lemma by_key_unique l r : NoDup (map risk_key l) → r ∈ l → by_key l !! risk_key r = Some r.
Proof.
  unfold by_key. generalize (∅ : gmap string PVCRiskSummary).
  induction l as [|x l IH]; simpl; intros m Hnd Hr; [by inversion Hr|].
  apply NoDup_cons in Hnd as [Hn Hnd]. apply elem_of_cons in Hr as [->|Hr]; [|by apply IH].
  assert (∀ l (m : gmap string PVCRiskSummary), risk_key x ∉ map risk_key l → m !! risk_key x = Some x →
     fold_left (λ m r, <[risk_key r := r]> m) l m !! risk_key x = Some x) as Hf.
  { clear. induction l as [|y l IH]; simpl; intros m Hn Hm; [done|].
    apply not_elem_of_cons in Hn as [Hne Hn]. apply IH; [done|]. by rewrite lookup_insert_ne. }
  apply Hf; [done|]. by rewrite lookup_insert_eq.
Qed.

Section changes.
Context (now : Z) (previous current : list PVCRiskSummary).

(** The change entries before sorting, in the order of a run. *)
Definition change_list `{MapRange} : list PVCRiskChange :=
  omap (λ '(key, curr),
    match by_key previous !! key with
    | None => Some (change_new now curr)
    | Some prev => if isEscalatedRisk prev curr then Some (change_escalated now prev curr) else None
    end) (map_range (by_key current)) ++
  omap (λ '(key, prev),
    match by_key current !! key with
    | Some _ => None
    | None => Some (change_recovered now prev)
    end) (map_range (by_key previous)).

Lemma elem_of_change_list `{MapRange} c :
  c ∈ change_list ↔
  ∃ key, risk_change now (by_key previous !! key) (by_key current !! key) = Some c.
Proof.
  unfold change_list. rewrite elem_of_app, !list_elem_of_omap. setoid_rewrite map_range_perm. split.
  - intros [([key r] & Hin & Hc)|([key r] & Hin & Hc)]; apply elem_of_map_to_list in Hin;
      exists key; unfold risk_change; rewrite Hin.
    + by destruct (by_key previous !! key).
    + by destruct (by_key current !! key).
  - intros [key Hc]. unfold risk_change in Hc.
    destruct (by_key current !! key) as [r|] eqn:Hcur.
    + left. exists (key, r). rewrite elem_of_map_to_list. split; [done|].
      by destruct (by_key previous !! key).
    + destruct (by_key previous !! key) as [p|] eqn:Hprev; [|done].
      right. exists (key, p). rewrite elem_of_map_to_list, Hcur. done.
Qed.

Lemma risk_change_key c key :
  risk_change now (by_key previous !! key) (by_key current !! key) = Some c → change_key c = key.
Proof.
  unfold risk_change. destruct (by_key previous !! key) as [p|] eqn:Hp,
    (by_key current !! key) as [r|] eqn:Hr; try done.
  - destruct (isEscalatedRisk p r); [|done]. intros [= <-]. by apply by_key_spec in Hr as [<- _].
  - intros [= <-]. by apply by_key_spec in Hp as [<- _].
  - intros [= <-]. by apply by_key_spec in Hr as [<- _].
Qed.

Lemma omap_keys {B} (f : string * B → option PVCRiskChange) l :
  (∀ k x c, f (k, x) = Some c → (k, x) ∈ l → change_key c = k) →
  sublist (map change_key (omap f l)) (l.*1).
Proof.
  intros Hf. induction l as [|[k x] l IH]; [done|].
  assert (sublist (map change_key (omap f l)) l.*1) as Hl.
  { apply IH. intros k' x' c Hc Hin. apply (Hf k' x' c Hc). by right. }
  cbn. destruct (f (k, x)) as [c|] eqn:Hc.
  - cbn. rewrite (Hf k x c Hc) by (by left). by apply sublist_skip.
  - by apply sublist_cons.
Qed.

Lemma change_list_NoDup `{MapRange} : NoDup (map change_key change_list).
Proof.
  assert (∀ m : gmap string PVCRiskSummary, NoDup (map_range m).*1) as Hnd.
  { intros m. rewrite map_range_perm. apply NoDup_fst_map_to_list. }
  unfold change_list. rewrite map_app. apply NoDup_app. split_and!.
  - eapply sublist_NoDup; [apply Hnd|apply omap_keys].
    intros k r c Hc Hin. rewrite map_range_perm in Hin. apply elem_of_map_to_list in Hin.
    apply risk_change_key. unfold risk_change. rewrite Hin. by destruct (by_key previous !! k).
  - intros k. rewrite !list_elem_of_fmap.
    intros (c & -> & ([k1 r1] & Hin1 & Hc1)%list_elem_of_omap).
    intros (c' & E & ([k2 r2] & Hin2 & Hc2)%list_elem_of_omap).
    rewrite map_range_perm in Hin1, Hin2. apply elem_of_map_to_list in Hin1, Hin2.
    assert (change_key c = k1) as H1.
    { apply risk_change_key. unfold risk_change. rewrite Hin1. by destruct (by_key previous !! k1). }
    assert (change_key c' = k2) as H2.
    { apply risk_change_key. unfold risk_change. rewrite Hin2. by destruct (by_key current !! k2). }
    assert (k1 = k2) as -> by congruence. by rewrite Hin1 in Hc2.
  - eapply sublist_NoDup; [apply Hnd|apply omap_keys].
    intros k r c Hc Hin. rewrite map_range_perm in Hin. apply elem_of_map_to_list in Hin.
    apply risk_change_key. unfold risk_change. rewrite Hin. by destruct (by_key current !! k).
Qed.
End changes.

Definition change_cmp : PVCRiskChange → PVCRiskChange → comparison :=
  cmp_lex (cmp_on rc_Type str_cmp) (cmp_lex (cmp_on rc_Namespace str_cmp) (cmp_on rc_Name str_cmp)).

#[export] Instance change_cmp_total : TotalCmp (λ _, True) change_cmp.
Proof.
  apply cmp_lex_total; [|apply cmp_lex_total]; apply (cmp_on_total _ (λ _, True)); done || apply _.
Qed.

Lemma change_less_cmp a b : change_less a b = less_of change_cmp a b.
Proof.
  unfold change_less. rewrite !str_eqb_cmp. unfold str_ltb, less_of, change_cmp, cmp_lex, cmp_on.
  destruct (str_cmp (rc_Type a) _) eqn:E1; simpl; try done; rewrite ?E1; try done.
  destruct (str_cmp (rc_Namespace a) _) eqn:E2; simpl; try done.
Qed.

Lemma change_cmp_eq a b : change_cmp a b = Eq → change_key a = change_key b.
Proof.
  unfold change_cmp, cmp_lex, cmp_on, change_key.
  destruct (str_cmp (rc_Type a) _); try done.
  destruct (str_cmp (rc_Namespace a) _) eqn:E1; try done. intros E2.
  apply str_cmp_eq in E1, E2. congruence.
Qed.

Lemma change_list_perm now previous current (R1 R2 : MapRange) :
  change_list now previous current (H := R1) ≡ₚ change_list now previous current (H := R2).
Proof.
  apply NoDup_Permutation.
  - eapply NoDup_fmap_1, (change_list_NoDup now previous current).
  - eapply NoDup_fmap_1, (change_list_NoDup now previous current).
  - intros c. by rewrite !elem_of_change_list.
Qed.

(** ** Properties *)

(** The order in which the status publishes risks, said from the figures: the greater
    weekly growth first; between equal growths the earlier date (a claim that is never
    full counts as last); then the namespace, then the name. *)
Definition listed_before (a b : pvcRiskSignal) : Prop :=
  let growth s := sg_WeeklyGrowthBytesPerDay s in
  let days s := default max_float64 (sg_DaysUntilFull s) in
  fltb (growth b) (growth a) = true ∨
  feqb (growth a) (growth b) = true ∧
    (fltb (days a) (days b) = true ∨
     feqb (days a) (days b) = true ∧
       (str_ltb (sg_Namespace a) (sg_Namespace b) = true ∨
        sg_Namespace a = sg_Namespace b ∧
          (str_ltb (sg_Name a) (sg_Name b) = true ∨ sg_Name a = sg_Name b))).

Lemma str_not_ltb a b : str_ltb b a = false → str_ltb a b = true ∨ a = b.
Proof.
  unfold str_ltb, less_of. rewrite (cmp_antisym (λ _, True) str_cmp a b) by done.
  destruct (str_cmp a b) eqn:E; [right; by apply str_cmp_eq|by left|done].
Qed.

(** Nothing goes before [a] in the sorting order: that order is [listed_before]. *)
Lemma not_risk_less a b : signal_ok a → signal_ok b → risk_less b a = false → listed_before a b.
Proof.
  intros [Ha Ha'] [Hb Hb']. unfold risk_less, listed_before, fgtb, days_or_max in *. simpl.
  set (ga := sg_WeeklyGrowthBytesPerDay a) in *. set (gb := sg_WeeklyGrowthBytesPerDay b) in *.
  set (da := default max_float64 (sg_DaysUntilFull a)) in *.
  set (db := default max_float64 (sg_DaysUntilFull b)) in *.
  rewrite !feqb_cmp, !fltb_cmp by done. unfold less_of.
  rewrite (cmp_antisym not_nan f_cmp ga gb), (cmp_antisym not_nan f_cmp da db) by done.
  destruct (f_cmp ga gb); simpl; [|done|by left]. destruct (f_cmp da db); simpl; [|by auto|done].
  destruct (String.eqb_spec (sg_Namespace b) (sg_Namespace a)) as [->|Hn]; intros Hs;
    apply str_not_ltb in Hs as [|Hs]; eauto 8.
Qed.

Lemma sorted_by_listed l :
  (∀ s, s ∈ l → signal_ok s) → sorted_by risk_less l → StronglySorted listed_before l.
Proof.
  intros Hok Hs. induction Hs as [|a l Hs IH Hf]; constructor.
  - apply IH. intros s Hin. by apply Hok, list_elem_of_further.
  - rewrite Forall_forall in Hf |- *. intros b Hb.
    apply not_risk_less; [apply Hok, list_elem_of_here|by apply Hok, list_elem_of_further|by apply Hf].
Qed.

Lemma listed_not_slower a b : signal_ok a → signal_ok b → listed_before a b →
  fltb (sg_WeeklyGrowthBytesPerDay a) (sg_WeeklyGrowthBytesPerDay b) = false.
Proof.
  intros [Ha _] [Hb _] Hl. unfold listed_before in Hl. rewrite !feqb_cmp, !fltb_cmp in * by done.
  unfold less_of in *. destruct Hl as [Hg|[He _]].
  - rewrite (cmp_antisym not_nan f_cmp (sg_WeeklyGrowthBytesPerDay b)) by done. by destruct (f_cmp _ _).
  - by destruct (f_cmp _ _).
Qed.

(** C7. The top risks of a reconcile are the [topN] fastest-growing claims (three when
    [topN] is not positive).  A claim can be listed exactly when its weekly growth is a
    positive number of bytes a day; as many of those as fit are listed, each with its
    own figures; no claim left out grows faster than one that is listed; and the list
    runs from the fastest to the slowest, equal growths by the days until full, then by
    namespace and name.  This holds for any sorting algorithm. *)
Theorem top_risks_are_the_fastest_growing `{Platform} `{SliceSorter} now summaries snaps topN :
  let signals := buildPVCRiskSignals now summaries snaps in
  let positive := List.filter (λ s, fltb fzero (sg_WeeklyGrowthBytesPerDay s)) signals in
  let n := Z.to_nat (if (topN <=? 0)%Z then 3%Z else topN) in
  ∃ top rest,
    buildTopRisks signals topN = map risk_summary top ∧
    top ++ rest ≡ₚ positive ∧ length top = min n (length positive) ∧
    StronglySorted listed_before top ∧
    ∀ x y, x ∈ top → y ∈ rest →
      fltb (sg_WeeklyGrowthBytesPerDay x) (sg_WeeklyGrowthBytesPerDay y) = false ∧
      listed_before x y.
Proof.
  intros signals positive n. change positive with (List.filter growing signals).
  set (l := List.filter growing signals).
  assert (∀ s, s ∈ l → signal_ok s) as Hl by apply built_growing_ok.
  destruct (written_top signal_ok risk_cmp risk_less risk_less_cmp n l (proj2 (Forall_forall _ _) Hl))
    as (Hp & Hs & Hd & Hn).
  set (top := take n (sort_slice risk_less l)) in *. set (rest := drop n (sort_slice risk_less l)) in *.
  assert (∀ s, s ∈ top ++ rest → signal_ok s) as Hok by (intros s; rewrite Hp; apply Hl).
  assert (∀ s, s ∈ top → signal_ok s) as Ht by (intros s Hin; apply Hok, elem_of_app; by left).
  exists top, rest. split_and!; [done..| |].
  - apply (sorted_by_listed _ Ht Hs).
  - intros x y Hx Hy. assert (signal_ok y) as Hy' by (apply Hok, elem_of_app; by right).
    pose proof (not_risk_less x y (Ht x Hx) Hy' (Hd x y Hx Hy)) as Hb.
    split; [apply listed_not_slower; [by apply Ht|done..]|done].
Qed.

(** The top risks do not depend on the order in which the API server lists the
    PVCs, nor on the sorting algorithm, as long as no PVC is listed twice. *)
Theorem top_risks_order_independent `{Platform} (S1 S2 : SliceSorter) now l k snaps topN :
  l ≡ₚ k → NoDup (map (λ p, pvc_key (ps_Namespace p) (ps_Name p)) l) →
  buildTopRisks (H := S1) (buildPVCRiskSignals now l snaps) topN =
  buildTopRisks (H := S2) (buildPVCRiskSignals now k snaps) topN.
Proof.
  intros Hlk Hnd. unfold buildTopRisks. f_equal. f_equal.
  apply (written_sort_unique signal_ok risk_cmp risk_less risk_less_cmp).
  - apply Forall_forall. intros s. apply built_growing_ok.
  - apply bfilter_perm. unfold buildPVCRiskSignals. by rewrite Hlk.
  - intros x y. rewrite !elem_of_bfilter. intros [Hx _] [Hy _] E.
    apply risk_cmp_eq in E. revert Hx Hy E. apply (NoDup_key_inj signal_key).
    unfold buildPVCRiskSignals. rewrite map_map. erewrite map_ext; [exact Hnd|].
    intros p. unfold buildPVCRiskSignal. destruct (if 2 <=? _ then _ else _) as [g r2].
    by destruct (projectedFullFromGrowth _ _ _ _).
Qed.

(** C28. [detectRiskChanges] reports exactly one change for every PVC that entered
    the risk set, escalated, or left it, and none for the others; the report is
    sorted, and is the same whatever order the runtime iterates its maps in and
    whatever algorithm sorts it. *)
Theorem risk_changes_complete_and_deterministic (S1 S2 : SliceSorter) (R1 R2 : MapRange)
    now previous current :
  let out := detectRiskChanges (H := S1) (H0 := R1) now previous current in
  (∀ c, c ∈ out ↔
     ∃ key, risk_change now (by_key previous !! key) (by_key current !! key) = Some c) ∧
  NoDup (map change_key out) ∧ sorted_by change_less out ∧
  out = detectRiskChanges (H := S2) (H0 := R2) now previous current.
Proof.
  intros out. subst out.
  change (detectRiskChanges (H := S1) (H0 := R1) now previous current)
    with (@sort_slice S1 _ change_less (change_list now previous current (H := R1))).
  change (detectRiskChanges (H := S2) (H0 := R2) now previous current)
    with (@sort_slice S2 _ change_less (change_list now previous current (H := R2))).
  assert (∀ l : list PVCRiskChange, Forall (λ _, True) l) as HT by (intros; by apply Forall_true).
  split_and!.
  - intros c. rewrite sort_slice_perm. apply elem_of_change_list.
  - rewrite sort_slice_perm. apply change_list_NoDup.
  - apply (written_sorted (λ _, True) change_cmp); [|apply HT]. intros; apply change_less_cmp.
  - apply (written_sort_unique (λ _, True) change_cmp).
    + intros; apply change_less_cmp.
    + apply HT.
    + apply change_list_perm.
    + intros x y Hx Hy E%change_cmp_eq. revert Hx Hy E. apply NoDup_key_inj, change_list_NoDup.
Qed.

Lemma f_nonneg_inf f : f_nonneg f → is_inf f = true → f = SpecFloat.S754_infinity false.
Proof. rewrite f_nonneg_shape. by destruct f as [|[]| |]. Qed.

(** The nanoseconds of a nonnegative number of days are nonnegative. *)
Lemma days_product_nonneg d z :
  f_nonneg d → f_trunc (fmul (fmul d (f_of_Z 24)) (f_of_Z hour)) = Some z → (0 <= z)%Z.
Proof.
  intros Hd Hz. apply (f_trunc_nonneg _ _) with (2 := Hz).
  destruct (is_inf d) eqn:E1.
  { rewrite (f_nonneg_inf d Hd E1) in Hz. by vm_compute in Hz. }
  assert (f_nonneg (fmul d (f_of_Z 24))) as H1 by (apply fmul_nonneg; done).
  destruct (is_inf (fmul d (f_of_Z 24))) eqn:E2.
  { rewrite (f_nonneg_inf _ H1 E2) in Hz. by vm_compute in Hz. }
  apply fmul_nonneg; done.
Qed.

(** The projected full date: there is one exactly when the growth and the
    capacity are positive; the days are nonnegative; and the date does not lie
    before the current time whenever the distance fits a 64-bit number of
    nanoseconds (about 292 years). *)
Theorem projected_full_date_is_in_the_future `{Platform} now used cap g :
  not_nan g →
  match projectedFullFromGrowth now used cap g with
  | (None, None) => fleb g fzero = true ∨ (cap ≤ 0)%Z
  | (Some d, Some t) =>
      fltb fzero g = true ∧ (0 < cap)%Z ∧ f_nonneg d ∧
      (∀ z, f_trunc (fmul (fmul d (f_of_Z 24)) (f_of_Z hour)) = Some z →
            (z ≤ int64_max)%Z → (now ≤ t)%Z)
  | _ => False
  end.
Proof.
  intros Hg. pose proof (projected_days_nonneg now used cap g Hg) as Hd.
  unfold projectedFullFromGrowth in *. destruct (fleb g fzero) eqn:Eg; [by left|].
  rewrite fleb_alt in Eg by done. apply negb_false_iff in Eg.
  destruct (Z.leb_spec cap 0); [by right|]. cbn [orb fst] in *.
  destruct (fleb _ fzero); cbn [fst] in *; split_and!; try done; intros z Hz Hmax.
  pose proof (days_product_nonneg _ _ Hd Hz) as Hz0. unfold t_add, days_duration, f_to_int64.
  rewrite Hz. unfold int64_min, int64_max in *.
  rewrite (proj2 (Z.leb_le _ _)), (proj2 (Z.leb_le _ _)) by lia. simpl. lia.
Qed.

(** 100 MiB free, growing by 1 MiB a day. *)
Lemma projected_full_date_is_in_the_future_witness :
  match projectedFullFromGrowth (H := amd64) 7 0 104857600 (f_of_Z 1048576) with
  | (Some _, Some t) => (7 ≤ t)%Z
  | _ => False
  end.
Proof.
  pose proof (projected_full_date_is_in_the_future (H := amd64) 7 0 104857600 (f_of_Z 1048576) eq_refl) as X.
  destruct (projectedFullFromGrowth _ _ _ _) as [[d|] [t|]] eqn:E; try by vm_compute in E.
  destruct X as (_ & _ & _ & X). apply (X (2400 * hour)%Z); [|by vm_compute].
  vm_compute in E. injection E as <- _. vm_compute. reflexivity.
Defined.

(** The conversion of the projected days to a [time.Duration] is not checked: a
    volume with 100 GiB free that grows by 512 KiB a day (full in 204800 days)
    gets, on amd64, a projected full date 292 years in the past, and on arm64 one
    269 years too early. *)
Theorem slow_growth_projects_into_the_past (now : Z) :
  let cap := (100 * 1024 * 1024 * 1024)%Z in
  let g := f_of_Z (512 * 1024) in
  projectedFullFromGrowth (H := amd64) now 0 cap g = (Some (f_of_Z 204800), Some (now - 2 ^ 63)%Z) ∧
  projectedFullFromGrowth (H := arm64) now 0 cap g = (Some (f_of_Z 204800), Some (now + (2 ^ 63 - 1))%Z).
Proof.
  intros cap g. unfold projectedFullFromGrowth.
  replace (days_duration (H := amd64) _) with (- 2 ^ 63)%Z by (vm_compute; reflexivity).
  replace (days_duration (H := arm64) _) with (2 ^ 63 - 1)%Z by (vm_compute; reflexivity).
  replace (fdiv _ g) with (f_of_Z 204800) by (vm_compute; reflexivity).
  by replace (fleb g fzero || (cap <=? 0)%Z) with false by (vm_compute; reflexivity).
Qed.

(** The text put into an alert annotation is bounded: with a positive limit,
    [trimForAnnotation] returns a nonempty value unchanged (its outer blanks
    removed) when it fits and otherwise exactly [max] bytes, the last three of
    them dots when the limit leaves room; an empty value becomes a fixed text. *)
Theorem annotation_is_bounded value max :
  (0 < max)%Z →
  let t := trim_space value in
  let r := trimForAnnotation value max in
  if (t =? "")%string then r = "No risk digest available."
  else if (Z.of_nat (String.length t) <=? max)%Z then r = t
  else Z.of_nat (String.length r) = max ∧
       ((3 < max)%Z → r = str_take (Z.to_nat (max - 3)) t +:+ "...").
Proof.
  intros Hmax t r. subst r. unfold trimForAnnotation. fold t.
  destruct (t =? "")%string; [done|]. destruct (Z.leb_spec max 0); [lia|]. simpl.
  destruct (Z.leb_spec (Z.of_nat (String.length t)) max); [done|].
  destruct (Z.leb_spec max 3).
  - rewrite length_str_take. split; lia.
  - rewrite string_length_app, length_str_take. simpl. split; [lia|done].
Qed.

Lemma annotation_is_bounded_witness :
  (0 < 9)%Z ∧ trimForAnnotation "  a long insight" 9 = "a long...".
Proof.
  split; [lia|]. exact (proj2 (annotation_is_bounded "  a long insight" 9 ltac:(lia)) ltac:(lia)).
Defined.

Definition snapshot_cmp : PVCRiskSummary → PVCRiskSummary → comparison :=
  cmp_lex (cmp_on rs_Namespace str_cmp) (cmp_on rs_Name str_cmp).

#[export] Instance snapshot_cmp_total : TotalCmp (λ _, True) snapshot_cmp.
Proof. apply cmp_lex_total; apply (cmp_on_total _ (λ _, True)); done || apply _. Qed.

Lemma snapshot_less_cmp a b : snapshot_less a b = less_of snapshot_cmp a b.
Proof.
  unfold snapshot_less. rewrite str_eqb_cmp. unfold str_ltb, less_of, snapshot_cmp, cmp_lex, cmp_on.
  destruct (str_cmp (rs_Namespace a) _) eqn:E; rewrite ?E; done.
Qed.

(** The risk snapshot hash identifies the risk set, not a listing of it: two
    orders of the same risks (no PVC twice) have the same hash, on any sorting
    algorithm; no risks hash to the empty text, any others to 64 digits. *)
Theorem risk_snapshot_hash_order_independent (S1 S2 : SliceSorter) l k :
  l ≡ₚ k → NoDup (map risk_key l) →
  computeRiskSnapshotHash (H := S1) l = computeRiskSnapshotHash (H := S2) k ∧
  String.length (computeRiskSnapshotHash (H := S1) l) = match l with [] => 0 | _ => 64 end.
Proof.
  intros Hlk Hnd. split; [|destruct l; [done|apply length_sha256_hex]].
  assert (snapshot_text (H := S1) l = snapshot_text (H := S2) k) as Ht.
  { unfold snapshot_text. f_equal. f_equal.
    apply (written_sort_unique (λ _, True) snapshot_cmp).
    - intros; apply snapshot_less_cmp.
    - by apply Forall_true.
    - done.
    - intros x y Hx Hy E. apply (NoDup_key_inj risk_key l); [done|done|done|].
      unfold snapshot_cmp, cmp_lex, cmp_on in E.
      destruct (str_cmp (rs_Namespace x) _) eqn:E1; try done.
      apply str_cmp_eq in E1, E. unfold risk_key. congruence. }
  unfold computeRiskSnapshotHash.
  destruct l as [|x l], k as [|y k]; try done.
  - by apply Permutation_nil_l in Hlk.
  - by apply Permutation_nil_r in Hlk.
  - by rewrite Ht.
Qed.

(** ** Runs on two volumes *)

Definition demo_summary (name : string) (growth : Z) : PVCSummary :=
  mkPVCSummary "ns" name 1000 10 fzero (f_of_Z growth) None fzero 0 None "" None false.

Lemma top_risks_order_independent_witness :
  buildTopRisks (buildPVCRiskSignals (H := amd64) 0 [demo_summary "a" 1; demo_summary "b" 2] ∅) 3 =
  buildTopRisks (buildPVCRiskSignals (H := amd64) 0 [demo_summary "b" 2; demo_summary "a" 1] ∅) 3.
Proof.
  apply (top_risks_order_independent (H := amd64) insertion_sorter insertion_sorter).
  - apply Permutation_swap.
  - by apply (bool_decide_unpack _); vm_compute.
Defined.

Definition demo_risk (name : string) : PVCRiskSummary :=
  mkPVCRiskSummary "ns" name "" "" "" 0 0 fzero fzero fzero fzero fzero None None "" false.

Lemma risk_snapshot_hash_order_independent_witness :
  computeRiskSnapshotHash [demo_risk "b"; demo_risk "a"] =
  computeRiskSnapshotHash [demo_risk "a"; demo_risk "b"].
Proof.
  apply (risk_snapshot_hash_order_independent insertion_sorter insertion_sorter).
  - apply Permutation_swap.
  - by apply (bool_decide_unpack _); vm_compute.
Defined.
