(* ===== verification/Summary.v ===== *)
(** * The status summary and the choice of the active plan

    [buildStatusSummary] and [pickActivePlan] of
    internal/controller/capacityplan_controller.go. *)

From stdpp Require Import base list strings gmap.
From Stdlib Require Import ZArith Lia.
From S2P Require Import Prelude GoSort GoFloat GoText ApiTypes K8s Risk.

Local Open Scope go_scope.

(** ** The active plan *)

(* go: internal/controller/capacityplan_controller.go:1149-1156 pickActivePlan *)
Definition plan_less (a b : CapacityPlan) : bool :=
  let ti := cp_CreationTimestamp a in
  let tj := cp_CreationTimestamp b in
  if negb (t_equal ti tj) then t_before ti tj else str_ltb (cp_Name a) (cp_Name b).

(* go: internal/controller/capacityplan_controller.go pickActivePlan *)
Definition pickActivePlan `{SliceSorter} (plans : list CapacityPlan) : option CapacityPlan :=
  match plans with
  | [] => None
  | _ => head (sort_slice plan_less plans)
  end.

(* go: internal/controller/capacityplan_controller.go isActivePlan *)
Definition isActivePlan `{SliceSorter} `{Api} (plan : CapacityPlan) : res (bool * string) :=
  let? plans := list_plans in
  match pickActivePlan plans with
  | None => Ok (true, cp_Name plan)
  | Some active => Ok ((cp_Name plan =? cp_Name active)%string, cp_Name active)
  end.

(** ** The summary of the status *)

(* go: internal/controller/capacityplan_controller.go toBrief *)
Definition toBrief (s : PVCSummary) : PVCSummaryBrief :=
  mkPVCSummaryBrief (ps_Namespace s) (ps_Name s) (ps_UsageRatio s) (ps_GrowthBytesPerDay s)
    (ps_DaysUntilFull s) (ps_AlertFiring s).

(* go: internal/controller/capacityplan_controller.go:1177-1185 buildStatusSummary *)
Definition usage_less (a b : PVCSummary) : bool :=
  if feqb (ps_UsageRatio a) (ps_UsageRatio b) then
    if (ps_Namespace a =? ps_Namespace b)%string then str_ltb (ps_Name a) (ps_Name b)
    else str_ltb (ps_Namespace a) (ps_Namespace b)
  else fgtb (ps_UsageRatio a) (ps_UsageRatio b).

(** The dereferenced pointer; entries without one were left out before. *)
Definition soonest_days (s : PVCSummary) : float := default fzero (ps_DaysUntilFull s).

(* go: internal/controller/capacityplan_controller.go:1196-1206 buildStatusSummary *)
Definition soonest_less (a b : PVCSummary) : bool :=
  let di := soonest_days a in
  let dj := soonest_days b in
  if feqb di dj then
    if (ps_Namespace a =? ps_Namespace b)%string then str_ltb (ps_Name a) (ps_Name b)
    else str_ltb (ps_Namespace a) (ps_Namespace b)
  else fltb di dj.

(* go: internal/controller/capacityplan_controller.go:1217-1225 buildStatusSummary *)
Definition growth_less (a b : PVCSummary) : bool :=
  if feqb (ps_GrowthBytesPerDay a) (ps_GrowthBytesPerDay b) then
    if (ps_Namespace a =? ps_Namespace b)%string then str_ltb (ps_Name a) (ps_Name b)
    else str_ltb (ps_Namespace a) (ps_Namespace b)
  else fgtb (ps_GrowthBytesPerDay a) (ps_GrowthBytesPerDay b).

Definition has_days (s : PVCSummary) : bool :=
  match ps_DaysUntilFull s with Some _ => true | None => false end.
Definition has_growth (s : PVCSummary) : bool := fgtb (ps_GrowthBytesPerDay s) fzero.

(* go: internal/controller/capacityplan_controller.go buildStatusSummary *)
Definition buildStatusSummary `{SliceSorter} (items : list PVCSummary) (topN : Z) :
    CapacityPlanSummary :=
  let topN := if (topN <=? 0)%Z then statusSummaryTopN else topN in
  let n := Z.to_nat topN in
  mkCapacityPlanSummary
    (Z.of_nat (length items))
    (Z.of_nat (length (List.filter ps_AlertFiring items)))
    (map toBrief (take n (sort_slice usage_less items)))
    (map toBrief (take n (sort_slice soonest_less (List.filter has_days items))))
    (map toBrief (take n (sort_slice growth_less (List.filter has_growth items)))).

(** ** Lemmas *)

Definition plan_cmp : CapacityPlan → CapacityPlan → comparison :=
  cmp_lex (cmp_on cp_CreationTimestamp Z.compare) (cmp_on cp_Name str_cmp).

#[export] Instance plan_cmp_total : TotalCmp (λ _, True) plan_cmp.
Proof. apply cmp_lex_total; apply (cmp_on_total _ (λ _, True)); done || apply _. Qed.

Lemma plan_less_cmp a b : plan_less a b = less_of plan_cmp a b.
Proof.
  unfold plan_less, t_equal, t_before, str_ltb, less_of, plan_cmp, cmp_lex, cmp_on.
  rewrite Z.eqb_compare. unfold Z.ltb. by destruct (cp_CreationTimestamp a ?= _)%Z.
Qed.

Lemma plan_cmp_eq a b : plan_cmp a b = Eq → cp_Name a = cp_Name b.
Proof.
  unfold plan_cmp, cmp_lex, cmp_on. destruct (_ ?= _)%Z; try done. apply str_cmp_eq.
Qed.

(** The active plan is one of the plans, and none is ahead of it. *)
Lemma pickActivePlan_spec `{SliceSorter} plans :
  match pickActivePlan plans with
  | None => plans = []
  | Some p => p ∈ plans ∧ ∀ q, q ∈ plans → plan_less q p = false
  end.
Proof.
  unfold pickActivePlan. destruct plans as [|p0 plans]; [done|]. set (l := p0 :: plans).
  assert (sorted_by plan_less (sort_slice plan_less l)) as Hs.
  { apply (written_sorted (λ _, True) plan_cmp); [intros; apply plan_less_cmp|by apply Forall_true]. }
  pose proof (sort_slice_perm plan_less l) as Hp.
  destruct (sort_slice plan_less l) as [|p r]; simpl.
  - by apply Permutation_nil_l in Hp.
  - split; [rewrite <-Hp; by left|]. intros q. rewrite <-Hp. inversion Hs as [|? ? _ Hall]; subst.
    rewrite Forall_forall in Hall. intros [->|Hq]%elem_of_cons; [|by apply Hall].
    rewrite plan_less_cmp. unfold less_of. by rewrite (cmp_refl (λ _, True) plan_cmp).
Qed.

(** The rankings compare one number, then namespace and name. *)
Section rank.
Context (num : PVCSummary → float).

Definition name_cmp : PVCSummary → PVCSummary → comparison :=
  cmp_lex (cmp_on ps_Namespace str_cmp) (cmp_on ps_Name str_cmp).
Definition rank_up : PVCSummary → PVCSummary → comparison := cmp_lex (cmp_on num f_cmp) name_cmp.
Definition rank_down : PVCSummary → PVCSummary → comparison :=
  cmp_lex (cmp_rev (cmp_on num f_cmp)) name_cmp.
Definition rank_ok (s : PVCSummary) : Prop := not_nan (num s).

Lemma name_cmp_total P : TotalCmp P name_cmp.
Proof. apply cmp_lex_total; apply (cmp_on_total _ (λ _, True)); done || apply _. Qed.

#[export] Instance rank_up_total : TotalCmp rank_ok rank_up.
Proof. apply cmp_lex_total; [apply (cmp_on_total _ not_nan); done || apply _|apply name_cmp_total]. Qed.

#[export] Instance rank_down_total : TotalCmp rank_ok rank_down.
Proof.
  apply cmp_lex_total; [|apply name_cmp_total].
  apply cmp_rev_total, (cmp_on_total _ not_nan); done || apply _.
Qed.

Definition name_less (a b : PVCSummary) : bool :=
  if (ps_Namespace a =? ps_Namespace b)%string then str_ltb (ps_Name a) (ps_Name b)
  else str_ltb (ps_Namespace a) (ps_Namespace b).

Lemma name_less_cmp a b : name_less a b = less_of name_cmp a b.
Proof.
  unfold name_less. rewrite str_eqb_cmp. unfold str_ltb, less_of, name_cmp, cmp_lex, cmp_on.
  destruct (str_cmp (ps_Namespace a) _) eqn:E; rewrite ?E; done.
Qed.

Lemma rank_up_less a b : rank_ok a → rank_ok b →
  (if feqb (num a) (num b) then name_less a b else fltb (num a) (num b)) = less_of rank_up a b.
Proof.
  unfold rank_ok. intros. rewrite feqb_cmp, fltb_cmp, name_less_cmp by done.
  unfold less_of, rank_up, cmp_lex, cmp_on. by destruct (f_cmp (num a) _).
Qed.

Lemma rank_down_less a b : rank_ok a → rank_ok b →
  (if feqb (num a) (num b) then name_less a b else fgtb (num a) (num b)) = less_of rank_down a b.
Proof.
  unfold rank_ok, fgtb. intros. rewrite feqb_cmp, fltb_cmp, name_less_cmp by done.
  unfold less_of, rank_down, cmp_lex, cmp_rev, cmp_on.
  rewrite (cmp_antisym not_nan f_cmp (num a)) by done. by destruct (f_cmp (num a) _).
Qed.

Definition summary_key (s : PVCSummary) : string := pvc_key (ps_Namespace s) (ps_Name s).

Lemma rank_up_eq a b : rank_up a b = Eq → summary_key a = summary_key b.
Proof.
  unfold rank_up, name_cmp, cmp_lex, cmp_on, summary_key. destruct (f_cmp _ _); try done.
  destruct (str_cmp (ps_Namespace a) _) eqn:E1; try done. intros E2.
  apply str_cmp_eq in E1, E2. congruence.
Qed.

Lemma rank_down_eq a b : rank_down a b = Eq → summary_key a = summary_key b.
Proof.
  unfold rank_down, name_cmp, cmp_lex, cmp_rev, cmp_on, summary_key. destruct (f_cmp _ _); try done.
  destruct (str_cmp (ps_Namespace a) _) eqn:E1; try done. intros E2.
  apply str_cmp_eq in E1, E2. congruence.
Qed.
End rank.

(** ** Properties *)

(** C6. Exactly one plan is active: in a nonempty list of plans with distinct names,
    [isActivePlan] answers true for the oldest one (the name breaks ties) and false
    for every other one, all plans are told the same active name, and the answers
    depend neither on the order of the list nor on the sorting algorithm. *)
Theorem exactly_one_active_plan (S1 S2 : SliceSorter) (A1 A2 : Api) plans plans' :
  @list_plans A1 = Ok plans → @list_plans A2 = Ok plans' → plans ≡ₚ plans' →
  plans ≠ [] → NoDup (map cp_Name plans) →
  ∃ active, active ∈ plans ∧
    (∀ q, q ∈ plans → plan_less q active = false) ∧
    (∀ p, p ∈ plans → ∃ b, isActivePlan (H := S1) (H0 := A1) p = Ok (b, cp_Name active) ∧
                           (b = true ↔ p = active)) ∧
    ∀ p, isActivePlan (H := S1) (H0 := A1) p = isActivePlan (H := S2) (H0 := A2) p.
Proof.
  intros H1 H2 Hp Hne Hnd. unfold isActivePlan. rewrite H1, H2. simpl.
  assert (pickActivePlan (H := S1) plans = pickActivePlan (H := S2) plans') as Heq.
  { unfold pickActivePlan. destruct plans as [|x l], plans' as [|y k]; try done.
    - by apply Permutation_nil_r in Hp.
    - f_equal. apply (written_sort_unique (λ _, True) plan_cmp); [intros; apply plan_less_cmp
        |by apply Forall_true|done|].
      intros a b Ha Hb E%plan_cmp_eq. revert Ha Hb E. by apply NoDup_key_inj. }
  rewrite <-Heq. pose proof (pickActivePlan_spec (H := S1) plans) as Hs.
  destruct (pickActivePlan (H := S1) plans) as [active|]; [|done]. destruct Hs as [Hin Hmin].
  exists active. split_and!; [done|done| |done]. intros p Hpin.
  exists (cp_Name p =? cp_Name active)%string. split; [done|]. split; [|by intros ->; rewrite String.eqb_refl].
  intros E%String.eqb_eq. revert Hpin Hin E. by apply NoDup_key_inj.
Qed.

Definition demo_plan (name : string) (created : Z) : CapacityPlan :=
  mkCapacityPlan name 1 created empty_spec empty_status.

Definition plans_api (plans : list CapacityPlan) : Api := {|
  get_pvc _ name := Err (not_found name); list_pvcs _ := Ok []; list_pods _ := Ok [];
  get_replicaset _ name := Err (not_found name); get_job _ name := Err (not_found name);
  get_secret _ name := Err (not_found name); list_plans := Ok plans;
  get_plan name := Err (not_found name); get_notification _ name := Err (not_found name) |}.

Lemma exactly_one_active_plan_witness :
  isActivePlan (H0 := plans_api [demo_plan "b" 1; demo_plan "a" 2]) (demo_plan "a" 2) =
  isActivePlan (H0 := plans_api [demo_plan "a" 2; demo_plan "b" 1]) (demo_plan "a" 2).
Proof.
  destruct (exactly_one_active_plan insertion_sorter insertion_sorter
    (plans_api [demo_plan "b" 1; demo_plan "a" 2]) (plans_api [demo_plan "a" 2; demo_plan "b" 1])
    [demo_plan "b" 1; demo_plan "a" 2] [demo_plan "a" 2; demo_plan "b" 1]) as (_ & _ & _ & _ & X);
    [done|done|apply Permutation_swap|done|by apply (bool_decide_unpack _); vm_compute|apply X].
Defined.

(** The status summary counts every PVC and every alerting PVC, and its three
    rankings are the first [topN] (three when [topN] is not positive) of the PVCs
    by usage, by days until full among those that have a projection, and by growth
    among those that grow; no PVC left out of a ranking comes before one in it.
    The figures compared must be numbers. *)
Theorem status_summary_ranks `{SliceSorter} items topN :
  Forall (λ s, not_nan (ps_UsageRatio s) ∧ not_nan (soonest_days s)) items →
  let n := Z.to_nat (if (topN <=? 0)%Z then 3%Z else topN) in
  let out := buildStatusSummary items topN in
  let ranks (less : PVCSummary → PVCSummary → bool) (l : list PVCSummary) briefs :=
    ∃ top rest, briefs = map toBrief top ∧ top ++ rest ≡ₚ l ∧ length top = min n (length l) ∧
      sorted_by less top ∧ ∀ x y, x ∈ top → y ∈ rest → less y x = false in
  cs_TotalPVCs out = Z.of_nat (length items) ∧
  (cs_AlertingPVCs out <= cs_TotalPVCs out)%Z ∧
  ranks usage_less items (cs_TopByUsage out) ∧
  ranks soonest_less (List.filter has_days items) (cs_TopBySoonestToFull out) ∧
  ranks growth_less (List.filter has_growth items) (cs_TopByGrowth out).
Proof.
  intros Hok n out ranks.
  assert (∀ less c num (l : list PVCSummary),
    TotalCmp (rank_ok num) c →
    (∀ a b, rank_ok num a → rank_ok num b → less a b = less_of c a b) → Forall (rank_ok num) l →
    ranks less l (map toBrief (take n (sort_slice less l)))) as Hrank.
  { intros less c num l HT Hc Hl. destruct (written_top (rank_ok num) c less Hc n l Hl) as (?&?&?&?).
    by exists (take n (sort_slice less l)), (drop n (sort_slice less l)). }
  rewrite Forall_forall in Hok. split_and!.
  - done.
  - simpl. pose proof (length_bfilter ps_AlertFiring items). lia.
  - apply (Hrank _ (rank_down ps_UsageRatio) ps_UsageRatio); [apply _|apply rank_down_less|].
    apply Forall_forall. intros s Hs. by apply Hok.
  - apply (Hrank _ (rank_up soonest_days) soonest_days); [apply _|apply rank_up_less|].
    apply Forall_forall. intros s [Hs _]%elem_of_bfilter. by apply Hok.
  - apply (Hrank _ (rank_down ps_GrowthBytesPerDay) ps_GrowthBytesPerDay); [apply _|apply rank_down_less|].
    apply Forall_forall. intros s [_ Hs]%elem_of_bfilter. by destruct (fltb_not_nan _ _ Hs).
Qed.

Lemma status_summary_ranks_witness :
  cs_TotalPVCs (buildStatusSummary [demo_summary "a" 1; demo_summary "b" 2] 0) = 2%Z.
Proof.
  apply (status_summary_ranks [demo_summary "a" 1; demo_summary "b" 2] 0).
  repeat (apply Forall_cons; split; [done|]). by apply Forall_nil.
Defined.
