(* ===== verification/Workload.v ===== *)
(** * Which workload uses a PVC

    The owner resolution of internal/controller/capacityplan_controller.go: the
    pods that mount a claim, the controller that owns each pod, and the best
    ranked owner, kept per PVC in an index. *)

From stdpp Require Import base list strings gmap.
From Stdlib Require Import ZArith Lia.
From S2P Require Import Prelude GoFloat GoText ApiTypes K8s.

Local Open Scope go_scope.

(* go: internal/controller/capacityplan_controller.go pvcWorkloadRef *)
Record pvcWorkloadRef := mkRef { wr_Kind : string; wr_Name : string; wr_Namespace : string }.

(** What a Go map gives for an absent key. *)
Definition zero_ref : pvcWorkloadRef := mkRef "" "" "".

(* go: internal/controller/capacityplan_controller.go podUsesPVC *)
Definition podUsesPVC (pod : Pod) (pvcName : string) : bool :=
  existsb (λ v, match v with Some claim => (claim =? pvcName)%string | None => false end)
    (pod_Volumes pod).

(* go: internal/controller/capacityplan_controller.go ownerKindRank *)
Definition ownerKindRank (kind : string) : Z :=
  if (kind =? "StatefulSet")%string then 1
  else if (kind =? "Deployment")%string then 2
  else if (kind =? "DaemonSet")%string then 3
  else if (kind =? "CronJob")%string then 4
  else if (kind =? "Job")%string then 5
  else if (kind =? "ReplicaSet")%string then 6
  else if (kind =? "Pod")%string then 7
  else 10.

(* go: internal/controller/capacityplan_controller.go controllerOwnerRef *)
Definition controllerOwnerRef (refs : list OwnerReference) : option OwnerReference :=
  match List.find (λ r, default false (or_Controller r)) refs with
  | Some r => Some r
  | None => head refs
  end.

Section resolve.
Context `{Api}.

(* go: internal/controller/capacityplan_controller.go resolvePodOwner *)
Definition resolvePodOwner (pod : Pod) : res (string * string) :=
  match controllerOwnerRef (pod_OwnerReferences pod) with
  | None => Ok ("Pod", pod_Name pod)
  | Some ref =>
      if (or_Kind ref =? "ReplicaSet")%string then
        match get_replicaset (pod_Namespace pod) (or_Name ref) with
        | Err e => if err_notfound e then Ok ("ReplicaSet", or_Name ref) else Err e
        | Ok rs =>
            match controllerOwnerRef (ow_OwnerReferences rs) with
            | Some rsRef =>
                if (or_Kind rsRef =? "Deployment")%string then Ok ("Deployment", or_Name rsRef)
                else Ok ("ReplicaSet", ow_Name rs)
            | None => Ok ("ReplicaSet", ow_Name rs)
            end
        end
      else if (or_Kind ref =? "Job")%string then
        match get_job (pod_Namespace pod) (or_Name ref) with
        | Err e => if err_notfound e then Ok ("Job", or_Name ref) else Err e
        | Ok job =>
            match controllerOwnerRef (ow_OwnerReferences job) with
            | Some jobRef =>
                if (or_Kind jobRef =? "CronJob")%string then Ok ("CronJob", or_Name jobRef)
                else Ok ("Job", ow_Name job)
            | None => Ok ("Job", ow_Name job)
            end
        end
      else Ok (or_Kind ref, or_Name ref)
  end.

(** The best owner so far: rank, kind, name. *)
(* go: internal/controller/capacityplan_controller.go:1685-1700 resolvePVCWorkload *)
Definition consider_pod (pvcName : string) (best : Z * string * string) (pod : Pod) :
    Z * string * string :=
  if negb (podUsesPVC pod pvcName) then best
  else
    match resolvePodOwner pod with
    | Err _ => best
    | Ok (kind, name) =>
        let rank := ownerKindRank kind in
        if (rank <? best.1.1)%Z then (rank, kind, name) else best
    end.

(* go: internal/controller/capacityplan_controller.go resolvePVCWorkload *)
Definition resolvePVCWorkload (namespace pvcName : string) : res (string * string * string) :=
  let? pods := list_pods namespace in
  let '(_, bestKind, bestName) := fold_left (consider_pod pvcName) pods (int64_max, "", "") in
  if (bestKind =? "")%string then Ok ("", "", "") else Ok (bestKind, bestName, namespace).

(** One round of the loop of [buildPVCWorkloadIndex]. *)
(* go: internal/controller/capacityplan_controller.go:1656-1668 buildPVCWorkloadIndex *)
Definition index_one (acc : gmap string pvcWorkloadRef * list error) (s : PVCSummary) :
    gmap string pvcWorkloadRef * list error :=
  let '(out, errs) := acc in
  let key := pvc_key (ps_Namespace s) (ps_Name s) in
  match resolvePVCWorkload (ps_Namespace s) (ps_Name s) with
  | Err e => (out, errs ++ [wrap_error (key +:+ ": ") e])
  | Ok (kind, name, ns) => (<[key := mkRef kind name ns]> out, errs)
  end.

(* go: internal/controller/capacityplan_controller.go buildPVCWorkloadIndex *)
Definition buildPVCWorkloadIndex (summaries : list PVCSummary) :
    gmap string pvcWorkloadRef * option error :=
  let '(out, errs) := fold_left index_one summaries (∅, []) in
  (out, join_errors errs).
End resolve.

(** The entries of [topRisks] are updated in place; the slice is the caller's own. *)
(* go: internal/controller/capacityplan_controller.go enrichTopRisksWithWorkloads *)
Definition enrichTopRisksWithWorkloads (topRisks : list PVCRiskSummary)
    (workloadsByPVC : gmap string pvcWorkloadRef) : list PVCRiskSummary :=
  map (λ r,
    match workloadsByPVC !! pvc_key (rs_Namespace r) (rs_Name r) with
    | None => r
    | Some ref =>
        mkPVCRiskSummary (rs_Namespace r) (rs_Name r) (wr_Kind ref) (wr_Name ref) (wr_Namespace ref)
          (rs_UsedBytes r) (rs_CapacityBytes r) (rs_UsageRatio r) (rs_WeeklyGrowthBytesPerDay r)
          (rs_DailyGrowthBytesPerDay r) (rs_GrowthAcceleration r) (rs_ConfidenceR2 r)
          (rs_DaysUntilFull r) (rs_ProjectedFullAt r) (rs_LLMInsight r) (rs_AlertFiring r)
    end) topRisks.

(** ** Lemmas *)

Section lemmas.
Context `{Api}.

(** The owners of the pods that use a claim and whose owner could be read. *)
Definition pvc_owners (pvcName : string) (pods : list Pod) : list (string * string) :=
  omap (λ pod, if podUsesPVC pod pvcName
               then match resolvePodOwner pod with Ok o => Some o | Err _ => None end
               else None) pods.

Lemma ownerKindRank_range kind : (1 ≤ ownerKindRank kind ≤ 10)%Z.
Proof. unfold ownerKindRank. repeat case_match; lia. Qed.

(** A better owner replaces the best one. *)
Definition better (best : Z * string * string) (o : string * string) : Z * string * string :=
  let rank := ownerKindRank o.1 in
  if (rank <? best.1.1)%Z then (rank, o.1, o.2) else best.

Lemma consider_pods pvcName pods best :
  fold_left (consider_pod pvcName) pods best = fold_left better (pvc_owners pvcName pods) best.
Proof.
  revert best. induction pods as [|pod pods IH]; intros best; [done|]. unfold pvc_owners. cbn.
  rewrite IH. unfold consider_pod. destruct (podUsesPVC pod pvcName); [|done]. cbn.
  by destruct (resolvePodOwner pod) as [[k n]|e].
Qed.

(** The kinds of owners the report prefers, the most telling first; any other kind
    comes after them. *)
Definition preferred_kinds : list string :=
  ["StatefulSet"; "Deployment"; "DaemonSet"; "CronJob"; "Job"; "ReplicaSet"; "Pod"].

Definition place (kind : string) : nat :=
  match list_find (kind =.) preferred_kinds with
  | Some (i, _) => i
  | None => length preferred_kinds
  end.

Lemma rank_place a b : (ownerKindRank a < ownerKindRank b)%Z ↔ place a < place b.
Proof.
  assert (∀ k, place k = if (k =? "StatefulSet")%string then 0 else if (k =? "Deployment")%string then 1
    else if (k =? "DaemonSet")%string then 2 else if (k =? "CronJob")%string then 3
    else if (k =? "Job")%string then 4 else if (k =? "ReplicaSet")%string then 5
    else if (k =? "Pod")%string then 6 else 7) as Hp.
  { intros k. unfold place.
    repeat match goal with |- context [(k =? ?c)%string] => destruct (String.eqb_spec k c) as [->|?] end; try reflexivity.
    rewrite (proj2 (list_find_None (k =.) preferred_kinds)); [done|]. by repeat constructor. }
  rewrite !Hp. unfold ownerKindRank.
  repeat case_match; lia.
Qed.

(** The first owner, in the order the pods are listed, of the most preferred kind. *)
Definition first_best (owners : list (string * string)) (o : string * string) : Prop :=
  ∃ i, owners !! i = Some o ∧
    ∀ j p, owners !! j = Some p → place o.1 ≤ place p.1 ∧ (j < i → place o.1 < place p.1).

Lemma first_best_unique os o p : first_best os o → first_best os p → o = p.
Proof.
  intros (i & Hi & Ho) (j & Hj & Hp). destruct (Nat.lt_trichotomy i j) as [Hl|[->|Hl]]; [|congruence|].
  - destruct (Hp i o Hi) as [_ Hs]. destruct (Ho j p Hj). specialize (Hs Hl). lia.
  - destruct (Ho j p Hj) as [_ Hs]. destruct (Hp i o Hi). specialize (Hs Hl). lia.
Qed.

Lemma first_best_here o os : (∀ p, p ∈ os → place o.1 ≤ place p.1) → first_best (o :: os) o.
Proof.
  intros Hmin. exists 0. split; [done|]. intros [|j] p Hp; [|split; [|lia]].
  - simplify_eq/=. lia.
  - by eapply Hmin, list_elem_of_lookup_2.
Qed.

Lemma first_best_later o p os : place o.1 < place p.1 → first_best os o → first_best (p :: os) o.
Proof.
  intros Hlt (i & Hi & Hall). exists (S i). split; [done|]. intros [|j] q Hq; simplify_eq/=; [lia|].
  destruct (Hall j q Hq). split; [done|]. intros. apply H1. lia.
Qed.

(** The loop keeps the best owner it started with, or ends with the first best of the
    list, which then outranks it. *)
Lemma better_spec os r k n :
  (fold_left better os (r, k, n) = (r, k, n) ∧ ∀ o, o ∈ os → (r ≤ ownerKindRank o.1)%Z) ∨
  ∃ o, first_best os o ∧ (ownerKindRank o.1 < r)%Z ∧
    fold_left better os (r, k, n) = (ownerKindRank o.1, o.1, o.2).
Proof.
  revert r k n. induction os as [|o1 os IH]; simpl; intros r k n; [left; split; [done|by inversion 1]|].
  unfold better at 2 4. simpl. destruct (Z.ltb_spec (ownerKindRank o1.1) r) as [Hlt|Hge].
  - right. destruct (IH (ownerKindRank o1.1) o1.1 o1.2) as [[-> Hmin]|(o & Ho & Hr & ->)].
    + exists o1. split_and!; [|done..]. apply first_best_here. intros p Hp. apply Hmin in Hp.
      destruct (decide (place p.1 < place o1.1)) as [Hl|]; [|lia]. apply rank_place in Hl. lia.
    + exists o. split_and!; [|lia|done]. apply first_best_later; [by apply rank_place|done].
  - destruct (IH r k n) as [[-> Hmin]|(o & Ho & Hr & ->)]; [left|right].
    + split; [done|]. intros o [->|Ho]%elem_of_cons; [done|by apply Hmin].
    + exists o. split_and!; [|done..]. apply first_best_later; [apply rank_place; lia|done].
Qed.

Lemma index_fold_spec summaries out errs :
  let '(out', errs') := fold_left index_one summaries (out, errs) in
  (∀ key ref, out' !! key = Some ref → out !! key = Some ref ∨
     ∃ s, s ∈ summaries ∧ key = pvc_key (ps_Namespace s) (ps_Name s) ∧
       resolvePVCWorkload (ps_Namespace s) (ps_Name s) = Ok (wr_Kind ref, wr_Name ref, wr_Namespace ref)) ∧
  (∀ key, is_Some (out !! key) → is_Some (out' !! key)) ∧
  (∀ s, s ∈ summaries → res_is_ok (resolvePVCWorkload (ps_Namespace s) (ps_Name s)) = true →
     is_Some (out' !! pvc_key (ps_Namespace s) (ps_Name s))) ∧
  (errs' = [] ↔ errs = [] ∧
     ∀ s, s ∈ summaries → res_is_ok (resolvePVCWorkload (ps_Namespace s) (ps_Name s)) = true).
Proof.
  revert out errs. induction summaries as [|s l IH]; intros out errs.
  { split_and!; try by eauto. - by inversion 1. - split; [split; [done|by inversion 1]|by intros [? _]]. }
  cbn [fold_left]. unfold index_one at 2.
  destruct (resolvePVCWorkload (ps_Namespace s) (ps_Name s)) as [[[k n] ns]|e] eqn:Hs.
  - specialize (IH (<[pvc_key (ps_Namespace s) (ps_Name s) := mkRef k n ns]> out) errs).
    destruct (fold_left index_one l _) as [out' errs']. destruct IH as (H1 & H2 & H3 & H4). split_and!.
    + intros key ref Hr. destruct (H1 key ref Hr) as [Hi|(s' & ? & ? & ?)].
      * apply lookup_insert_Some in Hi as [[<- <-]|[_ ?]]; [right|by left].
        exists s. split_and!; [by left|done|done].
      * right. exists s'. split_and!; [by right|done|done].
    + intros key Hk. apply H2, lookup_insert_is_Some'. by right.
    + intros s' [->|Hs']%elem_of_cons Hok; [|by apply H3]. apply H2, lookup_insert_is_Some'. by left.
    + rewrite H4. split; intros [? Hall]; (split; [done|]).
      * intros s' [->|Hs']%elem_of_cons; [by rewrite Hs|by apply Hall].
      * intros s' Hs'. apply Hall. by right.
  - specialize (IH out (errs ++ [wrap_error (pvc_key (ps_Namespace s) (ps_Name s) +:+ ": ") e])).
    destruct (fold_left index_one l _) as [out' errs']. destruct IH as (H1 & H2 & H3 & H4). split_and!.
    + intros key ref Hr. destruct (H1 key ref Hr) as [Hi|(s' & ? & ? & ?)]; [by left|].
      right. exists s'. split_and!; [by right|done|done].
    + done.
    + intros s' [->|Hs']%elem_of_cons Hok; [by rewrite Hs in Hok|by apply H3].
    + rewrite H4. split.
      * intros [E _]. by destruct errs.
      * intros [_ Hall]. specialize (Hall s ltac:(left)). by rewrite Hs in Hall.
Qed.
End lemmas.

(** ** Properties *)

(** C32. The workload reported for a claim is the owner of the first pod, in the order
    they are listed, whose owner is of the most preferred kind among the owners of all
    pods that mount the claim (StatefulSet, Deployment, DaemonSet, CronJob, Job,
    ReplicaSet, Pod, then anything else); pods whose owner cannot be read are skipped.
    None is reported exactly when no pod mounts the claim and has a readable owner, or
    when that first owner names no kind.  Once the pods are listed there is no error. *)
Theorem workload_is_best_ranked_owner `{Api} ns pvcName pods :
  list_pods ns = Ok pods →
  let owners := pvc_owners pvcName pods in
  (∀ kind name where_, kind ≠ "" →
     (resolvePVCWorkload ns pvcName = Ok (kind, name, where_) ↔
      where_ = ns ∧ first_best owners (kind, name))) ∧
  (resolvePVCWorkload ns pvcName = Ok ("", "", "") ↔
   owners = [] ∨ ∃ name, first_best owners ("", name)) ∧
  res_is_ok (resolvePVCWorkload ns pvcName) = true.
Proof.
  intros Hp owners. unfold resolvePVCWorkload. rewrite Hp. simpl. rewrite consider_pods. fold owners.
  destruct (better_spec owners int64_max "" "") as [[-> Hmin]|([k n] & Ho & _ & ->)]; simpl.
  - assert (owners = []) as ->.
    { apply elem_of_nil_inv. intros o Ho. apply Hmin in Ho. pose proof (ownerKindRank_range o.1).
      unfold int64_max in *. lia. }
    split; [|split; [split; auto|done]]. intros kind name where_ Hk.
    split; [congruence|by intros [_ (i & Hi & _)]].
  - assert (owners ≠ []) as Hne by (intros ->; by destruct Ho as (i & Hi & _)).
    destruct (String.eqb_spec k "") as [->|Hk]; (split; [|split; [|done]]).
    + intros kind name where_ Hkind. split; [congruence|].
      intros [_ Hf]. pose proof (first_best_unique _ _ _ Ho Hf). congruence.
    + split; [|done]. intros _. right. by exists n.
    + intros kind name where_ Hkind. split; [by intros [= <- <- <-]|].
      intros [-> Hf]. pose proof (first_best_unique _ _ _ Ho Hf) as [= <- <-]. done.
    + split; [by intros [= ? _]|]. intros [?|[name Hf]]; [done|].
      pose proof (first_best_unique _ _ _ Ho Hf) as [= ? _]. done.
Qed.

(** A claim mounted by a Deployment's pod and by a bare pod. *)
Definition workload_api : Api := {|
  get_pvc _ name := Err (not_found name); list_pvcs _ := Ok [];
  list_pods _ := Ok [mkPod "ns" "debug" [] [Some "data"];
                     mkPod "ns" "web-1" [mkOwner "ReplicaSet" "web-rs" (Some true)] [None; Some "data"]];
  get_replicaset _ _ := Ok (mkOwned "web-rs" [mkOwner "Deployment" "web" (Some true)]);
  get_job _ name := Err (not_found name); get_secret _ name := Err (not_found name);
  list_plans := Ok []; get_plan name := Err (not_found name);
  get_notification _ name := Err (not_found name) |}.

Lemma workload_is_best_ranked_owner_witness :
  first_best (pvc_owners (H := workload_api) "data"
    [mkPod "ns" "debug" [] [Some "data"];
     mkPod "ns" "web-1" [mkOwner "ReplicaSet" "web-rs" (Some true)] [None; Some "data"]]) ("Deployment", "web").
Proof.
  pose proof (workload_is_best_ranked_owner (H := workload_api) "ns" "data" _ eq_refl) as [Hw _].
  by apply (Hw "Deployment" "web" "ns").
Defined.

(** The workload index holds, for every PVC whose pods could be listed, the
    workload resolved for it, also when other PVCs fail; the joined error is nil
    exactly when all of them succeeded. *)
Theorem workload_index_is_complete `{Api} summaries :
  let '(index, e) := buildPVCWorkloadIndex summaries in
  (∀ s, s ∈ summaries →
     match resolvePVCWorkload (ps_Namespace s) (ps_Name s) with
     | Ok _ => is_Some (index !! pvc_key (ps_Namespace s) (ps_Name s))
     | Err _ => True
     end) ∧
  (∀ key ref, index !! key = Some ref → ∃ s, s ∈ summaries ∧
     key = pvc_key (ps_Namespace s) (ps_Name s) ∧
     resolvePVCWorkload (ps_Namespace s) (ps_Name s) = Ok (wr_Kind ref, wr_Name ref, wr_Namespace ref)) ∧
  (e = None ↔ ∀ s, s ∈ summaries → res_is_ok (resolvePVCWorkload (ps_Namespace s) (ps_Name s)) = true).
Proof.
  unfold buildPVCWorkloadIndex. pose proof (index_fold_spec summaries ∅ []) as Hf.
  destruct (fold_left index_one summaries _) as [out errs]. destruct Hf as (H1 & _ & H3 & H4).
  split_and!.
  - intros s Hs. specialize (H3 s Hs). destruct (resolvePVCWorkload _ _); [by apply H3|done].
  - intros key ref Hr. destruct (H1 key ref Hr) as [He|?]; [by rewrite lookup_empty in He|done].
  - assert (join_errors errs = None ↔ errs = []) as -> by (by destruct errs). rewrite H4. naive_solver.
Qed.
