(* ===== verification/Budget.v ===== *)
(** * Budget forecasts

    [buildBudgetForecasts] of internal/controller/capacityplan_controller.go: usage
    and growth summed per namespace and per workload against the configured
    budgets, with the projected breach. *)

From stdpp Require Import base list strings gmap.
From Stdlib Require Import ZArith Lia.
From S2P Require Import Prelude GoSort GoFloat GoText GoSha256 ApiTypes Risk Workload.

Local Open Scope go_scope.

(** [resource.ParseQuantity] and [Quantity.Value], of apimachinery. *)
Class QuantityLib := { quantity_value : string → res Z }.

(** [float64(1024*1024)] and the like are exact. *)

Section budget.
Context `{QuantityLib} `{Platform} `{SliceSorter}.

(* go: internal/controller/capacityplan_controller.go parseBudgetBytes *)
Definition parseBudgetBytes (raw : string) : res Z := quantity_value (trim_space raw).

(* go: internal/controller/capacityplan_controller.go budgetBreachProjection *)
Definition budgetBreachProjection (now usedBytes budgetBytes : Z) (growthBytesPerDay : float) :
    option float * option Z :=
  if (budgetBytes <=? 0)%Z then (None, None)
  else if (budgetBytes <=? usedBytes)%Z then (Some fzero, Some now)
  else if fleb growthBytesPerDay fzero then (None, None)
  else
    let days := fdiv (f_of_Z (budgetBytes ⊟ usedBytes)) growthBytesPerDay in
    let days := if fltb days fzero then fzero else days in
    (Some days, Some (t_add now (days_duration days))).

(** The sums of used bytes and of weekly growth over the matching summaries. *)
(* go: internal/controller/capacityplan_controller.go:1808-1816 buildBudgetForecasts *)
Definition sum_usage (riskByKey : gmap string pvcRiskSignal) (matches : PVCSummary → bool)
    (summaries : list PVCSummary) : Z * float :=
  fold_left (λ '(used, growth) s,
    if matches s then
      (used ⊞ ps_UsedBytes s,
       fadd growth (sg_WeeklyGrowthBytesPerDay
                      (default zero_signal (riskByKey !! pvc_key (ps_Namespace s) (ps_Name s)))))
    else (used, growth)) summaries (0%Z, fzero).

Definition usage_ratio (used budget : Z) : float :=
  if (0 <? budget)%Z then fdiv (f_of_Z used) (f_of_Z budget) else fzero.

(* go: internal/controller/capacityplan_controller.go:1799-1832 buildBudgetForecasts *)
Definition namespace_forecast (now : Z) (summaries : list PVCSummary)
    (riskByKey : gmap string pvcRiskSignal) (b : NamespaceBudgetSpec) :
    option StorageBudgetForecast :=
  let ns := trim_space (nb_Namespace b) in
  if (ns =? "")%string then None
  else
    match parseBudgetBytes (nb_Budget b) with
    | Err _ => None
    | Ok budgetBytes =>
        if (budgetBytes <=? 0)%Z then None
        else
          let '(used, growth) := sum_usage riskByKey (λ s, (ps_Namespace s =? ns)%string) summaries in
          let '(days, at_) := budgetBreachProjection now used budgetBytes growth in
          Some (mkStorageBudgetForecast "namespace" ns "" "" budgetBytes used
                  (usage_ratio used budgetBytes) growth days at_)
    end.

(** Whether a summary counts for a workload budget. *)
(* go: internal/controller/capacityplan_controller.go:1847-1858 buildBudgetForecasts *)
Definition in_workload (workloadsByPVC : gmap string pvcWorkloadRef) (ns kind name : string)
    (s : PVCSummary) : bool :=
  match workloadsByPVC !! pvc_key (ps_Namespace s) (ps_Name s) with
  | None => false
  | Some ref =>
      (ps_Namespace s =? ns)%string && equal_fold (wr_Kind ref) kind && (wr_Name ref =? name)%string
  end.

(* go: internal/controller/capacityplan_controller.go:1834-1879 buildBudgetForecasts *)
Definition workload_forecast (now : Z) (summaries : list PVCSummary)
    (riskByKey : gmap string pvcRiskSignal) (workloadsByPVC : gmap string pvcWorkloadRef)
    (b : WorkloadBudgetSpec) : option StorageBudgetForecast :=
  let ns := trim_space (wb_Namespace b) in
  let kind := trim_space (wb_Kind b) in
  let name := trim_space (wb_Name b) in
  if (ns =? "")%string || (kind =? "")%string || (name =? "")%string then None
  else
    match parseBudgetBytes (wb_Budget b) with
    | Err _ => None
    | Ok budgetBytes =>
        if (budgetBytes <=? 0)%Z then None
        else
          let '(used, growth) := sum_usage riskByKey (in_workload workloadsByPVC ns kind name) summaries in
          let '(days, at_) := budgetBreachProjection now used budgetBytes growth in
          Some (mkStorageBudgetForecast "workload" ns kind name budgetBytes used
                  (usage_ratio used budgetBytes) growth days at_)
    end.

(* go: internal/controller/capacityplan_controller.go forecastSortLess *)
Definition forecastSortLess (a b : StorageBudgetForecast) : bool :=
  let ad := days_or_max (sf_DaysUntilBreach a) in
  let bd := days_or_max (sf_DaysUntilBreach b) in
  if negb (feqb ad bd) then fltb ad bd
  else if negb (sf_Namespace a =? sf_Namespace b)%string then str_ltb (sf_Namespace a) (sf_Namespace b)
  else if negb (sf_Kind a =? sf_Kind b)%string then str_ltb (sf_Kind a) (sf_Kind b)
  else str_ltb (sf_Name a) (sf_Name b).

(* go: internal/controller/capacityplan_controller.go buildBudgetForecasts *)
Definition buildBudgetForecasts (now : Z) (spec : BudgetSpec) (summaries : list PVCSummary)
    (riskByKey : gmap string pvcRiskSignal) (workloadsByPVC : gmap string pvcWorkloadRef) :
    list StorageBudgetForecast * list StorageBudgetForecast :=
  let namespaceOut := omap (namespace_forecast now summaries riskByKey) (NamespaceBudgets spec) in
  let workloadOut :=
    omap (workload_forecast now summaries riskByKey workloadsByPVC) (WorkloadBudgets spec) in
  (sort_slice forecastSortLess namespaceOut, sort_slice forecastSortLess workloadOut).

(** ** Hash of the forecasts *)

(* go: internal/controller/capacityplan_controller.go:1592-1603 computeBudgetForecastHash *)
Definition forecast_less (a b : StorageBudgetForecast) : bool :=
  if negb (sf_Scope a =? sf_Scope b)%string then str_ltb (sf_Scope a) (sf_Scope b)
  else if negb (sf_Namespace a =? sf_Namespace b)%string then str_ltb (sf_Namespace a) (sf_Namespace b)
  else if negb (sf_Kind a =? sf_Kind b)%string then str_ltb (sf_Kind a) (sf_Kind b)
  else str_ltb (sf_Name a) (sf_Name b).

(* go: internal/controller/capacityplan_controller.go:1604-1621 computeBudgetForecastHash *)
Definition forecast_line (row : StorageBudgetForecast) : string :=
  sf_Scope row +:+ "|" +:+ sf_Namespace row +:+ "|" +:+ sf_Kind row +:+ "|" +:+ sf_Name row +:+ "|"
    +:+ itoa (sf_BudgetBytes row) +:+ "|" +:+ itoa (sf_UsedBytes row) +:+ "|"
    +:+ sprintf_f 6 (sf_UsageRatio row) +:+ "|" +:+ sprintf_f 6 (sf_GrowthBytesPerDay row) +:+ "|"
    +:+ (match sf_DaysUntilBreach row with Some d => sprintf_f 12 d | None => "" end) +:+ nl.

(* go: internal/controller/capacityplan_controller.go:1589-1623 computeBudgetForecastHash *)
Definition append_forecasts (rows : list StorageBudgetForecast) : string :=
  String.concat "" (map forecast_line (sort_slice forecast_less rows)).

(* go: internal/controller/capacityplan_controller.go computeBudgetForecastHash *)
Definition computeBudgetForecastHash (namespaceForecasts workloadForecasts :
    list StorageBudgetForecast) : string :=
  match namespaceForecasts, workloadForecasts with
  | [], [] => ""
  | _, _ => sha256_hex (append_forecasts namespaceForecasts +:+ append_forecasts workloadForecasts)
  end.

(** ** Lemmas *)

Definition total_used (matches : PVCSummary → bool) (summaries : list PVCSummary) : Z :=
  foldr Z.add 0%Z (map ps_UsedBytes (List.filter matches summaries)).

Lemma sum_usage_used riskByKey matches summaries :
  (sum_usage riskByKey matches summaries).1 = wrap64 (total_used matches summaries).
Proof.
  unfold sum_usage, total_used.
  assert (∀ l u g, is_int64 u → (fold_left (λ '(used, growth) s,
    if matches s then
      (used ⊞ ps_UsedBytes s,
       fadd growth (sg_WeeklyGrowthBytesPerDay
                      (default zero_signal (riskByKey !! pvc_key (ps_Namespace s) (ps_Name s)))))
    else (used, growth)) l (u, g)).1 =
      wrap64 (u + foldr Z.add 0%Z (map ps_UsedBytes (List.filter matches l)))) as Hf.
  { induction l as [|s l IH]; simpl; intros u g Hu; [by rewrite Z.add_0_r, wrap64_id|].
    destruct (matches s); simpl; [|by apply IH].
    rewrite IH by apply wrap64_range. rewrite wrap64_idemp_l. by rewrite Z.add_assoc. }
  rewrite Hf by done. done.
Qed.

Lemma total_used_perm matches l k : l ≡ₚ k → total_used matches l = total_used matches k.
Proof.
  intros Hlk. unfold total_used.
  assert (∀ a b : list Z, a ≡ₚ b → foldr Z.add 0%Z a = foldr Z.add 0%Z b) as Hs
    by (induction 1; simpl; lia).
  by apply Hs, Permutation_map, bfilter_perm.
Qed.

Lemma breach_days_nonneg used budget g :
  is_int64 used → (used < budget)%Z → is_int64 budget → is_int64 (budget - used) →
  fltb fzero g = true → f_nonneg (fdiv (f_of_Z (budget ⊟ used)) g).
Proof.
  intros Hu Hlt Hb Hd Hg. rewrite wrap64_id by done.
  apply fdiv_nonneg; [apply f_of_Z_nonneg; lia|by apply fltb_fleb|done|by apply f_of_Z_finite].
Qed.

Definition forecast_ok (f : StorageBudgetForecast) : Prop :=
  not_nan (days_or_max (sf_DaysUntilBreach f)).

Definition forecast_cmp : StorageBudgetForecast → StorageBudgetForecast → comparison :=
  cmp_lex (cmp_on (λ f, days_or_max (sf_DaysUntilBreach f)) f_cmp)
    (cmp_lex (cmp_on sf_Namespace str_cmp)
       (cmp_lex (cmp_on sf_Kind str_cmp) (cmp_on sf_Name str_cmp))).

#[export] Instance forecast_cmp_total : TotalCmp forecast_ok forecast_cmp.
Proof.
  apply cmp_lex_total; [apply (cmp_on_total _ not_nan); done || apply _|].
  apply cmp_lex_total; [|apply cmp_lex_total]; apply (cmp_on_total _ (λ _, True)); done || apply _.
Qed.

Lemma forecastSortLess_cmp a b :
  forecast_ok a → forecast_ok b → forecastSortLess a b = less_of forecast_cmp a b.
Proof.
  unfold forecast_ok. intros. unfold forecastSortLess. rewrite feqb_cmp, fltb_cmp, !str_eqb_cmp by done.
  unfold str_ltb, less_of, forecast_cmp, cmp_lex, cmp_on.
  destruct (f_cmp _ _); simpl; try done.
  destruct (str_cmp (sf_Namespace a) _) eqn:E1; simpl; rewrite ?E1; try done.
  destruct (str_cmp (sf_Kind a) _) eqn:E2; simpl; rewrite ?E2; done.
Qed.

Lemma total_used_range matches summaries :
  (∀ s, s ∈ summaries → (0 ≤ ps_UsedBytes s)%Z) →
  (0 ≤ total_used matches summaries ≤ total_used (λ _, true) summaries)%Z.
Proof.
  unfold total_used. induction summaries as [|s l IH]; simpl; intros Hs; [lia|].
  specialize (IH ltac:(intros; apply Hs; by right)). specialize (Hs s ltac:(left)).
  destruct (matches s); simpl; lia.
Qed.

Lemma namespace_forecast_spec now summaries riskByKey b f :
  namespace_forecast now summaries riskByKey b = Some f →
  sf_Scope f = "namespace" ∧ sf_Namespace f = trim_space (nb_Namespace b) ∧
  (0 < sf_BudgetBytes f)%Z ∧
  sf_UsedBytes f = wrap64 (total_used (λ s, (ps_Namespace s =? sf_Namespace f)%string) summaries) ∧
  sf_UsageRatio f = fdiv (f_of_Z (sf_UsedBytes f)) (f_of_Z (sf_BudgetBytes f)) ∧
  (sf_DaysUntilBreach f, sf_ProjectedBreachAt f) =
    budgetBreachProjection now (sf_UsedBytes f) (sf_BudgetBytes f) (sf_GrowthBytesPerDay f).
Proof.
  unfold namespace_forecast. destruct (_ =? "")%string; [done|].
  destruct (parseBudgetBytes _) as [budget|]; [|done]. destruct (Z.leb_spec budget 0); [done|].
  pose proof (sum_usage_used riskByKey (λ s, (ps_Namespace s =? trim_space (nb_Namespace b))%string) summaries) as Hu.
  destruct (sum_usage _ _ _) as [used growth]. simpl in Hu.
  destruct (budgetBreachProjection _ _ _ _) as [d a] eqn:Hp. intros [= <-]. simpl.
  unfold usage_ratio. rewrite (proj2 (Z.ltb_lt 0 budget)) by done. done.
Qed.

Lemma workload_forecast_spec now summaries riskByKey workloads b f :
  workload_forecast now summaries riskByKey workloads b = Some f →
  sf_Scope f = "workload" ∧ (0 < sf_BudgetBytes f)%Z ∧
  sf_UsedBytes f =
    wrap64 (total_used (in_workload workloads (sf_Namespace f) (sf_Kind f) (sf_Name f)) summaries) ∧
  sf_UsageRatio f = fdiv (f_of_Z (sf_UsedBytes f)) (f_of_Z (sf_BudgetBytes f)) ∧
  (sf_DaysUntilBreach f, sf_ProjectedBreachAt f) =
    budgetBreachProjection now (sf_UsedBytes f) (sf_BudgetBytes f) (sf_GrowthBytesPerDay f).
Proof.
  unfold workload_forecast. destruct (_ || _ || _); [done|].
  destruct (parseBudgetBytes _) as [budget|]; [|done]. destruct (Z.leb_spec budget 0); [done|].
  pose proof (sum_usage_used riskByKey (in_workload workloads (trim_space (wb_Namespace b))
    (trim_space (wb_Kind b)) (trim_space (wb_Name b))) summaries) as Hu.
  destruct (sum_usage _ _ _) as [used growth]. simpl in Hu.
  destruct (budgetBreachProjection _ _ _ _) as [d a] eqn:Hp. intros [= <-]. simpl.
  unfold usage_ratio. rewrite (proj2 (Z.ltb_lt 0 budget)) by done. done.
Qed.

(** ** Properties *)

(** C38. The projected budget breach: none without a budget; at the current time when
    the budget is used up, whatever the growth; otherwise none unless the growth
    is positive, and then in a nonnegative number of days, at a date not before
    the current time as long as the distance fits a 64-bit duration. *)
Theorem budget_breach_projection_cases now used budget g :
  is_int64 used → is_int64 budget → is_int64 (budget - used) → not_nan g →
  match budgetBreachProjection now used budget g with
  | (None, None) => (budget ≤ 0)%Z ∨ (used < budget)%Z ∧ fltb fzero g = false
  | (Some d, Some t) =>
      (0 < budget)%Z ∧
      if (budget <=? used)%Z then d = fzero ∧ t = now
      else fltb fzero g = true ∧ f_nonneg d ∧
           (∀ z, f_trunc (fmul (fmul d (f_of_Z 24)) (f_of_Z hour)) = Some z →
                 (z ≤ int64_max)%Z → (now ≤ t)%Z)
  | _ => False
  end.
Proof.
  intros Hu Hb Hd Hg. unfold budgetBreachProjection.
  destruct (Z.leb_spec budget 0); [by left|]. destruct (Z.leb_spec budget used) as [|Hlt]; [done|].
  rewrite fleb_alt by done. destruct (fltb fzero g) eqn:Eg; simpl negb; cbv iota; [|by right].
  pose proof (breach_days_nonneg used budget g Hu Hlt Hb Hd Eg) as Hdays.
  assert (fltb (fdiv (f_of_Z (budget ⊟ used)) g) fzero = false) as ->.
  { unfold f_nonneg in Hdays. rewrite fleb_alt in Hdays by (done || by apply f_nonneg_not_nan).
    by apply negb_true_iff in Hdays. }
  split_and!; [done|done|done|]. intros z Hz Hmax.
  pose proof (days_product_nonneg _ _ Hdays Hz) as Hz0. unfold t_add, days_duration, f_to_int64.
  rewrite Hz. unfold int64_min, int64_max in *.
  rewrite (proj2 (Z.leb_le _ _)), (proj2 (Z.leb_le _ _)) by lia. simpl. lia.
Qed.

End budget.

(** Quantities written as plain decimal bytes: "100", "250". *)
Definition demo_quantities : QuantityLib :=
  {| quantity_value s := if (s =? "100")%string then Ok 100%Z else if (s =? "5")%string then Ok 5%Z
                         else Err (errorf "quantities must match the regular expression") |}.

Lemma budget_breach_projection_cases_witness :
  match budgetBreachProjection (H0 := amd64) 7 40 100 (f_of_Z 3) with
  | (Some d, Some _) => f_nonneg d
  | _ => False
  end.
Proof.
  assert (is_int64 40 ∧ is_int64 100 ∧ is_int64 (100 - 40)) as (H1 & H2 & H3)
    by (unfold is_int64, int64_min, int64_max; lia).
  pose proof (budget_breach_projection_cases (H0 := amd64) 7 40 100 (f_of_Z 3) H1 H2 H3 eq_refl) as X.
  destruct (budgetBreachProjection _ _ _ _) as [[d|] [t|]] eqn:E; try by vm_compute in E.
  by destruct X as (_ & _ & X & _).
Defined.

