(* ===== verification/Anomaly.v ===== *)
(** * Growth anomalies

    [detectPVCAnomalies] of internal/controller/capacityplan_controller.go: the
    three tests applied to every risk signal and the report ordered by severity. *)

From stdpp Require Import base list strings gmap.
From Stdlib Require Import ZArith Lia.
From S2P Require Import Prelude GoSort GoFloat GoText ApiTypes Risk Workload.

(* go: internal/controller/capacityplan_controller.go anomalySeverityRank *)
Definition anomalySeverityRank (severity : string) : Z :=
  if (severity =? "critical")%string then 0
  else if (severity =? "warning")%string then 1
  else 2.

(* go: internal/controller/capacityplan_controller.go buildAnomaly *)
Definition buildAnomaly (now : Z) (s : pvcRiskSignal) (ref : pvcWorkloadRef)
    (typ severity message : string) : PVCAnomaly :=
  mkPVCAnomaly (sg_Namespace s) (sg_Name s) typ severity message now (wr_Kind ref) (wr_Name ref)
    (sg_WeeklyGrowthBytesPerDay s) (sg_DailyGrowthBytesPerDay s) (sg_GrowthAcceleration s)
    (sg_ConfidenceR2 s).

(** The test of an acceleration spike. *)
Definition spikes (s : pvcRiskSignal) : bool :=
  fgtb (sg_WeeklyGrowthBytesPerDay s) fzero && fgeb (sg_GrowthAcceleration s) (f_of_ratio 75 100).

(** The test of an unstable trend: growth above 10 MiB a day either way and a
    positive R2 below 0.35. *)
Definition unstable (s : pvcRiskSignal) : bool :=
  fgtb (fabs (sg_WeeklyGrowthBytesPerDay s)) (f_of_Z (10 * 1024 * 1024)) &&
  fgtb (sg_ConfidenceR2 s) fzero && fltb (sg_ConfidenceR2 s) (f_of_ratio 35 100).

(** The test of a sudden growth: more than 2.5 times the weekly rate and more than
    100 MiB a day. *)
Definition sudden (s : pvcRiskSignal) : bool :=
  fgtb (sg_WeeklyGrowthBytesPerDay s) fzero &&
  fgtb (sg_DailyGrowthBytesPerDay s) (fmul (sg_WeeklyGrowthBytesPerDay s) (f_of_ratio 5 2)) &&
  fgtb (sg_DailyGrowthBytesPerDay s) (f_of_Z (100 * 1024 * 1024)).

(** The anomalies of one signal, in the order of the tests. *)
(* go: internal/controller/capacityplan_controller.go:1945-1966 detectPVCAnomalies *)
Definition signal_anomalies (now : Z) (workloadsByPVC : gmap string pvcWorkloadRef)
    (s : pvcRiskSignal) : list PVCAnomaly :=
  let ref := default zero_ref (workloadsByPVC !! pvc_key (sg_Namespace s) (sg_Name s)) in
  (if spikes s then
     let sev := if fgeb (sg_GrowthAcceleration s) (f_of_ratio 3 2) then "critical" else "warning" in
     [buildAnomaly now s ref "acceleration_spike" sev
        ("Daily growth accelerated " +:+ sprintf_plus_f 0 (fmul (sg_GrowthAcceleration s) (f_of_Z 100))
           +:+ "% vs weekly baseline")%string]
   else []) ++
  (if unstable s then
     [buildAnomaly now s ref "trend_instability" "warning"
        ("Trend confidence dropped to R2 " +:+ sprintf_f 2 (sg_ConfidenceR2 s))%string]
   else []) ++
  (if sudden s then
     [buildAnomaly now s ref "sudden_growth" "critical"
        "Daily growth significantly exceeds weekly trend baseline"]
   else []).

(* go: internal/controller/capacityplan_controller.go:1967-1980 detectPVCAnomalies *)
Definition anomaly_less (a b : PVCAnomaly) : bool :=
  let ri := anomalySeverityRank (pa_Severity a) in
  let rj := anomalySeverityRank (pa_Severity b) in
  if negb (ri =? rj)%Z then (ri <? rj)%Z
  else if negb (pa_Namespace a =? pa_Namespace b)%string then str_ltb (pa_Namespace a) (pa_Namespace b)
  else if negb (pa_Name a =? pa_Name b)%string then str_ltb (pa_Name a) (pa_Name b)
  else str_ltb (pa_Type a) (pa_Type b).

(* go: internal/controller/capacityplan_controller.go detectPVCAnomalies *)
Definition detectPVCAnomalies `{SliceSorter} (now : Z) (signals : list pvcRiskSignal)
    (workloadsByPVC : gmap string pvcWorkloadRef) : list PVCAnomaly :=
  sort_slice anomaly_less (concat (map (signal_anomalies now workloadsByPVC) signals)).

Definition count_anomalies (typ : string) (l : list PVCAnomaly) : Z :=
  Z.of_nat (length (List.filter (λ a, (pa_Type a =? typ)%string) l)).

(* go: internal/controller/capacityplan_controller.go summarizePVCAnomalies *)
Definition summarizePVCAnomalies (anomalies : list PVCAnomaly) : string :=
  match anomalies with
  | [] => "No growth anomalies detected."
  | _ =>
      ("Anomalies detected: acceleration_spike=" +:+ itoa (count_anomalies "acceleration_spike" anomalies)
        +:+ " trend_instability=" +:+ itoa (count_anomalies "trend_instability" anomalies)
        +:+ " sudden_growth=" +:+ itoa (count_anomalies "sudden_growth" anomalies))%string
  end.

(** ** Lemmas *)

Definition anomaly_cmp : PVCAnomaly → PVCAnomaly → comparison :=
  cmp_lex (cmp_on (λ a, anomalySeverityRank (pa_Severity a)) Z.compare)
    (cmp_lex (cmp_on pa_Namespace str_cmp) (cmp_lex (cmp_on pa_Name str_cmp) (cmp_on pa_Type str_cmp))).

#[export] Instance anomaly_cmp_total : TotalCmp (λ _, True) anomaly_cmp.
Proof.
  apply cmp_lex_total; [|apply cmp_lex_total; [|apply cmp_lex_total]];
    apply (cmp_on_total _ (λ _, True)); done || apply _.
Qed.

Lemma anomaly_less_cmp a b : anomaly_less a b = less_of anomaly_cmp a b.
Proof.
  unfold anomaly_less. rewrite !str_eqb_cmp, Z.eqb_compare. unfold Z.ltb, str_ltb, less_of, anomaly_cmp, cmp_lex, cmp_on.
  destruct (anomalySeverityRank (pa_Severity a) ?= _)%Z eqn:E0; simpl; rewrite ?E0; try done.
  destruct (str_cmp (pa_Namespace a) _) eqn:E1; simpl; rewrite ?E1; try done.
  destruct (str_cmp (pa_Name a) _) eqn:E2; simpl; rewrite ?E2; done.
Qed.

(** Which test an anomaly type stands for. *)
Definition anomaly_test (typ : string) : pvcRiskSignal → bool :=
  if (typ =? "acceleration_spike")%string then spikes
  else if (typ =? "trend_instability")%string then unstable
  else if (typ =? "sudden_growth")%string then sudden
  else λ _, false.

Lemma signal_anomalies_spec now ws s a :
  a ∈ signal_anomalies now ws s →
  pa_Namespace a = sg_Namespace s ∧ pa_Name a = sg_Name s ∧ pa_Time a = now ∧
  anomaly_test (pa_Type a) s = true ∧
  (pa_Type a = "acceleration_spike" ∨ pa_Type a = "trend_instability" ∨ pa_Type a = "sudden_growth") ∧
  (pa_Severity a = "critical" ∨ pa_Severity a = "warning").
Proof.
  unfold signal_anomalies. rewrite !elem_of_app. intros [Ha|[Ha|Ha]].
  - destruct (spikes s) eqn:E; [|by inversion Ha]. apply list_elem_of_singleton in Ha as ->. simpl.
    destruct (fgeb _ _); split_and!; auto.
  - destruct (unstable s) eqn:E; [|by inversion Ha]. apply list_elem_of_singleton in Ha as ->. simpl.
    split_and!; auto.
  - destruct (sudden s) eqn:E; [|by inversion Ha]. apply list_elem_of_singleton in Ha as ->. simpl.
    split_and!; auto.
Qed.

Lemma signal_anomalies_complete now ws s typ :
  anomaly_test typ s = true →
  ∃ a, a ∈ signal_anomalies now ws s ∧ pa_Type a = typ ∧
       pa_Namespace a = sg_Namespace s ∧ pa_Name a = sg_Name s.
Proof.
  unfold anomaly_test, signal_anomalies. setoid_rewrite elem_of_app. setoid_rewrite elem_of_app.
  destruct (String.eqb_spec typ "acceleration_spike") as [->|].
  { intros ->. eexists. split; [left; apply list_elem_of_singleton; reflexivity|done]. }
  destruct (String.eqb_spec typ "trend_instability") as [->|].
  { intros ->. eexists. split; [right; left; apply list_elem_of_singleton; reflexivity|done]. }
  destruct (String.eqb_spec typ "sudden_growth") as [->|]; [|done].
  intros ->. eexists. split; [right; right; apply list_elem_of_singleton; reflexivity|done].
Qed.

(** What the Prometheus series of an anomaly is labelled with. *)
Definition anomaly_labels (a : PVCAnomaly) : list string := [pa_Namespace a; pa_Name a; pa_Type a].

Lemma signal_anomalies_NoDup now ws s : NoDup (map anomaly_labels (signal_anomalies now ws s)).
Proof.
  unfold signal_anomalies. destruct (spikes s), (unstable s), (sudden s); simpl;
    repeat (constructor; [by intros Hx; repeat (apply elem_of_cons in Hx as [Hx|Hx]; [by simplify_eq|]); inversion Hx|]);
    constructor.
Qed.

Lemma anomalies_NoDup now ws signals :
  NoDup (map (λ s, (sg_Namespace s, sg_Name s)) signals) →
  NoDup (map anomaly_labels (concat (map (signal_anomalies now ws) signals))).
Proof.
  induction signals as [|s l IH]; simpl; intros Hnd; [constructor|].
  apply NoDup_cons in Hnd as [Hn Hnd]. rewrite map_app. apply NoDup_app. split_and!.
  - apply signal_anomalies_NoDup.
  - intros k. rewrite !list_elem_of_fmap. intros (a & -> & Ha) (b & E & Hb).
    apply list_elem_of_In, in_concat in Hb as (x & Hx & Hb).
    apply list_elem_of_In in Hb. apply list_elem_of_In, list_elem_of_fmap in Hx as (s' & -> & Hs').
    apply signal_anomalies_spec in Ha as (H1 & H2 & _), Hb as (H3 & H4 & _).
    apply Hn, list_elem_of_fmap. exists s'. split; [|done]. injection E. congruence.
  - by apply IH.
Qed.

Lemma elem_of_anomalies now ws signals a :
  a ∈ concat (map (signal_anomalies now ws) signals) ↔
  ∃ s, s ∈ signals ∧ a ∈ signal_anomalies now ws s.
Proof.
  rewrite list_elem_of_In, in_concat. split.
  - intros (x & Hx & Ha). apply list_elem_of_In, list_elem_of_fmap in Hx as (s & -> & Hs).
    exists s. split; [done|]. by apply list_elem_of_In.
  - intros (s & Hs & Ha). exists (signal_anomalies now ws s).
    split; [|by apply list_elem_of_In]. apply list_elem_of_In, list_elem_of_fmap. eauto.
Qed.

(** ** Properties *)

(** C30. The anomaly report is complete and has no duplicates: for every PVC and every
    anomaly type there is an entry exactly when a signal of that PVC passes the
    type's test, with the time of the run; when no PVC has two signals, no series
    label is used twice; critical entries come before warnings, and the report
    does not depend on the sorting algorithm or the order of the signals. *)
Theorem anomalies_complete_and_ordered (S1 S2 : SliceSorter) now signals signals' ws :
  NoDup (map (λ s, (sg_Namespace s, sg_Name s)) signals) → signals ≡ₚ signals' →
  let out := detectPVCAnomalies (H := S1) now signals ws in
  (∀ ns name typ, (∃ a, a ∈ out ∧ anomaly_labels a = [ns; name; typ]) ↔
     ∃ s, s ∈ signals ∧ sg_Namespace s = ns ∧ sg_Name s = name ∧ anomaly_test typ s = true) ∧
  (∀ a, a ∈ out → pa_Time a = now) ∧
  NoDup (map anomaly_labels out) ∧
  (∃ critical warnings, out = critical ++ warnings ∧
     Forall (λ a, pa_Severity a = "critical") critical ∧
     Forall (λ a, pa_Severity a = "warning") warnings) ∧
  out = detectPVCAnomalies (H := S2) now signals' ws.
Proof.
  intros Hnd Hperm out. set (l := concat (map (signal_anomalies now ws) signals)).
  assert (out ≡ₚ l) as Hp by (subst out; unfold detectPVCAnomalies; apply sort_slice_perm).
  assert (∀ k : list PVCAnomaly, Forall (λ _, True) k) as HT by (intros; by apply Forall_true).
  assert (NoDup (map anomaly_labels l)) as Hl by (by apply anomalies_NoDup).
  split_and!.
  - intros ns name typ. setoid_rewrite Hp. unfold l. setoid_rewrite elem_of_anomalies. split.
    + intros (a & (s & Hs & Ha) & [= <- <- <-]). exists s.
      apply signal_anomalies_spec in Ha as (-> & -> & _ & Ht & _). done.
    + intros (s & Hs & <- & <- & Ht). destruct (signal_anomalies_complete now ws s typ Ht) as (a & Ha & <- & H1 & H2).
      exists a. split; [eauto|]. unfold anomaly_labels. by rewrite H1, H2.
  - intros a Ha. rewrite Hp in Ha. apply elem_of_anomalies in Ha as (s & _ & Ha).
    by apply signal_anomalies_spec in Ha as (_ & _ & -> & _).
  - by rewrite Hp.
  - assert (sorted_by anomaly_less out) as Hs.
    { apply (written_sorted (λ _, True) anomaly_cmp); [intros; apply anomaly_less_cmp|apply HT]. }
    assert (Forall (λ a, pa_Severity a = "critical" ∨ pa_Severity a = "warning") out) as Hsev.
    { rewrite Hp. apply Forall_forall. intros a Ha. apply elem_of_anomalies in Ha as (s & _ & Ha).
      by apply signal_anomalies_spec in Ha as (_ & _ & _ & _ & _ & ?). }
    clear - Hs Hsev. induction Hs as [|a r Hr IH Ha]; [by exists [], []|].
    apply Forall_cons in Hsev as [[Hc|Hw] Hsev].
    + destruct (IH Hsev) as (c & w & -> & H1 & H2). exists (a :: c), w. split_and!; [done|by constructor|done].
    + exists [], (a :: r). split_and!; [done|done|]. constructor; [done|].
      rewrite Forall_forall in Ha, Hsev |- *. intros b Hb. destruct (Hsev b Hb) as [Hbc|]; [|done].
      specialize (Ha b Hb). unfold anomaly_less in Ha. by rewrite Hbc, Hw in Ha.
  - unfold out, detectPVCAnomalies. apply (written_sort_unique (λ _, True) anomaly_cmp).
    + intros; apply anomaly_less_cmp.
    + apply HT.
    + by rewrite Hperm.
    + intros x y Hx Hy E.
      assert (anomaly_labels x = anomaly_labels y) as El.
      { unfold anomaly_cmp, cmp_lex, cmp_on in E.
        destruct (_ ?= _)%Z; try done. destruct (str_cmp (pa_Namespace x) _) eqn:E1; try done.
        destruct (str_cmp (pa_Name x) _) eqn:E2; try done.
        apply str_cmp_eq in E1, E2, E. unfold anomaly_labels. congruence. }
      apply list_elem_of_lookup in Hx as [i Hi]. apply list_elem_of_lookup in Hy as [j Hj].
      assert (i = j) as ->; [|congruence]. eapply (NoDup_lookup _ i j (anomaly_labels x) Hl).
      * rewrite list_lookup_fmap. fold l in Hi. by rewrite Hi.
      * rewrite list_lookup_fmap. fold l in Hj. by rewrite Hj, El.
Qed.

(** A signal that grew from 1 to 3 GiB a day. *)
Definition demo_spike : pvcRiskSignal :=
  mkSignal "ns" "a" 0 0 fzero false fzero "" f_GiB (fmul (f_of_Z 3) f_GiB) (f_of_Z 2) None None.

Lemma anomalies_complete_and_ordered_witness :
  ∃ a, a ∈ detectPVCAnomalies 5 [demo_spike] ∅ ∧ anomaly_labels a = ["ns"; "a"; "sudden_growth"].
Proof.
  apply (anomalies_complete_and_ordered insertion_sorter insertion_sorter 5 [demo_spike] [demo_spike] ∅);
    [by apply (bool_decide_unpack _); vm_compute|done|].
  exists demo_spike. split_and!; [by left|done|done|vm_compute; reflexivity].
Defined.
