(* ===== verification/Llm.v ===== *)
(** * internal/llm: insight generators

    The provider configuration and factory, the prompts, the request/response
    handling of each backend, and the circuit breaker of the FastAPI backend.
    The SDKs, the HTTP client and net/url are parameters ([LlmEnv]); what one call gets back from the network is an argument of that call. *)

From stdpp Require Import base list strings.
From Stdlib Require Import ZArith Lia.
From S2P Require Import Prelude GoFloat GoText GoStrconv JsonDoc RingBuffer Growth.

Local Open Scope string_scope.
Local Open Scope go_scope.

(** ** Interface *)

(* go: internal/llm/interface.go PVCContext *)
Record PVCContext := mkPVCContext {
  pc_Namespace : string;
  pc_Name : string;
  pc_Growth : GrowthResult float;
  pc_UsedBytes : Z;
  pc_CapacityBytes : Z;
  pc_AlertFiring : bool;
  pc_Samples : list Sample;
}.

(* go: internal/llm/prompt.go PromptParts *)
Record PromptParts := mkPrompt { pp_Version : string; pp_System : string; pp_User : string }.

(** A generator: [GenerateInsight], and [GenerateFromPrompt] when the backend also
    implements [PromptExecutor]. *)
(* go: internal/llm/interface.go InsightGenerator *)
Record InsightGenerator := mkGenerator {
  GenerateInsight : PVCContext → res string;
  PromptExecutor : option (PromptParts → res string);
}.

(* go: internal/llm/interface.go ErrPromptExecutionUnsupported *)
Definition ErrPromptExecutionUnsupported : error :=
  errorf "llm provider does not support generic prompt execution".

(* go: internal/llm/interface.go GenerateFromPrompt *)
Definition GenerateFromPrompt (gen : option InsightGenerator) (prompt : PromptParts) : res string :=
  match gen with
  | None => Err ErrPromptExecutionUnsupported
  | Some g =>
      match PromptExecutor g with
      | None => Err ErrPromptExecutionUnsupported
      | Some exec => exec prompt
      end
  end.

(** ** Configuration *)

(* go: internal/llm/providers.go OpenAIConfig *)
Record OpenAIConfig := mkOpenAI { oc_APIKey : string; oc_BaseURL : string }.
(* go: internal/llm/providers.go AnthropicConfig *)
Record AnthropicConfig := mkAnthropic { ac_APIKey : string; ac_BaseURL : string }.
(* go: internal/llm/providers.go FastAPIConfig *)
Record FastAPIConfig := mkFastAPI {
  fc_URL : string;
  fc_AuthToken : string;
  fc_TLSSkipVerify : bool;
  fc_HealthURL : string;
  fc_FailureThreshold : Z;
  fc_Cooldown : Z;
}.
(* go: internal/llm/providers.go OllamaConfig *)
Record OllamaConfig := mkOllama { lc_URL : string }.

(* go: internal/llm/providers.go ProviderConfig *)
Record ProviderConfig := mkConfig {
  cf_Provider : string;
  cf_Model : string;
  cf_Timeout : Z;
  cf_MaxTokens : Z;
  cf_Temperature : option float;
  cf_OpenAI : OpenAIConfig;
  cf_Anthropic : AnthropicConfig;
  cf_FastAPI : FastAPIConfig;
  cf_Ollama : OllamaConfig;
}.

(* go: internal/llm/providers.go:16-21 defaultTimeout *)
Definition defaultTimeout : Z := (15 * second)%Z.
Definition defaultMaxTokens : Z := 256%Z.
Definition defaultCooldown : Z := minute.
Definition defaultFailures : Z := 3%Z.

(* go: internal/llm/providers.go normalize *)
Definition normalize (c : ProviderConfig) : ProviderConfig :=
  mkConfig (if cf_Provider c =? "" then "disabled" else cf_Provider c)
    (cf_Model c)
    (if (cf_Timeout c <=? 0)%Z then defaultTimeout else cf_Timeout c)
    (if (cf_MaxTokens c <=? 0)%Z then defaultMaxTokens else cf_MaxTokens c)
    (cf_Temperature c) (cf_OpenAI c) (cf_Anthropic c) (cf_FastAPI c) (cf_Ollama c).

(** ** The environment *)

(** [net/url.URL], as far as the code looks. *)
Record URL := mkURL { u_Scheme : string; u_Host : string; u_Path : string; u_Rest : string }.

(** A request to the OpenAI or the Anthropic SDK. *)
Record sdk_request := mkSdk {
  sdk_key : string; sdk_baseURL : string; sdk_timeout : Z; sdk_model : string;
  sdk_maxTokens : Z; sdk_temperature : option float; sdk_prompt : PromptParts;
}.

(* go: internal/llm/ollama_client.go ollamaGenerateRequest *)
Record ollamaGenerateRequest := mkOllamaReq {
  or_Model : string; or_Prompt : string; or_NumPredict : Z; or_Temperature : option float;
}.

(* go: internal/llm/ollama_client.go ollamaGenerateResponse *)
Record ollamaGenerateResponse := mkOllamaResp { os_Response : string; os_Error : string }.

(* go: internal/llm/fastapi_client.go fastAPIInsightRequest *)
Record fastAPIInsightRequest := mkFastReq {
  fq_Namespace : string; fq_Name : string; fq_UsedBytes : Z; fq_CapacityBytes : Z;
  fq_GrowthBytesPerDay : float; fq_ConfidenceR2 : float; fq_AlertFiring : bool;
  fq_SamplesCount : Z; fq_DaysUntilFull : option float;
}.

(* go: internal/llm/fastapi_client.go fastAPIInsightResponse *)
Record fastAPIInsightResponse := mkFastResp { fr_Insight : string; fr_Text : string; fr_Output : string }.

(** [json.Marshal] of the requests and [json.Unmarshal] into the responses. *)
Definition ollama_marshal (r : ollamaGenerateRequest) : res string :=
  let? options := struct_doc
    [field_omit (or_NumPredict r =? 0)%Z "num_predict" (JNum (itoa (or_NumPredict r)));
     field_float_ptr "temperature" (or_Temperature r)] in
  let? doc := struct_doc
    [field_string "model" (or_Model r); field_string "prompt" (or_Prompt r); field_value "stream" (JBool false);
     field_value "options" options] in
  Ok (render doc).

Definition ollama_decode `{GoLib} : string → res ollamaGenerateResponse :=
  unmarshal (λ v, dec_struct (λ k v r,
    if key_is k "response" then s ← dec_string v (os_Response r); Some (mkOllamaResp s (os_Error r))
    else if key_is k "error" then s ← dec_string v (os_Error r); Some (mkOllamaResp (os_Response r) s)
    else Some r) v (mkOllamaResp "" "")).

Definition fastapi_marshal (r : fastAPIInsightRequest) : res string :=
  let? doc := struct_doc
    [field_string "namespace" (fq_Namespace r); field_string "name" (fq_Name r); field_int "usedBytes" (fq_UsedBytes r);
     field_int "capacityBytes" (fq_CapacityBytes r); field_float "growthBytesPerDay" (fq_GrowthBytesPerDay r);
     field_float "confidenceR2" (fq_ConfidenceR2 r); field_value "alertFiring" (JBool (fq_AlertFiring r));
     field_int "samplesCount" (fq_SamplesCount r); field_float_ptr "daysUntilFull" (fq_DaysUntilFull r)] in
  Ok (render doc).

Definition fastapi_decode `{GoLib} : string → res fastAPIInsightResponse :=
  unmarshal (λ v, dec_struct (λ k v r,
    if key_is k "insight" then s ← dec_string v (fr_Insight r); Some (mkFastResp s (fr_Text r) (fr_Output r))
    else if key_is k "text" then s ← dec_string v (fr_Text r); Some (mkFastResp (fr_Insight r) s (fr_Output r))
    else if key_is k "output" then s ← dec_string v (fr_Output r); Some (mkFastResp (fr_Insight r) (fr_Text r) s)
    else Some r) v (mkFastResp "" "" "")).

(** The SDKs, net/url and the HTTP client. *)
Class LlmEnv := {
  llm_lib :: GoLib;
  openai_output : sdk_request → res string;
  anthropic_blocks : sdk_request → res (list (string * string));
  url_parse : string → res URL;
  url_string : URL → string;
  http_post : string → string → res (Z * string);
  bad_request_url : string → option error;
}.

(** ** The insight prompt *)

Definition lines (l : list string) : string := join nl l.

(* go: internal/llm/prompt.go sampleWindowDetails *)
Definition sampleWindowDetails `{Platform} (samples : list Sample) : Z * Z * float :=
  match samples, last samples with
  | first :: _ :: _, Some last_ =>
      let d := t_sub (Timestamp last_) (Timestamp first) in
      let minutes := fadd (f_of_Z (Z.quot d minute)) (fdiv (f_of_Z (Z.rem d minute)) (f_of_Z 60000000000)) in
      let deltaBytes := wrap64 (UsedBytes last_ - UsedBytes first) in
      (f_to_int64 minutes, deltaBytes, fdiv (f_of_Z deltaBytes) (f_of_Z (1024 * 1024)))
  | _, _ => (0%Z, 0%Z, fzero)
  end.

(* go: internal/llm/prompt.go insightPromptData *)
Record insightPromptData := mkPromptData {
  pd_PromptVersion : string;
  pd_Namespace : string;
  pd_Name : string;
  pd_UsedBytes : Z;
  pd_CapacityBytes : Z;
  pd_UsagePercent : float;
  pd_UsageRatio : float;
  pd_GrowthBytesPerDay : float;
  pd_GrowthMiBPerMin : float;
  pd_ConfidenceR2 : float;
  pd_DaysUntilFull : string;
  pd_AlertFiring : bool;
  pd_SamplesCount : Z;
  pd_SampleWindowMinutes : Z;
  pd_SampleDeltaBytes : Z;
  pd_SampleDeltaMiB : float;
}.

(* go: internal/llm/prompt.go buildInsightPromptData *)
Definition buildInsightPromptData `{Platform} (pvc : PVCContext) : insightPromptData :=
  let g := pc_Growth pvc in
  let '(usageRatio, usagePct) :=
    if (0 <? pc_CapacityBytes pvc)%Z then
      let r := fdiv (f_of_Z (pc_UsedBytes pvc)) (f_of_Z (pc_CapacityBytes pvc)) in
      (r, fmul r (f_of_Z 100))
    else (fzero, fzero) in
  let days := match DaysUntilFull g with None => "unknown" | Some d => sprintf_f 2 d end in
  let '(windowMinutes, deltaBytes, deltaMiB) := sampleWindowDetails (pc_Samples pvc) in
  mkPromptData "insight-v1" (pc_Namespace pvc) (pc_Name pvc) (pc_UsedBytes pvc) (pc_CapacityBytes pvc)
    usagePct usageRatio (GrowthBytesPerDay g)
    (fdiv (fdiv (GrowthBytesPerDay g) (f_of_Z 1440)) (f_of_Z (1024 * 1024)))
    (ConfidenceR2 g) days (pc_AlertFiring pvc) (Z.of_nat (length (pc_Samples pvc)))
    windowMinutes deltaBytes deltaMiB.

(* go: internal/llm/prompt.go insightSystemPromptTemplate *)
Definition insight_system (version : string) : string :=
  lines ["You are a Kubernetes storage capacity planning assistant for SRE teams.";
         "PromptVersion: " +:+ version; "";
         "Goal:";
         "Write one short operational insight for this PVC. Use only the PVC data provided in the user message."; "";
         "Output contract (strict):";
         "- Return plain text only (no markdown, no bullets, no JSON).";
         "- 2-4 sentences total.";
         "- Include " +:+ String (chr 34) ("Risk: <low|medium|high>" +:+ String (chr 34) " exactly once.");
         "- Include one concrete next action with a timeframe.";
         "- If ConfidenceR2 < 0.50, explicitly mention low confidence.";
         "- If GrowthBytesPerDay <= 0, do not recommend expansion; recommend monitoring/investigation."].

(* go: internal/llm/prompt.go insightUserPromptTemplate *)
Definition insight_user (d : insightPromptData) : string :=
  lines ["PVC Data:";
         "Namespace=" +:+ pd_Namespace d;
         "Name=" +:+ pd_Name d;
         "UsedBytes=" +:+ itoa (pd_UsedBytes d);
         "CapacityBytes=" +:+ itoa (pd_CapacityBytes d);
         "UsagePercent=" +:+ sprintf_f 2 (pd_UsagePercent d);
         "UsageRatio=" +:+ sprintf_f 4 (pd_UsageRatio d);
         "GrowthBytesPerDay=" +:+ sprintf_f 2 (pd_GrowthBytesPerDay d);
         "GrowthMiBPerMin=" +:+ sprintf_f 2 (pd_GrowthMiBPerMin d);
         "ConfidenceR2=" +:+ sprintf_f 3 (pd_ConfidenceR2 d);
         "DaysUntilFull=" +:+ pd_DaysUntilFull d;
         "AlertFiring=" +:+ bool_text (pd_AlertFiring d);
         "SamplesCount=" +:+ itoa (pd_SamplesCount d);
         "SampleWindowMinutes=" +:+ itoa (pd_SampleWindowMinutes d);
         "SampleDeltaBytes=" +:+ itoa (pd_SampleDeltaBytes d);
         "SampleDeltaMiB=" +:+ sprintf_f 2 (pd_SampleDeltaMiB d); "";
         "Now produce the insight."].

(** The templates refer to fields of their data only, so that executing them
    cannot fail and the fallback texts of the Go code are never used. *)
(* go: internal/llm/prompt.go BuildPromptParts *)
Definition BuildPromptParts `{Platform} (pvc : PVCContext) : PromptParts :=
  let data := buildInsightPromptData pvc in
  mkPrompt (pd_PromptVersion data) (trim_space (insight_system (pd_PromptVersion data)))
    (trim_space (insight_user data)).

Definition combined_prompt (parts : PromptParts) : string :=
  trim_space ("System:" +:+ nl +:+ pp_System parts +:+ nl +:+ nl +:+ "User:" +:+ nl +:+ pp_User parts).

(* go: internal/llm/prompt.go BuildPrompt *)
Definition BuildPrompt `{Platform} (pvc : PVCContext) : string := combined_prompt (BuildPromptParts pvc).

(** ** The plan prompts *)

(* go: internal/llm/plan_prompt.go PlanRiskChange *)
Record PlanRiskChange := mkPlanRiskChange {
  pr_Type : string;
  pr_Namespace : string;
  pr_Name : string;
  pr_PreviousWeeklyGiBPerDay : float;
  pr_CurrentWeeklyGiBPerDay : float;
  pr_PreviousProjectedFullAt : string;
  pr_CurrentProjectedFullAt : string;
  pr_Message : string;
}.

(* go: internal/llm/plan_prompt.go PlanTopRisk *)
Record PlanTopRisk := mkPlanTopRisk {
  pt_Namespace : string;
  pt_Name : string;
  pt_WeeklyGiBPerDay : float;
  pt_UsageRatio : float;
  pt_DaysUntilFull : string;
  pt_AlertFiring : bool;
}.

(* go: internal/llm/plan_prompt.go PlanBudgetForecast *)
Record PlanBudgetForecast := mkPlanBudgetForecast {
  pf_Namespace : string;
  pf_Kind : string;
  pf_Name : string;
  pf_BudgetMiB : float;
  pf_UsedMiB : float;
  pf_UsageRatio : float;
  pf_GrowthMiBPerMin : float;
  pf_DaysUntilBreach : string;
}.

(* go: internal/llm/plan_prompt.go PlanRiskChangeContext *)
Record PlanRiskChangeContext := mkRiskChangeContext {
  px_PlanName : string;
  px_RiskChangeSummary : string;
  px_Changes : list PlanRiskChange;
  px_TopRisks : list PlanTopRisk;
}.

(* go: internal/llm/plan_prompt.go PlanBudgetRecommendationsContext *)
Record PlanBudgetRecommendationsContext := mkBudgetContext {
  py_PlanName : string;
  py_NamespaceForecasts : list PlanBudgetForecast;
  py_WorkloadForecasts : list PlanBudgetForecast;
  py_TopRisks : list PlanTopRisk;
}.

(** A [range] of a template: one line per element, or the line "- none". *)
Definition section {A} (title : string) (row : A → string) (l : list A) : string :=
  title +:+ match l with
            | [] => nl +:+ "- none"
            | _ => String.concat "" (map (λ x, nl +:+ row x) l)
            end.

Definition change_row (c : PlanRiskChange) : string :=
  "- type=" +:+ pr_Type c +:+ " pvc=" +:+ pr_Namespace c +:+ "/" +:+ pr_Name c
    +:+ " prevWeeklyGiBPerDay=" +:+ sprintf_f 2 (pr_PreviousWeeklyGiBPerDay c)
    +:+ " currWeeklyGiBPerDay=" +:+ sprintf_f 2 (pr_CurrentWeeklyGiBPerDay c)
    +:+ " prevProjectedFullAt=" +:+ pr_PreviousProjectedFullAt c
    +:+ " currProjectedFullAt=" +:+ pr_CurrentProjectedFullAt c +:+ " message=" +:+ pr_Message c.

Definition risk_row (r : PlanTopRisk) : string :=
  "- pvc=" +:+ pt_Namespace r +:+ "/" +:+ pt_Name r +:+ " weeklyGiBPerDay="
    +:+ sprintf_f 2 (pt_WeeklyGiBPerDay r) +:+ " usageRatio=" +:+ sprintf_f 3 (pt_UsageRatio r)
    +:+ " daysUntilFull=" +:+ pt_DaysUntilFull r.

Definition forecast_figures (f : PlanBudgetForecast) : string :=
  " budgetMiB=" +:+ sprintf_f 2 (pf_BudgetMiB f) +:+ " usedMiB=" +:+ sprintf_f 2 (pf_UsedMiB f)
    +:+ " usageRatio=" +:+ sprintf_f 3 (pf_UsageRatio f) +:+ " growthMiBPerMin="
    +:+ sprintf_f 2 (pf_GrowthMiBPerMin f) +:+ " daysUntilBreach=" +:+ pf_DaysUntilBreach f.

(* go: internal/llm/plan_prompt.go riskChangePromptData *)
Record riskChangePromptData := mkRiskChangeData {
  rd_PromptVersion : string;
  rd_PlanName : string;
  rd_RiskChangeSummary : string;
  rd_Changes : list PlanRiskChange;
  rd_TopRisks : list PlanTopRisk;
}.

(* go: internal/llm/plan_prompt.go budgetRecommendationPromptData *)
Record budgetRecommendationPromptData := mkBudgetData {
  bd_PromptVersion : string;
  bd_PlanName : string;
  bd_NamespaceForecasts : list PlanBudgetForecast;
  bd_WorkloadForecasts : list PlanBudgetForecast;
  bd_TopRisks : list PlanTopRisk;
}.

(* go: internal/llm/plan_prompt.go riskChangeSystemPromptTemplate *)
Definition risk_change_system (data : riskChangePromptData) : string :=
  lines ["You are a Kubernetes storage risk analyst.";
         "PromptVersion: " +:+ rd_PromptVersion data; "";
         "Goal:";
         "Summarize what changed in storage risk between reconciles and what operators should verify next."; "";
         "Output contract (strict):";
         "- Plain text only (no markdown tables or JSON).";
         "- 3-5 short sentences.";
         "- Include one sentence that starts with " +:+ String (chr 34) ("Most likely driver:" +:+ String (chr 34) ".");
         "- Include one sentence that starts with " +:+ String (chr 34) ("Next check (24h):" +:+ String (chr 34) ".")].

(* go: internal/llm/plan_prompt.go riskChangeUserPromptTemplate *)
Definition risk_change_user (data : riskChangePromptData) : string :=
  "Plan=" +:+ rd_PlanName data +:+ nl +:+ "ChangeSummary=" +:+ rd_RiskChangeSummary data +:+ nl +:+ nl
    +:+ section "RiskChanges:" change_row (rd_Changes data) +:+ nl +:+ nl
    +:+ section "CurrentTopRisks:"
          (λ r, risk_row r +:+ " alertFiring=" +:+ bool_text (pt_AlertFiring r)) (rd_TopRisks data).

(* go: internal/llm/plan_prompt.go budgetRecommendationSystemPromptTemplate *)
Definition budget_system (data : budgetRecommendationPromptData) : string :=
  lines ["You are a Kubernetes storage budget planner.";
         "PromptVersion: " +:+ bd_PromptVersion data; "";
         "Goal:";
         "Provide concrete budget/risk mitigation actions based on namespace and workload forecasts."; "";
         "Output contract (strict):";
         "- Plain text only.";
         "- Exactly 3 numbered lines: " +:+ String (chr 34) ("1) ..." +:+ String (chr 34) (", " +:+
            String (chr 34) ("2) ..." +:+ String (chr 34) (", " +:+ String (chr 34) ("3) ..." +:+ String (chr 34) ".")))));
         "- Each line must include a target (namespace or workload) and a timeframe.";
         "- Prefer actions that reduce forecasted budget breach risk first."].

(* go: internal/llm/plan_prompt.go budgetRecommendationUserPromptTemplate *)
Definition budget_user (data : budgetRecommendationPromptData) : string :=
  "Plan=" +:+ bd_PlanName data +:+ nl +:+ nl
    +:+ section "NamespaceForecasts:" (λ f, "- namespace=" +:+ pf_Namespace f +:+ forecast_figures f) (bd_NamespaceForecasts data)
    +:+ nl +:+ nl
    +:+ section "WorkloadForecasts:"
          (λ f, "- workload=" +:+ pf_Namespace f +:+ "/" +:+ pf_Kind f +:+ "/" +:+ pf_Name f
                  +:+ forecast_figures f) (bd_WorkloadForecasts data)
    +:+ nl +:+ nl +:+ section "TopRisks:" risk_row (bd_TopRisks data).

(* go: internal/llm/plan_prompt.go buildRiskChangePromptData *)
Definition buildRiskChangePromptData (ctx : PlanRiskChangeContext) : riskChangePromptData :=
  mkRiskChangeData "risk-change-v1" (trim_space (px_PlanName ctx)) (trim_space (px_RiskChangeSummary ctx))
    (px_Changes ctx) (px_TopRisks ctx).

(* go: internal/llm/plan_prompt.go buildBudgetRecommendationPromptData *)
Definition buildBudgetRecommendationPromptData (ctx : PlanBudgetRecommendationsContext) :
    budgetRecommendationPromptData :=
  mkBudgetData "budget-recommendation-v1" (trim_space (py_PlanName ctx)) (py_NamespaceForecasts ctx)
    (py_WorkloadForecasts ctx) (py_TopRisks ctx).

(** A compiled template, as the text it gives or its error; those above have none. *)
Definition compiled {D} (text : D → string) : D → res string := λ data, Ok (text data).

(* go: internal/llm/plan_prompt.go executeRiskChangeTemplate *)
Definition executeRiskChangeTemplate (tpl : riskChangePromptData → res string) (data : riskChangePromptData) :
    res string :=
  match tpl data with Err e => Err e | Ok b => Ok (trim_space b) end.

(* go: internal/llm/plan_prompt.go executeBudgetRecommendationTemplate *)
Definition executeBudgetRecommendationTemplate (tpl : budgetRecommendationPromptData → res string)
    (data : budgetRecommendationPromptData) : res string :=
  match tpl data with Err e => Err e | Ok b => Ok (trim_space b) end.

(* go: internal/llm/plan_prompt.go BuildRiskChangePromptParts *)
Definition BuildRiskChangePromptParts (ctx : PlanRiskChangeContext) : PromptParts :=
  let data := buildRiskChangePromptData ctx in
  match executeRiskChangeTemplate (compiled risk_change_system) data,
        executeRiskChangeTemplate (compiled risk_change_user) data with
  | Ok system, Ok user => mkPrompt (rd_PromptVersion data) system user
  | _, _ => mkPrompt (rd_PromptVersion data) "You are a Kubernetes storage risk analyst."
              ("Plan=" +:+ rd_PlanName data +:+ " RiskChangeSummary=" +:+ rd_RiskChangeSummary data)
  end.

(* go: internal/llm/plan_prompt.go BuildBudgetRecommendationPromptParts *)
Definition BuildBudgetRecommendationPromptParts (ctx : PlanBudgetRecommendationsContext) : PromptParts :=
  let data := buildBudgetRecommendationPromptData ctx in
  match executeBudgetRecommendationTemplate (compiled budget_system) data,
        executeBudgetRecommendationTemplate (compiled budget_user) data with
  | Ok system, Ok user => mkPrompt (bd_PromptVersion data) system user
  | _, _ => mkPrompt (bd_PromptVersion data) "You are a Kubernetes storage budget planner."
              ("Plan=" +:+ bd_PlanName data +:+ " Forecasts=" +:+ itoa (Z.of_nat (length (bd_NamespaceForecasts data)))
                 +:+ "/" +:+ itoa (Z.of_nat (length (bd_WorkloadForecasts data))))
  end.

(** ** The stub *)

(* go: internal/llm/stub_client.go StubInsightGenerator.GenerateInsight *)
Definition stub_GenerateInsight (pvc : PVCContext) : res string :=
  let g := pc_Growth pvc in
  let usagePercent :=
    if (0 <? pc_CapacityBytes pvc)%Z
    then fmul (fdiv (f_of_Z (pc_UsedBytes pvc)) (f_of_Z (pc_CapacityBytes pvc))) (f_of_Z 100)
    else fzero in
  let daysStr := match DaysUntilFull g with None => "N/A" | Some d => sprintf_f 1 d +:+ " days" end in
  let alertStr := if pc_AlertFiring pvc then " [ALERT FIRING]" else "" in
  Ok ("PVC " +:+ pc_Namespace pvc +:+ "/" +:+ pc_Name pvc +:+ ": " +:+ sprintf_f 1 usagePercent
        +:+ "% used (" +:+ sprintf_f 0 (f_of_Z (pc_UsedBytes pvc)) +:+ " bytes / "
        +:+ sprintf_f 0 (f_of_Z (pc_CapacityBytes pvc)) +:+ " bytes capacity). Growth rate: "
        +:+ sprintf_f 0 (GrowthBytesPerDay g) +:+ " bytes/day (R²=" +:+ sprintf_f 2 (ConfidenceR2 g)
        +:+ "). Predicted time to full: " +:+ daysStr +:+ "." +:+ alertStr
        +:+ " [stub insight — configure LLM endpoint for AI-generated analysis]").

(* go: internal/llm/stub_client.go StubInsightGenerator.GenerateFromPrompt *)
Definition stub_GenerateFromPrompt (prompt : PromptParts) : res string :=
  let version := trim_space (pp_Version prompt) in
  let version := if version =? "" then "unknown" else version in
  Ok ("[stub insight: prompt version=" +:+ version
        +:+ ", configure LLM provider for generated plan-level analysis]").

Definition StubInsightGenerator : InsightGenerator :=
  mkGenerator stub_GenerateInsight (Some stub_GenerateFromPrompt).

(** ** The mock, with its call record *)

(* go: internal/llm/mock_client.go MockInsightGenerator *)
Record MockInsightGenerator := mkMockGen {
  mg_Response : string;
  mg_Err : option error;
  mg_CallCount : Z;
  mg_Calls : list PVCContext;
}.

Definition mock_answer (m : MockInsightGenerator) (text : string) : res string :=
  match mg_Err m with
  | Some e => Err e
  | None => Ok (if mg_Response m =? "" then text else mg_Response m)
  end.

(* go: internal/llm/mock_client.go MockInsightGenerator.GenerateInsight *)
Definition mockgen_GenerateInsight (pvc : PVCContext) (m : MockInsightGenerator) :
    res string * MockInsightGenerator :=
  (mock_answer m ("mock insight for " +:+ pc_Namespace pvc +:+ "/" +:+ pc_Name pvc),
   mkMockGen (mg_Response m) (mg_Err m) (mg_CallCount m + 1) (mg_Calls m ++ [pvc])).

(* go: internal/llm/mock_client.go MockInsightGenerator.GenerateFromPrompt *)
Definition mockgen_GenerateFromPrompt (_ : PromptParts) (m : MockInsightGenerator) :
    res string * MockInsightGenerator :=
  (mock_answer m "mock plan insight",
   mkMockGen (mg_Response m) (mg_Err m) (mg_CallCount m + 1) (mg_Calls m)).

(* go: internal/llm/mock_client.go SetErr *)
Definition mockgen_SetErr (e : option error) (m : MockInsightGenerator) : MockInsightGenerator :=
  mkMockGen (mg_Response m) e (mg_CallCount m) (mg_Calls m).

(* go: internal/llm/mock_client.go Reset *)
Definition mockgen_Reset (_ : MockInsightGenerator) : MockInsightGenerator := mkMockGen "" None 0 [].
