(* ===== verification/Providers.v ===== *)
(** * internal/llm: the backends

    Constructors, request handling and the FastAPI circuit breaker.  What the
    network answers to a call is given by the environment; a FastAPI call also
    returns its exchanges with the backend and the new breaker state. *)

From stdpp Require Import base list strings relations.
From Stdlib Require Import ZArith Lia Ascii.
From S2P Require Import Prelude GoFloat GoText GoStrconv JsonDoc RingBuffer Growth Llm.

Local Open Scope string_scope.

(** [strings.TrimRight(s, "/")]. *)
Definition trim_right_slash (s : string) : string :=
  let fix drop (r : string) : string :=
    match r with String "/" r' => drop r' | _ => r end in
  String.rev (drop (String.rev s)).

Section providers.
Context `{LlmEnv} `{Platform}.

(** ** OpenAI *)

(* go: internal/llm/openai_client.go OpenAIInsightGenerator.GenerateFromPrompt *)
Definition openai_GenerateFromPrompt (req : PromptParts → sdk_request) (parts : PromptParts) : res string :=
  match openai_output (req parts) with
  | Err e => Err e
  | Ok out =>
      let text := trim_space out in
      if text =? "" then Err (errorf "openai returned empty insight") else Ok text
  end.

(* go: internal/llm/openai_client.go NewOpenAIInsightGenerator *)
Definition NewOpenAIInsightGenerator (cfg : ProviderConfig) : res InsightGenerator :=
  if trim_space (oc_APIKey (cf_OpenAI cfg)) =? "" then Err (errorf "openai api key is required")
  else
    let model := trim_space (cf_Model cfg) in
    let model := if model =? "" then "gpt-4.1-mini" else model in
    let req parts := mkSdk (oc_APIKey (cf_OpenAI cfg)) (trim_space (oc_BaseURL (cf_OpenAI cfg)))
                       (cf_Timeout cfg) model (cf_MaxTokens cfg) (cf_Temperature cfg) parts in
    Ok (mkGenerator (λ pvc, openai_GenerateFromPrompt req (BuildPromptParts pvc))
          (Some (openai_GenerateFromPrompt req))).

(** ** Anthropic *)

(* go: internal/llm/anthropic_client.go AnthropicInsightGenerator.GenerateFromPrompt *)
Definition anthropic_GenerateFromPrompt (req : PromptParts → sdk_request) (parts : PromptParts) : res string :=
  match anthropic_blocks (req parts) with
  | Err e => Err e
  | Ok blocks =>
      let segments := map snd (List.filter (λ '(typ, text),
        (trim_space typ =? "text") && negb (trim_space text =? "")) blocks) in
      let text := trim_space (join nl segments) in
      if text =? "" then Err (errorf "anthropic returned empty insight") else Ok text
  end.

(* go: internal/llm/anthropic_client.go NewAnthropicInsightGenerator *)
Definition NewAnthropicInsightGenerator (cfg : ProviderConfig) : res InsightGenerator :=
  if trim_space (ac_APIKey (cf_Anthropic cfg)) =? "" then Err (errorf "anthropic api key is required")
  else
    let model := trim_space (cf_Model cfg) in
    let model := if model =? "" then "claude-3-5-haiku-latest" else model in
    let req parts := mkSdk (ac_APIKey (cf_Anthropic cfg)) (trim_space (ac_BaseURL (cf_Anthropic cfg)))
                       (cf_Timeout cfg) model (cf_MaxTokens cfg) (cf_Temperature cfg) parts in
    Ok (mkGenerator (λ pvc, anthropic_GenerateFromPrompt req (BuildPromptParts pvc))
          (Some (anthropic_GenerateFromPrompt req))).

(** ** Ollama *)

(* go: internal/llm/ollama_client.go:73-81 resolveOllamaGenerateURL *)
Definition ollama_path (p : string) : string :=
  let path := trim_space p in
  if (path =? "") || (path =? "/") then "/api/generate"
  else if has_suffix path "/api/generate" then p
  else trim_right_slash path +:+ "/api/generate".

(* go: internal/llm/ollama_client.go resolveOllamaGenerateURL *)
Definition resolveOllamaGenerateURL (baseURL : string) : res string :=
  match url_parse baseURL with
  | Err e => Err (wrap_error "invalid ollama url: " e)
  | Ok u =>
      if (u_Scheme u =? "") || (u_Host u =? "")
      then Err (errorf "ollama url must include scheme and host")
      else Ok (url_string (mkURL (u_Scheme u) (u_Host u) (ollama_path (u_Path u)) ""))
  end.

Definition status_ok (code : Z) : bool := negb ((code <? 200)%Z || (300 <=? code)%Z).

(* go: internal/llm/ollama_client.go OllamaInsightGenerator.GenerateFromPrompt *)
Definition ollama_GenerateFromPrompt (endpoint model : string) (cfg : ProviderConfig)
    (parts : PromptParts) : res string :=
  match ollama_marshal (mkOllamaReq model (combined_prompt parts) (cf_MaxTokens cfg) (cf_Temperature cfg)) with
  | Err e => Err e
  | Ok payload =>
      match http_post endpoint payload with
      | Err e => Err e
      | Ok (code, body) =>
          if negb (status_ok code) then
            Err (errorf ("ollama returned status " +:+ itoa code +:+ ": " +:+ trim_space body))
          else
            match ollama_decode body with
            | Err e => Err e
            | Ok out =>
                if negb (trim_space (os_Error out) =? "") then Err (errorf (trim_space (os_Error out)))
                else
                  let text := trim_space (os_Response out) in
                  if text =? "" then Err (errorf "ollama returned empty insight") else Ok text
            end
      end
  end.

(* go: internal/llm/ollama_client.go NewOllamaInsightGenerator *)
Definition NewOllamaInsightGenerator (cfg : ProviderConfig) : res InsightGenerator :=
  let baseURL := trim_space (lc_URL (cf_Ollama cfg)) in
  if baseURL =? "" then Err (errorf "ollama url is required")
  else
    let model := trim_space (cf_Model cfg) in
    if model =? "" then Err (errorf "ollama model is required")
    else
      match resolveOllamaGenerateURL baseURL with
      | Err e => Err e
      | Ok endpoint =>
          Ok (mkGenerator (λ pvc, ollama_GenerateFromPrompt endpoint model cfg (BuildPromptParts pvc))
                (Some (ollama_GenerateFromPrompt endpoint model cfg)))
      end.

(** ** FastAPI *)

(** The fields that do not change after construction. *)
(* go: internal/llm/fastapi_client.go FastAPIInsightGenerator *)
Record FastAPIInsightGenerator := mkFastAPIGen {
  fg_url : string;
  fg_healthURL : string;
  fg_authToken : string;
  fg_failureThreshold : Z;
  fg_cooldown : Z;
}.

(** The fields under [g.mu]. *)
(* go: internal/llm/fastapi_client.go:26-28 consecutiveFails *)
Record breaker := mkBreaker { consecutiveFails : Z; degradedUntil : Z }.

Definition closed : breaker := mkBreaker 0 zero_time.

(* go: internal/llm/fastapi_client.go deriveFastAPIHealthURL *)
Definition deriveFastAPIHealthURL (raw : string) : string :=
  match url_parse (trim_space raw) with
  | Err _ => ""
  | Ok u =>
      if (u_Scheme u =? "") || (u_Host u =? "") then ""
      else url_string (mkURL (u_Scheme u) (u_Host u) "/healthz" "")
  end.

(* go: internal/llm/fastapi_client.go NewFastAPIInsightGenerator *)
Definition NewFastAPIInsightGenerator (cfg : ProviderConfig) : res FastAPIInsightGenerator :=
  let c := cf_FastAPI cfg in
  let url := trim_space (fc_URL c) in
  if url =? "" then Err (errorf "fastapi url is required")
  else
    let failureThreshold := if (fc_FailureThreshold c <=? 0)%Z then defaultFailures else fc_FailureThreshold c in
    let cooldown := if (fc_Cooldown c <=? 0)%Z then defaultCooldown else fc_Cooldown c in
    let healthURL := trim_space (fc_HealthURL c) in
    let healthURL := if healthURL =? "" then deriveFastAPIHealthURL url else healthURL in
    Ok (mkFastAPIGen url healthURL (trim_space (fc_AuthToken c)) failureThreshold cooldown).

(* go: internal/llm/fastapi_client.go recordFailure *)
Definition recordFailure (g : FastAPIInsightGenerator) (now : Z) (b : breaker) : breaker :=
  let n := (consecutiveFails b + 1)%Z in
  mkBreaker n (if (fg_failureThreshold g <=? n)%Z then t_add now (fg_cooldown g) else degradedUntil b).

(* go: internal/llm/fastapi_client.go clearFailures *)
Definition clearFailures (_ : breaker) : breaker := mkBreaker 0 zero_time.

(** What a call does at the backend, in order: a health probe, a health probe that
    cannot be sent, a POST; each with what came back and the time the client takes for
    it. *)
Inductive exchange :=
| Probe (url : string) (answer : res Z) (at_ : Z)
| NoProbe (at_ : Z)
| Post (url payload : string) (answer : res (Z * string)) (at_ : Z).

(** What the backend answers during one call: the status of the health probe, the
    status and body of the POST, and the times at which the code reads the clock. *)
Record answers := mkAnswers {
  an_check_time : Z;
  an_probe : res Z;
  an_post : res (Z * string);
  an_fail_time : Z;
}.

(* go: internal/llm/fastapi_client.go probeHealth *)
Definition probeHealth (g : FastAPIInsightGenerator) (a : answers) : bool * list exchange :=
  if trim_space (fg_healthURL g) =? "" then (false, [NoProbe (an_check_time a)])
  else
    match bad_request_url (fg_healthURL g) with
    | Some _ => (false, [NoProbe (an_check_time a)])
    | None =>
        (match an_probe a with Ok code => status_ok code | Err _ => false end,
         [Probe (fg_healthURL g) (an_probe a) (an_check_time a)])
    end.

(* go: internal/llm/fastapi_client.go checkAvailability *)
Definition checkAvailability (g : FastAPIInsightGenerator) (a : answers) (b : breaker) :
    bool * list exchange * breaker :=
  let now := an_check_time a in
  if (consecutiveFails b <? fg_failureThreshold g)%Z then (true, [], b)
  else if t_before now (degradedUntil b) then (false, [], b)
  else
    let '(healthy, reqs) := probeHealth g a in
    if healthy then (true, reqs, clearFailures b) else (false, reqs, recordFailure g now b).

(** The answer of the POST, once it is there; an error counts as a failure. *)
(* go: internal/llm/fastapi_client.go:117-152 FastAPIInsightGenerator.GenerateInsight *)
Definition read_insight (post : res (Z * string)) : res string :=
  match post with
  | Err e => Err e
  | Ok (code, body) =>
      if negb (status_ok code) then
        Err (errorf ("fastapi returned status " +:+ itoa code +:+ ": " +:+ trim_space body))
      else
        match fastapi_decode body with
        | Err e => Err e
        | Ok out =>
            let text := trim_space (fr_Insight out) in
            let text := if text =? "" then trim_space (fr_Text out) else text in
            let text := if text =? "" then trim_space (fr_Output out) else text in
            if text =? "" then Err (errorf "fastapi returned empty insight") else Ok text
        end
  end.

Definition errFastAPIDegraded : error := errorf "fastapi is in degraded mode".

(* go: internal/llm/fastapi_client.go FastAPIInsightGenerator.GenerateInsight *)
Definition fastapi_GenerateInsight (g : FastAPIInsightGenerator) (pvc : PVCContext) (a : answers)
    (b : breaker) : res string * list exchange * breaker :=
  let '(ok, reqs, b) := checkAvailability g a b in
  if negb ok then (Err errFastAPIDegraded, reqs, b)
  else
    let gr := pc_Growth pvc in
    match fastapi_marshal (mkFastReq (pc_Namespace pvc) (pc_Name pvc) (pc_UsedBytes pvc)
            (pc_CapacityBytes pvc) (GrowthBytesPerDay gr) (ConfidenceR2 gr) (pc_AlertFiring pvc)
            (Z.of_nat (length (pc_Samples pvc))) (DaysUntilFull gr)) with
    | Err e => (Err e, reqs, b)
    | Ok payload =>
        match bad_request_url (fg_url g) with
        | Some e => (Err e, reqs, b)
        | None =>
        let reqs := (reqs ++ [Post (fg_url g) payload (an_post a) (an_fail_time a)])%list in
        match read_insight (an_post a) with
        | Err e => (Err e, reqs, recordFailure g (an_fail_time a) b)
        | Ok text => (Ok text, reqs, clearFailures b)
        end
        end
    end.

(** ** The factory *)

(** A generator; the one for FastAPI with its breaker. *)
Inductive generator :=
| NoGenerator
| Stateless (g : InsightGenerator)
| FastAPI (g : FastAPIInsightGenerator) (b : breaker).

Definition res_map {A B} (f : A → B) (r : res A) : res B :=
  match r with Ok a => Ok (f a) | Err e => Err e end.

(* go: internal/llm/providers.go NewInsightGenerator *)
Definition NewInsightGenerator (cfg : ProviderConfig) : res generator :=
  let cfg := normalize cfg in
  let p := cf_Provider cfg in
  if p =? "disabled" then Ok NoGenerator
  else if p =? "openai" then res_map Stateless (NewOpenAIInsightGenerator cfg)
  else if p =? "anthropic" then res_map Stateless (NewAnthropicInsightGenerator cfg)
  else if p =? "fastapi" then res_map (λ g, FastAPI g closed) (NewFastAPIInsightGenerator cfg)
  else if p =? "ollama" then res_map Stateless (NewOllamaInsightGenerator cfg)
  else Err (errorf ("unsupported llm provider: " +:+ p)).

(** What the FastAPI backend answers to the call for a PVC. *)
Class FastAPIEnv := { fastapi_answers : FastAPIInsightGenerator → PVCContext → answers }.

Section calls.
Context `{FastAPIEnv}.

(** [GenerateInsight] of a generator, the exchanges with a FastAPI backend, and the
    generator the call leaves. *)
Definition ask_insight (gen : generator) (pvc : PVCContext) : res string * list exchange * generator :=
  match gen with
  | NoGenerator => (Err ErrPromptExecutionUnsupported, [], NoGenerator)
  | Stateless g => (GenerateInsight g pvc, [], gen)
  | FastAPI g b =>
      let '(r, reqs, b) := fastapi_GenerateInsight g pvc (fastapi_answers g pvc) b in (r, reqs, FastAPI g b)
  end.
End calls.

(** [GenerateFromPrompt], which FastAPI does not have. *)
Definition prompt_client (gen : generator) : option InsightGenerator :=
  match gen with Stateless g => Some g | _ => None end.

Definition is_generator (gen : generator) : bool := match gen with NoGenerator => false | _ => true end.

(** ** The breaker as a state machine *)

(** What concurrent calls do to the breaker, each under the mutex. *)
Inductive breaker_event := Failed (at_ : Z) | Cleared.

Definition breaker_run (g : FastAPIInsightGenerator) (b : breaker) (e : breaker_event) : breaker :=
  match e with Failed t => recordFailure g t b | Cleared => clearFailures b end.

(** The failures since the last success, latest first. *)
Definition failures_since_success (es : list breaker_event) : list Z :=
  fold_left (λ acc e, match e with Failed t => t :: acc | Cleared => [] end) es [].

(** The circuit is open: calls are refused until the cool-down is over. *)
Definition is_open (g : FastAPIInsightGenerator) (b : breaker) (now : Z) : bool :=
  (fg_failureThreshold g <=? consecutiveFails b)%Z && t_before now (degradedUntil b).

(** A POST is answered well: a 2xx whose body decodes to a text that is not blank. *)
Definition good_post (answer : res (Z * string)) : bool :=
  match answer with
  | Ok (code, body) =>
      status_ok code &&
      match fastapi_decode body with
      | Ok out => existsb (λ text, negb (trim_space text =? "")) [fr_Insight out; fr_Text out; fr_Output out]
      | Err _ => false
      end
  | Err _ => false
  end.

(** What an exchange means to the breaker: a success, or a failure at its time. *)
Definition event_of (x : exchange) : breaker_event :=
  match x with
  | Probe _ (Ok code) t => if status_ok code then Cleared else Failed t
  | Probe _ (Err _) t => Failed t
  | NoProbe t => Failed t
  | Post _ _ answer t => if good_post answer then Cleared else Failed t
  end.

(** *** Lemmas *)

Lemma breaker_trace g es :
  (0 < fg_failureThreshold g)%Z →
  fold_left (breaker_run g) es closed =
  let fs := failures_since_success es in
  mkBreaker (Z.of_nat (length fs))
    (if (fg_failureThreshold g <=? Z.of_nat (length fs))%Z
     then match fs with t :: _ => t_add t (fg_cooldown g) | [] => zero_time end else zero_time).
Proof.
  intros Hth. unfold failures_since_success.
  induction es as [|e es IH] using rev_ind.
  { simpl. by rewrite (proj2 (Z.leb_gt _ 0)) by done. }
  rewrite !fold_left_app, IH. simpl. set (fs := fold_left _ es []).
  destruct e as [t|]; simpl.
  - unfold recordFailure. simpl. replace (Z.of_nat (length fs) + 1)%Z with (Z.of_nat (S (length fs))) by lia.
    f_equal. destruct (Z.leb_spec (fg_failureThreshold g) (Z.of_nat (S (length fs)))); [done|].
    by rewrite (proj2 (Z.leb_gt _ (Z.of_nat (length fs)))) by lia.
  - by rewrite (proj2 (Z.leb_gt _ 0)) by done.
Qed.

Lemma breaker_history g es now :
  (0 < fg_failureThreshold g)%Z →
  let b := fold_left (breaker_run g) es closed in
  let fs := failures_since_success es in
  consecutiveFails b = Z.of_nat (length fs) ∧
  (is_open g b now = true ↔
     (fg_failureThreshold g ≤ Z.of_nat (length fs))%Z ∧
     ∃ t rest, fs = t :: rest ∧ (now < t + fg_cooldown g)%Z).
Proof.
  intros Hth b fs.
  subst b. rewrite breaker_trace by done. fold fs. simpl. split; [done|].
  unfold is_open. simpl. rewrite andb_true_iff, Z.leb_le.
  destruct (Z.leb_spec (fg_failureThreshold g) (Z.of_nat (length fs))) as [Hle|]; [|split; [lia|intros [? _]; lia]].
  destruct fs as [|t rest]; simpl in *; [lia|]. unfold t_before, t_add. rewrite Z.ltb_lt.
  split; [intros [? ?]; eauto|intros [? (t' & r & [= -> ->] & ?)]; done].
Qed.

(** No answer of the backend is a good one. *)
Definition bad_answers (a : answers) : Prop :=
  (∀ code, an_probe a = Ok code → status_ok code = false) ∧ ∀ text, read_insight (an_post a) ≠ Ok text.

Lemma good_post_iff answer : good_post answer = true ↔ ∃ text, read_insight answer = Ok text.
Proof.
  unfold good_post, read_insight. destruct answer as [[code body]|e]; [|naive_solver].
  destruct (status_ok code); simpl; [|naive_solver]. destruct (fastapi_decode body) as [out|e]; [|naive_solver].
  rewrite orb_false_r. destruct (trim_space (fr_Insight out) =? "") eqn:Hi, (trim_space (fr_Text out) =? "") eqn:Ht,
    (trim_space (fr_Output out) =? "") eqn:Ho; simpl; rewrite ?Hi, ?Ht, ?Ho; naive_solver.
Qed.

Lemma post_event url payload answer t :
  event_of (Post url payload answer t) = match read_insight answer with Ok _ => Cleared | Err _ => Failed t end.
Proof.
  simpl. pose proof (good_post_iff answer) as [Hg Hr]. destruct (read_insight answer), (good_post answer); eauto.
  - by discriminate Hr; eauto.
  - by destruct Hg as [? ?].
Qed.

(** A check and a call move the breaker by their exchanges, each of which counts. *)
Lemma check_history g a b :
  let '(_, reqs, b') := checkAvailability g a b in
  b' = fold_left (breaker_run g) (map event_of reqs) b ∧ (length reqs ≤ 1)%nat ∧
  (bad_answers a → Cleared ∉ map event_of reqs).
Proof.
  assert (Cleared ∉ []) as Hnil by apply not_elem_of_nil.
  assert (∀ t, Cleared ∉ [Failed t]) as Hone by (intros t; by intros [=]%list_elem_of_singleton).
  unfold checkAvailability. destruct (_ <? _)%Z; [split_and!; simpl; [done|lia|done]|].
  destruct (t_before _ _); [split_and!; simpl; [done|lia|done]|]. unfold probeHealth.
  destruct (_ =? ""); [|destruct (bad_request_url _)]; [split_and!; simpl; auto with lia..|].
  destruct (an_probe a) as [code|e] eqn:Hp; [destruct (status_ok code) eqn:Hs|]; simpl; rewrite ?Hs;
    (split_and!; simpl; auto with lia).
  intros [Hbad _]. by rewrite (Hbad code Hp) in Hs.
Qed.

Lemma generate_history g pvc a b :
  let '(_, reqs, b') := fastapi_GenerateInsight g pvc a b in
  b' = fold_left (breaker_run g) (map event_of reqs) b ∧ (length reqs ≤ 2)%nat ∧
  (bad_answers a → Cleared ∉ map event_of reqs).
Proof.
  unfold fastapi_GenerateInsight. pose proof (check_history g a b) as Hc.
  destruct (checkAvailability g a b) as [[ok reqs] b1]. destruct Hc as (-> & Hl & Hbad).
  destruct ok; cbn [negb]; [|by auto with lia]. destruct (fastapi_marshal _) as [payload|]; [|by auto with lia].
  destruct (bad_request_url _); [by auto with lia|].
  pose proof (post_event (fg_url g) payload (an_post a) (an_fail_time a)) as He.
  destruct (read_insight (an_post a)) as [text|e] eqn:Hr; rewrite map_app, fold_left_app, length_app;
    cbn [map length fold_left]; rewrite He; (split_and!; [done|lia|]); intros Hb.
  - by destruct (proj2 Hb text).
  - intros [?|[=]%list_elem_of_singleton]%elem_of_app. by apply Hbad.
Qed.

Lemma read_insight_nonempty post text : read_insight post = Ok text → text ≠ "".
Proof.
  unfold read_insight. destruct post as [[code body]|]; [|done]. destruct (negb _); [done|].
  destruct (fastapi_decode body); [|done]. destruct (String.eqb_spec
    (if (if trim_space (fr_Insight a) =? "" then trim_space (fr_Text a) else trim_space (fr_Insight a)) =? ""
     then trim_space (fr_Output a)
     else if trim_space (fr_Insight a) =? "" then trim_space (fr_Text a) else trim_space (fr_Insight a)) "");
    [done|]. by intros [= <-].
Qed.

Lemma new_fastapi_threshold cfg g :
  NewFastAPIInsightGenerator cfg = Ok g → (0 < fg_failureThreshold g)%Z ∧ (0 < fg_cooldown g)%Z.
Proof.
  unfold NewFastAPIInsightGenerator. destruct (_ =? ""); [done|]. intros [= <-]. simpl.
  unfold defaultFailures, defaultCooldown, minute, second.
  destruct (Z.leb_spec (fc_FailureThreshold (cf_FastAPI cfg)) 0),
    (Z.leb_spec (fc_Cooldown (cf_FastAPI cfg)) 0); lia.
Qed.

Lemma new_generator_fresh cfg g b :
  NewInsightGenerator cfg = Ok (FastAPI g b) → b = closed ∧ (0 < fg_failureThreshold g)%Z.
Proof.
  unfold NewInsightGenerator. cbv zeta. set (c := normalize cfg).
  repeat (case_match; [try discriminate|]); try discriminate.
  - by destruct (NewOpenAIInsightGenerator c).
  - by destruct (NewAnthropicInsightGenerator c).
  - destruct (NewFastAPIInsightGenerator c) eqn:E; [|done]. intros [= <- <-].
    split; [done|]. by apply (new_fastapi_threshold c).
  - by destruct (NewOllamaInsightGenerator c).
Qed.

(** ** Properties *)

(** The breaker remembers exactly the failures since the last success, under
    every interleaving of the calls that share it: its counter is their number,
    and it is open at a time exactly when there are at least as many as the
    threshold and the latest one is less than a cool-down ago. *)
Theorem breaker_state_is_failure_history cfg g es now :
  NewFastAPIInsightGenerator cfg = Ok g →
  let b := fold_left (breaker_run g) es closed in
  let fs := failures_since_success es in
  consecutiveFails b = Z.of_nat (length fs) ∧
  (is_open g b now = true ↔
     (fg_failureThreshold g ≤ Z.of_nat (length fs))%Z ∧
     ∃ t rest, fs = t :: rest ∧ (now < t + fg_cooldown g)%Z).
Proof.
  intros Hg b fs. apply breaker_history. by apply (new_fastapi_threshold cfg).
Qed.

Lemma check_requests g a b :
  let '(ok, reqs, _) := checkAvailability g a b in
  (∀ u p an t, Post u p an t ∉ reqs) ∧
  (ok = true → (consecutiveFails b < fg_failureThreshold g)%Z ∨ ∃ code, an_probe a = Ok code ∧ status_ok code = true) ∧
  (∀ u an t, Probe u an t ∈ reqs → u = fg_healthURL g ∧ an = an_probe a ∧ (fg_failureThreshold g ≤ consecutiveFails b)%Z).
Proof.
  unfold checkAvailability.
  destruct (Z.ltb_spec (consecutiveFails b) (fg_failureThreshold g)); [split_and!; [by inversion 1|by left|by inversion 1]|].
  destruct (t_before _ _); [split_and!; [by inversion 1|done|by inversion 1]|].
  assert (∀ t, (∀ u p an t', Post u p an t' ∉ [NoProbe t]) ∧ ∀ u an t', Probe u an t' ∉ [NoProbe t]) as Hno.
  { intros t. by split; intros * Hx; apply list_elem_of_singleton in Hx. }
  unfold probeHealth. destruct (_ =? ""); [|destruct (bad_request_url _)];
    [split_and!; [apply Hno|done|by intros * []%Hno]..|].
  destruct (an_probe a) as [code|] eqn:Hp; [destruct (status_ok code) eqn:Hok|];
    (split_and!; [by intros * Hx; apply list_elem_of_singleton in Hx| |
       intros * Hx; by apply list_elem_of_singleton in Hx as [= -> -> ->]]); try done.
  intros _. right. eauto.
Qed.

(** A FastAPI call obeys the breaker: while the circuit is open it sends nothing,
    changes nothing and fails; once the cool-down is over it may post only after a
    healthy probe; below the threshold it never probes; a returned insight is not
    empty and closes the circuit; and whatever happens it changes the breaker by
    recorded failures and successes only. *)
Theorem fastapi_call_obeys_breaker g pvc a b :
  let '(r, reqs, b') := fastapi_GenerateInsight g pvc a b in
  (is_open g b (an_check_time a) = true → r = Err errFastAPIDegraded ∧ reqs = [] ∧ b' = b) ∧
  (∀ url payload answer t, Post url payload answer t ∈ reqs →
     url = fg_url g ∧ answer = an_post a ∧
     ((consecutiveFails b < fg_failureThreshold g)%Z ∨
      (∃ code, an_probe a = Ok code ∧ status_ok code = true))) ∧
  (∀ url answer t, Probe url answer t ∈ reqs →
     url = fg_healthURL g ∧ answer = an_probe a ∧ (fg_failureThreshold g ≤ consecutiveFails b)%Z) ∧
  (∀ text, r = Ok text → text ≠ "" ∧ b' = closed) ∧
  b' = fold_left (breaker_run g) (map event_of reqs) b.
Proof.
  pose proof (generate_history g pvc a b) as Hev.
  destruct (fastapi_GenerateInsight g pvc a b) as [[r reqs] b'] eqn:E. destruct Hev as (Hev & _).
  assert (is_open g b (an_check_time a) = true → r = Err errFastAPIDegraded ∧ reqs = [] ∧ b' = b) as Hopen.
  { unfold is_open. intros [Hle Hlt]%andb_true_iff. revert E.
    unfold fastapi_GenerateInsight, checkAvailability.
    rewrite (proj2 (Z.ltb_ge _ _)) by lia. rewrite Hlt. by intros [= <- <- <-]. }
  pose proof (check_requests g a b) as Hcheck. unfold fastapi_GenerateInsight in E.
  destruct (checkAvailability g a b) as [[ok reqs1] b1]. destruct Hcheck as (Hnp & Hyes & Hpr).
  split; [done|]. clear Hopen.
  destruct ok; simpl in E; [|injection E as <- <- <-; split_and!; try done; intros ? ? ? ? []%Hnp].
  destruct (fastapi_marshal _); [|injection E as <- <- <-; split_and!; try done; intros ? ? ? ? []%Hnp].
  destruct (bad_request_url _); [injection E as <- <- <-; split_and!; try done; intros ? ? ? ? []%Hnp|].
  assert (reqs = (reqs1 ++ [Post (fg_url g) a0 (an_post a) (an_fail_time a)])%list) as ->.
  { by destruct (read_insight _); injection E as <- <- <-. }
  split_and!; [| | |done].
  - intros url payload answer t [Hx|Hx]%elem_of_app; [by destruct (Hnp url payload answer t)|].
    apply list_elem_of_singleton in Hx as [= -> -> -> ->]. split_and!; [done..|by apply Hyes].
  - intros url answer t [Hx|Hx]%elem_of_app; [by eapply Hpr|]. by apply list_elem_of_singleton in Hx.
  - intros text ->. destruct (read_insight _) as [t|] eqn:Hr; [|done].
    injection E as <- <-. split; [by eapply read_insight_nonempty|done].
Qed.

(** The factory accepts a configuration exactly as documented: no generator for
    the disabled (or unset) provider; an API key that is not blank for OpenAI and
    Anthropic; an endpoint for FastAPI; an endpoint with scheme and host, and a
    model, for Ollama; anything else is an error.  A FastAPI generator always has
    a positive failure threshold and cool-down. *)
Theorem new_generator_validates cfg :
  match NewInsightGenerator cfg with
  | Ok NoGenerator => cf_Provider cfg = "" ∨ cf_Provider cfg = "disabled"
  | Ok (Stateless _) =>
      (cf_Provider cfg = "openai" ∧ trim_space (oc_APIKey (cf_OpenAI cfg)) ≠ "") ∨
      (cf_Provider cfg = "anthropic" ∧ trim_space (ac_APIKey (cf_Anthropic cfg)) ≠ "") ∨
      (cf_Provider cfg = "ollama" ∧ trim_space (cf_Model cfg) ≠ "" ∧
       ∃ u, url_parse (trim_space (lc_URL (cf_Ollama cfg))) = Ok u ∧ u_Scheme u ≠ "" ∧ u_Host u ≠ "")
  | Ok (FastAPI g b) =>
      b = closed ∧ cf_Provider cfg = "fastapi" ∧ fg_url g = trim_space (fc_URL (cf_FastAPI cfg)) ∧ fg_url g ≠ "" ∧
      (0 < fg_failureThreshold g)%Z ∧ (0 < fg_cooldown g)%Z
  | Err _ =>
      cf_Provider cfg ≠ "" ∧ cf_Provider cfg ≠ "disabled" ∧
      (cf_Provider cfg = "openai" → trim_space (oc_APIKey (cf_OpenAI cfg)) = "") ∧
      (cf_Provider cfg = "anthropic" → trim_space (ac_APIKey (cf_Anthropic cfg)) = "") ∧
      (cf_Provider cfg = "fastapi" → trim_space (fc_URL (cf_FastAPI cfg)) = "")
  end.
Proof.
  unfold NewInsightGenerator. simpl.
  destruct (String.eqb_spec (cf_Provider cfg) "") as [E0|E0]; [simpl; by left|].
  destruct (String.eqb_spec (cf_Provider cfg) "disabled") as [E1|E1]; [by right|].
  destruct (String.eqb_spec (cf_Provider cfg) "openai") as [E2|E2].
  { unfold NewOpenAIInsightGenerator. simpl. destruct (String.eqb_spec (trim_space (oc_APIKey (cf_OpenAI cfg))) "");
      simpl; [split_and!; try done; congruence|by left]. }
  destruct (String.eqb_spec (cf_Provider cfg) "anthropic") as [E3|E3].
  { unfold NewAnthropicInsightGenerator. simpl. destruct (String.eqb_spec (trim_space (ac_APIKey (cf_Anthropic cfg))) "");
      simpl; [split_and!; try done; congruence|by right; left]. }
  destruct (String.eqb_spec (cf_Provider cfg) "fastapi") as [E4|E4].
  { pose proof (new_fastapi_threshold (normalize cfg)) as Ht. unfold NewFastAPIInsightGenerator in *. simpl in *.
    destruct (String.eqb_spec (trim_space (fc_URL (cf_FastAPI cfg))) ""); simpl; [split_and!; try done; congruence|].
    destruct (Ht _ eq_refl). done. }
  destruct (String.eqb_spec (cf_Provider cfg) "ollama") as [E5|E5]; [|split_and!; done].
  unfold NewOllamaInsightGenerator, resolveOllamaGenerateURL. simpl.
  assert (cf_Provider cfg ≠ "" ∧ cf_Provider cfg ≠ "disabled" ∧
      (cf_Provider cfg = "openai" → trim_space (oc_APIKey (cf_OpenAI cfg)) = "") ∧
      (cf_Provider cfg = "anthropic" → trim_space (ac_APIKey (cf_Anthropic cfg)) = "") ∧
      (cf_Provider cfg = "fastapi" → trim_space (fc_URL (cf_FastAPI cfg)) = "")) as Herr by (split_and!; done).
  destruct (_ =? ""); [done|]. destruct (String.eqb_spec (trim_space (cf_Model cfg)) ""); [done|].
  destruct (url_parse _) as [u|]; [|done].
  destruct (String.eqb_spec (u_Scheme u) ""); [done|]. destruct (String.eqb_spec (u_Host u) ""); [done|]. simpl.
  right; right. eauto 10.
Qed.
End providers.

(** An environment that answers every POST with an empty object. *)
Definition demo_llm : LlmEnv := {|
  openai_output _ := Ok "ok"; anthropic_blocks _ := Ok [("text", "ok")];
  url_parse s := Ok (mkURL "http" s "/" ""); url_string u := u_Scheme u +:+ "://" +:+ u_Host u +:+ u_Path u;
  http_post _ _ := Ok (200%Z, "{}"); bad_request_url _ := None; llm_lib := demo_go |}.

Definition demo_fastapi_config : ProviderConfig :=
  mkConfig "fastapi" "" 0 0 None (mkOpenAI "" "") (mkAnthropic "" "")
    (mkFastAPI "http://llm" "" false "" 2 (5 * second)) (mkOllama "").

Lemma breaker_state_is_failure_history_witness :
  match NewFastAPIInsightGenerator (H := demo_llm) demo_fastapi_config with
  | Ok g => is_open g (fold_left (breaker_run g) [Failed 1; Cleared; Failed 7; Failed 8] closed) 9 = true
  | Err _ => False
  end.
Proof.
  destruct (NewFastAPIInsightGenerator demo_fastapi_config) as [g|] eqn:Hg; [|by vm_compute in Hg].
  apply (breaker_state_is_failure_history (H := demo_llm) demo_fastapi_config g
           [Failed 1; Cleared; Failed 7; Failed 8] 9 Hg).
  vm_compute in Hg. injection Hg as <-. split; [vm_compute; discriminate|].
  exists 8%Z, [7%Z]. split; [done|vm_compute; done].
Defined.
