(* ===== verification/PlanLLM.v ===== *)
(** * LLM use of the plan reconciler

    The parts of internal/controller/capacityplan_controller.go that decide
    whether to call the language model and what to keep when it fails: the PVC
    summaries with their insights, the plan-level texts, the provider
    configuration with its secrets, and the client cache, with the counters of
    requests, errors and timeouts and the latencies observed. *)

From stdpp Require Import base list strings gmap.
From Stdlib Require Import ZArith Lia Ascii.
From S2P Require Import Prelude GoSort GoFloat GoText GoStrconv RingBuffer Growth ApiTypes Metrics K8s Risk Llm.
From S2P Require Import Providers.

Local Open Scope string_scope.
Local Open Scope go_scope.

(** [d.String()]: hours, minutes and seconds with a trimmed fraction; below one
    second in ms, µs or ns. *)
Definition trim_zeros (s : string) : string :=
  let fix drop (r : string) : string := match r with String "0"%char r' => drop r' | _ => r end in
  String.rev (drop (String.rev s)).

Definition with_fraction (whole frac : Z) (digits : nat) : string :=
  let f := trim_zeros (pad_zeros digits (itoa frac)) in
  if f =? "" then itoa whole else itoa whole +:+ "." +:+ f.

Definition duration_string (d : Z) : string :=
  let u := Z.abs d in
  let sign := if (d <? 0)%Z then "-" else "" in
  if (u =? 0)%Z then "0s"
  else if (u <? 1000)%Z then sign +:+ itoa u +:+ "ns"
  else if (u <? 1000000)%Z then sign +:+ with_fraction (u / 1000) (u mod 1000) 3 +:+ "µs"
  else if (u <? 1000000000)%Z then sign +:+ with_fraction (u / 1000000) (u mod 1000000) 6 +:+ "ms"
  else
    let s := (u / second)%Z in
    let secs := with_fraction (s mod 60) (u mod second) 9 +:+ "s" in
    if (s <? 60)%Z then sign +:+ secs
    else if (s <? 3600)%Z then sign +:+ itoa (s / 60) +:+ "m" +:+ secs
    else sign +:+ itoa (s / 3600) +:+ "h" +:+ itoa (s / 60 mod 60) +:+ "m" +:+ secs.

(* go: internal/controller/capacityplan_controller.go isLLMTimeoutError *)
Definition isLLMTimeoutError (e : error) : bool := err_timeout e.

Section summaries.
Context `{MetricsLib} `{Platform} `{LlmEnv} `{FastAPIEnv}.

(** [LLMErrorsTotal] and [LLMTimeoutsTotal] after a failed request. *)
Definition count_llm_error (provider model : string) (e : error) (m : mstore) : mstore :=
  let m := minc m LLMErrorsTotal [provider; model] in
  if isLLMTimeoutError e then minc m LLMTimeoutsTotal [provider; model] else m.

(** The latency of a request: [took] is what [time.Since] says of its start. *)
(* go: internal/controller/capacityplan_controller.go:460-461 buildSummary *)
Definition observe_latency (provider model : string) (took : duration) (m : mstore) : mstore :=
  mobserve m LLMLatencySeconds [provider; model] (duration_seconds took).

(** ** One PVC's summary *)

(** The alert condition. *)
(* go: internal/controller/capacityplan_controller.go:418-420 buildSummary *)
Definition alert_condition (usageRatio usageThreshold : float) (days : option float)
    (daysThreshold : float) : bool :=
  fgeb usageRatio usageThreshold ||
  match days with Some d => fltb d daysThreshold | None => false end.

(** The figures of a summary, before the insight. *)
Record figures := mkFigures {
  fi_capacity : Z;
  fi_used : Z;
  fi_last : option Z;
  fi_ratio : float;
  fi_growth : GrowthResult float;
  fi_alert : bool;
}.

(* go: internal/controller/capacityplan_controller.go:388-420 buildSummary *)
Definition summary_figures (latestCapacity : option Z) (pvc : PersistentVolumeClaim)
    (samples : list Sample) (usageThreshold daysThreshold : float) (prev : PVCSummary) : figures :=
  let capacityBytes :=
    match latestCapacity with Some c => c | None => default 0%Z (pvc_Request pvc) end in
  let growth := CalculateGrowth samples capacityBytes in
  let '(usedBytes, lastSampleTime) :=
    match last samples with
    | Some s => (UsedBytes s, Some (Timestamp s))
    | None => (ps_UsedBytes prev, ps_LastSampleTime prev)
    end in
  let usageRatio :=
    if (0 <? capacityBytes)%Z then fdiv (f_of_Z usedBytes) (f_of_Z capacityBytes) else fzero in
  mkFigures capacityBytes usedBytes lastSampleTime usageRatio growth
    (alert_condition usageRatio usageThreshold (DaysUntilFull growth) daysThreshold).

(* go: internal/controller/capacityplan_controller.go:477-491 buildSummary *)
Definition summary_of (pvc : PersistentVolumeClaim) (samples : list Sample) (f : figures)
    (insight : string) (lastLLMTime : option Z) : PVCSummary :=
  mkPVCSummary (pvc_Namespace pvc) (pvc_Name pvc) (fi_capacity f) (fi_used f) (fi_ratio f)
    (GrowthBytesPerDay (fi_growth f)) (DaysUntilFull (fi_growth f)) (ConfidenceR2 (fi_growth f))
    (Z.of_nat (length samples)) (fi_last f) insight lastLLMTime (fi_alert f).

(* go: internal/controller/capacityplan_controller.go:451-459 buildSummary *)
Definition insight_context (pvc : PersistentVolumeClaim) (samples : list Sample) (f : figures) : PVCContext :=
  mkPVCContext (pvc_Namespace pvc) (pvc_Name pvc) (fi_growth f) (fi_used f) (fi_capacity f) (fi_alert f) samples.

(** [since] is the clock when the age of the insight is taken, [done] when the
    answer of the model has arrived, [took] the time the request took.  With the summary come the exchanges with a
    FastAPI backend and the client as the call leaves it. *)
(* go: internal/controller/capacityplan_controller.go buildSummary *)
Definition buildSummary (since done took : Z) (latestCapacity : option Z) (pvc : PersistentVolumeClaim)
    (samples : list Sample) (usageThreshold daysThreshold : float) (llmInterval : Z)
    (llmClient : generator) (provider model : string) (prev : PVCSummary)
    (onlyAlertingPVCs : bool) (m : mstore) : PVCSummary * list exchange * generator * mstore :=
  let f := summary_figures latestCapacity pvc samples usageThreshold daysThreshold prev in
  let insight := ps_LLMInsight prev in
  let lastLLMTime := ps_LastLLMTime prev in
  let unchanged := (summary_of pvc samples f insight lastLLMTime, [], llmClient, m) in
  if negb (is_generator llmClient) then unchanged
  else if onlyAlertingPVCs && negb (fi_alert f) then unchanged
  else
    let needsRefresh :=
      match lastLLMTime with
      | None => true
      | Some t => (llmInterval <=? t_sub since t)%Z
      end in
    if needsRefresh then
      let m := minc m LLMRequestsTotal [provider; model] in
      let '(answer, sent, llmClient) := ask_insight llmClient (insight_context pvc samples f) in
      let m := observe_latency provider model took m in
      match answer with
      | Err e => (summary_of pvc samples f insight lastLLMTime, sent, llmClient, count_llm_error provider model e m)
      | Ok newInsight => (summary_of pvc samples f newInsight (Some done), sent, llmClient, m)
      end
    else unchanged.

(** ** Plan-level texts *)

(* go: internal/controller/capacityplan_controller.go llmClientState *)
Record llmClientState := mkClientState {
  lc_client : generator;
  lc_provider : string;
  lc_model : string;
  lc_interval : Z;
  lc_now : Z;
  lc_prevHash : string;
  lc_currHash : string;
  lc_prevText : string;
  lc_prevTime : option Z;
  lc_isEnabled : bool;
}.

Definition has_client (s : llmClientState) : bool := is_generator (lc_client s) && lc_isEnabled s.

(* go: internal/controller/capacityplan_controller.go shouldRefresh *)
Definition shouldRefresh (s : llmClientState) : bool :=
  if negb (has_client s) then false
  else if negb (trim_space (lc_prevHash s) =? trim_space (lc_currHash s)) then true
  else
    match lc_prevTime s with
    | None => true
    | Some t => if (lc_interval s <=? 0)%Z then true else (lc_interval s <=? t_sub (lc_now s) t)%Z
    end.

(* go: internal/controller/capacityplan_controller.go supportsPromptExecution *)
Definition supportsPromptExecution (gen : generator) : bool :=
  match prompt_client gen with
  | Some g => match PromptExecutor g with Some _ => true | None => false end
  | None => false
  end.

(* go: internal/controller/capacityplan_controller.go planDurationString *)
Definition planDurationString (v : option float) : string :=
  match v with None => "n/a" | Some d => sprintf_f 2 d end.

(* go: internal/controller/capacityplan_controller.go planTimeString *)
Definition planTimeString (v : option Z) : string :=
  match v with None => "n/a" | Some t => format_rfc3339 t end.

(** The first [limit] rows, all of them for a limit of zero or less. *)
Definition limited {A} (l : list A) (limit : Z) : list A :=
  if (limit <=? 0)%Z then l else take (Z.to_nat limit) l.

(* go: internal/controller/capacityplan_controller.go toPlanTopRisks *)
Definition toPlanTopRisks (topRisks : list PVCRiskSummary) (limit : Z) : list PlanTopRisk :=
  map (λ r, mkPlanTopRisk (rs_Namespace r) (rs_Name r) (fdiv (rs_WeeklyGrowthBytesPerDay r) f_GiB)
              (rs_UsageRatio r) (planDurationString (rs_DaysUntilFull r)) (rs_AlertFiring r))
    (limited topRisks limit).

(* go: internal/controller/capacityplan_controller.go toPlanRiskChanges *)
Definition toPlanRiskChanges (changes : list PVCRiskChange) (limit : Z) : list PlanRiskChange :=
  map (λ c, mkPlanRiskChange (rc_Type c) (rc_Namespace c) (rc_Name c)
              (fdiv (rc_PreviousWeeklyGrowthBytesPerDay c) f_GiB)
              (fdiv (rc_CurrentWeeklyGrowthBytesPerDay c) f_GiB)
              (planTimeString (rc_PreviousProjectedFullAt c))
              (planTimeString (rc_CurrentProjectedFullAt c)) (trim_space (rc_Message c)))
    (limited changes limit).

Definition f_MiB : float := f_of_Z (1024 * 1024).

(** Bytes per day as MiB per minute. *)
Definition mib_per_min (g : float) : float := fdiv (fdiv g (f_of_Z 1440)) f_MiB.

(* go: internal/controller/capacityplan_controller.go toPlanBudgetForecasts *)
Definition toPlanBudgetForecasts (forecasts : list StorageBudgetForecast) (limit : Z) :
    list PlanBudgetForecast :=
  map (λ f, mkPlanBudgetForecast (sf_Namespace f) (sf_Kind f) (sf_Name f)
              (fdiv (f_of_Z (sf_BudgetBytes f)) f_MiB) (fdiv (f_of_Z (sf_UsedBytes f)) f_MiB)
              (sf_UsageRatio f) (mib_per_min (sf_GrowthBytesPerDay f))
              (planDurationString (sf_DaysUntilBreach f)))
    (limited forecasts limit).

(* go: internal/controller/capacityplan_controller.go fallbackBudgetRecommendations *)
Definition fallbackBudgetRecommendations (namespaceForecasts workloadForecasts :
    list StorageBudgetForecast) : string :=
  match namespaceForecasts, workloadForecasts with
  | [], [] => ""
  | _, _ =>
      let l1 := match workloadForecasts with
        | [] => []
        | w :: _ =>
            ["1) Review workload " +:+ sf_Namespace w +:+ "/" +:+ sf_Kind w +:+ "/" +:+ sf_Name w
               +:+ " budget drift in the next 24h; current usage is "
               +:+ sprintf_f 1 (fmul (sf_UsageRatio w) (f_of_Z 100)) +:+ "% of budget with growth "
               +:+ sprintf_f 2 (mib_per_min (sf_GrowthBytesPerDay w)) +:+ " MiB/min."]
        end in
      let l2 := match namespaceForecasts with
        | [] => []
        | n :: _ =>
            ["2) Validate namespace " +:+ sf_Namespace n +:+ " budget headroom this week; usage is "
               +:+ sprintf_f 1 (fmul (sf_UsageRatio n) (f_of_Z 100)) +:+ "% with projected growth "
               +:+ sprintf_f 2 (mib_per_min (sf_GrowthBytesPerDay n)) +:+ " MiB/min."]
        end in
      let l3 := ["3) Re-evaluate per-workload budgets after next trend window to confirm sustained growth before resizing."] in
      join " " (l1 ++ l2 ++ l3)%list
  end.

(* go: internal/controller/capacityplan_controller.go generatePromptInsight *)
Definition generatePromptInsight (took : Z) (client : generator) (provider model : string)
    (prompt : PromptParts) (logKey : string) (m : mstore) : res string * mstore :=
  let m := minc m LLMRequestsTotal [provider; model] in
  let answer := GenerateFromPrompt (prompt_client client) prompt in
  let m := observe_latency provider model took m in
  match answer with
  | Err e => (Err e, count_llm_error provider model e m)
  | Ok text =>
      let text := trim_space text in
      if text =? "" then (Err (errorf ("llm prompt returned empty response for " +:+ logKey)), m)
      else (Ok text, m)
  end.

(** What both refreshes share once a text is at hand. *)
Definition refresh_text (took : Z) (s : llmClientState) (kept : string) (prompt : PromptParts) (logKey : string)
    (m : mstore) : (string * option Z) * mstore :=
  if negb (shouldRefresh s) || negb (supportsPromptExecution (lc_client s))
  then ((kept, lc_prevTime s), m)
  else
    match generatePromptInsight took (lc_client s) (lc_provider s) (lc_model s) prompt logKey m with
    | (Err _, m) => ((kept, lc_prevTime s), m)
    | (Ok text, m) => ((text, Some (lc_now s)), m)
    end.

(* go: internal/controller/capacityplan_controller.go refreshPlanRiskChangeInsight *)
Definition refreshPlanRiskChangeInsight (took : Z) (planName : string) (s : llmClientState)
    (riskChangeSummary : string) (riskChanges : list PVCRiskChange)
    (topRisks : list PVCRiskSummary) (m : mstore) : (string * option Z) * mstore :=
  let summary := trim_space (lc_prevText s) in
  if negb (has_client s) then ((summary, lc_prevTime s), m)
  else
    let summary := if summary =? "" then trim_space riskChangeSummary else summary in
    let prompt := BuildRiskChangePromptParts
      (mkRiskChangeContext planName (trim_space riskChangeSummary)
         (toPlanRiskChanges riskChanges 8) (toPlanTopRisks topRisks 5)) in
    refresh_text took s summary prompt "plan-risk-change" m.

(* go: internal/controller/capacityplan_controller.go refreshPlanBudgetRecommendations *)
Definition refreshPlanBudgetRecommendations (took : Z) (planName : string) (s : llmClientState)
    (namespaceForecasts workloadForecasts : list StorageBudgetForecast)
    (topRisks : list PVCRiskSummary) (m : mstore) : (string * option Z) * mstore :=
  let recommendations := trim_space (lc_prevText s) in
  if negb (has_client s) then ((recommendations, lc_prevTime s), m)
  else
    match namespaceForecasts, workloadForecasts with
    | [], [] => (("", None), m)
    | _, _ =>
        let recommendations :=
          if recommendations =? "" then fallbackBudgetRecommendations namespaceForecasts workloadForecasts
          else recommendations in
        let prompt := BuildBudgetRecommendationPromptParts
          (mkBudgetContext planName (toPlanBudgetForecasts namespaceForecasts 5)
             (toPlanBudgetForecasts workloadForecasts 8) (toPlanTopRisks topRisks 5)) in
        refresh_text took s recommendations prompt "plan-budget-recommendations" m
    end.
End summaries.

(** ** Provider configuration *)

Section config.
Context `{Api} `{LlmEnv} `{Platform}.
(** [r.OperatorNamespace] and the environment variable POD_NAMESPACE. *)
Context (OperatorNamespace POD_NAMESPACE : string).

(* go: internal/controller/capacityplan_controller.go defaultSecretKey *)
Definition defaultSecretKey (v fallback : string) : string :=
  let v := trim_space v in if v =? "" then fallback else v.

(* go: internal/controller/capacityplan_controller.go defaultLLMModelLabel *)
Definition defaultLLMModelLabel (v : string) : string :=
  let v := trim_space v in if v =? "" then "default" else v.

(* go: internal/controller/capacityplan_controller.go:1022-1028 readSecretValue *)
Definition secret_namespace : string :=
  let ns := OperatorNamespace in
  let ns := if ns =? "" then POD_NAMESPACE else ns in
  if ns =? "" then "default" else ns.

(* go: internal/controller/capacityplan_controller.go readSecretValue *)
Definition readSecretValue (name key : string) : res (string * string) :=
  let name := trim_space name in
  if name =? "" then Err (errorf "secret name is required")
  else
    let key := trim_space key in
    if key =? "" then Err (errorf ("secret key is required for secret " +:+ go_quote name))
    else
      let ns := secret_namespace in
      match get_secret ns name with
      | Err e => Err (wrap_error ("getting secret " +:+ ns +:+ "/" +:+ name +:+ ": ") e)
      | Ok sec =>
          match sec_Data sec !! key with
          | None => Err (errorf ("secret " +:+ ns +:+ "/" +:+ name +:+ " missing key " +:+ go_quote key))
          | Some val =>
              let str := trim_space val in
              if str =? "" then
                Err (errorf ("secret " +:+ ns +:+ "/" +:+ name +:+ " key " +:+ go_quote key +:+ " is empty"))
              else Ok (str, sec_ResourceVersion sec)
          end
      end.

Definition with_openai (c : ProviderConfig) (o : OpenAIConfig) : ProviderConfig :=
  mkConfig (cf_Provider c) (cf_Model c) (cf_Timeout c) (cf_MaxTokens c) (cf_Temperature c)
    o (cf_Anthropic c) (cf_FastAPI c) (cf_Ollama c).
Definition with_anthropic (c : ProviderConfig) (o : AnthropicConfig) : ProviderConfig :=
  mkConfig (cf_Provider c) (cf_Model c) (cf_Timeout c) (cf_MaxTokens c) (cf_Temperature c)
    (cf_OpenAI c) o (cf_FastAPI c) (cf_Ollama c).
Definition with_fastapi (c : ProviderConfig) (o : FastAPIConfig) : ProviderConfig :=
  mkConfig (cf_Provider c) (cf_Model c) (cf_Timeout c) (cf_MaxTokens c) (cf_Temperature c)
    (cf_OpenAI c) (cf_Anthropic c) o (cf_Ollama c).
Definition with_ollama (c : ProviderConfig) (o : OllamaConfig) : ProviderConfig :=
  mkConfig (cf_Provider c) (cf_Model c) (cf_Timeout c) (cf_MaxTokens c) (cf_Temperature c)
    (cf_OpenAI c) (cf_Anthropic c) (cf_FastAPI c) o.

(* go: internal/controller/capacityplan_controller.go configureOpenAIProvider *)
Definition configureOpenAIProvider (cfg : ProviderConfig) (spec : OpenAIProviderSpec) :
    res (ProviderConfig * list string) :=
  let key := defaultSecretKey (oa_SecretKey spec) "apiKey" in
  let? (apiKey, secretRV) := readSecretValue (oa_SecretRefName spec) key in
  let baseURL := trim_space (oa_BaseURL spec) in
  Ok (with_openai cfg (mkOpenAI apiKey baseURL),
      ["openai.baseURL=" +:+ baseURL; "openai.secret=" +:+ trim_space (oa_SecretRefName spec);
       "openai.secretKey=" +:+ key; "openai.secretRV=" +:+ secretRV]).

(* go: internal/controller/capacityplan_controller.go configureAnthropicProvider *)
Definition configureAnthropicProvider (cfg : ProviderConfig) (spec : AnthropicProviderSpec) :
    res (ProviderConfig * list string) :=
  let key := defaultSecretKey (an_SecretKey spec) "apiKey" in
  let? (apiKey, secretRV) := readSecretValue (an_SecretRefName spec) key in
  let baseURL := trim_space (an_BaseURL spec) in
  Ok (with_anthropic cfg (mkAnthropic apiKey baseURL),
      ["anthropic.baseURL=" +:+ baseURL; "anthropic.secret=" +:+ trim_space (an_SecretRefName spec);
       "anthropic.secretKey=" +:+ key; "anthropic.secretRV=" +:+ secretRV]).

(* go: internal/controller/capacityplan_controller.go configureFastAPIProvider *)
Definition configureFastAPIProvider (cfg : ProviderConfig) (spec : FastAPIProviderSpec) :
    res (ProviderConfig * list string) :=
  let key := defaultSecretKey (fa_AuthSecretKey spec) "token" in
  let? (authToken, authSecretRV) :=
    if trim_space (fa_AuthSecretRefName spec) =? "" then Ok ("", "")
    else readSecretValue (fa_AuthSecretRefName spec) key in
  let url := trim_space (fa_URL spec) in
  let healthURL := trim_space (fa_HealthURL spec) in
  Ok (with_fastapi cfg (mkFastAPI url authToken (fa_TLSSkipVerify spec) healthURL
                          (fa_FailureThreshold spec) (fa_Cooldown spec)),
      ["fastapi.url=" +:+ url; "fastapi.tlsSkipVerify=" +:+ bool_text (fa_TLSSkipVerify spec);
       "fastapi.healthURL=" +:+ healthURL;
       "fastapi.failureThreshold=" +:+ itoa (fa_FailureThreshold spec);
       "fastapi.cooldown=" +:+ duration_string (fa_Cooldown spec);
       "fastapi.authSecret=" +:+ trim_space (fa_AuthSecretRefName spec);
       "fastapi.authSecretKey=" +:+ key; "fastapi.authSecretRV=" +:+ authSecretRV]).

(* go: internal/controller/capacityplan_controller.go configureOllamaProvider *)
Definition configureOllamaProvider (cfg : ProviderConfig) (spec : OllamaProviderSpec) :
    ProviderConfig * list string :=
  let url := trim_space (ol_URL spec) in
  (with_ollama cfg (mkOllama url), ["ollama.url=" +:+ url]).

(* go: internal/controller/capacityplan_controller.go:863-883 buildLLMProviderConfig *)
Definition base_config (spec : LLMProviderSpec) : ProviderConfig :=
  let provider := trim_space (lp_Provider spec) in
  mkConfig (if provider =? "" then "disabled" else provider) (trim_space (lp_Model spec))
    (if (lp_Timeout spec <=? 0)%Z then 15 * second else lp_Timeout spec)%Z
    (if (lp_MaxTokens spec <=? 0)%Z then 256%Z else lp_MaxTokens spec)
    (lp_Temperature spec) (mkOpenAI "" "") (mkAnthropic "" "") (mkFastAPI "" "" false "" 0 0) (mkOllama "").

(* go: internal/controller/capacityplan_controller.go:885-893 buildLLMProviderConfig *)
Definition base_key_parts (cfg : ProviderConfig) : list string :=
  ["provider=" +:+ cf_Provider cfg; "model=" +:+ cf_Model cfg;
   "timeout=" +:+ duration_string (cf_Timeout cfg); "maxTokens=" +:+ itoa (cf_MaxTokens cfg)] ++
  match cf_Temperature cfg with Some t => ["temp=" +:+ sprintf_f 6 t] | None => [] end.

(* go: internal/controller/capacityplan_controller.go buildLLMProviderConfig *)
Definition buildLLMProviderConfig (spec : LLMProviderSpec) : res (ProviderConfig * string) :=
  let cfg := base_config spec in
  let parts := base_key_parts cfg in
  let p := cf_Provider cfg in
  if p =? "disabled" then Ok (cfg, "")
  else
    let? (cfg, extra) :=
      if p =? "openai" then configureOpenAIProvider cfg (lp_OpenAI spec)
      else if p =? "anthropic" then configureAnthropicProvider cfg (lp_Anthropic spec)
      else if p =? "fastapi" then configureFastAPIProvider cfg (lp_FastAPI spec)
      else if p =? "ollama" then Ok (configureOllamaProvider cfg (lp_Ollama spec))
      else Err (errorf ("unsupported llm provider " +:+ go_quote p)) in
    Ok (cfg, join "|" (parts ++ extra)%list).

(** ** The client cache *)

(** [llmClientCache]; a nil map is an empty one. *)
(* go: internal/controller/capacityplan_controller.go getCachedLLMClient *)
Definition getCachedLLMClient (cache : gmap string generator) (key : string) : option generator :=
  cache !! key.

(* go: internal/controller/capacityplan_controller.go setCachedLLMClient *)
Definition setCachedLLMClient (cache : gmap string generator) (key : string) (gen : generator) :
    gmap string generator := <[key := gen]> cache.

(** The client, its provider and model labels and its key in the cache, and the cache
    afterwards. *)
(* go: internal/controller/capacityplan_controller.go resolvePlanLLMClient *)
Definition resolvePlanLLMClient (spec : LLMProviderSpec) (cache : gmap string generator) :
    res (generator * string * string * string) * gmap string generator :=
  match buildLLMProviderConfig spec with
  | Err e => (Err e, cache)
  | Ok (cfg, cacheKey) =>
      if cf_Provider cfg =? "disabled" then (Ok (NoGenerator, "disabled", "n/a", ""), cache)
      else
        match (if cacheKey =? "" then None else getCachedLLMClient cache cacheKey) with
        | Some gen => (Ok (gen, cf_Provider cfg, defaultLLMModelLabel (cf_Model cfg), cacheKey), cache)
        | None =>
            match NewInsightGenerator cfg with
            | Err e => (Err e, cache)
            | Ok gen =>
                (Ok (gen, cf_Provider cfg, defaultLLMModelLabel (cf_Model cfg), cacheKey),
                 match gen with
                 | NoGenerator => cache
                 | _ => if cacheKey =? "" then cache else setCachedLLMClient cache cacheKey gen
                 end)
            end
        end
  end.
End config.

(** ** Lemmas *)

Section lemmas.
Context `{MetricsLib} `{Platform}.

(** When a reconcile asks the model about a PVC. *)
Definition wants_insight (since llmInterval : Z) (llmClient : generator)
    (onlyAlerting alert : bool) (prev : PVCSummary) : bool :=
  is_generator llmClient && negb (onlyAlerting && negb alert) &&
  match ps_LastLLMTime prev with
  | None => true
  | Some t => (llmInterval <=? t_sub since t)%Z
  end.

Lemma count_llm_error_requests provider model e m :
  mget (count_llm_error provider model e m) LLMRequestsTotal [provider; model] =
  mget m LLMRequestsTotal [provider; model].
Proof.
  unfold count_llm_error. destruct (isLLMTimeoutError e);
    rewrite ?mget_minc_ne by (by left); done.
Qed.

Lemma count_llm_error_errors provider model e m :
  mget (count_llm_error provider model e m) LLMErrorsTotal [provider; model] =
  Some (fadd (default fzero (mget m LLMErrorsTotal [provider; model])) (f_of_Z 1)).
Proof.
  unfold count_llm_error. destruct (isLLMTimeoutError e);
    rewrite ?mget_minc_ne by (by left); by rewrite mget_minc_eq.
Qed.

(** Series other than the three counters stay as they are. *)
Definition only_llm (m m' : mstore) : Prop :=
  ∀ v l, mv_name v ∉ map mv_name [LLMRequestsTotal; LLMErrorsTotal; LLMTimeoutsTotal] → mget m' v l = mget m v l.

#[export] Instance only_llm_preorder : PreOrder only_llm.
Proof. split; [by intros m v l|]. intros m1 m2 m3 H12 H23 v l Hv. by rewrite H23, H12. Qed.

Lemma only_llm_latency provider model took m : only_llm m (observe_latency provider model took m).
Proof. intros v l _. apply mget_mobserve. Qed.

(** Counting does not touch what was observed. *)
Lemma observed_minc m v l v' l' : mobserved (minc m v l) v' l' = mobserved m v' l'.
Proof. apply mobserved_mset. Qed.

Lemma observed_error provider model e m v l :
  mobserved (count_llm_error provider model e m) v l = mobserved m v l.
Proof. unfold count_llm_error. destruct (isLLMTimeoutError e); by rewrite !observed_minc. Qed.

Lemma observed_latency provider model took m :
  mobserved (observe_latency provider model took m) LLMLatencySeconds [provider; model] =
    (mobserved m LLMLatencySeconds [provider; model] ++ [duration_seconds took])%list.
Proof. unfold observe_latency. rewrite mobserved_mobserve. by rewrite decide_True. Qed.

Lemma only_llm_inc v labels m :
  mv_name v ∈ map mv_name [LLMRequestsTotal; LLMErrorsTotal; LLMTimeoutsTotal] → only_llm m (minc m v labels).
Proof. intros Hv v' l Hv'. rewrite mget_minc_ne; [done|]. left. by intros E; rewrite <-E in Hv'. Qed.

Lemma only_llm_error provider model e m : only_llm m (count_llm_error provider model e m).
Proof.
  unfold count_llm_error. destruct (isLLMTimeoutError e); [etrans; [apply only_llm_inc|apply only_llm_inc]|apply only_llm_inc];
    cbn [map]; rewrite !elem_of_cons; auto.
Qed.

Lemma only_llm_refresh took s kept prompt logKey m : only_llm m (refresh_text took s kept prompt logKey m).2.
Proof.
  unfold refresh_text, generatePromptInsight.
  assert (only_llm m (observe_latency (lc_provider s) (lc_model s) took (minc m LLMRequestsTotal [lc_provider s; lc_model s])))
    as Hr by (etrans; [apply only_llm_inc; by left|apply only_llm_latency]).
  destruct (negb _ || negb _); [done|]. destruct (GenerateFromPrompt _ _) as [out|e].
  - by destruct (trim_space out =? "").
  - etrans; [exact Hr|apply only_llm_error].
Qed.

Lemma only_llm_risk_change took planName s summary changes top m :
  only_llm m (refreshPlanRiskChangeInsight took planName s summary changes top m).2.
Proof. unfold refreshPlanRiskChangeInsight. destruct (negb _); [done|apply only_llm_refresh]. Qed.

Lemma only_llm_budget took planName s ns wl top m :
  only_llm m (refreshPlanBudgetRecommendations took planName s ns wl top m).2.
Proof.
  unfold refreshPlanBudgetRecommendations. destruct (negb _); [done|].
  destruct ns, wl; done || apply only_llm_refresh.
Qed.

Lemma only_llm_summary `{LlmEnv} `{FastAPIEnv} since done_ took cap pvc samples usageT daysT interval client provider model prev only m :
  only_llm m (buildSummary since done_ took cap pvc samples usageT daysT interval client provider model prev only m).2.
Proof.
  unfold buildSummary. destruct (negb _); [done|]. destruct (only && _); [done|].
  destruct (match ps_LastLLMTime prev with Some _ => _ | None => _ end); [|done].
  assert (only_llm m (observe_latency provider model took (minc m LLMRequestsTotal [provider; model])))
    as Hr by (etrans; [apply only_llm_inc; by left|apply only_llm_latency]).
  destruct (ask_insight _ _) as [[[text|e] sent] client']; [done|]. etrans; [exact Hr|apply only_llm_error].
Qed.

(** A text that is kept or replaced. *)
Lemma refresh_text_spec took s kept prompt logKey m :
  let '((text, t), m') := refresh_text took s kept prompt logKey m in
  if shouldRefresh s && supportsPromptExecution (lc_client s) then
    mget m' LLMRequestsTotal [lc_provider s; lc_model s] =
      Some (fadd (default fzero (mget m LLMRequestsTotal [lc_provider s; lc_model s])) (f_of_Z 1)) ∧
    mobserved m' LLMLatencySeconds [lc_provider s; lc_model s] =
      (mobserved m LLMLatencySeconds [lc_provider s; lc_model s] ++ [duration_seconds took])%list ∧
    match GenerateFromPrompt (prompt_client (lc_client s)) prompt with
    | Ok out => if trim_space out =? "" then text = kept ∧ t = lc_prevTime s
                else text = trim_space out ∧ t = Some (lc_now s)
    | Err _ => text = kept ∧ t = lc_prevTime s
    end
  else text = kept ∧ t = lc_prevTime s ∧ m' = m.
Proof.
  unfold refresh_text. destruct (shouldRefresh s); simpl; [|done].
  destruct (supportsPromptExecution (lc_client s)); simpl; [|done].
  unfold generatePromptInsight. destruct (GenerateFromPrompt _ _) as [out|e]; simpl.
  - destruct (trim_space out =? ""); simpl; rewrite observed_latency, observed_minc; (split; [|done]);
      unfold observe_latency; by rewrite mget_mobserve, mget_minc_eq.
  - rewrite count_llm_error_requests, observed_error, observed_latency, observed_minc. split; [|done].
    unfold observe_latency. by rewrite mget_mobserve, mget_minc_eq.
Qed.
End lemmas.

Lemma string_app_cancel_l (a b c : string) : a +:+ b = a +:+ c → b = c.
Proof. induction a; [done|]. rewrite !string_app_cons. by intros [= ?%IHa]. Qed.

Lemma join_snoc sep l x : l ≠ [] → join sep (l ++ [x])%list = join sep l +:+ (sep +:+ x).
Proof.
  induction l as [|y [|z l] IH]; intros Hl; [done|done|].
  change (join sep ((y :: z :: l) ++ [x])%list) with (y +:+ sep +:+ join sep ((z :: l) ++ [x])%list).
  rewrite IH by done. change (join sep (y :: z :: l)) with (y +:+ sep +:+ join sep (z :: l)).
  by rewrite !string_app_assoc.
Qed.

Lemma join_last_inj sep l x y : l ≠ [] → join sep (l ++ [x])%list = join sep (l ++ [y])%list → x = y.
Proof.
  intros Hl. rewrite !join_snoc by done. intros E. by apply string_app_cancel_l, string_app_cancel_l in E.
Qed.

Section keys.
Context `{Api} `{LlmEnv} (opns podns : string) (spec : LLMProviderSpec).

Lemma openai_key :
  cf_Provider (base_config spec) = "openai" →
  buildLLMProviderConfig opns podns spec =
  res_bind (readSecretValue opns podns (oa_SecretRefName (lp_OpenAI spec))
              (defaultSecretKey (oa_SecretKey (lp_OpenAI spec)) "apiKey"))
    (λ '(k, rv), Ok (with_openai (base_config spec) (mkOpenAI k (trim_space (oa_BaseURL (lp_OpenAI spec)))),
       join "|" ((base_key_parts (base_config spec) ++
         ["openai.baseURL=" +:+ trim_space (oa_BaseURL (lp_OpenAI spec));
          "openai.secret=" +:+ trim_space (oa_SecretRefName (lp_OpenAI spec));
          "openai.secretKey=" +:+ defaultSecretKey (oa_SecretKey (lp_OpenAI spec)) "apiKey"])
         ++ ["openai.secretRV=" +:+ rv])%list)).
Proof.
  intros Hp. unfold buildLLMProviderConfig. rewrite Hp.
  change ("openai" =? "disabled") with false. change ("openai" =? "openai") with true. cbv iota.
  unfold configureOpenAIProvider. destruct (readSecretValue _ _ _ _) as [[k rv]|]; [|done].
  cbn [res_bind]. by rewrite <-app_assoc.
Qed.

Lemma anthropic_key :
  cf_Provider (base_config spec) = "anthropic" →
  buildLLMProviderConfig opns podns spec =
  res_bind (readSecretValue opns podns (an_SecretRefName (lp_Anthropic spec))
              (defaultSecretKey (an_SecretKey (lp_Anthropic spec)) "apiKey"))
    (λ '(k, rv), Ok (with_anthropic (base_config spec) (mkAnthropic k (trim_space (an_BaseURL (lp_Anthropic spec)))),
       join "|" ((base_key_parts (base_config spec) ++
         ["anthropic.baseURL=" +:+ trim_space (an_BaseURL (lp_Anthropic spec));
          "anthropic.secret=" +:+ trim_space (an_SecretRefName (lp_Anthropic spec));
          "anthropic.secretKey=" +:+ defaultSecretKey (an_SecretKey (lp_Anthropic spec)) "apiKey"])
         ++ ["anthropic.secretRV=" +:+ rv])%list)).
Proof.
  intros Hp. unfold buildLLMProviderConfig. rewrite Hp.
  change ("anthropic" =? "disabled") with false. change ("anthropic" =? "openai") with false.
  change ("anthropic" =? "anthropic") with true. cbv iota.
  unfold configureAnthropicProvider. destruct (readSecretValue _ _ _ _) as [[k rv]|]; [|done].
  cbn [res_bind]. by rewrite <-app_assoc.
Qed.
End keys.

(** ** Properties *)

(** C33. What a reconcile does about a PVC's insight.  The model is asked exactly when
    a client is configured, the PVC alerts or non-alerting PVCs are not excluded,
    and the last insight is missing or at least the interval old; then one request is
    counted, its latency is observed and the client is left as the call leaves it.  An answer replaces
    insight and time; an error is counted and keeps both; without a request nothing
    changes.  The figures of the summary
    never depend on the model. *)
Theorem insight_refresh_rules `{MetricsLib} `{Platform} `{LlmEnv} `{FastAPIEnv} since done_ took cap pvc samples usageT daysT interval
    client provider model prev onlyAlerting m :
  let f := summary_figures cap pvc samples usageT daysT prev in
  let '(s, sent, client', m') := buildSummary since done_ took cap pvc samples usageT daysT interval client provider model
                             prev onlyAlerting m in
  s = summary_of pvc samples f (ps_LLMInsight s) (ps_LastLLMTime s) ∧
  if wants_insight since interval client onlyAlerting (fi_alert f) prev then
    mget m' LLMRequestsTotal [provider; model] =
      Some (fadd (default fzero (mget m LLMRequestsTotal [provider; model])) (f_of_Z 1)) ∧
    mobserved m' LLMLatencySeconds [provider; model] =
      (mobserved m LLMLatencySeconds [provider; model] ++ [duration_seconds took])%list ∧
    is_generator client = true ∧
    let '(answer, sent1, client1) := ask_insight client (insight_context pvc samples f) in
    sent = sent1 ∧ client' = client1 ∧
    match answer with
    | Ok text => ps_LLMInsight s = text ∧ ps_LastLLMTime s = Some done_ ∧
        mget m' LLMErrorsTotal [provider; model] = mget m LLMErrorsTotal [provider; model]
    | Err _ => ps_LLMInsight s = ps_LLMInsight prev ∧ ps_LastLLMTime s = ps_LastLLMTime prev ∧
        mget m' LLMErrorsTotal [provider; model] =
          Some (fadd (default fzero (mget m LLMErrorsTotal [provider; model])) (f_of_Z 1))
    end
  else ps_LLMInsight s = ps_LLMInsight prev ∧ ps_LastLLMTime s = ps_LastLLMTime prev ∧ sent = [] ∧
       client' = client ∧ m' = m.
Proof.
  intros f. unfold buildSummary. fold f. unfold wants_insight. destruct (is_generator client); cbn [negb andb]; [|done].
  destruct (onlyAlerting && negb (fi_alert f)); cbn [negb andb]; [done|].
  destruct (match ps_LastLLMTime prev with Some _ => _ | None => _ end); [|done].
  assert (∀ v l, mget (observe_latency provider model took (minc m LLMRequestsTotal [provider; model])) v l =
    mget (minc m LLMRequestsTotal [provider; model]) v l) as Hl by (intros; apply mget_mobserve).
  destruct (ask_insight client _) as [[[text|e] sent1] client1]; (split; [done|]).
  - rewrite !Hl, observed_latency, observed_minc. split; [by rewrite mget_minc_eq|]. split_and!; [done..|].
    by rewrite mget_minc_ne by (by left).
  - rewrite observed_error, observed_latency, observed_minc.
    split; [rewrite count_llm_error_requests, Hl; by rewrite mget_minc_eq|]. split_and!; [done..|].
    rewrite count_llm_error_errors, Hl. by rewrite mget_minc_ne by (by left).
Qed.

(** The plan-level risk text survives failures and is asked for at most once a
    reconcile: without a client it is kept as it is; with one, the model is asked
    exactly when the risk set changed, no text was made before, or the interval is
    over, and the backend takes prompts; only an answer that is not blank replaces
    text and time, and the text shown is otherwise the previous one, or the change
    summary when there was none. *)
Theorem risk_text_refresh_rules `{MetricsLib} `{Platform} took planName s summary changes top m :
  let '((text, t), m') := refreshPlanRiskChangeInsight took planName s summary changes top m in
  let kept := trim_space (lc_prevText s) in
  let shown := if has_client s && (kept =? "") then trim_space summary else kept in
  ((text = shown ∧ t = lc_prevTime s) ∨ (text ≠ "" ∧ t = Some (lc_now s))) ∧
  (mget m' LLMRequestsTotal [lc_provider s; lc_model s] =
     if shouldRefresh s && supportsPromptExecution (lc_client s)
     then Some (fadd (default fzero (mget m LLMRequestsTotal [lc_provider s; lc_model s])) (f_of_Z 1))
     else mget m LLMRequestsTotal [lc_provider s; lc_model s]) ∧
  (shouldRefresh s = true ↔
     has_client s = true ∧
     (trim_space (lc_prevHash s) ≠ trim_space (lc_currHash s) ∨ lc_prevTime s = None ∨
      (lc_interval s ≤ 0)%Z ∨ ∃ p, lc_prevTime s = Some p ∧ (lc_interval s ≤ t_sub (lc_now s) p)%Z)).
Proof.
  destruct (refreshPlanRiskChangeInsight took planName s summary changes top m) as [[text t] m'] eqn:E.
  intros kept shown. refine ((λ p q, conj (proj1 p) (conj (proj2 p) q)) _ _).
  - unfold refreshPlanRiskChangeInsight in E. unfold shown. fold kept in E.
    destruct (has_client s) eqn:Hc; simpl in E |- *.
    + pose proof (refresh_text_spec took s (if kept =? "" then trim_space summary else kept)
        (BuildRiskChangePromptParts (mkRiskChangeContext planName (trim_space summary)
           (toPlanRiskChanges changes 8) (toPlanTopRisks top 5))) "plan-risk-change" m) as Hr.
      rewrite E in Hr. destruct (shouldRefresh s && supportsPromptExecution (lc_client s)).
      * destruct Hr as (Hm & _ & Hr). split; [|done].
        destruct (GenerateFromPrompt _ _) as [out|]; [|by left].
        destruct (String.eqb_spec (trim_space out) ""); [by left|]. destruct Hr as [-> ->]. by right.
      * destruct Hr as (-> & -> & ->). split; [by left|done].
    + injection E as <- <- <-. split; [by left|].
      unfold shouldRefresh. by rewrite Hc.
  - unfold shouldRefresh. destruct (has_client s); simpl; [|naive_solver].
    destruct (String.eqb_spec (trim_space (lc_prevHash s)) (trim_space (lc_currHash s))); simpl;
      [|naive_solver].
    destruct (lc_prevTime s) as [p|]; [|naive_solver].
    destruct (Z.leb_spec (lc_interval s) 0); [naive_solver|]. rewrite Z.leb_le.
    split; [intros; split; [done|]; right; right; right; eauto|].
    intros [_ [?|[?|[?|(? & [= ->] & ?)]]]]; done || lia.
Qed.

(** C34. A rotated credential is never served by the old client: when the resource
    version of the secret read for an OpenAI or Anthropic plan changes, so does
    the key of the client cache, and a key that is not in the cache makes the
    reconciler build a new client from the configuration just read. *)
Theorem rotated_secret_gets_a_new_client `{LlmEnv} `{Platform} (A1 A2 : Api) opns podns spec
    cfg1 key1 cfg2 key2 name skey v1 rv1 v2 rv2 cache :
  (cf_Provider (base_config spec) = "openai" ∧ name = oa_SecretRefName (lp_OpenAI spec) ∧
     skey = defaultSecretKey (oa_SecretKey (lp_OpenAI spec)) "apiKey" ∨
   cf_Provider (base_config spec) = "anthropic" ∧ name = an_SecretRefName (lp_Anthropic spec) ∧
     skey = defaultSecretKey (an_SecretKey (lp_Anthropic spec)) "apiKey") →
  readSecretValue (H := A1) opns podns name skey = Ok (v1, rv1) →
  readSecretValue (H := A2) opns podns name skey = Ok (v2, rv2) →
  buildLLMProviderConfig (H := A1) opns podns spec = Ok (cfg1, key1) →
  buildLLMProviderConfig (H := A2) opns podns spec = Ok (cfg2, key2) →
  rv1 ≠ rv2 →
  key1 ≠ key2 ∧
  (cache !! key2 = None → ∀ gen, NewInsightGenerator cfg2 = Ok gen →
     ∃ model, (resolvePlanLLMClient (H := A2) opns podns spec cache).1 = Ok (gen, cf_Provider cfg2, model, key2)).
Proof.
  intros Hp H1 H2 B1 B2 Hrv.
  assert (cf_Provider cfg2 = cf_Provider (base_config spec) ∧ key1 ≠ key2) as [Hprov Hkey].
  { assert (∀ p l x y, (p ++ l ≠ [])%list →
      join "|" ((p ++ l) ++ [x])%list = join "|" ((p ++ l) ++ [y])%list → x = y) as Hj
      by (intros; by eapply join_last_inj).
    destruct Hp as [(Hp & -> & ->)|(Hp & -> & ->)];
      [rewrite openai_key, H1 in B1 by done; rewrite openai_key, H2 in B2 by done
      |rewrite anthropic_key, H1 in B1 by done; rewrite anthropic_key, H2 in B2 by done];
      cbn [res_bind] in B1, B2; generalize dependent (base_key_parts (base_config spec)); intros bp B1 B2;
      injection B1 as <- <-; injection B2 as <- <-; (split; [done|]);
      intros E; (apply Hj in E; [|by destruct bp]); apply string_app_cancel_l in E; done. }
  split; [done|]. intros Hc gen Hgen. unfold resolvePlanLLMClient. rewrite B2, Hprov.
  assert ((cf_Provider (base_config spec) =? "disabled") = false) as ->
    by (destruct Hp as [[-> _]|[-> _]]; done).
  destruct (key2 =? ""); [|unfold getCachedLLMClient; rewrite Hc]; rewrite Hgen; simpl; eauto.
Qed.

(** An API server that holds one secret, at the given resource version. *)
Definition secret_api (rv : string) : Api := {|
  get_pvc _ name := Err (not_found name); list_pvcs _ := Ok []; list_pods _ := Ok [];
  get_replicaset _ name := Err (not_found name); get_job _ name := Err (not_found name);
  get_secret _ _ := Ok (mkSecret rv {[ "apiKey" := "k" ]}); list_plans := Ok [];
  get_plan name := Err (not_found name); get_notification _ name := Err (not_found name) |}.

Definition demo_openai_spec : LLMProviderSpec :=
  mkLLMProviderSpec "openai" "" 0 0 None false (mkOpenAIProviderSpec "llm" "" "")
    (mkAnthropicProviderSpec "" "" "") (mkFastAPIProviderSpec "" "" "" false "" 0 0) (mkOllamaProviderSpec "").

Lemma rotated_secret_gets_a_new_client_witness :
  match buildLLMProviderConfig (H := secret_api "1") (H0 := demo_llm) "" "" demo_openai_spec,
        buildLLMProviderConfig (H := secret_api "2") (H0 := demo_llm) "" "" demo_openai_spec with
  | Ok (_, k1), Ok (_, k2) => k1 ≠ k2
  | _, _ => False
  end.
Proof.
  destruct (buildLLMProviderConfig (H := secret_api "1") _ _ _) as [[c1 k1]|] eqn:E1; [|by vm_compute in E1].
  destruct (buildLLMProviderConfig (H := secret_api "2") _ _ _) as [[c2 k2]|] eqn:E2; [|by vm_compute in E2].
  eapply (rotated_secret_gets_a_new_client (H := demo_llm) (H0 := amd64) (secret_api "1") (secret_api "2") "" ""
    demo_openai_spec c1 k1 c2 k2 "llm" "apiKey" "k" "1" "k" "2" ∅);
    [left; by vm_compute|by vm_compute|by vm_compute|done|done|done].
Defined.
