(* ===== verification/Children.v ===== *)
(** * Child resources

    The PrometheusRule and the Grafana dashboard that
    internal/controller/capacityplan_controller.go creates or updates for the
    active plan.  The rule is an unstructured object; its nested maps are the
    records [PrometheusRule] and [AlertRule]. *)

From stdpp Require Import base list strings gmap.
From Stdlib Require Import ZArith Lia Ascii.
From S2P Require Import Prelude GoFloat GoText ApiTypes Metrics K8s Risk.

Local Open Scope string_scope.

(** One alerting rule: alert, expression, duration, the severity label and the two
    annotations. *)
Record AlertRule := mkAlertRule {
  ar_alert : string;
  ar_expr : string;
  ar_for : string;
  ar_severity : string;
  ar_summary : string;
  ar_description : string;
}.

Record PrometheusRule := mkPrometheusRule {
  pm_Name : string;
  pm_Namespace : string;
  pm_Labels : gmap string string;
  pm_Group : string;
  pm_Rules : list AlertRule;
}.

(* go: internal/controller/capacityplan_controller.go buildAlertRuleWithSummary *)
Definition buildAlertRuleWithSummary (alert expr forDur severity summary riskDigest : string) : AlertRule :=
  mkAlertRule alert expr forDur severity summary ("Capacity plan risk context: " +:+ riskDigest).

(* go: internal/controller/capacityplan_controller.go buildAlertRule *)
Definition buildAlertRule (alert expr forDur severity riskDigest : string) : AlertRule :=
  buildAlertRuleWithSummary alert expr forDur severity
    (alert +:+ " on {{ $labels.namespace }}/{{ $labels.pvc }}") riskDigest.

(** A double quote, which the expressions use around label values. *)
Definition dq : string := String (chr 34) "".

(* go: internal/controller/capacityplan_controller.go buildPrometheusRuleUnstructured *)
Definition buildPrometheusRuleUnstructured (plan : CapacityPlan) (usageThreshold daysThreshold : float)
    (riskDigest : string) : PrometheusRule :=
  let usageExpr := sprintf_f 2 usageThreshold in
  let criticalExpr := "0.95" in
  let daysExpr := sprintf_f 0 daysThreshold in
  let criticalDaysExpr := "3" in
  let riskDigest := trimForAnnotation riskDigest maxRiskDigestAnnotation in
  mkPrometheusRule ("capacityplan-" +:+ cp_Name plan) "default"
    {[ "app.kubernetes.io/managed-by" := "capacity-plan-operator";
       "app.kubernetes.io/instance" := "kube-prometheus-stack";
       "release" := "kube-prometheus-stack" ]}
    "capacityplan.pvc"
    [ buildAlertRule "PVCUsageHigh" ("capacityplan_pvc_usage_ratio > " +:+ usageExpr) "5m" "warning" riskDigest;
      buildAlertRule "PVCUsageCritical" ("capacityplan_pvc_usage_ratio > " +:+ criticalExpr) "2m" "critical" riskDigest;
      buildAlertRule "PVCFillingUpSoon"
        ("capacityplan_pvc_days_until_full < " +:+ daysExpr +:+ " and capacityplan_pvc_days_until_full >= 0")
        "10m" "warning" riskDigest;
      buildAlertRule "PVCFillingUpCritical"
        ("capacityplan_pvc_days_until_full < " +:+ criticalDaysExpr +:+ " and capacityplan_pvc_days_until_full >= 0")
        "5m" "critical" riskDigest;
      buildAlertRule "PVCGrowthAccelerationSpike"
        ("capacityplan_pvc_anomaly{type=" +:+ dq +:+ "acceleration_spike" +:+ dq +:+ "} > 0") "10m" "warning" riskDigest;
      buildAlertRule "PVCTrendInstability"
        ("capacityplan_pvc_anomaly{type=" +:+ dq +:+ "trend_instability" +:+ dq +:+ "} > 0") "15m" "warning" riskDigest;
      buildAlertRuleWithSummary "NamespaceBudgetBreachSoon"
        "capacityplan_namespace_budget_days_to_breach >= 0 and capacityplan_namespace_budget_days_to_breach < 7"
        "10m" "warning" "Namespace budget breach soon on {{ $labels.namespace }}" riskDigest;
      buildAlertRuleWithSummary "WorkloadBudgetBreachSoon"
        "capacityplan_workload_budget_days_to_breach >= 0 and capacityplan_workload_budget_days_to_breach < 7"
        "10m" "warning"
        "Workload budget breach soon on {{ $labels.namespace }}/{{ $labels.kind }}/{{ $labels.workload }}"
        riskDigest ].

(** The dashboard JSON is a constant text; its panels' expressions are what the
    repository relies on. *)
Definition quoted (s : string) : string := dq +:+ s +:+ dq.
Definition panel (typ title expr : string) : string :=
  "    {" +:+ quoted "type" +:+ ":" +:+ quoted typ +:+ "," +:+ quoted "title" +:+ ":" +:+ quoted title
    +:+ "," +:+ quoted "targets" +:+ ":[{" +:+ quoted "expr" +:+ ":" +:+ quoted expr +:+ "}]}".

Definition dashboard : string :=
  "{" +:+ nl +:+
  "  " +:+ quoted "title" +:+ ": " +:+ quoted "PVC Capacity Planning" +:+ "," +:+ nl +:+
  "  " +:+ quoted "uid" +:+ ": " +:+ quoted "capacityplan-pvc" +:+ "," +:+ nl +:+
  "  " +:+ quoted "panels" +:+ ": [" +:+ nl +:+
  join ("," +:+ nl)
    [panel "timeseries" "PVC Usage Ratio" "capacityplan_pvc_usage_ratio";
     panel "timeseries" "PVC Growth (bytes/day)" "capacityplan_pvc_growth_bytes_per_day";
     panel "gauge" "Days Until Full" "capacityplan_pvc_days_until_full >= 0";
     panel "stat" "PVCs Filling Up Soon"
       "count(capacityplan_pvc_days_until_full < 7 and capacityplan_pvc_days_until_full >= 0)";
     panel "table" "PVCs by Usage" "sort_desc(capacityplan_pvc_usage_ratio)"] +:+ nl +:+
  "  ]" +:+ nl +:+ "}".

(* go: internal/controller/capacityplan_controller.go buildGrafanaDashboardConfigMap *)
Definition buildGrafanaDashboardConfigMap (ns : string) (plan : CapacityPlan) : ConfigMap :=
  mkConfigMap ns ("capacityplan-dashboard-" +:+ cp_Name plan)
    {[ "grafana.com/dashboard" := "1"; "app.kubernetes.io/managed-by" := "capacity-plan-operator" ]}
    {[ "dashboard.json" := trim_space dashboard ]}.

(** ** Create or update *)

(** A write to the API server. *)
Inductive write :=
| CreateRule (r : PrometheusRule)
| UpdateRule (resourceVersion : string) (r : PrometheusRule)
| CreateConfigMap (c : ConfigMap)
| UpdateConfigMap (c : ConfigMap)
| UpdatePlanStatus (p : CapacityPlan).

(** What the server answers: the existing children, and whether a write succeeds. *)
Class ChildApi := {
  get_rule : string → string → res string;
  get_configmap : string → string → res ConfigMap;
  write_error : write → option error;
}.

Section children.
Context `{ChildApi}.

(** An attempted write: it is recorded, and its error returned. *)
Definition do_write (w : write) : option error * list write := (write_error w, [w]).

(* go: internal/controller/capacityplan_controller.go reconcilePrometheusRule *)
Definition reconcilePrometheusRule (plan : CapacityPlan) (usageThreshold daysThreshold : float)
    (riskDigest : string) : option error * list write :=
  let obj := buildPrometheusRuleUnstructured plan usageThreshold daysThreshold riskDigest in
  match get_rule (pm_Namespace obj) (pm_Name obj) with
  | Err e => if negb (err_notfound e) then (Some e, []) else do_write (CreateRule obj)
  | Ok resourceVersion => do_write (UpdateRule resourceVersion obj)
  end.

(* go: internal/controller/capacityplan_controller.go reconcileGrafanaDashboard *)
Definition reconcileGrafanaDashboard (OperatorNamespace POD_NAMESPACE : string) (plan : CapacityPlan) :
    option error * list write :=
  let ns := sp_GrafanaDashboardNamespace (cp_Spec plan) in
  let ns :=
    if ns =? "" then
      let ns := OperatorNamespace in
      let ns := if ns =? "" then POD_NAMESPACE else ns in
      if ns =? "" then "default" else ns
    else ns in
  let cm := buildGrafanaDashboardConfigMap ns plan in
  match get_configmap ns (cm_Name cm) with
  | Err e => if negb (err_notfound e) then (Some e, []) else do_write (CreateConfigMap cm)
  | Ok existing =>
      do_write (UpdateConfigMap
        (mkConfigMap (cm_Namespace existing) (cm_Name existing) (cm_Labels cm) (cm_Data cm)))
  end.
End children.

(** ** Properties *)

(** The generated usage alert rounds the configured threshold to two decimals: the
    threshold 0.999, which the API accepts, gives the rule "> 1.00", which a usage
    ratio between 0.999 and 1 never satisfies, although the controller itself
    compares with the exact threshold. *)
Theorem usage_alert_threshold_is_rounded (plan : CapacityPlan) (days : float) (digest : string) :
  let rule := buildPrometheusRuleUnstructured plan (f_of_ratio 999 1000) days digest in
  map ar_expr (take 1 (pm_Rules rule)) = ["capacityplan_pvc_usage_ratio > 1.00"] ∧
  fgeb (f_of_ratio 9995 10000) (f_of_ratio 999 1000) = true ∧
  fgtb (f_of_ratio 9995 10000) (f_of_Z 1) = false.
Proof. split_and!; vm_compute; reflexivity. Qed.

(** The series an expression begins with. *)
Definition queries (e : string) (v : metric_vec) : bool :=
  has_prefix e (mv_name v +:+ " ") || has_prefix e (mv_name v +:+ "{").

(** The alerts only look at series the operator registers. *)
Theorem alerts_query_exported_series (plan : CapacityPlan) (usage days : float) (digest : string) :
  Forall (λ r, ∃ v, v ∈ registered ∧ queries (ar_expr r) v = true)
    (pm_Rules (buildPrometheusRuleUnstructured plan usage days digest)).
Proof.
  cbn [pm_Rules buildPrometheusRuleUnstructured]. repeat constructor.
  - exists PVCUsageRatio. split; [do 2 right; left|reflexivity].
  - exists PVCUsageRatio. split; [do 2 right; left|reflexivity].
  - exists PVCDaysUntilFull. split; [do 4 right; left|reflexivity].
  - exists PVCDaysUntilFull. split; [do 4 right; left|reflexivity].
  - exists PVCAnomalyVec. split; [do 10 right; left|reflexivity].
  - exists PVCAnomalyVec. split; [do 10 right; left|reflexivity].
  - exists NamespaceBudgetDaysToBreach. split; [do 8 right; left|reflexivity].
  - exists WorkloadBudgetDaysToBreach. split; [do 9 right; left|reflexivity].
Qed.

(** The generated rule is complete and bounded: it has the eight alerts of the
    operator, each with a severity, and the context put into their descriptions
    never exceeds 700 bytes. *)
Theorem prometheus_rule_is_bounded (plan : CapacityPlan) (usage days : float) (digest : string) :
  let rule := buildPrometheusRuleUnstructured plan usage days digest in
  map ar_alert (pm_Rules rule) =
    ["PVCUsageHigh"; "PVCUsageCritical"; "PVCFillingUpSoon"; "PVCFillingUpCritical";
     "PVCGrowthAccelerationSpike"; "PVCTrendInstability"; "NamespaceBudgetBreachSoon";
     "WorkloadBudgetBreachSoon"] ∧
  (∀ r, r ∈ pm_Rules rule →
     (ar_severity r = "warning" ∨ ar_severity r = "critical") ∧
     ∃ ctx, ar_description r = "Capacity plan risk context: " +:+ ctx ∧ String.length ctx ≤ 700)%nat.
Proof.
  intros rule. split; [done|]. intros r Hr.
  assert (String.length (trimForAnnotation digest maxRiskDigestAnnotation) ≤ 700)%nat as Hlen.
  { unfold trimForAnnotation, maxRiskDigestAnnotation. destruct (_ =? "");
      [apply Nat.leb_le; vm_compute; reflexivity|]. cbn [orb Z.leb Z.compare].
    destruct (Z.leb_spec (Z.of_nat (String.length (trim_space digest))) 700); [lia|].
    change (700 <=? 3)%Z with false. cbv iota. rewrite string_length_app, length_str_take.
    change (String.length "...") with 3. lia. }
  cbn [pm_Rules rule buildPrometheusRuleUnstructured] in Hr.
  repeat (apply elem_of_cons in Hr as [->|Hr];
    [split; [simpl; tauto|]; eexists; split; [reflexivity|exact Hlen]|]). inversion Hr.
Qed.
