(* ===== verification/PlanReconcile.v ===== *)
(** * The plan reconciler

    [CapacityPlanReconciler] of internal/controller/capacityplan_controller.go: one
    reconcile of a plan, from the API reads to the status update, composed of the
    components of the other files. *)

From stdpp Require Import base list strings gmap.
From Stdlib Require Import ZArith Lia.
From S2P Require Import Prelude GoSort GoFloat GoText GoStrconv RingBuffer Growth ApiTypes Metrics PromClient K8s Watcher.
From S2P Require Import Risk Summary Workload Budget Anomaly Llm Providers PlanLLM Children.

Local Open Scope string_scope.
Local Open Scope go_scope.

(* go: internal/controller/capacityplan_controller.go defaultReconcileInterval *)
Definition defaultReconcileInterval : Z := hour.

(** The default metrics client: none, a Prometheus client, or another one. *)
Inductive default_client := NoClient | PrometheusDefault (c : PVCMetricsClient) | OtherClient (c : PVCMetricsClient).

Definition client_of (d : default_client) : option PVCMetricsClient :=
  match d with NoClient => None | PrometheusDefault c | OtherClient c => Some c end.

(** The settings of the reconciler, fixed at start-up. *)
(* go: internal/controller/capacityplan_controller.go CapacityPlanReconciler *)
Record settings := mkSettings {
  LLMClient : option InsightGenerator;
  DefaultMetricsClient : default_client;
  DefaultRetention : Z;
  OperatorNamespace : string;
  POD_NAMESPACE : string;
  StartupBackfillConfigured : bool;
  StartupBackfillSuccessfulPVCs : Z;
  StartupBackfillError : string;
  hasPrometheusOperator : bool;
}.

(** The clock as the code reads it during a reconcile. *)
Record clock := mkClock {
  ck_now : Z;
  ck_since : string → Z;
  ck_done : string → Z;
  ck_took : string → Z;
  ck_end : Z;
}.

Section plan.
Context `{MetricsLib} `{MapRange} `{SliceSorter} `{Platform} `{Api} `{ChildApi} `{LlmEnv}.
Context `{QuantityLib} `{ConditionLib} `{FastAPIEnv} `{PromEnv} `{!PromClients}.

(** What the reconciler changes: the watcher with the exported series, and the client
    cache; [wd_sent] logs the exchanges with FastAPI backends, each with the key of the
    client that had it. *)
Record world := mkWorld { wd_watcher : watcher; wd_cache : gmap string generator; wd_sent : list (string * exchange) }.

(** ** Parts *)

(* go: internal/controller/capacityplan_controller.go configureWatcherForPlan *)
Definition configureWatcherForPlan (cfg : settings) (spec : CapacityPlanSpec) (w : watcher) : watcher :=
  let retention :=
    if (sp_SampleRetention spec <=? 0)%Z then
      if (0 <? DefaultRetention cfg)%Z then DefaultRetention cfg else 720%Z
    else sp_SampleRetention spec in
  let mc :=
    if negb (sp_PrometheusURL spec =? "") then Some (NewPrometheusClient (sp_PrometheusURL spec))
    else client_of (DefaultMetricsClient cfg) in
  let sampleInterval :=
    if (sp_SampleInterval spec <=? 0)%Z then defaultPVCWatcherSampleInterval else sp_SampleInterval spec in
  Configure mc retention sampleInterval w.

(* go: internal/controller/capacityplan_controller.go listScopedPVCs *)
Definition listScopedPVCs (namespaces : list string) : res (list PersistentVolumeClaim) :=
  match namespaces with
  | [] => list_pvcs None
  | _ =>
      fold_left (λ acc ns, let? all := acc in let? items := list_pvcs (Some ns) in Ok (all ++ items)%list)
        namespaces (Ok [])
  end.

(* go: internal/controller/capacityplan_controller.go setCondition *)
Definition setCondition (generation : Z) (condType : string) (status : ConditionStatus)
    (reason message : string) (cs : list Condition) : list Condition :=
  SetStatusCondition cs (mkCondition condType status generation reason message).

(* go: internal/controller/capacityplan_controller.go prometheusReadyStatus *)
Definition prometheusReadyStatus (cfg : settings) (spec : CapacityPlanSpec) : ConditionStatus * string * string :=
  if negb (trim_space (sp_PrometheusURL spec) =? "") then
    (ConditionTrue, "Configured", "Prometheus metrics client configured from CapacityPlan spec")
  else
    match DefaultMetricsClient cfg with
    | PrometheusDefault _ =>
        (ConditionTrue, "Configured", "Prometheus metrics client configured from operator startup settings")
    | _ => (ConditionFalse, "Disabled", "Prometheus metrics client is disabled for this plan")
    end.

(* go: internal/controller/capacityplan_controller.go backfillReadyStatus *)
Definition backfillReadyStatus (cfg : settings) : ConditionStatus * string * string :=
  if negb (StartupBackfillConfigured cfg) then
    (ConditionFalse, "NotConfigured", "Startup backfill is disabled because --prometheus-url is not set")
  else if trim_space (StartupBackfillError cfg) =? "" then
    (ConditionTrue, "Succeeded", "Startup backfill completed successfully for "
       +:+ itoa (StartupBackfillSuccessfulPVCs cfg) +:+ " PVCs")
  else
    (ConditionFalse, "PartialFailure", "Startup backfill completed with errors after "
       +:+ itoa (StartupBackfillSuccessfulPVCs cfg) +:+ " successful PVCs: " +:+ StartupBackfillError cfg).

(* go: internal/controller/capacityplan_controller.go:362-367 Reconcile *)
Definition requeue_after (spec : CapacityPlanSpec) : Result :=
  mkResult (if (sp_ReconcileInterval spec <=? 0)%Z then defaultReconcileInterval else sp_ReconcileInterval spec).

(** The status update that ends both kinds of reconcile. *)
Definition update_status (p : CapacityPlan) : res Result * list write :=
  let '(e, ws) := do_write (UpdatePlanStatus p) in
  (match e with Some e => Err e | None => Ok (requeue_after (cp_Spec p)) end, ws).

(** Four conditions set one after the other. *)
Definition set_conditions (generation : Z) (l : list (string * ConditionStatus * string * string))
    (cs : list Condition) : list Condition :=
  fold_left (λ cs '(t, s, r, m), setCondition generation t s r m cs) l cs.

(* go: internal/controller/capacityplan_controller.go markPlanInactive *)
Definition markPlanInactive (now : Z) (plan : CapacityPlan) (activePlanName : string) :
    res Result * list write :=
  let msg := "Plan is inactive; active plan is " +:+ go_quote activePlanName in
  let g := cp_Generation plan in
  let cs := set_conditions g
    [("Ready", ConditionFalse, "NotActivePlan", msg);
     ("PrometheusReady", ConditionUnknown, "NotActivePlan", msg);
     ("LLMReady", ConditionUnknown, "NotActivePlan", msg);
     ("BackfillReady", ConditionUnknown, "NotActivePlan", msg)] (st_Conditions (cp_Status plan)) in
  let st := mkCapacityPlanStatus cs [] empty_summary [] "" [] "" "" None "" [] [] "" None [] "" (Some now) g in
  update_status (with_status plan st).

(** ** Exported series of a plan *)

(* go: internal/controller/capacityplan_controller.go:274-292 Reconcile *)
Definition export_summary (riskByKey : gmap string pvcRiskSignal) (m : mstore) (s : PVCSummary) : mstore :=
  let labels := [ps_Namespace s; ps_Name s] in
  let m := mset m PVCGrowthBytesPerDay labels (ps_GrowthBytesPerDay s) in
  let m := mset m PVCDaysUntilFull labels (default (f_of_Z (-1)) (ps_DaysUntilFull s)) in
  let sig := default zero_signal (riskByKey !! pvc_key (ps_Namespace s) (ps_Name s)) in
  let m := mset m PVCGrowthAcceleration labels (sg_GrowthAcceleration sig) in
  let projectedVal :=
    match sg_ProjectedFullAt sig with Some t => f_of_Z (t_unix t) | None => f_of_Z (-1) end in
  let m := mset m PVCProjectedFullTimestampSeconds labels projectedVal in
  fold_left (λ m typ, mset m PVCAnomalyVec [ps_Namespace s; ps_Name s; typ] fzero)
    supportedAnomalyTypes m.

(* go: internal/controller/capacityplan_controller.go:296-299 Reconcile *)
Definition export_anomaly (m : mstore) (a : PVCAnomaly) : mstore :=
  minc (mset m PVCAnomalyVec [pa_Namespace a; pa_Name a; pa_Type a] (f_of_Z 1)) PVCAnomaliesTotal [pa_Type a].

(* go: internal/controller/capacityplan_controller.go:302-305 Reconcile *)
Definition breach_value (f : StorageBudgetForecast) : float := default (f_of_Z (-1)) (sf_DaysUntilBreach f).

(* go: internal/controller/capacityplan_controller.go:273-316 Reconcile *)
Definition export_plan (summaries : list PVCSummary) (riskByKey : gmap string pvcRiskSignal)
    (riskChanges : list PVCRiskChange) (anomalies : list PVCAnomaly)
    (namespaceForecasts workloadForecasts : list StorageBudgetForecast) (m : mstore) : mstore :=
  let m := fold_left (export_summary riskByKey) summaries m in
  let m := fold_left (λ m c, minc m PVCRiskChangesTotal [rc_Type c]) riskChanges m in
  let m := fold_left export_anomaly anomalies m in
  let m := mreset m NamespaceBudgetDaysToBreach in
  let m := fold_left (λ m f, mset m NamespaceBudgetDaysToBreach [sf_Namespace f] (breach_value f))
             namespaceForecasts m in
  let m := mreset m WorkloadBudgetDaysToBreach in
  fold_left (λ m f, mset m WorkloadBudgetDaysToBreach [sf_Namespace f; sf_Kind f; sf_Name f] (breach_value f))
    workloadForecasts m.

(** ** The LLM client of a reconcile *)

Record llm_choice := mkChoice {
  ch_client : generator;
  ch_provider : string;
  ch_model : string;
  ch_key : string;   (* of the cache *)
  ch_status : ConditionStatus;
  ch_reason : string;
  ch_message : string;
}.

(* go: internal/controller/capacityplan_controller.go:166-199 Reconcile *)
Definition choose_llm (cfg : settings) (spec : CapacityPlanSpec) (cache : gmap string generator) :
    llm_choice * gmap string generator :=
  match LLMClient cfg with
  | Some c =>
      (mkChoice (Stateless c) "custom" "custom" "" ConditionTrue "Injected" "LLM client injected into reconciler", cache)
  | None =>
      let '(r, cache) := resolvePlanLLMClient (OperatorNamespace cfg) (POD_NAMESPACE cfg) (sp_LLM spec) cache in
      match r with
      | Err e => (mkChoice NoGenerator "disabled" "n/a" "" ConditionFalse "ProviderError" (err_msg e), cache)
      | Ok (gen, provider, model, key) =>
          let provider' := if provider =? "" then "disabled" else provider in
          let model' := if model =? "" then "n/a" else model in
          if is_generator gen then
            (mkChoice gen provider' model' key ConditionTrue "Configured"
               ("LLM provider " +:+ go_quote provider +:+ " is configured"), cache)
          else (mkChoice gen provider' model' key ConditionFalse "Disabled" "LLM provider is disabled", cache)
      end
  end.

(** The cache holds the pointer the loop over the claims works with, so it sees the
    breaker move.  In this model a client is a value: the one the calls leave takes the
    place of the cached one, which is what the shared pointer amounts to.  A client that
    has no key is in no cache, and only a FastAPI client has a state that moves. *)
(* go: internal/controller/capacityplan_controller.go:852-854 resolvePlanLLMClient *)
Definition keep_client (key : string) (gen : generator) (cache : gmap string generator) : gmap string generator :=
  match gen with FastAPI _ _ => if key =? "" then cache else <[key := gen]> cache | _ => cache end.

(* go: internal/controller/capacityplan_controller.go:143-153 Reconcile *)
Definition thresholds (spec : CapacityPlanSpec) : float * float :=
  let ts := sp_Thresholds spec in
  let usage := f_of_ratio 85 100 in
  let usage :=
    if negb (ts_UsageRatio ts =? "") then
      match ParseFloat (ts_UsageRatio ts) with Ok v => v | Err _ => usage end
    else usage in
  let days := f_of_Z (ts_DaysUntilFull ts) in
  let days := if feqb days fzero then f_of_Z 7 else days in
  (usage, days).

(** ** Summaries of the listed PVCs *)

(** What the loop over the claims carries along. *)
Record progress := mkProgress {
  pg_summaries : list PVCSummary;
  pg_snapshots : gmap string (list Sample);
  pg_sent : list exchange;
  pg_client : generator;
  pg_series : mstore;
}.

(* go: internal/controller/capacityplan_controller.go:205-214 Reconcile *)
Definition summarize_one (ck : clock) (w0 : watcher) (usageT daysT : float) (llmInterval : Z)
    (ch : llm_choice) (prevByKey : gmap string PVCSummary) (onlyAlerting : bool)
    (acc : progress) (pvc : PersistentVolumeClaim) : progress :=
  let key := pvc_key (pvc_Namespace pvc) (pvc_Name pvc) in
  let samples := GetSnapshot key w0 in
  let '(summary, sent, client, m) :=
    buildSummary (ck_since ck key) (ck_done ck key) (ck_took ck key) (GetLatestCapacity key w0) pvc samples usageT daysT
      llmInterval (pg_client acc) (ch_provider ch) (ch_model ch)
      (default zero_PVCSummary (prevByKey !! key)) onlyAlerting (pg_series acc) in
  mkProgress (pg_summaries acc ++ [summary])%list (<[key := samples]> (pg_snapshots acc))
    (pg_sent acc ++ sent)%list client m.

(* go: internal/controller/capacityplan_controller.go:155-159 Reconcile *)
Definition summaries_by_key (l : list PVCSummary) : gmap string PVCSummary :=
  fold_left (λ m s, <[pvc_key (ps_Namespace s) (ps_Name s) := s]> m) l ∅.

(* go: internal/controller/capacityplan_controller.go:161-165 Reconcile *)
Definition insight_interval (spec : CapacityPlanSpec) : Z :=
  if (sp_LLMInsightsInterval spec <=? 0)%Z then (6 * hour)%Z else sp_LLMInsightsInterval spec.

(* go: internal/controller/capacityplan_controller.go:201-215 Reconcile *)
Definition summarize_pvcs (ck : clock) (plan : CapacityPlan) (w : watcher) (ch : llm_choice)
    (pvcs : list PersistentVolumeClaim) : progress :=
  let spec := cp_Spec plan in
  let '(usageT, daysT) := thresholds spec in
  fold_left (summarize_one ck w usageT daysT (insight_interval spec) ch
               (summaries_by_key (st_PVCs (cp_Status plan))) (lp_OnlyAlertingPVCs (sp_LLM spec)))
    pvcs (mkProgress [] ∅ [] (ch_client ch) (w_series w)).

(* go: internal/controller/capacityplan_controller.go:216-220 Reconcile *)
Definition signals_by_key (l : list pvcRiskSignal) : gmap string pvcRiskSignal :=
  fold_left (λ m s, <[pvc_key (sg_Namespace s) (sg_Name s) := s]> m) l ∅.

(** ** The reconcile of the active plan *)

(** The children; their errors are only logged. *)
(* go: internal/controller/capacityplan_controller.go:317-326 Reconcile *)
Definition reconcile_children (cfg : settings) (plan : CapacityPlan) (usageT daysT : float) (riskDigest : string) :
    list write :=
  let '(_, ruleWrites) :=
    if hasPrometheusOperator cfg then reconcilePrometheusRule plan usageT daysT riskDigest else (None, []) in
  let '(_, dashboardWrites) := reconcileGrafanaDashboard (OperatorNamespace cfg) (POD_NAMESPACE cfg) plan in
  (ruleWrites ++ dashboardWrites)%list.

(* go: internal/controller/capacityplan_controller.go:347-352 Reconcile *)
Definition active_conditions (cfg : settings) (plan : CapacityPlan) (ch : llm_choice) : list Condition :=
  set_conditions (cp_Generation plan)
    [("Ready", ConditionTrue, "ReconcileSucceeded", "Capacity plan reconciled successfully");
     (let '(s, r, msg) := prometheusReadyStatus cfg (cp_Spec plan) in ("PrometheusReady", s, r, msg));
     ("LLMReady", ch_status ch, ch_reason ch, ch_message ch);
     (let '(s, r, msg) := backfillReadyStatus cfg in ("BackfillReady", s, r, msg))]
    (st_Conditions (cp_Status plan)).

(** The state of the client for one of the two plan-level texts. *)
(* go: internal/controller/capacityplan_controller.go:237-247 Reconcile *)
Definition client_state (ch : llm_choice) (client : generator) (interval now : Z)
    (prevHash currHash prevText : string) (prevTime : option Z) : llmClientState :=
  mkClientState client (ch_provider ch) (ch_model ch) interval now prevHash currHash prevText prevTime
    (is_generator client).

(* go: internal/controller/capacityplan_controller.go:133-368 Reconcile *)
Definition reconcile_active (ck : clock) (cfg : settings) (plan : CapacityPlan) (wd : world) :
    res Result * list write * world :=
  let spec := cp_Spec plan in
  let prevTopRisks := st_TopRisks (cp_Status plan) in
  let w := configureWatcherForPlan cfg spec (wd_watcher wd) in
  match listScopedPVCs (sp_Namespaces spec) with
  | Err e => (Err e, [], mkWorld w (wd_cache wd) (wd_sent wd))
  | Ok pvcs =>
      let '(usageT, daysT) := thresholds spec in
      let '(ch, cache) := choose_llm cfg spec (wd_cache wd) in
      let now := ck_now ck in
      let '(mkProgress summaries snapshots sent client m) := summarize_pvcs ck plan w ch pvcs in
      let signals := buildPVCRiskSignals now summaries snapshots in
      let riskByKey := signals_by_key signals in
      let '(workloads, _) := buildPVCWorkloadIndex summaries in
      let topRisks := enrichTopRisksWithWorkloads (buildTopRisks signals statusSummaryTopN) workloads in
      let '(nsForecasts, wlForecasts) :=
        buildBudgetForecasts now (sp_Budgets spec) summaries riskByKey workloads in
      let anomalies := detectPVCAnomalies now signals workloads in
      let riskDigest := buildRiskDigest now topRisks in
      let riskChanges := detectRiskChanges now prevTopRisks topRisks in
      let riskChangeSummary := summarizeRiskChanges riskChanges in
      let riskSnapshotHash := computeRiskSnapshotHash topRisks in
      let state := client_state ch client (insight_interval spec) now in
      let st0 := cp_Status plan in
      let '((riskText, riskTime), m) :=
        refreshPlanRiskChangeInsight (ck_took ck "plan-risk-change") (cp_Name plan)
          (state (st_RiskSnapshotHash st0) riskSnapshotHash (st_LLMRiskChangeSummary st0)
             (st_LastLLMRiskChangeTime st0)) riskChangeSummary riskChanges topRisks m in
      let '((budgetText, budgetTime), m) :=
        refreshPlanBudgetRecommendations (ck_took ck "plan-budget-recommendations") (cp_Name plan)
          (state (computeBudgetForecastHash (st_NamespaceForecasts st0) (st_WorkloadForecasts st0))
             (computeBudgetForecastHash nsForecasts wlForecasts) (st_LLMBudgetRecommendations st0)
             (st_LastLLMBudgetRecommendationsTime st0)) nsForecasts wlForecasts topRisks m in
      let m := export_plan summaries riskByKey riskChanges anomalies nsForecasts wlForecasts m in
      let children := reconcile_children cfg plan usageT daysT riskDigest in
      let g := cp_Generation plan in
      let cs := active_conditions cfg plan ch in
      let st := mkCapacityPlanStatus cs summaries (buildStatusSummary summaries statusSummaryTopN) topRisks
        riskDigest riskChanges riskChangeSummary riskText riskTime riskSnapshotHash nsForecasts wlForecasts
        budgetText budgetTime anomalies (summarizePVCAnomalies anomalies) (Some (ck_end ck)) g in
      let '(r, statusWrites) := update_status (with_status plan st) in
      (r, children ++ statusWrites, mkWorld (set_series (λ _, m) w) (keep_client (ch_key ch) client cache)
         (wd_sent wd ++ map (pair (ch_key ch)) sent))%list
  end.

(* go: internal/controller/capacityplan_controller.go CapacityPlanReconciler.Reconcile *)
Definition PlanReconcile (ck : clock) (cfg : settings) (name : string) (wd : world) :
    res Result * list write * world :=
  match get_plan name with
  | Err e => if err_notfound e then (Ok no_requeue, [], wd) else (Err e, [], wd)
  | Ok plan =>
      match isActivePlan plan with
      | Err e => (Err e, [], wd)
      | Ok (isActive, activePlanName) =>
          if isActive then reconcile_active ck cfg plan wd
          else
            let '(r, ws) := markPlanInactive (ck_now ck) plan activePlanName in
            (r, ws, wd)
      end
  end.

(** ** Lemmas: conditions *)

Lemma find_setCondition t g t' s r m cs :
  find_condition t (setCondition g t' s r m cs) =
  if decide (t = t') then Some (mkCondition t' s g r m) else find_condition t cs.
Proof.
  unfold setCondition. case_decide as E; [subst; apply (set_condition_same cs (mkCondition t' s g r m))|].
  by apply (set_condition_other cs (mkCondition t' s g r m)).
Qed.

(** A condition set by a list without that type later is the one set. *)
Lemma find_set_conditions g t s r m l1 l2 cs :
  t ∉ map (λ x, x.1.1.1) l2 →
  find_condition t (set_conditions g (l1 ++ (t, s, r, m) :: l2) cs) = Some (mkCondition t s g r m).
Proof.
  unfold set_conditions. rewrite fold_left_app. simpl.
  generalize (fold_left (λ cs '(t, s, r, m), setCondition g t s r m cs) l1 cs). intros cs' Hn.
  assert (find_condition t (setCondition g t s r m cs') = Some (mkCondition t s g r m)) as Hf
    by (rewrite find_setCondition; by case_decide).
  revert Hf Hn. generalize (setCondition g t s r m cs').
  induction l2 as [|[[[t' s'] r'] m'] l2 IH]; intros cs2 Hf Hn; [done|]. simpl in Hn |- *.
  apply not_elem_of_cons in Hn as [Hne Hn]. apply IH; [|done].
  rewrite find_setCondition. by case_decide.
Qed.

Lemma find_set_conditions_other g t l cs :
  t ∉ map (λ x, x.1.1.1) l → find_condition t (set_conditions g l cs) = find_condition t cs.
Proof.
  unfold set_conditions. revert cs. induction l as [|[[[t' s] r] m] l IH]; intros cs Hn; [done|].
  simpl in Hn |- *. apply not_elem_of_cons in Hn as [Hne Hn]. rewrite IH by done.
  rewrite find_setCondition. by case_decide.
Qed.

Lemma update_status_spec p :
  update_status p =
  (match write_error (UpdatePlanStatus p) with
   | Some e => Err e | None => Ok (requeue_after (cp_Spec p)) end, [UpdatePlanStatus p]).
Proof. done. Qed.

(** ** Lemmas: exported series *)

Lemma fold_left_mget {A} (f : mstore → A → mstore) v l xs m :
  (∀ m x, mget (f m x) v l = mget m v l) → mget (fold_left f xs m) v l = mget m v l.
Proof. intros Hf. revert m. induction xs as [|x xs IH]; intros m; [done|]. simpl. by rewrite IH. Qed.

(** A gauge written for every element of a list: the series it has are those of the
    list, the last element with the labels giving the value. *)
Lemma fold_left_mset_domain {A} v (lab : A → list string) (val : A → float) xs m l :
  mget (fold_left (λ m x, mset m v (lab x) (val x)) xs m) v l =
  match last (List.filter (λ x, bool_decide (lab x = l)) xs) with
  | Some x => Some (val x)
  | None => mget m v l
  end.
Proof.
  induction xs as [|x xs IH] using rev_ind; [done|].
  rewrite fold_left_app, List.filter_app. simpl. rewrite mget_mset.
  case_bool_decide as E.
  - rewrite last_snoc. by case_decide; [|naive_solver].
  - rewrite app_nil_r, <-IH. case_decide; [naive_solver|done].
Qed.

Lemma last_filter_none {A} (f : A → bool) l : last (List.filter f l) = None ↔ existsb f l = false.
Proof.
  rewrite last_None. induction l as [|x l IH]; simpl; [done|]. destruct (f x); simpl; [|done].
  split; [intros [=]|intros [=]].
Qed.

Lemma export_summary_anomaly risk m s l :
  mget (export_summary risk m s) PVCAnomalyVec l =
  if existsb (λ t, bool_decide ([ps_Namespace s; ps_Name s; t] = l)) supportedAnomalyTypes
  then Some fzero else mget m PVCAnomalyVec l.
Proof.
  unfold export_summary. rewrite (fold_left_mset_domain _ (λ t, [ps_Namespace s; ps_Name s; t]) (λ _, fzero)).
  rewrite !mget_mset_ne by (by left).
  destruct (last _) eqn:El; destruct (existsb _ _) eqn:Ee; try done.
  - apply last_filter_none in Ee. congruence.
  - apply last_filter_none in El. congruence.
Qed.

Lemma export_summaries_anomaly risk xs m s typ :
  s ∈ xs → typ ∈ supportedAnomalyTypes →
  mget (fold_left (export_summary risk) xs m) PVCAnomalyVec [ps_Namespace s; ps_Name s; typ] = Some fzero.
Proof.
  intros Hs Ht. induction xs as [|x xs IH] using rev_ind; [inversion Hs|].
  rewrite fold_left_app. simpl. rewrite export_summary_anomaly.
  apply elem_of_app in Hs as [Hs| ->%list_elem_of_singleton]; [case_match; [done|by apply IH]|].
  assert (existsb (λ t, bool_decide ([ps_Namespace x; ps_Name x; t] = [ps_Namespace x; ps_Name x; typ]))
            supportedAnomalyTypes = true) as ->; [|done].
  apply existsb_exists. exists typ. split; [by apply list_elem_of_In|by apply bool_decide_eq_true].
Qed.

Lemma export_anomalies_get xs m l :
  mget (fold_left export_anomaly xs m) PVCAnomalyVec l =
  if existsb (λ a, bool_decide ([pa_Namespace a; pa_Name a; pa_Type a] = l)) xs
  then Some (f_of_Z 1) else mget m PVCAnomalyVec l.
Proof.
  induction xs as [|a xs IH] using rev_ind; [done|].
  rewrite fold_left_app, existsb_app. simpl. unfold export_anomaly at 1.
  rewrite mget_minc_ne by (by left). rewrite mget_mset, IH.
  case_bool_decide as E; case_decide as D; try (by destruct (existsb _ xs)); naive_solver.
Qed.

Lemma export_plan_anomaly summaries risk changes anomalies ns wl m l :
  mget (export_plan summaries risk changes anomalies ns wl m) PVCAnomalyVec l =
  if existsb (λ a, bool_decide ([pa_Namespace a; pa_Name a; pa_Type a] = l)) anomalies
  then Some (f_of_Z 1) else mget (fold_left (export_summary risk) summaries m) PVCAnomalyVec l.
Proof.
  unfold export_plan. cbv zeta.
  rewrite fold_left_mget by (intros; by apply mget_mset_ne; left).
  rewrite mget_mreset, decide_False by done.
  rewrite fold_left_mget by (intros; by apply mget_mset_ne; left).
  rewrite mget_mreset, decide_False by done. rewrite export_anomalies_get.
  rewrite (fold_left_mget (λ m c, minc m PVCRiskChangesTotal [rc_Type c]))
    by (intros; by apply mget_minc_ne; left). done.
Qed.

Lemma export_plan_namespaces summaries risk changes anomalies ns wl m l :
  mget (export_plan summaries risk changes anomalies ns wl m) NamespaceBudgetDaysToBreach l =
  match last (List.filter (λ f, bool_decide ([sf_Namespace f] = l)) ns) with
  | Some f => Some (breach_value f) | None => None end.
Proof.
  unfold export_plan. cbv zeta.
  rewrite fold_left_mget by (intros; by apply mget_mset_ne; left).
  rewrite mget_mreset, decide_False by done.
  rewrite (fold_left_mset_domain _ (λ f, [sf_Namespace f]) breach_value).
  destruct (last _); [done|]. by rewrite mget_mreset, decide_True.
Qed.

Lemma export_plan_workloads summaries risk changes anomalies ns wl m l :
  mget (export_plan summaries risk changes anomalies ns wl m) WorkloadBudgetDaysToBreach l =
  match last (List.filter (λ f, bool_decide ([sf_Namespace f; sf_Kind f; sf_Name f] = l)) wl) with
  | Some f => Some (breach_value f) | None => None end.
Proof.
  unfold export_plan. cbv zeta.
  rewrite (fold_left_mset_domain _ (λ f, [sf_Namespace f; sf_Kind f; sf_Name f]) breach_value).
  destruct (last _); [done|]. by rewrite mget_mreset, decide_True.
Qed.

(** ** Lemmas: the reconcile of the active plan *)

Lemma buildSummary_figures since done_ took cap pvc samples usageT daysT interval client provider model prev only m :
  ∃ insight t,
    (buildSummary since done_ took cap pvc samples usageT daysT interval client provider model prev only m).1.1.1 =
    summary_of pvc samples (summary_figures cap pvc samples usageT daysT prev) insight t.
Proof. unfold buildSummary. repeat case_match; eauto. Qed.

(** What the summary of a listed PVC is made of. *)
Definition summarizes (w : watcher) (usageT daysT : float) (prevByKey : gmap string PVCSummary)
    (pvc : PersistentVolumeClaim) (s : PVCSummary) : Prop :=
  let key := pvc_key (pvc_Namespace pvc) (pvc_Name pvc) in
  ∃ insight t,
    s = summary_of pvc (GetSnapshot key w)
          (summary_figures (GetLatestCapacity key w) pvc (GetSnapshot key w) usageT daysT
             (default zero_PVCSummary (prevByKey !! key))) insight t.

Lemma summarize_all ck w usageT daysT interval ch prev only pvcs acc :
  ∃ ss, pg_summaries (fold_left (summarize_one ck w usageT daysT interval ch prev only) pvcs acc) =
    (pg_summaries acc ++ ss)%list ∧ Forall2 (summarizes w usageT daysT prev) pvcs ss.
Proof.
  revert acc. induction pvcs as [|pvc pvcs IH]; intros acc; cbn [fold_left].
  { exists []. rewrite app_nil_r. split; [done|constructor]. }
  destruct (IH (summarize_one ck w usageT daysT interval ch prev only acc pvc)) as (ss & -> & HF).
  unfold summarize_one at 1. set (key := pvc_key _ _).
  destruct (buildSummary_figures (ck_since ck key) (ck_done ck key) (ck_took ck key) (GetLatestCapacity key w) pvc
    (GetSnapshot key w) usageT daysT interval (pg_client acc) (ch_provider ch) (ch_model ch)
    (default zero_PVCSummary (prev !! key)) only (pg_series acc)) as (insight & t & Hs).
  destruct (buildSummary _ _ _ _ _ _ _ _ _ _ _ _ _ _ _) as [[[s sent] client] m]. simpl in Hs.
  exists (s :: ss). cbn [pg_summaries]. split; [by rewrite <-(assoc_L (++)%list)|]. constructor; [by exists insight, t|done].
Qed.

Definition is_status_update (w : write) : bool :=
  match w with UpdatePlanStatus _ => true | _ => false end.

Lemma rule_writes_no_status plan u d digest :
  Forall (λ w, is_status_update w = false) (reconcilePrometheusRule plan u d digest).2.
Proof. unfold reconcilePrometheusRule. repeat case_match; repeat constructor. Qed.

Lemma dashboard_writes_no_status ns podns plan :
  Forall (λ w, is_status_update w = false) (reconcileGrafanaDashboard ns podns plan).2.
Proof. unfold reconcileGrafanaDashboard. repeat case_match; repeat constructor. Qed.

Lemma children_no_status cfg plan u d digest :
  Forall (λ w, is_status_update w = false) (reconcile_children cfg plan u d digest).
Proof.
  unfold reconcile_children. pose proof (rule_writes_no_status plan u d digest) as Hr.
  pose proof (dashboard_writes_no_status (OperatorNamespace cfg) (POD_NAMESPACE cfg) plan) as Hd.
  destruct (reconcileGrafanaDashboard _ _ _) as [de dws].
  destruct (hasPrometheusOperator cfg); [destruct (reconcilePrometheusRule _ _ _ _) as [re rws]|]; by apply Forall_app.
Qed.

Lemma only_llm_pvcs ck plan w ch pvcs : only_llm (w_series w) (pg_series (summarize_pvcs ck plan w ch pvcs)).
Proof.
  unfold summarize_pvcs. destruct (thresholds _) as [usageT daysT].
  set (acc := mkProgress [] ∅ [] (ch_client ch) (w_series w)). change (w_series w) with (pg_series acc).
  generalize acc. clear acc. induction pvcs as [|pvc pvcs IH]; intros acc; cbn [fold_left]; [done|].
  etrans; [|apply IH]. unfold summarize_one. set (key := pvc_key _ _).
  match goal with |- context [buildSummary ?a ?b ?c ?d ?e ?f ?g ?h ?i ?j ?k ?l ?m ?n ?o] =>
    pose proof (only_llm_summary a b c d e f g h i j k l m n o) as Hs end.
  by destruct (buildSummary _ _ _ _ _ _ _ _ _ _ _ _ _ _ _) as [[[s sent'] client] m].
Qed.

(** The reconcile in outline: child writes, then one status update.  What the status
    is made of, and what becomes of the series, the client and the requests. *)
Lemma reconcile_active_shape ck cfg plan wd pvcs :
  let spec := cp_Spec plan in
  let w := configureWatcherForPlan cfg spec (wd_watcher wd) in
  let now := ck_now ck in
  let ch := (choose_llm cfg spec (wd_cache wd)).1 in
  let run := summarize_pvcs ck plan w ch pvcs in
  let signals := buildPVCRiskSignals now (pg_summaries run) (pg_snapshots run) in
  let workloads := (buildPVCWorkloadIndex (pg_summaries run)).1 in
  let anomalies := detectPVCAnomalies now signals workloads in
  listScopedPVCs (sp_Namespaces spec) = Ok pvcs →
  ∃ st m0, reconcile_active ck cfg plan wd =
    ((update_status (with_status plan st)).1,
     (reconcile_children cfg plan (thresholds spec).1 (thresholds spec).2 (st_RiskDigest st)
        ++ [UpdatePlanStatus (with_status plan st)])%list,
     mkWorld (set_series (λ _, export_plan (st_PVCs st) (signals_by_key signals) (st_RiskChanges st) (st_Anomalies st)
                                 (st_NamespaceForecasts st) (st_WorkloadForecasts st) m0) w)
       (keep_client (ch_key ch) (pg_client run) (choose_llm cfg spec (wd_cache wd)).2)
       (wd_sent wd ++ map (pair (ch_key ch)) (pg_sent run))%list) ∧
    only_llm (w_series w) m0 ∧
    st_PVCs st = pg_summaries run ∧
    st_Conditions st = active_conditions cfg plan ch ∧
    st_Summary st = buildStatusSummary (st_PVCs st) statusSummaryTopN ∧
    st_TopRisks st = enrichTopRisksWithWorkloads (buildTopRisks signals statusSummaryTopN) workloads ∧
    st_RiskDigest st = buildRiskDigest now (st_TopRisks st) ∧
    st_RiskChanges st = detectRiskChanges now (st_TopRisks (cp_Status plan)) (st_TopRisks st) ∧
    st_RiskSnapshotHash st = computeRiskSnapshotHash (st_TopRisks st) ∧
    (st_NamespaceForecasts st, st_WorkloadForecasts st) =
      buildBudgetForecasts now (sp_Budgets spec) (st_PVCs st) (signals_by_key signals) workloads ∧
    st_Anomalies st = anomalies ∧ st_AnomalySummary st = summarizePVCAnomalies anomalies ∧
    st_LastReconcileTime st = Some (ck_end ck) ∧ st_ObservedGeneration st = cp_Generation plan.
Proof.
  intros spec w now ch run signals workloads anomalies Hl. subst anomalies workloads signals run ch now.
  unfold reconcile_active. fold spec w. rewrite Hl.
  destruct (thresholds spec) as [usageT daysT]. destruct (choose_llm _ _ _) as [ch cache]. cbn [fst snd].
  pose proof (only_llm_pvcs ck plan w ch pvcs) as Hm.
  destruct (summarize_pvcs _ _ _ _ _) as [summaries snaps sent client m]. cbv zeta. cbn [pg_series] in Hm.
  cbn [pg_summaries pg_snapshots pg_sent pg_client].
  destruct (buildPVCWorkloadIndex summaries) as [workloads werr]. cbn [fst].
  set (signals := buildPVCRiskSignals _ _ _).
  destruct (buildBudgetForecasts _ _ _ _ _) as [nsF wlF] eqn:Hf.
  match goal with |- context [refreshPlanRiskChangeInsight ?a ?b ?c ?d ?e ?f ?g] =>
    pose proof (only_llm_risk_change a b c d e f g) as Hm1 end.
  destruct (refreshPlanRiskChangeInsight _ _ _ _ _ _ _) as [[riskText riskTime] m1].
  match goal with |- context [refreshPlanBudgetRecommendations ?a ?b ?c ?d ?e ?f ?g] =>
    pose proof (only_llm_budget a b c d e f g) as Hm2 end.
  destruct (refreshPlanBudgetRecommendations _ _ _ _ _ _ _) as [[budgetText budgetTime] m2]. cbn [snd] in Hm1, Hm2.
  rewrite update_status_spec.
  match goal with |- context [update_status (with_status plan ?s)] => fail 1
    | |- context [UpdatePlanStatus (with_status plan ?s)] => exists s end.
  exists m2. split_and!; [reflexivity|by etrans; [|etrans]|..]; reflexivity || exact (eq_sym Hf).
Qed.

Lemma summarize_pvcs_all ck plan w ch pvcs :
  Forall2 (summarizes w (thresholds (cp_Spec plan)).1 (thresholds (cp_Spec plan)).2
             (summaries_by_key (st_PVCs (cp_Status plan)))) pvcs
    (pg_summaries (summarize_pvcs ck plan w ch pvcs)).
Proof.
  unfold summarize_pvcs. destruct (thresholds _) as [usageT daysT].
  edestruct summarize_all as (ss & -> & HF). exact HF.
Qed.

Lemma ready_after_reconcile cfg plan ch :
  find_condition "Ready" (active_conditions cfg plan ch) =
    Some (mkCondition "Ready" ConditionTrue (cp_Generation plan) "ReconcileSucceeded"
            "Capacity plan reconciled successfully").
Proof.
  apply (find_set_conditions _ _ _ _ _ []). simpl.
  destruct (prometheusReadyStatus _ _) as [[??]?], (backfillReadyStatus _) as [[??]?]. simpl.
  intros [? |[?|[?|?]%elem_of_cons]%elem_of_cons]%elem_of_cons; done || by eapply not_elem_of_nil.
Qed.

End plan.

(** ** Properties *)

(** C31. A plan that is not the active one is cleared and otherwise left alone: the only
    write is one status update, whose conditions all say [NotActivePlan] with the
    name of the active plan, whose data is empty, and which is marked with the
    generation it was made for; conditions of other types, the watcher, the
    exported series and the client cache stay as they are. *)
Theorem inactive_plan_is_cleared `{MetricsLib} `{MapRange} `{SliceSorter} `{Platform} `{Api} `{ChildApi}
    `{LlmEnv} `{QuantityLib} `{ConditionLib} `{FastAPIEnv} `{PromEnv} `{!PromClients} ck cfg name wd plan active :
  get_plan name = Ok plan → isActivePlan plan = Ok (false, active) →
  ∃ st, PlanReconcile ck cfg name wd =
    (match write_error (UpdatePlanStatus (with_status plan st)) with
     | Some e => Err e | None => Ok (requeue_after (cp_Spec plan)) end,
     [UpdatePlanStatus (with_status plan st)], wd) ∧
  (∀ t, find_condition t (st_Conditions st) =
     if decide (t ∈ ["Ready"; "PrometheusReady"; "LLMReady"; "BackfillReady"])
     then Some (mkCondition t (if t =? "Ready" then ConditionFalse else ConditionUnknown)
                  (cp_Generation plan) "NotActivePlan"
                  ("Plan is inactive; active plan is " +:+ go_quote active))
     else find_condition t (st_Conditions (cp_Status plan))) ∧
  st = mkCapacityPlanStatus (st_Conditions st) [] empty_summary [] "" [] "" "" None "" [] [] "" None [] ""
         (Some (ck_now ck)) (cp_Generation plan).
Proof.
  intros Hp Ha. unfold PlanReconcile. rewrite Hp, Ha. unfold markPlanInactive. cbv zeta.
  rewrite update_status_spec. eexists. split_and!; [reflexivity| |reflexivity].
  intros t. cbn [st_Conditions]. unfold set_conditions. cbn [fold_left]. rewrite !find_setCondition.
  destruct (decide (t = "BackfillReady")) as [->|]; [done|].
  destruct (decide (t = "LLMReady")) as [->|]; [done|].
  destruct (decide (t = "PrometheusReady")) as [->|]; [done|].
  destruct (decide (t = "Ready")) as [->|]; [done|].
  rewrite decide_False; [done|]. rewrite !elem_of_cons, elem_of_nil. naive_solver.
Qed.

(** C4. What the reconcile of the active plan publishes.  When the claims could be
    listed there is exactly one status update, the last write: its result alone
    decides the result of the reconcile, so failures with the PrometheusRule or the
    dashboard are not fatal.  The status lists one summary per claim in the order
    of the listing, each with the figures of its sample buffer and of the previous
    summary; the totals, the risk changes against the previous risks, the
    generation and the [Ready] condition agree with it.  Apart from the exported
    series the watcher is only reconfigured. *)
Theorem active_plan_publishes_status `{MetricsLib} `{MapRange} `{SliceSorter} `{Platform} `{Api} `{ChildApi}
    `{LlmEnv} `{QuantityLib} `{ConditionLib} `{FastAPIEnv} `{PromEnv} `{!PromClients} ck cfg name wd plan active pvcs :
  get_plan name = Ok plan → isActivePlan plan = Ok (true, active) →
  listScopedPVCs (sp_Namespaces (cp_Spec plan)) = Ok pvcs →
  let w := configureWatcherForPlan cfg (cp_Spec plan) (wd_watcher wd) in
  ∃ st children series cache sent, PlanReconcile ck cfg name wd =
    (match write_error (UpdatePlanStatus (with_status plan st)) with
     | Some e => Err e | None => Ok (requeue_after (cp_Spec plan)) end,
     (children ++ [UpdatePlanStatus (with_status plan st)])%list,
     mkWorld (set_series (λ _, series) w) cache sent) ∧
  Forall (λ w, is_status_update w = false) children ∧
  Forall2 (summarizes w (thresholds (cp_Spec plan)).1 (thresholds (cp_Spec plan)).2
             (summaries_by_key (st_PVCs (cp_Status plan)))) pvcs (st_PVCs st) ∧
  cs_TotalPVCs (st_Summary st) = Z.of_nat (length pvcs) ∧
  st_RiskChanges st = detectRiskChanges (ck_now ck) (st_TopRisks (cp_Status plan)) (st_TopRisks st) ∧
  st_ObservedGeneration st = cp_Generation plan ∧
  find_condition "Ready" (st_Conditions st) =
    Some (mkCondition "Ready" ConditionTrue (cp_Generation plan) "ReconcileSucceeded"
            "Capacity plan reconciled successfully").
Proof.
  intros Hp Ha Hl w. unfold PlanReconcile. rewrite Hp, Ha.
  destruct (reconcile_active_shape ck cfg plan wd pvcs Hl)
    as (st & m0 & -> & _ & Hp1 & Hc & Hs & _ & _ & Hr & _ & _ & _ & _ & _ & Hg).
  eexists st, _, _, _, _. split_and!; [reflexivity|apply children_no_status|rewrite Hp1; apply summarize_pvcs_all| |done|done|].
  - rewrite Hs. unfold buildStatusSummary. cbn [cs_TotalPVCs]. rewrite Hp1.
    by rewrite <-(Forall2_length _ _ _ (summarize_pvcs_all _ _ _ _ _)).
  - rewrite Hc. apply ready_after_reconcile.
Qed.

(** C5. The exported series agree with the published status: for every PVC of the
    status and every kind of anomaly the anomaly gauge is 1 when the status reports
    that anomaly and 0 otherwise, and the budget gauges have exactly the series of
    the forecasts of the status, with the days until breach or -1; series of
    budgets that are gone disappear. *)
Theorem exported_series_match_status `{MetricsLib} `{MapRange} `{SliceSorter} `{Platform} `{Api} `{ChildApi}
    `{LlmEnv} `{QuantityLib} `{ConditionLib} `{FastAPIEnv} `{PromEnv} `{!PromClients} ck cfg name wd plan active pvcs :
  get_plan name = Ok plan → isActivePlan plan = Ok (true, active) →
  listScopedPVCs (sp_Namespaces (cp_Spec plan)) = Ok pvcs →
  let '(_, writes, wd') := PlanReconcile ck cfg name wd in
  let series := w_series (wd_watcher wd') in
  ∃ st, last writes = Some (UpdatePlanStatus (with_status plan st)) ∧
  (∀ s typ, s ∈ st_PVCs st → typ ∈ supportedAnomalyTypes →
     let labels := [ps_Namespace s; ps_Name s; typ] in
     mget series PVCAnomalyVec labels =
     Some (if existsb (λ a, bool_decide ([pa_Namespace a; pa_Name a; pa_Type a] = labels)) (st_Anomalies st)
           then f_of_Z 1 else fzero)) ∧
  (∀ l, mget series NamespaceBudgetDaysToBreach l =
     match last (List.filter (λ f, bool_decide ([sf_Namespace f] = l)) (st_NamespaceForecasts st)) with
     | Some f => Some (breach_value f) | None => None end) ∧
  (∀ l, mget series WorkloadBudgetDaysToBreach l =
     match last (List.filter (λ f, bool_decide ([sf_Namespace f; sf_Kind f; sf_Name f] = l))
                   (st_WorkloadForecasts st)) with
     | Some f => Some (breach_value f) | None => None end).
Proof.
  intros Hp Ha Hl. unfold PlanReconcile. rewrite Hp, Ha.
  destruct (reconcile_active_shape ck cfg plan wd pvcs Hl)
    as (st & m0 & -> & _).
  exists st. cbn [wd_watcher set_series w_series]. split; [|split; [|split]].
  - by rewrite last_snoc.
  - intros s typ Hs Ht. rewrite export_plan_anomaly. case_match; [done|].
    by apply export_summaries_anomaly.
  - intros l. apply export_plan_namespaces.
  - intros l. apply export_plan_workloads.
Qed.

(** A days threshold of 0 does not turn the check off, as the field's documentation
    says: it is read as 7, so that a PVC with six days left alerts. *)
Theorem zero_days_threshold_means_seven `{LlmEnv} (spec : CapacityPlanSpec) usage :
  sp_Thresholds spec = mkThresholdSpec usage 0 → (thresholds spec).2 = f_of_Z 7 ∧
  fltb (f_of_Z 6) (thresholds spec).2 = true.
Proof. intros Hs. unfold thresholds. rewrite Hs. simpl. by split; vm_compute. Qed.

(** ** A cluster to run on

    Two plans, the older one active; two claims, one of them sampled; a server that
    refuses every child write and accepts status updates. *)

Definition demo_main : CapacityPlan := demo_plan "main" 1.
Definition demo_other : CapacityPlan := demo_plan "other" 2.

#[local] Instance plan_api : Api := {|
  get_pvc _ name := Err (not_found name);
  list_pvcs _ := Ok [mkPVC "ns" "a" "u1" (Some 200%Z); mkPVC "ns" "b" "u2" None];
  list_pods _ := Ok []; get_replicaset _ name := Err (not_found name); get_job _ name := Err (not_found name);
  get_secret _ name := Err (not_found name); list_plans := Ok [demo_other; demo_main];
  get_plan name := if name =? "main" then Ok demo_main else if name =? "other" then Ok demo_other
                   else Err (not_found name);
  get_notification _ name := Err (not_found name) |}.

#[local] Instance refusing_server : ChildApi := {|
  get_rule _ name := Err (not_found name); get_configmap _ name := Err (not_found name);
  write_error w := if is_status_update w then None else Some (errorf "forbidden") |}.

#[local] Existing Instances amd64 insertion_sorter demo_llm demo_quantities.
#[local] Instance demo_fastapi : FastAPIEnv := {| fastapi_answers _ _ := mkAnswers 0 (Ok 200%Z) (Ok (200%Z, "")) 0 |}.
#[local] Instance demo_plan_prom : PromEnv := demo_prom demo_used.
#[local] Instance demo_clients : PromClients := recovering_clients.

Definition demo_settings : settings := mkSettings None NoClient 720 "ops" "" false 0 "" true.
Definition demo_clock : clock := mkClock 100 (λ _, 100%Z) (λ _, 101%Z) (λ _, 1%Z) 102.
Definition demo_world : world := mkWorld (NewPVCWatcherReconciler None 2 ∅) ∅ [].

Lemma inactive_plan_is_cleared_witness :
  res_is_ok (PlanReconcile demo_clock demo_settings "other" demo_world).1.1 = true.
Proof.
  destruct (inactive_plan_is_cleared demo_clock demo_settings "other" demo_world demo_other "main")
    as (st & -> & _); [done|by vm_compute|done].
Defined.

Lemma active_plan_publishes_status_witness :
  ∃ st children, (PlanReconcile demo_clock demo_settings "main" demo_world).1.2 =
    (children ++ [UpdatePlanStatus (with_status demo_main st)])%list ∧
    cs_TotalPVCs (st_Summary st) = 2%Z.
Proof.
  destruct (active_plan_publishes_status demo_clock demo_settings "main" demo_world demo_main "main"
    [mkPVC "ns" "a" "u1" (Some 200%Z); mkPVC "ns" "b" "u2" None])
    as (st & children & series & cache & sent & -> & _ & _ & Ht & _); [done|by vm_compute|done|by exists st, children].
Defined.

Lemma exported_series_match_status_witness :
  ∃ st, last (PlanReconcile demo_clock demo_settings "main" demo_world).1.2 =
    Some (UpdatePlanStatus (with_status demo_main st)).
Proof.
  pose proof (exported_series_match_status demo_clock demo_settings "main" demo_world demo_main "main"
    [mkPVC "ns" "a" "u1" (Some 200%Z); mkPVC "ns" "b" "u2" None] eq_refl ltac:(by vm_compute) eq_refl) as X.
  destruct (PlanReconcile _ _ _ _) as [[r ws] wd]. destruct X as (st & X & _). by exists st.
Defined.

Lemma zero_days_threshold_means_seven_witness : fltb (f_of_Z 6) (thresholds empty_spec).2 = true.
Proof. by apply (zero_days_threshold_means_seven empty_spec ""). Defined.
