(* ===== verification/PlanCircuit.v ===== *)
(** * The circuit breaker across the reconciles of a plan

    The FastAPI client of [Providers] keeps its breaker between calls, and the client
    cache of [PlanReconcile] keeps the client between reconciles.  This file composes
    the two: what becomes of a cached client in a sequence of reconciles, and what a
    reconcile does while the circuit is open. *)

From stdpp Require Import base list strings gmap relations.
From Stdlib Require Import ZArith Lia.
From S2P Require Import Prelude GoSort GoFloat GoText GoStrconv RingBuffer Growth ApiTypes Metrics PromClient K8s Watcher.
From S2P Require Import Risk Summary Workload Budget Anomaly Llm Providers PlanLLM Children PlanReconcile.

Local Open Scope string_scope.

(** ** Lemmas: one call *)

Lemma ask_fastapi `{LlmEnv} `{Platform} `{FastAPIEnv} g b pvc :
  let '(_, reqs, client) := ask_insight (FastAPI g b) pvc in
  client = FastAPI g (fold_left (breaker_run g) (map event_of reqs) b) ∧ (length reqs ≤ 2)%nat ∧
  (bad_answers (fastapi_answers g pvc) → Cleared ∉ map event_of reqs).
Proof.
  unfold ask_insight. pose proof (generate_history g pvc (fastapi_answers g pvc) b) as Hh.
  destruct (fastapi_GenerateInsight g pvc (fastapi_answers g pvc) b) as [[r reqs] b'].
  destruct Hh as (-> & Hl & Hbad). by split_and!.
Qed.

Lemma ask_open `{LlmEnv} `{Platform} `{FastAPIEnv} g b pvc :
  is_open g b (an_check_time (fastapi_answers g pvc)) = true →
  ask_insight (FastAPI g b) pvc = (Err errFastAPIDegraded, [], FastAPI g b).
Proof.
  intros [Hn Ht]%andb_true_iff. apply Z.leb_le in Hn. unfold ask_insight, fastapi_GenerateInsight, checkAvailability.
  rewrite (proj2 (Z.ltb_ge _ _)) by done. by rewrite Ht.
Qed.

(** A backend that is down for a while: no answer of it is good. *)
Definition backend_down `{LlmEnv} (F : FastAPIEnv) : Prop := ∀ g c, bad_answers (fastapi_answers (FastAPIEnv := F) g c).

Section circuit.
Context `{MetricsLib} `{MapRange} `{SliceSorter} `{Platform} `{Api} `{ChildApi} `{LlmEnv}.
Context `{QuantityLib} `{ConditionLib} `{FastAPIEnv} `{PromEnv} `{!PromClients}.

(** ** Lemmas: the loop over the claims *)

(** What the calls leave of a FastAPI client, and what they can be: the breaker moves by
    the exchanges, none of which is good if the backend is down. *)
Definition moved_by (g : FastAPIInsightGenerator) (b : breaker) (reqs : list exchange) (client : generator) : Prop :=
  client = FastAPI g (fold_left (breaker_run g) (map event_of reqs) b) ∧
  (backend_down _ → Cleared ∉ map event_of reqs).

Lemma moved_nothing g b : moved_by g b [] (FastAPI g b).
Proof. split; [done|]. intros _. apply not_elem_of_nil. Qed.

Lemma buildSummary_circuit since done_ took cap pvc samples usageT daysT interval g b provider model prev only m :
  let '(_, sent, client, _) := buildSummary since done_ took cap pvc samples usageT daysT interval (FastAPI g b)
                                 provider model prev only m in
  moved_by g b sent client ∧ (length sent ≤ 2)%nat.
Proof.
  unfold buildSummary. cbn [is_generator negb]. set (f := summary_figures _ _ _ _ _ _).
  pose proof (moved_nothing g b) as Hnil.
  destruct (only && negb (fi_alert f)); [split; [done|simpl; lia]|].
  destruct (match ps_LastLLMTime prev with Some _ => _ | None => _ end); [|split; [done|simpl; lia]].
  pose proof (ask_fastapi g b (insight_context pvc samples f)) as Ha.
  destruct (ask_insight _ _) as [[[text|e] sent] client]; destruct Ha as (Hc & Hr & Hes);
    (split; [|done]; split; [done|]; intros Hd; apply Hes, Hd).
Qed.

Lemma summarize_circuit ck w usageT daysT interval ch prev only pvcs acc g b :
  pg_client acc = FastAPI g b →
  let run := fold_left (summarize_one ck w usageT daysT interval ch prev only) pvcs acc in
  ∃ reqs, pg_sent run = (pg_sent acc ++ reqs)%list ∧ (length reqs ≤ 2 * length pvcs)%nat ∧
  moved_by g b reqs (pg_client run).
Proof.
  revert acc b. induction pvcs as [|pvc pvcs IH]; intros acc b Hc; cbn [fold_left].
  { exists []. rewrite app_nil_r, Hc. split_and!; [done|simpl; lia|apply moved_nothing]. }
  set (key := pvc_key (pvc_Namespace pvc) (pvc_Name pvc)).
  pose proof (buildSummary_circuit (ck_since ck key) (ck_done ck key) (ck_took ck key) (GetLatestCapacity key w) pvc
    (GetSnapshot key w) usageT daysT interval g b (ch_provider ch) (ch_model ch)
    (default zero_PVCSummary (prev !! key)) only (pg_series acc)) as Hs.
  unfold summarize_one at 2 4. fold key. rewrite Hc.
  destruct (buildSummary _ _ _ _ _ _ _ _ _ _ _ _ _ _ _) as [[[s sent] client] m]. destruct Hs as [[-> Hw1] Hsent].
  destruct (IH (mkProgress (pg_summaries acc ++ [s]) (<[key := GetSnapshot key w]> (pg_snapshots acc))
    (pg_sent acc ++ sent) (FastAPI g (fold_left (breaker_run g) (map event_of sent) b)) m)%list _ eq_refl)
    as (reqs & -> & Hle & -> & Hw2).
  exists (sent ++ reqs)%list. unfold moved_by. rewrite length_app, map_app, fold_left_app. cbn [length pg_sent].
  split_and!; [by rewrite (assoc_L (++)%list)|lia|done|].
  intros Hd [?|?]%elem_of_app; [by apply Hw1|by apply Hw2].
Qed.

(** With the circuit open nothing is sent and nothing changes. *)
Definition keeps_insight (prev : gmap string PVCSummary) (pvc : PersistentVolumeClaim) (s : PVCSummary) : Prop :=
  let old := default zero_PVCSummary (prev !! pvc_key (pvc_Namespace pvc) (pvc_Name pvc)) in
  ps_LLMInsight s = ps_LLMInsight old ∧ ps_LastLLMTime s = ps_LastLLMTime old.

Lemma buildSummary_open since done_ took cap pvc samples usageT daysT interval g b provider model prev only m :
  (∀ c, is_open g b (an_check_time (fastapi_answers g c)) = true) →
  let '(s, sent, client, _) := buildSummary since done_ took cap pvc samples usageT daysT interval (FastAPI g b)
                                 provider model prev only m in
  sent = [] ∧ client = FastAPI g b ∧ ps_LLMInsight s = ps_LLMInsight prev ∧ ps_LastLLMTime s = ps_LastLLMTime prev.
Proof.
  intros Ho. unfold buildSummary. cbn [is_generator negb].
  destruct (only && _); [done|]. destruct (match ps_LastLLMTime prev with Some _ => _ | None => _ end); [|done].
  by rewrite ask_open.
Qed.

Lemma summarize_open ck w usageT daysT interval ch prev only pvcs acc g b :
  pg_client acc = FastAPI g b → (∀ c, is_open g b (an_check_time (fastapi_answers g c)) = true) →
  let run := fold_left (summarize_one ck w usageT daysT interval ch prev only) pvcs acc in
  pg_client run = FastAPI g b ∧ pg_sent run = pg_sent acc ∧
  ∃ ss, pg_summaries run = (pg_summaries acc ++ ss)%list ∧ Forall2 (keeps_insight prev) pvcs ss.
Proof.
  intros Hc Ho. revert acc Hc. induction pvcs as [|pvc pvcs IH]; intros acc Hc; cbn [fold_left].
  { split_and!; [done..|]. exists []. rewrite app_nil_r. by split; [|constructor]. }
  set (key := pvc_key (pvc_Namespace pvc) (pvc_Name pvc)).
  pose proof (buildSummary_open (ck_since ck key) (ck_done ck key) (ck_took ck key) (GetLatestCapacity key w) pvc
    (GetSnapshot key w) usageT daysT interval g b (ch_provider ch) (ch_model ch)
    (default zero_PVCSummary (prev !! key)) only (pg_series acc) Ho) as Hs.
  unfold summarize_one at 2 4 6. fold key. rewrite Hc.
  destruct (buildSummary _ _ _ _ _ _ _ _ _ _ _ _ _ _ _) as [[[s sent] client] m]. destruct Hs as (-> & -> & Hi).
  rewrite app_nil_r.
  destruct (IH (mkProgress (pg_summaries acc ++ [s]) (<[key := GetSnapshot key w]> (pg_snapshots acc))
    (pg_sent acc) (FastAPI g b) m)%list eq_refl) as (-> & -> & ss & -> & HF).
  split_and!; [done..|]. exists (s :: ss). cbn [pg_summaries]. split; [by rewrite <-(assoc_L (++)%list)|by constructor].
Qed.

Lemma summarize_stateless ck w usageT daysT interval ch prev only pvcs acc :
  (∀ g b, pg_client acc ≠ FastAPI g b) →
  let run := fold_left (summarize_one ck w usageT daysT interval ch prev only) pvcs acc in
  pg_client run = pg_client acc ∧ pg_sent run = pg_sent acc.
Proof.
  revert acc. induction pvcs as [|pvc pvcs IH]; intros acc Hc; cbn [fold_left]; [done|].
  assert (pg_client (summarize_one ck w usageT daysT interval ch prev only acc pvc) = pg_client acc ∧
          pg_sent (summarize_one ck w usageT daysT interval ch prev only acc pvc) = pg_sent acc) as [H1' H2'].
  { unfold summarize_one, buildSummary. destruct (pg_client acc) as [|c|g b]; [|destruct c|by destruct (Hc g b)];
      cbn [is_generator negb ask_insight]; repeat case_match; simplify_eq; cbn [pg_client pg_sent]; by rewrite app_nil_r. }
  destruct (IH (summarize_one ck w usageT daysT interval ch prev only acc pvc)) as [-> ->]; [by rewrite H1'|done].
Qed.

(** What the loop over the claims makes of the client and the requests. *)
Lemma summarize_pvcs_client ck plan w ch pvcs :
  let run := summarize_pvcs ck plan w ch pvcs in
  (length (pg_sent run) ≤ 2 * length pvcs)%nat ∧
  match ch_client ch with
  | FastAPI g b => moved_by g b (pg_sent run) (pg_client run)
  | gen => pg_client run = gen ∧ pg_sent run = []
  end.
Proof.
  unfold summarize_pvcs. destruct (thresholds _) as [usageT daysT].
  set (acc := mkProgress [] ∅ [] (ch_client ch) (w_series w)).
  set (interval := insight_interval _). set (prev := summaries_by_key _). set (only := lp_OnlyAlertingPVCs _).
  pose proof (summarize_stateless ck w usageT daysT interval ch prev only pvcs acc) as Hs.
  pose proof (summarize_circuit ck w usageT daysT interval ch prev only pvcs acc) as Hf.
  cbn [pg_client pg_sent acc] in Hs, Hf. destruct (ch_client ch) as [|c|g b].
  1, 2: destruct Hs as [-> ->]; [done|]; simpl; split; [lia|done].
  destruct (Hf g b eq_refl) as (reqs & -> & Hr & Hm). by split.
Qed.

(** ** Lemmas: the cache *)

(** A client no call was made to. *)
Definition fresh (gen : generator) : Prop := ∀ g b, gen = FastAPI g b → b = closed ∧ (0 < fg_failureThreshold g)%Z.

(** What choosing a client does to the cache: nothing, or it gets the new client under
    its key; a client with a key is in the cache from then on. *)
Lemma chosen_client cfg spec cache :
  let '(ch, cache') := choose_llm cfg spec cache in
  (cache' = cache ∨ ch_key ch ≠ "" ∧ cache !! ch_key ch = None ∧ fresh (ch_client ch) ∧
     cache' = <[ch_key ch := ch_client ch]> cache) ∧
  (ch_key ch = "" ∨ ch_client ch = NoGenerator ∨ cache' !! ch_key ch = Some (ch_client ch)).
Proof.
  unfold choose_llm. destruct (LLMClient cfg) as [c|]; [by split; left|].
  unfold resolvePlanLLMClient. destruct (buildLLMProviderConfig _ _ _) as [[pc key]|e]; [|by split; left].
  destruct (String.eqb_spec (cf_Provider pc) "disabled"); [by split; left|].
  destruct (String.eqb_spec key "") as [->|Hk].
  - destruct (NewInsightGenerator pc) as [gen|e] eqn:Hg; [|by split; left].
    destruct gen; cbn [is_generator ch_key ch_client]; by split; left.
  - unfold getCachedLLMClient. destruct (cache !! key) as [gen|] eqn:Hc.
    { destruct gen; cbn [is_generator ch_key ch_client]; (split; [by left|by right; right]). }
    destruct (NewInsightGenerator pc) as [gen|e] eqn:Hg; [|by split; left].
    assert (fresh gen) as Hf by (intros g b ->; by eapply new_generator_fresh).
    destruct gen; cbn [is_generator ch_key ch_client]; (split; [|right]); auto;
      right; unfold setCachedLLMClient; by rewrite ?lookup_insert_eq.
Qed.

(** The exchanges of the client with a key, in order. *)
Definition exchanges (k : string) (log : list (string * exchange)) : list exchange :=
  map snd (List.filter (λ x, x.1 =? k) log).

Lemma exchanges_app k log log' : exchanges k (log ++ log') = (exchanges k log ++ exchanges k log')%list.
Proof. unfold exchanges. by rewrite List.filter_app, map_app. Qed.

Lemma exchanges_tagged k k' reqs :
  exchanges k (map (pair k') reqs) = if (k' =? k) then reqs else [].
Proof.
  unfold exchanges. destruct (k' =? k) eqn:E; induction reqs as [|x reqs IH]; simpl; rewrite ?E; simpl; congruence.
Qed.

(** The breaker of every cached FastAPI client is where the exchanges its client has had
    take a closed breaker; a key without such a client has had none. *)
Definition circuits_ok (cache : gmap string generator) (log : list (string * exchange)) : Prop :=
  cache !! "" = None ∧
  ∀ k, k ≠ "" →
    match cache !! k with
    | Some (FastAPI g b) => (0 < fg_failureThreshold g)%Z ∧
        b = fold_left (breaker_run g) (map event_of (exchanges k log)) closed
    | _ => exchanges k log = []
    end.

(** The clients stay under their keys, each moved on by the exchanges it has had since;
    and by failures only, if [down]. *)
Definition follows (down : Prop) (c : gmap string generator * list (string * exchange))
    (c' : gmap string generator * list (string * exchange)) : Prop :=
  ∀ k g b, c.1 !! k = Some (FastAPI g b) →
    ∃ more, exchanges k c'.2 = (exchanges k c.2 ++ more)%list ∧
    c'.1 !! k = Some (FastAPI g (fold_left (breaker_run g) (map event_of more) b)) ∧
    (down → Cleared ∉ map event_of more).

Lemma follows_refl down c : follows down c c.
Proof.
  intros k g b Hk. exists []. rewrite app_nil_r. split_and!; [done..|]. by intros _ ?%not_elem_of_nil.
Qed.

(** A reconcile that does not use a FastAPI client: the cache may get a new client. *)
Lemma put_new cache log k gen :
  circuits_ok cache log → k ≠ "" → cache !! k = None → fresh gen → circuits_ok (<[k := gen]> cache) log.
Proof.
  intros [Hnil Hok] Hne Hk Hf. split; [by rewrite lookup_insert_ne|]. intros k' Hne'. specialize (Hok k' Hne').
  destruct (decide (k = k')) as [<-|Hd]; [|by rewrite lookup_insert_ne]. rewrite lookup_insert_eq.
  rewrite Hk in Hok. destruct gen as [| |g b]; [done..|]. rewrite Hok. destruct (Hf g b eq_refl) as [-> ?]. done.
Qed.

(** A FastAPI client in the cache, after some calls. *)
Lemma put_moved (down : Prop) cache log k g b reqs :
  circuits_ok cache log → k ≠ "" → cache !! k = Some (FastAPI g b) → (down → Cleared ∉ map event_of reqs) →
  let cache' := <[k := FastAPI g (fold_left (breaker_run g) (map event_of reqs) b)]> cache in
  let log' := (log ++ map (pair k) reqs)%list in
  circuits_ok cache' log' ∧ follows down (cache, log) (cache', log').
Proof.
  intros [Hnil Hok] Hne Hk Hd. simpl. split.
  - split; [by rewrite lookup_insert_ne|]. intros k' Hne'. pose proof (Hok k' Hne') as Hk'.
    rewrite exchanges_app, exchanges_tagged. destruct (String.eqb_spec k k') as [<-|Hn].
    + rewrite lookup_insert_eq. rewrite Hk in Hk'. destruct Hk' as [Ht ->]. split; [done|].
      by rewrite map_app, fold_left_app.
    + rewrite lookup_insert_ne, app_nil_r by done. done.
  - intros k' g' b' Hk'. cbn [fst snd] in *. rewrite exchanges_app, exchanges_tagged.
    destruct (String.eqb_spec k k') as [<-|Hn]; [exists reqs; simplify_eq; by rewrite lookup_insert_eq|].
    rewrite lookup_insert_ne by done. exists []. split_and!; [done..|]. by intros _ ?%not_elem_of_nil.
Qed.

Lemma follows_trans down c1 c2 c3 : follows down c1 c2 → follows down c2 c3 → follows down c1 c3.
Proof.
  intros H12 H23 k g b Hk. destruct (H12 k g b Hk) as (m1 & He1 & Hk2 & Hd1).
  destruct (H23 k g _ Hk2) as (m2 & He2 & Hk3 & Hd2). exists (m1 ++ m2)%list.
  rewrite He2, He1, map_app, fold_left_app, (assoc_L (++)%list). split_and!; [done..|].
  intros Hd [?|?]%elem_of_app; [by apply Hd1|by apply Hd2].
Qed.

(** A client that is in no cache leaves no trace in it. *)
Lemma follows_unnamed down cache log reqs :
  circuits_ok cache log → let log' := (log ++ map (pair "") reqs)%list in
  circuits_ok cache log' ∧ follows down (cache, log) (cache, log').
Proof.
  intros [Hnil Hok]. simpl.
  assert (∀ k, k ≠ "" → exchanges k (log ++ map (pair "") reqs)%list = exchanges k log) as He.
  { intros k Hne. rewrite exchanges_app, exchanges_tagged, (proj2 (String.eqb_neq _ _)), app_nil_r by done. done. }
  split; [split; [done|intros k Hne; rewrite He by done; by apply Hok]|].
  intros k g b Hl. cbn [fst snd] in *. rewrite He by congruence. by apply (follows_refl down (cache, log)).
Qed.

Lemma kept_cache (down : Prop) cfg spec cache log client reqs :
  let '(ch, cache') := choose_llm cfg spec cache in
  match ch_client ch with
  | FastAPI g b => client = FastAPI g (fold_left (breaker_run g) (map event_of reqs) b) ∧
      (down → Cleared ∉ map event_of reqs)
  | gen => client = gen ∧ reqs = []
  end →
  circuits_ok cache log →
  let log' := (log ++ map (pair (ch_key ch)) reqs)%list in
  circuits_ok (keep_client (ch_key ch) client cache') log' ∧
  follows down (cache, log) (keep_client (ch_key ch) client cache', log').
Proof.
  pose proof (chosen_client cfg spec cache) as X. destruct (choose_llm cfg spec cache) as [ch cache'].
  destruct X as [Hc' Hin]. intros Hcl Hok.
  assert (circuits_ok cache' log ∧ follows down (cache, log) (cache', log)) as [Hok' Hf'].
  { destruct Hc' as [->|(Hk & Hn & Hf & ->)]; [split; [done|apply follows_refl]|].
    split; [by apply put_new|]. intros k g b Hl. cbn [fst snd] in *. rewrite lookup_insert_ne by congruence.
    by apply (follows_refl down (cache, log)). }
  destruct (ch_client ch) as [|c|g b].
  1, 2: destruct Hcl as [-> ->]; simpl; by rewrite app_nil_r.
  destruct Hcl as [-> Hd]. simpl. destruct (String.eqb_spec (ch_key ch) "") as [->|Hk].
  - destruct (follows_unnamed down cache' log reqs Hok') as [? ?]. split; [done|by eapply follows_trans].
  - destruct Hin as [?|[?|Hin]]; [done..|].
    destruct (put_moved down cache' log (ch_key ch) g b reqs Hok' Hk Hin Hd) as [? ?].
    split; [done|by eapply follows_trans].
Qed.

(** With the circuit open the client comes out as it went in. *)
Lemma open_client_kept cfg spec cache g b :
  let '(ch, cache') := choose_llm cfg spec cache in
  ch_client ch = FastAPI g b → cache !! ch_key ch = Some (FastAPI g b) →
  keep_client (ch_key ch) (FastAPI g b) cache' = cache.
Proof.
  pose proof (chosen_client cfg spec cache) as X. destruct (choose_llm cfg spec cache) as [ch cache'].
  destruct X as [[->|(_ & Hn & _)] _]; intros Hc Hl; [|congruence]. unfold keep_client.
  destruct (_ =? ""); [done|]. by apply insert_id.
Qed.

Lemma open_pvcs ck plan w ch pvcs g b :
  ch_client ch = FastAPI g b → (∀ c, is_open g b (an_check_time (fastapi_answers g c)) = true) →
  let run := summarize_pvcs ck plan w ch pvcs in
  pg_client run = FastAPI g b ∧ pg_sent run = [] ∧
  Forall2 (keeps_insight (summaries_by_key (st_PVCs (cp_Status plan)))) pvcs (pg_summaries run).
Proof.
  intros Hc Ho. unfold summarize_pvcs. destruct (thresholds _) as [usageT daysT].
  set (acc := mkProgress [] ∅ [] (ch_client ch) (w_series w)).
  set (prev := summaries_by_key _). set (only := lp_OnlyAlertingPVCs _).
  destruct (summarize_open ck w usageT daysT (insight_interval (cp_Spec plan)) ch prev only pvcs acc g b Hc Ho)
    as (-> & -> & ss & -> & HF). done.
Qed.

(** One reconcile, of any plan. *)
Lemma reconcile_cache ck cfg name wd :
  let '(_, _, wd') := PlanReconcile ck cfg name wd in
  circuits_ok (wd_cache wd) (wd_sent wd) →
  circuits_ok (wd_cache wd') (wd_sent wd') ∧
  follows (backend_down _) (wd_cache wd, wd_sent wd) (wd_cache wd', wd_sent wd').
Proof.
  unfold PlanReconcile.
  destruct (get_plan name) as [plan|e]; [|destruct (err_notfound e); by split; [|apply follows_refl]].
  destruct (isActivePlan plan) as [[[] active]|e]; [| |by split; [|apply follows_refl]].
  2: { destruct (markPlanInactive _ _ _). by split; [|apply follows_refl]. }
  destruct (listScopedPVCs (sp_Namespaces (cp_Spec plan))) as [pvcs|e] eqn:Hl.
  2: { unfold reconcile_active. rewrite Hl. by split; [|apply follows_refl]. }
  destruct (reconcile_active_shape ck cfg plan wd pvcs Hl) as (st & m0 & -> & _). cbn [wd_cache wd_sent].
  set (w := configureWatcherForPlan _ _ _).
  pose proof (kept_cache (backend_down _) cfg (cp_Spec plan) (wd_cache wd) (wd_sent wd)) as Hk.
  destruct (choose_llm _ _ _) as [ch cache']. cbn [fst snd]. apply Hk.
  by destruct (summarize_pvcs_client ck plan w ch pvcs).
Qed.
End circuit.

(** ** Sequences of reconciles

    Each with its own cluster, backend answers, clock, settings and plan. *)

Section operator.
Context `{MetricsLib} `{MapRange} `{SliceSorter} `{Platform} `{LlmEnv} `{QuantityLib} `{ConditionLib}.
Context `{PromEnv} `{!PromClients}.

Inductive reconciled (P : FastAPIEnv → Prop) : world → world → Prop :=
  a_reconcile (A : Api) (C : ChildApi) (F : FastAPIEnv) ck cfg name wd r writes wd' :
    P F → PlanReconcile ck cfg name wd = (r, writes, wd') → reconciled P wd wd'.

Lemma reconciles_cache (P : FastAPIEnv → Prop) wd wd' :
  rtc (reconciled P) wd wd' → circuits_ok (wd_cache wd) (wd_sent wd) →
  circuits_ok (wd_cache wd') (wd_sent wd') ∧
  follows (∀ F, P F → backend_down F) (wd_cache wd, wd_sent wd) (wd_cache wd', wd_sent wd').
Proof.
  induction 1 as [wd|wd wd1 wd2 [A C F ck cfg name wdx r writes wdy HP Hr] _ IH]; intros Hok;
    [by split; [|apply follows_refl]|].
  pose proof (reconcile_cache ck cfg name wdx) as Hstep. rewrite Hr in Hstep. destruct (Hstep Hok) as [Hok1 Hf1].
  destruct (IH Hok1) as [Hok2 Hf2]. split; [done|]. refine (follows_trans _ _ _ _ _ Hf2).
  intros k g b Hk. destruct (Hf1 k g b Hk) as (more & ? & ? & Hd). exists more. split_and!; [done..|].
  intros Hall. by apply Hd, Hall.
Qed.

Lemma failures_only es fs :
  Cleared ∉ es →
  length (fold_left (λ acc e, match e with Failed t => t :: acc | Cleared => [] end) es fs) = (length fs + length es)%nat.
Proof.
  revert fs. induction es as [|e es IH]; intros fs Hc; [simpl; lia|]. apply not_elem_of_cons in Hc as [He Hc].
  cbn [fold_left]. destruct e as [t|]; [|done]. rewrite IH by done. simpl. lia.
Qed.

(** The failures of a client that count: those of its exchanges since the last good one,
    the latest first. *)
Definition failed_since_good (key : string) (wd : world) : list Z :=
  failures_since_success (map event_of (exchanges key (wd_sent wd))).

(** The client refuses a call, without asking anything, exactly while the circuit is open. *)
Lemma check_refuses g b a :
  checkAvailability g a b = (false, [], b) ↔ is_open g b (an_check_time a) = true.
Proof.
  unfold is_open, checkAvailability. rewrite andb_true_iff, Z.leb_le.
  destruct (Z.ltb_spec (consecutiveFails b) (fg_failureThreshold g)); [split; [done|intros [? _]; lia]|].
  destruct (t_before _ _) eqn:Ht; [done|]. split; [|by intros [_ ?]].
  unfold probeHealth. destruct (_ =? ""); [done|]. destruct (bad_request_url _); [done|].
  by destruct (an_probe a) as [code|]; [destruct (status_ok code)|].
Qed.

(** C11. The circuit breaker of a plan's FastAPI backend survives the reconciles.  Every
    exchange with a backend - a health probe, or a POST, with what came back and when - is
    in the log of the world under the key of its client.  From the start of the operator,
    after any sequence of reconciles of any plans - whatever the cluster, the backend, the
    clock and the settings were each time - a cached client has counted its failed
    exchanges since its last good one (a 2xx probe, a 2xx POST whose answer is not blank),
    no more and no fewer.  Later reconciles keep it under its key and add their exchanges
    to its log; the count is then that of the whole log, and the client refuses a call
    without asking exactly when enough have failed and the latest failure is less than a
    cool-down ago.  As long as the backend gives no good answer every exchange adds one,
    whatever else changes. *)
Theorem circuit_survives_reconciles w wd1 wd2 P key g b1 :
  rtc (reconciled (λ _, True)) (mkWorld w ∅ []) wd1 → rtc (reconciled P) wd1 wd2 →
  wd_cache wd1 !! key = Some (FastAPI g b1) →
  consecutiveFails b1 = Z.of_nat (length (failed_since_good key wd1)) ∧
  ∃ more b2, wd_cache wd2 !! key = Some (FastAPI g b2) ∧
  exchanges key (wd_sent wd2) = (exchanges key (wd_sent wd1) ++ more)%list ∧
  (let failed := failed_since_good key wd2 in
   consecutiveFails b2 = Z.of_nat (length failed) ∧
   ∀ a, checkAvailability g a b2 = (false, [], b2) ↔
     (fg_failureThreshold g ≤ Z.of_nat (length failed))%Z ∧
     ∃ t rest, failed = t :: rest ∧ (an_check_time a < t + fg_cooldown g)%Z) ∧
  ((∀ F, P F → backend_down F) → consecutiveFails b2 = (consecutiveFails b1 + Z.of_nat (length more))%Z).
Proof.
  intros Hr1 Hr2 Hk. assert (circuits_ok ∅ []) as Hstart by (split; [done|intros k _; by rewrite lookup_empty]).
  destruct (reconciles_cache _ _ _ Hr1 Hstart) as [[Hnil Hok1] _]. assert (key ≠ "") as Hne by congruence.
  pose proof (Hok1 key Hne) as Hb1. rewrite Hk in Hb1. destruct Hb1 as [Ht Hb1].
  destruct (reconciles_cache _ _ _ Hr2 (conj Hnil Hok1)) as [_ Hf].
  destruct (Hf key g b1 Hk) as (more & He & Hk2 & Hd). cbn [fst snd] in *. unfold failed_since_good.
  assert (∀ es, consecutiveFails (fold_left (breaker_run g) es closed) = Z.of_nat (length (failures_since_success es)))
    as Hcount by (intros es; by apply (breaker_history g es 0 Ht)).
  split; [by rewrite Hb1, Hcount|]. exists more, (fold_left (breaker_run g) (map event_of more) b1).
  split_and!; [done|done|..].
  - rewrite Hb1, <-fold_left_app, <-map_app, <-He. apply Hcount.
  - intros a. rewrite check_refuses, Hb1, <-fold_left_app, <-map_app, <-He. by apply breaker_history.
  - intros Hdown. rewrite Hb1, <-fold_left_app, !Hcount. unfold failures_since_success.
    rewrite fold_left_app, failures_only, length_map by auto. lia.
Qed.

(** C35. What a reconcile costs a backend.  A reconcile of the active plan whose claims are
    listed sends a FastAPI backend at most two requests per claim.  The plan's cached
    client stays in the cache with the outcome of each of these requests counted: a
    failure each when the backend is down.  When the circuit is open at each
    call, the backend gets no request, the cache stays as it is, and the
    status lists every claim with its previous insight and the time of it.  The status is
    published all the same, with the figures and the [Ready] condition of every
    reconcile. *)
Theorem outage_costs_few_requests `{Api} `{ChildApi} `{FastAPIEnv} ck cfg name wd plan active pvcs :
  get_plan name = Ok plan → isActivePlan plan = Ok (true, active) →
  listScopedPVCs (sp_Namespaces (cp_Spec plan)) = Ok pvcs →
  let ch := (choose_llm cfg (cp_Spec plan) (wd_cache wd)).1 in
  let '(_, writes, wd') := PlanReconcile ck cfg name wd in
  let w := configureWatcherForPlan cfg (cp_Spec plan) (wd_watcher wd) in
  let prev := summaries_by_key (st_PVCs (cp_Status plan)) in
  ∃ st reqs, last writes = Some (UpdatePlanStatus (with_status plan st)) ∧
  Forall2 (summarizes w (thresholds (cp_Spec plan)).1 (thresholds (cp_Spec plan)).2 prev) pvcs (st_PVCs st) ∧
  find_condition "Ready" (st_Conditions st) =
    Some (mkCondition "Ready" ConditionTrue (cp_Generation plan) "ReconcileSucceeded"
            "Capacity plan reconciled successfully") ∧
  wd_sent wd' = (wd_sent wd ++ map (pair (ch_key ch)) reqs)%list ∧ (length reqs ≤ 2 * length pvcs)%nat ∧
  ∀ g b, wd_cache wd !! ch_key ch = Some (FastAPI g b) → ch_client ch = FastAPI g b → ch_key ch ≠ "" →
    (let es := map event_of reqs in
     wd_cache wd' !! ch_key ch = Some (FastAPI g (fold_left (breaker_run g) es b)) ∧
     (backend_down _ → Cleared ∉ es)) ∧
    ((∀ c, is_open g b (an_check_time (fastapi_answers g c)) = true) →
     reqs = [] ∧ wd_cache wd' = wd_cache wd ∧ Forall2 (keeps_insight prev) pvcs (st_PVCs st)).
Proof.
  intros Hp Ha Hl ch. unfold PlanReconcile. rewrite Hp, Ha.
  destruct (reconcile_active_shape ck cfg plan wd pvcs Hl) as (st & m0 & -> & _ & Hpv & Hc & _). cbv zeta.
  exists st. cbn [wd_sent wd_cache]. fold ch. rewrite Hpv, Hc. set (w := configureWatcherForPlan _ _ _).
  destruct (summarize_pvcs_client ck plan w ch pvcs) as [Hr X].
  pose proof (summarize_pvcs_all ck plan w ch pvcs) as HF.
  pose proof (ready_after_reconcile cfg plan ch) as Hready.
  exists (pg_sent (summarize_pvcs ck plan w ch pvcs)). split_and!; [by rewrite last_snoc|done|done|done|done|].
  intros g b Hcache Hcl Hk. rewrite Hcl in X. destruct X as [Hkc Hd]. split.
  - split; [|done]. rewrite Hkc. unfold keep_client. rewrite (proj2 (String.eqb_neq _ _)) by done.
    by rewrite lookup_insert_eq.
  - intros Ho. destruct (open_pvcs ck plan w ch pvcs g b Hcl Ho) as (Hkeep & Hs & HI).
    split_and!; [done|rewrite Hkeep|done].
    pose proof (open_client_kept cfg (cp_Spec plan) (wd_cache wd) g b) as Y.
    subst ch. destruct (choose_llm _ _ _) as [ch cache']. by apply Y.
Qed.
End operator.

(** ** A backend that is down

    One plan with a FastAPI backend that opens the circuit at the first failure and
    answers every call with 500; two claims. *)

Definition down_plan : CapacityPlan :=
  mkCapacityPlan "main" 1 1
    (mkCapacityPlanSpec [] 0 0 0 "" (mkThresholdSpec "" 0) (mkBudgetSpec [] []) 0
       (mkLLMProviderSpec "fastapi" "" 0 0 None false (mkOpenAIProviderSpec "" "" "") (mkAnthropicProviderSpec "" "" "")
          (mkFastAPIProviderSpec "http://f/insight" "" "" false "http://f/healthz" 1 0) (mkOllamaProviderSpec "")) "")
    empty_status.
Definition down_pvcs : list PersistentVolumeClaim := [mkPVC "ns" "a" "u1" (Some 200%Z); mkPVC "ns" "b" "u2" None].

#[local] Instance down_api : Api := {|
  get_pvc _ name := Err (not_found name); list_pvcs _ := Ok down_pvcs;
  list_pods _ := Ok []; get_replicaset _ name := Err (not_found name); get_job _ name := Err (not_found name);
  get_secret _ name := Err (not_found name); list_plans := Ok [down_plan]; get_plan name := Ok down_plan;
  get_notification _ name := Err (not_found name) |}.
#[local] Instance down_server : ChildApi := {|
  get_rule _ name := Err (not_found name); get_configmap _ name := Err (not_found name); write_error _ := None |}.
#[local] Instance down_backend : FastAPIEnv := {|
  fastapi_answers _ _ := mkAnswers 100 (Ok 500%Z) (Ok (500%Z, "down")) 100 |}.
#[local] Existing Instances amd64 insertion_sorter demo_llm demo_quantities.
#[local] Instance down_prom : PromEnv := demo_prom demo_used.
#[local] Instance down_clients : PromClients := recovering_clients.

Definition down_start : world := mkWorld (NewPVCWatcherReconciler None 2 ∅) ∅ [].
Definition down_world : world := (PlanReconcile demo_clock demo_settings "main" down_start).2.
Definition down_key : string := ch_key (choose_llm demo_settings (cp_Spec down_plan) ∅).1.
Definition down_client : FastAPIInsightGenerator := mkFastAPIGen "http://f/insight" "http://f/healthz" "" 1 (60 * second).

Definition open_breaker : breaker := mkBreaker 1 (100 + 60 * second).

Lemma down_world_cache : wd_cache down_world !! down_key = Some (FastAPI down_client open_breaker).
Proof. vm_compute. reflexivity. Qed.

(** The first claim asks the backend, the second one no longer. *)
Example one_request_for_two_claims :
  map (λ r, match r.2 with Post u _ _ _ => u | Probe u _ _ => u | NoProbe _ => "" end) (wd_sent down_world) = ["http://f/insight"].
Proof. vm_compute. reflexivity. Qed.

Lemma down_step P w : P down_backend → reconciled P w (PlanReconcile demo_clock demo_settings "main" w).2.
Proof.
  intros HP. destruct (PlanReconcile demo_clock demo_settings "main" w) as [[r ws] w'] eqn:E.
  exact (a_reconcile P _ _ _ demo_clock demo_settings "main" w r ws w' HP E).
Qed.

Lemma circuit_survives_reconciles_witness :
  ∃ b, wd_cache (PlanReconcile demo_clock demo_settings "main" down_world).2 !! down_key = Some (FastAPI down_client b) ∧
  (1 ≤ consecutiveFails b)%Z.
Proof.
  destruct (circuit_survives_reconciles (NewPVCWatcherReconciler None 2 ∅) down_world
    (PlanReconcile demo_clock demo_settings "main" down_world).2 (eq down_backend) down_key down_client open_breaker)
    as (_ & more & b2 & Hk & _ & _ & Hn);
    [by apply rtc_once, down_step|by apply rtc_once, down_step|apply down_world_cache|].
  exists b2. split; [done|]. rewrite Hn; [simpl; lia|]. intros F <- g c. by split; [intros code [= <-]|].
Defined.

Lemma outage_costs_few_requests_witness :
  wd_sent (PlanReconcile demo_clock demo_settings "main" down_world).2 = wd_sent down_world.
Proof.
  pose proof (outage_costs_few_requests demo_clock demo_settings "main" down_world down_plan "main" down_pvcs
    eq_refl ltac:(by vm_compute) eq_refl) as X. cbv zeta in X.
  destruct (PlanReconcile _ _ _ _) as [[r ws] wd]. destruct X as (st & reqs & _ & _ & _ & Hs & _ & X). cbn [snd]. rewrite Hs.
  destruct (X down_client open_breaker) as [_ [-> _]]; [vm_compute; reflexivity|vm_compute; reflexivity|by vm_compute| |].
  - intros c. vm_compute. reflexivity.
  - apply app_nil_r.
Defined.
