(* ===== verification/UsagePipeline.v ===== *)
(** * From the Prometheus server to the status of the plan

    The way of a number through the operator: the plan names a Prometheus server, its
    reconcile gives the watcher a client of that server, the reconcile of a claim asks
    it and records a sample, and the next reconcile of the plan publishes it.  This
    file composes [PromClient], [Watcher] and [PlanReconcile]. *)

From stdpp Require Import base list strings gmap.
From Stdlib Require Import ZArith Lia.
From S2P Require Import Prelude GoSort GoFloat GoText GoStrconv JsonDoc GoStd RingBuffer Growth ApiTypes Metrics PromClient K8s Watcher.
From S2P Require Import Risk Summary Workload Budget Anomaly Llm Providers PlanLLM Children PlanReconcile.

Local Open Scope string_scope.

(** ** Lemmas: the newest sample *)

Lemma last_lastn {A} n (l : list A) : (1 ≤ n)%nat → last (lastn n l) = last l.
Proof.
  intros Hn. unfold lastn. destruct (decide (length l = 0)) as [->%nil_length_inv|Hl]; [done|].
  rewrite <-(take_drop (length l - n) l) at 3. rewrite last_app.
  destruct (last (drop (length l - n) l)) eqn:E; [done|]. apply last_None, (f_equal length) in E.
  rewrite length_drop in E. simpl in E. lia.
Qed.

Lemma push_newest s q : (1 ≤ q_cap q)%nat → last (q_items (q_push s q)) = Some s.
Proof. intros Hc. unfold q_push. cbn [q_items]. by rewrite last_lastn, last_snoc. Qed.

Section watcher.
Context `{MetricsLib} `{MapRange}.

(** A recorded sample is the newest one of its claim. *)
Lemma reconcile_records `{Api} now ns name w pvc u :
  wf_watcher w → get_pvc ns name = Ok pvc → GetUsage (getMetricsClient w) (mkPVCKey ns name) = Ok u →
  let w' := (Reconcile now ns name w).2 in
  wf_watcher w' ∧ last (GetSnapshot (pvc_key ns name) w') = Some (mkSample now (pu_UsedBytes u)) ∧
  GetLatestCapacity (pvc_key ns name) w' =
    (let cap := effective_capacity u pvc in if (cap <=? 0)%Z then None else Some cap).
Proof.
  intros Hw Hg Hu w'. pose proof (Reconcile_spec now ns name w Hw) as X. cbv zeta in X. subst w'.
  destruct (Reconcile now ns name w) as [r w']. rewrite Hg, Hu in X. cbn [snd].
  destruct X as (Hst & _ & _ & Hv). split_and!; [by eapply steps_wf| |].
  - rewrite GetSnapshot_view, Hv. cbn [fmap option_fmap option_map default from_option v_buf]. apply push_newest.
    destruct Hw as [Hh Hc]. pose proof (wh_retention _ Hh). unfold view_ensure.
    destruct (view w (pvc_key ns name)) as [v|] eqn:Hvw; [|simpl; lia]. specialize (Hc _ _ Hvw).
    destruct (v_uid v =? pvc_UID pvc); cbn [v_buf q_reset q_cap]; lia.
  - by rewrite GetLatestCapacity_view, Hv.
Qed.

(** Reconfiguration keeps it. *)
Lemma configured mc ret i w key :
  wf_watcher w →
  let w' := Configure mc ret i w in
  wf_watcher w' ∧ last (GetSnapshot key w') = last (GetSnapshot key w) ∧
  GetLatestCapacity key w' = GetLatestCapacity key w ∧ w_series w' = w_series w ∧
  getMetricsClient w' = match mc with Some c => c | None => getMetricsClient w end.
Proof.
  intros Hw w'. destruct (Configure_spec w mc ret i Hw) as (Hw' & _ & Hs & _).
  destruct (configure_keeps_newest_samples mc ret i w key Hw) as (Hl & Hc & _ & _ & _ & Hm).
  split_and!; [done| |done..]. subst w'. rewrite Hl. apply last_lastn. destruct (Z.ltb_spec ret 1); lia.
Qed.
End watcher.

Section pipeline.
Context `{MetricsLib} `{MapRange} `{SliceSorter} `{Platform} `{ChildApi} `{LlmEnv} `{QuantityLib} `{ConditionLib}.
Context `{FastAPIEnv} `{PromEnv} `{!PromClients}.

Lemma configured_for_plan cfg spec w key :
  wf_watcher w →
  let w' := configureWatcherForPlan cfg spec w in
  wf_watcher w' ∧ last (GetSnapshot key w') = last (GetSnapshot key w) ∧
  GetLatestCapacity key w' = GetLatestCapacity key w ∧ w_series w' = w_series w ∧
  (sp_PrometheusURL spec ≠ "" → getMetricsClient w' = NewPrometheusClient (sp_PrometheusURL spec)).
Proof.
  intros Hw w'. subst w'. unfold configureWatcherForPlan.
  match goal with |- context [Configure ?mc ?ret ?i w] =>
    destruct (configured mc ret i w key Hw) as (? & ? & ? & ? & Hm) end.
  split_and!; try done. intros Hu%String.eqb_neq. rewrite Hm. by rewrite Hu.
Qed.

(** The watcher a plan's reconcile leaves is the one it configured, the series apart. *)
Lemma reconcile_watcher `{Api} ck cfg name wd plan active pvcs :
  get_plan name = Ok plan → isActivePlan plan = Ok (true, active) →
  listScopedPVCs (sp_Namespaces (cp_Spec plan)) = Ok pvcs →
  ∃ m, wd_watcher (PlanReconcile ck cfg name wd).2 =
       set_series (λ _, m) (configureWatcherForPlan cfg (cp_Spec plan) (wd_watcher wd)).
Proof.
  intros Hp Ha Hl. unfold PlanReconcile. rewrite Hp, Ha.
  destruct (reconcile_active_shape ck cfg plan wd pvcs Hl) as (st & m0 & -> & _). by eexists.
Qed.

Lemma wf_set_series f w : wf_watcher w → wf_watcher (set_series f w).
Proof. intros [[] Hc]. by split. Qed.

(** The series of a claim's usage are not a plan's business. *)
Definition plan_vectors : list metric_vec :=
  [PVCGrowthBytesPerDay; PVCDaysUntilFull; PVCGrowthAcceleration; PVCProjectedFullTimestampSeconds; PVCAnomalyVec;
   PVCRiskChangesTotal; PVCAnomaliesTotal; NamespaceBudgetDaysToBreach; WorkloadBudgetDaysToBreach].

Section other_series.
Context (v : metric_vec) (l : list string) (Hv : mv_name v ∉ map mv_name plan_vectors).

Lemma mset_other v' l' x m : v' ∈ plan_vectors → mget (mset m v' l' x) v l = mget m v l.
Proof.
  intros Hv'. apply mget_mset_ne. left. intros E. apply Hv. rewrite <-E. by apply list_elem_of_fmap_2.
Qed.

Lemma mreset_other v' m : v' ∈ plan_vectors → mget (mreset m v') v l = mget m v l.
Proof.
  intros Hv'. rewrite mget_mreset, decide_False; [done|]. intros E. apply Hv. rewrite <-E. by apply list_elem_of_fmap_2.
Qed.

Lemma export_plan_other summaries risk changes anomalies ns wl m :
  mget (export_plan summaries risk changes anomalies ns wl m) v l = mget m v l.
Proof.
  unfold export_plan. cbv zeta.
  rewrite fold_left_mget by (intros; apply mset_other; do 8 right; left).
  rewrite mreset_other by (do 8 right; left).
  rewrite fold_left_mget by (intros; apply mset_other; do 7 right; left).
  rewrite mreset_other by (do 7 right; left).
  rewrite fold_left_mget.
  2: { intros m' a. unfold export_anomaly, minc. rewrite mset_other by (do 6 right; left). apply mset_other. do 4 right; left. }
  rewrite fold_left_mget by (intros; apply mset_other; do 5 right; left).
  apply fold_left_mget. intros m' s. unfold export_summary. cbv zeta.
  rewrite fold_left_mget by (intros; apply mset_other; do 4 right; left).
  rewrite !mset_other by (unfold plan_vectors; rewrite !elem_of_cons; tauto). done.
Qed.
End other_series.

(** C3. A number stored in Prometheus reaches the status of the plan.  The active plan
    names a server and is reconciled; then a claim is reconciled while the server
    answers the two requests for it with documents of the HTTP API that hold [used] and
    a positive [cap]; then the active plan - changed or not - lists the claim and is
    reconciled.  The status it publishes has a summary of the claim with that usage,
    that capacity, their ratio and the time of the sample, firing if the ratio
    reaches the threshold of the plan; and the exported gauges of the claim hold the
    same numbers. *)
Theorem stored_usage_reaches_the_status (A1 A2 : Api) ck1 ck2 cfg name wd plan1 plan2 active1 active2 pvcs1 pvcs2
    pvc pvc' labels ts used cap now :
  let ns := pvc_Namespace pvc in
  let pname := pvc_Name pvc in
  let url := sp_PrometheusURL (cp_Spec plan1) in
  let query q := url +:+ "/api/v1/query?query=" +:+ query_escape (q (mkPVCKey ns pname)) in
  wf_watcher (wd_watcher wd) → url ≠ "" →
  get_plan (Api := A1) name = Ok plan1 → isActivePlan (H0 := A1) plan1 = Ok (true, active1) →
  listScopedPVCs (H3 := A1) (sp_Namespaces (cp_Spec plan1)) = Ok pvcs1 →
  get_pvc (Api := A2) ns pname = Ok pvc' →
  is_Some (parse_float ts) → small used → small cap → (0 < cap)%Z →
  PromClient.answers (query used_query) (instant_doc labels ts (Some used)) →
  PromClient.answers (query capacity_query) (instant_doc labels ts (Some cap)) →
  get_plan (Api := A2) name = Ok plan2 → isActivePlan (H0 := A2) plan2 = Ok (true, active2) →
  listScopedPVCs (H3 := A2) (sp_Namespaces (cp_Spec plan2)) = Ok pvcs2 → pvc ∈ pvcs2 →
  let wd1 := (PlanReconcile (H3 := A1) ck1 cfg name wd).2 in
  let w2 := (Reconcile (H1 := A2) now ns pname (wd_watcher wd1)).2 in
  let '(_, writes, wd3) := PlanReconcile (H3 := A2) ck2 cfg name (mkWorld w2 (wd_cache wd1) (wd_sent wd1)) in
  let ratio := fdiv (f_of_Z used) (f_of_Z cap) in
  ∃ st s, last writes = Some (UpdatePlanStatus (with_status plan2 st)) ∧ s ∈ st_PVCs st ∧
  (ps_Namespace s, ps_Name s) = (ns, pname) ∧ ps_UsedBytes s = used ∧ ps_CapacityBytes s = cap ∧
  ps_UsageRatio s = ratio ∧ ps_LastSampleTime s = Some now ∧
  (fgeb ratio (thresholds (cp_Spec plan2)).1 = true → ps_AlertFiring s = true) ∧
  let series v := mget (w_series (wd_watcher wd3)) v [ns; pname] in
  series PVCUsageBytes = Some (f_of_Z used) ∧ series PVCCapacityBytes = Some (f_of_Z cap) ∧
  series PVCUsageRatio = Some ratio.
Proof.
  intros ns pname url query Hw Hurl Hp1 Ha1 Hl1 Hg Hts Hu Hc Hpos Hqu Hqc Hp2 Ha2 Hl2 Hin wd1 w2.
  set (u := mkPVCUsage used cap).
  (* the watcher has the client of the server *)
  destruct (reconcile_watcher (H10 := A1) ck1 cfg name wd plan1 active1 pvcs1 Hp1 Ha1 Hl1) as [m1 Hwd1]. fold wd1 in Hwd1.
  destruct (configured_for_plan cfg (cp_Spec plan1) (wd_watcher wd) "" Hw) as (Hw1 & _ & _ & _ & Hm1).
  assert (wf_watcher (wd_watcher wd1)) as Hwf1 by (rewrite Hwd1; by apply wf_set_series).
  assert (GetUsage (getMetricsClient (wd_watcher wd1)) (mkPVCKey ns pname) = Ok u) as Hget.
  { rewrite Hwd1. change (getMetricsClient (set_series _ ?w)) with (getMetricsClient w). rewrite Hm1 by done.
    apply new_client_usage. by apply (usage_values _ _ labels ts (Some used) (Some cap)); [|intros z [[= <-]|[= <-]]| |]. }
  (* the sample is recorded *)
  destruct (reconcile_records (H1 := A2) now ns pname (wd_watcher wd1) pvc' u Hwf1 Hg Hget) as (Hwf2 & Hlast & Hcap).
  destruct (reconcile_exports_usage (H1 := A2) now ns pname (wd_watcher wd1) pvc' u Hwf1 Hg Hget) as (Hs1 & Hs2 & _ & Hs3).
  fold w2 in Hwf2, Hlast, Hcap, Hs1, Hs2, Hs3.
  assert (effective_capacity u pvc' = cap) as Heff
    by (unfold effective_capacity, u; cbn [pu_CapacityBytes]; by rewrite (proj2 (Z.eqb_neq _ _)) by lia).
  cbv zeta in Hs2, Hs3, Hcap. rewrite Heff in *. rewrite (proj2 (Z.ltb_lt _ _)) in Hs3 by done.
  rewrite (proj2 (Z.leb_gt _ _)) in Hcap by done.
  (* and published *)
  unfold PlanReconcile. rewrite Hp2, Ha2. set (wdx := mkWorld w2 _ _).
  destruct (reconcile_active_shape (H3 := A2) ck2 cfg plan2 wdx pvcs2 Hl2) as (st & m0 & -> & Hm0 & Hpv & _). cbv zeta in *.
  destruct (configured_for_plan cfg (cp_Spec plan2) w2 (pvc_key ns pname) Hwf2) as (_ & Hlast3 & Hcap3 & Hser3 & _).
  cbn [wd_watcher wdx] in *. set (w3 := configureWatcherForPlan cfg (cp_Spec plan2) w2) in *.
  rewrite Hlast in Hlast3. rewrite Hcap in Hcap3.
  pose proof (summarize_pvcs_all ck2 plan2 w3 (choose_llm (H3 := A2) cfg (cp_Spec plan2) (wd_cache wd1)).1 pvcs2) as HF.
  apply list_elem_of_lookup in Hin as [i Hi]. destruct (Forall2_lookup_l _ _ _ _ _ HF Hi) as (s & Hsi & insight & t & Hs).
  fold ns pname in Hs. exists st, s. split_and!; [by rewrite last_snoc|rewrite Hpv; by eapply list_elem_of_lookup_2|..].
  1-6: rewrite Hs; unfold summary_figures; rewrite Hcap3, Hlast3; cbn; rewrite ?(proj2 (Z.ltb_lt 0 cap)) by done; try done.
  { intros Hfire. unfold alert_condition. by rewrite Hfire. }
  all: cbn [w_series set_series wd_watcher]; rewrite export_plan_other, Hm0, Hser3
    by (apply (bool_decide_unpack _); vm_compute; reflexivity); done.
Qed.
End pipeline.

(** ** A server to run on

    It holds 1 MiB of usage and 4 MiB of capacity; the plan names it. *)

Definition usage_doc (z : Z) : json := instant_doc [] "1700000000.25" (Some z).
Definition usage_prom : PromEnv := {|
  prom_get u := Answered 200 (render (usage_doc (if contains u "used_bytes" then 1048576 else 4194304))) |}.

Definition served_plan : CapacityPlan :=
  mkCapacityPlan "main" 1 1
    (mkCapacityPlanSpec [] 0 0 0 "http://p" (mkThresholdSpec "0.2" 0) (mkBudgetSpec [] []) 0 (sp_LLM empty_spec) "")
    empty_status.
Definition served_pvc : PersistentVolumeClaim := mkPVC "ns" "a" "u1" None.
Definition served_api : Api := {|
  get_pvc _ _ := Ok served_pvc; list_pvcs _ := Ok [served_pvc];
  list_pods _ := Ok []; get_replicaset _ name := Err (not_found name); get_job _ name := Err (not_found name);
  get_secret _ name := Err (not_found name); list_plans := Ok [served_plan]; get_plan name := Ok served_plan;
  get_notification _ name := Err (not_found name) |}.

#[local] Instance served_children : ChildApi := {|
  get_rule _ name := Err (not_found name); get_configmap _ name := Err (not_found name); write_error _ := None |}.
#[local] Instance served_backend : FastAPIEnv := {| fastapi_answers _ _ := mkAnswers 0 (Ok 200%Z) (Ok (200%Z, "")) 0 |}.
#[local] Existing Instances amd64 insertion_sorter demo_llm demo_quantities usage_prom.
#[local] Instance served_clients : PromClients := recovering_clients.
#[local] Existing Instance served_api.

Definition served_start : world := mkWorld (NewPVCWatcherReconciler None 2 ∅) ∅ [].
Definition served_once : world := (PlanReconcile demo_clock demo_settings "main" served_start).2.
Definition sampled_world : world :=
  mkWorld (Reconcile 50 "ns" "a" (wd_watcher served_once)).2 (wd_cache served_once) (wd_sent served_once).

Lemma usage_answers url z :
  prom_get url = Answered 200 (render (usage_doc z)) → PromClient.answers url (usage_doc z).
Proof.
  intros Hg. exists 200%Z, (render (usage_doc z)). split; [done|]. apply writes_render. apply demo_doc_ok; [constructor|].
  apply (json_number_parts false "1700000000" ".25" ""); [right|right|by left].
  - by do 2 eexists.
  - exists "25". split; [done|]. by do 2 eexists.
Qed.

Lemma stored_usage_reaches_the_status_witness :
  ∃ st s, last (PlanReconcile demo_clock demo_settings "main" sampled_world).1.2 =
    Some (UpdatePlanStatus (with_status served_plan st)) ∧ s ∈ st_PVCs st ∧
  ps_UsedBytes s = 1048576%Z ∧ ps_CapacityBytes s = 4194304%Z ∧ ps_AlertFiring s = true.
Proof.
  pose proof (stored_usage_reaches_the_status served_api served_api demo_clock demo_clock demo_settings "main" served_start
    served_plan served_plan "main" "main" [served_pvc] [served_pvc] served_pvc served_pvc [] "1700000000.25"
    1048576 4194304 50) as X.
  cbv zeta in X. change (pvc_Namespace served_pvc) with "ns" in X. change (pvc_Name served_pvc) with "a" in X.
  fold served_once in X. fold sampled_world in X.
  destruct (PlanReconcile demo_clock demo_settings "main" sampled_world) as [[r ws] wd3].
  destruct X as (st & s & Hst & Hin & _ & Hu & Hc & _ & _ & Hf & _);
    [apply wf_new_watcher|done|reflexivity|by vm_compute|reflexivity|reflexivity|by eexists|unfold small; lia..
    |lia|by apply usage_answers; vm_compute|by apply usage_answers; vm_compute|reflexivity|by vm_compute|reflexivity|left|].
  exists st, s. split_and!; [done..|]. apply Hf. by vm_compute.
Defined.
