(* ===== verification/OperatorStart.v ===== *)
(** * cmd/main.go: the operator's process

    The flags, the options of the manager, the choice of the metrics client, the
    watcher with its backfill from Prometheus, the settings of the plan reconciler, and
    how the process ends.  The manager and what its steps return are those of
    controller-runtime ([ManagerLib]).  The backfill reads through the manager's client
    while the manager is not started yet. *)

From stdpp Require Import base list strings gmap.
From Stdlib Require Import ZArith Lia Ascii.
From S2P Require Import Prelude GoSort GoFloat GoText GoStrconv JsonDoc RingBuffer GoStd ApiTypes Metrics PromClient K8s Llm Watcher.
From S2P Require Import Growth Risk Summary Workload Budget Anomaly Providers PlanLLM Children PlanReconcile.
From S2P Require Import GoFlag.

Local Open Scope go_scope.
Local Open Scope string_scope.

(** ** Definitions *)

(* go: cmd/main.go:39 defaultSampleRetention *)
Definition defaultSampleRetention : Z := 720.
(* go: cmd/main.go:40 defaultBackfillStep *)
Definition defaultBackfillStep : duration := (5 * minute)%Z.

(* go: cmd/main.go backfillWindow *)
Definition backfillWindow (retention : Z) (step : duration) (now : time) : time * time :=
  let retention := if (retention <? 1)%Z then defaultSampleRetention else retention in
  let step := if (step <=? 0)%Z then defaultBackfillStep else step in
  (t_add now (wrap64 (- retention * step)), now).

(** *** The manager *)

(** Debug logging is the logger's business. *)
Record manager_options := mkManagerOptions {
  mo_BindAddress : string;
  mo_SecureServing : bool;
  mo_Authenticated : bool;      (* [FilterProvider] is WithAuthenticationAndAuthorization *)
  mo_NextProtos : option (list string);   (* what the TLS options set, of both servers *)
  mo_ProbeAddress : string;
  mo_LeaderElection : bool;
  mo_LeaderElectionID : string;
}.

(** What controller-runtime does: the flags it and zap declare, and the errors of the
    calls; [rest_mapping] is that of monitoring.coreos.com/v1 ServiceMonitor.  The client
    of a manager reads from its cache, which cannot be read before the manager is
    started: [cache_not_started] is what a read answers until then, an error with a
    text. *)
Class ManagerLib := {
  lib_flags : gmap string flag_value;
  get_config : option error;
  new_manager : manager_options → option error;
  controller_complete : string → option error;
  rest_mapping : option error;
  add_healthz : option error;
  add_readyz : option error;
  mgr_start : option error;
  cache_not_started : error;
  cache_not_started_text : trim_space (err_msg cache_not_started) ≠ "";
}.

(** The manager's client before the manager is started. *)
#[local] Instance unstarted `{ManagerLib} : Api := {|
  get_pvc _ _ := Err cache_not_started; list_pvcs _ := Err cache_not_started; list_pods _ := Err cache_not_started;
  get_replicaset _ _ := Err cache_not_started; get_job _ _ := Err cache_not_started;
  get_secret _ _ := Err cache_not_started; list_plans := Err cache_not_started;
  get_plan _ := Err cache_not_started; get_notification _ _ := Err cache_not_started |}.

Section metrics.
Context `{MetricsLib}.

Section start.
Context `{GoLib} `{PromEnv} `{Platform} `{!PromClients} `{ManagerLib}.

(** The client of the watcher, also the default one of the plans. *)
(* go: cmd/main.go:125-133 main *)
Definition startup_client (prometheusURL : string) : PVCMetricsClient :=
  if negb (prometheusURL =? "") then NewPrometheusClient prometheusURL else empty_mock.

(** The backfill: whether one was configured, its successes, its error and the watcher. *)
(* go: cmd/main.go:141-156 main *)
Definition startup_backfill (prometheusURL : string) (now : time) (w : watcher) : bool * Z * string * watcher :=
  if negb (prometheusURL =? "") then
    let '(start, end_) := backfillWindow defaultSampleRetention defaultBackfillStep now in
    let '(n, backfillErr, w) := BackfillAllPVCs start end_ defaultBackfillStep w in
    (true, n, match backfillErr with Some e => err_msg e | None => "" end, w)
  else (false, 0%Z, "", w).

(** The settings of the plan reconciler, after a backfill with this result. *)
(* go: cmd/main.go:158-174 main *)
Definition operator_settings (prometheusURL POD_NAMESPACE : string) (hasPrometheusOperator : bool)
    (configured : bool) (n : Z) (msg : string) : settings :=
  let metricsClient := startup_client prometheusURL in
  mkSettings None
    (if negb (prometheusURL =? "") then PrometheusDefault metricsClient else OtherClient metricsClient)
    defaultSampleRetention (if POD_NAMESPACE =? "" then "default" else POD_NAMESPACE) POD_NAMESPACE
    configured n msg hasPrometheusOperator.

(** The watcher and the settings the manager starts with. *)
(* go: cmd/main.go:135-174 main *)
Definition startup (prometheusURL POD_NAMESPACE : string) (hasPrometheusOperator : bool) (now : time) (series : mstore) :
    watcher * settings :=
  let w := NewPVCWatcherReconciler (Some (startup_client prometheusURL)) defaultSampleRetention series in
  let '(configured, n, msg, w) := startup_backfill prometheusURL now w in
  (w, operator_settings prometheusURL POD_NAMESPACE hasPrometheusOperator configured n msg).

(** ** The process *)

(** What the process logs about itself. *)
Inductive log_line := Info (msg : string) | Error (e : error) (msg : string).

(** A part of [main]: it logs, and goes on or ends the process with a code. *)
Definition Op (A : Type) : Type := list log_line → list log_line * (A + Z).
Definition op_ret {A} (a : A) : Op A := λ l, (l, inl a).
Definition op_bind {A B} (m : Op A) (k : A → Op B) : Op B := λ l,
  let '(l, r) := m l in match r with inl a => k a l | inr code => (l, inr code) end.
Definition log (line : log_line) : Op () := λ l, ((l ++ [line])%list, inl ()).
Definition exit {A} (code : Z) : Op A := λ l, (l, inr code).

(** [setupLog.Error] and [os.Exit(1)], if there is an error. *)
Definition must (msg : string) (e : option error) : Op () :=
  match e with Some e => op_bind (log (Error e msg)) (λ _, exit 1) | None => op_ret () end.

(* go: cmd/main.go:61-75 main *)
Definition operator_flags : gmap string flag_value :=
  list_to_map
    [("metrics-bind-address", FString "0"); ("health-probe-bind-address", FString ":8081"); ("leader-elect", FBool false);
     ("metrics-secure", FBool true); ("enable-http2", FBool false); ("prometheus-url", FString ""); ("debug", FBool false)].

(* go: cmd/main.go:89-119 main *)
Definition options_of (fs : gmap string flag_value) : manager_options :=
  let secureMetrics := flag_bool fs "metrics-secure" in
  mkManagerOptions (flag_string fs "metrics-bind-address") secureMetrics secureMetrics
    (if negb (flag_bool fs "enable-http2") then Some ["http/1.1"] else None)
    (flag_string fs "health-probe-bind-address") (flag_bool fs "leader-elect") "capacityplanning.pbsladek.io".

(** [flag.Parse]: asking for help ends the process with 0, a bad argument with 2. *)
(* go: cmd/main.go:80-81 main *)
Definition parse_flags (args : list string) : Op (gmap string flag_value) :=
  match Parse go_quote (operator_flags ∪ lib_flags) args with
  | Ok (fs, _) => op_ret fs
  | Err e => exit (if (err_msg e =? err_msg help_requested)%string then 0 else 2)
  end.

(* go: internal/controller/capacityplan_controller.go CapacityPlanReconciler.SetupWithManager *)
Definition plan_SetupWithManager : bool * option error :=
  (match rest_mapping with None => true | Some _ => false end, controller_complete "capacity-plan").

(* go: internal/controller/pvcwatcher_controller.go PVCWatcherReconciler.SetupWithManager *)
Definition watcher_SetupWithManager : option error := controller_complete "pvc-watcher".

(* go: internal/controller/capacityplannotification_controller.go CapacityPlanNotificationReconciler.SetupWithManager *)
Definition notification_SetupWithManager : option error := controller_complete "capacity-plan-notification".

(** What the log says of the metrics client and of the backfill. *)
(* go: cmd/main.go:126-133 main *)
Definition client_line (url : string) : log_line :=
  Info (if negb (url =? "") then "Prometheus metrics client configured"
        else "no --prometheus-url configured; PVC usage metrics will not be collected").

(* go: cmd/main.go:150-155 main *)
Definition backfill_lines (url : string) (now : time) (w : watcher) : Op () :=
  if negb (url =? "") then
    let '(start, end_) := backfillWindow defaultSampleRetention defaultBackfillStep now in
    let '(_, backfillErr, _) := BackfillAllPVCs start end_ defaultBackfillStep w in
    log (match backfillErr with
         | Some e => Error e "PVC startup backfill completed with errors"
         | None => Info "PVC startup backfill completed"
         end)
  else op_ret ().

(** All of [main] before the manager starts. *)
(* go: cmd/main.go:53-194 main *)
Definition setup (args : list string) (POD_NAMESPACE : string) (now : time) (series : mstore) :
    Op (manager_options * watcher * settings) :=
  op_bind (parse_flags args) (λ fs,
  let url := flag_string fs "prometheus-url" in
  op_bind (match get_config with Some _ => exit 1 | None => op_ret () end) (λ _,
  op_bind (must "unable to start manager" (new_manager (options_of fs))) (λ _,
  op_bind (log (client_line url)) (λ _,
  op_bind (must "unable to create controller" watcher_SetupWithManager) (λ _,
  op_bind (backfill_lines url now (NewPVCWatcherReconciler (Some (startup_client url)) defaultSampleRetention series)) (λ _,
  let '(hasPrometheusOperator, planErr) := plan_SetupWithManager in
  let '(w, cfg) := startup url POD_NAMESPACE hasPrometheusOperator now series in
  op_bind (must "unable to create controller" planErr) (λ _,
  op_bind (must "unable to create controller" notification_SetupWithManager) (λ _,
  op_bind (must "unable to set up health check" add_healthz) (λ _,
  op_bind (must "unable to set up ready check" add_readyz) (λ _,
  op_ret (options_of fs, w, cfg))))))))))).

(** The log and the exit code. *)
(* go: cmd/main.go main *)
Definition operator_main (args : list string) (POD_NAMESPACE : string) (now : time) (series : mstore) :
    list log_line * Z :=
  let '(l, r) :=
    op_bind (setup args POD_NAMESPACE now series) (λ _,
    op_bind (log (Info "starting manager")) (λ _, must "problem running manager" mgr_start)) [] in
  (l, match r with inl _ => 0%Z | inr code => code end).
End start.

(** ** Lemmas *)

(** The texts of failed backfills name the claim. *)
Definition names_claim (e : error) : Prop := ∃ p q, err_msg e = p +:+ String "/" q.

Lemma backfill_errors_name start end_ step items n errs w :
  Forall names_claim errs →
  Forall names_claim (fold_left (backfill_one start end_ step) items (n, errs, w)).1.2.
Proof.
  revert n errs w. induction items as [|pvc items IH]; intros n errs w He; [done|]. cbn [fold_left].
  unfold backfill_one at 2. destruct (BackfillFromRange _ _ _ _ _ _ w) as [[e|] w1]; [|by apply IH].
  apply IH, Forall_app. split; [done|]. apply Forall_singleton.
  exists (pvc_Namespace pvc), (pvc_Name pvc +:+ ": " +:+ err_msg e). cbn [wrap_error err_msg].
  by rewrite <-!string_app_assoc.
Qed.

Lemma join_head sep x l : ∃ t, join sep (x :: l) = x +:+ t.
Proof. destruct l; [exists ""; by rewrite string_app_nil_r|by eexists]. Qed.

Lemma joined_not_blank errs e : Forall names_claim errs → join_errors errs = Some e → trim_space (err_msg e) ≠ "".
Proof.
  intros Hall. destruct Hall as [|e0 errs (p & q & He) _]; [done|]. intros [= <-].
  change (trim_space (join nl (err_msg e0 :: map err_msg errs)) ≠ "").
  destruct (join_head nl (err_msg e0) (map err_msg errs)) as [t ->].
  rewrite He, <-string_app_assoc, string_app_cons. by apply visible_not_blank.
Qed.

Lemma default_window now : backfillWindow defaultSampleRetention defaultBackfillStep now = ((now - 60 * hour)%Z, now).
Proof. done. Qed.

(** The newest of the samples pushed into an empty queue. *)
Lemma backfilled_items mc ret start end_ step p :
  q_items (v_buf (view_backfill mc ret start end_ step p None)) =
  match GetUsageRange mc (mkPVCKey (pvc_Namespace p) (pvc_Name p)) start end_ step with
  | Ok points => lastn (Z.to_nat ret) (map sample_of_point points)
  | Err _ => []
  end.
Proof.
  unfold view_backfill. cbn [view_ensure]. destruct (GetUsageRange _ _ _ _ _); [|done].
  rewrite view_pushes; [done|]. cbn [v_buf q_cap q_items]. rewrite lastn_all; [done|simpl; lia].
Qed.

Lemma fresh_watcher mc series :
  let w := NewPVCWatcherReconciler (Some mc) defaultSampleRetention series in
  wf_watcher w ∧ w_retention w = 720%Z ∧ getMetricsClient w = mc ∧ ∀ key, view w key = None.
Proof. split_and!; [apply wf_new_watcher|done..]. Qed.

Lemma BackfillAllPVCs_wf `{Api} start end_ step w : wf_watcher w → wf_watcher (BackfillAllPVCs start end_ step w).2.
Proof.
  intros Hw. unfold BackfillAllPVCs. destruct (_ <=? _)%Z; [done|]. destruct (list_pvcs None) as [items|]; [|done].
  assert (∀ n errs, wf_watcher (fold_left (backfill_one start end_ step) items (n, errs, w)).2) as Hf.
  { revert w Hw. induction items as [|p items IH]; intros w Hw n errs; [done|]. cbn [fold_left]. unfold backfill_one at 2.
    pose proof (backfill_steps (pvc_Namespace p) (pvc_Name p) (pvc_UID p) start end_ step w Hw) as Hs.
    destruct (BackfillFromRange _ _ _ _ _ _ w) as [[e|] w1]; apply IH; by eapply steps_wf. }
  specialize (Hf 0%Z []). by destruct (fold_left _ items _) as [[n errs] w1].
Qed.

(** The condition the plan reports after a backfill with these errors. *)
Lemma backfill_ready_of errs n llm dc ret ons pod prom :
  Forall names_claim errs →
  (backfillReadyStatus (mkSettings llm dc ret ons pod true n
     match join_errors errs with Some e => err_msg e | None => "" end prom)).1.1 = ConditionTrue ↔ errs = [].
Proof.
  intros Hall. unfold backfillReadyStatus. cbn [StartupBackfillConfigured StartupBackfillError negb].
  destruct (join_errors errs) as [e|] eqn:E.
  - pose proof (joined_not_blank _ _ Hall E) as Hb. apply String.eqb_neq in Hb. rewrite Hb.
    split; [done|by intros ->].
  - destruct errs; [|done]. by split.
Qed.

Lemma no_failures {A} (ok : A → bool) (l : list A) : filter (λ p, ¬ ok p) l = [] ↔ ∀ p, p ∈ l → ok p.
Proof.
  split.
  - intros Hx p Hp. destruct (decide (ok p)) as [|Hno]; [done|].
    assert (p ∈ filter (λ p, ¬ ok p) l) as Hin by (by apply list_elem_of_filter). rewrite Hx in Hin. inversion Hin.
  - intros Hx. apply elem_of_nil_inv. intros p [Hno Hp]%list_elem_of_filter. by apply Hno, Hx.
Qed.

(** ** What a backfill restores *)

(** The backfill of a new watcher through a client that can read: a well-formed watcher in
    which the buffer of every claim holds the newest 720 points of the last 60 hours when
    the range query of the Prometheus client succeeds and nothing otherwise - in
    particular the newest 720 samples the server stores for the claim, when it answers
    that query with a document of the HTTP API - and which knows no other claim; the count
    is that of the successes, and the plan's BackfillReady condition is true exactly when
    every query succeeded. *)
Theorem readable_backfill_restores_history `{Api} `{GoLib} `{PromEnv} `{Platform} `{!PromClients} url now series items :
  list_pvcs None = Ok items → NoDup (map key_of items) →
  let start := (now - 60 * hour)%Z in
  let claim p := mkPVCKey (pvc_Namespace p) (pvc_Name p) in
  let query p := prom_GetUsageRange url (claim p) start now defaultBackfillStep in
  let ok p := res_is_ok (query p) in
  let '(n, e, w) := BackfillAllPVCs start now defaultBackfillStep
    (NewPVCWatcherReconciler (Some (NewPrometheusClient url)) defaultSampleRetention series) in
  wf_watcher w ∧
  (∀ p, p ∈ items → GetSnapshot (key_of p) w =
     match query p with Ok points => lastn 720 (map sample_of_point points) | Err _ => [] end) ∧
  (∀ p labels l, p ∈ items → Forall (λ s, small s.1 ∧ small s.2) l →
     PromClient.answers (range_url url (used_query (claim p)) start now defaultBackfillStep) (range_doc labels (Some l)) →
     GetSnapshot (key_of p) w = lastn 720 (map (λ s, mkSample (s.1 * second) s.2) l)) ∧
  (∀ key, key ∉ map key_of items → GetSnapshot key w = []) ∧
  n = Z.of_nat (length (filter ok items)) ∧
  (∀ llm dc ret ons pod prom,
     (backfillReadyStatus (mkSettings llm dc ret ons pod true n
        match e with Some e => err_msg e | None => "" end prom)).1.1 = ConditionTrue ↔ ∀ p, p ∈ items → ok p).
Proof.
  intros Hl Hnd start claim query ok.
  destruct (fresh_watcher (NewPrometheusClient url) series) as (Hw & Hret & Hmc & Hnone).
  set (w0 := NewPVCWatcherReconciler _ _ _) in *.
  pose proof (BackfillAllPVCs_wf start now defaultBackfillStep w0 Hw) as Hwf. destruct Hw as [Hw _].
  pose proof (backfill_fold_spec items start now defaultBackfillStep w0 0 [] Hw Hnd) as Hf.
  pose proof (backfill_errors_name start now defaultBackfillStep items 0 [] w0 (Forall_nil_2 _)) as Hnames.
  unfold BackfillAllPVCs in *. change (defaultBackfillStep <=? 0)%Z with false in *. cbv iota in *. rewrite Hl in *.
  cbv zeta in Hf. rewrite Hmc, Hret in Hf.
  destruct (fold_left _ items _) as [[n errs] w]. cbn [fst snd] in *. destruct Hf as (Hn & He & Hv & Hk).
  assert (∀ p, backfill_ok (NewPrometheusClient url) start now defaultBackfillStep p = ok p) as Hok
    by (intros p; unfold backfill_ok, ok, query; by rewrite new_client_range).
  assert (∀ p, p ∈ items → GetSnapshot (key_of p) w =
     match query p with Ok points => lastn 720 (map sample_of_point points) | Err _ => [] end) as Hsnap.
  { intros p Hp. rewrite GetSnapshot_view, (Hv p Hp), Hnone. cbn. rewrite backfilled_items.
    unfold query. by rewrite <-new_client_range. }
  split; [done|]. split; [done|]. split; [|split; [|split]].
  - intros p labels l Hp Hs Ha. rewrite (Hsnap p Hp). unfold query.
    rewrite (range_values _ _ labels (Some l)) by (done || by intros ? [= <-]). cbn [default from_option].
    by rewrite map_map.
  - intros key Hkey. by rewrite GetSnapshot_view, (Hk key Hkey), Hnone.
  - rewrite Hn, Z.add_0_l. do 2 f_equal. apply list_filter_iff. intros p. by rewrite Hok.
  - intros. rewrite (backfill_ready_of errs n) by done. rewrite <-length_zero_iff_nil, He. cbn [length].
    rewrite Nat.add_0_l, length_zero_iff_nil, no_failures. by setoid_rewrite Hok.
Qed.

(** ** What the operator starts with *)

Section started.
Context `{LlmEnv} `{PromEnv} `{Platform} `{!PromClients} `{ManagerLib}.

(** The backfill of the start cannot list the claims: the watcher stays as it was made. *)
Lemma startup_backfill_fails url now w :
  startup_backfill url now w =
  if (url =? "")%string then (false, 0%Z, "", w) else (true, 0%Z, err_msg cache_not_started, w).
Proof. unfold startup_backfill. by destruct (url =? ""). Qed.

(** Every step before the manager starts succeeds. *)
Definition steps_ok (fs : gmap string flag_value) : Prop :=
  get_config = None ∧ new_manager (options_of fs) = None ∧
  (∀ name, name ∈ ["pvc-watcher"; "capacity-plan"; "capacity-plan-notification"] → controller_complete name = None) ∧
  add_healthz = None ∧ add_readyz = None.

Lemma must_run {B} msg e (k : () → Op B) l :
  op_bind (must msg e) k l = match e with Some err => ((l ++ [Error err msg])%list, inr 1%Z) | None => k () l end.
Proof. by destruct e. Qed.

(** What is logged of the backfill. *)
Definition startup_lines (url : string) : list log_line :=
  if (url =? "")%string then [] else [Error cache_not_started "PVC startup backfill completed with errors"].

Lemma backfill_lines_run {B} url now w (k : () → Op B) l :
  op_bind (backfill_lines url now w) k l = k () (l ++ startup_lines url)%list.
Proof. unfold backfill_lines, startup_lines. destruct (url =? ""); [by rewrite app_nil_r|done]. Qed.

Lemma setup_cases args fs rest pod now series l :
  Parse go_quote (operator_flags ∪ lib_flags) args = Ok (fs, rest) →
  let url := flag_string fs "prometheus-url" in
  match setup args pod now series l with
  | (log, inl x) => steps_ok fs ∧ log = ((l ++ [client_line url]) ++ startup_lines url)%list ∧
      x = (options_of fs, (startup url pod plan_SetupWithManager.1 now series).1,
           (startup url pod plan_SetupWithManager.1 now series).2)
  | (_, inr code) => code = 1%Z ∧ ¬ steps_ok fs
  end.
Proof.
  intros Hp url. unfold setup, parse_flags. rewrite Hp. change (op_bind (op_ret fs) ?k ?l) with (k fs l). cbv beta. fold url.
  unfold steps_ok. destruct get_config; [by split; [|intros (? & _)]|].
  change (op_bind (op_ret ()) ?k ?l) with (k () l). cbv beta. rewrite must_run.
  destruct (new_manager _); [by split; [|intros (_ & ? & _)]|].
  change (op_bind (log ?x) ?k ?l) with (k () (l ++ [x])%list). cbv beta. rewrite must_run.
  unfold watcher_SetupWithManager. destruct (controller_complete "pvc-watcher") eqn:H1'.
  { split; [done|]. intros (_ & _ & Hc & _). specialize (Hc "pvc-watcher" ltac:(left)). congruence. }
  rewrite backfill_lines_run.
  unfold plan_SetupWithManager. cbn [fst]. set (prom := match rest_mapping with None => true | Some _ => false end).
  destruct (startup url pod prom now series) as [w cfg]. rewrite must_run.
  destruct (controller_complete "capacity-plan") eqn:H2'.
  { split; [done|]. intros (_ & _ & Hc & _). specialize (Hc "capacity-plan" ltac:(right; left)). congruence. }
  rewrite must_run. unfold notification_SetupWithManager. destruct (controller_complete "capacity-plan-notification") eqn:H3'.
  { split; [done|]. intros (_ & _ & Hc & _). specialize (Hc "capacity-plan-notification" ltac:(right; right; left)). congruence. }
  rewrite must_run. destruct add_healthz; [by split; [|intros (_ & _ & _ & ? & _)]|].
  rewrite must_run. destruct add_readyz; [by split; [|intros (_ & _ & _ & _ & ?)]|].
  split; [|done]. split_and!; try done. intros name.
  by intros [->|[->|[->|[]%elem_of_nil]%elem_of_cons]%elem_of_cons]%elem_of_cons.
Qed.

Lemma main_code args pod now series :
  (operator_main args pod now series).2 =
  match setup args pod now series [] with
  | (_, inl _) => match mgr_start with None => 0%Z | Some _ => 1%Z end
  | (_, inr code) => code
  end.
Proof.
  unfold operator_main, op_bind at 1. destruct (setup args pod now series []) as [l [x|c]]; [|done].
  change (op_bind (log ?x) ?k ?l) with (k () (l ++ [x])%list). cbv beta. by destruct mgr_start.
Qed.

(** What the manager starts with. *)
Lemma startup_spec url pod prom now series :
  let '(w, cfg) := startup url pod prom now series in
  w = NewPVCWatcherReconciler (Some (startup_client url)) defaultSampleRetention series ∧
  cfg = operator_settings url pod prom (negb (url =? "")%string) 0
          (if (url =? "")%string then "" else err_msg cache_not_started).
Proof. unfold startup. rewrite startup_backfill_fails. by destruct (url =? ""). Qed.

Lemma startup_ready url pod prom :
  backfillReadyStatus (operator_settings url pod prom (negb (url =? "")%string) 0
    (if (url =? "")%string then "" else err_msg cache_not_started)) =
  if (url =? "")%string then
    (ConditionFalse, "NotConfigured", "Startup backfill is disabled because --prometheus-url is not set")
  else (ConditionFalse, "PartialFailure",
        "Startup backfill completed with errors after 0 successful PVCs: " +:+ err_msg cache_not_started).
Proof.
  unfold backfillReadyStatus. cbn [operator_settings StartupBackfillConfigured StartupBackfillError StartupBackfillSuccessfulPVCs].
  destruct (url =? ""); [done|]. cbn [negb]. pose proof cache_not_started_text as Ht. apply String.eqb_neq in Ht. by rewrite Ht.
Qed.

Lemma no_keys `{MapRange} w : w_pvcStates w = ∅ → AllKeys w = [].
Proof.
  intros E. unfold AllKeys. pose proof (map_range_perm (w_pvcStates w)) as Hp. rewrite E, map_to_list_empty in *.
  by apply Permutation_nil_r in Hp as ->.
Qed.

(** The first reconcile of a plan, before any claim was looked at, reports no samples. *)
Lemma no_history_no_samples `{MapRange} `{SliceSorter} `{Api} `{ChildApi} `{QuantityLib} `{ConditionLib} `{FastAPIEnv}
    ck cfg name (w : watcher) plan active pvcs :
  wf_watcher w → (∀ key, GetSnapshot key w = []) →
  get_plan name = Ok plan → isActivePlan plan = Ok (true, active) →
  listScopedPVCs (sp_Namespaces (cp_Spec plan)) = Ok pvcs →
  ∃ st, last (PlanReconcile ck cfg name (mkWorld w ∅ [])).1.2 = Some (UpdatePlanStatus (with_status plan st)) ∧
  length (st_PVCs st) = length pvcs ∧ Forall (λ s, ps_SamplesCount s = 0%Z) (st_PVCs st) ∧
  let '(status, reason, message) := backfillReadyStatus cfg in
  find_condition "BackfillReady" (st_Conditions st) =
    Some (mkCondition "BackfillReady" status (cp_Generation plan) reason message).
Proof.
  intros Hw Hno Hp Ha Hl. unfold PlanReconcile. rewrite Hp, Ha.
  destruct (reconcile_active_shape ck cfg plan (mkWorld w ∅ []) pvcs Hl) as (st & m0 & -> & _ & Hpv & Hc & _).
  exists st. cbn [fst snd]. split; [apply last_snoc|]. cbn [wd_watcher wd_cache] in *.
  set (w' := configureWatcherForPlan _ _ _) in *. set (ch := (choose_llm _ _ _).1) in *.
  pose proof (summarize_pvcs_all ck plan w' ch pvcs) as HF. rewrite <-Hpv in HF.
  assert (∀ key, GetSnapshot key w' = []) as Hno'.
  { intros key. subst w'. unfold configureWatcherForPlan.
    match goal with |- context [Configure ?mc ?r ?i w] =>
      destruct (configure_keeps_newest_samples mc r i w key Hw) as [-> _] end. by rewrite Hno. }
  split; [by rewrite <-(Forall2_length _ _ _ HF)|]. split.
  - clear -HF Hno'. induction HF as [|pvc s pvcs' ss (insight & t & ->) _ IH]; [constructor|].
    constructor; [|done]. cbn [summary_of ps_SamplesCount]. by rewrite Hno'.
  - rewrite Hc. unfold active_conditions. destruct (backfillReadyStatus cfg) as [[st' r] m].
    apply (find_set_conditions _ _ _ _ _ [_; _; _]). apply not_elem_of_nil.
Qed.

(** C17. The operator starts without the history Prometheus has, and its exit code is
    honest.  With arguments that parse, the process ends with 0 exactly when every step and
    the manager itself end without an error, and with 1 otherwise.  What it starts the
    manager with: options under which HTTP/2 is spoken only if asked for and a secure
    metrics endpoint always asks who is there; and, whatever Prometheus has stored, a
    well-formed watcher that knows no claim and has no sample, with a retention of 720 and
    the client of the given URL (without a URL, one that has nothing).  The backfill lists
    the claims through the manager's client, whose cache cannot be read yet: with a URL the
    log names that error, and the settings say that the backfill failed with it after no
    successful claim.  A plan reconciled before any claim was looked at therefore publishes
    every claim with no samples, and the condition BackfillReady false with that text. *)
Theorem operator_starts_without_history `{MapRange} args fs rest pod now series :
  Parse go_quote (operator_flags ∪ lib_flags) args = Ok (fs, rest) →
  let url := flag_string fs "prometheus-url" in
  let code := (operator_main args pod now series).2 in
  (code = 0%Z ↔ steps_ok fs ∧ mgr_start = None) ∧ (code = 0%Z ∨ code = 1%Z) ∧
  ∀ l opts w cfg, setup args pod now series [] = (l, inl (opts, w, cfg)) →
  (mo_NextProtos opts = (if flag_bool fs "enable-http2" then None else Some ["http/1.1"])) ∧
  mo_Authenticated opts = mo_SecureServing opts ∧
  wf_watcher w ∧ w_retention w = 720%Z ∧ AllKeys w = [] ∧ (∀ key, GetSnapshot key w = []) ∧
  getMetricsClient w = (if (url =? "")%string then empty_mock else NewPrometheusClient url) ∧
  (url ≠ "" → Error cache_not_started "PVC startup backfill completed with errors" ∈ l) ∧
  StartupBackfillSuccessfulPVCs cfg = 0%Z ∧
  let message := if (url =? "")%string then "Startup backfill is disabled because --prometheus-url is not set"
    else "Startup backfill completed with errors after 0 successful PVCs: " +:+ err_msg cache_not_started in
  ∀ (SS : SliceSorter) (A : Api) (C : ChildApi) (Q : QuantityLib) (K : ConditionLib) (F : FastAPIEnv)
    ck name plan active pvcs,
    get_plan name = Ok plan → isActivePlan plan = Ok (true, active) →
    listScopedPVCs (sp_Namespaces (cp_Spec plan)) = Ok pvcs →
    ∃ st, last (PlanReconcile ck cfg name (mkWorld w ∅ [])).1.2 = Some (UpdatePlanStatus (with_status plan st)) ∧
    length (st_PVCs st) = length pvcs ∧ Forall (λ s, ps_SamplesCount s = 0%Z) (st_PVCs st) ∧
    ∃ reason, find_condition "BackfillReady" (st_Conditions st) =
      Some (mkCondition "BackfillReady" ConditionFalse (cp_Generation plan) reason message).
Proof.
  intros Hp url code. pose proof (setup_cases args fs rest pod now series [] Hp) as Hs. cbv zeta in Hs. fold url in Hs.
  subst code. rewrite main_code. split; [|split].
  - destruct (setup args pod now series []) as [l [x|c]]; destruct mgr_start; naive_solver.
  - destruct (setup args pod now series []) as [l [x|c]]; destruct mgr_start; naive_solver.
  - intros l opts w cfg E. rewrite E in Hs. destruct Hs as (_ & -> & [= -> -> ->]).
    pose proof (startup_spec url pod plan_SetupWithManager.1 now series) as X.
    destruct (startup _ _ _ _ _) as [w cfg]. destruct X as [-> ->]. cbn [fst snd].
    destruct (fresh_watcher (startup_client url) series) as (Hw & Hret & Hmc & Hnone).
    set (w := NewPVCWatcherReconciler _ _ _) in *.
    assert (∀ key, GetSnapshot key w = []) as Hno by (intros key; by rewrite GetSnapshot_view, Hnone).
    split; [by destruct (flag_bool fs "enable-http2") eqn:Hh; unfold options_of; rewrite Hh|]. split; [done|].
    split; [done|]. split; [done|]. split; [by apply no_keys|]. split; [done|].
    split; [rewrite Hmc; unfold startup_client; by destruct (url =? "")|].
    split. { intros Hu%String.eqb_neq. unfold startup_lines. rewrite Hu. apply elem_of_app. right. left. }
    split; [done|]. intros SS A C Q K F ck name plan active pvcs Hg Ha Hl.
    destruct (no_history_no_samples ck (operator_settings url pod plan_SetupWithManager.1 (negb (url =? "")) 0
      (if url =? "" then "" else err_msg cache_not_started)) name w plan active pvcs Hw Hno Hg Ha Hl) as (st & Hst & Hn & Hz & Hb).
    exists st. split; [done|]. split; [done|]. split; [done|]. rewrite startup_ready in Hb.
    destruct (url =? ""); by eexists.
Qed.
End started.
End metrics.

(** A cluster with two claims, a Prometheus that has samples of both, and a manager that
    runs until it is asked to stop. *)
Definition demo_not_started : error := errorf "the cache is not started, can not read objects".

#[local] Instance demo_manager : ManagerLib.
Proof.
  refine {| lib_flags := {[ "kubeconfig" := FString "" ]}; get_config := None; new_manager _ := None;
    controller_complete _ := None; rest_mapping := Some (errorf "no matches for kind"); add_healthz := None;
    add_readyz := None; mgr_start := None; cache_not_started := demo_not_started |}.
  by apply String.eqb_neq.
Defined.
#[local] Existing Instances amd64 demo_llm.
#[local] Instance demo_start_prom : PromEnv := demo_prom demo_used.
#[local] Instance demo_start_clients : PromClients := recovering_clients.

Definition demo_args : list string := ["--prometheus-url=http://p"; "--leader-elect"].

Definition demo_flags : gmap string flag_value :=
  <["leader-elect" := FBool true]> (<["prometheus-url" := FString "http://p"]> (operator_flags ∪ lib_flags)).

Lemma demo_args_parse : Parse go_quote (operator_flags ∪ lib_flags) demo_args = Ok (demo_flags, []).
Proof. vm_compute. reflexivity. Qed.

(** Prometheus has samples of the claim, and the operator starts without them. *)
Lemma operator_starts_without_history_witness :
  (operator_main demo_args "" (60 * hour) ∅).2 = 0%Z ∧
  match setup demo_args "" (60 * hour) ∅ [] with
  | (l, inl (_, w, cfg)) => GetSnapshot "ns/a" w = [] ∧ StartupBackfillSuccessfulPVCs cfg = 0%Z ∧
      Error demo_not_started "PVC startup backfill completed with errors" ∈ l
  | _ => False
  end ∧
  map UsedBytes (GetSnapshot "ns/a" (BackfillAllPVCs (H1 := demo_api) 0 (60 * hour) defaultBackfillStep
    (NewPVCWatcherReconciler (Some (NewPrometheusClient "http://p")) defaultSampleRetention ∅)).2) = [5; 7]%Z.
Proof.
  assert (flag_string demo_flags "prometheus-url" = "http://p") as Hurl by (vm_compute; reflexivity).
  pose proof (operator_starts_without_history demo_args demo_flags [] "" (60 * hour) ∅ demo_args_parse) as X.
  cbv zeta in X. rewrite Hurl in X.
  destruct X as (Hc & _ & X). split; [apply Hc; split; [|done]; unfold steps_ok; by split_and!|].
  split; [|vm_compute; reflexivity].
  assert (match (setup demo_args "" (60 * hour) ∅ []).2 with inl _ => true | inr _ => false end = true) as E
    by (vm_compute; reflexivity).
  destruct (setup demo_args "" (60 * hour) ∅ []) as [l [[[opts w] cfg]|c]]; [|discriminate E].
  destruct (X l opts w cfg eq_refl) as (_ & _ & _ & _ & _ & Hs & _ & Hl & Hn & _). by split_and!; [|..|apply Hl].
Defined.
