(* ===== verification/Notification.v ===== *)
(** * Notifications

    [CapacityPlanNotificationReconciler] of
    internal/controller/capacityplannotification_controller.go: which notifications
    are sent, what they say and what the status records. *)

From stdpp Require Import base list strings gmap.
From Stdlib Require Import ZArith Lia Ascii Sorted.
From S2P Require Import Prelude GoSort GoFloat GoText GoJson GoStrconv JsonDoc ApiTypes K8s Risk Llm PlanLLM.

Local Open Scope string_scope.
Local Open Scope go_scope.

(* go: internal/controller/capacityplannotification_controller.go defaultNotificationRequeue *)
Definition defaultNotificationRequeue : Z := (5 * minute)%Z.
(* go: internal/controller/capacityplannotification_controller.go defaultNotificationCooldown *)
Definition defaultNotificationCooldown : Z := (30 * minute)%Z.

(** ** Deliveries *)

(** A mail handed to [smtp.SendMail]: the server, the credentials of
    [smtp.PlainAuth] (user, password, host) and the message. *)
Record mail := mkMail {
  ml_addr : string;
  ml_auth : option (string * string * string);
  ml_from : string;
  ml_to : list string;
  ml_msg : string;
}.

(** What a reconcile does to the outside: a POST to a Slack webhook, a mail, or an
    update of the status of the notification. *)
Inductive effect :=
| PostSlack (url payload : string)
| Mail (m : mail)
| UpdateNotificationStatus (n : CapacityPlanNotification).

(** [json.Marshal] of the map with the message; it cannot fail. *)
Definition marshal_text (message : string) : string := render (JObj [("text", JStr message)]).

(** The services the reconciler calls: the check of the request URL, the webhook's
    answer with the body that could be read, the mail server's, and the API server's
    answer to a status update. *)
Class NotifyEnv := {
  bad_webhook_url : string → option error;
  slack_post : string → string → res (Z * string);
  smtp_SendMail : mail → option error;
  notification_update_error : CapacityPlanNotification → option error;
}.

Section notification.
Context `{SliceSorter} `{Platform} `{LlmEnv} `{ConditionLib}.

(* go: internal/controller/capacityplannotification_controller.go setNotificationCondition *)
Definition setNotificationCondition (condType : string) (status : ConditionStatus) (reason message : string)
    (n : CapacityPlanNotification) : CapacityPlanNotification :=
  let st := cn_Status n in
  mkCapacityPlanNotification (cn_Namespace n) (cn_Name n) (cn_Generation n) (cn_Spec n)
    (mkCapacityPlanNotificationStatus
       (SetStatusCondition (nt_Conditions st) (mkCondition condType status (cn_Generation n) reason message))
       (nt_LastSentTime st) (nt_LastDigestHash st) (nt_LastMessage st) (nt_LastSentChannels st)).

Definition with_last_message (msg : string) (n : CapacityPlanNotification) : CapacityPlanNotification :=
  let st := cn_Status n in
  mkCapacityPlanNotification (cn_Namespace n) (cn_Name n) (cn_Generation n) (cn_Spec n)
    (mkCapacityPlanNotificationStatus (nt_Conditions st) (nt_LastSentTime st) (nt_LastDigestHash st) msg
       (nt_LastSentChannels st)).

(** The time, hash and channels of an attempt. *)
(* go: internal/controller/capacityplannotification_controller.go:133-136 Reconcile *)
Definition with_attempt (now : Z) (hash : string) (channels : list string) (n : CapacityPlanNotification) :
    CapacityPlanNotification :=
  let st := cn_Status n in
  mkCapacityPlanNotification (cn_Namespace n) (cn_Name n) (cn_Generation n) (cn_Spec n)
    (mkCapacityPlanNotificationStatus (nt_Conditions st) (Some now) hash (nt_LastMessage st) channels).

(* go: internal/controller/capacityplannotification_controller.go errorsToStrings *)
Definition errorsToStrings (errs : list error) : list string := map err_msg errs.

(* go: internal/controller/capacityplannotification_controller.go:297-306 renderNotificationMessage *)
Definition risk_line (r : PVCRiskSummary) : string :=
  let line := "- " +:+ rs_Namespace r +:+ "/" +:+ rs_Name r +:+ ": "
                +:+ sprintf_f 2 (fdiv (rs_WeeklyGrowthBytesPerDay r) f_GiB) +:+ " GiB/day" in
  let line :=
    match rs_ProjectedFullAt r with Some t => line +:+ " full by " +:+ format_date t | None => line end in
  if negb (trim_space (rs_WorkloadKind r) =? "") && negb (trim_space (rs_WorkloadName r) =? "")
  then line +:+ " owner=" +:+ rs_WorkloadKind r +:+ "/" +:+ rs_WorkloadName r
  else line.

(* go: internal/controller/capacityplannotification_controller.go renderNotificationMessage *)
Definition renderNotificationMessage (plan : CapacityPlan) : string :=
  let st := cp_Status plan in
  let b := "CapacityPlan " +:+ cp_Name plan +:+ nl in
  let b := if negb (trim_space (st_RiskDigest st) =? "") then b +:+ trim_space (st_RiskDigest st) +:+ nl else b in
  let b := if negb (trim_space (st_RiskChangeSummary st) =? "")
           then b +:+ trim_space (st_RiskChangeSummary st) +:+ nl else b in
  let b := fold_left (λ b r, b +:+ risk_line r +:+ nl) (st_TopRisks st) b in
  trim_space b.

Section io.
Context `{Api} `{NotifyEnv}.

(* go: internal/controller/capacityplannotification_controller.go readSecretValueFromNamespace *)
Definition readSecretValueFromNamespace (namespace name key : string) : res string :=
  let name := trim_space name in
  let key := trim_space key in
  if (name =? "") || (key =? "") then Err (errorf "secret name/key required")
  else
    let? sec := get_secret namespace name in
    match sec_Data sec !! key with
    | None => Err (errorf ("secret " +:+ namespace +:+ "/" +:+ name +:+ " missing key " +:+ go_quote key))
    | Some val =>
        let s := trim_space val in
        if s =? "" then
          Err (errorf ("secret " +:+ namespace +:+ "/" +:+ name +:+ " key " +:+ go_quote key +:+ " is empty"))
        else Ok s
    end.

(* go: internal/controller/capacityplannotification_controller.go:179-201 sendSlack *)
Definition post_slack (webhookURL message : string) : option error * list effect :=
  let payload := marshal_text message in
  match bad_webhook_url webhookURL with
  | Some e => (Some e, [])
  | None =>
      (match slack_post webhookURL payload with
       | Err e => Some e
       | Ok (code, body) =>
           let body := str_take 4096 body in
           if ((code <? 200) || (300 <=? code))%Z then
             Some (errorf ("slack webhook returned status " +:+ itoa code +:+ ": " +:+ trim_space body))
           else None
       end, [PostSlack webhookURL payload])
  end.

(* go: internal/controller/capacityplannotification_controller.go sendSlack *)
Definition sendSlack (namespace : string) (spec : SlackNotificationSpec) (message : string) :
    option error * list effect :=
  let secretName := trim_space (sl_WebhookSecretRefName spec) in
  if secretName =? "" then (Some (errorf "webhookSecretRefName is required"), [])
  else
    let key := defaultSecretKey (sl_WebhookSecretKey spec) "webhookURL" in
    match readSecretValueFromNamespace namespace secretName key with
    | Err e => (Some e, [])
    | Ok webhookURL => post_slack webhookURL message
    end.

(* go: internal/controller/capacityplannotification_controller.go:237-258 sendEmail *)
Definition build_mail (spec : EmailNotificationSpec) (planName message host portRaw username password : string) :
    res mail :=
  let from := trim_space (em_From spec) in
  let from := if from =? "" then username else from in
  if from =? "" then Err (errorf "email from address is required")
  else
    let subjectPrefix := trim_space (em_SubjectPrefix spec) in
    let subjectPrefix := if subjectPrefix =? "" then "[capacity-plan]" else subjectPrefix in
    let subject := subjectPrefix +:+ " " +:+ planName +:+ " risk digest" in
    let msg := "To: " +:+ join "," (em_To spec) +:+ crlf +:+ "Subject: " +:+ subject +:+ crlf
                 +:+ crlf +:+ message +:+ crlf in
    let auth := if negb (username =? "") then Some (username, password, host) else None in
    Ok (mkMail (host +:+ ":" +:+ portRaw) auth from (em_To spec) msg).

(** Everything [sendEmail] does before it hands the mail over. *)
(* go: internal/controller/capacityplannotification_controller.go:211-258 sendEmail *)
Definition prepare_mail (namespace : string) (spec : EmailNotificationSpec) (planName message : string) : res mail :=
  match em_To spec with
  | [] => Err (errorf "email recipients are required")
  | _ =>
      let secretName := trim_space (em_SMTPSecretRefName spec) in
      if secretName =? "" then Err (errorf "smtpSecretRefName is required")
      else
        let read key fallback := readSecretValueFromNamespace namespace secretName (defaultSecretKey key fallback) in
        let? host := read (em_SMTPHostKey spec) "host" in
        let? portRaw := read (em_SMTPPortKey spec) "port" in
        match atoi portRaw with
        | inr why =>
            Err (errorf ("invalid smtp port " +:+ go_quote portRaw +:+ ": strconv.Atoi: parsing "
                           +:+ go_quote portRaw +:+ ": " +:+ why))
        | inl _ =>
            let? username := read (em_SMTPUsernameKey spec) "username" in
            let? password := read (em_SMTPPasswordKey spec) "password" in
            build_mail spec planName message host portRaw username password
        end
  end.

(* go: internal/controller/capacityplannotification_controller.go sendEmail *)
Definition sendEmail (namespace : string) (spec : EmailNotificationSpec) (planName message : string) :
    option error * list effect :=
  match prepare_mail namespace spec planName message with
  | Err e => (Some e, [])
  | Ok m => (smtp_SendMail m, [Mail m])
  end.

(** ** The reconcile *)

(** A status update whose error is dropped, and one whose error is returned. *)
Definition finish_quietly (n : CapacityPlanNotification) : res Result * list effect :=
  (Ok (mkResult defaultNotificationRequeue), [UpdateNotificationStatus n]).

Definition finish (n : CapacityPlanNotification) : res Result * list effect :=
  (match notification_update_error n with
   | Some e => Err e
   | None => Ok (mkResult defaultNotificationRequeue)
   end, [UpdateNotificationStatus n]).

(** One channel: its name when it is enabled, and the errors and effects of the send
    unless this is a dry run. *)
Definition channel (enabled dryRun : bool) (name : string) (send : option error * list effect) :
    list string * list error * list effect :=
  if enabled then
    if dryRun then ([name], [], [])
    else ([name], match send.1 with Some e => [wrap_error (name +:+ ": ") e] | None => [] end, send.2)
  else ([], [], []).

(* go: internal/controller/capacityplannotification_controller.go:104-154 Reconcile *)
Definition deliver (now : Z) (n : CapacityPlanNotification) (plan : CapacityPlan) (snapshotHash : string) :
    res Result * list effect :=
  let spec := cn_Spec n in
  let message := renderNotificationMessage plan in
  let '(c1, e1, f1) := channel (sl_Enabled (ns_Slack spec)) (ns_DryRun spec) "slack"
                         (sendSlack (cn_Namespace n) (ns_Slack spec) message) in
  let '(c2, e2, f2) := channel (em_Enabled (ns_Email spec)) (ns_DryRun spec) "email"
                         (sendEmail (cn_Namespace n) (ns_Email spec) (cp_Name plan) message) in
  let sentChannels := (c1 ++ c2)%list in
  let deliveryErrs := (e1 ++ e2)%list in
  let '(r, f3) :=
    match sentChannels with
    | [] =>
        let msg := "Enable at least one channel (slack or email)" in
        finish (setNotificationCondition "Ready" ConditionFalse "NoChannelsConfigured" msg (with_last_message msg n))
    | _ =>
        let n := with_attempt now snapshotHash sentChannels n in
        if ns_DryRun spec then
          finish (setNotificationCondition "Ready" ConditionTrue "DryRun"
                    "Dry-run enabled; no external delivery attempted"
                    (with_last_message "dry-run notification emitted" n))
        else
          match deliveryErrs with
          | _ :: _ =>
              let msg := join "; " (errorsToStrings deliveryErrs) in
              finish (setNotificationCondition "Ready" ConditionFalse "DeliveryFailed" msg (with_last_message msg n))
          | [] =>
              let msg := "Notification sent to " +:+ join "," sentChannels in
              finish (setNotificationCondition "Ready" ConditionTrue "Delivered" msg (with_last_message msg n))
          end
    end in
  (r, f1 ++ f2 ++ f3)%list.

(* go: internal/controller/capacityplannotification_controller.go:80-83 Reconcile *)
Definition plan_snapshot (plan : CapacityPlan) : string :=
  let snapshotHash := trim_space (st_RiskSnapshotHash (cp_Status plan)) in
  if snapshotHash =? "" then computeRiskSnapshotHash (st_TopRisks (cp_Status plan)) else snapshotHash.

(* go: internal/controller/capacityplannotification_controller.go:85-88 Reconcile *)
Definition cooldown_of (spec : CapacityPlanNotificationSpec) : Z :=
  if (ns_Cooldown spec <=? 0)%Z then defaultNotificationCooldown else ns_Cooldown spec.

(** The reconcile of a notification that was read.  The digest the code computes at
    this point is used nowhere: the message renders the status of the plan. *)
(* go: internal/controller/capacityplannotification_controller.go:58-155 Reconcile *)
Definition notify (now : Z) (n : CapacityPlanNotification) : res Result * list effect :=
  let spec := cn_Spec n in
  let st := cn_Status n in
  let planName := trim_space (ns_PlanRefName spec) in
  if planName =? "" then
    finish_quietly (setNotificationCondition "Ready" ConditionFalse "InvalidSpec" "spec.planRefName is required" n)
  else
    match get_plan planName with
    | Err e =>
        if err_notfound e then
          finish_quietly (setNotificationCondition "Ready" ConditionFalse "PlanNotFound"
                            ("CapacityPlan " +:+ go_quote planName +:+ " not found") n)
        else (Err e, [])
    | Ok plan =>
        let snapshotHash := plan_snapshot plan in
        let cooldown := cooldown_of spec in
        if ns_OnChangeOnly spec && negb (snapshotHash =? "") && (snapshotHash =? nt_LastDigestHash st) then
          finish (setNotificationCondition "Ready" ConditionTrue "NoChange"
                    "Risk snapshot unchanged; notification skipped" n)
        else if match nt_LastSentTime st with Some t => (t_sub now t <? cooldown)%Z | None => false end then
          finish (setNotificationCondition "Ready" ConditionTrue "Cooldown" "Notification skipped due to cooldown" n)
        else deliver now n plan snapshotHash
    end.

(* go: internal/controller/capacityplannotification_controller.go CapacityPlanNotificationReconciler.Reconcile *)
Definition NotificationReconcile (now : Z) (namespace name : string) : res Result * list effect :=
  match get_notification namespace name with
  | Err e => (if err_notfound e then Ok no_requeue else Err e, [])
  | Ok notif => notify now notif
  end.
End io.

(** ** Runs

    Successive reconciles of one notification.  Each occasion has its time, the spec
    in force and the services as they are then; the next one reads the status that
    was stored, whose times the API keeps to the second. *)

Record occasion := mkOccasion {
  oc_now : Z;
  oc_spec : CapacityPlanNotificationSpec;
  oc_api : Api;
  oc_env : NotifyEnv;
}.

Definition stored_time (t : Z) : Z := (t / second * second)%Z.

Definition stored (n : CapacityPlanNotification) : CapacityPlanNotification :=
  let st := cn_Status n in
  mkCapacityPlanNotification (cn_Namespace n) (cn_Name n) (cn_Generation n) (cn_Spec n)
    (mkCapacityPlanNotificationStatus (nt_Conditions st) (option_map stored_time (nt_LastSentTime st))
       (nt_LastDigestHash st) (nt_LastMessage st) (nt_LastSentChannels st)).

Definition with_spec (spec : CapacityPlanNotificationSpec) (n : CapacityPlanNotification) :
    CapacityPlanNotification :=
  mkCapacityPlanNotification (cn_Namespace n) (cn_Name n) (cn_Generation n) spec (cn_Status n).

Definition effects_at (o : occasion) (n : CapacityPlanNotification) : list effect :=
  (notify (H3 := oc_api o) (H4 := oc_env o) (oc_now o) (with_spec (oc_spec o) n)).2.

(** The notification as the API server has it after an occasion. *)
Definition after (o : occasion) (n : CapacityPlanNotification) : CapacityPlanNotification :=
  match last (effects_at o n) with
  | Some (UpdateNotificationStatus n') =>
      match notification_update_error (NotifyEnv := oc_env o) n' with None => stored n' | Some _ => n end
  | _ => n
  end.

Definition accepts_updates (o : occasion) : Prop :=
  ∀ n, notification_update_error (NotifyEnv := oc_env o) n = None.

Fixpoint run (n : CapacityPlanNotification) (os : list occasion) : list (occasion * list effect) :=
  match os with
  | [] => []
  | o :: os => (o, effects_at o n) :: run (after o n) os
  end.

Definition is_delivery (f : effect) : bool :=
  match f with UpdateNotificationStatus _ => false | _ => true end.
Definition deliveries (fs : list effect) : list effect := List.filter is_delivery fs.
End notification.

(** ** Lemmas *)

Section notification_lemmas.
Context `{SliceSorter} `{Platform} `{LlmEnv} `{ConditionLib}.

Section one.
Context `{Api} `{NotifyEnv}.

(** Only [UpdateNotificationStatus] effects come from the end of a reconcile. *)
Lemma finish_effects n : (finish n).2 = [UpdateNotificationStatus n].
Proof. done. Qed.

Definition cooled_down (now : Z) (n : CapacityPlanNotification) : Prop :=
  match nt_LastSentTime (cn_Status n) with
  | Some t => (cooldown_of (cn_Spec n) ≤ t_sub now t)%Z
  | None => True
  end.

Ltac ends_early := left; eexists; split; [reflexivity|]; first [by left | right; by eexists].

(** A reconcile either ends early, with at most a status update that keeps the time
    of the last attempt, or goes on to deliver, after the cooldown. *)
Lemma notify_cases now n :
  (∃ fs, (notify now n).2 = fs ∧
     (fs = [] ∨ ∃ n', fs = [UpdateNotificationStatus n'] ∧
        nt_LastSentTime (cn_Status n') = nt_LastSentTime (cn_Status n))) ∨
  (∃ plan, get_plan (trim_space (ns_PlanRefName (cn_Spec n))) = Ok plan ∧
     notify now n = deliver now n plan (plan_snapshot plan) ∧ cooled_down now n).
Proof.
  unfold notify. cbv zeta. destruct (trim_space (ns_PlanRefName (cn_Spec n)) =? ""); [ends_early|].
  destruct (get_plan (trim_space (ns_PlanRefName (cn_Spec n)))) as [plan|e];
    [|destruct (err_notfound e); ends_early].
  destruct (ns_OnChangeOnly (cn_Spec n) && negb (plan_snapshot plan =? "") && (_ =? _)); [ends_early|].
  destruct (match nt_LastSentTime (cn_Status n) with
            | Some t => (t_sub now t <? cooldown_of (cn_Spec n))%Z | None => false end) eqn:E; [ends_early|].
  right. exists plan. split_and!; [done|done|]. unfold cooled_down.
  destruct (nt_LastSentTime _); [|done]. by apply Z.ltb_ge in E.
Qed.

Lemma channel_disabled dry name send : channel false dry name send = ([], [], []).
Proof. done. Qed.

Lemma deliver_effects now n plan hash :
  ∃ fs n', (deliver now n plan hash).2 = (fs ++ [UpdateNotificationStatus n'])%list ∧
    (nt_LastSentTime (cn_Status n') = Some now ∨
     fs = [] ∧ nt_LastSentTime (cn_Status n') = nt_LastSentTime (cn_Status n)).
Proof.
  unfold deliver. destruct (channel (sl_Enabled _) _ _ _) as [[c1 e1] f1] eqn:E1.
  destruct (channel (em_Enabled _) _ _ _) as [[c2 e2] f2] eqn:E2. cbv zeta.
  destruct (c1 ++ c2)%list as [|c cs] eqn:Ec.
  - apply app_nil in Ec as [-> ->]. exists [].
    assert (f1 = []) as -> by (unfold channel in E1; repeat case_match; by inversion E1).
    assert (f2 = []) as -> by (unfold channel in E2; repeat case_match; by inversion E2).
    eexists. split; [reflexivity|]. by right.
  - destruct (ns_DryRun _); [|destruct (e1 ++ e2)%list];
      (eexists (f1 ++ f2)%list, _; split; [simpl; rewrite <-(assoc_L (++)%list); reflexivity|by left]).
Qed.
End one.

Lemma deliveries_app fs gs : deliveries (fs ++ gs) = (deliveries fs ++ deliveries gs)%list.
Proof. apply List.filter_app. Qed.

Definition last_sent (n : CapacityPlanNotification) : option Z := nt_LastSentTime (cn_Status n).

Lemma after_status o n fs n' :
  accepts_updates o → effects_at o n = (fs ++ [UpdateNotificationStatus n'])%list → after o n = stored n'.
Proof. intros Ha He. unfold after. rewrite He, last_snoc. by rewrite (Ha n'). Qed.

(** One occasion: deliveries happen only after the cooldown and set the time of the
    last attempt; the time stored is otherwise kept. *)
Lemma occasion_step (o : occasion) n :
  accepts_updates o →
  (deliveries (effects_at o n) ≠ [] →
     (∀ t, last_sent n = Some t → cooldown_of (oc_spec o) ≤ t_sub (oc_now o) t)%Z ∧
     last_sent (after o n) = Some (stored_time (oc_now o))) ∧
  (last_sent (after o n) = last_sent n ∨ last_sent (after o n) = option_map stored_time (last_sent n) ∨
   last_sent (after o n) = Some (stored_time (oc_now o))).
Proof.
  intros Ha. set (n1 := with_spec (oc_spec o) n).
  destruct (notify_cases (H3 := oc_api o) (H4 := oc_env o) (oc_now o) n1)
    as [(fs & Hfs & [->|(n' & -> & Hn)])|(plan & _ & Hd & Hc)].
  - change (effects_at o n = []) in Hfs. unfold after. rewrite Hfs. split; [done|by left].
  - change (effects_at o n = [UpdateNotificationStatus n']) in Hfs.
    rewrite (after_status o n [] n' Ha Hfs), Hfs. split; [done|]. right; left.
    unfold last_sent. simpl. by rewrite Hn.
  - destruct (deliver_effects (H3 := oc_api o) (H4 := oc_env o) (oc_now o) n1 plan (plan_snapshot plan))
      as (fs & n' & Hfs & Hn). rewrite <-Hd in Hfs.
    change (effects_at o n = (fs ++ [UpdateNotificationStatus n'])%list) in Hfs.
    rewrite (after_status o n fs n' Ha Hfs), Hfs. unfold last_sent. cbn [stored cn_Status nt_LastSentTime].
    destruct Hn as [->|[-> ->]]; [|by split; [done|right; left]].
    split; [|by right; right]. intros _. split; [|done]. intros t Ht.
    unfold cooled_down, n1 in Hc. cbn [with_spec cn_Status cn_Spec] in Hc. by rewrite Ht in Hc.
Qed.

Lemma stored_time_mono a b : (a ≤ b)%Z → (stored_time a ≤ stored_time b)%Z.
Proof. unfold stored_time, second. intros. pose proof (Z.div_le_mono a b 1000000000). lia. Qed.

Lemma stored_time_idem t : stored_time (stored_time t) = stored_time t.
Proof. unfold stored_time. rewrite Z.div_mul; [done|]. unfold second. lia. Qed.

Lemma stored_time_close t : (t - second < stored_time t)%Z.
Proof. unfold stored_time, second. pose proof (Z.mod_pos_bound t 1000000000).
  pose proof (Z.div_mod t 1000000000). lia. Qed.

Lemma cooldown_of_pos spec : (0 < cooldown_of spec)%Z.
Proof. unfold cooldown_of, defaultNotificationCooldown. destruct (Z.leb_spec (ns_Cooldown spec) 0); [done|lia]. Qed.

(** A saturated difference that reaches a positive bound is a real one. *)
Lemma t_sub_reaches now t c : (0 < c → c ≤ t_sub now t → c ≤ now - t)%Z.
Proof. unfold t_sub, int64_min. lia. Qed.

(** Once an attempt was stored, later deliveries keep their distance from it. *)
Lemma later_deliveries_wait t os n :
  (∃ s, last_sent n = Some s ∧ (stored_time t ≤ s)%Z) → Forall (λ o, (t ≤ oc_now o)%Z) os →
  Forall accepts_updates os →
  Forall (λ r : occasion * list effect, deliveries r.2 ≠ [] →
            (cooldown_of (oc_spec r.1) - second < oc_now r.1 - t)%Z) (run n os).
Proof.
  revert n. induction os as [|o os IH]; intros n (s & Hs & Hle) Ht Ha; [constructor|].
  apply Forall_cons in Ht as [Ho Ht]. apply Forall_cons in Ha as [Hao Ha].
  destruct (occasion_step o n Hao) as [Hd Hn]. simpl. constructor.
  - simpl. intros Hne. destruct (Hd Hne) as [Hc _]. specialize (Hc s Hs).
    apply t_sub_reaches in Hc; [|apply cooldown_of_pos]. pose proof (stored_time_close t). lia.
  - apply IH; [|done|done]. destruct Hn as [->|[->| ->]].
    + by exists s.
    + rewrite Hs. exists (stored_time s). split; [done|].
      rewrite <-(stored_time_idem t). by apply stored_time_mono.
    + exists (stored_time (oc_now o)). split; [done|]. by apply stored_time_mono.
Qed.

(** ** Properties *)

(** C10. Notifications respect the cooldown.  In any run of reconciles at nondecreasing
    times, whatever the plan, the spec, the secrets and the services do in between,
    two reconciles that reach a channel are further apart than the cooldown in force
    at the second one, less the second that storing the time of the first may cut
    off, provided the status updates are stored.  A failed delivery counts like a
    successful one. *)
Theorem deliveries_respect_cooldown (n : CapacityPlanNotification) (os : list occasion) :
  StronglySorted (λ o1 o2, oc_now o1 ≤ oc_now o2)%Z os → Forall accepts_updates os →
  ForallOrdPairs (λ r1 r2 : occasion * list effect,
    deliveries r1.2 ≠ [] → deliveries r2.2 ≠ [] →
    (cooldown_of (oc_spec r2.1) - second < oc_now r2.1 - oc_now r1.1)%Z) (run n os).
Proof.
  intros Hs Ha. revert n. induction Hs as [|o os Hs IH Ho]; intros n; [constructor|].
  apply Forall_cons in Ha as [Hao Ha]. simpl. constructor; [|by apply IH].
  apply Forall_forall. intros [o2 fs2] Hin Hd1 Hd2. simpl in *.
  destruct (occasion_step o n Hao) as [Hd _]. destruct (Hd Hd1) as [_ Hl].
  assert (Forall (λ r : occasion * list effect, deliveries r.2 ≠ [] →
    (cooldown_of (oc_spec r.1) - second < oc_now r.1 - oc_now o)%Z)
    (run (after o n) os)) as HF by (apply later_deliveries_wait; [by eexists|exact Ho|done]).
  rewrite Forall_forall in HF. by apply (HF _ Hin).
Qed.

Definition ready (n : CapacityPlanNotification) : option Condition :=
  find_condition "Ready" (nt_Conditions (cn_Status n)).

Lemma ready_set s r m n :
  ready (setNotificationCondition "Ready" s r m n) = Some (mkCondition "Ready" s (cn_Generation n) r m).
Proof. unfold ready. simpl. apply (set_condition_same _ (mkCondition "Ready" s (cn_Generation n) r m)). Qed.

(** The end of [deliver] when a channel is enabled. *)
Lemma deliver_failed `{Api} `{NotifyEnv} now n plan hash fs n' c :
  (deliver now n plan hash).2 = (fs ++ [UpdateNotificationStatus n'])%list →
  ready n' = Some c → cd_Reason c = "DeliveryFailed" →
  cn_Spec n' = cn_Spec n ∧ nt_LastDigestHash (cn_Status n') = hash.
Proof.
  unfold deliver. destruct (channel (sl_Enabled _) _ _ _) as [[c1 e1] f1].
  destruct (channel (em_Enabled _) _ _ _) as [[c2 e2] f2]. cbv zeta.
  destruct (c1 ++ c2)%list as [|x xs]; [|destruct (ns_DryRun _); [|destruct (e1 ++ e2)%list]]; simpl;
    rewrite (assoc_L (++)%list); intros [_ [= <-]]%app_inj_tail Hc Hr;
    rewrite ready_set in Hc; injection Hc as <-; first [discriminate Hr|by split].
Qed.

(** A failed delivery is never repeated for the same risks.  When a notification
    that is sent on change only fails to be delivered, the status nevertheless
    records the snapshot as sent; every later reconcile that still sees this
    snapshot sends nothing and even reports the notification as ready. *)
Theorem failed_delivery_is_not_retried (o o' : occasion) n fs n' c plan plan' :
  accepts_updates o → effects_at o n = (fs ++ [UpdateNotificationStatus n'])%list →
  ready n' = Some c → cd_Reason c = "DeliveryFailed" →
  get_plan (Api := oc_api o) (trim_space (ns_PlanRefName (oc_spec o))) = Ok plan →
  plan_snapshot plan ≠ "" →
  ns_OnChangeOnly (oc_spec o') = true → trim_space (ns_PlanRefName (oc_spec o')) ≠ "" →
  get_plan (Api := oc_api o') (trim_space (ns_PlanRefName (oc_spec o'))) = Ok plan' →
  plan_snapshot plan' = plan_snapshot plan →
  ∃ n2, effects_at o' (after o n) = [UpdateNotificationStatus n2] ∧
    ready n2 = Some (mkCondition "Ready" ConditionTrue (cn_Generation (after o n)) "NoChange"
                       "Risk snapshot unchanged; notification skipped").
Proof.
  intros Hacc Hfs Hc Hr Hp Hs Honly Hname Hp' Hsame. rewrite (after_status _ _ _ _ Hacc Hfs).
  assert (nt_LastDigestHash (cn_Status n') = plan_snapshot plan) as Hhash.
  { set (n1 := with_spec (oc_spec o) n) in *.
    assert (∀ s r m k, ready (setNotificationCondition "Ready" s r m k) = Some c → r = "DeliveryFailed") as Hnot
      by (intros s r m k; rewrite ready_set; intros [= <-]; done).
    unfold effects_at, notify in Hfs. fold n1 in Hfs. cbn [n1 with_spec cn_Spec cn_Status] in Hfs. cbv zeta in Hfs.
    rewrite Hp in Hfs. revert Hfs.
    destruct (_ =? ""); [intros [_ [= <-]]%(app_inj_tail []); by apply Hnot in Hc|].
    destruct (_ && _ && _); [intros [_ [= <-]]%(app_inj_tail []); by apply Hnot in Hc|].
    destruct (match nt_LastSentTime _ with Some _ => _ | None => _ end);
      [intros [_ [= <-]]%(app_inj_tail []); by apply Hnot in Hc|].
    intros Hfs. by destruct (deliver_failed _ _ _ _ _ _ _ Hfs Hc Hr). }
  unfold effects_at, notify. cbn [with_spec cn_Spec cn_Status stored]. cbv zeta.
  apply String.eqb_neq in Hname. rewrite Hname, Hp', Hsame, Honly. cbn [nt_LastDigestHash]. rewrite Hhash.
  apply String.eqb_neq in Hs. rewrite Hs, String.eqb_refl. simpl. eexists. split; [reflexivity|].
  by rewrite ready_set.
Qed.

Section sent.
Context `{Api} `{NotifyEnv}.

Lemma slack_sent ns spec msg fs :
  sendSlack ns spec msg = (None, fs) →
  ∃ url payload code body, fs = [PostSlack url payload] ∧ payload = marshal_text msg ∧
    slack_post url payload = Ok (code, body) ∧ (200 ≤ code < 300)%Z.
Proof.
  unfold sendSlack, post_slack. destruct (_ =? ""); [done|].
  destruct (readSecretValueFromNamespace _ _ _) as [url|]; [|done].
  destruct (bad_webhook_url url); [done|].
  destruct (slack_post url (marshal_text msg)) as [[code body]|] eqn:Hp; [|done].
  destruct ((code <? 200) || (300 <=? code))%Z eqn:Hcode; [done|]. intros [= <-].
  exists url, (marshal_text msg), code, body. bool_to_prop. split_and!; done || lia.
Qed.

Lemma mail_sent ns spec plan msg fs :
  sendEmail ns spec plan msg = (None, fs) →
  ∃ m, fs = [Mail m] ∧ prepare_mail ns spec plan msg = Ok m ∧ smtp_SendMail m = None.
Proof.
  unfold sendEmail. destruct (prepare_mail _ _ _ _) as [m|]; [|done].
  destruct (smtp_SendMail m) eqn:E; intros [= ]; subst. by exists m.
Qed.

Lemma channel_quiet enabled name send cs fs :
  channel enabled false name send = (cs, [], fs) →
  if enabled then cs = [name] ∧ send = (None, fs) else cs = [] ∧ fs = [].
Proof.
  unfold channel. destruct enabled; [|by intros [= <- <-]].
  destruct send as [[e|] fs']; simpl; [done|by intros [= <- <-]].
Qed.

(** The effects of a complete delivery. *)
Definition slack_done (n : CapacityPlanNotification) (message : string) (fs : list effect) : Prop :=
  if sl_Enabled (ns_Slack (cn_Spec n)) then
    ∃ url payload code body, fs = [PostSlack url payload] ∧ payload = marshal_text message ∧
      slack_post url payload = Ok (code, body) ∧ (200 ≤ code < 300)%Z
  else fs = [].
Definition mail_done (n : CapacityPlanNotification) (planName message : string) (fs : list effect) : Prop :=
  if em_Enabled (ns_Email (cn_Spec n)) then
    ∃ m, fs = [Mail m] ∧ smtp_SendMail m = None ∧
      prepare_mail (cn_Namespace n) (ns_Email (cn_Spec n)) planName message = Ok m
  else fs = [].

(** What was posted is the message, and a mail is no post. *)
Lemma slack_payload n message fs url payload :
  slack_done n message fs → PostSlack url payload ∈ fs → payload = marshal_text message.
Proof.
  unfold slack_done. destruct (sl_Enabled _); [|by intros -> ?%elem_of_nil].
  intros (u & p & code & body & -> & -> & _) Hin%list_elem_of_singleton. congruence.
Qed.
Lemma mail_is_no_post n plan message fs url payload : mail_done n plan message fs → PostSlack url payload ∉ fs.
Proof.
  unfold mail_done. destruct (em_Enabled _); [|intros ->; apply not_elem_of_nil].
  intros (m & -> & _) Hin%list_elem_of_singleton. congruence.
Qed.

Definition enabled_channels (n : CapacityPlanNotification) : list string :=
  ((if sl_Enabled (ns_Slack (cn_Spec n)) then ["slack"] else []) ++
   (if em_Enabled (ns_Email (cn_Spec n)) then ["email"] else []))%list.

Lemma deliver_delivered now n plan hash fs n' c :
  (deliver now n plan hash).2 = (fs ++ [UpdateNotificationStatus n'])%list →
  ready n' = Some c → cd_Reason c = "Delivered" →
  ns_DryRun (cn_Spec n) = false ∧ nt_LastSentChannels (cn_Status n') = enabled_channels n ∧
  ∃ fs1 fs2, fs = (fs1 ++ fs2)%list ∧ slack_done n (renderNotificationMessage plan) fs1 ∧
    mail_done n (cp_Name plan) (renderNotificationMessage plan) fs2.
Proof.
  unfold deliver. destruct (channel (sl_Enabled _) _ _ _) as [[c1 e1] f1] eqn:E1.
  destruct (channel (em_Enabled _) _ _ _) as [[c2 e2] f2] eqn:E2. cbv zeta.
  destruct (c1 ++ c2)%list as [|x xs] eqn:Ec;
    [|destruct (ns_DryRun _); [|destruct (e1 ++ e2)%list eqn:Ee]]; simpl;
    rewrite (assoc_L (++)%list); intros [<- [= <-]]%app_inj_tail Hc Hr;
    rewrite ready_set in Hc; injection Hc as <-; try discriminate Hr.
  apply app_nil in Ee as [-> ->]. apply channel_quiet in E1, E2. split; [done|].
  unfold enabled_channels, slack_done, mail_done. simpl. rewrite <-Ec.
  split; [by destruct (sl_Enabled _), (em_Enabled _); destruct E1 as [-> _], E2 as [-> _]|].
  exists f1, f2. split; [done|]. split.
  - destruct (sl_Enabled _); destruct E1 as [_ E1]; [by apply slack_sent in E1|done].
  - destruct (em_Enabled _); destruct E2 as [_ E2]; [|done]. apply mail_sent in E2. naive_solver.
Qed.

(** C36. The status only claims a delivery that took place.  When a reconcile reports
    [Delivered], it was not a dry run, its plan exists, and exactly the enabled
    channels, which the status lists, were used, each once and successfully: one
    POST of the rendered message that the webhook answered with a 2xx status, and
    one mail to the configured recipients that the mail server took.  The body of the
    POST is a JSON document whose text is the message. *)
Theorem delivered_means_sent now n fs n' c :
  (notify now n).2 = (fs ++ [UpdateNotificationStatus n'])%list →
  ready n' = Some c → cd_Reason c = "Delivered" →
  ∃ plan fs1 fs2, get_plan (trim_space (ns_PlanRefName (cn_Spec n))) = Ok plan ∧
    ns_DryRun (cn_Spec n) = false ∧
    nt_LastSentChannels (cn_Status n') = enabled_channels n ∧ fs = (fs1 ++ fs2)%list ∧
    slack_done n (renderNotificationMessage plan) fs1 ∧
    mail_done n (cp_Name plan) (renderNotificationMessage plan) fs2 ∧
    (valid_utf8 (renderNotificationMessage plan) = true →
     ∀ url payload, PostSlack url payload ∈ fs →
       json_parse payload = Some (JObj [("text", JStr (renderNotificationMessage plan))])).
Proof.
  intros Hfs Hc Hr.
  assert (∀ s r m k, ready (setNotificationCondition "Ready" s r m k) = Some c → r = "Delivered") as Hnot
    by (intros s r m k; rewrite ready_set; intros [= <-]; done).
  unfold notify in Hfs. cbv zeta in Hfs. revert Hfs.
  destruct (trim_space (ns_PlanRefName (cn_Spec n)) =? "");
    [intros [_ [= <-]]%(app_inj_tail []); by apply Hnot in Hc|].
  destruct (get_plan (trim_space (ns_PlanRefName (cn_Spec n)))) as [plan|e];
    [|destruct (err_notfound e); [intros [_ [= <-]]%(app_inj_tail []); by apply Hnot in Hc|by destruct fs]].
  destruct (_ && _ && _); [intros [_ [= <-]]%(app_inj_tail []); by apply Hnot in Hc|].
  destruct (match nt_LastSentTime _ with Some _ => _ | None => _ end);
    [intros [_ [= <-]]%(app_inj_tail []); by apply Hnot in Hc|].
  intros Hfs. destruct (deliver_delivered _ _ _ _ _ _ _ Hfs Hc Hr) as (? & ? & fs1 & fs2 & -> & Hs & Hm).
  exists plan, fs1, fs2. split_and!; [done..|]. intros Hv url payload [Hin|Hin]%elem_of_app.
  - rewrite (slack_payload _ _ _ _ _ Hs Hin). unfold marshal_text. by rewrite json_parse_render.
  - by apply (mail_is_no_post _ _ _ _ _ _ Hm) in Hin.
Qed.
End sent.

(** ** Changed risks get through *)

(** The services a notification in this namespace needs are there: its plan exists, a
    channel is enabled, this is no dry run, and a send through an enabled channel
    returns without an error. *)
Record works (ns : string) (o : occasion) (plan : CapacityPlan) : Prop := {
  works_updates : accepts_updates o;
  works_name : trim_space (ns_PlanRefName (oc_spec o)) ≠ "";
  works_plan : get_plan (Api := oc_api o) (trim_space (ns_PlanRefName (oc_spec o))) = Ok plan;
  works_real : ns_DryRun (oc_spec o) = false;
  works_enabled : sl_Enabled (ns_Slack (oc_spec o)) || em_Enabled (ns_Email (oc_spec o)) = true;
  works_slack : sl_Enabled (ns_Slack (oc_spec o)) = true → ∀ message,
    (sendSlack (H3 := oc_api o) (H4 := oc_env o) ns (ns_Slack (oc_spec o)) message).1 = None;
  works_mail : em_Enabled (ns_Email (oc_spec o)) = true → ∀ name message,
    (sendEmail (H3 := oc_api o) (H4 := oc_env o) ns (ns_Email (oc_spec o)) name message).1 = None;
}.

(** The cooldown since the last attempt is over. *)
Definition waited (n : CapacityPlanNotification) (o : occasion) : Prop :=
  ∀ t, last_sent n = Some t → (cooldown_of (oc_spec o) ≤ t_sub (oc_now o) t)%Z.

(** What a complete delivery at an occasion leaves behind. *)
Definition delivered_at (o : occasion) (n : CapacityPlanNotification) (plan : CapacityPlan) (fs : list effect) : Prop :=
  ∃ fs1 fs2 n', fs = (fs1 ++ fs2 ++ [UpdateNotificationStatus n'])%list ∧
    option_map cd_Reason (ready n') = Some "Delivered" ∧
    nt_LastDigestHash (cn_Status n') = plan_snapshot plan ∧ last_sent n' = Some (oc_now o) ∧
    slack_done (H4 := oc_env o) (with_spec (oc_spec o) n) (renderNotificationMessage plan) fs1 ∧
    mail_done (H3 := oc_api o) (H4 := oc_env o) (with_spec (oc_spec o) n) (cp_Name plan) (renderNotificationMessage plan) fs2.

Lemma no_error {A} (send : option error * A) : send.1 = None → send = (None, send.2).
Proof. by destruct send; simpl; intros ->. Qed.

Lemma channel_works (enabled : bool) name (send : option error * list effect) :
  (enabled = true → send.1 = None) →
  channel enabled false name send = (if enabled then [name] else [], [], if enabled then send.2 else []).
Proof. unfold channel. destruct enabled; [|done]. intros ->; done. Qed.

Lemma deliver_works o n plan :
  works (cn_Namespace n) o plan →
  delivered_at o n plan
    (deliver (H3 := oc_api o) (H4 := oc_env o) (oc_now o) (with_spec (oc_spec o) n) plan (plan_snapshot plan)).2.
Proof.
  intros [_ _ _ Hreal Hen Hs Hm]. unfold deliver. cbn [with_spec cn_Spec cn_Namespace]. rewrite Hreal.
  rewrite !channel_works by auto.
  set (slack := sendSlack _ _ _) in *. set (mail := sendEmail _ _ _ _) in *.
  assert (∃ x l, ((if sl_Enabled (ns_Slack (oc_spec o)) then ["slack"] else []) ++
    (if em_Enabled (ns_Email (oc_spec o)) then ["email"] else []))%list = x :: l) as (x & l & E)
    by (destruct (sl_Enabled _), (em_Enabled _); [by eexists _, _..|done]).
  cbv zeta. rewrite E.
  eexists (if sl_Enabled (ns_Slack (oc_spec o)) then slack.2 else []), (if em_Enabled (ns_Email (oc_spec o)) then mail.2 else []), _.
  split; [reflexivity|]. rewrite ready_set. do 3 (split; [done|]).
  unfold slack_done, mail_done. cbn [with_spec cn_Spec cn_Namespace]. split.
  - destruct (sl_Enabled _) eqn:El; [|done]. by eapply slack_sent, no_error, Hs.
  - destruct (em_Enabled _) eqn:El; [|done].
    destruct (mail_sent (H3 := oc_api o) (H4 := oc_env o) (cn_Namespace n) (ns_Email (oc_spec o)) (cp_Name plan)
      (renderNotificationMessage plan) _ (no_error _ (Hm eq_refl _ _))) as (m & ? & ? & ?). by exists m.
Qed.

(** One reconcile of such a notification, the snapshot not being the one last sent. *)
Lemma works_step o n plan :
  works (cn_Namespace n) o plan →
  plan_snapshot plan = "" ∨ nt_LastDigestHash (cn_Status n) ≠ plan_snapshot plan →
  (waited n o ∧ delivered_at o n plan (effects_at o n)) ∨
  (¬ waited n o ∧ deliveries (effects_at o n) = [] ∧ cn_Namespace (after o n) = cn_Namespace n ∧
   nt_LastDigestHash (cn_Status (after o n)) = nt_LastDigestHash (cn_Status n) ∧
   last_sent (after o n) = option_map stored_time (last_sent n)).
Proof.
  intros Hw Hnew.
  assert (ns_OnChangeOnly (oc_spec o) && negb (plan_snapshot plan =? "") &&
    (plan_snapshot plan =? nt_LastDigestHash (cn_Status n)) = false) as Hc.
  { apply andb_false_iff. destruct Hnew as [-> |Hne]; [left; apply andb_false_r|right].
    by apply String.eqb_neq. }
  assert (effects_at o n =
    if match last_sent n with Some t => (t_sub (oc_now o) t <? cooldown_of (oc_spec o))%Z | None => false end
    then [UpdateNotificationStatus (setNotificationCondition "Ready" ConditionTrue "Cooldown"
            "Notification skipped due to cooldown" (with_spec (oc_spec o) n))]
    else (deliver (H3 := oc_api o) (H4 := oc_env o) (oc_now o) (with_spec (oc_spec o) n) plan (plan_snapshot plan)).2) as E.
  { unfold effects_at, notify, last_sent. cbn [with_spec cn_Spec cn_Status]. cbv zeta.
    rewrite (proj2 (String.eqb_neq _ _) (works_name _ _ _ Hw)), (works_plan _ _ _ Hw), Hc. by case_match. }
  destruct (match last_sent n with Some _ => _ | None => _ end) eqn:El.
  - right. rewrite (after_status _ _ [] _ (works_updates _ _ _ Hw) E), E. split_and!; [|done..].
    destruct (last_sent n) as [t|] eqn:Et; [|done]. intros Hwait. apply Z.ltb_lt in El. specialize (Hwait t Et). lia.
  - left. split.
    + intros t Ht. rewrite Ht in El. by apply Z.ltb_ge in El.
    + rewrite E. by apply deliver_works.
Qed.

(** Storing a time to the second only shortens the wait. *)
Lemma waited_stored n n' o : last_sent n' = option_map stored_time (last_sent n) → waited n o → waited n' o.
Proof.
  unfold waited. intros -> Hw t Ht. destruct (last_sent n) as [s|]; [|done]. injection Ht as <-. specialize (Hw s eq_refl).
  assert (stored_time s ≤ s)%Z by (unfold stored_time, second; pose proof (Z.mod_pos_bound s 1000000000);
    pose proof (Z.div_mod s 1000000000); lia).
  unfold t_sub in *. lia.
Qed.

(** A changed risk set is eventually sent.  Take any run of reconciles during which the
    services a notification needs are up, its plan keeps showing what [P] says - with
    it a snapshot that is not the one last sent, or no snapshot - and at some point the
    cooldown since the last attempt is over.  Then one of the reconciles delivers:
    every enabled channel gets the message rendered from the plan and takes it, the
    status reports [Delivered], the snapshot is recorded as sent at that time, and
    nothing was sent before. *)
Theorem changed_risks_are_eventually_sent (P : CapacityPlan → Prop) (h : string) n (os : list occasion) :
  (∀ plan, P plan → plan_snapshot plan = h) →
  h = "" ∨ nt_LastDigestHash (cn_Status n) ≠ h →
  Forall (λ o, ∃ plan, works (cn_Namespace n) o plan ∧ P plan) os →
  Exists (waited n) os →
  ∃ k o plan fs, run n os !! k = Some (o, fs) ∧ delivered_at o n plan fs ∧ P plan ∧
    ∀ j r, j < k → run n os !! j = Some r → deliveries r.2 = [].
Proof.
  intros HP Hh Hos. revert n Hh Hos. induction os as [|o os IH]; intros n Hh Hos Hw; [by apply Exists_nil in Hw|].
  apply Forall_cons in Hos as [(plan & Ho & Hpl) Hos].
  destruct (works_step o n plan Ho) as [[_ Hd]|(Hnot & Hnone & Hns & Hdig & Hlast)]; [by rewrite (HP _ Hpl)| |].
  { exists 0, o, plan, (effects_at o n). split_and!; [done..|]. intros; lia. }
  apply Exists_cons in Hw as [Hw|Hw]; [done|].
  destruct (IH (after o n)) as (k & o' & plan' & fs & Hk & Hd & Hp & Hq).
  - by rewrite Hdig.
  - by rewrite Hns.
  - eapply Exists_impl; [exact Hw|]. intros o'. by apply waited_stored.
  - exists (S k), o', plan', fs. split_and!; [done| |done|].
    + unfold delivered_at in *. unfold mail_done, slack_done in *. cbn [with_spec cn_Spec cn_Namespace] in *. by rewrite Hns in Hd.
    + intros [|j] r Hj Hr; [by injection Hr as <-|]. apply (Hq j); [lia|done].
Qed.
End notification_lemmas.

(** ** A notification to run on

    A plan with one risk, a Slack webhook that works and one whose secret is missing. *)

#[local] Existing Instances amd64 insertion_sorter.
#[local] Instance notification_llm : LlmEnv := {|
  openai_output _ := Ok ""; anthropic_blocks _ := Ok []; url_parse s := Ok (mkURL "http" s "/" "");
  url_string u := u_Host u; http_post _ _ := Ok (200%Z, "{}"); bad_request_url _ := None; llm_lib := demo_go |}.

Definition noted_plan : CapacityPlan :=
  mkCapacityPlan "main" 1 0 empty_spec
    (mkCapacityPlanStatus [] [] empty_summary [] "ns/a is filling up" [] "" "" None "hash" [] [] "" None [] "" None 1).

Definition noted_api (webhook : res Secret) : Api := {|
  get_pvc _ name := Err (not_found name); list_pvcs _ := Ok []; list_pods _ := Ok [];
  get_replicaset _ name := Err (not_found name); get_job _ name := Err (not_found name);
  get_secret _ _ := webhook; list_plans := Ok [noted_plan]; get_plan _ := Ok noted_plan;
  get_notification _ name := Err (not_found name) |}.

Definition noted_env : NotifyEnv := {|
  bad_webhook_url _ := None; slack_post _ _ := Ok (200%Z, "ok");
  smtp_SendMail _ := None; notification_update_error _ := None |}.

Definition noted_spec : CapacityPlanNotificationSpec :=
  mkCapacityPlanNotificationSpec "main" 0 true false (mkSlackNotificationSpec true "hook" "")
    (mkEmailNotificationSpec false "" "" "" "" "" "" [] "").

Definition noted : CapacityPlanNotification :=
  mkCapacityPlanNotification "ns" "slack" 1 noted_spec (mkCapacityPlanNotificationStatus [] None "" "" []).

Definition webhook_secret : res Secret := Ok (mkSecret "1" {[ "webhookURL" := "http://hook" ]}).
Definition at_time (t : Z) (webhook : res Secret) : occasion :=
  mkOccasion t noted_spec (noted_api webhook) noted_env.

(** The first reconcile reaches the webhook; five minutes later nothing is sent. *)
Example noted_run :
  map (λ r, length (deliveries r.2)) (run noted [at_time 0 webhook_secret; at_time (5 * minute) webhook_secret]) =
  [1; 0].
Proof. vm_compute. reflexivity. Qed.

Lemma deliveries_respect_cooldown_witness :
  ForallOrdPairs (λ r1 r2 : occasion * list effect,
    deliveries r1.2 ≠ [] → deliveries r2.2 ≠ [] →
    (cooldown_of (oc_spec r2.1) - second < oc_now r2.1 - oc_now r1.1)%Z)
    (run noted [at_time 0 webhook_secret; at_time (40 * minute) webhook_secret]).
Proof.
  apply (deliveries_respect_cooldown noted [at_time 0 webhook_secret; at_time (40 * minute) webhook_secret]).
  - repeat constructor. vm_compute. discriminate.
  - repeat constructor.
Defined.

Lemma failed_delivery_is_not_retried_witness :
  ∃ n2, effects_at (at_time hour webhook_secret) (after (at_time 0 (Err (not_found "hook"))) noted) =
          [UpdateNotificationStatus n2] ∧
    ready n2 = Some (mkCondition "Ready" ConditionTrue 1 "NoChange" "Risk snapshot unchanged; notification skipped").
Proof.
  eapply (failed_delivery_is_not_retried (at_time 0 (Err (not_found "hook"))) (at_time hour webhook_secret)
    noted [] _ _ noted_plan noted_plan); [done|by vm_compute|by vm_compute|done|done|done|done|done|done|done].
Defined.

Lemma delivered_means_sent_witness :
  ∃ url payload, PostSlack url payload ∈ (notify (H3 := noted_api webhook_secret) (H4 := noted_env) 0 noted).2.
Proof.
  edestruct (delivered_means_sent (H3 := noted_api webhook_secret) (H4 := noted_env) 0 noted
    [PostSlack "http://hook" (marshal_text (renderNotificationMessage noted_plan))])
    as (plan & fs1 & fs2 & _ & _ & _ & Hfs & (url & payload & code & body & -> & _) & _);
    [by vm_compute|by vm_compute|done|].
  exists url, payload. simpl in Hfs. injection Hfs as <- <- _. vm_compute. apply elem_of_cons. by left.
Defined.
