(* ===== verification/AlertReceiver.v ===== *)
(** * internal/alertreceiver

    The webhook receiver of server.go: the log of raw payloads ([Store]) and the three
    HTTP handlers.  The log file is its content; the system calls can fail, which
    each operation takes as an argument. *)

From stdpp Require Import base list strings.
From Stdlib Require Import ZArith Lia Ascii.
From S2P Require Import Prelude GoFloat GoText GoJson.

Local Open Scope string_scope.
Local Open Scope go_scope.

(* go: internal/alertreceiver/server.go:16-19 DefaultMaxBodyBytes *)
Definition DefaultMaxBodyBytes : Z := (2 * 1024 * 1024)%Z.

(** ** The log *)

(** A log file: absent, or its content. *)
Definition log := option string.

(** How the system calls of one append end: all well, or the first that fails; a
    failing write may have stored a part. *)
Inductive append_io :=
| AppendOk
| OpenFails (e : error)
| WriteFails (stored : nat) (e : error)
| NewlineFails (e : error).

(* go: internal/alertreceiver/server.go Store.Append *)
Definition Append (raw : string) (io : append_io) (l : log) : option error * log :=
  let encoded := json_quote raw in
  match io with
  | OpenFails e => (Some (wrap_error "open log file: " e), l)
  | WriteFails n e => (Some (wrap_error "write payload: " e), Some (default "" l +:+ str_take n encoded))
  | NewlineFails e => (Some (wrap_error "write payload newline: " e), Some (default "" l +:+ encoded))
  | AppendOk => (None, Some (default "" l +:+ encoded +:+ nl))
  end.

(** The largest line, with its end, that fits the buffer of the scanner. *)
Definition max_token : Z := (8 * 1024 * 1024)%Z.

(** [bufio.ScanLines]: the lines that a newline ends, without a trailing carriage
    return, and the rest of the file if there is one.  A line that does not fit the
    buffer stops the scan with an error. *)
Definition drop_cr (s : string) : string := trim_suffix s (String (chr 13) "").

Fixpoint scan_lines (lines : list string) : option (list string) :=
  match lines with
  | [] => Some []
  | [rest] =>
      if rest =? "" then Some []
      else if (max_token <=? Z.of_nat (String.length rest))%Z then None else Some [drop_cr rest]
  | line :: lines =>
      if (max_token <? Z.of_nat (String.length line) + 1)%Z then None
      else option_map (cons (drop_cr line)) (scan_lines lines)
  end.

(** One scanned line: blank ones are skipped, what is not a JSON string is legacy
    plain text. *)
(* go: internal/alertreceiver/server.go:86-96 Records *)
Definition record_of (line : string) : option string :=
  let line := trim_space line in
  if line =? "" then None
  else match json_unquote line with Some decoded => Some decoded | None => Some line end.

Definition too_long : error := errorf "bufio.Scanner: token too long".

(** How opening and reading the file end. *)
Inductive read_io := ReadOk | ReadOpenFails (e : error) | ReadFails (e : error).

(* go: internal/alertreceiver/server.go Store.Records *)
Definition Records (io : read_io) (l : log) : res (list string) :=
  match l, io with
  | _, ReadOpenFails e => Err (wrap_error "open log file: " e)
  | None, _ => Ok []
  | Some _, ReadFails e => Err (wrap_error "scan log file: " e)
  | Some content, ReadOk =>
      match scan_lines (split_on (chr 10) content) with
      | None => Err (wrap_error "scan log file: " too_long)
      | Some lines => Ok (omap record_of lines)
      end
  end.

(** ** Responses *)

(** The payloads the handlers answer with. *)
(* go: internal/alertreceiver/server.go:21-32 recordsResponse *)
Inductive payload :=
| errorResponse (msg : string)
| okResponse (ok : bool)
| recordsResponse (count : Z) (records : list string).

(** [json.Marshal] of a payload. *)
Definition json_of (p : payload) : string :=
  let q s := String quote_char (s +:+ String quote_char "") in
  match p with
  | errorResponse msg => "{" +:+ q "error" +:+ ":" +:+ json_quote msg +:+ "}"
  | okResponse ok => "{" +:+ q "ok" +:+ ":" +:+ bool_text ok +:+ "}"
  | recordsResponse n rs =>
      "{" +:+ q "count" +:+ ":" +:+ itoa n +:+ "," +:+ q "records" +:+ ":["
        +:+ join "," (map json_quote rs) +:+ "]}"
  end.

Record response := mkResponse { rw_Status : Z; rw_ContentLength : Z; rw_Body : string }.

(* go: internal/alertreceiver/server.go writeJSON *)
Definition writeJSON (statusCode : Z) (p : payload) : response :=
  let body := json_of p in
  mkResponse statusCode (Z.of_nat (String.length body)) body.

(** ** Requests *)

(** A request: its body is the bytes that arrive, and possibly an error after them. *)
Record request := mkRequest {
  rq_Method : string;
  rq_Path : string;
  rq_ContentLength : string;
  rq_Body : string;
  rq_BodyError : option error;
}.

(* go: internal/alertreceiver/server.go:176-179 errPayloadTooLarge *)
Inductive body_error := errInvalidContentLength | errPayloadTooLarge | errReadBody (e : error).

(** [io.ReadAll(io.LimitReader(body, n))]. *)
Definition read_limited (n : Z) (body : string) (e : option error) : string + error :=
  if (n <=? Z.of_nat (String.length body))%Z then inl (str_take (Z.to_nat n) body)
  else match e with Some e => inr e | None => inl body end.

(* go: internal/alertreceiver/server.go handler.readBody *)
Definition readBody (maxBodyBytes : Z) (r : request) : string + body_error :=
  let raw := trim_space (rq_ContentLength r) in
  let declared :=
    if negb (raw =? "") then
      match atoi raw with
      | inr _ => Some errInvalidContentLength
      | inl length =>
          if (length <? 0)%Z then Some errInvalidContentLength
          else if (maxBodyBytes <? length)%Z then Some errPayloadTooLarge else None
      end
    else None in
  match declared with
  | Some e => inr e
  | None =>
      match read_limited (maxBodyBytes ⊞ 1) (rq_Body r) (rq_BodyError r) with
      | inr e => inr (errReadBody (wrap_error "read body: " e))
      | inl body =>
          if (maxBodyBytes <? Z.of_nat (String.length body))%Z then inr errPayloadTooLarge else inl body
      end
  end.

(** ** Handlers *)

(* go: internal/alertreceiver/server.go handler.handleHealth *)
Definition handleHealth (r : request) : response :=
  if negb (rq_Method r =? "GET") then writeJSON 405 (errorResponse "method not allowed")
  else writeJSON 200 (okResponse true).

(* go: internal/alertreceiver/server.go handler.handleRecords *)
Definition handleRecords (io : read_io) (r : request) (l : log) : response :=
  if negb (rq_Method r =? "GET") then writeJSON 405 (errorResponse "method not allowed")
  else match Records io l with
       | Err _ => writeJSON 500 (errorResponse "failed to read records")
       | Ok records => writeJSON 200 (recordsResponse (Z.of_nat (length records)) records)
       end.

(* go: internal/alertreceiver/server.go handler.handleRoot *)
Definition handleRoot (maxBodyBytes : Z) (io : append_io) (r : request) (l : log) : response * log :=
  if negb (rq_Path r =? "/") then (writeJSON 404 (errorResponse "not found"), l)
  else if negb (rq_Method r =? "POST") then (writeJSON 405 (errorResponse "method not allowed"), l)
  else match readBody maxBodyBytes r with
       | inr errInvalidContentLength => (writeJSON 400 (errorResponse "invalid content-length"), l)
       | inr errPayloadTooLarge => (writeJSON 413 (errorResponse "payload too large"), l)
       | inr (errReadBody _) => (writeJSON 400 (errorResponse "invalid request body"), l)
       | inl raw =>
           match Append raw io l with
           | (Some _, l) => (writeJSON 500 (errorResponse "failed to persist payload"), l)
           | (None, l) => (writeJSON 200 (okResponse true), l)
           end
       end.

(** The multiplexer, on a path it need not clean; the body limit defaults when it is
    not positive. *)
(* go: internal/alertreceiver/server.go NewHandler *)
Definition serve (maxBodyBytes : Z) (aio : append_io) (rio : read_io) (r : request) (l : log) : response * log :=
  let maxBodyBytes := if (maxBodyBytes <=? 0)%Z then DefaultMaxBodyBytes else maxBodyBytes in
  if rq_Path r =? "/healthz" then (handleHealth r, l)
  else if rq_Path r =? "/records" then (handleRecords rio r l, l)
  else handleRoot maxBodyBytes aio r l.

(** ** Lemmas: lines *)

Lemma split_on_nonempty sep s : split_on sep s ≠ [].
Proof. destruct s as [|a s]; [done|]. simpl. destruct (a =? sep)%char; [done|]. by destruct (split_on sep s). Qed.

Lemma split_on_app sep a b : split_on sep (a +:+ String sep b) = (split_on sep a ++ split_on sep b)%list.
Proof.
  induction a as [|x a IH]; [rewrite string_app_nil_l; simpl; by rewrite Ascii.eqb_refl|].
  rewrite string_app_cons. cbn [split_on]. destruct (x =? sep)%char; [by rewrite IH|]. rewrite IH.
  destruct (split_on sep a) eqn:E; [by apply split_on_nonempty in E|done].
Qed.

Lemma split_on_none sep s : all_bytes (λ a, negb (a =? sep)%char) s = true → split_on sep s = [s].
Proof.
  induction s as [|a s IH]; [done|]. simpl. intros [Ha Hs]%andb_true_iff. apply negb_true_iff in Ha.
  by rewrite Ha, IH.
Qed.

Lemma all_bytes_impl p q s : (∀ a, p a = true → q a = true) → all_bytes p s = true → all_bytes q s = true.
Proof. intros Hpq. induction s as [|a s IH]; [done|]. simpl. intros [Ha Hs]%andb_true_iff. by rewrite Hpq, IH. Qed.

Lemma split_on_quoted r : split_on (chr 10) (json_quote r) = [json_quote r].
Proof.
  apply split_on_none. eapply all_bytes_impl; [|apply printable_json_quote].
  intros a. unfold printable. intros Ha%N.leb_le. apply negb_true_iff, Ascii.eqb_neq. intros ->.
  by vm_compute in Ha.
Qed.

Definition ended (r : string) : string := json_quote r +:+ nl.
Definition content_of (rs : list string) : string := foldr (λ r c, ended r +:+ c) "" rs.

Lemma split_on_content rs : split_on (chr 10) (content_of rs) = (map json_quote rs ++ [""])%list.
Proof.
  induction rs as [|r rs IH]; [done|].
  change (content_of (r :: rs)) with ((json_quote r +:+ nl) +:+ content_of rs). rewrite <-string_app_assoc.
  change (nl +:+ content_of rs) with (String (chr 10) (content_of rs)).
  by rewrite split_on_app, split_on_quoted, IH.
Qed.

Lemma drop_cr_quoted r : drop_cr (json_quote r) = json_quote r.
Proof.
  unfold drop_cr, trim_suffix, has_suffix, json_quote.
  rewrite <-(string_app_cons quote_char (quote_body r)), rev_append. done.
Qed.

Lemma trim_quoted r : trim_space (json_quote r) = json_quote r.
Proof. by apply trim_space_visible. Qed.

Lemma record_of_quoted r : valid_utf8 r = true → record_of (json_quote r) = Some r.
Proof. intros Hr. unfold record_of. rewrite trim_quoted. cbn [String.eqb json_quote]. by rewrite json_unquote_quote. Qed.

(** Payloads whose line fits the scanner whatever it escapes to. *)
Definition fits (r : string) : Prop := (6 * Z.of_nat (String.length r) + 3 <= max_token)%Z.

Lemma quoted_fits r : fits r → (max_token <? Z.of_nat (String.length (json_quote r)) + 1)%Z = false.
Proof. unfold fits. intros Hr. apply Z.ltb_ge. rewrite length_json_quote. pose proof (length_quote_body r). lia. Qed.

Lemma scan_lines_app xs y ys :
  scan_lines (xs ++ y :: ys)%list =
  if existsb (λ line, (max_token <? Z.of_nat (String.length line) + 1)%Z) xs then None
  else option_map (app (map drop_cr xs)) (scan_lines (y :: ys)).
Proof.
  induction xs as [|x xs IH]; [simpl app; by destruct (scan_lines (y :: ys))|].
  change ((x :: xs) ++ y :: ys)%list with (x :: (xs ++ y :: ys))%list.
  assert (∀ k l, scan_lines (x :: (k :: l)) =
    if (max_token <? Z.of_nat (String.length x) + 1)%Z then None
    else option_map (cons (drop_cr x)) (scan_lines (k :: l))) as Hx by done.
  cbn [existsb]. destruct (xs ++ y :: ys)%list as [|k l] eqn:E; [by destruct xs|].
  rewrite Hx, IH. destruct (_ <? _)%Z; [done|]. cbn [orb]. destruct (existsb _ xs); [done|].
  by destruct (scan_lines (y :: ys)).
Qed.

Definition append_all (rs : list string) (l : log) : log := fold_left (λ l r, (Append r AppendOk l).2) rs l.

Lemma append_all_content rs c : append_all rs (Some c) = Some (c +:+ content_of rs).
Proof.
  unfold append_all. revert c. induction rs as [|r rs IH]; intros c; simpl; [by rewrite string_app_nil_r|].
  rewrite IH. unfold ended. by rewrite !string_app_assoc.
Qed.

Lemma append_all_none rs : append_all rs None = match rs with [] => None | _ => append_all rs (Some "") end.
Proof. by destruct rs. Qed.

(** The records of a log that ends a line, followed by quoted payloads. *)
Lemma records_app c rs :
  Forall (λ r, valid_utf8 r = true ∧ fits r) rs →
  scan_lines (split_on (chr 10) (c +:+ nl +:+ content_of rs)) =
  option_map (λ old, old ++ map json_quote rs)%list (scan_lines (split_on (chr 10) (c +:+ nl))).
Proof.
  intros Hrs. change (nl +:+ content_of rs) with (String (chr 10) (content_of rs)). unfold nl.
  rewrite !split_on_app, split_on_content.
  change (split_on (chr 10) "") with [""].
  assert (existsb (λ line, (max_token <? Z.of_nat (String.length line) + 1)%Z) (map json_quote rs) = false) as Hex.
  { induction Hrs as [|r rs [_ Hr] _ IH]; [done|]. cbn [map existsb].
    by rewrite quoted_fits, IH. }
  rewrite (assoc_L (++)%list), !scan_lines_app, existsb_app, Hex, orb_false_r.
  clear Hex Hrs. destruct (existsb _ (split_on (chr 10) c)); [done|]. cbn [scan_lines String.eqb option_map].
  rewrite !app_nil_r, map_app. do 2 f_equal. rewrite map_map. apply map_ext, drop_cr_quoted.
Qed.

Lemma records_of_quoted rs :
  Forall (λ r, valid_utf8 r = true ∧ fits r) rs → omap record_of (map json_quote rs) = rs.
Proof.
  induction 1 as [|r rs [Hr _] _ IH]; [done|].
  change (omap record_of (map json_quote (r :: rs))) with
    (match record_of (json_quote r) with Some y => y :: omap record_of (map json_quote rs)
     | None => omap record_of (map json_quote rs) end).
  by rewrite record_of_quoted, IH.
Qed.

(** A log of quoted payloads only. *)
Lemma records_content rs :
  Forall (λ r, valid_utf8 r = true ∧ fits r) rs → Records ReadOk (Some (content_of rs)) = Ok rs.
Proof.
  intros Hrs. unfold Records. rewrite split_on_content. pose proof (records_app "" rs Hrs) as X.
  rewrite string_app_nil_l in X. change (nl +:+ content_of rs) with ("" +:+ String (chr 10) (content_of rs)) in X.
  rewrite split_on_app, split_on_content in X. cbn [split_on app] in X.
  change (scan_lines ("" :: (map json_quote rs ++ [""])%list)) with
    (scan_lines ([""] ++ (map json_quote rs ++ [""]))%list) in X.
  destruct (map json_quote rs ++ [""])%list as [|y ys] eqn:E;
    [by apply app_nil in E as [_ ?]|].
  rewrite scan_lines_app in X. destruct (scan_lines (y :: ys)) as [lines|]; [|by vm_compute in X].
  cbn in X.
  injection X as X. rewrite X. f_equal. by apply records_of_quoted.
Qed.

(** Whatever follows a line that is too long, the log cannot be read any more. *)
Lemma too_long_forever c line rest :
  split_on (chr 10) line = [line] → (max_token < Z.of_nat (String.length line) + 1)%Z →
  Records ReadOk (Some (c +:+ nl +:+ line +:+ nl +:+ rest)) = Err (wrap_error "scan log file: " too_long).
Proof.
  intros Hl Hlen. unfold Records.
  change (nl +:+ line +:+ nl +:+ rest) with (String (chr 10) (line +:+ String (chr 10) rest)).
  rewrite !split_on_app, Hl, (assoc_L (++)%list).
  destruct (split_on (chr 10) rest) as [|y ys] eqn:E; [by apply split_on_nonempty in E|].
  rewrite scan_lines_app, existsb_app. cbn [existsb].
  apply Z.ltb_lt in Hlen. rewrite Hlen. cbn [orb]. by rewrite orb_true_r.
Qed.

Lemma too_long_first line rest :
  split_on (chr 10) line = [line] → (max_token < Z.of_nat (String.length line) + 1)%Z →
  Records ReadOk (Some (line +:+ nl +:+ rest)) = Err (wrap_error "scan log file: " too_long).
Proof.
  intros Hl Hlen. unfold Records.
  change (nl +:+ rest) with (String (chr 10) rest). rewrite split_on_app, Hl.
  destruct (split_on (chr 10) rest) as [|y ys] eqn:E; [by apply split_on_nonempty in E|].
  rewrite scan_lines_app. cbn [existsb]. apply Z.ltb_lt in Hlen. by rewrite Hlen.
Qed.

(** A payload of [n] zero bytes. *)
Fixpoint zeros (n : nat) : string := match n with O => "" | S n => String (chr 0) (zeros n) end.

Lemma length_zeros n : String.length (zeros n) = n.
Proof. induction n; simpl; by f_equal. Qed.

Lemma length_quoted_zeros n : String.length (quote_body (zeros n)) = (6 * n)%nat.
Proof.
  induction n as [|n IH]; [done|]. cbn [zeros].
  change (quote_body (String (chr 0) (zeros n))) with (esc "u0000" +:+ quote_body (zeros n)).
  rewrite string_length_app, IH. change (String.length (esc "u0000")) with 6. lia.
Qed.

(** ** Properties *)

(** Round trip: what was appended is read back.  On a log that is absent, or that
    ends its last line and can be read, appending payloads that are valid UTF-8 and
    short enough that their escaped form fits the scanner makes [Records] answer
    the earlier records followed by exactly these payloads, in order, line breaks
    and quotes inside them included. *)
Theorem records_return_appended (l : log) old rs :
  (l = None ∨ l = Some "" ∨ ∃ c, l = Some (c +:+ nl)) → Records ReadOk l = Ok old →
  Forall (λ r, valid_utf8 r = true ∧ fits r) rs →
  Records ReadOk (append_all rs l) = Ok (old ++ rs)%list.
Proof.
  intros Hl Hold Hrs. destruct Hl as [->|[->|(c & ->)]].
  - injection Hold as <-. rewrite append_all_none. destruct rs as [|r rs]; [done|].
    rewrite append_all_content, string_app_nil_l. by apply records_content.
  - injection Hold as <-. rewrite append_all_content, string_app_nil_l. by apply records_content.
  - rewrite append_all_content, <-string_app_assoc. unfold Records in Hold |- *.
    rewrite records_app by done. destruct (scan_lines _) as [lines|]; [|done]. injection Hold as <-.
    cbn [option_map]. f_equal. rewrite omap_app. f_equal. by apply records_of_quoted.
Qed.

Lemma records_return_appended_witness :
  Records ReadOk (append_all ["a" +:+ nl +:+ "b"; ""] (Some ("legacy line" +:+ nl))) =
  Ok ["legacy line"; "a" +:+ nl +:+ "b"; ""].
Proof.
  apply (records_return_appended (Some ("legacy line" +:+ nl)) ["legacy line"]).
  - right; right. by exists "legacy line".
  - by vm_compute.
  - repeat constructor; by vm_compute.
Defined.

(** One accepted payload can make the log unreadable for good: a POST of two MiB of
    zero bytes, the largest body the default limit admits, is stored and answered
    with 200, its line is longer than the eight MiB the reader keeps for it, and
    from then on, whatever else is stored, GET /records answers 500. *)
Theorem accepted_payload_breaks_records (rs : list string) (aio : append_io) :
  let body := zeros (Z.to_nat DefaultMaxBodyBytes) in
  let '(resp, l) := serve 0 AppendOk ReadOk (mkRequest "POST" "/" "" body None) None in
  rw_Status resp = 200%Z ∧ valid_utf8 body = true ∧
  rw_Status (serve 0 aio ReadOk (mkRequest "GET" "/records" "" "" None) (append_all rs l)).1 = 500%Z.
Proof.
  assert (∀ n, valid_utf8 (zeros n) = true) as Hutf by (induction n; [done|by simpl]).
  assert (Z.of_nat (Z.to_nat DefaultMaxBodyBytes) = DefaultMaxBodyBytes) as Hn by (apply Z2Nat.id; discriminate).
  revert Hn. generalize (Z.to_nat DefaultMaxBodyBytes). intros n Hn. cbv zeta.
  assert (readBody DefaultMaxBodyBytes (mkRequest "POST" "/" "" (zeros n) None) = inl (zeros n)) as Hb.
  { unfold readBody, read_limited. cbn [rq_ContentLength rq_Body rq_BodyError]. cbn -[Z.of_nat DefaultMaxBodyBytes wrap64].
    rewrite length_zeros, Hn. rewrite wrap64_id by done.
    assert ((DefaultMaxBodyBytes + 1 <=? DefaultMaxBodyBytes)%Z = false) as -> by done.
    rewrite length_zeros, Hn. by rewrite Z.ltb_irrefl. }
  unfold serve. cbn [rq_Path String.eqb]. change (0 <=? 0)%Z with true. cbv iota.
  cbn -[DefaultMaxBodyBytes readBody Append Records append_all]. rewrite Hb.
  cbn -[Records append_all json_quote zeros]. split_and!; [done|apply Hutf|].
  unfold handleRecords. cbn [rq_Method String.eqb negb]. rewrite append_all_content.
  rewrite string_app_nil_l, <-string_app_assoc, too_long_first; [done|apply split_on_quoted|].
  rewrite length_json_quote, length_quoted_zeros. unfold max_token, DefaultMaxBodyBytes in *. lia.
Qed.

(** C37. A request changes the log only as a stored POST: then its whole body, never a
    prefix of it and never more than the limit, becomes one new line and the answer
    is 200; a failed write answers 500; every other request leaves the log as it is
    and answers 200 only to a GET of a known path.  The declared content length of
    an answer is the length of its body. *)
Theorem request_is_stored_or_refused limit aio rio r l :
  (limit < int64_max)%Z →
  let '(resp, l') := serve limit aio rio r l in
  let limit' := if (limit <=? 0)%Z then DefaultMaxBodyBytes else limit in
  rw_ContentLength resp = Z.of_nat (String.length (rw_Body resp)) ∧
  ((rq_Method r = "POST" ∧ rq_Path r = "/" ∧ (Z.of_nat (String.length (rq_Body r)) <= limit')%Z ∧
    rq_BodyError r = None ∧
    match aio with
    | AppendOk => rw_Status resp = 200%Z ∧ l' = Some (default "" l +:+ ended (rq_Body r))
    | _ => rw_Status resp = 500%Z ∧ l' = (Append (rq_Body r) aio l).2
    end) ∨
   l' = l ∧ (rw_Status resp = 200%Z → rq_Method r = "GET" ∧ (rq_Path r = "/healthz" ∨ rq_Path r = "/records"))).
Proof.
  intros Hlim. unfold serve. set (limit' := if (limit <=? 0)%Z then DefaultMaxBodyBytes else limit).
  assert (0 < limit' < int64_max)%Z as Hl' by (unfold limit'; destruct (Z.leb_spec limit 0); [done|lia]).
  destruct (String.eqb_spec (rq_Path r) "/healthz") as [Hp|].
  { split; [unfold handleHealth; by destruct (negb _)|]. right. split; [done|].
    unfold handleHealth. destruct (String.eqb_spec (rq_Method r) "GET"); [intros _; split; [done|by left]|done]. }
  destruct (String.eqb_spec (rq_Path r) "/records") as [Hp|].
  { split; [unfold handleRecords; destruct (negb _); [done|by destruct (Records rio l)]|]. right. split; [done|].
    unfold handleRecords. destruct (String.eqb_spec (rq_Method r) "GET"); [intros _; split; [done|by right]|done]. }
  unfold handleRoot. destruct (String.eqb_spec (rq_Path r) "/") as [Hp|]; [|split; [done|by right]].
  destruct (String.eqb_spec (rq_Method r) "POST") as [Hm|]; [|split; [done|by right]]. cbn [negb].
  destruct (readBody limit' r) as [raw|e] eqn:Hb; [|destruct e; (split; [done|by right])].
  assert (raw = rq_Body r ∧ (Z.of_nat (String.length (rq_Body r)) <= limit')%Z ∧ rq_BodyError r = None)
    as (-> & Hlen & Herr).
  { unfold readBody in Hb. destruct (if negb _ then _ else _); [done|]. unfold read_limited in Hb.
    rewrite wrap64_id in Hb by (unfold is_int64, int64_min in *; lia).
    destruct (Z.leb_spec (limit' + 1) (Z.of_nat (String.length (rq_Body r)))) as [Hbig|Hsmall].
    - assert (String.length (str_take (Z.to_nat (limit' + 1)) (rq_Body r)) = Z.to_nat (limit' + 1)) as Ht
        by (rewrite length_str_take; lia).
      rewrite Ht in Hb. destruct (Z.ltb_spec limit' (Z.of_nat (Z.to_nat (limit' + 1)))); [done|lia].
    - destruct (rq_BodyError r); [done|]. destruct (_ <? _)%Z; [done|]. injection Hb as <-. split_and!; [done|lia|done]. }
  destruct aio; (split; [done|left]); by split_and!.
Qed.

Lemma request_is_stored_or_refused_witness :
  (serve 10 AppendOk ReadOk (mkRequest "POST" "/" "2" "hi" None) None).2 = Some (ended "hi").
Proof.
  pose proof (request_is_stored_or_refused 10 AppendOk ReadOk (mkRequest "POST" "/" "2" "hi" None) None eq_refl) as X.
  destruct (serve _ _ _ _ _) as [resp l'] eqn:E. destruct X as [_ [(_ & _ & _ & _ & _ & ->)|[-> X]]]; [done|].
  vm_compute in E. by injection E as _.
Defined.
