(* ===== verification/CiVerify.v ===== *)
(** * internal/civerify

    The checks of the integration pipeline: the growth cross-check against Prometheus
    (growth.go, prometheus.go, capacityplan.go), the alert checks with their polling
    loop (alerts.go), the text of the validation report (report.go) and the
    diagnostics summary (diagnostics.go).  Files are read through an argument; the HTTP
    round trip and the URL of a query are the class [CiEnv]. *)

From stdpp Require Import base list strings gmap.
From Stdlib Require Import ZArith Lia Ascii SpecFloat.
From S2P Require Import Prelude GoFloat GoText GoStd GoStrconv JsonDoc GoTab ApiTypes Metrics PromClient K8s.

Local Open Scope string_scope.
Local Open Scope go_scope.

(** ** Growth cross-check *)

(* go: internal/civerify/growth.go PVCGrowth *)
Record PVCGrowth := mkPVCGrowth { pg_Name : string; pg_StatusBytesPerDay : float }.

(* go: internal/civerify/growth.go CompareOptions *)
Record CompareOptions := mkCompareOptions {
  RelativeTolerance : float;
  AbsToleranceBytesDay : float;
  MinComparablePVCs : Z;
  MinMatchingPVCs : Z;
}.

(* go: internal/civerify/growth.go ComparisonRow *)
Record ComparisonRow := mkRow {
  row_Name : string;
  row_StatusBytesPerDay : float;
  row_PromBytesPerDay : float;
  row_HasPromData : bool;
  row_AbsDiff : float;
  row_RelDiffPct : float;
  row_AllowedDiff : float;
  row_ToleranceBasis : string;
  row_Matched : bool;
  row_Reason : string;
}.

(* go: internal/civerify/growth.go ComparisonSummary *)
Record ComparisonSummary := mkSummary {
  sm_Rows : list ComparisonRow;
  sm_Comparable : Z;
  sm_Matched : Z;
}.

(** [math.Max]. *)
Definition math_max (x y : float) : float :=
  match x, y with
  | S754_infinity false, _ | _, S754_infinity false => S754_infinity false
  | S754_nan, _ | _, S754_nan => S754_nan
  | S754_zero sx, S754_zero _ => if sx then y else x
  | _, _ => if fgtb x y then x else y
  end.

(** What [fetch] answers: a value, no data, or an error. *)
Definition GrowthFetcher := string → res (option float).

(** The row of a PVC whose Prometheus value is known. *)
(* go: internal/civerify/growth.go:70-89 CompareGrowth *)
Definition compare_row (opts : CompareOptions) (pvc : PVCGrowth) (promGrowth : float) : ComparisonRow :=
  let status := pg_StatusBytesPerDay pvc in
  let absDiff := fabs (fsub status promGrowth) in
  let scale := math_max (f_of_Z 1) (math_max (fabs status) (fabs promGrowth)) in
  let allowedAbs := AbsToleranceBytesDay opts in
  let allowedRel := fmul (RelativeTolerance opts) scale in
  let allowed := math_max allowedAbs allowedRel in
  let basis := if fgeb allowedAbs allowedRel then "absolute" else "relative" in
  let matched := fleb absDiff allowed in
  mkRow (pg_Name pvc) status promGrowth true absDiff (fmul (fdiv absDiff scale) (f_of_Z 100)) allowed basis matched
    (if matched then "within_tolerance" else "exceeds_" +:+ basis +:+ "_tolerance").

(* go: internal/civerify/growth.go:55-68 CompareGrowth *)
Definition no_data_row (pvc : PVCGrowth) : ComparisonRow :=
  mkRow (pg_Name pvc) (pg_StatusBytesPerDay pvc) fzero false fzero fzero fzero "" false "no_prometheus_data".

(** The row of a claim and the totals with it. *)
(* go: internal/civerify/growth.go:64-95 CompareGrowth *)
Definition compare_add (opts : CompareOptions) (pvc : PVCGrowth) (data : option float) (s : ComparisonSummary) :
    ComparisonSummary :=
  match data with
  | Some v =>
      if is_nan v || is_inf v then mkSummary (sm_Rows s ++ [no_data_row pvc])%list (sm_Comparable s) (sm_Matched s)
      else
        let row := compare_row opts pvc v in
        mkSummary (sm_Rows s ++ [row])%list (sm_Comparable s + 1)
          (if row_Matched row then sm_Matched s + 1 else sm_Matched s)%Z
  | None => mkSummary (sm_Rows s ++ [no_data_row pvc])%list (sm_Comparable s) (sm_Matched s)
  end.

(** The totals against their minimum. *)
(* go: internal/civerify/growth.go:98-112 CompareGrowth *)
Definition compare_verdict (opts : CompareOptions) (o : ComparisonSummary * option error) :
    ComparisonSummary * option error :=
  let '(s, e) := o in
  match e with
  | Some e => (s, Some e)
  | None =>
      if (sm_Comparable s <? MinComparablePVCs opts)%Z then
        (s, Some (errorf ("growth cross-check had only " +:+ itoa (sm_Comparable s)
                            +:+ " comparable PVCs (required: " +:+ itoa (MinComparablePVCs opts) +:+ ")")))
      else if (sm_Matched s <? MinMatchingPVCs opts)%Z then
        (s, Some (errorf ("growth cross-check matched " +:+ itoa (sm_Matched s) +:+ "/" +:+ itoa (sm_Comparable s)
                            +:+ " PVCs (required matches: " +:+ itoa (MinMatchingPVCs opts) +:+ ")")))
      else (s, None)
  end.

(** The comparison, for a [fetch] that has effects of any kind: the runs of [CiWorld] ask
    Prometheus in it. *)
Section comparing.
Context {F : Type → Type} `{MRet F} `{MBind F}.
Variable fetch : string → F (res (option float)).
Variable opts : CompareOptions.

(** The loop over the PVCs. *)
(* go: internal/civerify/growth.go:51-96 CompareGrowth *)
Fixpoint compare_loop (status : list PVCGrowth) (s : ComparisonSummary) : F (ComparisonSummary * option error)%type :=
  match status with
  | [] => mret (s, None)
  | pvc :: status =>
      if pg_Name pvc =? "" then compare_loop status s
      else
        data ← fetch (pg_Name pvc);
        match data with
        | Err e => mret (s, Some (wrap_error ("querying Prometheus growth for " +:+ pg_Name pvc +:+ ": ") e))
        | Ok data => compare_loop status (compare_add opts pvc data s)
        end
  end.

(* go: internal/civerify/growth.go CompareGrowth *)
Definition compare_growth (status : list PVCGrowth) : F (ComparisonSummary * option error)%type :=
  o ← compare_loop status (mkSummary [] 0 0); mret (compare_verdict opts o).
End comparing.

(** No effects. *)
Definition Pure (A : Type) : Type := A.
#[export] Instance Pure_ret : MRet Pure := λ A a, a.
#[export] Instance Pure_bind : MBind Pure := λ A B f a, f a.

(** The comparison with answers that are known. *)
(* go: internal/civerify/growth.go CompareGrowth *)
Definition CompareGrowth (status : list PVCGrowth) (fetch : GrowthFetcher) (opts : CompareOptions) :
    ComparisonSummary * option error :=
  compare_growth (F := Pure) fetch opts status.

(** ** Prometheus queries *)

(** The services the package calls: a GET and the URL of a query. *)
Class CiEnv := {
  ci_lib :: GoLib;
  ci_query_url : string → string → res string;
  ci_get : string → get_outcome;
}.

(** [prometheusInstantResponse] knows the values of instant queries only. *)
Definition set_instant_series (k : string) (v : json) (s : prom_series) : option prom_series :=
  if key_is k "value" then l ← dec_pair v; Some (mkSeries l []) else Some s.

Definition set_instant_data (k : string) (v : json) (r : prometheusResponse) : option prometheusResponse :=
  if key_is k "result" then
    l ← dec_list (λ v, dec_struct set_instant_series v (mkSeries [] [])) v; Some (with_result l r)
  else Some r.

(* go: internal/civerify/prometheus.go prometheusInstantResponse *)
Definition ci_decode_prom `{GoLib} : string → res prometheusResponse :=
  unmarshal (λ v, dec_struct (set_response set_instant_data) v (mkPromResponse "" [] "" "")).

(** An alert of the Alertmanager API, decoded. *)
(* go: internal/civerify/alerts.go alertmanagerAlert *)
Record alertmanagerAlert := mkAlert {
  aa_Labels : gmap string string;
  aa_Annotations : gmap string string;
  aa_State : string;
  aa_StartsAt : string;
  aa_UpdatedAt : string;
}.

Definition set_alert_status (k : string) (v : json) (a : alertmanagerAlert) : option alertmanagerAlert :=
  let 'mkAlert l an st sa ua := a in
  if key_is k "state" then st ← dec_string v st; Some (mkAlert l an st sa ua) else Some a.

Definition set_alertmanager_alert (k : string) (v : json) (a : alertmanagerAlert) : option alertmanagerAlert :=
  let 'mkAlert l an st sa ua := a in
  if key_is k "labels" then l ← dec_map v l; Some (mkAlert l an st sa ua)
  else if key_is k "annotations" then an ← dec_map v an; Some (mkAlert l an st sa ua)
  else if key_is k "status" then dec_struct set_alert_status v a
  else if key_is k "startsAt" then sa ← dec_string v sa; Some (mkAlert l an st sa ua)
  else if key_is k "updatedAt" then ua ← dec_string v ua; Some (mkAlert l an st sa ua)
  else Some a.

(** [json.Unmarshal] of the answer into [[]alertmanagerAlert]. *)
Definition ci_decode_alerts `{GoLib} : string → res (list alertmanagerAlert) :=
  unmarshal (dec_list (λ v, dec_struct set_alertmanager_alert v (mkAlert ∅ ∅ "" "" ""))).

Section ci.
Context `{CiEnv}.

(** The body of a 2xx answer; the errors carry the texts of the caller. *)
Definition get_ok (building calling reading what url : string) : res string :=
  match ci_get url with
  | BuildFails e => Err (wrap_error building e)
  | CallFails e => Err (wrap_error calling e)
  | ReadFails e => Err (wrap_error reading e)
  | Answered code body =>
      if negb (Z.quot code 100 =? 2)%Z then Err (errorf (what +:+ " HTTP " +:+ itoa code +:+ ": " +:+ body))
      else Ok body
  end.

(* go: internal/civerify/prometheus.go PrometheusClient.queryInstant *)
Definition ci_queryInstant (baseURL query : string) : res prometheusResponse :=
  match ci_query_url baseURL query with
  | Err e => Err (wrap_error "invalid Prometheus URL: " e)
  | Ok u =>
      let? body := get_ok "building request: " "request failed: " "reading response: " "prometheus" u in
      match ci_decode_prom body with
      | Err e => Err (wrap_error "decoding response: " e)
      | Ok pr =>
          if negb (pr_Status pr =? "success") then
            Err (errorf ("prometheus query failed (" +:+ pr_ErrorType pr +:+ "): " +:+ pr_Error pr))
          else Ok pr
      end
  end.

(* go: internal/civerify/prometheus.go PrometheusClient.QueryInstantScalar *)
Definition QueryInstantScalar (baseURL query : string) : res (option float) :=
  let? pr := ci_queryInstant baseURL query in
  match pr_Result pr with
  | [] => Ok None
  | s :: _ =>
      match pr_Value s with
      | _ :: v :: _ =>
          match v with
          | JString valStr =>
              match ParseFloat valStr with
              | Err e => Err (wrap_error ("parsing Prometheus value " +:+ go_quote valStr +:+ ": ") e)
              | Ok val => Ok (Some val)
              end
          | _ => Err (errorf "unexpected Prometheus value type")
          end
      | _ => Err (errorf "unexpected Prometheus value payload")
      end
  end.

(* go: internal/civerify/prometheus.go PrometheusClient.QueryInstantHasResults *)
Definition QueryInstantHasResults (baseURL query : string) : res bool :=
  let? pr := ci_queryInstant baseURL query in
  Ok (match pr_Result pr with [] => false | _ => true end).

(* go: internal/civerify/prometheus.go BuildPVCGrowthDerivQuery *)
Definition BuildPVCGrowthDerivQuery (namespace pvcName : string) (windowSeconds : Z) : string :=
  let windowSeconds := if (windowSeconds <? 1)%Z then 1%Z else windowSeconds in
  "max(deriv(kubelet_volume_stats_used_bytes{namespace=" +:+ go_quote namespace +:+ ",persistentvolumeclaim="
    +:+ go_quote pvcName +:+ "}[" +:+ itoa windowSeconds +:+ "s])) * 86400".

(* go: internal/civerify/prometheus.go BuildOperatorPVCGrowthDerivQuery *)
Definition BuildOperatorPVCGrowthDerivQuery (namespace pvcName : string) (windowSeconds : Z) : string :=
  let windowSeconds := if (windowSeconds <? 1)%Z then 1%Z else windowSeconds in
  "max((deriv(capacityplan_pvc_usage_bytes{namespace=" +:+ go_quote namespace +:+ ",pvc=" +:+ go_quote pvcName
    +:+ "}[" +:+ itoa windowSeconds +:+ "s])) or (deriv(capacityplan_pvc_usage_bytes{exported_namespace="
    +:+ go_quote namespace +:+ ",pvc=" +:+ go_quote pvcName +:+ "}[" +:+ itoa windowSeconds +:+ "s]))) * 86400".

(** What is taken from the plan once it was asked for. *)
(* go: internal/civerify/capacityplan.go:28-49 LoadCapacityPlanPVCGrowth *)
Definition plan_growth (planName : string) (plan : res CapacityPlan) : res (list PVCGrowth) :=
  match plan with
  | Err e => Err (wrap_error ("getting capacityplan " +:+ go_quote planName +:+ ": ") e)
  | Ok cp =>
      let empty := errorf "cannot cross-check growth math: status.pvcs is empty" in
      match st_PVCs (cp_Status cp) with
      | [] => Err empty
      | pvcs =>
          let out := map (λ p, mkPVCGrowth (ps_Name p) (ps_GrowthBytesPerDay p))
                       (List.filter (λ p, negb (ps_Name p =? "")) pvcs) in
          match out with [] => Err empty | _ => Ok out end
      end
  end.

(* go: internal/civerify/capacityplan.go LoadCapacityPlanPVCGrowth *)
Definition LoadCapacityPlanPVCGrowth `{Api} (planName : string) : res (list PVCGrowth) :=
  plan_growth planName (get_plan planName).

(** ** Alert checks *)

(* go: internal/civerify/alerts.go:14-19 capacityAlertNames *)
Definition capacityAlertNames : list string :=
  ["PVCUsageHigh"; "PVCUsageCritical"; "NamespaceBudgetBreachSoon"; "WorkloadBudgetBreachSoon"].

Definition dq : string := String (chr 34) "".

(* go: internal/civerify/alerts.go BuildPrometheusCapacityAlertsQuery *)
Definition BuildPrometheusCapacityAlertsQuery : string :=
  "ALERTS{alertname=~" +:+ dq +:+ "PVCUsageHigh|PVCUsageCritical|NamespaceBudgetBreachSoon|WorkloadBudgetBreachSoon"
    +:+ dq +:+ ",alertstate=~" +:+ dq +:+ "pending|firing" +:+ dq +:+ "}".

(* go: internal/civerify/alerts.go BuildPrometheusWorkloadAlertQuery *)
Definition BuildPrometheusWorkloadAlertQuery (workload : string) : string :=
  "ALERTS{alertname=" +:+ dq +:+ "WorkloadBudgetBreachSoon" +:+ dq +:+ ",workload=" +:+ go_quote workload
    +:+ ",alertstate=~" +:+ dq +:+ "pending|firing" +:+ dq +:+ "}".

(* go: internal/civerify/alerts.go AlertVerifier.PrometheusHasCapacityAlerts *)
Definition PrometheusHasCapacityAlerts (prom : string) : res bool :=
  QueryInstantHasResults prom BuildPrometheusCapacityAlertsQuery.

(* go: internal/civerify/alerts.go AlertVerifier.PrometheusHasWorkloadBudgetAlert *)
Definition PrometheusHasWorkloadBudgetAlert (prom workload : string) : res bool :=
  QueryInstantHasResults prom (BuildPrometheusWorkloadAlertQuery workload).

(* go: internal/civerify/alerts.go AlertVerifier.PrometheusHasAllWorkloadBudgetAlerts *)
Fixpoint PrometheusHasAllWorkloadBudgetAlerts (prom : string) (workloads : list string) : res bool :=
  match workloads with
  | [] => Ok true
  | workload :: workloads =>
      let? hasAlert := PrometheusHasWorkloadBudgetAlert prom workload in
      if negb hasAlert then Ok false else PrometheusHasAllWorkloadBudgetAlerts prom workloads
  end.

(* go: internal/civerify/alerts.go AlertDetail *)
Record AlertDetail := mkDetail {
  ad_AlertName : string; ad_State : string; ad_Severity : string; ad_Namespace : string; ad_PVC : string;
  ad_Kind : string; ad_Workload : string; ad_Summary : string; ad_Description : string;
  ad_StartsAt : string; ad_UpdatedAt : string;
}.

(* go: internal/civerify/alerts.go isCapacityAlertName *)
Definition isCapacityAlertName (name : string) : bool := existsb (String.eqb name) capacityAlertNames.

(* go: internal/civerify/alerts.go toAlertDetail *)
Definition toAlertDetail (a : alertmanagerAlert) : AlertDetail :=
  let label k := trim_space (default "" (aa_Labels a !! k)) in
  let annotation k := trim_space (default "" (aa_Annotations a !! k)) in
  mkDetail (label "alertname") (trim_space (aa_State a)) (label "severity") (label "namespace") (label "pvc")
    (label "kind") (label "workload") (annotation "summary") (annotation "description")
    (trim_space (aa_StartsAt a)) (trim_space (aa_UpdatedAt a)).

Definition alertmanager_alerts (url : string) : res (list alertmanagerAlert) :=
  let? body := get_ok "building alertmanager request: " "calling alertmanager API: "
                "reading alertmanager response: " "alertmanager" (url +:+ "/api/v2/alerts") in
  match ci_decode_alerts body with
  | Err e => Err (wrap_error "decoding alertmanager response: " e)
  | Ok alerts => Ok alerts
  end.

Definition alert_name (a : alertmanagerAlert) : string := default "" (aa_Labels a !! "alertname").

(* go: internal/civerify/alerts.go AlertVerifier.AlertmanagerHasCapacityAlerts *)
Definition AlertmanagerHasCapacityAlerts (url : string) : res bool :=
  let? alerts := alertmanager_alerts url in
  Ok (existsb (λ a, isCapacityAlertName (alert_name a)) alerts).

(* go: internal/civerify/alerts.go AlertVerifier.AlertmanagerCapacityAlertDetails *)
Definition AlertmanagerCapacityAlertDetails (url : string) : res (list AlertDetail) :=
  let? alerts := alertmanager_alerts url in
  Ok (map toAlertDetail (List.filter (λ a, isCapacityAlertName (alert_name a)) alerts)).
End ci.

(** ** Polling *)

(** What a run of [WaitUntil] meets: the outcome of each check, how long it takes,
    how much later than asked its timer fires, and which branch the select takes when
    timer and deadline are ready at once. *)
Record polling := mkPolling {
  po_check : nat → res bool;
  po_takes : nat → Z;
  po_delay : nat → Z;
  po_deadline_first : nat → bool;
}.

(** The loop, from the [k]-th check at time [now]; [None] is only the end of the fuel. *)
(* go: internal/civerify/alerts.go:43-57 WaitUntil *)
Fixpoint wait_loop (p : polling) (deadline : Z) (deadline_err : error) (interval : Z) (fuel : nat) (k : nat)
    (now : Z) : option (option error) :=
  match fuel with
  | O => None
  | S fuel =>
      match po_check p k with
      | Err e => Some (Some e)
      | Ok true => Some None
      | Ok false =>
          let now := (now + po_takes p k)%Z in
          let timer := (now + interval + po_delay p k)%Z in
          if (deadline <=? now)%Z then Some (Some deadline_err)
          else if (timer <? deadline)%Z || ((timer =? deadline)%Z && negb (po_deadline_first p k))
          then wait_loop p deadline deadline_err interval fuel (S k) timer
          else Some (Some deadline_err)
      end
  end.

(* go: internal/civerify/alerts.go:33-38 WaitUntil *)
Definition or_second (d : Z) : Z := if (d <=? 0)%Z then second else d.

(** The parent context may be done before the timeout, at a given time with its error. *)
(* go: internal/civerify/alerts.go WaitUntil *)
Definition WaitUntil (p : polling) (parent : option (Z * error)) (deadline_exceeded : error)
    (timeout interval : Z) (fuel : nat) (start : Z) : option (option error) :=
  let timeout := or_second timeout in
  let interval := or_second interval in
  let '(deadline, err) :=
    match parent with
    | Some (t, e) => if (t <? start + timeout)%Z then (t, e) else ((start + timeout)%Z, deadline_exceeded)
    | None => ((start + timeout)%Z, deadline_exceeded)
    end in
  wait_loop p deadline err interval fuel 0 start.

(** ** The table of the cross-check *)

(** A number of the constant [1024.0 * 1024.0 * 1440.0]: bytes per day in MiB per minute. *)
Definition mib_per_minute (bytesPerDay : float) : float := fdiv bytesPerDay (f_of_Z 1509949440).
Definition yes_no (b : bool) : string := if b then "yes" else "no".

(* go: internal/civerify/report.go formatFloat *)
Definition formatFloat (v : float) : string := format_g v.

(* go: internal/civerify/report.go:25-55 PrintGrowthSummary *)
Definition growth_row (row : ComparisonRow) : list string :=
  if row_HasPromData row then
    ["  " +:+ row_Name row; sprintf_f 2 (mib_per_minute (row_StatusBytesPerDay row));
     sprintf_f 2 (mib_per_minute (row_PromBytesPerDay row)); formatFloat (row_StatusBytesPerDay row);
     formatFloat (row_PromBytesPerDay row); sprintf_g 12 (row_AbsDiff row); sprintf_f 2 (row_RelDiffPct row);
     sprintf_g 12 (row_AllowedDiff row); row_ToleranceBasis row; yes_no (row_Matched row); row_Reason row]
  else
    ["  " +:+ row_Name row; sprintf_f 2 (mib_per_minute (row_StatusBytesPerDay row)); "n/a";
     formatFloat (row_StatusBytesPerDay row); "n/a"; "n/a"; "n/a"; "n/a"; "n/a"; "no"; row_Reason row].

(* go: internal/civerify/report.go PrintGrowthSummary *)
Definition PrintGrowthSummary (summary : ComparisonSummary) (windowSeconds : Z) : string :=
  let windowSeconds := if (windowSeconds <? 1)%Z then 1%Z else windowSeconds in
  "Growth math cross-check (status vs Prometheus deriv over " +:+ itoa windowSeconds +:+ "s)" +:+ nl +:+
  table (["  pvc"; "statusMiBPerMin"; "promMiBPerMin"; "statusBytesPerDay"; "promDerivBytesPerDay";
          "absDiffBytesPerDay"; "relDiffPct"; "allowedDiffBytesPerDay"; "basis"; "match"; "reason"]
         :: map growth_row (sm_Rows summary)).

(** ** Validation report *)

(** The fields of the report that the text shows. *)
(* go: internal/civerify/report.go ValidationReport *)
Record ValidationReport := mkReport {
  vr_Context : string; vr_PrometheusEndpoint : string; vr_ManagerRollout : string; vr_PlanReconcile : string;
  vr_TrendSignal : string; vr_GrowthMathCrosscheck : string; vr_PromRuleContent : string;
  vr_ManagerMetrics : string; vr_LLMInsights : string; vr_LLMRiskChangeSummary : string;
  vr_LLMBudgetRecommendations : string; vr_PrometheusCapacityAlerts : string; vr_WorkloadBudgetAlerts : string;
  vr_AlertmanagerCapacityAlerts : string; vr_TrendSeconds : Z; vr_TotalSeconds : Z; vr_Snapshots : Z;
  vr_PeakGrowingPVCs : Z;
}.

(* go: internal/civerify/report.go formatDuration *)
Definition formatDuration (seconds : Z) : string :=
  if (seconds <? 60)%Z then itoa seconds +:+ "s"
  else itoa (Z.quot seconds 60) +:+ "m" +:+ pad_int 2 (Z.rem seconds 60) +:+ "s".

Definition text_lines (l : list string) : string := foldr (λ x s, x +:+ nl +:+ s) "" l.

(* go: internal/civerify/report.go PrintValidationReport *)
Definition PrintValidationReport (r : ValidationReport) : string :=
  text_lines (["";
    "Validation report";
    "  context: " +:+ vr_Context r;
    "  prometheus_endpoint: " +:+ vr_PrometheusEndpoint r;
    "  manager_rollout: " +:+ vr_ManagerRollout r;
    "  plan_reconcile: " +:+ vr_PlanReconcile r;
    "  trend_signal: " +:+ vr_TrendSignal r +:+ " (snapshots=" +:+ itoa (vr_Snapshots r)
      +:+ ", peakGrowingPVCs=" +:+ itoa (vr_PeakGrowingPVCs r) +:+ ")";
    "  growth_math_crosscheck: " +:+ vr_GrowthMathCrosscheck r;
    "  prom_rule_content: " +:+ vr_PromRuleContent r;
    "  manager_metrics: " +:+ vr_ManagerMetrics r] ++
    (if vr_LLMInsights r =? "" then []
     else ["  llm_insights: " +:+ vr_LLMInsights r] ++
       (if trim_space (vr_LLMRiskChangeSummary r) =? "" then []
        else ["  llm_risk_change_summary: " +:+ vr_LLMRiskChangeSummary r]) ++
       (if trim_space (vr_LLMBudgetRecommendations r) =? "" then []
        else ["  llm_budget_recommendations: " +:+ vr_LLMBudgetRecommendations r])) ++
    ["  prometheus_capacity_alerts: " +:+ vr_PrometheusCapacityAlerts r;
     "  workload_budget_alerts: " +:+ vr_WorkloadBudgetAlerts r;
     "  alertmanager_capacity_alerts: " +:+ vr_AlertmanagerCapacityAlerts r;
     "  timings: trend=" +:+ formatDuration (vr_TrendSeconds r) +:+ " total=" +:+ formatDuration (vr_TotalSeconds r)])%list.

Example formatDuration_demo : map formatDuration [59; 60; 605]%Z = ["59s"; "1m00s"; "10m05s"].
Proof. vm_compute. reflexivity. Qed.

(** ** Diagnostics summary *)

(* go: internal/civerify/diagnostics.go defaultString *)
Definition defaultString (v fallback : string) : string := if trim_space v =? "" then fallback else v.

(** The value of a line that names a condition type. *)
(* go: internal/civerify/diagnostics.go:24-31 extractConditionStatusFromYAML *)
Definition type_value (trimmed : string) : string :=
  if has_prefix trimmed "type: " then trim_space (trim_prefix trimmed "type: ")
  else if has_prefix trimmed "- type: " then trim_space (trim_prefix trimmed "- type: ")
  else "".

(* go: internal/civerify/diagnostics.go:22-40 extractConditionStatusFromYAML *)
Fixpoint condition_scan (conditionType : string) (hit : bool) (lines : list string) : string :=
  match lines with
  | [] => ""
  | line :: lines =>
      let trimmed := trim_space line in
      if type_value trimmed =? conditionType then condition_scan conditionType true lines
      else if hit && has_prefix trimmed "status: " then trim_space (trim_prefix trimmed "status: ")
      else condition_scan conditionType hit lines
  end.

(* go: internal/civerify/diagnostics.go extractConditionStatusFromYAML *)
Definition extractConditionStatusFromYAML (yamlContent conditionType : string) : string :=
  condition_scan conditionType false (split_on (chr 10) yamlContent).

(* go: internal/civerify/diagnostics.go firstLineValue *)
Definition firstLineValue (yamlContent prefix : string) : string :=
  match List.find (λ line, has_prefix (trim_space line) prefix) (split_on (chr 10) yamlContent) with
  | Some line => trim_space (trim_prefix (trim_space line) prefix)
  | None => ""
  end.

(* go: internal/civerify/diagnostics.go stateString *)
Definition stateString (has : bool) : string := if has then "non-empty" else "empty".

(** The number of results in a query answer; [None] when it does not decode. *)
Definition result_count (jsonContent : string) : option nat :=
  let data (k : string) (v : json) (n : nat) : option nat :=
    if key_is k "result" then l ← dec_list Some v; Some (length l) else Some n in
  json_parse jsonContent ≫= λ v,
    dec_struct (λ k v n, if key_is k "data" then dec_struct data v n else Some n) v 0.

(* go: internal/civerify/diagnostics.go queryHasResults *)
Definition queryHasResults (jsonContent : string) : bool :=
  if jsonContent =? "" then false
  else match result_count jsonContent with Some n => (0 <? n)%nat | None => false end.

(** What the files of the output directory say. *)
Record diagnosis := mkDiagnosis {
  dg_lastReconcile : string; dg_ready : string; dg_promReady : string; dg_backfill : string;
  dg_up : nat; dg_down : nat; dg_mentions : nat;
  dg_metrics : string; dg_controllerUp : string; dg_alerts : string;
  dg_rule : string; dg_serviceMonitor : string;
}.

(* go: internal/civerify/diagnostics.go:146-158 WriteDiagnosticsSummary *)
Definition hints (d : diagnosis) : list string :=
  ((if (dg_metrics d =? "empty") && (dg_controllerUp d =? "empty") then
      ["- Operator metrics are likely not being scraped by Prometheus (check ServiceMonitor selector/labels and targets)."]
    else []) ++
   (if (dg_metrics d =? "non-empty") && (dg_alerts d =? "empty") then
      ["- Capacity metrics exist but ALERTS query is empty (check PrometheusRule selection labels, expressions, and 'for' duration windows)."]
    else []) ++
   (if dg_rule d =? "missing" then
      ["- CapacityPlan PrometheusRule resource was not found (check controller reconcile logs for PrometheusRule create/update errors)."]
    else []) ++
   (if dg_serviceMonitor d =? "missing" then
      ["- Controller metrics ServiceMonitor was not found (Prometheus cannot discover controller metrics)."]
    else []))%list.

(** A JSON field with its value, without blanks. *)
Definition field (k v : string) : string := dq +:+ k +:+ dq +:+ ":" +:+ dq +:+ v +:+ dq.

Definition monitor_name : string := "k8s-operator-controller-manager-metrics-monitor".

(** [read] gives the content of a file under the output directory, empty when it
    cannot be read. *)
(* go: internal/civerify/diagnostics.go:86-117 WriteDiagnosticsSummary *)
Definition diagnose (read : string → string) (planName : string) : diagnosis :=
  let cpYAML := read ("cluster/capacityplan-" +:+ planName +:+ ".yaml") in
  let promTargets := read "prometheus/targets.json" in
  mkDiagnosis
    (firstLineValue cpYAML "lastReconcileTime:")
    (extractConditionStatusFromYAML cpYAML "Ready")
    (extractConditionStatusFromYAML cpYAML "PrometheusReady")
    (extractConditionStatusFromYAML cpYAML "BackfillReady")
    (count promTargets (field "health" "up"))
    (count promTargets (field "health" "down"))
    (count promTargets "controller-manager")
    (stateString (queryHasResults (read "prometheus/query_capacity_metrics.json")))
    (stateString (queryHasResults (read "prometheus/query_up_controller_manager.json")))
    (stateString (queryHasResults (read "prometheus/query_capacity_alerts.json")))
    (if contains (read "monitoring/prometheusrules-all.yaml") ("name: capacityplan-" +:+ planName)
     then "present" else "missing")
    (if contains (read "monitoring/servicemonitors-all.yaml") monitor_name then "present"
     else if contains (read "operator/servicemonitors.yaml") monitor_name
     then "present (operator namespace only)" else "missing").

(** The text of summary.txt. *)
(* go: internal/civerify/diagnostics.go WriteDiagnosticsSummary *)
Definition diagnostics_summary (now : Z) (read : string → string) (planName : string) : string :=
  let planName := if planName =? "" then "ci-plan" else planName in
  let d := diagnose read planName in
  let nat_text n := itoa (Z.of_nat n) in
  text_lines ([ "Capacity Planning CI Diagnostics Summary";
    "GeneratedAtUTC: " +:+ format_rfc3339 now;
    "PlanName: " +:+ planName;
    "";
    "[CapacityPlan]";
    "lastReconcileTime: " +:+ defaultString (dg_lastReconcile d) "unknown";
    "Ready: " +:+ defaultString (dg_ready d) "unknown";
    "PrometheusReady: " +:+ defaultString (dg_promReady d) "unknown";
    "BackfillReady: " +:+ defaultString (dg_backfill d) "unknown";
    "";
    "[Prometheus]";
    "targets.up: " +:+ nat_text (dg_up d);
    "targets.down: " +:+ nat_text (dg_down d);
    "targets.controller-manager-mentions: " +:+ nat_text (dg_mentions d);
    "query.capacity_metrics: " +:+ dg_metrics d;
    "query.controller_manager_up: " +:+ dg_controllerUp d;
    "query.capacity_alerts: " +:+ dg_alerts d;
    "";
    "[Resources]";
    "prometheusrule.capacityplan-" +:+ planName +:+ ": " +:+ dg_rule d;
    "servicemonitor.controller-manager-metrics: " +:+ dg_serviceMonitor d;
    "";
    "[Likely Cause Hints]" ] ++ hints d)%list.

(** ** Lemmas *)

Definition row_ok (opts : CompareOptions) (pvc : PVCGrowth) (data : option float) (row : ComparisonRow) : Prop :=
  match data with
  | Some v =>
      if is_nan v || is_inf v then row = no_data_row pvc else row = compare_row opts pvc v
  | None => row = no_data_row pvc
  end.

Definition counted (rows : list ComparisonRow) (s : ComparisonSummary) : Prop :=
  sm_Rows s = rows ∧ sm_Comparable s = Z.of_nat (length (List.filter row_HasPromData rows)) ∧
  sm_Matched s = Z.of_nat (length (List.filter row_Matched rows)).

(** The comparison with known answers, unfolded. *)
Lemma CompareGrowth_unfold status fetch opts :
  CompareGrowth status fetch opts = compare_verdict opts (compare_loop (F := Pure) fetch opts status (mkSummary [] 0 0)).
Proof. done. Qed.

Lemma compare_loop_cons fetch opts p l s :
  compare_loop (F := Pure) fetch opts (p :: l) s =
  if pg_Name p =? "" then compare_loop (F := Pure) fetch opts l s
  else match fetch (pg_Name p) with
       | Err e => (s, Some (wrap_error ("querying Prometheus growth for " +:+ pg_Name p +:+ ": ") e))
       | Ok data => compare_loop (F := Pure) fetch opts l (compare_add opts p data s)
       end.
Proof. done. Qed.

(** The row that is added, and the counts that follow it. *)
Definition row_for (opts : CompareOptions) (pvc : PVCGrowth) (data : option float) : ComparisonRow :=
  match data with
  | Some v => if is_nan v || is_inf v then no_data_row pvc else compare_row opts pvc v
  | None => no_data_row pvc
  end.

Lemma counted_snoc rows s row c m :
  counted rows s →
  c = (sm_Comparable s + if row_HasPromData row then 1 else 0)%Z →
  m = (sm_Matched s + if row_Matched row then 1 else 0)%Z →
  counted (rows ++ [row]) (mkSummary (sm_Rows s ++ [row]) c m).
Proof.
  intros (Hr & Hc & Hm) -> ->. unfold counted. cbn [sm_Rows sm_Comparable sm_Matched].
  rewrite !List.filter_app, !length_app, Hr, Hc, Hm. cbn [List.filter].
  split_and!; [done|destruct (row_HasPromData row); simpl; lia|destruct (row_Matched row); simpl; lia].
Qed.

Lemma counted_add opts pvc data rows s :
  counted rows s → counted (rows ++ [row_for opts pvc data]) (compare_add opts pvc data s).
Proof.
  intros Hc. unfold row_for, compare_add. destruct data as [v|]; [destruct (is_nan v || is_inf v)|];
    (apply counted_snoc; [done|simpl; lia|simpl; destruct (fleb _ _) || idtac; simpl; lia]).
Qed.

Lemma row_for_ok opts pvc data : row_ok opts pvc data (row_for opts pvc data).
Proof. unfold row_ok, row_for. destruct data as [v|]; [by destruct (is_nan v || is_inf v)|done]. Qed.

(** The loop without a query error: one row per named PVC, in order. *)
Lemma compare_loop_spec fetch opts status rows s s' :
  counted rows s → compare_loop (F := Pure) fetch opts status s = (s', None) →
  ∃ new, counted (rows ++ new) s' ∧
    Forall2 (λ pvc row, ∃ data, fetch (pg_Name pvc) = Ok data ∧ row_ok opts pvc data row)
      (List.filter (λ p, negb (pg_Name p =? "")) status) new.
Proof.
  revert rows s. induction status as [|pvc status IH]; intros rows s Hc.
  { intros [= <-]. exists []. rewrite app_nil_r. by split. }
  rewrite compare_loop_cons. cbn [List.filter].
  destruct (pg_Name pvc =? "") eqn:En; [by apply IH|]. cbn [negb].
  destruct (fetch (pg_Name pvc)) as [data|e] eqn:Ef; [|done]. intros Hl.
  destruct (IH _ _ (counted_add opts pvc data _ _ Hc) Hl) as (new & Hnew & HF).
  exists (row_for opts pvc data :: new). rewrite <-(assoc_L (++)%list) in Hnew. split; [done|].
  constructor; [exists data; split; [done|apply row_for_ok]|done].
Qed.

(** ** Properties *)

(** The growth cross-check passes exactly when it should.  If every query is
    answered, the report has one row per named PVC, in order; a row is comparable
    exactly when Prometheus had a finite value, and matches exactly when moreover
    the distance of the two rates is at most the larger of the two tolerances; the
    totals count these rows, and the check fails if and only if one of the totals
    is below its minimum. *)
Theorem cross_check_passes_when_enough_match status fetch opts :
  (∀ p, p ∈ status → pg_Name p ≠ "" → ∃ data, fetch (pg_Name p) = Ok data) →
  let '(s, e) := CompareGrowth status fetch opts in
  Forall2 (λ pvc row, ∃ data, fetch (pg_Name pvc) = Ok data ∧ row_ok opts pvc data row ∧
             (row_Matched row = true ↔
              ∃ v, data = Some v ∧ is_nan v || is_inf v = false ∧
                fleb (fabs (fsub (pg_StatusBytesPerDay pvc) v)) (row_AllowedDiff row) = true))
    (List.filter (λ p, negb (pg_Name p =? "")) status) (sm_Rows s) ∧
  sm_Comparable s = Z.of_nat (length (List.filter row_HasPromData (sm_Rows s))) ∧
  sm_Matched s = Z.of_nat (length (List.filter row_Matched (sm_Rows s))) ∧
  (e = None ↔ (MinComparablePVCs opts <= sm_Comparable s)%Z ∧ (MinMatchingPVCs opts <= sm_Matched s)%Z).
Proof.
  intros Hf. rewrite CompareGrowth_unfold. unfold compare_verdict. destruct (compare_loop _ _ _ _) as [s e] eqn:El.
  assert (e = None) as ->.
  { clear -Hf El. revert El. generalize (mkSummary [] 0 0). induction status as [|p status IH]; intros s0.
    { by intros [= _ <-]. }
    rewrite compare_loop_cons.
    assert (∀ q, q ∈ status → pg_Name q ≠ "" → ∃ data, fetch (pg_Name q) = Ok data) as Hf'
      by (intros q Hq; apply Hf; by apply elem_of_cons; right).
    destruct (String.eqb_spec (pg_Name p) ""); [by apply IH|].
    destruct (Hf p) as [data ->]; [by apply elem_of_cons; left|done|]. by apply IH. }
  destruct (compare_loop_spec fetch opts status [] (mkSummary [] 0 0) s) as (rows & (Hr & Hc & Hm) & HF);
    [by split_and!|done|]. simpl in Hr. subst rows.
  assert (Forall2 (λ pvc row, ∃ data, fetch (pg_Name pvc) = Ok data ∧ row_ok opts pvc data row ∧
            (row_Matched row = true ↔
             ∃ v, data = Some v ∧ is_nan v || is_inf v = false ∧
               fleb (fabs (fsub (pg_StatusBytesPerDay pvc) v)) (row_AllowedDiff row) = true))
    (List.filter (λ p, negb (pg_Name p =? "")) status) (sm_Rows s)) as HF'.
  { eapply Forall2_impl; [exact HF|]. intros pvc row (data & Hd & Hrow). exists data. split_and!; [done|done|].
    unfold row_ok in Hrow. destruct data as [v|]; [destruct (is_nan v || is_inf v) eqn:Ev|]; subst row.
    - split; [done|]. intros (v' & [= <-] & Ev' & _). congruence.
    - split; [by intros Hm'; exists v|]. intros (v' & [= <-] & _ & Hle). exact Hle.
    - split; [done|]. by intros (v' & ? & _). }
  simpl in Hc, Hm. destruct (Z.ltb_spec (sm_Comparable s) (MinComparablePVCs opts)).
  { split_and!; try done. split; [done|lia]. }
  destruct (Z.ltb_spec (sm_Matched s) (MinMatchingPVCs opts)).
  { split_and!; try done. split; [done|lia]. }
  split_and!; try done.
Qed.

Definition demo_fetch : GrowthFetcher := λ n, if n =? "a" then Ok (Some (f_of_Z 90)) else Ok None.

Lemma cross_check_passes_when_enough_match_witness :
  (CompareGrowth [mkPVCGrowth "a" (f_of_Z 100); mkPVCGrowth "" fzero; mkPVCGrowth "b" fzero] demo_fetch
     (mkCompareOptions (f_of_ratio 1 5) fzero 1 1)).2 = None.
Proof.
  pose proof (cross_check_passes_when_enough_match
    [mkPVCGrowth "a" (f_of_Z 100); mkPVCGrowth "" fzero; mkPVCGrowth "b" fzero] demo_fetch
    (mkCompareOptions (f_of_ratio 1 5) fzero 1 1)) as X.
  destruct (CompareGrowth _ _ _) as [s e] eqn:E. vm_compute in E. injection E as <- <-.
  destruct X as (_ & _ & _ & [_ X]); [intros p _ _; unfold demo_fetch; destruct (pg_Name p =? "a"); by eexists|].
  apply X. split; [discriminate|discriminate].
Defined.

(** Polling ends and tells the truth.  Whatever the checks, the timers and the
    parent context do, [WaitUntil] returns after at most [timeout / interval + 1]
    checks (both at least their defaults of a second): with the result of the last
    check, success if it was true and its error if it failed, or, after checks that
    were all false, with the error of the context. *)
Theorem wait_until_terminates p parent exceeded timeout interval start :
  (∀ k, 0 <= po_takes p k ∧ 0 <= po_delay p k)%Z →
  let n := S (Z.to_nat (or_second timeout / or_second interval)) in
  ∃ k r, WaitUntil p parent exceeded timeout interval n start = Some r ∧ k < n ∧
    (∀ j, j < k → po_check p j = Ok false) ∧
    match po_check p k with
    | Err e => r = Some e
    | Ok true => r = None
    | Ok false => r = Some exceeded ∨ ∃ t e, parent = Some (t, e) ∧ r = Some e
    end.
Proof.
  intros Hp. unfold WaitUntil.
  assert (0 < or_second timeout ∧ 0 < or_second interval)%Z as [Ht Hi]
    by (unfold or_second; destruct (Z.leb_spec timeout 0), (Z.leb_spec interval 0); done || (split; done || lia)).
  set (T := or_second timeout) in *. set (I := or_second interval) in *. cbv zeta.
  destruct (match parent with Some _ => _ | None => _ end) as [deadline err] eqn:Ed.
  assert ((deadline <= start + T)%Z ∧ (err = exceeded ∨ ∃ t e, parent = Some (t, e) ∧ err = e)) as [Hdl Herr].
  { destruct parent as [[t e]|]; [destruct (Z.ltb_spec t (start + T))|]; injection Ed as <- <-;
      (split; [lia|]); eauto. }
  assert (∀ fuel k now, 0 < fuel → (deadline - now < Z.of_nat fuel * I)%Z →
    ∃ k' r, wait_loop p deadline err I fuel k now = Some r ∧ k ≤ k' < k + fuel ∧
      (∀ j, k ≤ j < k' → po_check p j = Ok false) ∧
      match po_check p k' with
      | Err e => r = Some e | Ok true => r = None | Ok false => r = Some err end) as Hloop.
  { induction fuel as [|fuel IH]; intros k now Hf Hm; [lia|]. cbn [wait_loop].
    destruct (Hp k) as [Htk Hdk].
    destruct (po_check p k) as [[]|e] eqn:Ec;
      [by exists k, None; rewrite Ec; split_and!; [done|lia|lia|intros; lia|done]| |
       by exists k, (Some e); rewrite Ec; split_and!; [done|lia|lia|intros; lia|done]].
    assert (∃ k' r, Some (Some err) = Some r ∧ k ≤ k' < k + S fuel ∧
      (∀ j, k ≤ j < k' → po_check p j = Ok false) ∧
      match po_check p k' with Err e => r = Some e | Ok true => r = None | Ok false => r = Some err end) as Hend
      by (exists k, (Some err); rewrite Ec; split_and!; [done|lia|lia|intros; lia|done]).
    destruct (Z.leb_spec deadline (now + po_takes p k)); [done|]. cbv zeta.
    destruct (_ || _) eqn:Eb; [|done].
    assert (now + po_takes p k + I + po_delay p k <= deadline)%Z as Hle.
    { apply orb_true_iff in Eb as [Eb%Z.ltb_lt|[Eb%Z.eqb_eq _]%andb_true_iff]; lia. }
    destruct (IH (S k) (now + po_takes p k + I + po_delay p k)%Z) as (k' & r & Hr & Hk & Hj & Hc);
      [destruct fuel; [lia|lia]|lia|].
    exists k', r. split_and!; [done|lia|lia| |done]. intros j Hj'.
    destruct (decide (j = k)) as [->|]; [done|]. apply Hj. lia. }
  destruct (Hloop (S (Z.to_nat (T / I))) 0 start) as (k & r & Hr & Hk & Hj & Hc); [lia| |].
  { pose proof (Z.mod_pos_bound T I Hi). pose proof (Z.div_mod T I). pose proof (Z.div_pos T I). nia. }
  exists k, r. split_and!; [done|lia|intros; apply Hj; lia|].
  destruct (po_check p k) as [[]|]; [done| |done]. destruct Herr as [->|(t & e & -> & ->)]; eauto.
Qed.

Lemma wait_until_terminates_witness :
  ∃ r, WaitUntil (mkPolling (λ k, Ok (k =? 2)%nat) (λ _, 0%Z) (λ _, 0%Z) (λ _, true)) None
    (errorf "context deadline exceeded") (5 * second) second 6 0 = Some r.
Proof.
  destruct (wait_until_terminates (mkPolling (λ k, Ok (k =? 2)%nat) (λ _, 0%Z) (λ _, 0%Z) (λ _, true)) None
    (errorf "context deadline exceeded") (5 * second) second 0) as (k & r & Hr & _); [done|by exists r].
Defined.

(** The conditions of a plan as the YAML encoder writes them: the keys of a mapping in
    alphabetical order, so the type after the status. *)
Definition yaml_condition (c : Condition) : string :=
  "  - lastTransitionTime: x" +:+ nl +:+ "    reason: " +:+ cd_Reason c +:+ nl
    +:+ "    status: " +:+ (match cd_Status c with ConditionTrue => "True" | ConditionFalse => "False"
                            | ConditionUnknown => "Unknown" end) +:+ nl
    +:+ "    type: " +:+ cd_Type c +:+ nl.

(** The diagnostics summary shows the conditions shifted by one: it looks for the
    status after the line of the type, but the encoder writes the status first, so
    [Ready] is given the status of the condition that follows it, and the last one
    none. *)
Theorem diagnostics_shift_conditions (s1 s2 s3 : ConditionStatus) :
  let yaml := foldr (λ c t, yaml_condition c +:+ t) ""
    [mkCondition "Ready" s1 1 "r" ""; mkCondition "PrometheusReady" s2 1 "r" "";
     mkCondition "BackfillReady" s3 1 "r" ""] in
  let text s := match s with ConditionTrue => "True" | ConditionFalse => "False" | ConditionUnknown => "Unknown" end in
  extractConditionStatusFromYAML yaml "Ready" = text s2 ∧
  extractConditionStatusFromYAML yaml "PrometheusReady" = text s3 ∧
  extractConditionStatusFromYAML yaml "BackfillReady" = "".
Proof. destruct s1, s2, s3; split_and!; vm_compute; reflexivity. Qed.
