(* ===== verification/CiConfig.v ===== *)
(** * internal/cirunner: configuration and small helpers

    config.go, the pure part of util.go, and the string helpers of integration.go
    and waits.go.  The environment is a function: [os.Getenv] gives the empty
    string for an unset variable. *)

From stdpp Require Import base list strings gmap.
From Stdlib Require Import ZArith Lia Ascii.
From S2P Require Import Prelude GoSort GoFloat GoText GoStd GoStrconv ApiTypes PromClient CiVerify.

Local Open Scope string_scope.

(** ** util.go *)

(* go: internal/cirunner/util.go formatDuration *)
Definition formatDuration (seconds : Z) : string :=
  if (seconds <? 60)%Z then itoa seconds +:+ "s"
  else itoa (Z.quot seconds 60) +:+ "m" +:+ pad_int 2 (Z.rem seconds 60) +:+ "s".

(** [time.Duration(n) * time.Second]. *)
Definition seconds (n : Z) : duration := wrap64 (n * second).

(* go: internal/cirunner/util.go parseDurationOr *)
Definition parseDurationOr (raw : string) (fallbackSeconds : Z) : duration :=
  match parse_duration (trim_space raw) with
  | Some d =>
      if (0 <? d)%Z then d else seconds (if (fallbackSeconds <=? 0)%Z then 1 else fallbackSeconds)
  | None => seconds (if (fallbackSeconds <=? 0)%Z then 1 else fallbackSeconds)
  end.

(* go: internal/cirunner/waits.go atoiOrZero *)
Definition atoiOrZero (s : string) : Z := match atoi (trim_space s) with inl i => i | inr _ => 0%Z end.

(** ** config.go *)

(* go: internal/cirunner/config.go Config *)
Record Config := mkConfig {
  OpNamespace : string;
  MonitoringNamespace : string;
  ClusterName : string;
  ExpectedKubeContext : string;
  PlanName : string;
  OperatorImage : string;
  PromURL : string;
  KubePromValuesFile : string;
  KubePromValuesExtraFile : string;
  KubePromChartVersion : string;
  CIManifestDir : string;
  CIWorkloadManifestDir : string;
  TrendObserveSeconds : Z;
  UsageSnapshotInterval : Z;
  MinTrendObserveSeconds : Z;
  MinTrendSnapshots : Z;
  UsageRatioSanityMax : float;
  MinGrowthBytesPerMin : float;
  MinGrowingPVCs : Z;
  GrowthCompareWindowSeconds : Z;
  GrowthCompareRelTol : float;
  GrowthCompareAbsTolBytesDay : float;
  MinGrowthComparablePVCs : Z;
  MinGrowthMatchingPVCs : Z;
  PlanSampleRetention : Z;
  PlanSampleInterval : string;
  PlanReconcileInterval : string;
  ValidationReportJSON : string;
  PollIntervalSeconds : Z;
  PromEndpointReadyTimeout : Z;
  MonitoringRolloutTimeout : Z;
  AlertEndpointReadyTimeout : Z;
  AlertPropagationTimeout : Z;
  ManagerEndpointReadyTimeout : Z;
  ManagerRolloutTimeout : Z;
  RolloutStatusInterval : Z;
  CIWorkloads : list string;
  DiagnosticsOutDir : string;
  ImportRetryCount : Z;
  LLMEnabled : bool;
  LLMSoftFail : bool;
  LLMTimeoutHardFail : bool;
  ValidationSoftFail : bool;
  LLMProvider : string;
  LLMModel : string;
  LLMTimeoutSeconds : Z;
  LLMMaxTokens : Z;
  LLMOnlyAlertingPVCs : bool;
  LLMOllamaURL : string;
  LLMMinInsights : Z;
  LLMModelPullTimeoutSeconds : Z;
  LLMNamespace : string;
  LLMDeploymentName : string;
  AlertReceiverImage : string;
  NightlyRuleName : string;
  NightlyAlertReceiverPort : Z;
  AlertmanagerExpectedReceiver : string;
  AlertmanagerExpectedIntegration : string;
}.

Section env.
Variable Getenv : string → string.

(* go: internal/cirunner/config.go getenvDefault *)
Definition getenvDefault (key fallback : string) : string :=
  let v := trim_space (Getenv key) in if v =? "" then fallback else v.

(* go: internal/cirunner/config.go getenvInt *)
Definition getenvInt (key : string) (fallback : Z) : Z :=
  let raw := trim_space (Getenv key) in
  if raw =? "" then fallback else match atoi raw with inl n => n | inr _ => fallback end.

(* go: internal/cirunner/config.go getenvFloat *)
Definition getenvFloat (key : string) (fallback : float) : float :=
  let raw := trim_space (Getenv key) in
  if raw =? "" then fallback else match parse_float raw with Some f => f | None => fallback end.

(* go: internal/cirunner/config.go getenvBool *)
Definition getenvBool (key : string) (fallback : bool) : bool :=
  let raw := trim_space (to_lower (Getenv key)) in
  if raw =? "" then fallback
  else if existsb (String.eqb raw) ["1"; "true"; "yes"; "on"] then true
  else if existsb (String.eqb raw) ["0"; "false"; "no"; "off"] then false
  else fallback.

(* go: internal/cirunner/config.go splitCSV *)
Definition splitCSV (raw : string) : list string :=
  List.filter (λ p, negb (p =? "")) (map trim_space (split_on "," raw)).

(** The workloads when the variable names none. *)
(* go: internal/cirunner/config.go:138 LoadConfig *)
Definition default_workloads : list string :=
  ["cpo-ci-steady"; "cpo-ci-bursty"; "cpo-ci-trickle"; "cpo-ci-churn"; "cpo-ci-delayed"].

(* go: internal/cirunner/config.go LoadConfig *)
Definition LoadConfig : Config :=
  let clusterName := getenvDefault "CLUSTER_NAME" "cpo-ci" in
  let opNS := getenvDefault "OP_NS" "k8s-operator-system" in
  let monNS := getenvDefault "MON_NS" "monitoring" in
  let workloads := splitCSV (getenvDefault "CI_WORKLOADS_CSV"
    "cpo-ci-steady,cpo-ci-bursty,cpo-ci-trickle,cpo-ci-churn,cpo-ci-delayed") in
  let workloads := match workloads with [] => default_workloads | _ => workloads end in
  let llmEnabled := getenvBool "CI_ENABLE_LLM" false in
  let llmProvider := trim_space (Getenv "CI_LLM_PROVIDER") in
  let llmProvider := if llmProvider =? "" then if llmEnabled then "ollama" else "disabled" else llmProvider in
  {|
    OpNamespace := opNS;
    MonitoringNamespace := monNS;
    ClusterName := clusterName;
    ExpectedKubeContext := getenvDefault "EXPECTED_KUBE_CONTEXT" ("k3d-" +:+ clusterName);
    PlanName := getenvDefault "PLAN_NAME" "ci-plan";
    OperatorImage := getenvDefault "OPERATOR_IMAGE" "capacity-planning-operator:ci";
    PromURL := getenvDefault "PROM_URL"
      ("http://kube-prometheus-stack-prometheus." +:+ monNS +:+ ".svc.cluster.local:9090");
    KubePromValuesFile := getenvDefault "KUBE_PROM_VALUES_FILE" "hack/ci/kube-prom-values.yaml";
    KubePromValuesExtraFile := getenvDefault "KUBE_PROM_VALUES_EXTRA_FILE" "hack/ci/kube-prom-values-alerting.yaml";
    KubePromChartVersion := getenvDefault "KUBE_PROM_STACK_CHART_VERSION" "65.8.1";
    CIManifestDir := getenvDefault "CI_MANIFEST_DIR" "hack/ci/manifests";
    CIWorkloadManifestDir := trim_space (Getenv "CI_WORKLOAD_MANIFEST_DIR");
    TrendObserveSeconds := getenvInt "TREND_OBSERVE_SECONDS" 480;
    UsageSnapshotInterval := getenvInt "USAGE_SNAPSHOT_INTERVAL_SECONDS" 180;
    MinTrendObserveSeconds := getenvInt "MIN_TREND_OBSERVE_SECONDS" 240;
    MinTrendSnapshots := getenvInt "MIN_TREND_SNAPSHOTS" 2;
    UsageRatioSanityMax := getenvFloat "USAGE_RATIO_SANITY_MAX" fzero;
    MinGrowthBytesPerMin := getenvFloat "MIN_GROWTH_BYTES_PER_MIN" (f_of_Z 1024);
    MinGrowingPVCs := getenvInt "MIN_GROWING_PVCS" 3;
    GrowthCompareWindowSeconds := getenvInt "GROWTH_COMPARE_WINDOW_SECONDS" 240;
    GrowthCompareRelTol := getenvFloat "GROWTH_COMPARE_REL_TOL" (f_of_ratio 65 100);
    GrowthCompareAbsTolBytesDay := getenvFloat "GROWTH_COMPARE_ABS_TOL_BYTES_PER_DAY" (f_of_Z 15000000000);
    MinGrowthComparablePVCs := getenvInt "MIN_GROWTH_COMPARABLE_PVCS" 4;
    MinGrowthMatchingPVCs := getenvInt "MIN_GROWTH_MATCHING_PVCS" 4;
    PlanSampleRetention := getenvInt "PLAN_SAMPLE_RETENTION" 24;
    PlanSampleInterval := getenvDefault "PLAN_SAMPLE_INTERVAL" "5s";
    PlanReconcileInterval := getenvDefault "PLAN_RECONCILE_INTERVAL" "15s";
    ValidationReportJSON := getenvDefault "VALIDATION_REPORT_JSON" "/tmp/cpo-ci-validation-report.json";
    PollIntervalSeconds := getenvInt "POLL_INTERVAL_SECONDS" 5;
    PromEndpointReadyTimeout := getenvInt "PROM_ENDPOINT_READY_TIMEOUT_SECONDS" 300;
    MonitoringRolloutTimeout := getenvInt "MONITORING_ROLLOUT_TIMEOUT_SECONDS" 900;
    AlertEndpointReadyTimeout := getenvInt "ALERT_ENDPOINT_READY_TIMEOUT_SECONDS" 300;
    AlertPropagationTimeout := getenvInt "ALERT_PROPAGATION_TIMEOUT_SECONDS" 900;
    ManagerEndpointReadyTimeout := getenvInt "MANAGER_ENDPOINT_READY_TIMEOUT_SECONDS" 180;
    ManagerRolloutTimeout := getenvInt "MANAGER_ROLLOUT_TIMEOUT_SECONDS" 420;
    RolloutStatusInterval := getenvInt "ROLLOUT_STATUS_INTERVAL_SECONDS" 15;
    CIWorkloads := workloads;
    DiagnosticsOutDir := getenvDefault "OUT_DIR" "/tmp/cpo-ci-diagnostics";
    ImportRetryCount := getenvInt "IMPORT_RETRY_COUNT" 1;
    LLMEnabled := llmEnabled;
    LLMSoftFail := getenvBool "CI_LLM_SOFT_FAIL" true;
    LLMTimeoutHardFail := getenvBool "CI_LLM_TIMEOUT_HARD_FAIL" true;
    ValidationSoftFail := getenvBool "CI_VALIDATION_SOFT_FAIL" false;
    LLMProvider := llmProvider;
    LLMModel := getenvDefault "CI_LLM_MODEL" "mistral:7b";
    LLMTimeoutSeconds := getenvInt "CI_LLM_TIMEOUT_SECONDS" 90;
    LLMMaxTokens := getenvInt "CI_LLM_MAX_TOKENS" 256;
    LLMOnlyAlertingPVCs := getenvBool "CI_LLM_ONLY_ALERTING_PVCS" false;
    LLMOllamaURL := getenvDefault "CI_LLM_OLLAMA_URL" "http://ollama.llm.svc.cluster.local:11434";
    LLMMinInsights := getenvInt "CI_LLM_MIN_INSIGHTS" 1;
    LLMModelPullTimeoutSeconds := getenvInt "CI_LLM_MODEL_PULL_TIMEOUT_SECONDS" 1200;
    LLMNamespace := getenvDefault "CI_LLM_NAMESPACE" "llm";
    LLMDeploymentName := getenvDefault "CI_LLM_DEPLOYMENT_NAME" "ollama";
    AlertReceiverImage := getenvDefault "ALERT_RECEIVER_IMAGE" "capacity-alert-receiver:ci";
    NightlyRuleName := getenvDefault "RULE_NAME" "ci-always-firing";
    NightlyAlertReceiverPort := getenvInt "ALERT_RECEIVER_PORT" 29080;
    AlertmanagerExpectedReceiver := getenvDefault "ALERTMANAGER_EXPECTED_RECEIVER" "ci-webhook";
    AlertmanagerExpectedIntegration := getenvDefault "ALERTMANAGER_EXPECTED_INTEGRATION" "webhook";
  |}.
End env.

(* go: internal/cirunner/config.go Config.PollInterval *)
Definition PollInterval (c : Config) : duration :=
  seconds (if (PollIntervalSeconds c <=? 0)%Z then 5 else PollIntervalSeconds c).

(* go: internal/cirunner/config.go Config.WorkloadManifestDir *)
Definition WorkloadManifestDir (c : Config) : string :=
  if negb (trim_space (CIWorkloadManifestDir c) =? "") then trim_space (CIWorkloadManifestDir c)
  else path_join [CIManifestDir c; "workloads"].

(** ** Helpers of integration.go *)

(** A text of more than [max] bytes is cut, its last three bytes replaced by dots if there is room. *)
(* go: internal/cirunner/integration.go trimText *)
Definition trimText (value : string) (max : Z) : string :=
  let value := trim_space value in
  if (value =? "") || (max <=? 0)%Z || (Z.of_nat (String.length value) <=? max)%Z then value
  else if (max <=? 3)%Z then str_take (Z.to_nat max) value
  else str_take (Z.to_nat (max - 3)) value +:+ "...".

(* go: internal/cirunner/integration.go daysString *)
Definition daysString (days : option float) : string :=
  match days with None => "n/a" | Some d => sprintf_f 2 d end.

(* go: internal/cirunner/integration.go uniqueStrings *)
Fixpoint unique_loop (seen : list string) (values : list string) : list string :=
  match values with
  | [] => []
  | v :: values =>
      let v := trim_space v in
      if v =? "" then unique_loop seen values
      else if bool_decide (v ∈ seen) then unique_loop seen values
      else v :: unique_loop (v :: seen) values
  end.

(* go: internal/cirunner/integration.go uniqueStrings *)
Definition uniqueStrings `{SliceSorter} (values : list string) : list string :=
  sort_strings (unique_loop [] values).

(* go: internal/cirunner/integration.go pvcNames *)
Definition pvcNames (workloads : list string) : list string :=
  map (λ w, w +:+ "-pvc") (List.filter (λ w, negb (w =? "")) (map trim_space workloads)).

(** [uniqueStrings]: the trimmed nonempty texts, each once. *)
Lemma unique_loop_elem seen l p :
  p ∈ unique_loop seen l ↔ p ∉ seen ∧ p ≠ "" ∧ ∃ q, q ∈ l ∧ trim_space q = p.
Proof.
  revert seen. induction l as [|v l IH]; intros seen; cbn [unique_loop]; [set_solver|].
  destruct (String.eqb_spec (trim_space v) "") as [E|E]; [rewrite IH; set_solver|].
  case_bool_decide as Hs; [rewrite IH; set_solver|]. rewrite elem_of_cons, IH.
  destruct (decide (p = trim_space v)); set_solver.
Qed.

Lemma unique_loop_NoDup seen l : NoDup (unique_loop seen l).
Proof.
  revert seen. induction l as [|v l IH]; intros seen; cbn [unique_loop]; [constructor|].
  destruct (_ =? _); [done|]. case_bool_decide; [done|]. constructor; [|done]. rewrite unique_loop_elem. set_solver.
Qed.

Lemma uniqueStrings_elem `{SliceSorter} l p : p ∈ uniqueStrings l ↔ p ≠ "" ∧ ∃ q, q ∈ l ∧ trim_space q = p.
Proof. unfold uniqueStrings. rewrite sort_strings_perm, unique_loop_elem. set_solver. Qed.

Lemma uniqueStrings_NoDup `{SliceSorter} l : NoDup (uniqueStrings l).
Proof. unfold uniqueStrings. rewrite sort_strings_perm. apply unique_loop_NoDup. Qed.

(** ** The configuration is well formed *)

(** A name as the lists of names carry it: not empty, no white space around it. *)
Definition trimmed_name (w : string) : Prop := w ≠ "" ∧ trim_space w = w.

(** What the other files rely on: numbers are Go ints, the texts that name objects,
    endpoints and files are not empty, and there are workloads, each with a name. *)
Record valid_config (c : Config) : Prop := {
  valid_numbers : Forall is_int64
    [TrendObserveSeconds c; UsageSnapshotInterval c; MinTrendObserveSeconds c; MinTrendSnapshots c; MinGrowingPVCs c;
     GrowthCompareWindowSeconds c; MinGrowthComparablePVCs c; MinGrowthMatchingPVCs c; PlanSampleRetention c;
     PollIntervalSeconds c; PromEndpointReadyTimeout c; MonitoringRolloutTimeout c; AlertEndpointReadyTimeout c;
     AlertPropagationTimeout c; ManagerEndpointReadyTimeout c; ManagerRolloutTimeout c; RolloutStatusInterval c;
     ImportRetryCount c; LLMTimeoutSeconds c; LLMMaxTokens c; LLMMinInsights c; LLMModelPullTimeoutSeconds c;
     NightlyAlertReceiverPort c];
  valid_texts : Forall (λ s, s ≠ "")
    [OpNamespace c; MonitoringNamespace c; ClusterName c; ExpectedKubeContext c; PlanName c; OperatorImage c; PromURL c;
     KubePromValuesFile c; KubePromValuesExtraFile c; KubePromChartVersion c; CIManifestDir c; PlanSampleInterval c;
     PlanReconcileInterval c; ValidationReportJSON c; DiagnosticsOutDir c; LLMProvider c; LLMModel c; LLMOllamaURL c;
     LLMNamespace c; LLMDeploymentName c; AlertReceiverImage c; NightlyRuleName c; AlertmanagerExpectedReceiver c;
     AlertmanagerExpectedIntegration c];
  valid_workloads : CIWorkloads c ≠ [] ∧ Forall trimmed_name (CIWorkloads c);
}.

Lemma atoi_range s n : atoi s = inl n → is_int64 n.
Proof.
  unfold atoi. destruct (match s with "" => None | String _ _ => _ end) as [z|]; [|done].
  destruct (_ && _) eqn:E; [|done]. intros [= <-]. by apply andb_true_iff in E as [?%Z.leb_le ?%Z.leb_le].
Qed.

Section env_lemmas.
Variable Getenv : string → string.

Lemma getenvInt_range key fallback : is_int64 fallback → is_int64 (getenvInt Getenv key fallback).
Proof.
  intros Hf. unfold getenvInt. destruct (_ =? _); [done|]. destruct (atoi _) eqn:E; [by eapply atoi_range|done].
Qed.

Lemma getenvDefault_nonempty key fallback : fallback ≠ "" → getenvDefault Getenv key fallback ≠ "".
Proof. intros Hf. unfold getenvDefault. destruct (String.eqb_spec (trim_space (Getenv key)) ""); done. Qed.
End env_lemmas.

Lemma splitCSV_names raw : Forall trimmed_name (splitCSV raw).
Proof.
  unfold splitCSV. apply Forall_forall. intros w Hw%list_elem_of_In. apply filter_In in Hw as [Hw Hne].
  split; [by destruct w|]. apply in_map_iff in Hw as (p & <- & _). apply trim_space_trimmed.
Qed.

(** Each configured workload is watched, under the name of its claim. *)
Lemma pvcNames_trimmed l : Forall trimmed_name l → pvcNames l = map (λ w, w +:+ "-pvc") l.
Proof.
  intros Hl. unfold pvcNames. f_equal. induction Hl as [|w l [Hne Ht] _ IH]; [done|]. cbn. rewrite Ht.
  destruct (String.eqb_spec w ""); [done|]. cbn. by rewrite IH.
Qed.

(** Reading back a list of names. *)
Fixpoint lacks_byte (c : ascii) (s : string) : bool :=
  match s with "" => true | String a r => negb (a =? c)%char && lacks_byte c r end.

Lemma split_on_lacks c s : lacks_byte c s = true → split_on c s = [s].
Proof.
  induction s as [|a s IH]; [done|]. cbn. intros [Ha%negb_true_iff Hs]%andb_true_iff. by rewrite Ha, IH.
Qed.

Lemma split_on_lacks_app c s t : lacks_byte c s = true → split_on c (s +:+ String c t) = s :: split_on c t.
Proof.
  induction s as [|a s IH]; intros Hs; [rewrite string_app_nil_l; cbn; by rewrite Ascii.eqb_refl|].
  cbn in Hs. apply andb_true_iff in Hs as [Ha%negb_true_iff Hs]. rewrite string_app_cons. cbn. by rewrite Ha, IH.
Qed.

Lemma split_on_join c l : l ≠ [] → Forall (λ w, lacks_byte c w = true) l → split_on c (join (String c "") l) = l.
Proof.
  intros Hne Hl. induction Hl as [|w l Hw Hl IH]; [done|]. destruct l as [|v l]; [by apply split_on_lacks|].
  change (join (String c "") (w :: v :: l)) with (w +:+ String c "" +:+ join (String c "") (v :: l)).
  rewrite string_app_cons, string_app_nil_l, split_on_lacks_app by done. f_equal. by apply IH.
Qed.

Lemma splitCSV_join l :
  l ≠ [] → Forall trimmed_name l → Forall (λ w, lacks_byte "," w = true) l → splitCSV (join "," l) = l.
Proof.
  intros Hne Ht Hl. unfold splitCSV. rewrite split_on_join by done. clear Hne Hl.
  induction Ht as [|w l [Hw Ht] _ IH]; [done|]. cbn. rewrite Ht. destruct (String.eqb_spec w ""); [done|]. cbn. by rewrite IH.
Qed.

(** An interval that is too long for a duration. *)
Lemma PollInterval_wraps :
  (PollInterval (LoadConfig (λ k, if (k =? "POLL_INTERVAL_SECONDS")%string then "9223372037" else "")) < 0)%Z.
Proof. vm_compute. reflexivity. Qed.

Lemma PollInterval_positive c : (PollIntervalSeconds c <= 9223372036)%Z → (0 < PollInterval c)%Z.
Proof.
  intros Hle. unfold PollInterval, seconds. rewrite wrap64_id.
  - destruct (Z.leb_spec (PollIntervalSeconds c) 0); unfold second; lia.
  - unfold is_int64, int64_min, int64_max, second. destruct (Z.leb_spec (PollIntervalSeconds c) 0); lia.
Qed.

(** C18. The configuration is well typed for every environment.  Whatever the variables
    of the environment hold (garbage, white space, numbers out of range), every number
    [LoadConfig] returns is a Go int, every text that names an object, an endpoint or a
    file is nonempty, there is a workload, and no workload is blank or padded; so each
    has exactly one claim among those the checks look at. *)
Theorem loaded_config_is_valid (Getenv : string → string) :
  let c := LoadConfig Getenv in
  valid_config c ∧ pvcNames (CIWorkloads c) = map (λ w, w +:+ "-pvc") (CIWorkloads c).
Proof.
  assert (CIWorkloads (LoadConfig Getenv) ≠ [] ∧ Forall trimmed_name (CIWorkloads (LoadConfig Getenv))) as [Hne Hw].
  { cbn [LoadConfig CIWorkloads]. pose proof (splitCSV_names (getenvDefault Getenv "CI_WORKLOADS_CSV"
      "cpo-ci-steady,cpo-ci-bursty,cpo-ci-trickle,cpo-ci-churn,cpo-ci-delayed")) as Hs.
    destruct (splitCSV _); [|done]. split; [done|]. by repeat (constructor; [done|]). }
  split; [|by apply pvcNames_trimmed]. split; [..|done].
  - unfold LoadConfig. repeat (apply Forall_cons; split; [by apply getenvInt_range|]). by apply Forall_nil.
  - unfold LoadConfig. repeat (apply Forall_cons; split; [|]); try (by apply Forall_nil); cbn -[getenvDefault];
      try (apply getenvDefault_nonempty; by rewrite ?string_app_cons).
    destruct (String.eqb_spec (trim_space (Getenv "CI_LLM_PROVIDER")) ""); [by destruct (getenvBool _ _ _)|done].
Qed.
