(* ===== verification/CiWorld.v ===== *)
(** * internal/cirunner: the world a runner works in

    The runners poll a cluster that changes while they wait.  Everything they do
    outside their own memory is a [call]: reading the clock, sleeping, HTTP, a
    command, a request to the API server.  A [World] answers the calls in the order
    they are made and changes with each; the laws it must satisfy are those of time
    and of context deadlines.  A runner is a program of the monad [M]: it threads
    its own state and the world, stops at the first error, and takes a fuel for its
    polling loops.  [Runs] says that with enough fuel a program returns.

    The file also holds util.go's [waitUntil], the HTTP helpers, portforward.go,
    and the fields of the cluster objects the runners look at. *)

From stdpp Require Import base list strings gmap.
From Stdlib Require Import ZArith Lia Ascii.
From S2P Require Import Prelude GoFloat GoText GoStd GoStrconv JsonDoc ApiTypes PromClient CiVerify CiConfig.

Local Open Scope string_scope.

(** ** Cluster objects *)

Record Container := mkContainer {
  ct_Name : string;
  ct_Image : string;
  ct_ImagePullPolicy : string;
  ct_Args : list string;
}.

Record Deployment := mkDeployment {
  dep_Name : string;
  dep_Generation : Z;
  dep_Replicas : option Z;
  dep_Containers : list Container;
  dep_ServiceAccountName : string;
  dep_ObservedGeneration : Z;
  dep_UpdatedReplicas : Z;
  dep_ReadyReplicas : Z;
  dep_AvailableReplicas : Z;
  dep_UnavailableReplicas : Z;
}.

Record StatefulSet := mkStatefulSet {
  sts_Generation : Z;
  sts_Replicas : option Z;
  sts_OnDelete : bool;
  sts_ObservedGeneration : Z;
  sts_ReadyReplicas : Z;
  sts_UpdatedReplicas : Z;
  sts_CurrentReplicas : Z;
  sts_CurrentRevision : string;
  sts_UpdateRevision : string;
}.

Record DaemonSet := mkDaemonSet {
  ds_Name : string;
  ds_Labels : gmap string string;
  ds_Generation : Z;
  ds_ObservedGeneration : Z;
  ds_DesiredNumberScheduled : Z;
  ds_NumberReady : Z;
}.

(** A condition of a node, a pod or a CRD: its type and whether it is "True". *)
Record StatusFlag := mkFlag { fl_Type : string; fl_True : bool }.

Record RunPod := mkRunPod {
  rp_Name : string;
  rp_NodeName : string;
  rp_Conditions : list StatusFlag;
  rp_Containers : list string;
}.

Record Claim := mkClaim {
  cl_Phase : string;
  cl_VolumeName : string;
  cl_Request : option Z;
}.

(** A requirement of a node selector term. *)
Record NodeRequirement := mkRequirement { nr_Key : string; nr_Operator : string; nr_Values : list string }.

Record Volume := mkVolume {
  pv_Name : string;
  pv_HostPath : option string;
  pv_Local : option string;
  pv_Required : option (list (list NodeRequirement));
}.

(** A manifest object as the code looks at it: its typed view is what
    [FromUnstructured] makes of it, [ViewOther] where the kind is not converted or
    the conversion fails. *)
Record Subject := mkSubject { sj_Kind : string; sj_Name : string; sj_Namespace : string }.

Inductive manifest_view :=
| ViewBinding (roleKind roleName : string) (subjects : list Subject)
| ViewDeployment (serviceAccount : string) (containers : list Container)
| ViewServiceAccount
| ViewOther.

Record Manifest := mkManifest {
  mf_Kind : string;
  mf_APIVersion : string;
  mf_Name : string;
  mf_Namespace : string;
  mf_ResourceVersion : string;
  mf_View : manifest_view;
}.

(** ** Port forwards *)

(** The ways the select of [WaitReady] ends. *)
Inductive forward_event := ForwardReady | ForwardEnded (e : option error) | ForwardTimeout.

(** How often [close(stopCh)] ran is kept, since a second time would panic. *)
(* go: internal/cirunner/portforward.go PortForwardSession *)
Record PortForwardSession := mkSession {
  pf_Pod : string;
  pf_LocalPort : Z;
  pf_RemotePort : Z;
  pf_closed : bool;
  pf_stops : nat;
}.

(** ** Calls *)

Inductive call : Type → Type :=
(* time and contexts *)
| Now : call Z
| Sleep (d : duration) : call unit
| Timer (d : duration) : call (option error)   (* the timer fires, or the context's error *)
| CtxErr : call (option error)
| WithTimeout (d : duration) : call unit
| Cancel : call unit
(* processes and files *)
| Command (name : string) (args : list string) : call (string * string * option error)
| CommandPass (name : string) (args : list string) : call (option error)
| ReadFile (path : string) : call (res string)
| WriteFile (path content : string) : call (option error)
| Print (text : string) : call unit       (* to standard output *)
| PrintErr (text : string) : call unit    (* to standard error *)
(* HTTP *)
| HttpGet (timeout : duration) (url : string) : call get_outcome
| HttpPost (timeout : duration) (url body : string) : call get_outcome
(* port forwarding *)
| DialForward (namespace pod : string) (local remote : Z) : call (option error)
| AwaitReady (session : nat) (d : duration) : call forward_event
| AwaitEnd (session : nat) (d : duration) : call unit
(* the API server *)
| GetCRD (name : string) : call (res (list StatusFlag))
| GetDeployment (ns name : string) : call (res Deployment)
| ListDeployments (ns selector : string) : call (res (list Deployment))
| UpdateDeployment (ns : string) (d : Deployment) : call (option error)
| GetStatefulSet (ns name : string) : call (res StatefulSet)
| ListDaemonSets (ns : string) : call (res (list DaemonSet))
| ListNodes : call (res (list (list StatusFlag)))
| GetPod (ns name : string) : call (res RunPod)
| ListPods (ns selector : string) : call (res (list RunPod))
| GetClaim (ns name : string) : call (res Claim)
| PatchClaim (ns name patch : string) : call (option error)
| GetVolume (name : string) : call (res Volume)
| GetPlan (name : string) : call (res (CapacityPlan * string))
| CreatePlan (name : string) (spec : CapacityPlanSpec) : call (option error)
| UpdatePlan (name resourceVersion : string) (spec : CapacityPlanSpec) : call (option error)
| GetNamespace (name : string) : call (option error)
| CreateNamespace (name : string) : call (option error)
| MapKind (m : Manifest) : call (res bool)     (* is the kind namespaced? *)
| GetObject (ns : option string) (kind name : string) : call (res string)   (* its resource version *)
| CreateObject (ns : option string) (m : Manifest) : call (option error)
| UpdateObject (ns : option string) (m : Manifest) : call (option error)
| GetRule (ns name : string) : call (res string)   (* the object, marshalled *)
| CreateRule (ns : string) (rule : json) : call (option error)
| UpdateRule (ns resourceVersion : string) (rule : json) : call (option error)
(* what the diagnostics collect *)
| MakeDir (path : string) : call (option error)
| ForwardLogs (session : nat) : call string
| KubeContext : call (res string)
| ListYAML (resource ns : string) : call (res (Z * res string))   (* how many, and the list marshalled *)
| DynamicListYAML (resource ns : string) : call (res (res string))  (* the fields beside the items, marshalled *)
| ListPlanNames : call (res (list string))
| PlanYAML (name : string) : call (res (res string))              (* the plan, marshalled *)
| PodLogs (ns pod container : string) (tail : Z) : call (res string).

(** Contexts nest: a deadline is pushed by [context.WithTimeout] and popped by its
    cancel function.  Once a deadline has passed, a select on a timer that has not
    fired takes the branch of the context. *)
Class World (W : Type) := {
  w_clock : W → Z;
  w_deadlines : W → list Z;
  w_do {A : Type} : call A → W → A * W;
  w_clock_mono {A} (c : call A) w : (w_clock w <= w_clock (w_do c w).2)%Z;
  w_now w : (w_clock w <= (w_do Now w).1 <= w_clock (w_do Now w).2)%Z;
  w_sleep d w : (w_clock w + d <= w_clock (w_do (Sleep d) w).2)%Z;
  w_timer d w : (w_do (Timer d) w).1 = None → (w_clock w + d <= w_clock (w_do (Timer d) w).2)%Z;
  w_with_timeout d w : ∃ t, (t <= w_clock (w_do (WithTimeout d) w).2 + d)%Z ∧
    w_deadlines (w_do (WithTimeout d) w).2 = t :: w_deadlines w;
  w_cancel w : w_deadlines (w_do Cancel w).2 = tail (w_deadlines w);
  w_keep {A} (c : call A) w :
    match c with WithTimeout _ | Cancel => True | _ => w_deadlines (w_do c w).2 = w_deadlines w end;
  w_expired d w t : t ∈ w_deadlines w → (t <= w_clock w)%Z → (0 < d)%Z → (w_do (Timer d) w).1 ≠ None;
}.

(** ** Programs *)

(** The sessions a runner has started, and its own state. *)
Record rt (X : Type) := mkRt { rt_sessions : list PortForwardSession; rt_state : X }.
Arguments mkRt {X} _ _.
Arguments rt_sessions {X} _.
Arguments rt_state {X} _.

(** [None] is only the end of the fuel. *)
Definition M (W X A : Type) : Type := nat → rt X → W → option (res A * rt X * W).

#[export] Instance M_ret {W X} : MRet (M W X) := λ A a _ s w, Some (Ok a, s, w).
#[export] Instance M_bind {W X} : MBind (M W X) := λ A B k m n s w,
  match m n s w with
  | None => None
  | Some (Err e, s, w) => Some (Err e, s, w)
  | Some (Ok a, s, w) => k a n s w
  end.

Definition fail {W X A} (e : error) : M W X A := λ _ s w, Some (Err e, s, w).
Definition lift {W X A} (r : res A) : M W X A := λ _ s w, Some (r, s, w).

(** [v, err := m]: the error as a value. *)
Definition try {W X A} (m : M W X A) : M W X (res A) := λ n s w,
  match m n s w with None => None | Some (r, s, w) => Some (Ok r, s, w) end.

Definition get {W X} : M W X X := λ _ s w, Some (Ok (rt_state s), s, w).
Definition modify {W X} (f : X → X) : M W X () := λ _ s w, Some (Ok (), mkRt (rt_sessions s) (f (rt_state s)), w).
Definition ask {W X A} `{World W} (c : call A) : M W X A := λ _ s w, let '(a, w) := w_do c w in Some (Ok a, s, w).

(** An answer that is an error or nothing. *)
Definition or_fail {W X} (e : option error) : M W X () := match e with Some e => fail e | None => mret () end.
Definition ask_ok {W X} `{World W} (c : call (option error)) : M W X () := e ← ask c; or_fail e.
Definition ask_res {W X A} `{World W} (c : call (res A)) : M W X A := r ← ask c; lift r.

(** Texts on the terminal. *)
Definition say {W X} `{World W} (text : string) : M W X () := ask (Print text).
Definition warn {W X} `{World W} (text : string) : M W X () := ask (PrintErr text).

(* go: internal/cirunner/util.go logStep *)
Definition logStep {W X} `{World W} (msg : string) : M W X () := say (nl +:+ "==> " +:+ msg +:+ nl).

(** The error of [m] with a text before it. *)
Definition wrap_err {W X A} (prefix : string) (m : M W X A) : M W X A := λ n s w,
  match m n s w with
  | Some (Err e, s, w) => Some (Err (wrap_error prefix e), s, w)
  | o => o
  end.

(** [defer cleanup()]: it runs after [m] however that ends, its own result unused. *)
Definition defer {W X A B} (cleanup : M W X B) (m : M W X A) : M W X A := λ n s w,
  match m n s w with
  | None => None
  | Some (r, s, w) =>
      match cleanup n s w with
      | None => None
      | Some (_, s, w) => Some (r, s, w)
      end
  end.

Fixpoint for_each {W X A} (l : list A) (f : A → M W X ()) : M W X () :=
  match l with
  | [] => mret ()
  | a :: l => f a ;; for_each l f
  end.

(** ** Returning

    With enough fuel a program returns, the same whatever more fuel it has, at a
    time that is not earlier and with the contexts it was given. *)
Class Runs {W X A} `{World W} (m : M W X A) : Prop :=
  runs : ∀ s w, ∃ r s' w' n, (∀ n', (n ≤ n')%nat → m n' s w = Some (r, s', w')) ∧
    (w_clock w <= w_clock w')%Z ∧ w_deadlines w' = w_deadlines w.

Create HintDb runs discriminated.
#[export] Hint Constants Opaque : runs.

Section runs.
Context {W : Type} `{World W} {X : Type}.

Lemma runs_ret {A} (a : A) : Runs (X := X) (W := W) (mret a).
Proof. intros s w. by exists (Ok a), s, w, 0. Qed.
#[local] Hint Resolve runs_ret : runs.

Lemma runs_fail {A} e : Runs (X := X) (W := W) (A := A) (fail e).
Proof. intros s w. by exists (Err e), s, w, 0. Qed.
#[local] Hint Resolve runs_fail : runs.

Lemma runs_lift {A} (r : res A) : Runs (X := X) (W := W) (lift r).
Proof. intros s w. by exists r, s, w, 0. Qed.
#[local] Hint Resolve runs_lift : runs.

Lemma runs_get : Runs (X := X) (W := W) get.
Proof. intros s w. by exists (Ok (rt_state s)), s, w, 0. Qed.
#[local] Hint Resolve runs_get : runs.

Lemma runs_modify (f : X → X) : Runs (W := W) (modify f).
Proof. intros s w. by eexists _, _, w, 0. Qed.
#[local] Hint Resolve runs_modify : runs.

Lemma runs_bind {A B} (m : M W X A) (k : A → M W X B) :
  Runs m → (∀ a, Runs (k a)) → Runs (m ≫= k).
Proof.
  intros Hm Hk s w. destruct (Hm s w) as (r & s1 & w1 & n & E & Hc & Hd). unfold mbind, M_bind. destruct r as [a|e].
  - destruct (Hk a s1 w1) as (r & s2 & w2 & n2 & E2 & Hc2 & Hd2). exists r, s2, w2, (n `max` n2)%nat.
    split_and!; [|lia|by rewrite Hd2]. intros n' Hn. rewrite E by lia. apply E2. lia.
  - exists (Err e), s1, w1, n. split_and!; [|done..]. intros n' Hn. by rewrite E.
Qed.
#[local] Hint Resolve runs_bind : runs.

Lemma runs_try {A} (m : M W X A) : Runs m → Runs (try m).
Proof.
  intros Hm s w. destruct (Hm s w) as (r & s1 & w1 & n & E & Hc & Hd). exists (Ok r), s1, w1, n.
  split_and!; [|done..]. intros n' Hn. unfold try. by rewrite E.
Qed.
#[local] Hint Resolve runs_try : runs.

Lemma runs_wrap {A} p (m : M W X A) : Runs m → Runs (wrap_err p m).
Proof.
  intros Hm s w. destruct (Hm s w) as (r & s1 & w1 & n & E & Hc & Hd).
  exists (match r with Ok a => Ok a | Err e => Err (wrap_error p e) end), s1, w1, n.
  split_and!; [|done..]. intros n' Hn. unfold wrap_err. rewrite E by done. by destruct r.
Qed.
#[local] Hint Resolve runs_wrap : runs.

Lemma runs_defer {A B} (c : M W X B) (m : M W X A) : Runs c → Runs m → Runs (defer c m).
Proof.
  intros Hc Hm s w. destruct (Hm s w) as (r & s1 & w1 & n & E & Hk & Hd).
  destruct (Hc s1 w1) as (r2 & s2 & w2 & n2 & E2 & Hk2 & Hd2). exists r, s2, w2, (n `max` n2)%nat.
  split_and!; [|lia|by rewrite Hd2]. intros n' Hn. unfold defer. by rewrite E, E2 by lia.
Qed.
#[local] Hint Resolve runs_defer : runs.

Lemma runs_or_fail e : Runs (X := X) (W := W) (or_fail e).
Proof. destruct e; [apply runs_fail|apply runs_ret]. Qed.
#[local] Hint Resolve runs_or_fail : runs.

(** Every call but the two that move the contexts keeps them. *)
Definition plain {A} (c : call A) : bool := match c with WithTimeout _ | Cancel => false | _ => true end.

Lemma runs_ask {A} (c : call A) : plain c = true → Runs (X := X) (W := W) (ask c).
Proof.
  intros Hp s w. pose proof (w_clock_mono c w) as Hc. pose proof (w_keep c w) as Hk. unfold ask.
  destruct (w_do c w) as [a w'] eqn:E. exists (Ok a), s, w', 0%nat. split_and!; [done..|]. by destruct c.
Qed.
#[local] Hint Resolve runs_ask : runs.

Lemma runs_ask_ok c : plain c = true → Runs (X := X) (W := W) (ask_ok c).
Proof. intros. unfold ask_ok. apply runs_bind; [by apply runs_ask|apply runs_or_fail]. Qed.
#[local] Hint Resolve runs_ask_ok : runs.

Lemma runs_ask_res {A} (c : call (res A)) : plain c = true → Runs (X := X) (W := W) (ask_res c).
Proof. intros. unfold ask_res. apply runs_bind; [by apply runs_ask|intros; apply runs_lift]. Qed.
#[local] Hint Resolve runs_ask_res : runs.

Lemma runs_for_each {A} (l : list A) (f : A → M W X ()) : (∀ a, Runs (f a)) → Runs (for_each l f).
Proof. intros Hf. induction l; simpl; [apply runs_ret|]. apply runs_bind; auto. Qed.
#[local] Hint Resolve runs_for_each : runs.
End runs.
#[export] Hint Resolve runs_ret runs_fail runs_lift runs_get runs_modify runs_bind runs_try runs_wrap runs_defer
  runs_or_fail runs_ask runs_ask_ok runs_ask_res runs_for_each : runs.

Lemma runs_say {W X} `{World W} t : Runs (X := X) (W := W) (say t).
Proof. by apply runs_ask. Qed.
Lemma runs_warn {W X} `{World W} t : Runs (X := X) (W := W) (warn t).
Proof. by apply runs_ask. Qed.
Lemma runs_logStep {W X} `{World W} t : Runs (X := X) (W := W) (logStep t).
Proof. by apply runs_ask. Qed.
#[export] Hint Resolve runs_say runs_warn runs_logStep : runs.

#[export] Hint Extern 0 (plain _ = true) => reflexivity : runs.

(** Returning, by the shape of the program. *)
Ltac runs_step :=
  lazymatch goal with
  | |- Runs (mbind _ _) => apply runs_bind
  | |- Runs (try _) => apply runs_try
  | |- Runs (wrap_err _ _) => apply runs_wrap
  | |- Runs (defer _ _) => apply runs_defer
  | |- Runs (for_each _ _) => apply runs_for_each
  | |- Runs (match ?x with _ => _ end) => destruct x
  | |- Runs _ => solve [auto with runs nocore]
  end.
Ltac runs_tac := repeat (intros; runs_step).

(** ** Loops and contexts *)

(** A loop takes its number of turns from the fuel. *)
Definition with_fuel {W X A} (f : nat → M W X A) : M W X A := λ n s w, f n n s w.
Definition out_of_fuel {W X A} : M W X A := λ _ _ _, None.

(** [for { ... }]: the body says whether to stop. *)
Fixpoint loop_turns {W X} (body : M W X bool) (fuel : nat) : M W X () :=
  match fuel with
  | O => out_of_fuel
  | S fuel => stop ← body; if (stop : bool) then mret () else loop_turns body fuel
  end.
Definition loop {W X} (body : M W X bool) : M W X () := with_fuel (loop_turns body).

Section waiting.
Context {W : Type} `{World W} {X : Type}.

(** [ctx, cancel := context.WithTimeout(ctx, d); m; cancel()]. *)
Definition with_timeout {A} (d : duration) (m : M W X A) : M W X A :=
  ask (WithTimeout d) ;; r ← try m; ask Cancel ;; lift r.

(** ** Polling: util.go *)

Definition cancelled (description : string) (e : error) : error :=
  wrap_error ("waiting for " +:+ description +:+ " cancelled: ") e.

Definition timed_out (description : string) (timeout : duration) : error :=
  errorf ("timed out waiting for " +:+ description +:+ " after " +:+ duration_text timeout).

(** The time left until the deadline, or the error of the wait. *)
Definition time_left (deadline : time) (timeout : duration) (description : string) : M W X duration :=
  now ← ask Now;
  let remaining := t_sub deadline now in
  if (remaining <=? 0)%Z then fail (timed_out description timeout) else mret remaining.

Definition not_cancelled (description : string) (ctxErr : option error) : M W X () :=
  match ctxErr with Some e => fail (cancelled description e) | None => mret () end.

(** One turn; it stops when the check has succeeded. *)
(* go: internal/cirunner/util.go:65-102 waitUntil *)
Definition wait_turn (deadline : time) (timeout interval perAttempt : duration) (description : string)
    (check : M W X bool) : M W X bool :=
  ctxErr ← ask CtxErr;
  not_cancelled description ctxErr ;;
  remaining ← time_left deadline timeout description;
  let attemptTimeout := if (remaining <? perAttempt)%Z then remaining else perAttempt in
  ok ← wrap_err (description +:+ ": ") (with_timeout attemptTimeout check);
  if (ok : bool) then mret true
  else
    remaining ← time_left deadline timeout description;
    let sleep := if (remaining <? interval)%Z then remaining else interval in
    ctxErr ← ask (Timer sleep);
    not_cancelled description ctxErr ;;
    mret false.

(** An attempt gets the interval, but at least 5 and at most 30 seconds. *)
(* go: internal/cirunner/util.go:53-62 waitUntil *)
Definition per_attempt (interval : duration) : duration :=
  let d := if (interval <? 5 * second)%Z then (5 * second)%Z else interval in
  if (30 * second <? d)%Z then (30 * second)%Z else d.

(* go: internal/cirunner/util.go waitUntil *)
Definition waitUntil (timeout interval : duration) (description : string) (check : M W X bool) : M W X () :=
  let timeout := or_second timeout in
  let interval := or_second interval in
  now ← ask Now;
  loop (wait_turn (t_add now timeout) timeout interval (per_attempt interval) description check).

(** civerify's [WaitUntil], in the world. *)
(* go: internal/civerify/alerts.go:43-57 WaitUntil *)
Definition verify_turn (interval : duration) (check : M W X bool) : M W X bool :=
  ok ← check;
  if (ok : bool) then mret true
  else done ← ask (Timer interval); or_fail done ;; mret false.

(* go: internal/civerify/alerts.go:33-57 WaitUntil *)
Definition verifyUntil (timeout interval : duration) (check : M W X bool) : M W X () :=
  with_timeout (or_second timeout) (loop (verify_turn (or_second interval) check)).
End waiting.

(** ** Polling returns *)

Section waiting_runs.
Context {W : Type} `{World W} {X : Type}.
Implicit Types (s : rt X) (w : W).

(** The world after a call that leaves the contexts alone. *)
Lemma ask_step {A} (c : call A) w :
  plain c = true → ∃ a w', w_do c w = (a, w') ∧ (w_clock w <= w_clock w')%Z ∧ w_deadlines w' = w_deadlines w.
Proof.
  intros Hp. pose proof (w_clock_mono c w). pose proof (w_keep c w) as Hk.
  destruct (w_do c w) as [a w'] eqn:E. exists a, w'. split_and!; [done..|]. by destruct c.
Qed.

(** What a program that runs does when it is given enough fuel is all it does. *)
Definition ends {A} (m : M W X A) s w r s' w' : Prop := ∃ n, ∀ n', (n ≤ n')%nat → m n' s w = Some (r, s', w').

Lemma ends_bind {A B} (m : M W X A) (k : A → M W X B) s w a s1 w1 r s2 w2 :
  ends m s w (Ok a) s1 w1 → ends (k a) s1 w1 r s2 w2 → ends (m ≫= k) s w r s2 w2.
Proof.
  intros [n1 H1] [n2 H2]. exists (n1 `max` n2)%nat. intros n' Hn. unfold mbind, M_bind. rewrite H1 by lia. apply H2. lia.
Qed.

(** A loop whose every further turn lowers a bound returns. *)
Lemma loop_returns (body : M W X bool) (bound : nat → rt X → W → Prop) k s w :
  Runs body →
  (∀ k s w s' w', bound k s w → ends body s w (Ok false) s' w' → ∃ k', (k' < k)%nat ∧ bound k' s' w') →
  bound k s w →
  ∃ r s' w' n, (∀ f n', (n ≤ f)%nat → (n ≤ n')%nat → loop_turns body f n' s w = Some (r, s', w')) ∧
    (w_clock w <= w_clock w')%Z ∧ w_deadlines w' = w_deadlines w.
Proof.
  intros Hb Hdec. revert s w. induction (lt_wf k) as [k _ IH]. intros s w Hk.
  destruct (Hb s w) as (r & s1 & w1 & n & E & Hc & Hd). destruct r as [[]|e].
  - exists (Ok ()), s1, w1, (S n). split_and!; [|done..]. intros [|f] n' Hf Hn; [lia|].
    cbn [loop_turns]. unfold mbind, M_bind. by rewrite E by lia.
  - destruct (Hdec k s w s1 w1) as (k' & Hlt & Hk'); [done|by exists n|].
    destruct (IH k' Hlt s1 w1 Hk') as (r & s2 & w2 & n2 & E2 & Hc2 & Hd2).
    exists r, s2, w2, (S (n `max` n2)). split_and!; [|lia|congruence]. intros [|f] n' Hf Hn; [lia|].
    cbn [loop_turns]. unfold mbind, M_bind. rewrite E by lia. apply E2; lia.
  - exists (Err e), s1, w1, (S n). split_and!; [|done..]. intros [|f] n' Hf Hn; [lia|].
    cbn [loop_turns]. unfold mbind, M_bind. by rewrite E by lia.
Qed.

Lemma loop_runs (body : M W X bool) (bound : nat → rt X → W → Prop) s w :
  Runs body →
  (∀ k s w s' w', bound k s w → ends body s w (Ok false) s' w' → ∃ k', (k' < k)%nat ∧ bound k' s' w') →
  (∃ k, bound k s w) →
  ∃ r s' w' n, (∀ n', (n ≤ n')%nat → loop body n' s w = Some (r, s', w')) ∧
    (w_clock w <= w_clock w')%Z ∧ w_deadlines w' = w_deadlines w.
Proof.
  intros Hb Hdec [k Hk]. destruct (loop_returns body bound k s w Hb Hdec Hk) as (r & s' & w' & n & E & ? & ?).
  exists r, s', w', n. split_and!; [|done..]. intros n' Hn. by apply E.
Qed.

Lemma with_timeout_runs {A} d (m : M W X A) s w :
  (∀ w1, w_deadlines (w_do (WithTimeout d) w).2 = w_deadlines w1 → w_clock (w_do (WithTimeout d) w).2 = w_clock w1 →
   ∃ r s' w' n, (∀ n', (n ≤ n')%nat → m n' s w1 = Some (r, s', w')) ∧
     (w_clock w1 <= w_clock w')%Z ∧ w_deadlines w' = w_deadlines w1) →
  ∃ r s' w' n, (∀ n', (n ≤ n')%nat → with_timeout d m n' s w = Some (r, s', w')) ∧
    (w_clock w <= w_clock w')%Z ∧ w_deadlines w' = w_deadlines w.
Proof.
  intros Hm. pose proof (w_clock_mono (WithTimeout d) w) as Hc1. destruct (w_with_timeout d w) as (t & _ & Hd1).
  destruct (w_do (WithTimeout d) w) as [[] w1] eqn:E1. cbn [snd] in *.
  destruct (Hm w1) as (r & s2 & w2 & n & E2 & Hc2 & Hd2); [done..|].
  pose proof (w_clock_mono Cancel w2) as Hc3. pose proof (w_cancel w2) as Hd3.
  destruct (w_do Cancel w2) as [[] w3] eqn:E3. cbn [snd] in *. exists r, s2, w3, n. split_and!; [|lia|].
  - intros n' Hn. unfold with_timeout, mbind, M_bind, ask, try, lift. by rewrite E1, E2, E3 by done.
  - by rewrite Hd3, Hd2, Hd1.
Qed.

Lemma runs_with_timeout {A} d (m : M W X A) : Runs m → Runs (with_timeout d m).
Proof. intros Hm s w. apply with_timeout_runs. intros w1 _ _. apply Hm. Qed.
#[local] Hint Resolve runs_with_timeout : runs.

Lemma runs_time_left d t desc : Runs (X := X) (W := W) (time_left d t desc).
Proof. unfold time_left. runs_tac. Qed.
#[local] Hint Resolve runs_time_left : runs.

Lemma runs_not_cancelled desc e : Runs (X := X) (W := W) (not_cancelled desc e).
Proof. unfold not_cancelled. runs_tac. Qed.
#[local] Hint Resolve runs_not_cancelled : runs.

Lemma runs_wait_turn d t i p desc (check : M W X bool) : Runs check → Runs (wait_turn d t i p desc check).
Proof. intros. unfold wait_turn. runs_tac. Qed.
#[local] Hint Resolve runs_wait_turn : runs.

Lemma ends_bind_inv {A B} (m : M W X A) (k : A → M W X B) s w b s2 w2 :
  Runs m → ends (m ≫= k) s w (Ok b) s2 w2 →
  ∃ a s1 w1, ends m s w (Ok a) s1 w1 ∧ (w_clock w <= w_clock w1)%Z ∧ w_deadlines w1 = w_deadlines w ∧
    ends (k a) s1 w1 (Ok b) s2 w2.
Proof.
  intros Hm [n2 H2]. destruct (Hm s w) as (r & s1 & w1 & n & E & Hc & Hd). destruct r as [a|e].
  - exists a, s1, w1. split_and!; [by exists n|done..|]. exists (n `max` n2)%nat. intros n' Hn.
    specialize (H2 n' ltac:(lia)). unfold mbind, M_bind in H2. by rewrite E in H2 by lia.
  - specialize (H2 (n `max` n2)%nat ltac:(lia)). unfold mbind, M_bind in H2. by rewrite E in H2 by lia.
Qed.

Lemma ends_ret_inv {A} (a b : A) s w s' w' : ends (mret a) s w (Ok b) s' w' → a = b ∧ s' = s ∧ w' = w.
Proof. intros [n H']. specialize (H' n ltac:(lia)). by injection H' as -> -> ->. Qed.

Lemma ends_fail_inv {A} e (a : A) s w s' w' : ¬ ends (fail e) s w (Ok a) s' w'.
Proof. intros [n H']. by specialize (H' n ltac:(lia)). Qed.

Lemma ends_ask_inv {A} (c : call A) a s w s' w' : ends (ask c) s w (Ok a) s' w' → w_do c w = (a, w') ∧ s' = s.
Proof.
  intros [n H']. specialize (H' n ltac:(lia)). unfold ask in H'. destruct (w_do c w). by injection H' as -> -> ->.
Qed.

Lemma ends_time_left_inv deadline timeout d r s w s' w' :
  ends (time_left deadline timeout d) s w (Ok r) s' w' →
  ∃ now, (w_clock w <= now <= w_clock w')%Z ∧ r = t_sub deadline now ∧ (0 < r)%Z.
Proof.
  intros (now & s1 & w1 & Ha & _ & _ & Hk)%ends_bind_inv; [|runs_tac]. apply ends_ask_inv in Ha as [Ha ->].
  pose proof (w_now w) as Hn. rewrite Ha in Hn. cbn in Hn. cbv zeta in Hk.
  destruct (t_sub deadline now <=? 0)%Z eqn:Et; [by apply ends_fail_inv in Hk|]. apply Z.leb_gt in Et.
  apply ends_ret_inv in Hk as (<- & _ & ->). by exists now.
Qed.

Lemma ends_not_cancelled_inv d e u s w s' w' :
  ends (not_cancelled d e) s w (Ok u) s' w' → e = None ∧ s' = s ∧ w' = w.
Proof.
  destruct e; intros Hk; [by apply ends_fail_inv in Hk|]. by apply ends_ret_inv in Hk as (_ & -> & ->).
Qed.

(** A turn that does not stop uses up the interval or all the time that is left. *)
Lemma wait_turn_progress deadline timeout interval per d (check : M W X bool) s w s' w' :
  Runs check → ends (wait_turn deadline timeout interval per d check) s w (Ok false) s' w' →
  (w_clock w < deadline)%Z ∧
  ((w_clock w + Z.min interval int64_max <= w_clock w')%Z ∨ (deadline <= w_clock w')%Z).
Proof.
  intros Hr. unfold wait_turn.
  intros (e1 & s1 & w1 & _ & Hc1 & _ & H1)%ends_bind_inv; [|runs_tac].
  apply ends_bind_inv in H1 as ([] & s2 & w2 & H1 & Hc2 & _ & H2); [|runs_tac]. clear H1.
  apply ends_bind_inv in H2 as (r1 & s3 & w3 & H2 & Hc3 & _ & H3); [|runs_tac].
  apply ends_time_left_inv in H2 as (now1 & Hn1 & -> & Hp1).
  apply ends_bind_inv in H3 as (ok & s4 & w4 & _ & Hc4 & _ & H4); [|runs_tac].
  destruct ok; [by apply ends_ret_inv in H4 as [? _]|].
  apply ends_bind_inv in H4 as (r2 & s5 & w5 & H4 & Hc5 & _ & H5); [|runs_tac].
  apply ends_time_left_inv in H4 as (now2 & Hn2 & -> & Hp2).
  apply ends_bind_inv in H5 as (e2 & s6 & w6 & H5 & Hc6 & _ & H6); [|runs_tac].
  apply ends_bind_inv in H6 as (u & s7 & w7 & H6 & _ & _ & H7); [|runs_tac].
  apply ends_not_cancelled_inv in H6 as (-> & -> & ->). apply ends_ret_inv in H7 as (_ & -> & ->).
  apply ends_ask_inv in H5 as [H5 ->].
  match type of H5 with w_do (Timer ?d) _ = _ => pose proof (w_timer d w5) as Ht end.
  rewrite H5 in Ht. specialize (Ht eq_refl). cbn in Ht. clear H5. revert Ht Hp1 Hp2. unfold t_sub, int64_min, int64_max.
  destruct (Z.ltb_spec (Z.max (- 2 ^ 63) (Z.min (2 ^ 63 - 1) (deadline - now2))) interval); lia.
Qed.

Lemma runs_waitUntil timeout interval d (check : M W X bool) :
  Runs check → Runs (waitUntil timeout interval d check).
Proof.
  intros Hr. unfold waitUntil. apply runs_bind; [runs_tac|]. intros now. set (deadline := t_add now (or_second timeout)).
  assert (0 < or_second interval)%Z as Hi by (unfold or_second; destruct (Z.leb_spec interval 0); [done|lia]).
  set (q := Z.min (or_second interval) int64_max). assert (0 < q)%Z as Hq by (unfold q, int64_max; lia).
  intros s w. apply (loop_runs _ (λ k _ w, deadline - w_clock w <= Z.of_nat k * q)%Z); [runs_tac| |].
  - intros k s0 w0 s' w' Hk Hend. apply wait_turn_progress in Hend as [Hlt Hp]; [|done]. fold q in Hp.
    destruct k as [|k]; [lia|]. exists k. split; [lia|]. nia.
  - exists (Z.to_nat (deadline - w_clock w)). nia.
Qed.
#[local] Hint Resolve runs_waitUntil : runs.

Lemma verify_turn_progress interval (check : M W X bool) s w s' w' t :
  Runs check → (0 < interval)%Z → t ∈ w_deadlines w → ends (verify_turn interval check) s w (Ok false) s' w' →
  (w_clock w < t)%Z ∧ (w_clock w + interval <= w_clock w')%Z ∧ w_deadlines w' = w_deadlines w.
Proof.
  intros Hr Hi Ht. unfold verify_turn.
  intros (ok & s1 & w1 & _ & Hc1 & Hd1 & H1)%ends_bind_inv; [|runs_tac].
  destruct ok; [by apply ends_ret_inv in H1 as [? _]|].
  apply ends_bind_inv in H1 as (e & s2 & w2 & H1 & Hc2 & Hd2 & H2); [|runs_tac].
  apply ends_ask_inv in H1 as [H1 ->].
  apply ends_bind_inv in H2 as (u & s3 & w3 & H2 & _ & _ & H3); [|runs_tac]. apply ends_ret_inv in H3 as (_ & -> & ->).
  destruct e; [by apply ends_fail_inv in H2|]. apply ends_ret_inv in H2 as (_ & -> & ->).
  pose proof (w_timer interval w1) as Htm. rewrite H1 in Htm. specialize (Htm eq_refl). cbn in Htm.
  destruct (Z.le_gt_cases t (w_clock w1)) as [Hle|]; [|split_and!; [lia|lia|congruence]].
  exfalso. apply (w_expired interval w1 t); [congruence|done|done|]. by rewrite H1.
Qed.

Lemma runs_verify_turn i (check : M W X bool) : Runs check → Runs (verify_turn i check).
Proof. intros. unfold verify_turn. runs_tac. Qed.
#[local] Hint Resolve runs_verify_turn : runs.

Lemma runs_verifyUntil timeout interval (check : M W X bool) :
  Runs check → Runs (verifyUntil timeout interval check).
Proof.
  intros Hr s w. unfold verifyUntil. apply with_timeout_runs. intros w1 Hd _.
  destruct (w_with_timeout (or_second timeout) w) as (t & _ & Ht). rewrite Hd in Ht.
  assert (0 < or_second interval)%Z as Hi by (unfold or_second; destruct (Z.leb_spec interval 0); [done|lia]).
  apply (loop_runs _ (λ k _ w, t ∈ w_deadlines w ∧ t - w_clock w <= Z.of_nat k)%Z); [runs_tac| |].
  - intros k s0 w0 s' w' [Hin Hk] Hend. apply (verify_turn_progress _ _ _ _ _ _ t) in Hend as (Hlt & Hp & Hd'); [|done..].
    destruct k as [|k]; [lia|]. exists k. split_and!; [lia|by rewrite Hd'|lia].
  - exists (Z.to_nat (t - w_clock w1)). rewrite Ht. split; [by left|lia].
Qed.
#[local] Hint Resolve runs_verifyUntil : runs.
End waiting_runs.
#[export] Hint Resolve runs_with_timeout runs_time_left runs_not_cancelled runs_wait_turn runs_waitUntil
  runs_verify_turn runs_verifyUntil : runs.

(** The combinators with a program inside, added to the tactic. *)
Ltac runs_step ::=
  lazymatch goal with
  | |- Runs (mbind _ _) => apply runs_bind
  | |- Runs (try _) => apply runs_try
  | |- Runs (wrap_err _ _) => apply runs_wrap
  | |- Runs (defer _ _) => apply runs_defer
  | |- Runs (for_each _ _) => apply runs_for_each
  | |- Runs (with_timeout _ _) => apply runs_with_timeout
  | |- Runs (waitUntil _ _ _ _) => apply runs_waitUntil
  | |- Runs (verifyUntil _ _ _) => apply runs_verifyUntil
  | |- Runs (match ?x with _ => _ end) => destruct x
  | |- Runs _ => solve [auto with runs nocore]
  end.

(** ** HTTP and commands *)

Section helpers.
Context {W : Type} `{World W} {X : Type}.

(** The body of a 2xx answer. *)
(* go: internal/cirunner/integration.go:646-663 httpBody *)
Definition http_result (o : get_outcome) : res string :=
  match o with
  | BuildFails e | CallFails e | ReadFails e => Err e
  | Answered code body =>
      if negb (Z.quot code 100 =? 2)%Z then Err (errorf ("http " +:+ itoa code +:+ ": " +:+ body)) else Ok body
  end.

Definition or_seconds (d : duration) (n : Z) : duration := if (d <=? 0)%Z then (n * second)%Z else d.

(* go: internal/cirunner/integration.go httpBody *)
Definition httpBody (url : string) (timeout : duration) : M W X string :=
  o ← ask (HttpGet (or_seconds timeout 5) url); lift (http_result o).

(** The payload is marshalled by the caller. *)
(* go: internal/cirunner/integration.go httpPostJSON *)
Definition httpPostJSON (url body : string) (timeout : duration) : M W X string :=
  o ← ask (HttpPost (or_seconds timeout 5) url body); lift (http_result o).

(* go: internal/cirunner/diagnostics.go httpGET *)
Definition httpGET (url : string) (timeout : duration) : M W X string :=
  o ← ask (HttpGet (or_seconds timeout 10) url); lift (http_result o).

(* go: internal/cirunner/import_image.go commandOutput *)
Definition commandOutput (name : string) (args : list string) : M W X string :=
  r ← ask (Command name args);
  let '(stdout, stderr, e) := r : string * string * option error in
  match e with
  | Some e =>
      fail (if trim_space stderr =? "" then e
            else mkError (err_msg e +:+ ": " +:+ trim_space stderr) (err_notfound e) (err_timeout e))
  | None => mret stdout
  end.

(* go: internal/cirunner/import_image.go commandRun *)
Definition commandRun (name : string) (args : list string) : M W X () := ask_ok (CommandPass name args).

(* go: internal/cirunner/integration.go runCommand *)
Definition runCommand (name : string) (args : list string) : M W X () := ask_ok (CommandPass name args).

(** A check that reads an endpoint: an error means not yet. *)
Definition answers (url : string) (accept : string → bool) : M W X bool :=
  r ← try (httpBody url (5 * second));
  mret (match r with Ok body => accept body | Err _ => false end).

(** ** Port forwards: portforward.go *)

Definition get_sessions : M W X (list PortForwardSession) := λ _ s w, Some (Ok (rt_sessions s), s, w).
Definition set_sessions (l : list PortForwardSession) : M W X () :=
  λ _ s w, Some (Ok (), mkRt l (rt_state s), w).

(** A new session; its pointer is its place among the sessions. *)
(* go: internal/cirunner/portforward.go StartPodPortForward *)
Definition StartPodPortForward (namespace podName : string) (localPort remotePort : Z) : M W X nat :=
  e ← ask (DialForward namespace podName localPort remotePort);
  or_fail e ;;
  l ← get_sessions;
  set_sessions (l ++ [mkSession podName localPort remotePort false 0])%list ;;
  mret (length l).

(* go: internal/cirunner/portforward.go PortForwardSession.WaitReady *)
Definition WaitReady (session : nat) (timeout : duration) : M W X () :=
  ev ← ask (AwaitReady session (or_seconds timeout 10));
  match ev with
  | ForwardReady => mret ()
  | ForwardEnded None => fail (errorf "port-forward ended before ready")
  | ForwardEnded (Some e) => fail e
  | ForwardTimeout => fail (errorf "timed out waiting for port-forward readiness")
  end.

Definition close_session (p : PortForwardSession) : PortForwardSession :=
  if pf_closed p then p else mkSession (pf_Pod p) (pf_LocalPort p) (pf_RemotePort p) true (S (pf_stops p)).

(** A nil session is [None]. *)
(* go: internal/cirunner/portforward.go PortForwardSession.Close *)
Definition Close (session : option nat) : M W X () :=
  match session with
  | None => mret ()
  | Some i =>
      l ← get_sessions;
      match l !! i with
      | None => mret ()
      | Some p =>
          if pf_closed p then mret ()
          else set_sessions (<[i := close_session p]> l) ;; ask (AwaitEnd i (2 * second))
      end
  end.

Lemma runs_get_sessions : Runs get_sessions.
Proof. intros s w. by eexists _, _, w, 0%nat. Qed.
#[local] Hint Resolve runs_get_sessions : runs.

Lemma runs_set_sessions l : Runs (set_sessions l).
Proof. intros s w. by eexists _, _, w, 0%nat. Qed.
#[local] Hint Resolve runs_set_sessions : runs.

Lemma runs_httpBody u t : Runs (httpBody u t).
Proof. unfold httpBody. runs_tac. Qed.
#[local] Hint Resolve runs_httpBody : runs.

Lemma runs_httpPostJSON u b t : Runs (httpPostJSON u b t).
Proof. unfold httpPostJSON. runs_tac. Qed.
#[local] Hint Resolve runs_httpPostJSON : runs.

Lemma runs_httpGET u t : Runs (httpGET u t).
Proof. unfold httpGET. runs_tac. Qed.
#[local] Hint Resolve runs_httpGET : runs.

Lemma runs_commandOutput n a : Runs (commandOutput n a).
Proof. unfold commandOutput. runs_tac. Qed.
#[local] Hint Resolve runs_commandOutput : runs.

Lemma runs_commandRun n a : Runs (commandRun n a).
Proof. unfold commandRun. runs_tac. Qed.
#[local] Hint Resolve runs_commandRun : runs.

Lemma runs_runCommand n a : Runs (runCommand n a).
Proof. unfold runCommand. runs_tac. Qed.
#[local] Hint Resolve runs_runCommand : runs.

Lemma runs_answers u f : Runs (answers u f).
Proof. unfold answers. runs_tac. Qed.
#[local] Hint Resolve runs_answers : runs.

Lemma runs_StartPodPortForward n p l r : Runs (StartPodPortForward n p l r).
Proof. unfold StartPodPortForward. runs_tac. Qed.
#[local] Hint Resolve runs_StartPodPortForward : runs.

Lemma runs_WaitReady i t : Runs (WaitReady i t).
Proof. unfold WaitReady. runs_tac. Qed.
#[local] Hint Resolve runs_WaitReady : runs.

Lemma runs_Close o : Runs (Close o).
Proof. unfold Close. runs_tac. Qed.
#[local] Hint Resolve runs_Close : runs.
End helpers.
#[export] Hint Resolve runs_get_sessions runs_set_sessions runs_httpBody runs_httpPostJSON runs_httpGET
  runs_commandOutput runs_commandRun runs_runCommand runs_answers runs_StartPodPortForward runs_WaitReady
  runs_Close : runs.

(** ** Variables a closure assigns *)

(** [l := l0; m] where [m] reads and writes [l]: the result of [m] and the last [l]. *)
Definition with_local {W X L A} (l0 : L) (m : M W (X * L) A) : M W X (res A * L) := λ n s w,
  match m n (mkRt (rt_sessions s) (rt_state s, l0)) w with
  | None => None
  | Some (r, s, w) => Some (Ok (r, snd (rt_state s)), mkRt (rt_sessions s) (fst (rt_state s)), w)
  end.

Definition set_local {W X L} (l : L) : M W (X * L) () := modify (λ x, (fst x, l)).

Lemma runs_with_local {W X L A} `{World W} (l0 : L) (m : M W (X * L) A) :
  Runs m → Runs (X := X) (with_local l0 m).
Proof.
  intros Hm s w. destruct (Hm (mkRt (rt_sessions s) (rt_state s, l0)) w) as (r & s1 & w1 & n & E & Hc & Hd).
  eexists _, _, w1, n. split_and!; [|done..]. intros n' Hn. unfold with_local. by rewrite E.
Qed.
#[export] Hint Resolve runs_with_local : runs.

Lemma runs_set_local {W X L} `{World W} (l : L) : Runs (W := W) (set_local (X := X) l).
Proof. unfold set_local. apply runs_modify. Qed.
#[export] Hint Resolve runs_set_local : runs.

(** client-go's retries: how many further attempts the two standard settings make,
    the pause before each of them, and which errors are conflicts. *)
Class RetryLib := {
  conflict_retries : nat;
  backoff_retries : nat;
  retry_pause : nat → duration;
  is_conflict : error → bool;
}.

Fixpoint retry_on {W X} `{World W} `{RetryLib} (retriable : error → bool) (retries : nat) (k : nat) (m : M W X ()) : M W X () :=
  r ← try m;
  match r with
  | Ok _ => mret ()
  | Err e =>
      match retries with
      | S retries => if retriable e then ask (Sleep (retry_pause k)) ;; retry_on retriable retries (S k) m else fail e
      | O => fail e
      end
  end.

Lemma runs_retry_on {W X} `{World W} `{RetryLib} p n k (m : M W X ()) : Runs m → Runs (retry_on p n k m).
Proof.
  intros Hm. revert k. induction n as [|n IH]; intros k; cbn [retry_on];
    (apply runs_bind; [by apply runs_try|intros [a|e]; [runs_tac|]]); [runs_tac|].
  destruct (p e); [|runs_tac]. apply runs_bind; [runs_tac|]. intros _. apply IH.
Qed.
#[export] Hint Resolve runs_retry_on : runs.

Ltac runs_step ::=
  lazymatch goal with
  | |- Runs (mbind _ _) => apply runs_bind
  | |- Runs (try _) => apply runs_try
  | |- Runs (wrap_err _ _) => apply runs_wrap
  | |- Runs (defer _ _) => apply runs_defer
  | |- Runs (for_each _ _) => apply runs_for_each
  | |- Runs (with_timeout _ _) => apply runs_with_timeout
  | |- Runs (with_local _ _) => apply runs_with_local
  | |- Runs (waitUntil _ _ _ _) => apply runs_waitUntil
  | |- Runs (verifyUntil _ _ _) => apply runs_verifyUntil
  | |- Runs (retry_on _ _ _ _) => apply runs_retry_on
  | |- Runs (match ?x with _ => _ end) => destruct x
  | |- Runs _ => solve [auto with runs nocore]
  end.
