(* ===== verification/CiLogic.v ===== *)
(** * Reasoning about the programs of the runners

    Three judgements, with a rule for each combinator of [CiWorld]: what a program
    leaves alone ([frame]: the state before and after are related), what every value
    it returns satisfies ([yields]), and what holds of the state after it when
    something held before ([sends]). *)

From stdpp Require Import base list strings gmap.
From Stdlib Require Import ZArith Lia.
From S2P Require Import Prelude GoText GoStd GoStrconv PromClient CiVerify CiWorld.

(** ** Frames *)

(** Whatever the fuel, the world and the result are. *)
Definition frame {W X A} (R : rt X → rt X → Prop) (m : M W X A) : Prop :=
  ∀ n s w r s' w', m n s w = Some (r, s', w') → R s s'.

(** A relation seen through the variable of a closure. *)
Definition outside {X L} (s : rt (X * L)) : rt X := mkRt (rt_sessions s) (fst (rt_state s)).
Definition through {X L} (R : rt X → rt X → Prop) (s s' : rt (X * L)) : Prop := R (outside s) (outside s').

#[export] Instance through_pre {X L} (R : rt X → rt X → Prop) : PreOrder R → PreOrder (through (L := L) R).
Proof. intros [Hr Ht]. split; [intros s; apply Hr|intros s1 s2 s3; apply Ht]. Qed.

Create HintDb frames discriminated.
#[export] Hint Constants Opaque : frames.
#[export] Hint Resolve through_pre : frames.

Section frames.
Context {W X : Type} (R : rt X → rt X → Prop) `{!PreOrder R}.

Lemma frame_still {A} (m : M W X A) : (∀ n s w r s' w', m n s w = Some (r, s', w') → s' = s) → frame R m.
Proof. intros Hm n s w r s' w' Hs. rewrite (Hm _ _ _ _ _ _ Hs). reflexivity. Qed.

Lemma frame_ret {A} (a : A) : frame (W := W) R (mret a).
Proof. apply frame_still. by intros n s w r s' w' [= <- <- <-]. Qed.

Lemma frame_fail {A} e : frame (W := W) (A := A) R (fail e).
Proof. apply frame_still. by intros n s w r s' w' [= <- <- <-]. Qed.

Lemma frame_lift {A} (x : res A) : frame (W := W) R (lift x).
Proof. apply frame_still. by intros n s w r s' w' [= <- <- <-]. Qed.

Lemma frame_get : frame (W := W) R get.
Proof. apply frame_still. by intros n s w r s' w' [= <- <- <-]. Qed.

Lemma frame_get_sessions : frame (W := W) R get_sessions.
Proof. apply frame_still. by intros n s w r s' w' [= <- <- <-]. Qed.

Lemma frame_out_of_fuel {A} : frame (W := W) (A := A) R out_of_fuel.
Proof. by intros n s w r s' w' E. Qed.

Lemma frame_modify (f : X → X) : (∀ s, R s (mkRt (rt_sessions s) (f (rt_state s)))) → frame (W := W) R (modify f).
Proof. intros Hf n s w r s' w' [= _ <- _]. apply Hf. Qed.

Lemma frame_set_sessions l : (∀ s, R s (mkRt l (rt_state s))) → frame (W := W) R (set_sessions l).
Proof. intros Hf n s w r s' w' [= _ <- _]. apply Hf. Qed.

Lemma frame_bind {A B} (m : M W X A) (k : A → M W X B) : frame R m → (∀ a, frame R (k a)) → frame R (m ≫= k).
Proof.
  intros Hm Hk n s w r s' w'. unfold mbind, M_bind. destruct (m n s w) as [[[[a|e] s1] w1]|] eqn:E; [| |done].
  - intros Hr. etrans; [by eapply Hm|by eapply Hk].
  - intros [= <- <- <-]. by eapply Hm.
Qed.

Lemma frame_try {A} (m : M W X A) : frame R m → frame R (try m).
Proof.
  intros Hm n s w r s' w'. unfold try. destruct (m n s w) as [[[r1 s1] w1]|] eqn:E; [|done].
  intros [= <- <- <-]. by eapply Hm.
Qed.

Lemma frame_wrap {A} p (m : M W X A) : frame R m → frame R (wrap_err p m).
Proof.
  intros Hm n s w r s' w'. unfold wrap_err. destruct (m n s w) as [[[[a|e] s1] w1]|] eqn:E; [| |done];
    intros [= <- <- <-]; by eapply Hm.
Qed.

Lemma frame_defer {A B} (c : M W X B) (m : M W X A) : frame R c → frame R m → frame R (defer c m).
Proof.
  intros Hc Hm n s w r s' w'. unfold defer. destruct (m n s w) as [[[r1 s1] w1]|] eqn:E; [|done].
  destruct (c n s1 w1) as [[[r2 s2] w2]|] eqn:E2; [|done]. intros [= <- <- <-].
  etrans; [by eapply Hm|by eapply Hc].
Qed.

Lemma frame_for_each {A} (l : list A) (f : A → M W X ()) : (∀ a, frame R (f a)) → frame R (for_each l f).
Proof. intros Hf. induction l; simpl; [apply frame_ret|]. apply frame_bind; auto. Qed.

Lemma frame_with_fuel {A} (f : nat → M W X A) : (∀ n, frame R (f n)) → frame R (with_fuel f).
Proof. intros Hf n. by apply Hf. Qed.

Lemma frame_loop (body : M W X bool) : frame R body → frame R (loop body).
Proof.
  intros Hb. apply frame_with_fuel. intros n. induction n as [|n IH]; simpl; [apply frame_out_of_fuel|].
  apply frame_bind; [done|]. intros []; [apply frame_ret|done].
Qed.

Lemma frame_or_fail e : frame (W := W) R (or_fail e).
Proof. destruct e; [apply frame_fail|apply frame_ret]. Qed.

Context `{World W}.

Lemma frame_ask {A} (c : call A) : frame R (ask c).
Proof. apply frame_still. intros n s w r s' w'. unfold ask. destruct (w_do c w). by intros [= <- <- <-]. Qed.

Lemma frame_ask_ok c : frame R (ask_ok c).
Proof. unfold ask_ok. apply frame_bind; [apply frame_ask|intros; apply frame_or_fail]. Qed.

Lemma frame_ask_res {A} (c : call (res A)) : frame R (ask_res c).
Proof. unfold ask_res. apply frame_bind; [apply frame_ask|intros; apply frame_lift]. Qed.

Lemma frame_say t : frame R (say t).
Proof. apply frame_ask. Qed.

Lemma frame_warn t : frame R (warn t).
Proof. apply frame_ask. Qed.

Lemma frame_logStep t : frame R (logStep t).
Proof. apply frame_ask. Qed.

Lemma frame_with_timeout {A} d (m : M W X A) : frame R m → frame R (with_timeout d m).
Proof.
  intros Hm. unfold with_timeout. apply frame_bind; [apply frame_ask|intros _].
  apply frame_bind; [by apply frame_try|intros r]. apply frame_bind; [apply frame_ask|intros _]. apply frame_lift.
Qed.
End frames.
#[export] Hint Resolve frame_ret frame_fail frame_lift frame_get frame_get_sessions frame_out_of_fuel frame_or_fail
  frame_ask frame_ask_ok frame_ask_res frame_say frame_warn frame_logStep : frames.

Lemma frame_with_local {W X L A} R `{!PreOrder R} (l : L) (m : M W (X * L) A) :
  frame (through R) m → frame R (with_local l m).
Proof.
  intros Hm n s w r s' w'. unfold with_local. destruct (m n _ w) as [[[r1 s1] w1]|] eqn:E; [|done].
  intros [= <- <- <-]. apply Hm in E. by destruct s.
Qed.

Lemma frame_set_local {W X L} R `{!PreOrder R} (l : L) : frame (W := W) (X := X * L) (through R) (set_local l).
Proof. apply frame_modify. intros s. change (R (outside s) (outside s)). reflexivity. Qed.
#[export] Hint Resolve frame_set_local : frames.

(** By the shape of the program; the last rule takes the laws of the context. *)
Ltac frame_step :=
  lazymatch goal with
  | |- PreOrder _ => exact _
  | |- frame _ (mbind _ _) => apply frame_bind
  | |- frame _ (try _) => apply frame_try
  | |- frame _ (wrap_err _ _) => apply frame_wrap
  | |- frame _ (defer _ _) => apply frame_defer
  | |- frame _ (for_each _ _) => apply frame_for_each
  | |- frame _ (loop _) => apply frame_loop
  | |- frame _ (with_timeout _ _) => apply frame_with_timeout
  | |- frame _ (with_local _ _) => apply frame_with_local
  | |- frame _ (match ?x with _ => _ end) => destruct x
  | |- frame _ _ => solve [auto with frames nocore]
  end.
Ltac frame_tac := repeat (intros; frame_step).

Section polls.
Context {W X : Type} (R : rt X → rt X → Prop) `{!PreOrder R} `{World W}.

Lemma frame_waitUntil t i d (check : M W X bool) : frame R check → frame R (waitUntil t i d check).
Proof. intros Hc. unfold waitUntil, wait_turn, time_left, not_cancelled. frame_tac. Qed.

Lemma frame_verifyUntil t i (check : M W X bool) : frame R check → frame R (verifyUntil t i check).
Proof. intros Hc. unfold verifyUntil, verify_turn. frame_tac. Qed.

Lemma frame_retry_on `{RetryLib} p n k (m : M W X ()) : frame R m → frame R (retry_on p n k m).
Proof. intros Hm. revert k. induction n as [|n IH]; intros k; cbn [retry_on]; frame_tac. Qed.

Lemma frame_httpBody u t : frame R (httpBody u t).
Proof. unfold httpBody. frame_tac. Qed.
Lemma frame_httpPostJSON u b t : frame R (httpPostJSON u b t).
Proof. unfold httpPostJSON. frame_tac. Qed.
Lemma frame_httpGET u t : frame R (httpGET u t).
Proof. unfold httpGET. frame_tac. Qed.
Lemma frame_commandOutput n a : frame R (commandOutput n a).
Proof. unfold commandOutput. frame_tac. Qed.
Lemma frame_commandRun n a : frame R (commandRun n a).
Proof. unfold commandRun. frame_tac. Qed.
Lemma frame_runCommand n a : frame R (runCommand n a).
Proof. unfold runCommand. frame_tac. Qed.
Lemma frame_WaitReady i t : frame R (WaitReady i t).
Proof. unfold WaitReady. frame_tac. Qed.
#[local] Hint Resolve frame_httpBody : frames.
Lemma frame_answers u f : frame R (answers u f).
Proof. unfold answers. frame_tac. Qed.
End polls.
#[export] Hint Resolve frame_httpBody frame_httpPostJSON frame_httpGET frame_commandOutput frame_commandRun
  frame_runCommand frame_WaitReady frame_answers : frames.

Ltac frame_step ::=
  lazymatch goal with
  | |- PreOrder _ => exact _
  | |- frame _ (mbind _ _) => apply frame_bind
  | |- frame _ (try _) => apply frame_try
  | |- frame _ (wrap_err _ _) => apply frame_wrap
  | |- frame _ (defer _ _) => apply frame_defer
  | |- frame _ (for_each _ _) => apply frame_for_each
  | |- frame _ (loop _) => apply frame_loop
  | |- frame _ (with_timeout _ _) => apply frame_with_timeout
  | |- frame _ (with_local _ _) => apply frame_with_local
  | |- frame _ (waitUntil _ _ _ _) => apply frame_waitUntil
  | |- frame _ (verifyUntil _ _ _) => apply frame_verifyUntil
  | |- frame _ (retry_on _ _ _ _) => apply frame_retry_on
  | |- frame _ (match ?x with _ => _ end) => destruct x
  | |- frame _ _ => solve [auto with frames nocore]
  end.

(** ** Returned values *)

Definition yields {W X A} (m : M W X A) (P : A → Prop) : Prop :=
  ∀ n s w a s' w', m n s w = Some (Ok a, s', w') → P a.

Section yields.
Context {W X : Type}.

Lemma yields_ret {A} (a : A) (P : A → Prop) : P a → yields (W := W) (X := X) (mret a) P.
Proof. by intros HP n s w b s' w' [= <- _ _]. Qed.

Lemma yields_fail {A} e (P : A → Prop) : yields (W := W) (X := X) (fail e) P.
Proof. by intros n s w b s' w'. Qed.

Lemma yields_bind {A B} (m : M W X A) (k : A → M W X B) (Q : A → Prop) P :
  yields m Q → (∀ a, Q a → yields (k a) P) → yields (m ≫= k) P.
Proof.
  intros Hm Hk n s w b s' w'. unfold mbind, M_bind. destruct (m n s w) as [[[[a|e] s1] w1]|] eqn:E; [|done|done].
  apply Hk. by eapply Hm.
Qed.

Lemma yields_any {A} (m : M W X A) : yields m (λ _, True).
Proof. by intros n s w b s' w' _. Qed.

Lemma yields_then {A B} (m : M W X A) (k : A → M W X B) P : (∀ a, yields (k a) P) → yields (m ≫= k) P.
Proof. intros Hk. eapply yields_bind; [apply yields_any|intros a _; apply Hk]. Qed.
End yields.

(** ** Programs that do not fail *)

Definition succeeds {W X A} (m : M W X A) : Prop := ∀ n s w r s' w', m n s w = Some (r, s', w') → ∃ a, r = Ok a.

Section succeeds.
Context {W X : Type} `{World W}.

Lemma succeeds_ret {A} (a : A) : succeeds (W := W) (X := X) (mret a).
Proof. intros n s w r s' w' [= <- _ _]. by exists a. Qed.
Lemma succeeds_bind {A B} (m : M W X A) (k : A → M W X B) : succeeds m → (∀ a, succeeds (k a)) → succeeds (m ≫= k).
Proof.
  intros Hm Hk n s w r s' w'. unfold mbind, M_bind. destruct (m n s w) as [[[[a|e] s1] w1]|] eqn:E; [apply Hk| |done].
  by destruct (Hm _ _ _ _ _ _ E).
Qed.
Lemma succeeds_try {A} (m : M W X A) : succeeds (try m).
Proof. intros n s w r s' w'. unfold try. destruct (m n s w) as [[[r1 s1] w1]|]; [|done]. intros [= <- _ _]. by exists r1. Qed.
Lemma succeeds_get : succeeds (W := W) (X := X) get.
Proof. intros n s w r s' w' [= <- _ _]. by eexists. Qed.
Lemma succeeds_modify (f : X → X) : succeeds (W := W) (modify f).
Proof. intros n s w r s' w' [= <- _ _]. by eexists. Qed.
Lemma succeeds_ask {A} (c : call A) : succeeds (W := W) (X := X) (ask c).
Proof. intros n s w r s' w'. unfold ask. destruct (w_do c w). intros [= <- _ _]. by eexists. Qed.
Lemma succeeds_for_each {A} (l : list A) (f : A → M W X ()) : (∀ a, succeeds (f a)) → succeeds (for_each l f).
Proof. intros Hf. induction l as [|a l IH]; [apply succeeds_ret|]. cbn [for_each]. apply succeeds_bind; auto. Qed.
Lemma succeeds_defer {A B} (c : M W X B) (m : M W X A) : succeeds m → succeeds (defer c m).
Proof.
  intros Hm n s w r s' w'. unfold defer. destruct (m n s w) as [[[r1 s1] w1]|] eqn:E; [|done].
  destruct (c n s1 w1) as [[[r2 s2] w2]|]; [|done]. intros [= <- _ _]. by eapply Hm.
Qed.
End succeeds.

Ltac succeeds_step :=
  lazymatch goal with
  | |- succeeds (mret _) => apply succeeds_ret
  | |- succeeds (mbind _ _) => apply succeeds_bind
  | |- succeeds (try _) => apply succeeds_try
  | |- succeeds get => apply succeeds_get
  | |- succeeds (modify _) => apply succeeds_modify
  | |- succeeds (ask _) => apply succeeds_ask
  | |- succeeds (for_each _ _) => apply succeeds_for_each
  | |- succeeds (defer _ _) => apply succeeds_defer
  | |- succeeds (match ?x with _ => _ end) => destruct x
  | |- succeeds _ => solve [auto]
  end.
Ltac succeeds_tac := repeat (intros; succeeds_step).

(** ** Pre- and postconditions *)

(** From a state of [P] the program ends in one of [Q], or of [E] with an error. *)
Definition sends {W X A} (P : rt X → Prop) (m : M W X A) (Q : A → rt X → Prop) (E : rt X → Prop) : Prop :=
  ∀ n s w r s' w', P s → m n s w = Some (r, s', w') → match r with Ok a => Q a s' | Err _ => E s' end.

Section sends.
Context {W X : Type}.
Implicit Types (P E : rt X → Prop).

Lemma sends_frame {A} P (m : M W X A) :
  frame (λ s s', P s → P s') m → sends P m (λ _, P) P.
Proof. intros Hm n s w r s' w' HP Hs. specialize (Hm _ _ _ _ _ _ Hs HP). by destruct r. Qed.

Lemma sends_weaken {A} P P' (m : M W X A) Q Q' E E' :
  (∀ s, P' s → P s) → (∀ a s, Q a s → Q' a s) → (∀ s, E s → E' s) → sends P m Q E → sends P' m Q' E'.
Proof.
  intros HP HQ HE Hm n s w r s' w' Hs Hr. specialize (Hm _ _ _ _ _ _ (HP _ Hs) Hr). destruct r; auto.
Qed.

Lemma sends_bind {A B} P (m : M W X A) Q (k : A → M W X B) Q' E :
  sends P m Q E → (∀ a, sends (Q a) (k a) Q' E) → sends P (m ≫= k) Q' E.
Proof.
  intros Hm Hk n s w r s' w' HP. unfold mbind, M_bind.
  destruct (m n s w) as [[[[a|e] s1] w1]|] eqn:Em; [| |done]; apply (Hm _ _ _ _ _ _ HP) in Em; simpl in Em.
  - by apply Hk.
  - by intros [= <- <- <-].
Qed.

Lemma sends_ret {A} (a : A) P E : sends (W := W) P (mret a) (λ _, P) E.
Proof. by intros n s w r s' w' HP [= <- <- <-]. Qed.

Lemma sends_fail {A} e P E (Q : A → rt X → Prop) : (∀ s, P s → E s) → sends (W := W) P (fail e) Q E.
Proof. intros HE n s w r s' w' HP [= <- <- <-]. by apply HE. Qed.

Lemma sends_try {A} P (m : M W X A) Q E E' :
  sends P m Q E → sends P (try m) (λ r, match r with Ok a => Q a | Err _ => E end) E'.
Proof.
  intros Hm n s w r s' w' HP. unfold try. destruct (m n s w) as [[[r1 s1] w1]|] eqn:Em; [|done].
  intros [= <- <- <-]. apply (Hm _ _ _ _ _ _ HP) in Em. by destruct r1.
Qed.

Lemma sends_modify (f : X → X) P (Q : rt X → Prop) E :
  (∀ s, P s → Q (mkRt (rt_sessions s) (f (rt_state s)))) → sends (W := W) P (modify f) (λ _, Q) E.
Proof. intros Hf n s w r s' w' HP [= <- <- _]. by apply Hf. Qed.

Lemma sends_defer {A B} P (c : M W X B) (m : M W X A) P' (Q : rt X → Prop) :
  sends P m (λ _, P') P' → sends P' c (λ _, Q) Q → sends P (defer c m) (λ _, Q) Q.
Proof.
  intros Hm Hc n s w r s' w' HP. unfold defer. destruct (m n s w) as [[[r1 s1] w1]|] eqn:Em; [|done].
  assert (P' s1) as HP' by (apply (Hm _ _ _ _ _ _ HP) in Em; by destruct r1).
  destruct (c n s1 w1) as [[[r2 s2] w2]|] eqn:Ec; [|done]. intros [= <- <- <-].
  apply (Hc _ _ _ _ _ _ HP') in Ec. by destruct r1, r2.
Qed.
End sends.

(** ** Relations of the usual frames *)

(** [P] is kept. *)
#[export] Instance keeps_pre {S} (P : S → Prop) : PreOrder (λ s s', P s → P s').
Proof. split; [intros s; auto|intros s1 s2 s3; auto]. Qed.
#[export] Hint Resolve keeps_pre : frames.

(** Loops and waits: what every turn that goes on keeps, and what the last one leaves. *)
Section sends_loops.
Context {W X : Type}.
Implicit Types (P E : rt X → Prop).

Lemma sends_loop P (body : M W X bool) (Q E : rt X → Prop) :
  sends P body (λ b s, if b : bool then Q s else P s) E → sends P (loop body) (λ _, Q) E.
Proof.
  intros Hb n. unfold loop, with_fuel. generalize n at 1. intros k. revert n.
  induction k as [|k IH]; intros n s w r s' w' HP Hr; [done|]. cbn [loop_turns] in Hr.
  unfold mbind, M_bind in Hr. destruct (body n s w) as [[[[[]|e] s1] w1]|] eqn:Eb; [| | |done];
    apply (Hb _ _ _ _ _ _ HP) in Eb; cbn in Eb.
  - by injection Hr as <- <- <-.
  - by eapply (IH n).
  - by injection Hr as <- <- <-.
Qed.

Context `{World W}.

Lemma sends_ask {A} (c : call A) P E : sends (W := W) P (ask c) (λ _, P) E.
Proof. intros n s w r s' w' HP. unfold ask. destruct (w_do c w). by intros [= <- <- <-]. Qed.

Lemma sends_lift {A} (x : res A) P (Q : A → rt X → Prop) E :
  (∀ s, P s → match x with Ok a => Q a s | Err _ => E s end) → sends (W := W) P (lift x) Q E.
Proof. intros HQ n s w r s' w' HP Hr. injection Hr as Hx <- _. rewrite <-Hx. by apply HQ. Qed.

Lemma sends_with_timeout {A} d P (m : M W X A) Q E : sends P m Q E → sends P (with_timeout d m) Q E.
Proof.
  intros Hm. unfold with_timeout. eapply sends_bind; [apply sends_ask|intros ?].
  eapply sends_bind; [by eapply sends_try|]. intros r. eapply sends_bind; [apply sends_ask|]. intros ?.
  apply sends_lift. by destruct r.
Qed.

Lemma sends_wrap {A} p P (m : M W X A) Q E : sends P m Q E → sends P (wrap_err p m) Q E.
Proof.
  intros Hm n s w r s' w' HP. unfold wrap_err. destruct (m n s w) as [[[[a|e] s1] w1]|] eqn:Em; [| |done];
    apply (Hm _ _ _ _ _ _ HP) in Em; by intros [= <- <- <-].
Qed.

Lemma sends_waitUntil P t i d (check : M W X bool) (Q : rt X → Prop) :
  sends P check (λ b s, if b : bool then Q s else P s) P → sends P (waitUntil t i d check) (λ _, Q) P.
Proof.
  intros Hc. unfold waitUntil. eapply sends_bind; [apply sends_ask|intros now]. apply sends_loop. unfold wait_turn.
  eapply sends_bind; [apply sends_ask|intros e]. eapply sends_bind; [apply sends_frame; unfold not_cancelled; frame_tac|intros ?].
  eapply sends_bind; [apply sends_frame; unfold time_left; frame_tac|intros r].
  eapply sends_bind; [by apply sends_wrap, sends_with_timeout|].
  intros []; [intros n s w x s' w' HP Hr; by injection Hr as <- <- _|].
  apply (sends_weaken P P _ (λ b s, P s ∧ b = false) _ P P); [done|by intros [] s [? ?]|done|].
  eapply sends_bind; [apply sends_frame; unfold time_left; frame_tac|intros r2].
  eapply sends_bind; [apply sends_ask|intros e2].
  eapply sends_bind; [apply sends_frame; unfold not_cancelled; frame_tac|intros ?].
  intros n s w x s' w' HP Hr. by injection Hr as <- <- _.
Qed.

(** A variable of the function: what a program does with it, read off the result. *)
Lemma yields_with_local {L A} (l : L) (m : M W (X * L) A) (Q : A → L → Prop) :
  sends (λ _, True) m (λ a s, Q a (snd (rt_state s))) (λ _, True) →
  yields (with_local l m) (λ o, match o.1 with Ok a => Q a o.2 | Err _ => True end).
Proof.
  intros Hm n s w o s' w'. unfold with_local. destruct (m n _ w) as [[[r1 s1] w1]|] eqn:E; [|done].
  intros [= <- <- <-]. apply (Hm _ _ _ _ _ _ I) in E. by destruct r1.
Qed.
End sends_loops.
