(* ===== verification/CiWaitProps.v ===== *)
(** * internal/cirunner: what the end of a wait means

    Every readiness check of a run goes through [waitUntil]: its three ways to end. *)

From stdpp Require Import base list strings.
From Stdlib Require Import ZArith Lia Ascii.
From S2P Require Import Prelude GoText GoStrconv PromClient CiVerify CiConfig CiWorld CiLogic.

Local Open Scope string_scope.

Section waits.
Context {W : Type} `{World W} {X : Type}.

(** A loop ends with the turn that stopped or failed. *)
Lemma loop_last (body : M W X bool) n s w r s' w' :
  loop body n s w = Some (r, s', w') →
  ∃ s0 w0 r0, body n s0 w0 = Some (r0, s', w') ∧ (r0 = Ok true ∧ r = Ok () ∨ ∃ e, r0 = Err e ∧ r = Err e).
Proof.
  unfold loop, with_fuel. generalize n at 1. intros k. revert s w.
  induction k as [|k IH]; intros s w Hr; [done|]. cbn [loop_turns] in Hr. unfold mbind, M_bind in Hr.
  destruct (body n s w) as [[[[[]|e] s1] w1]|] eqn:Eb; [|by apply IH in Hr| |done].
  - injection Hr as <- <- <-. exists s, w, (Ok true). split; [done|by left].
  - injection Hr as <- <- <-. exists s, w, (Err e). split; [done|]. right. by exists e.
Qed.

Lemma bind_cases {A B} (m : M W X A) (k : A → M W X B) n s w r s' w' :
  (m ≫= k) n s w = Some (r, s', w') →
  (∃ e, m n s w = Some (Err e, s', w') ∧ r = Err e) ∨
  ∃ a s1 w1, m n s w = Some (Ok a, s1, w1) ∧ k a n s1 w1 = Some (r, s', w').
Proof.
  unfold mbind, M_bind. destruct (m n s w) as [[[[a|e] s1] w1]|]; [| |done].
  - intros Hr. right. by exists a, s1, w1.
  - intros [= <- <- <-]. left. by exists e.
Qed.

Lemma ask_cases {A} (c : call A) n (s : rt X) w r s' w' :
  ask c n s w = Some (r, s', w') → s' = s ∧ ∃ a, r = Ok a ∧ w_do c w = (a, w').
Proof. unfold ask. destruct (w_do c w) as [a w1]. intros [= <- <- <-]. by eauto. Qed.

Lemma time_left_cases deadline timeout d n (s : rt X) w r s' w' :
  time_left deadline timeout d n s w = Some (r, s', w') →
  s' = s ∧ ((∃ left, r = Ok left) ∨ r = Err (timed_out d timeout) ∧ (deadline <= w_clock w')%Z).
Proof.
  unfold time_left. intros [(e & Ha & ->)|(now & s1 & w1 & Ha & Hk)]%bind_cases;
    apply ask_cases in Ha as (-> & a & Hx & Hdo); [done|]. injection Hx as <-.
  pose proof (w_now w) as Hn. rewrite Hdo in Hn. cbn in Hn, Hk. revert Hk.
  destruct (Z.leb_spec (t_sub deadline now) 0) as [Hle|]; intros [= <- <- <-]; (split; [done|]); [right|left; by eexists].
  split; [done|]. unfold t_sub, int64_min, int64_max in Hle. lia.
Qed.

Lemma not_cancelled_cases d e n (s : rt X) (w : W) r s' w' :
  not_cancelled d e n s w = Some (r, s', w') → s' = s ∧ (r = Ok () ∨ ∃ ctx, r = Err (cancelled d ctx)).
Proof. destruct e as [ctx|]; intros [= <- <- <-]; (split; [done|]); [right; by exists ctx|by left]. Qed.

(** An attempt: what the check answered under its own deadline. *)
Lemma with_timeout_cases {A} d (m : M W X A) n s w r s' w' :
  with_timeout d m n s w = Some (r, s', w') → ∃ w0 w1, m n s w0 = Some (r, s', w1).
Proof.
  unfold with_timeout. intros [(e & Ha & ->)|(u & s1 & w1 & Ha & Hk)]%bind_cases; apply ask_cases in Ha as (-> & a & Hx & _); [done|].
  unfold try, mbind, M_bind in Hk. destruct (m n s w1) as [[[r1 s2] w2]|] eqn:Em; [|done].
  unfold ask, lift in Hk. destruct (w_do Cancel w2). injection Hk as <- <- _. by eauto.
Qed.

Lemma wrap_cases {A} p (m : M W X A) n s w r s' w' :
  wrap_err p m n s w = Some (r, s', w') →
  ∃ r0, m n s w = Some (r0, s', w') ∧ r = match r0 with Ok a => Ok a | Err e => Err (wrap_error p e) end.
Proof.
  unfold wrap_err. destruct (m n s w) as [[[[a|e] s1] w1]|] eqn:E; [| |done]; intros [= <- <- <-]; by eauto.
Qed.

(** How a turn of the wait ends when it is the last. *)
Lemma wait_turn_last deadline timeout interval per d (check : M W X bool) n s w r s' w' :
  wait_turn deadline timeout interval per d check n s w = Some (r, s', w') →
  match r with
  | Ok true => ∃ s0 w0 w1, check n s0 w0 = Some (Ok true, s', w1)
  | Ok false => True
  | Err e =>
      (∃ ctx, e = cancelled d ctx) ∨
      e = timed_out d timeout ∧ (deadline <= w_clock w')%Z ∨
      ∃ e0 s0 w0 w1, check n s0 w0 = Some (Err e0, s', w1) ∧ e = wrap_error (d +:+ ": ") e0
  end.
Proof.
  unfold wait_turn. intros [(e & Ha & ->)|(c1 & s1 & w1 & _ & H1)]%bind_cases; [by apply ask_cases in Ha as (_ & ? & ? & _)|].
  apply bind_cases in H1 as [(e & Hc & ->)|([] & s2 & w2 & _ & H2)].
  { apply not_cancelled_cases in Hc as (_ & [?|[ctx Hc]]); [done|]. injection Hc as ->. left. by exists ctx. }
  apply bind_cases in H2 as [(e & Hl & ->)|(left & s3 & w3 & _ & H3)].
  { apply time_left_cases in Hl as (_ & [[? ?]|[Hx Hd]]); [done|]. injection Hx as ->. right; left. done. }
  cbv zeta in H3. apply bind_cases in H3 as [(e & Hk & ->)|(ok & s4 & w4 & Hk & H4)];
    apply wrap_cases in Hk as (r0 & Hk & Hx); apply with_timeout_cases in Hk as (w0 & w5 & Hk); destruct r0 as [b|e0]; try done.
  { injection Hx as ->. right; right. by eauto 10. }
  injection Hx as ->. destruct b; [injection H4 as <- <- <-; by eauto|].
  apply bind_cases in H4 as [(e & Hl & ->)|(left2 & s6 & w6 & _ & H5)].
  { apply time_left_cases in Hl as (_ & [[? ?]|[Hx Hd]]); [done|]. injection Hx as ->. right; left. done. }
  cbv zeta in H5. apply bind_cases in H5 as [(e & Ha & ->)|(c2 & s7 & w7 & _ & H6)]; [by apply ask_cases in Ha as (_ & ? & ? & _)|].
  apply bind_cases in H6 as [(e & Hc & ->)|([] & s8 & w8 & _ & H7)]; [|by injection H7 as <- _ _].
  apply not_cancelled_cases in Hc as (_ & [?|[ctx Hc]]); [done|]. injection Hc as ->. left. by exists ctx.
Qed.

(** C25. The three ends of a wait.  When [waitUntil] returns without an error, the last
    attempt of its condition answered true and the state is the one it left; it reports
    a timeout only when the whole timeout (one second if none is set) has really passed
    since it began; every other error is the caller's cancelled context or an error of
    the condition itself, with the description of the wait in front. *)
Theorem wait_until_ends_truthfully timeout interval d (check : M W X bool) n s w r s' w' :
  waitUntil timeout interval d check n s w = Some (r, s', w') →
  match r with
  | Ok _ => ∃ s0 w0 w1, check n s0 w0 = Some (Ok true, s', w1)
  | Err e =>
      (∃ ctx, e = cancelled d ctx) ∨
      e = timed_out d (or_second timeout) ∧ (w_clock w + or_second timeout <= w_clock w')%Z ∨
      ∃ e0 s0 w0 w1, check n s0 w0 = Some (Err e0, s', w1) ∧ e = wrap_error (d +:+ ": ") e0
  end.
Proof.
  unfold waitUntil. cbv zeta. intros [(e & Ha & ->)|(now & s1 & w1 & Ha & Hl)]%bind_cases;
    apply ask_cases in Ha as (-> & a & Hx & Hdo); [done|]. injection Hx as <-.
  pose proof (w_now w) as Hn. rewrite Hdo in Hn. cbn in Hn.
  apply loop_last in Hl as (s0 & w0 & r0 & Hb & Hr). apply wait_turn_last in Hb.
  destruct Hr as [[-> ->]|(e & -> & ->)]; [done|].
  destruct Hb as [?|[[-> Hd]|?]]; [by left| |by right; right]. right; left. split; [done|]. unfold t_add in Hd. lia.
Qed.
End waits.
