(* ===== verification/CiWaits.v ===== *)
(** * internal/cirunner: waiting for the cluster

    waits.go and [EnsureNamespace] of kube.go: what counts as rolled out, ready,
    bound, scheduled and reconciled, and the polls until it is so. *)

From stdpp Require Import base list strings gmap.
From Stdlib Require Import ZArith Lia Ascii.
From S2P Require Import Prelude GoFloat GoText GoStd GoStrconv ApiTypes PromClient CiVerify CiConfig CiWorld CiLogic.

Local Open Scope string_scope.

(** ** What the status of an object says *)

(* go: internal/cirunner/waits.go isCRDEstablished *)
Definition isCRDEstablished (conditions : list StatusFlag) : bool :=
  existsb (λ c, (fl_Type c =? "Established") && fl_True c) conditions.

(** Desired, updated, ready, available and unavailable replicas. *)
(* go: internal/cirunner/waits.go deploymentRolloutStatus *)
Definition deploymentRolloutStatus (dep : Deployment) : Z * Z * Z * Z * Z :=
  (default 1%Z (dep_Replicas dep), dep_UpdatedReplicas dep, dep_ReadyReplicas dep,
   dep_AvailableReplicas dep, dep_UnavailableReplicas dep).

(* go: internal/cirunner/waits.go:64-71 waitForDeploymentRollout *)
Definition deployment_rolled_out (dep : Deployment) : bool :=
  let '(desired, updated, ready, available, unavailable) := deploymentRolloutStatus dep in
  if (desired <=? 0)%Z then false
  else if (dep_ObservedGeneration dep <? dep_Generation dep)%Z then false
  else ((desired <=? updated) && (desired <=? ready) && (desired <=? available) && (unavailable =? 0))%Z.

(* go: internal/cirunner/waits.go statefulSetRolloutReady *)
Definition statefulSetRolloutReady (sts : StatefulSet) : bool * string :=
  let desired := default 1%Z (sts_Replicas sts) in
  let ready := itoa (sts_ReadyReplicas sts) in
  let updated := itoa (sts_UpdatedReplicas sts) in
  let of_desired := "/" +:+ itoa desired in
  let revisions := " currentRevision=" +:+ sts_CurrentRevision sts +:+ " updateRevision=" +:+ sts_UpdateRevision sts in
  let counts := "ready=" +:+ ready +:+ of_desired +:+ " updated=" +:+ updated
                  +:+ " currentReplicas=" +:+ itoa (sts_CurrentReplicas sts) +:+ revisions in
  if (desired <=? 0)%Z then (false, "desired replicas <= 0")
  else if (sts_ObservedGeneration sts <? sts_Generation sts)%Z then
    (false, "observedGeneration=" +:+ itoa (sts_ObservedGeneration sts) +:+ " generation=" +:+ itoa (sts_Generation sts)
              +:+ " ready=" +:+ ready +:+ " updated=" +:+ updated)
  else if (sts_ReadyReplicas sts <? desired)%Z then (false, counts)
  else if sts_OnDelete sts then (true, "ready=" +:+ ready +:+ of_desired +:+ " strategy=OnDelete" +:+ revisions)
  else if negb (sts_CurrentRevision sts =? "") && negb (sts_UpdateRevision sts =? "")
          && negb (sts_CurrentRevision sts =? sts_UpdateRevision sts) then
    (false, "revision mismatch current=" +:+ sts_CurrentRevision sts +:+ " update=" +:+ sts_UpdateRevision sts
              +:+ " ready=" +:+ ready +:+ of_desired +:+ " updated=" +:+ updated)
  else if (0 <? sts_UpdatedReplicas sts)%Z && (sts_UpdatedReplicas sts <? desired)%Z then
    (false, "updated=" +:+ updated +:+ of_desired +:+ " ready=" +:+ ready +:+ revisions)
  else (true, counts).

(** The labels are read in any order. *)
(* go: internal/cirunner/waits.go daemonSetLooksLikeFlannel *)
Definition daemonSetLooksLikeFlannel (ds : DaemonSet) : bool :=
  contains (ds_Name ds) "flannel"
  || existsb (λ kv : string * string, contains kv.1 "flannel" || contains kv.2 "flannel") (map_to_list (ds_Labels ds)).

(* go: internal/cirunner/waits.go:107-112 waitForKubeSystemBootstrap *)
Definition node_ready (conditions : list StatusFlag) : bool :=
  existsb (λ c, (fl_Type c =? "Ready") && fl_True c) conditions.

(** A flannel daemon set holds the bootstrap up. *)
(* go: internal/cirunner/waits.go:135-143 waitForKubeSystemBootstrap *)
Definition flannel_pending (ds : DaemonSet) : bool :=
  daemonSetLooksLikeFlannel ds
  && ((ds_ObservedGeneration ds <? ds_Generation ds)
      || ((0 <? ds_DesiredNumberScheduled ds) && (ds_NumberReady ds <? ds_DesiredNumberScheduled ds)))%Z.

(* go: internal/cirunner/waits.go:237-245 waitForPodsScheduled *)
Definition pod_scheduled (pod : RunPod) : bool :=
  negb (rp_NodeName pod =? "") || existsb (λ c, (fl_Type c =? "PodScheduled") && fl_True c) (rp_Conditions pod).

(** ** Waits *)

Section waits.
Context {W : Type} `{World W} {X : Type}.

(** A check on an object the API server is asked for: an error means not yet. *)
Definition when {A} (c : call (res A)) (f : A → bool) : M W X bool :=
  r ← ask c; mret (match r with Ok a => f a | Err _ => false end).

(* go: internal/cirunner/waits.go waitForCRDsEstablished *)
Definition waitForCRDsEstablished (names : list string) (timeout interval : duration) : M W X () :=
  for_each names (λ name,
    waitUntil timeout interval ("CRD " +:+ name +:+ " established") (when (GetCRD name) isCRDEstablished)).

(* go: internal/cirunner/waits.go waitForDeploymentRollout *)
Definition waitForDeploymentRollout (namespace name : string) (timeout interval : duration) : M W X () :=
  waitUntil timeout interval ("deployment/" +:+ name +:+ " rollout")
    (when (GetDeployment namespace name) deployment_rolled_out).

(** The variable is [lastStatus]. *)
(* go: internal/cirunner/waits.go waitForStatefulSetRollout *)
Definition waitForStatefulSetRollout (namespace name : string) (timeout interval : duration) : M W X () :=
  out ← with_local "" (waitUntil timeout interval ("statefulset/" +:+ name +:+ " rollout") (
    r ← ask (GetStatefulSet namespace name);
    match r with
    | Err e => set_local ("get failed: " +:+ err_msg e) ;; mret false
    | Ok sts => let '(ready, status) := statefulSetRolloutReady sts in set_local status ;; mret ready
    end));
  let '(r, lastStatus) := out : res () * string in
  match r with
  | Ok _ => mret ()
  | Err e =>
      if negb (trim_space lastStatus =? "") then
        fail (mkError (err_msg e +:+ " (last status: " +:+ lastStatus +:+ ")") (err_notfound e) (err_timeout e))
      else fail e
  end.

(* go: internal/cirunner/waits.go:98-146 waitForKubeSystemBootstrap *)
Definition kube_system_ready : M W X bool :=
  nodes ← ask ListNodes;
  match nodes with
  | Err _ => mret false
  | Ok nodes =>
      if (length nodes =? 0)%nat then mret false
      else if negb (length (List.filter node_ready nodes) =? length nodes)%nat then mret false
      else
        coredns ← ask (GetDeployment "kube-system" "coredns");
        match coredns with
        | Err _ => mret false
        | Ok dep =>
            if negb (deployment_rolled_out dep) then mret false
            else
              daemonSets ← ask (ListDaemonSets "kube-system");
              mret (match daemonSets with
                    | Err _ => false
                    | Ok l => negb (existsb flannel_pending l)
                    end)
        end
  end.

(* go: internal/cirunner/waits.go waitForKubeSystemBootstrap *)
Definition waitForKubeSystemBootstrap (timeout interval : duration) : M W X () :=
  waitUntil timeout interval "kube-system bootstrap readiness" kube_system_ready.

(* go: internal/cirunner/waits.go waitForPodsScheduled *)
Definition waitForPodsScheduled (namespace : string) (podNames : list string) (timeout interval : duration) : M W X () :=
  for_each podNames (λ name,
    waitUntil timeout interval ("pod/" +:+ name +:+ " scheduled") (when (GetPod namespace name) pod_scheduled)).

(* go: internal/cirunner/waits.go waitForPVCsBound *)
Definition waitForPVCsBound (namespace : string) (pvcNames : list string) (timeout interval : duration) : M W X () :=
  for_each pvcNames (λ name,
    waitUntil timeout interval ("pvc/" +:+ name +:+ " bound")
      (when (GetClaim namespace name) (λ pvc, cl_Phase pvc =? "Bound"))).

Definition status_text (s : ConditionStatus) : string :=
  match s with ConditionTrue => "True" | ConditionFalse => "False" | ConditionUnknown => "Unknown" end.

(* go: internal/cirunner/waits.go:284-292 waitForCapacityPlanReconcile *)
Definition unreconciled_text (cp : CapacityPlan) : string :=
  let st := cp_Status cp in
  let conds := join "," (map (λ c, cd_Type c +:+ "=" +:+ status_text (cd_Status c) +:+ "(" +:+ cd_Reason c +:+ ")")
                           (st_Conditions st)) in
  "generation=" +:+ itoa (cp_Generation cp) +:+ " observedGeneration=" +:+ itoa (st_ObservedGeneration st)
    +:+ " lastReconcile=nil conditions=[" +:+ (if conds =? "" then "none" else conds) +:+ "]".

(** The variables are [last] and [lastObserved]. *)
(* go: internal/cirunner/waits.go waitForCapacityPlanReconcile *)
Definition waitForCapacityPlanReconcile (planName : string) (timeout interval : duration) : M W X (option time) :=
  out ← with_local (None, "not observed") (waitUntil timeout interval
    ("capacityplan/" +:+ planName +:+ " first reconcile") (
    r ← ask (GetPlan planName);
    match r with
    | Err e =>
        set_local (None, if err_notfound e then "capacity plan not found" else "get failed: " +:+ err_msg e) ;; mret false
    | Ok (cp, _) =>
        match st_LastReconcileTime (cp_Status cp) with
        | None => set_local (None, unreconciled_text cp) ;; mret false
        | Some t => set_local (Some t, "lastReconcile=" +:+ format_rfc3339 t) ;; mret true
        end
    end));
  let '(r, (last, lastObserved)) := out : res () * (option time * string) in
  match r with
  | Ok _ => mret last
  | Err e =>
      fail (mkError (err_msg e +:+ " (last observed: " +:+ lastObserved +:+ ")") (err_notfound e) (err_timeout e))
  end.

(* go: internal/cirunner/waits.go getCapacityPlan *)
Definition getCapacityPlan (planName : string) : M W X CapacityPlan :=
  p ← ask_res (GetPlan planName); mret p.1.

Definition label_selector (k v : string) : string := k +:+ "=" +:+ v.

(* go: internal/cirunner/waits.go getDeploymentByLabel *)
Definition getDeploymentByLabel (namespace k v : string) : M W X Deployment :=
  let ls := label_selector k v in
  l ← ask_res (ListDeployments namespace ls);
  match l with
  | [] => fail (errorf ("no deployment found in " +:+ namespace +:+ " with selector " +:+ ls))
  | dep :: _ => mret dep
  end.

(* go: internal/cirunner/waits.go getFirstPodByLabel *)
Definition getFirstPodByLabel (namespace k v : string) : M W X RunPod :=
  let ls := label_selector k v in
  l ← ask_res (ListPods namespace ls);
  match l with
  | [] => fail (errorf ("no pod found in " +:+ namespace +:+ " with selector " +:+ ls))
  | pod :: _ => mret pod
  end.

(* go: internal/cirunner/kube.go Clients.EnsureNamespace *)
Definition EnsureNamespace `{RetryLib} (namespace : string) : M W X () :=
  let namespace := trim_space namespace in
  if namespace =? "" then mret ()
  else
    e ← ask (GetNamespace namespace);
    match e with
    | None => mret ()
    | Some _ =>
        retry_on (λ _, true) backoff_retries 0 (
          createErr ← ask (CreateNamespace namespace);
          match createErr with
          | Some e => if contains (err_msg e) "already exists" then mret () else fail e
          | None => mret ()
          end)
    end.
End waits.

(** ** Every wait returns *)

Section runs.
Context {W : Type} `{World W} {X : Type}.

Lemma runs_when {A} (c : call (res A)) (f : A → bool) :
  plain c = true → Runs (X := X) (W := W) (when c f).
Proof. intros. unfold when. runs_tac. Qed.
#[local] Hint Resolve runs_when : runs.

Lemma runs_waitForCRDsEstablished l t i : Runs (X := X) (W := W) (waitForCRDsEstablished l t i).
Proof. unfold waitForCRDsEstablished. runs_tac. Qed.
#[local] Hint Resolve runs_waitForCRDsEstablished : runs.

Lemma runs_waitForDeploymentRollout ns n t i : Runs (X := X) (W := W) (waitForDeploymentRollout ns n t i).
Proof. unfold waitForDeploymentRollout. runs_tac. Qed.
#[local] Hint Resolve runs_waitForDeploymentRollout : runs.

Lemma runs_waitForStatefulSetRollout ns n t i : Runs (X := X) (W := W) (waitForStatefulSetRollout ns n t i).
Proof. unfold waitForStatefulSetRollout. runs_tac.  Qed.
#[local] Hint Resolve runs_waitForStatefulSetRollout : runs.

Lemma runs_waitForKubeSystemBootstrap t i : Runs (X := X) (W := W) (waitForKubeSystemBootstrap t i).
Proof. unfold waitForKubeSystemBootstrap. unfold kube_system_ready. runs_tac. Qed.
#[local] Hint Resolve runs_waitForKubeSystemBootstrap : runs.

Lemma runs_waitForPodsScheduled ns l t i : Runs (X := X) (W := W) (waitForPodsScheduled ns l t i).
Proof. unfold waitForPodsScheduled. runs_tac. Qed.
#[local] Hint Resolve runs_waitForPodsScheduled : runs.

Lemma runs_waitForPVCsBound ns l t i : Runs (X := X) (W := W) (waitForPVCsBound ns l t i).
Proof. unfold waitForPVCsBound. runs_tac. Qed.
#[local] Hint Resolve runs_waitForPVCsBound : runs.

Lemma runs_waitForCapacityPlanReconcile p t i : Runs (X := X) (W := W) (waitForCapacityPlanReconcile p t i).
Proof. unfold waitForCapacityPlanReconcile. runs_tac.  Qed.
#[local] Hint Resolve runs_waitForCapacityPlanReconcile : runs.

Lemma runs_getCapacityPlan p : Runs (X := X) (W := W) (getCapacityPlan p).
Proof. unfold getCapacityPlan. runs_tac. Qed.
#[local] Hint Resolve runs_getCapacityPlan : runs.

Lemma runs_getDeploymentByLabel ns k v : Runs (X := X) (W := W) (getDeploymentByLabel ns k v).
Proof. unfold getDeploymentByLabel. runs_tac. Qed.
#[local] Hint Resolve runs_getDeploymentByLabel : runs.

Lemma runs_getFirstPodByLabel ns k v : Runs (X := X) (W := W) (getFirstPodByLabel ns k v).
Proof. unfold getFirstPodByLabel. runs_tac. Qed.
#[local] Hint Resolve runs_getFirstPodByLabel : runs.

Lemma runs_EnsureNamespace `{RetryLib} ns : Runs (X := X) (W := W) (EnsureNamespace ns).
Proof. unfold EnsureNamespace. runs_tac. Qed.
#[local] Hint Resolve runs_EnsureNamespace : runs.
End runs.
#[export] Hint Resolve runs_when runs_waitForCRDsEstablished runs_waitForDeploymentRollout
  runs_waitForStatefulSetRollout runs_waitForKubeSystemBootstrap runs_waitForPodsScheduled runs_waitForPVCsBound
  runs_waitForCapacityPlanReconcile runs_getCapacityPlan runs_getDeploymentByLabel runs_getFirstPodByLabel
  runs_EnsureNamespace : runs.

(** They leave the runner's state alone. *)

Section frames.
Context {W : Type} `{World W} {X : Type} (R : rt X → rt X → Prop) `{!PreOrder R}.

Lemma frame_when {A} (c : call (res A)) (f : A → bool) :
  frame R (when c f).
Proof. intros. unfold when. frame_tac. Qed.
#[local] Hint Resolve frame_when : frames.

Lemma frame_waitForCRDsEstablished l t i : frame R (waitForCRDsEstablished l t i).
Proof. unfold waitForCRDsEstablished. frame_tac. Qed.
#[local] Hint Resolve frame_waitForCRDsEstablished : frames.

Lemma frame_waitForDeploymentRollout ns n t i : frame R (waitForDeploymentRollout ns n t i).
Proof. unfold waitForDeploymentRollout. frame_tac. Qed.
#[local] Hint Resolve frame_waitForDeploymentRollout : frames.

Lemma frame_waitForStatefulSetRollout ns n t i : frame R (waitForStatefulSetRollout ns n t i).
Proof. unfold waitForStatefulSetRollout. frame_tac. Qed.
#[local] Hint Resolve frame_waitForStatefulSetRollout : frames.

Lemma frame_waitForKubeSystemBootstrap t i : frame R (waitForKubeSystemBootstrap t i).
Proof. unfold waitForKubeSystemBootstrap. unfold kube_system_ready. frame_tac. Qed.
#[local] Hint Resolve frame_waitForKubeSystemBootstrap : frames.

Lemma frame_waitForPodsScheduled ns l t i : frame R (waitForPodsScheduled ns l t i).
Proof. unfold waitForPodsScheduled. frame_tac. Qed.
#[local] Hint Resolve frame_waitForPodsScheduled : frames.

Lemma frame_waitForPVCsBound ns l t i : frame R (waitForPVCsBound ns l t i).
Proof. unfold waitForPVCsBound. frame_tac. Qed.
#[local] Hint Resolve frame_waitForPVCsBound : frames.

Lemma frame_waitForCapacityPlanReconcile p t i : frame R (waitForCapacityPlanReconcile p t i).
Proof. unfold waitForCapacityPlanReconcile. frame_tac. Qed.
#[local] Hint Resolve frame_waitForCapacityPlanReconcile : frames.

Lemma frame_getCapacityPlan p : frame R (getCapacityPlan p).
Proof. unfold getCapacityPlan. frame_tac. Qed.
#[local] Hint Resolve frame_getCapacityPlan : frames.

Lemma frame_getDeploymentByLabel ns k v : frame R (getDeploymentByLabel ns k v).
Proof. unfold getDeploymentByLabel. frame_tac. Qed.
#[local] Hint Resolve frame_getDeploymentByLabel : frames.

Lemma frame_getFirstPodByLabel ns k v : frame R (getFirstPodByLabel ns k v).
Proof. unfold getFirstPodByLabel. frame_tac. Qed.
#[local] Hint Resolve frame_getFirstPodByLabel : frames.

Lemma frame_EnsureNamespace `{RetryLib} ns : frame R (EnsureNamespace ns).
Proof. unfold EnsureNamespace. frame_tac. Qed.
#[local] Hint Resolve frame_EnsureNamespace : frames.
End frames.
#[export] Hint Resolve frame_when frame_waitForCRDsEstablished frame_waitForDeploymentRollout
  frame_waitForStatefulSetRollout frame_waitForKubeSystemBootstrap frame_waitForPodsScheduled
  frame_waitForPVCsBound frame_waitForCapacityPlanReconcile frame_getCapacityPlan
  frame_getDeploymentByLabel frame_getFirstPodByLabel frame_EnsureNamespace : frames.
