(* ===== verification/CiManifests.v ===== *)
(** * internal/cirunner: applying manifests

    apply.go: the transforms that stand for kustomize, the create-or-update of one
    object, the lists of files, and the CapacityPlan of a run.  Decoding YAML and the
    typed views of an object ([manifest_view]) belong to the API libraries. *)

From stdpp Require Import base list strings gmap.
From Stdlib Require Import ZArith Lia Ascii.
From S2P Require Import Prelude GoFloat GoText GoStd GoStrconv ApiTypes PromClient CiVerify CiConfig CiWorld CiLogic CiWaits.

Local Open Scope string_scope.

(** The documents of a YAML stream in order, up to its end or an error: an object
    with its fields, or an empty mapping. *)
Class YamlLib := { yaml_documents : string → list (option Manifest) * option error }.

(* go: internal/cirunner/apply.go clusterScopedKinds *)
Definition clusterScopedKinds : list string :=
  ["Namespace"; "CustomResourceDefinition"; "ClusterRole"; "ClusterRoleBinding"; "StorageClass";
   "PersistentVolume"; "MutatingWebhookConfiguration"; "ValidatingWebhookConfiguration"].

Definition cluster_scoped (kind : string) : bool := existsb (String.eqb kind) clusterScopedKinds.

(** ** Transforms *)

(* go: internal/cirunner/apply.go applyNamePrefix *)
Definition applyNamePrefix (name prefix : string) : string :=
  if (prefix =? "") || (name =? "") || has_prefix name prefix then name else prefix +:+ name.

Definition with_name (m : Manifest) (name : string) : Manifest :=
  mkManifest (mf_Kind m) (mf_APIVersion m) name (mf_Namespace m) (mf_ResourceVersion m) (mf_View m).
Definition with_namespace (m : Manifest) (ns : string) : Manifest :=
  mkManifest (mf_Kind m) (mf_APIVersion m) (mf_Name m) ns (mf_ResourceVersion m) (mf_View m).
Definition with_view (m : Manifest) (v : manifest_view) : Manifest :=
  mkManifest (mf_Kind m) (mf_APIVersion m) (mf_Name m) (mf_Namespace m) (mf_ResourceVersion m) v.
Definition with_version (m : Manifest) (rv : string) : Manifest :=
  mkManifest (mf_Kind m) (mf_APIVersion m) (mf_Name m) (mf_Namespace m) rv (mf_View m).

(** The role and the service accounts of a binding. *)
(* go: internal/cirunner/apply.go:87-118 transformDefaultObject *)
Definition transform_binding (roleKind namespace namePrefix : string) (v : manifest_view) : manifest_view :=
  match v with
  | ViewBinding kind name subjects =>
      ViewBinding kind (if kind =? roleKind then applyNamePrefix name namePrefix else name)
        (map (λ s, if sj_Kind s =? "ServiceAccount"
                   then mkSubject (sj_Kind s) (applyNamePrefix (sj_Name s) namePrefix) namespace else s) subjects)
  | v => v
  end.

(* go: internal/cirunner/apply.go transformDefaultObject *)
Definition transformDefaultObject (namespace namePrefix : string) (obj : Manifest) : Manifest :=
  let kind := mf_Kind obj in
  let obj := if negb (kind =? "CustomResourceDefinition")
             then with_name obj (applyNamePrefix (mf_Name obj) namePrefix) else obj in
  let obj := if negb (cluster_scoped kind) then with_namespace obj namespace else obj in
  if kind =? "RoleBinding" then with_view obj (transform_binding "Role" namespace namePrefix (mf_View obj))
  else if kind =? "ClusterRoleBinding" then
    with_view obj (transform_binding "ClusterRole" namespace namePrefix (mf_View obj))
  else if kind =? "Deployment" then
    match mf_View obj with
    | ViewDeployment sa containers =>
        with_view obj (ViewDeployment (if sa =? "" then sa else applyNamePrefix sa namePrefix) containers)
    | _ => obj
    end
  else if kind =? "ServiceAccount" then
    match mf_View obj with ViewServiceAccount => with_namespace obj namespace | _ => obj end
  else obj.

(** The image of the receiver container, unless none is configured. *)
(* go: internal/cirunner/apply.go:247-267 ApplyAlertReceiverManifests *)
Definition receiver_transform (cfg : Config) (obj : Manifest) : Manifest :=
  if negb (mf_Kind obj =? "Deployment") then obj
  else
    let image := trim_space (AlertReceiverImage cfg) in
    if image =? "" then obj
    else match mf_View obj with
         | ViewDeployment sa containers =>
             with_view obj (ViewDeployment sa (map (λ c,
               if ct_Name c =? "receiver" then mkContainer (ct_Name c) image (ct_ImagePullPolicy c) (ct_Args c) else c)
               containers))
         | _ => obj
         end.

(* go: internal/cirunner/apply.go:315-327 ApplyLLMManifests *)
Definition llm_transform (cfg : Config) (obj : Manifest) : Manifest :=
  if mf_Kind obj =? "Namespace" then with_name obj (LLMNamespace cfg)
  else
    let obj := with_namespace obj (LLMNamespace cfg) in
    let obj := if (mf_Kind obj =? "Deployment") && negb (mf_Name obj =? "")
               then with_name obj (LLMDeploymentName cfg) else obj in
    if (mf_Kind obj =? "Service") && negb (mf_Name obj =? "") then with_name obj (LLMDeploymentName cfg) else obj.

(** ** The plan of a run *)

(* go: internal/cirunner/apply.go:332-357 ApplyCapacityPlan *)
Definition plan_llm (cfg : Config) : LLMProviderSpec :=
  let provider :=
    if LLMEnabled cfg then
      let p := trim_space (LLMProvider cfg) in if p =? "" then "ollama" else p
    else "disabled" in
  let on := negb (provider =? "disabled") in
  mkLLMProviderSpec provider
    (if on then trim_space (LLMModel cfg) else "")
    (if on && (0 <? LLMTimeoutSeconds cfg)%Z then seconds (LLMTimeoutSeconds cfg) else 0)
    (if on && (0 <? LLMMaxTokens cfg)%Z then LLMMaxTokens cfg else 0%Z)
    None
    (on && LLMOnlyAlertingPVCs cfg)
    (mkOpenAIProviderSpec "" "" "") (mkAnthropicProviderSpec "" "" "")
    (mkFastAPIProviderSpec "" "" "" false "" 0 0)
    (mkOllamaProviderSpec (if on && (provider =? "ollama") then trim_space (LLMOllamaURL cfg) else "")).

(* go: internal/cirunner/apply.go:359-391 ApplyCapacityPlan *)
Definition plan_spec (cfg : Config) : CapacityPlanSpec :=
  mkCapacityPlanSpec ["default"] (PlanSampleRetention cfg)
    (parseDurationOr (PlanReconcileInterval cfg) 15) (parseDurationOr (PlanSampleInterval cfg) 5)
    (PromURL cfg)
    (mkThresholdSpec "0.03" 14)
    (mkBudgetSpec [mkNamespaceBudgetSpec "default" "1600Mi"]
       (map (λ n, mkWorkloadBudgetSpec "default" "Pod" n "160Mi")
          ["cpo-ci-steady"; "cpo-ci-bursty"; "cpo-ci-trickle"; "cpo-ci-churn"; "cpo-ci-delayed"]))
    0 (plan_llm cfg) "".

(** ** Applying *)

Section apply.
Context {W : Type} `{World W} `{YamlLib} {X : Type}.

(** Documents without a kind or a version are skipped; an error after some of them
    gives none. *)
(* go: internal/cirunner/apply.go loadYAMLObjectsFromFile *)
Definition loadYAMLObjectsFromFile (path : string) : M W X (list Manifest) :=
  raw ← wrap_err ("reading " +:+ path +:+ ": ") (ask_res (ReadFile path));
  let '(docs, e) := yaml_documents raw in
  match e with
  | Some e => fail (wrap_error ("decoding " +:+ path +:+ ": ") e)
  | None => mret (List.filter (λ m, negb ((mf_Kind m =? "") || (mf_APIVersion m =? ""))) (omap id docs))
  end.

(** [gvk.String()]: the version of the core group has no slash, one with several does
    not parse. *)
Definition gvk_text (m : Manifest) : string :=
  let v := mf_APIVersion m in
  (match count v "/" with
   | O => "/" +:+ v
   | S O => v
   | _ => "/"
   end) +:+ ", Kind=" +:+ mf_Kind m.

(** The object's text for messages. *)
Definition kind_name (m : Manifest) : string := mf_Kind m +:+ "/" +:+ mf_Name m.

(* go: internal/cirunner/apply.go applyObject *)
Definition applyObject (obj : Manifest) : M W X () :=
  namespaced ← wrap_err ("mapping " +:+ gvk_text obj +:+ ": ") (ask_res (MapKind obj));
  let ns := if (namespaced : bool) then Some (mf_Namespace obj) else None in
  current ← ask (GetObject ns (mf_Kind obj) (mf_Name obj));
  match current with
  | Err e =>
      if negb (err_notfound e) then fail (wrap_error ("getting " +:+ kind_name obj +:+ ": ") e)
      else wrap_err ("creating " +:+ kind_name obj +:+ ": ") (ask_ok (CreateObject ns obj))
  | Ok rv => wrap_err ("updating " +:+ kind_name obj +:+ ": ") (ask_ok (UpdateObject ns (with_version obj rv)))
  end.

(* go: internal/cirunner/apply.go applyFiles *)
Definition applyFiles (paths : list string) (transform : Manifest → Manifest) : M W X () :=
  for_each paths (λ path,
    objs ← loadYAMLObjectsFromFile path;
    for_each objs (λ obj, wrap_err ("applying " +:+ path +:+ ": ") (applyObject (transform obj)))).

(* go: internal/cirunner/apply.go:202-205 ApplyOperatorManifests *)
Definition crd_files : list string :=
  [path_join ["config"; "crd"; "bases"; "capacityplanning.pbsladek.io_capacityplannotifications.yaml"];
   path_join ["config"; "crd"; "bases"; "capacityplanning.pbsladek.io_capacityplans.yaml"]].

(* go: internal/cirunner/apply.go:217-226 ApplyOperatorManifests *)
Definition operator_files : list string :=
  [path_join ["config"; "rbac"; "service_account.yaml"];
   path_join ["config"; "rbac"; "leader_election_role.yaml"];
   path_join ["config"; "rbac"; "role.yaml"];
   path_join ["config"; "rbac"; "leader_election_role_binding.yaml"];
   path_join ["config"; "rbac"; "role_binding.yaml"];
   path_join ["config"; "manager"; "manager.yaml"];
   path_join ["config"; "prometheus"; "metrics_service.yaml"];
   path_join ["config"; "prometheus"; "service_monitor.yaml"]].

(* go: internal/cirunner/apply.go ApplyOperatorManifests *)
Definition ApplyOperatorManifests `{RetryLib} : M W X () :=
  applyFiles crd_files id ;;
  wrap_err "ensuring namespace: " (EnsureNamespace "k8s-operator-system") ;;
  applyFiles operator_files (transformDefaultObject "k8s-operator-system" "k8s-operator-").

(* go: internal/cirunner/apply.go ApplyAlertReceiverManifests *)
Definition ApplyAlertReceiverManifests (manifestDir : string) (cfg : Config) : M W X () :=
  let receiverDir := path_join [manifestDir; "alert-receiver"] in
  applyFiles [path_join [receiverDir; "service.yaml"]; path_join [receiverDir; "deployment.yaml"]] (receiver_transform cfg).

(* go: internal/cirunner/apply.go ApplyWorkloadStorageManifestsFromDir *)
Definition ApplyWorkloadStorageManifestsFromDir (workloadsDir : string) : M W X () :=
  applyFiles (map (λ f, path_join [workloadsDir; f])
    ["pvc-steady.yaml"; "pvc-bursty.yaml"; "pvc-trickle.yaml"; "pvc-churn.yaml"; "pvc-delayed.yaml"]) id.

(* go: internal/cirunner/apply.go ApplyWorkloadPodManifestsFromDir *)
Definition ApplyWorkloadPodManifestsFromDir (workloadsDir : string) : M W X () :=
  applyFiles (map (λ f, path_join [workloadsDir; f])
    ["pod-steady.yaml"; "pod-bursty.yaml"; "pod-trickle.yaml"; "pod-churn.yaml"; "pod-delayed.yaml"]) id.

(* go: internal/cirunner/apply.go ApplyWorkloadManifests *)
Definition ApplyWorkloadManifests (manifestDir : string) : M W X () :=
  ApplyWorkloadStorageManifestsFromDir (path_join [manifestDir; "workloads"]) ;;
  ApplyWorkloadPodManifestsFromDir (path_join [manifestDir; "workloads"]).

(* go: internal/cirunner/apply.go ApplyLLMManifests *)
Definition ApplyLLMManifests (manifestDir : string) (cfg : Config) : M W X () :=
  if negb (LLMEnabled cfg) then mret ()
  else if negb (trim_space (LLMProvider cfg) =? "ollama") then mret ()
  else applyFiles [path_join [manifestDir; "llm"; "ollama.yaml"]] (llm_transform cfg).

(* go: internal/cirunner/apply.go ApplyCapacityPlan *)
Definition ApplyCapacityPlan `{CiEnv} (cfg : Config) : M W X () :=
  existing ← ask (GetPlan (PlanName cfg));
  match existing with
  | Ok (_, rv) => ask_ok (UpdatePlan (PlanName cfg) rv (plan_spec cfg))
  | Err e =>
      if err_notfound e then ask_ok (CreatePlan (PlanName cfg) (plan_spec cfg))
      else fail (wrap_error ("getting capacity plan " +:+ go_quote (PlanName cfg) +:+ ": ") e)
  end.

Lemma runs_loadYAML p : Runs (loadYAMLObjectsFromFile p).
Proof. unfold loadYAMLObjectsFromFile. runs_tac. Qed.
#[local] Hint Resolve runs_loadYAML : runs.
Lemma runs_applyObject m : Runs (applyObject m).
Proof. unfold applyObject. runs_tac. Qed.
#[local] Hint Resolve runs_applyObject : runs.
Lemma runs_applyFiles l f : Runs (applyFiles l f).
Proof. unfold applyFiles. runs_tac. Qed.
#[local] Hint Resolve runs_applyFiles : runs.
Lemma runs_ApplyOperatorManifests `{RetryLib} : Runs ApplyOperatorManifests.
Proof. unfold ApplyOperatorManifests. runs_tac. Qed.
#[local] Hint Resolve runs_ApplyOperatorManifests : runs.
Lemma runs_ApplyAlertReceiverManifests d c : Runs (ApplyAlertReceiverManifests d c).
Proof. unfold ApplyAlertReceiverManifests. runs_tac. Qed.
#[local] Hint Resolve runs_ApplyAlertReceiverManifests : runs.
Lemma runs_ApplyStorage d : Runs (ApplyWorkloadStorageManifestsFromDir d).
Proof. unfold ApplyWorkloadStorageManifestsFromDir. runs_tac. Qed.
#[local] Hint Resolve runs_ApplyStorage : runs.
Lemma runs_ApplyPods d : Runs (ApplyWorkloadPodManifestsFromDir d).
Proof. unfold ApplyWorkloadPodManifestsFromDir. runs_tac. Qed.
#[local] Hint Resolve runs_ApplyPods : runs.
Lemma runs_ApplyLLMManifests d c : Runs (ApplyLLMManifests d c).
Proof. unfold ApplyLLMManifests. runs_tac. Qed.
#[local] Hint Resolve runs_ApplyLLMManifests : runs.
Lemma runs_ApplyCapacityPlan `{CiEnv} c : Runs (ApplyCapacityPlan c).
Proof. unfold ApplyCapacityPlan. runs_tac. Qed.
#[local] Hint Resolve runs_ApplyCapacityPlan : runs.
End apply.
#[export] Hint Resolve runs_loadYAML runs_applyObject runs_applyFiles runs_ApplyOperatorManifests
  runs_ApplyAlertReceiverManifests runs_ApplyStorage runs_ApplyPods runs_ApplyLLMManifests
  runs_ApplyCapacityPlan : runs.

(** They leave the runner's state alone. *)

Section frames.
Context {W : Type} `{World W} `{YamlLib} {X : Type} (R : rt X → rt X → Prop) `{!PreOrder R}.

Lemma frame_loadYAML p : frame R (loadYAMLObjectsFromFile p).
Proof. unfold loadYAMLObjectsFromFile. frame_tac. Qed.
#[local] Hint Resolve frame_loadYAML : frames.

Lemma frame_applyObject m : frame R (applyObject m).
Proof. unfold applyObject. frame_tac. Qed.
#[local] Hint Resolve frame_applyObject : frames.

Lemma frame_applyFiles l f : frame R (applyFiles l f).
Proof. unfold applyFiles. frame_tac. Qed.
#[local] Hint Resolve frame_applyFiles : frames.

Lemma frame_ApplyOperatorManifests `{RetryLib} : frame R ApplyOperatorManifests.
Proof. unfold ApplyOperatorManifests. frame_tac. Qed.
#[local] Hint Resolve frame_ApplyOperatorManifests : frames.

Lemma frame_ApplyAlertReceiverManifests d c : frame R (ApplyAlertReceiverManifests d c).
Proof. unfold ApplyAlertReceiverManifests. frame_tac. Qed.
#[local] Hint Resolve frame_ApplyAlertReceiverManifests : frames.

Lemma frame_ApplyStorage d : frame R (ApplyWorkloadStorageManifestsFromDir d).
Proof. unfold ApplyWorkloadStorageManifestsFromDir. frame_tac. Qed.
#[local] Hint Resolve frame_ApplyStorage : frames.

Lemma frame_ApplyPods d : frame R (ApplyWorkloadPodManifestsFromDir d).
Proof. unfold ApplyWorkloadPodManifestsFromDir. frame_tac. Qed.
#[local] Hint Resolve frame_ApplyPods : frames.

Lemma frame_ApplyLLMManifests d c : frame R (ApplyLLMManifests d c).
Proof. unfold ApplyLLMManifests. frame_tac. Qed.
#[local] Hint Resolve frame_ApplyLLMManifests : frames.

Lemma frame_ApplyCapacityPlan `{CiEnv} c : frame R (ApplyCapacityPlan c).
Proof. unfold ApplyCapacityPlan. frame_tac. Qed.
#[local] Hint Resolve frame_ApplyCapacityPlan : frames.
End frames.
#[export] Hint Resolve frame_loadYAML frame_applyObject frame_applyFiles frame_ApplyOperatorManifests
  frame_ApplyAlertReceiverManifests frame_ApplyStorage frame_ApplyPods frame_ApplyLLMManifests
  frame_ApplyCapacityPlan : frames.
