(* ===== verification/CiImages.v ===== *)
(** * internal/cirunner: importing images into a k3d cluster

    import_image.go.  The patterns it builds are kept as their syntax, with a
    matcher for the constructs they use; [regexp.QuoteMeta] makes its argument a
    literal. *)

From stdpp Require Import base list strings gmap.
From Stdlib Require Import ZArith Lia Ascii.
From S2P Require Import Prelude GoFloat GoSort GoText GoStd GoStrconv ApiTypes PromClient CiVerify CiConfig CiWorld CiLogic.

Local Open Scope string_scope.

(** ** Patterns *)

(** [(a|b)], [(...)?] as [Either _ (Lit "")], and a class repeated: [.*], [[0-9]+]. *)
Inductive pattern :=
| Begin
| End_
| Lit (s : string)
| One (class : ascii → bool)
| Many (class : ascii → bool) (one : bool)
| Cat (a b : pattern)
| Either (a b : pattern).

Fixpoint cats (l : list pattern) : pattern := match l with [] => Lit "" | [p] => p | p :: l => Cat p (cats l) end.

(** What is left after each way to read characters of the class. *)
Fixpoint rests (class : ascii → bool) (s : string) : list string :=
  s :: match s with String c t => if class c then rests class t else [] | "" => [] end.

(** What is left of a text after each way to match; the flag tells whether nothing
    was read before it. *)
Fixpoint match_rests (p : pattern) (begin : bool) (s : string) : list (bool * string) :=
  match p with
  | Begin => if begin then [(begin, s)] else []
  | End_ => if s =? "" then [(begin, s)] else []
  | Lit l => if has_prefix s l then [(begin && (l =? ""), str_drop (String.length l) s)] else []
  | One class => match s with String c t => if class c then [(false, t)] else [] | "" => [] end
  | Many class one =>
      let read := match s with String c t => if class c then rests class t else [] | "" => [] end in
      ((if one then [] else [(begin, s)]) ++ map (pair false) read)%list
  | Cat a b => flat_map (λ r : bool * string, match_rests b r.1 r.2) (match_rests a begin s)
  | Either a b => (match_rests a begin s ++ match_rests b begin s)%list
  end.

(** [regexp.MatchString]: a match may begin anywhere. *)
Fixpoint match_from (p : pattern) (begin : bool) (s : string) : bool :=
  match match_rests p begin s with
  | _ :: _ => true
  | [] => match s with String _ t => match_from p false t | "" => false end
  end.
Definition match_string (p : pattern) (s : string) : bool := match_from p true s.

Definition digit_class (a : ascii) : bool := match digit_of a with Some _ => true | None => false end.
Definition hex_class (a : ascii) : bool :=
  digit_class a || ((97 <=? byte_of a) && (byte_of a <=? 102))%N.
Definition any_class (a : ascii) : bool := negb (byte_of a =? 10)%N.

(** ** Names of images and nodes *)

(* go: internal/cirunner/import_image.go parseExtraImages *)
Definition parseExtraImages (raw : string) : list string :=
  List.filter (λ p, negb (p =? "")) (map trim_space (words_of (λ c, (c =? ",")%char) "" raw)).

(** The first field of each line that is not blank. *)
Definition nonblank_lines (out : string) : list string :=
  List.filter (λ l, negb (l =? "")) (map trim_space (split_on (chr 10) out)).
Definition first_field (line : string) : string := hd "" (fields line).

(* go: internal/cirunner/import_image.go:58 discoverK3DNodes *)
Definition node_pattern (clusterName : string) : pattern :=
  cats [Begin; Lit "k3d-"; Lit clusterName; Lit "-"; Either (Lit "server") (Lit "agent"); Lit "-";
        Many digit_class true; End_].

(* go: internal/cirunner/import_image.go:59-81 discoverK3DNodes *)
Definition cluster_nodes `{SliceSorter} (clusterName out : string) : list string :=
  sort_strings (List.filter (λ f, negb (f =? "") && match_string (node_pattern clusterName) f)
                            (map first_field (nonblank_lines out))).

(* go: internal/cirunner/import_image.go candidateImageRefs *)
Definition candidateImageRefs (img : string) : list string :=
  let first := (split_2 img "/").1 in
  if negb (contains img "/") then [img; "docker.io/library/" +:+ img; "index.docker.io/library/" +:+ img]
  else if negb (contains first ".") && negb (contains first ":") && negb (first =? "localhost") then
    [img; "docker.io/" +:+ img; "index.docker.io/" +:+ img]
  else [img].

(** The text after the last occurrence of a byte, all of it where there is none. *)
Definition after_last (s : string) (c : ascii) : string :=
  match last_index_byte s c with Some i => str_drop (S i) s | None => s end.

(** The repository and the tag of a reference without its digest. *)
(* go: internal/cirunner/import_image.go:101-115 candidateImagePatterns *)
Definition image_base_tag (img : string) : string * string :=
  let ref := (split_2 img "@").1 in
  match last_index_byte ref ":" with
  | Some idx => if contains (after_last ref "/") ":" then (str_take idx ref, str_drop (S idx) ref) else (ref, "")
  | None => (ref, "")
  end.

(** A reference without a tag is compiled as it stands.  Of the special characters
    only the dot may stand in one, and docker refuses the others before. *)
(* go: internal/cirunner/import_image.go:116-118 candidateImagePatterns *)
Definition raw_pattern (img : string) : pattern :=
  cats (map (λ c, if (c =? ".")%char then One any_class else Lit (String c "")) (String.list_ascii_of_string img)).

(* go: internal/cirunner/import_image.go candidateImagePatterns *)
Definition candidateImagePatterns (img : string) : list pattern :=
  let '(base, tag) := image_base_tag img in
  if tag =? "" then [raw_pattern img]
  else
    let name := after_last base "/" in
    let exactly prefix body := cats [Begin; Lit prefix; Lit body; Lit ":"; Lit tag; End_] in
    ([exactly "" base; exactly "docker.io/" base; exactly "index.docker.io/" base;
      cats [Either Begin (Cat (Many any_class false) (Lit "/")); Lit name; Lit ":"; Lit tag;
            Either (cats [Lit "@sha256:"; Many hex_class true]) (Lit ""); End_]]
     ++ if negb (contains base "/") then [exactly "docker.io/library/" name; exactly "index.docker.io/library/" name]
        else [])%list.

(* go: internal/cirunner/import_image.go:144-167 nodeImageList *)
Definition listed_images (out : string) : list string :=
  let lines := nonblank_lines out in
  let lines := match lines with
               | l :: rest => if has_prefix (to_upper l) "REF" then rest else lines
               | [] => []
               end in
  List.filter (λ f, negb (f =? "")) (map first_field lines).

(* go: internal/cirunner/import_image.go nodeHasImage *)
Definition nodeHasImage (images refs : list string) (patterns : list pattern) : bool :=
  existsb (λ r, bool_decide (r ∈ images)) refs || existsb (λ p, existsb (match_string p) images) patterns.

(** ** The import *)

Section import.
Context {W : Type} `{World W} `{SliceSorter} {X : Type}.

(* go: internal/cirunner/import_image.go discoverK3DNodes *)
Definition discoverK3DNodes (clusterName : string) : M W X (list string) :=
  out ← wrap_err "k3d node list failed: " (commandOutput "k3d" ["node"; "list"; "--no-headers"]);
  match cluster_nodes clusterName out with
  | [] => fail (errorf ("no k3d nodes found for cluster " +:+ clusterName))
  | nodes => mret nodes
  end.

(* go: internal/cirunner/import_image.go nodeImageList *)
Definition nodeImageList (node : string) : M W X (list string * string) :=
  out ← commandOutput "docker" ["exec"; node; "sh"; "-lc";
    "k3s ctr -n k8s.io images ls 2>/dev/null || k3s ctr images ls 2>/dev/null || ctr -n k8s.io images ls 2>/dev/null || ctr images ls 2>/dev/null || true"];
  mret (listed_images out, out).

(** With the list of the node, or why there is none. *)
(* go: internal/cirunner/import_image.go:222-235 verifyImagesOnNodes *)
Definition missing_text (node image : string) (listed : res (list string * string)) : string :=
  let missing := "missing image on " +:+ node +:+ ": " +:+ image in
  match listed with
  | Err e => missing +:+ " (failed to list node images: " +:+ err_msg e +:+ ")" +:+ nl
  | Ok (_, rawList) => text_lines (missing :: map (λ line, "  [node images] " +:+ line) (nonblank_lines rawList))
  end.

(* go: internal/cirunner/import_image.go ensureLocalImages *)
Definition ensureLocalImages (images : list string) : M W X () :=
  for_each images (λ image,
    found ← ask (CommandPass "docker" ["image"; "inspect"; image]);
    match found with
    | None => mret ()
    | Some _ =>
        say ("Local image not found, pulling: " +:+ image +:+ nl) ;;
        wrap_err ("docker pull " +:+ image +:+ " failed: ") (commandRun "docker" ["pull"; image])
    end).

(** Its error is not looked at. *)
(* go: internal/cirunner/import_image.go importImages *)
Definition importImages (cluster : string) (images : list string) : M W X () :=
  _ ← try (commandRun "k3d" (["image"; "import"] ++ images ++ ["-c"; cluster])%list); mret ().

(** Is the image on all of the nodes?  Every node is asked. *)
(* go: internal/cirunner/import_image.go:218-238 verifyImagesOnNodes *)
Fixpoint image_on_nodes (image : string) (nodes : list string) : M W X bool :=
  match nodes with
  | [] => mret true
  | node :: nodes =>
      r ← try (nodeImageList node);
      let here := match r with
                  | Ok (images, _) => nodeHasImage images (candidateImageRefs image) (candidateImagePatterns image)
                  | Err _ => false
                  end in
      (if here then mret () else warn (missing_text node image r)) ;;
      rest ← image_on_nodes image nodes;
      mret (here && rest)
  end.

(* go: internal/cirunner/import_image.go:216-239 verifyImagesOnNodes *)
Fixpoint images_on_nodes (images nodes : list string) : M W X bool :=
  match images with
  | [] => mret true
  | image :: images => here ← image_on_nodes image nodes; rest ← images_on_nodes images nodes; mret (here && rest)
  end.

(* go: internal/cirunner/import_image.go verifyImagesOnNodes *)
Definition verifyImagesOnNodes (clusterName : string) (images : list string) : M W X bool :=
  nodes ← discoverK3DNodes clusterName;
  say ("Verifying image on nodes: " +:+ join " " nodes +:+ nl) ;;
  images_on_nodes images nodes.

(* go: internal/cirunner/import_image.go:276-294 RunImportImageK3D *)
Fixpoint import_retries (clusterName : string) (images : list string) (attempt total : Z) (retries : nat) : M W X () :=
  match retries with
  | O => fail (errorf ("one or more images are not present on all nodes in cluster " +:+ clusterName
                         +:+ " after retries: " +:+ join " " images))
  | S retries =>
      warn ("Retrying image import (" +:+ itoa attempt +:+ "/" +:+ itoa total +:+ ")..." +:+ nl) ;;
      ask (Sleep (2 * second)) ;;
      importImages clusterName images ;;
      ok ← verifyImagesOnNodes clusterName images;
      if (ok : bool) then say ("Image import verification passed after retry" +:+ nl)
      else import_retries clusterName images (attempt + 1) total retries
  end.

(** The images a run imports. *)
(* go: internal/cirunner/import_image.go:255-260 RunImportImageK3D *)
Definition run_images (cfg : Config) (operatorImage extra : string) : list string :=
  let receiverImage := trim_space (AlertReceiverImage cfg) in
  uniqueStrings ([operatorImage] ++ (if receiverImage =? "" then [] else [receiverImage]) ++ parseExtraImages extra)%list.

(* go: internal/cirunner/import_image.go RunImportImageK3D *)
Definition RunImportImageK3D (Getenv : string → string) (cfg : Config) : M W X () :=
  let clusterName := trim_space (Getenv "CLUSTER_NAME") in
  if clusterName =? "" then fail (errorf "CLUSTER_NAME must be set")
  else
    let operatorImage := trim_space (Getenv "OPERATOR_IMAGE") in
    if operatorImage =? "" then fail (errorf "OPERATOR_IMAGE must be set")
    else
      let images := run_images cfg operatorImage (Getenv "EXTRA_IMAGES") in
      ensureLocalImages images ;;
      say ("Importing images into cluster " +:+ clusterName +:+ ": " +:+ join " " images +:+ nl) ;;
      importImages clusterName images ;;
      ok ← verifyImagesOnNodes clusterName images;
      if (ok : bool) then say ("Image import verification passed" +:+ nl)
      else
        let retries := Z.max 0 (ImportRetryCount cfg) in
        import_retries clusterName images 1 retries (Z.to_nat retries).

Lemma runs_discoverK3DNodes c : Runs (discoverK3DNodes c).
Proof. unfold discoverK3DNodes. runs_tac. Qed.
#[local] Hint Resolve runs_discoverK3DNodes : runs.
Lemma runs_nodeImageList n : Runs (nodeImageList n).
Proof. unfold nodeImageList. runs_tac. Qed.
#[local] Hint Resolve runs_nodeImageList : runs.
Lemma runs_ensureLocalImages l : Runs (ensureLocalImages l).
Proof. unfold ensureLocalImages. runs_tac. Qed.
#[local] Hint Resolve runs_ensureLocalImages : runs.
Lemma runs_importImages c l : Runs (importImages c l).
Proof. unfold importImages. runs_tac. Qed.
#[local] Hint Resolve runs_importImages : runs.
Lemma runs_image_on_nodes i l : Runs (image_on_nodes i l).
Proof. induction l; cbn [image_on_nodes]; runs_tac; auto with runs. Qed.
#[local] Hint Resolve runs_image_on_nodes : runs.
Lemma runs_images_on_nodes i l : Runs (images_on_nodes i l).
Proof. induction i; cbn [images_on_nodes]; runs_tac. Qed.
#[local] Hint Resolve runs_images_on_nodes : runs.
Lemma runs_verifyImagesOnNodes c l : Runs (verifyImagesOnNodes c l).
Proof. unfold verifyImagesOnNodes. runs_tac. Qed.
#[local] Hint Resolve runs_verifyImagesOnNodes : runs.
Lemma runs_import_retries c l k t n : Runs (import_retries c l k t n).
Proof. revert k. induction n; intros k; cbn [import_retries]; runs_tac. Qed.
#[local] Hint Resolve runs_import_retries : runs.
Lemma runs_RunImportImageK3D g c : Runs (RunImportImageK3D g c).
Proof. unfold RunImportImageK3D. runs_tac. Qed.
End import.
#[export] Hint Resolve runs_discoverK3DNodes runs_nodeImageList runs_ensureLocalImages runs_importImages
  runs_verifyImagesOnNodes runs_RunImportImageK3D : runs.

(** They leave the runner's state alone. *)

Section frames.
Context {W : Type} `{World W} `{SliceSorter} {X : Type} (R : rt X → rt X → Prop) `{!PreOrder R}.

Lemma frame_discoverK3DNodes c : frame R (discoverK3DNodes c).
Proof. unfold discoverK3DNodes. frame_tac. Qed.
#[local] Hint Resolve frame_discoverK3DNodes : frames.

Lemma frame_nodeImageList n : frame R (nodeImageList n).
Proof. unfold nodeImageList. frame_tac. Qed.
#[local] Hint Resolve frame_nodeImageList : frames.

Lemma frame_ensureLocalImages l : frame R (ensureLocalImages l).
Proof. unfold ensureLocalImages. frame_tac. Qed.
#[local] Hint Resolve frame_ensureLocalImages : frames.

Lemma frame_importImages c l : frame R (importImages c l).
Proof. unfold importImages. frame_tac. Qed.
#[local] Hint Resolve frame_importImages : frames.

Lemma frame_image_on_nodes i l : frame R (image_on_nodes i l).
Proof. induction l; cbn [image_on_nodes]; frame_tac; auto with frames. Qed.
#[local] Hint Resolve frame_image_on_nodes : frames.

Lemma frame_images_on_nodes i l : frame R (images_on_nodes i l).
Proof. induction i; cbn [images_on_nodes]; frame_tac. Qed.
#[local] Hint Resolve frame_images_on_nodes : frames.

Lemma frame_verifyImagesOnNodes c l : frame R (verifyImagesOnNodes c l).
Proof. unfold verifyImagesOnNodes. frame_tac. Qed.
#[local] Hint Resolve frame_verifyImagesOnNodes : frames.

Lemma frame_import_retries c l k t n : frame R (import_retries c l k t n).
Proof. revert k. induction n; intros k; cbn [import_retries]; frame_tac. Qed.
#[local] Hint Resolve frame_import_retries : frames.

Lemma frame_RunImportImageK3D g c : frame R (RunImportImageK3D g c).
Proof. unfold RunImportImageK3D. frame_tac. Qed.
#[local] Hint Resolve frame_RunImportImageK3D : frames.
End frames.
#[export] Hint Resolve frame_discoverK3DNodes frame_nodeImageList frame_ensureLocalImages frame_importImages
  frame_image_on_nodes frame_images_on_nodes frame_verifyImagesOnNodes frame_import_retries
  frame_RunImportImageK3D : frames.

(** import_image_test.go *)
Example extra_images :
  parseExtraImages "busybox:1.36, capacity-alert-receiver:ci  redis:7" = ["busybox:1.36"; "capacity-alert-receiver:ci"; "redis:7"].
Proof. vm_compute. reflexivity. Qed.
Example busybox_matches :
  existsb (λ p, match_string p "docker.io/library/busybox:1.36" || match_string p "busybox:1.36")
    (candidateImagePatterns "busybox:1.36") = true.
Proof. vm_compute. reflexivity. Qed.
Example nodes_found :
  match_string (node_pattern "cpo-ci") "k3d-cpo-ci-server-0" = true ∧ match_string (node_pattern "cpo-ci") "k3d-cpo-ci-serverlb" = false.
Proof. vm_compute. done. Qed.
