(* ===== verification/CiRunner.v ===== *)
(** * internal/cirunner: the state of an integration run

    The runner of integration.go: its check results and notes, the port forwards it
    holds by their place among the sessions of the run, and its Prometheus queries,
    which are those of internal/civerify with the answer of one GET. *)

From stdpp Require Import base list strings gmap functions.
From Stdlib Require Import ZArith Lia Ascii.
From S2P Require Import Prelude GoFloat GoText GoStd GoStrconv ApiTypes Metrics PromClient CiVerify CiConfig CiWorld CiLogic.

Local Open Scope string_scope.

(** ** State *)

(** The fields [checkContext] to [checkAlertmanager]. *)
Inductive check :=
| CheckContext | CheckPromEndpoint | CheckManagerRollout | CheckPlanReconcile | CheckTrendSignal
| CheckGrowthCompare | CheckPromRule | CheckManagerMetrics | CheckLLMInsights | CheckPromAlerts
| CheckWorkloadAlerts | CheckAlertmanager.
#[export] Instance check_eq_dec : EqDecision check.
Proof. solve_decision. Defined.

(* go: internal/cirunner/integration.go integrationState *)
Record integrationState := mkState {
  startedAt : time;
  obsStartedAt : time;
  obsFinishedAt : time;
  snapshots : Z;
  maxGrowingPVCs : Z;
  sawCapacityToRequestMismatch : bool;
  checks : check → string;
  sawCapacityAlerts : bool;
}.

(** The fields [promPF] to [llmPF]. *)
Inductive forward := PromPF | AlertPF | AlertReceiverPF | ManagerPF | LlmPF.
#[export] Instance forward_eq_dec : EqDecision forward.
Proof. solve_decision. Defined.

(** A client is there or nil. *)
(* go: internal/cirunner/integration.go IntegrationRunner *)
Record IntegrationRunner := mkRunner {
  state : integrationState;
  forwards : forward → option nat;
  promClient : bool;
  alertVerifier : bool;
}.

(* go: internal/cirunner/integration.go NewIntegrationRunner *)
Definition NewIntegrationRunner (now : time) : IntegrationRunner :=
  mkRunner (mkState now now now 0 0 false (λ _, "pending") false) (λ _, None) false false.

Definition with_state (f : integrationState → integrationState) (r : IntegrationRunner) : IntegrationRunner :=
  mkRunner (f (state r)) (forwards r) (promClient r) (alertVerifier r).

Definition with_check (c : check) (text : string) : IntegrationRunner → IntegrationRunner :=
  with_state (λ st, mkState (startedAt st) (obsStartedAt st) (obsFinishedAt st) (snapshots st) (maxGrowingPVCs st)
    (sawCapacityToRequestMismatch st) (<[c := text]> (checks st)) (sawCapacityAlerts st)).

Definition with_forward (f : forward) (i : nat) (r : IntegrationRunner) : IntegrationRunner :=
  mkRunner (state r) (<[f := Some i]> (forwards r)) (promClient r) (alertVerifier r).

(** What is noted beside the checks. *)
Inductive note :=
| ObservationStarts (now : time)
| ObservationEnds (now : time) (snapshots maxGrowing : Z)
| CapacityMismatch
| CapacityAlertsSeen.

Definition apply_note (n : note) (st : integrationState) : integrationState :=
  match n with
  | ObservationStarts now =>
      mkState (startedAt st) now (obsFinishedAt st) (snapshots st) (maxGrowingPVCs st)
        (sawCapacityToRequestMismatch st) (checks st) (sawCapacityAlerts st)
  | ObservationEnds now snaps maxGrowing =>
      mkState (startedAt st) (obsStartedAt st) now snaps maxGrowing
        (sawCapacityToRequestMismatch st) (checks st) (sawCapacityAlerts st)
  | CapacityMismatch =>
      mkState (startedAt st) (obsStartedAt st) (obsFinishedAt st) (snapshots st) (maxGrowingPVCs st)
        true (checks st) (sawCapacityAlerts st)
  | CapacityAlertsSeen =>
      mkState (startedAt st) (obsStartedAt st) (obsFinishedAt st) (snapshots st) (maxGrowingPVCs st)
        (sawCapacityToRequestMismatch st) (checks st) true
  end.

(** ** Durations *)

(** [int(d.Seconds())]: the absolute value is below [2^34]. *)
Definition whole_seconds (d : duration) : Z := default 0%Z (f_trunc (duration_seconds d)).

(** [float64(n) / (1024.0*1024.0)]. *)
Definition mib (f : float) : float := fdiv f (f_of_Z 1048576).
Definition per_minute (growthBytesPerDay : float) : float := fdiv growthBytesPerDay (f_of_Z 1440).

(** ** Steps *)

Section steps.
Context {W : Type} `{World W}.

Definition set_check (c : check) (text : string) : M W IntegrationRunner () := modify (with_check c text).
Definition take_note (n : note) : M W IntegrationRunner () := modify (with_state (apply_note n)).
Definition set_promClient : M W IntegrationRunner () :=
  modify (λ r, mkRunner (state r) (forwards r) true (alertVerifier r)).
Definition set_alertVerifier : M W IntegrationRunner () :=
  modify (λ r, mkRunner (state r) (forwards r) (promClient r) true).

(** [pf, err := StartPodPortForward(...); r.xPF = pf]. *)
Definition start_forward (f : forward) (namespace pod : string) (local remote : Z) : M W IntegrationRunner nat :=
  i ← StartPodPortForward namespace pod local remote; modify (with_forward f i) ;; mret i.

(* go: internal/cirunner/integration.go IntegrationRunner.closePortForwards *)
Definition closePortForwards : M W IntegrationRunner () :=
  r ← get;
  for_each [LlmPF; ManagerPF; AlertReceiverPF; PromPF; AlertPF] (λ f, Close (forwards r f)).

Lemma runs_set_check c t : Runs (set_check c t).
Proof. apply runs_modify. Qed.
#[local] Hint Resolve runs_set_check : runs.
Lemma runs_take_note n : Runs (take_note n).
Proof. apply runs_modify. Qed.
#[local] Hint Resolve runs_take_note : runs.
Lemma runs_set_promClient : Runs set_promClient.
Proof. apply runs_modify. Qed.
#[local] Hint Resolve runs_set_promClient : runs.
Lemma runs_set_alertVerifier : Runs set_alertVerifier.
Proof. apply runs_modify. Qed.
#[local] Hint Resolve runs_set_alertVerifier : runs.
Lemma runs_start_forward f ns p l r : Runs (start_forward f ns p l r).
Proof. unfold start_forward. runs_tac. Qed.
#[local] Hint Resolve runs_start_forward : runs.
Lemma runs_closePortForwards : Runs closePortForwards.
Proof. unfold closePortForwards. runs_tac. Qed.
End steps.
#[export] Hint Resolve runs_set_check runs_take_note runs_set_promClient runs_set_alertVerifier runs_start_forward
  runs_closePortForwards : runs.

(** ** Queries *)

Definition prom_address : string := "http://127.0.0.1:19090".
Definition alertmanager_address : string := "http://127.0.0.1:19093".

(** The environment in which every GET has this outcome. *)
Definition answering (E : CiEnv) (o : get_outcome) : CiEnv := {|
  ci_lib := @ci_lib E;
  ci_query_url := @ci_query_url E;
  ci_get := λ _, o;
|}.

(** A client of the query API: where it asks, and how long it waits for an answer. *)
(* go: internal/civerify/prometheus.go PrometheusClient *)
Record PrometheusClient := mkClient { pc_baseURL : string; pc_timeout : duration }.

(* go: internal/civerify/prometheus.go NewPrometheusClient *)
Definition NewPrometheusClient (baseURL : string) (timeout : duration) : PrometheusClient :=
  mkClient baseURL (if (timeout <=? 0)%Z then (5 * second)%Z else timeout).

(* go: internal/civerify/alerts.go AlertVerifier *)
Record AlertVerifier := mkVerifier {
  av_promClient : PrometheusClient;
  av_alertmanagerURL : string;
  av_timeout : duration;
}.

(* go: internal/civerify/alerts.go NewAlertVerifier *)
Definition NewAlertVerifier (promClient : PrometheusClient) (alertmanagerURL : string) (timeout : duration) : AlertVerifier :=
  mkVerifier promClient (trim_suffix alertmanagerURL "/") (if (timeout <=? 0)%Z then (5 * second)%Z else timeout).

(** The clients an integration run makes. *)
Definition run_client : PrometheusClient := NewPrometheusClient prom_address (5 * second).
Definition run_verifier : AlertVerifier := NewAlertVerifier run_client alertmanager_address (5 * second).

Section queries.
Context {W : Type} `{World W} `{E : CiEnv} {X : Type}.

(** A query of a client: without a URL nothing is sent. *)
Definition client_query {B} (c : PrometheusClient) (query : string) (f : CiEnv → res B) : M W X B :=
  match ci_query_url (pc_baseURL c) query with
  | Err _ => lift (f E)
  | Ok u => o ← ask (HttpGet (pc_timeout c) u); lift (f (answering E o))
  end.

Definition client_scalar (c : PrometheusClient) (query : string) : M W X (option float) :=
  client_query c query (λ E, @QueryInstantScalar E (pc_baseURL c) query).

Definition client_has_results (c : PrometheusClient) (query : string) : M W X bool :=
  client_query c query (λ E, @QueryInstantHasResults E (pc_baseURL c) query).

Definition prom_scalar (query : string) : M W X (option float) := client_scalar run_client query.
Definition prom_has_results (query : string) : M W X bool := client_has_results run_client query.

(** civerify's loop over the workloads, every query a step of the run. *)
(* go: internal/civerify/alerts.go AlertVerifier.PrometheusHasAllWorkloadBudgetAlerts *)
Fixpoint all_workload_alerts (v : AlertVerifier) (workloads : list string) : M W X bool :=
  match workloads with
  | [] => mret true
  | workload :: workloads =>
      hasAlert ← client_has_results (av_promClient v) (BuildPrometheusWorkloadAlertQuery workload);
      if negb hasAlert then mret false else all_workload_alerts v workloads
  end.

(** A request to the Alertmanager API. *)
Definition verifier_request {B} (v : AlertVerifier) (f : CiEnv → string → res B) : M W X B :=
  o ← ask (HttpGet (av_timeout v) (av_alertmanagerURL v +:+ "/api/v2/alerts"));
  lift (f (answering E o) (av_alertmanagerURL v)).
Definition alertmanager_request {B} (f : CiEnv → string → res B) : M W X B := verifier_request run_verifier f.

Lemma runs_client_query {B} c q (f : CiEnv → res B) : Runs (client_query c q f).
Proof. unfold client_query. runs_tac. Qed.
#[local] Hint Resolve runs_client_query : runs.
Lemma runs_client_scalar c q : Runs (client_scalar c q).
Proof. unfold client_scalar. runs_tac. Qed.
#[local] Hint Resolve runs_client_scalar : runs.
Lemma runs_client_has_results c q : Runs (client_has_results c q).
Proof. unfold client_has_results. runs_tac. Qed.
#[local] Hint Resolve runs_client_has_results : runs.
Lemma runs_prom_scalar q : Runs (prom_scalar q).
Proof. apply runs_client_scalar. Qed.
Lemma runs_prom_has_results q : Runs (prom_has_results q).
Proof. apply runs_client_has_results. Qed.
Lemma runs_all_workload_alerts c l : Runs (all_workload_alerts c l).
Proof. induction l; cbn [all_workload_alerts]; runs_tac. Qed.
Lemma runs_verifier_request {B} v (f : CiEnv → string → res B) : Runs (verifier_request v f).
Proof. unfold verifier_request. runs_tac. Qed.
Lemma runs_alertmanager_request {B} (f : CiEnv → string → res B) : Runs (alertmanager_request f).
Proof. apply runs_verifier_request. Qed.
End queries.
#[export] Hint Resolve runs_client_query runs_client_scalar runs_client_has_results runs_prom_scalar
  runs_prom_has_results runs_all_workload_alerts runs_verifier_request runs_alertmanager_request : runs.

(** They leave the runner's state alone. *)

Section frames.
Context {W : Type} `{World W} `{E : CiEnv} {X : Type} (R : rt X → rt X → Prop) `{!PreOrder R}.

Lemma frame_client_query {B} c q (f : CiEnv → res B) : frame R (client_query c q f).
Proof. unfold client_query. frame_tac. Qed.
#[local] Hint Resolve frame_client_query : frames.

Lemma frame_client_scalar c q : frame R (client_scalar c q).
Proof. unfold client_scalar. frame_tac. Qed.
#[local] Hint Resolve frame_client_scalar : frames.

Lemma frame_client_has_results c q : frame R (client_has_results c q).
Proof. unfold client_has_results. frame_tac. Qed.
#[local] Hint Resolve frame_client_has_results : frames.

Lemma frame_prom_scalar q : frame R (prom_scalar q).
Proof. apply frame_client_scalar. Qed.

Lemma frame_prom_has_results q : frame R (prom_has_results q).
Proof. apply frame_client_has_results. Qed.

Lemma frame_all_workload_alerts c l : frame R (all_workload_alerts c l).
Proof. induction l; cbn [all_workload_alerts]; frame_tac. Qed.

Lemma frame_verifier_request {B} v (f : CiEnv → string → res B) : frame R (verifier_request v f).
Proof. unfold verifier_request. frame_tac. Qed.

Lemma frame_alertmanager_request {B} (f : CiEnv → string → res B) : frame R (alertmanager_request f).
Proof. apply frame_verifier_request. Qed.
End frames.
#[export] Hint Resolve frame_client_query frame_client_scalar frame_client_has_results frame_prom_scalar
  frame_prom_has_results frame_all_workload_alerts frame_verifier_request frame_alertmanager_request : frames.

(** ** Relations that the bookkeeping of a run respects

    A text that settles a check: it passed, or, for the language model, it passed,
    only deserves a warning, or was skipped. *)

Definition reports (c : check) (text : string) : bool :=
  match c with
  | CheckLLMInsights => existsb (has_prefix text) ["pass"; "warn"; "skipped"]
  | _ => has_prefix text "pass"
  end.

(** The runner's own notes; the sessions and the port forwards stay. *)
Class Tolerates (R : rt IntegrationRunner → rt IntegrationRunner → Prop) : Prop := {
  tol_pre : PreOrder R;
  tol_check c text s : reports c text = true → R s (mkRt (rt_sessions s) (with_check c text (rt_state s)));
  tol_note n s : R s (mkRt (rt_sessions s) (with_state (apply_note n) (rt_state s)));
  tol_clients p a s : R s (mkRt (rt_sessions s) (mkRunner (state (rt_state s)) (forwards (rt_state s)) p a));
}.

(** Starting port forwards too. *)
Class Starts {W} `{World W} (R : rt IntegrationRunner → rt IntegrationRunner → Prop) : Prop :=
  starts_frame f ns pod local remote : frame (W := W) R (start_forward f ns pod local remote).
#[export] Existing Instance tol_pre.
#[export] Hint Resolve tol_pre starts_frame : frames.
#[export] Hint Extern 0 (reports _ _ = true) => reflexivity : frames.

Section tolerant.
Context {W : Type} `{World W} (R : rt IntegrationRunner → rt IntegrationRunner → Prop) `{!Tolerates R}.

Lemma frame_set_check c text : reports c text = true → frame (W := W) R (set_check c text).
Proof. intros Hr. apply frame_modify. intros s. by apply tol_check. Qed.
Lemma frame_take_note n : frame (W := W) R (take_note n).
Proof. apply frame_modify. intros s. apply tol_note. Qed.
Lemma frame_set_promClient : frame (W := W) R set_promClient.
Proof. apply frame_modify. intros s. apply tol_clients. Qed.
Lemma frame_set_alertVerifier : frame (W := W) R set_alertVerifier.
Proof. apply frame_modify. intros s. apply tol_clients. Qed.
End tolerant.
#[export] Hint Resolve frame_set_check frame_take_note frame_set_promClient frame_set_alertVerifier : frames.
