(* ===== verification/CiFigures.v ===== *)
(** * internal/cirunner: figures and tables of a run

    The part of integration.go that computes without asking: the queries, the figures
    of the plan and of the comparison with Prometheus, the windows, what the status of
    the plan must contain, and the texts and tables a run prints. *)

From stdpp Require Import base list strings gmap functions.
From Stdlib Require Import ZArith Lia Ascii SpecFloat.
From S2P Require Import Prelude GoSort GoFloat GoText GoStd GoStrconv GoTab ApiTypes Metrics PromClient CiVerify CiConfig CiWorld.
From S2P Require Import CiWaits CiRunner.

Local Open Scope string_scope.

(** ** Queries *)

Section texts.
Context `{CiEnv}.

(** A selector of the PVC's series. *)
Definition pvc_selector (nsLabel pvcLabel namespace pvc : string) : string :=
  "{" +:+ nsLabel +:+ "=" +:+ go_quote namespace +:+ "," +:+ pvcLabel +:+ "=" +:+ go_quote pvc +:+ "}".

(* go: internal/cirunner/integration.go promUsedBytesQuery *)
Definition promUsedBytesQuery (namespace pvc : string) : string :=
  "max(kubelet_volume_stats_used_bytes" +:+ pvc_selector "namespace" "persistentvolumeclaim" namespace pvc +:+ ")".

(* go: internal/cirunner/integration.go promCapacityBytesQuery *)
Definition promCapacityBytesQuery (namespace pvc : string) : string :=
  let sel := pvc_selector "namespace" "persistentvolumeclaim" namespace pvc in
  "max(kube_persistentvolumeclaim_resource_requests_storage_bytes" +:+ sel
    +:+ ") or max(kubelet_volume_stats_capacity_bytes" +:+ sel +:+ ")".

(* go: internal/cirunner/integration.go promOperatorPVCSeriesCountQuery *)
Definition promOperatorPVCSeriesCountQuery (namespace pvc : string) : string :=
  "count((capacityplan_pvc_usage_bytes" +:+ pvc_selector "namespace" "pvc" namespace pvc
    +:+ ") or (capacityplan_pvc_usage_bytes" +:+ pvc_selector "exported_namespace" "pvc" namespace pvc +:+ "))".
End texts.

(** ** The raw Prometheus figures of a PVC *)

(** A figure and its flag are an option. *)
(* go: internal/cirunner/integration.go promPVCRawRow *)
Record promPVCRawRow := mkRawRow {
  rw_Name : string; rw_Used : option float; rw_Cap : option float; rw_Req : option Z; rw_Series : option float;
  RatioStr : string; CapToReq : string; UsedStr : string; UsedMiBStr : string; CapStr : string; CapMiBStr : string;
  ReqStr : string; SeriesStr : string; Mismatch : bool;
}.

(** The text of a figure that may be missing. *)
Definition figure {A} (text : A → string) (v : option A) : string := match v with Some v => text v | None => "n/a" end.

(* go: internal/cirunner/integration.go formatPromPVCRawRow *)
Definition formatPromPVCRawRow (row : promPVCRawRow) : promPVCRawRow :=
  let ratio := match rw_Used row, rw_Cap row with
               | Some used, Some cap => if fgtb cap fzero then Some (fdiv used cap) else None
               | _, _ => None
               end in
  let capToReq := match rw_Cap row, rw_Req row with
                  | Some cap, Some req => if (0 <? req)%Z then Some (fdiv cap (f_of_Z req)) else None
                  | _, _ => None
                  end in
  mkRawRow (rw_Name row) (rw_Used row) (rw_Cap row) (rw_Req row) (rw_Series row)
    (figure (sprintf_f 6) ratio) (figure (sprintf_f 2) capToReq)
    (figure (sprintf_f 0) (rw_Used row)) (figure (λ v, sprintf_f 2 (mib v)) (rw_Used row))
    (figure (sprintf_f 0) (rw_Cap row)) (figure (λ v, sprintf_f 2 (mib v)) (rw_Cap row))
    (figure itoa (rw_Req row)) (figure (sprintf_f 0) (rw_Series row))
    (match capToReq with Some r => fgtb r (f_of_Z 4) | None => Mismatch row end).

(** ** Figures of the plan *)

(* go: internal/cirunner/integration.go IntegrationRunner.countGrowingPVCs *)
Definition countGrowingPVCs (cfg : Config) (cp : CapacityPlan) : Z :=
  Z.of_nat (length (List.filter (λ p, fgtb (per_minute (ps_GrowthBytesPerDay p)) (MinGrowthBytesPerMin cfg))
                      (st_PVCs (cp_Status cp)))).

(* go: internal/cirunner/integration.go IntegrationRunner.hasNonzeroUsage *)
Definition hasNonzeroUsage (cp : CapacityPlan) : bool :=
  existsb (λ p, (0 <? ps_UsedBytes p)%Z) (st_PVCs (cp_Status cp)).

(* go: internal/cirunner/integration.go IntegrationRunner.hasInvalidUsageRatio *)
Definition hasInvalidUsageRatio (cfg : Config) (cp : CapacityPlan) : bool :=
  if fleb (UsageRatioSanityMax cfg) fzero then false
  else existsb (λ p, fgtb (ps_UsageRatio p) (UsageRatioSanityMax cfg)) (st_PVCs (cp_Status cp)).

(** ** Windows *)

(* go: internal/cirunner/integration.go IntegrationRunner.observedTrendWindowSeconds *)
Definition observedTrendWindowSeconds (st : integrationState) : Z :=
  if t_equal (obsStartedAt st) zero_time || t_equal (obsFinishedAt st) zero_time then 0%Z
  else
    let seconds := whole_seconds (t_sub (obsFinishedAt st) (obsStartedAt st)) in
    if (seconds <? 0)%Z then 0%Z else seconds.

(* go: internal/cirunner/integration.go IntegrationRunner.sampleRetentionWindowSeconds *)
Definition sampleRetentionWindowSeconds (cfg : Config) : Z :=
  let retention := PlanSampleRetention cfg in
  if (retention <=? 0)%Z then 0%Z
  else
    let seconds := whole_seconds (parseDurationOr (PlanSampleInterval cfg) 5) in
    if (seconds <=? 0)%Z then 0%Z else wrap64 (retention * seconds).

(* go: internal/cirunner/integration.go IntegrationRunner.effectiveGrowthCompareWindowSeconds *)
Definition effectiveGrowthCompareWindowSeconds (cfg : Config) (st : integrationState) : Z :=
  let window := GrowthCompareWindowSeconds cfg in
  let window := if (window <? 1)%Z then 1%Z else window in
  let observed := observedTrendWindowSeconds st in
  let window := if (window <? observed)%Z then observed else window in
  let sampleWindow := sampleRetentionWindowSeconds cfg in
  if (0 <? sampleWindow)%Z && (sampleWindow <? window)%Z then sampleWindow else window.

(** ** Reading a comparison *)

(* go: internal/cirunner/integration.go growthComparisonHint *)
Definition growthComparisonHint (summary : ComparisonSummary) : string :=
  let positive := List.filter (λ row, negb (fleb (row_StatusBytesPerDay row) fzero) && row_HasPromData row) (sm_Rows summary) in
  let promZero := List.filter (λ row, feqb (row_PromBytesPerDay row) fzero) positive in
  if (0 <? length positive)%nat && (length positive <=? length promZero * 2)%nat then
    "Prometheus deriv is zero for most positive-growth PVCs; lookback likely too short or growth happened earlier in the observation window"
  else "".

(** Smallest, largest and mean growth per minute. *)
(* go: internal/cirunner/integration.go:1703-1716 printTrendInterpretation *)
Definition growth_stats (perDay : list float) : float * float * float :=
  match perDay with
  | [] => (fzero, fzero, fzero)
  | first :: _ =>
      let v0 := per_minute first in
      let '(lo, hi, sum) :=
        foldl (λ acc g, let '(lo, hi, sum) := acc : float * float * float in
                 let v := per_minute g in
                 (if fltb v lo then v else lo, if fgtb v hi then v else hi, fadd sum v)) (v0, v0, fzero) perDay in
      (lo, hi, fdiv sum (f_of_Z (Z.of_nat (length perDay))))
  end.

(* go: internal/cirunner/integration.go statusGrowthStats *)
Definition statusGrowthStats (cpGrowth : list PVCGrowth) : float * float * float :=
  growth_stats (map pg_StatusBytesPerDay cpGrowth).

(* go: internal/cirunner/integration.go sortedComparisonRows *)
Definition sortedComparisonRows `{SliceSorter} (summary : ComparisonSummary) : list ComparisonRow :=
  sort_slice (λ a b, str_ltb (row_Name a) (row_Name b)) (sm_Rows summary).

(* go: internal/cirunner/integration.go comparisonMaxRelDiff *)
Definition comparisonMaxRelDiff (rows : list ComparisonRow) : string * float :=
  foldl (λ acc row, if row_HasPromData row && fgtb (row_RelDiffPct row) (snd acc)
                    then (row_Name row, row_RelDiffPct row) else acc) ("", fzero) rows.

(** ** What the plan must show *)

(* go: internal/cirunner/integration.go conditionStatus *)
Definition conditionStatus (conditions : list Condition) (condType : string) : string :=
  match List.find (λ c, cd_Type c =? condType) conditions with
  | Some c => status_text (cd_Status c)
  | None => ""
  end.

(* go: internal/cirunner/integration.go validateCapacityPlanConditions *)
Definition validateCapacityPlanConditions `{GoLib} (cp : CapacityPlan) (firstReconcile : option time) : res () :=
  match st_LastReconcileTime (cp_Status cp) with
  | None => Err (errorf "capacity plan has empty status.lastReconcileTime")
  | Some t =>
      if (match firstReconcile with Some first => t_equal t first | None => false end) then
        Err (errorf "capacity plan lastReconcileTime did not advance during trend observation")
      else
        let ready := conditionStatus (st_Conditions (cp_Status cp)) "Ready" in
        let promReady := conditionStatus (st_Conditions (cp_Status cp)) "PrometheusReady" in
        if negb (ready =? "True") then Err (errorf ("Ready condition is not True (got " +:+ go_quote ready +:+ ")"))
        else if negb (promReady =? "True") then
          Err (errorf ("PrometheusReady condition is not True (got " +:+ go_quote promReady +:+ ")"))
        else Ok ()
  end.

Definition first_scope (l : list StorageBudgetForecast) : string := match l with f :: _ => sf_Scope f | [] => "" end.

(* go: internal/cirunner/integration.go validateCapacityPlanStatusContent *)
Definition validateCapacityPlanStatusContent (cp : CapacityPlan) : res () :=
  let st := cp_Status cp in
  if (cs_TotalPVCs (st_Summary st) <? 5)%Z then
    Err (errorf ("expected at least five PVCs in summary, got " +:+ itoa (cs_TotalPVCs (st_Summary st))))
  else match st_TopRisks st with
  | [] => Err (errorf "expected at least one top risk after trend observation")
  | _ =>
      if trim_space (st_RiskDigest st) =? "" then Err (errorf "status.riskDigest is empty")
      else if trim_space (st_AnomalySummary st) =? "" then Err (errorf "status.anomalySummary is empty")
      else if negb (first_scope (st_NamespaceForecasts st) =? "namespace") then
        Err (errorf "expected first namespace forecast scope=namespace")
      else if negb (first_scope (st_WorkloadForecasts st) =? "workload") then
        Err (errorf "expected first workload forecast scope=workload")
      else Ok ()
  end.

(* go: internal/cirunner/integration.go:1408-1413 validatePrometheusRuleContent *)
Definition rule_text_ok (text : string) : res () :=
  match List.find (λ alert, negb (contains text alert))
          ["PVCGrowthAccelerationSpike"; "PVCTrendInstability"; "NamespaceBudgetBreachSoon"; "WorkloadBudgetBreachSoon"] with
  | Some alert => Err (errorf ("missing " +:+ alert +:+ " alert in generated PrometheusRule"))
  | None => Ok ()
  end.

(** ** The observation *)

(* go: internal/cirunner/integration.go trendObservation *)
Record trendObservation := mkObs {
  to_remaining : Z;
  to_snapshots : Z;
  to_maxGrowing : Z;
  to_sawNonzeroUsage : bool;
  to_lastCP : option CapacityPlan;
}.

(* go: internal/cirunner/integration.go newTrendObservation *)
Definition newTrendObservation (totalSeconds : Z) : trendObservation :=
  mkObs (if (totalSeconds <=? 0)%Z then 1 else totalSeconds)%Z 0 0 false None.

(* go: internal/cirunner/integration.go IntegrationRunner.trendIntervalSeconds *)
Definition trendIntervalSeconds (cfg : Config) (remaining : Z) : Z :=
  let interval := UsageSnapshotInterval cfg in
  let interval := if (interval <=? 0)%Z then 60%Z else interval in
  if (remaining <? interval)%Z then remaining else interval.

(** Are the signals confirmed before the time is up? *)
(* go: internal/cirunner/integration.go:1690-1696 shouldStopTrendObservation *)
Definition trend_confirmed (cfg : Config) (obs : trendObservation) (obsElapsed : Z) : bool :=
  ((0 <? to_remaining obs) && (MinTrendSnapshots cfg <=? to_snapshots obs)
   && (MinTrendObserveSeconds cfg <=? obsElapsed))%Z
  && to_sawNonzeroUsage obs && (MinGrowingPVCs cfg <=? to_maxGrowing obs)%Z.

(** ** What is printed *)

Definition float_mib (z : Z) : string := sprintf_f 2 (mib (f_of_Z z)).

Definition stamp (now : time) : string := "[" +:+ format_rfc3339 now +:+ "] ".

(* go: internal/cirunner/integration.go IntegrationRunner.printCapacitySnapshot *)
Definition capacity_snapshot_text `{SliceSorter} (cfg : Config) (now : time) (cp : CapacityPlan) : string :=
  stamp now +:+ "CapacityPlan PVC snapshot (" +:+ PlanName cfg +:+ ")" +:+ nl +:+
  match st_PVCs (cp_Status cp) with
  | [] => "  status.pvcs is empty" +:+ nl
  | pvcs =>
      table (["  pvc"; "usedBytes"; "usedMiB"; "samples"; "usageRatio"; "growthBytesPerDay"; "growthMiBPerMin"]
        :: map (λ p, ["  " +:+ ps_Name p; itoa (ps_UsedBytes p); float_mib (ps_UsedBytes p); itoa (ps_SamplesCount p);
                      sprintf_f 6 (ps_UsageRatio p); sprintf_g 6 (ps_GrowthBytesPerDay p);
                      sprintf_f 2 (mib (per_minute (ps_GrowthBytesPerDay p)))])
             (sort_slice (λ a b, str_ltb (ps_Name a) (ps_Name b)) pvcs))
  end.

(* go: internal/cirunner/integration.go IntegrationRunner.printGrowthSummary *)
Definition growth_summary_text `{SliceSorter} (now : time) (cp : CapacityPlan) : string :=
  stamp now +:+ "Derived growth summary (bytes/min)" +:+ nl +:+
  match st_PVCs (cp_Status cp) with
  | [] => "  status.pvcs is empty" +:+ nl
  | pvcs =>
      table (["  pvc"; "growthBytesPerMin"; "growthMiBPerMin"]
        :: map (λ p, let gpm := per_minute (ps_GrowthBytesPerDay p) in
                     ["  " +:+ ps_Name p; sprintf_f 2 gpm; sprintf_f 2 (mib gpm)])
             (sort_slice (λ a b, str_ltb (ps_Name a) (ps_Name b)) pvcs))
  end.

(* go: internal/cirunner/integration.go:911-938 printPrometheusPVCRawSnapshot *)
Definition raw_snapshot_text (now : time) (rows : list promPVCRawRow) (mismatchCount : Z) : string :=
  stamp now +:+ "Prometheus PVC raw snapshot (default namespace)" +:+ nl +:+
  table (["  pvc"; "usedBytes"; "usedMiB"; "capBytes"; "capMiB"; "reqBytes"; "ratio"; "usedSeriesCount"; "capToReq"]
    :: map (λ r, ["  " +:+ rw_Name r; UsedStr r; UsedMiBStr r; CapStr r; CapMiBStr r; ReqStr r; RatioStr r;
                  SeriesStr r; CapToReq r]) rows) +:+
  (if (0 <? mismatchCount)%Z then
     "  note: " +:+ itoa mismatchCount +:+ " PVC(s) have capBytes much larger than requested storage; "
       +:+ "kubelet stats likely reflect backing filesystem capacity" +:+ nl
   else "").

(** The PVCs that make [hasInvalidUsageRatio] true, one line each. *)
(* go: internal/cirunner/integration.go:1041-1046 hasInvalidUsageRatio *)
Definition invalid_ratio_lines (cfg : Config) (cp : CapacityPlan) : list string :=
  map (λ p, "invalid usage ratio for " +:+ ps_Name p +:+ " ratio=" +:+ sprintf_f 6 (ps_UsageRatio p) +:+ " used="
              +:+ itoa (ps_UsedBytes p) +:+ " cap=" +:+ itoa (ps_CapacityBytes p) +:+ nl)
    (List.filter (λ p, negb (fleb (UsageRatioSanityMax cfg) fzero) && fgtb (ps_UsageRatio p) (UsageRatioSanityMax cfg))
       (st_PVCs (cp_Status cp))).

(** The smallest, largest and mean growth in MiB. *)
Definition range_text (lo hi avg : float) : string :=
  sprintf_f 2 (mib lo) +:+ " to " +:+ sprintf_f 2 (mib hi) +:+ " MiB/min (avg " +:+ sprintf_f 2 (mib avg) +:+ " MiB/min)" +:+ nl.

(* go: internal/cirunner/integration.go IntegrationRunner.printTrendInterpretation *)
Definition trend_interpretation_text (cfg : Config) (cp : option CapacityPlan) (snapshots maxGrowing : Z) : string :=
  match cp with
  | None => ""
  | Some cp =>
      match st_PVCs (cp_Status cp) with
      | [] => ""
      | pvcs =>
          let '(lo, hi, avg) := growth_stats (map ps_GrowthBytesPerDay pvcs) in
          "Trend interpretation" +:+ nl +:+
          "  sampled snapshots: " +:+ itoa snapshots +:+ nl +:+
          "  growing PVCs above threshold: " +:+ itoa maxGrowing +:+ "/" +:+ itoa (Z.of_nat (length pvcs))
            +:+ " (threshold " +:+ sprintf_f 0 (MinGrowthBytesPerMin cfg) +:+ " bytes/min)" +:+ nl +:+
          "  latest growth range: " +:+ range_text lo hi avg
      end
  end.

(* go: internal/cirunner/integration.go printGrowthComparisonRowsTable *)
Definition comparison_table (rows : list ComparisonRow) : string :=
  table (["  pvc"; "statusMiBPerMin"; "promMiBPerMin"; "relDiffPct"; "allowedDiffBytesPerDay"; "match"; "reason"]
    :: map (λ row, ["  " +:+ row_Name row; sprintf_f 2 (mib_per_minute (row_StatusBytesPerDay row));
                    if row_HasPromData row then sprintf_f 2 (mib_per_minute (row_PromBytesPerDay row)) else "n/a";
                    if row_HasPromData row then sprintf_f 2 (row_RelDiffPct row) else "n/a";
                    if row_HasPromData row then sprintf_g 12 (row_AllowedDiff row) else "n/a";
                    yes_no (row_Matched row); row_Reason row]) rows).

(* go: internal/cirunner/integration.go printGrowthComparisonMismatches *)
Definition mismatch_text (rows : list ComparisonRow) : string :=
  text_lines ("  mismatches:" ::
    map (λ row, "    " +:+ row_Name row +:+ ": absDiff=" +:+ sprintf_g 12 (row_AbsDiff row) +:+ " B/day relDiff="
                  +:+ sprintf_f 2 (row_RelDiffPct row) +:+ "% allowed=" +:+ sprintf_g 12 (row_AllowedDiff row)
                  +:+ " B/day basis=" +:+ row_ToleranceBasis row +:+ " reason=" +:+ row_Reason row)
      (List.filter (λ row, row_HasPromData row && negb (row_Matched row)) rows)).

(* go: internal/cirunner/integration.go IntegrationRunner.printGrowthInterpretation *)
Definition growth_interpretation_text `{SliceSorter} (cpGrowth : list PVCGrowth) (summary : ComparisonSummary)
    (opts : CompareOptions) : string :=
  match cpGrowth with
  | [] => ""
  | _ =>
      let '(lo, hi, avg) := statusGrowthStats cpGrowth in
      let noData := (Z.of_nat (length (sm_Rows summary)) - sm_Comparable summary)%Z in
      let rows := sortedComparisonRows summary in
      let '(maxRelName, maxRelDiff) := comparisonMaxRelDiff rows in
      "Growth interpretation" +:+ nl +:+
      "  tolerances: relative=" +:+ sprintf_f 2 (fmul (RelativeTolerance opts) (f_of_Z 100)) +:+ "% absolute="
        +:+ sprintf_f 0 (AbsToleranceBytesDay opts)
        +:+ " B/day (effective threshold per PVC: max(relative*scale, absolute))" +:+ nl +:+
      "  status growth range: " +:+ range_text lo hi avg +:+
      "  cross-check match: " +:+ itoa (sm_Matched summary) +:+ "/" +:+ itoa (sm_Comparable summary)
        +:+ " comparable PVCs within tolerances (no-prom-data=" +:+ itoa noData +:+ ", required comparable="
        +:+ itoa (MinComparablePVCs opts) +:+ ", required matches=" +:+ itoa (MinMatchingPVCs opts) +:+ ")" +:+ nl +:+
      comparison_table rows +:+
      (if (sm_Matched summary <? sm_Comparable summary)%Z then mismatch_text rows else "") +:+
      (if maxRelName =? "" then ""
       else "  largest status-vs-prometheus delta: " +:+ maxRelName +:+ " (" +:+ sprintf_f 2 maxRelDiff +:+ "%)" +:+ nl)
  end.
