(* ===== verification/PlanChecks.v ===== *)
(** * The plan a reconcile publishes and what the CI run requires of it

    The integration run checks the status of the plan and the text of its
    PrometheusRule at the end of the observation.  This file composes those checks,
    of [CiFigures], with the reconcile of [PlanReconcile]: which plans pass them. *)

From stdpp Require Import base list strings gmap.
From Stdlib Require Import ZArith Lia Ascii.
From S2P Require Import Prelude GoSort GoFloat GoText GoStrconv JsonDoc GoStd RingBuffer Growth ApiTypes Metrics PromClient K8s Watcher.
From S2P Require Import Risk Summary Workload Budget Anomaly Llm Providers PlanLLM Children PlanReconcile OperatorStart.
From S2P Require Import CiVerify CiConfig CiWorld CiWaits CiFigures.

Local Open Scope string_scope.

(** ** Lemmas: conditions *)

Lemma conditionStatus_find cs t :
  conditionStatus cs t = match find_condition t cs with Some c => status_text (cd_Status c) | None => "" end.
Proof.
  unfold conditionStatus, find_condition. induction cs as [|c cs IH]; [done|]. cbn [List.find].
  rewrite filter_cons. destruct (String.eqb_spec (cd_Type c) t); [by rewrite decide_True|by rewrite decide_False].
Qed.

(** The plan has a metrics client from Prometheus. *)
Definition prometheus_configured (cfg : settings) (spec : CapacityPlanSpec) : bool :=
  negb (trim_space (sp_PrometheusURL spec) =? "") ||
  match DefaultMetricsClient cfg with PrometheusDefault _ => true | _ => false end.

(** A budget the forecasts take into account. *)
Definition valid_namespace_budget `{QuantityLib} (b : NamespaceBudgetSpec) : Prop :=
  trim_space (nb_Namespace b) ≠ "" ∧ ∃ q, parseBudgetBytes (nb_Budget b) = Ok q ∧ (0 < q)%Z.
Definition valid_workload_budget `{QuantityLib} (b : WorkloadBudgetSpec) : Prop :=
  trim_space (wb_Namespace b) ≠ "" ∧ trim_space (wb_Kind b) ≠ "" ∧ trim_space (wb_Name b) ≠ "" ∧
  ∃ q, parseBudgetBytes (wb_Budget b) = Ok q ∧ (0 < q)%Z.

(** The claim of a summary grows over the last week of its samples. *)
Definition claim_grows `{MetricsLib} `{Platform} (now : Z) (w : watcher) (s : PVCSummary) : Prop :=
  growing (buildPVCRiskSignal now s (GetSnapshot (pvc_key (ps_Namespace s) (ps_Name s)) w)) = true.

#[export] Instance claim_grows_dec `{MetricsLib} `{Platform} now w s : Decision (claim_grows now w s).
Proof. unfold claim_grows. apply _. Defined.

(** ** Lemmas: forecasts *)

Section forecasts.
Context `{QuantityLib} `{SliceSorter} `{Platform}.

Lemma sorted_head {A} (less : A → A → bool) (l : list A) (P : A → Prop) :
  Forall P l → match sort_slice less l with x :: _ => P x | [] => l = [] end.
Proof.
  intros HF. pose proof (sort_slice_perm less l) as Hp. destruct (sort_slice less l) as [|x r].
  - by apply Permutation_nil_l in Hp.
  - rewrite Forall_forall in HF. apply HF. apply (elem_of_Permutation_proper _ _ _ Hp). left.
Qed.

Lemma omap_nil {A B} (f : A → option B) l : omap f l = [] ↔ ∀ x, x ∈ l → f x = None.
Proof.
  split.
  - intros Hn x Hx. destruct (f x) as [y|] eqn:Hf; [|done].
    assert (y ∈ omap f l) as Hy by (apply list_elem_of_omap; eauto). rewrite Hn in Hy. inversion Hy.
  - intros Hall. apply elem_of_nil_inv. intros y (x & Hx & Hf)%list_elem_of_omap. by rewrite Hall in Hf.
Qed.

Lemma namespace_forecast_some now ss risk b :
  (∃ f, namespace_forecast now ss risk b = Some f ∧ sf_Scope f = "namespace") ∧ valid_namespace_budget b ∨
  namespace_forecast now ss risk b = None ∧ ¬ valid_namespace_budget b.
Proof.
  unfold namespace_forecast, valid_namespace_budget.
  destruct (String.eqb_spec (trim_space (nb_Namespace b)) ""); [right; naive_solver|].
  destruct (parseBudgetBytes _) as [q|]; [|right; naive_solver].
  destruct (Z.leb_spec q 0); [right; split; [done|]; intros (_ & q' & [= <-] & ?); lia|].
  left. destruct (sum_usage _ _ _), (budgetBreachProjection _ _ _ _). split; [eauto|naive_solver].
Qed.

Lemma workload_forecast_some now ss risk wl b :
  (∃ f, workload_forecast now ss risk wl b = Some f ∧ sf_Scope f = "workload") ∧ valid_workload_budget b ∨
  workload_forecast now ss risk wl b = None ∧ ¬ valid_workload_budget b.
Proof.
  unfold workload_forecast, valid_workload_budget.
  destruct (String.eqb_spec (trim_space (wb_Namespace b)) ""); [right; naive_solver|].
  destruct (String.eqb_spec (trim_space (wb_Kind b)) ""); [right; naive_solver|].
  destruct (String.eqb_spec (trim_space (wb_Name b)) ""); [right; naive_solver|]. cbn [orb].
  destruct (parseBudgetBytes _) as [q|]; [|right; naive_solver].
  destruct (Z.leb_spec q 0); [right; split; [done|]; intros (_ & _ & _ & q' & [= <-] & ?); lia|].
  left. destruct (sum_usage _ _ _), (budgetBreachProjection _ _ _ _). split; [eauto|naive_solver].
Qed.

(** The scope of the first forecast says whether there is a budget to forecast. *)
Lemma first_scope_of {B} (f : B → option StorageBudgetForecast) (valid : B → Prop) scope less bs :
  scope ≠ "" →
  (∀ b, (∃ x, f b = Some x ∧ sf_Scope x = scope) ∧ valid b ∨ f b = None ∧ ¬ valid b) →
  first_scope (sort_slice less (omap f bs)) = scope ↔ ∃ b, b ∈ bs ∧ valid b.
Proof.
  intros Hs Hf.
  assert (Forall (λ x, sf_Scope x = scope) (omap f bs)) as HF.
  { apply Forall_forall. intros x (b & _ & Hx)%list_elem_of_omap. destruct (Hf b) as [[(y & Hy & ?) _]|[Hn _]]; congruence. }
  pose proof (sorted_head less _ _ HF) as Hh. pose proof (sort_slice_perm less (omap f bs)) as Hp. split.
  - intros Hfs. destruct (sort_slice less (omap f bs)) as [|x r]; [done|].
    assert (x ∈ omap f bs) as (b & Hb & Hx)%list_elem_of_omap
      by (apply (elem_of_Permutation_proper _ _ _ Hp); left).
    exists b. split; [done|]. destruct (Hf b) as [[_ ?]|[Hn _]]; congruence.
  - intros (b & Hb & Hv). destruct (sort_slice less (omap f bs)) as [|x r]; [|done].
    rewrite omap_nil in Hh. destruct (Hf b) as [[(y & Hy & _) _]|[_ Hn]]; [|done]. rewrite Hh in Hy; done.
Qed.
End forecasts.

(** ** Lemmas: risks and texts *)

Lemma digest_not_blank now risks : trim_space (buildRiskDigest now risks) ≠ "".
Proof.
  destruct risks as [|r risks].
  - by apply (visible_not_blank "N" "").
  - unfold buildRiskDigest. by apply (visible_not_blank "T" "").
Qed.

Lemma anomaly_text_not_blank anomalies : trim_space (summarizePVCAnomalies anomalies) ≠ "".
Proof.
  destruct anomalies as [|a l].
  - by apply (visible_not_blank "N" "").
  - unfold summarizePVCAnomalies. by apply (visible_not_blank "A" "").
Qed.

Lemma top_risks_nil `{SliceSorter} signals : buildTopRisks signals statusSummaryTopN = [] ↔ ∀ s, s ∈ signals → growing s = false.
Proof.
  unfold buildTopRisks. set (l := List.filter growing signals). pose proof (sort_slice_perm risk_less l) as Hp.
  change (Z.to_nat (if (statusSummaryTopN <=? 0)%Z then statusSummaryTopN else statusSummaryTopN)) with 3%nat.
  assert (l = [] ↔ ∀ s, s ∈ signals → growing s = false) as <-.
  { unfold l. split.
    - intros Hn s Hs. destruct (growing s) eqn:Hg; [|done].
      assert (In s (List.filter growing signals)) as Hi by (apply filter_In; split; [by apply list_elem_of_In|done]).
      by rewrite Hn in Hi.
    - intros Hall. apply elem_of_nil_inv. intros s [Hs Hg]%list_elem_of_In%filter_In.
      rewrite Hall in Hg; [done|by apply list_elem_of_In]. }
  destruct (sort_slice risk_less l) as [|x r].
  - split; [|done]. intros _. by apply Permutation_nil_l in Hp.
  - split; [done|]. intros ->. by apply Permutation_nil_r in Hp.
Qed.

Lemma map_nil_iff {A B} (f : A → B) l : map f l = [] ↔ l = [].
Proof. by destruct l. Qed.

(** There is a top risk exactly when a claim grows. *)
Lemma risks_of_growing_claims `{SliceSorter} `{MetricsLib} `{Platform} now w ss workloads :
  enrichTopRisksWithWorkloads
    (buildTopRisks (map (λ s, buildPVCRiskSignal now s (GetSnapshot (pvc_key (ps_Namespace s) (ps_Name s)) w)) ss)
       statusSummaryTopN) workloads ≠ [] ↔
  ∃ s, s ∈ ss ∧ claim_grows now w s.
Proof.
  unfold enrichTopRisksWithWorkloads. rewrite map_nil_iff, top_risks_nil. split.
  - intros Hn. destruct (decide (Exists (λ s, claim_grows now w s) ss)) as [(s & Hs & Hg)%Exists_exists|Hne]; [eauto|].
    destruct Hn. intros sig (s & -> & Hs)%list_elem_of_fmap. apply not_true_is_false. intros Hg. apply Hne, Exists_exists. eauto.
  - intros (s & Hs & Hg) Hall. unfold claim_grows in Hg. rewrite Hall in Hg; [done|].
    apply list_elem_of_fmap. eauto.
Qed.

Section checks.
Context `{MetricsLib} `{MapRange} `{SliceSorter} `{Platform} `{Api} `{ChildApi} `{LlmEnv}.
Context `{QuantityLib} `{ConditionLib} `{FastAPIEnv} `{PromEnv} `{!PromClients}.

Lemma find_second g t s r m p l cs :
  t ∉ map (λ x, x.1.1.1) l →
  find_condition t (set_conditions g (p :: (t, s, r, m) :: l) cs) = Some (mkCondition t s g r m).
Proof. apply (find_set_conditions g t s r m [p]). Qed.

Lemma prometheus_ready_status cfg plan ch :
  conditionStatus (active_conditions cfg plan ch) "PrometheusReady" =
  status_text (if prometheus_configured cfg (cp_Spec plan) then ConditionTrue else ConditionFalse).
Proof.
  rewrite conditionStatus_find. unfold active_conditions, prometheus_configured, prometheusReadyStatus.
  destruct (backfillReadyStatus cfg) as [[bs br] bm].
  destruct (negb (trim_space (sp_PrometheusURL (cp_Spec plan)) =? "")); [|destruct (DefaultMetricsClient cfg)];
    cbn [orb]; (rewrite find_second; [done|]); simpl;
    rewrite !not_elem_of_cons; split_and!; done || apply not_elem_of_nil.
Qed.

Lemma ready_status cfg plan ch : conditionStatus (active_conditions cfg plan ch) "Ready" = "True".
Proof. by rewrite conditionStatus_find, ready_after_reconcile. Qed.

(** The samples of a summary's claim are those of the watcher. *)
Lemma summarize_one_snapshots ck w usageT daysT interval ch prev only pvcs acc :
  let run := fold_left (summarize_one ck w usageT daysT interval ch prev only) pvcs acc in
  ∀ k, pg_snapshots run !! k =
    if existsb (λ p, bool_decide (key_of p = k)) pvcs then Some (GetSnapshot k w) else pg_snapshots acc !! k.
Proof.
  revert acc. induction pvcs as [|pvc pvcs IH]; intros acc run k; [done|]. subst run. cbn [fold_left existsb].
  rewrite IH. destruct (existsb _ pvcs); [by rewrite orb_true_r|]. rewrite orb_false_r.
  unfold summarize_one. destruct (buildSummary _ _ _ _ _ _ _ _ _ _ _ _ _ _ _) as [[[s sent] client] m].
  cbn [pg_snapshots]. fold (key_of pvc). case_bool_decide as Hk.
  - by rewrite <-Hk, lookup_insert_eq.
  - by rewrite lookup_insert_ne.
Qed.

Lemma signals_of_summaries ck plan w ch pvcs :
  let run := summarize_pvcs ck plan w ch pvcs in
  buildPVCRiskSignals (ck_now ck) (pg_summaries run) (pg_snapshots run) =
  map (λ s, buildPVCRiskSignal (ck_now ck) s (GetSnapshot (pvc_key (ps_Namespace s) (ps_Name s)) w)) (pg_summaries run).
Proof.
  intros run. pose proof (summarize_pvcs_all ck plan w ch pvcs) as HF.
  apply map_ext_in. intros s Hs%list_elem_of_In. f_equal.
  apply list_elem_of_lookup in Hs as [i Hi]. destruct (Forall2_lookup_r _ _ _ _ _ HF Hi) as (p & Hp & Hsum).
  destruct Hsum as (insight & t & ->). cbn [summary_of ps_Namespace ps_Name].
  unfold run, summarize_pvcs. destruct (thresholds _) as [usageT daysT]. rewrite summarize_one_snapshots.
  assert (existsb (λ q, bool_decide (key_of q = pvc_key (pvc_Namespace p) (pvc_Name p))) pvcs = true) as ->; [|done].
  apply existsb_exists. exists p. split; [|by apply bool_decide_eq_true]. apply list_elem_of_In.
  by apply list_elem_of_lookup_2 in Hp.
Qed.

Lemma status_content_ok cp :
  validateCapacityPlanStatusContent cp = Ok () ↔
  (5 ≤ cs_TotalPVCs (st_Summary (cp_Status cp)))%Z ∧ st_TopRisks (cp_Status cp) ≠ [] ∧
  trim_space (st_RiskDigest (cp_Status cp)) ≠ "" ∧ trim_space (st_AnomalySummary (cp_Status cp)) ≠ "" ∧
  first_scope (st_NamespaceForecasts (cp_Status cp)) = "namespace" ∧
  first_scope (st_WorkloadForecasts (cp_Status cp)) = "workload".
Proof.
  unfold validateCapacityPlanStatusContent. destruct (Z.ltb_spec (cs_TotalPVCs (st_Summary (cp_Status cp))) 5).
  { split; [done|intros; lia]. }
  destruct (st_TopRisks (cp_Status cp)); [split; [done|naive_solver]|].
  repeat match goal with |- context [(?a =? ?b)%string] => destruct (String.eqb_spec a b); cbn [negb] end;
    split; intros; repeat split; done || naive_solver.
Qed.

Lemma conditions_ok cfg plan ch cp first t :
  st_Conditions (cp_Status cp) = active_conditions cfg plan ch → st_LastReconcileTime (cp_Status cp) = Some t →
  validateCapacityPlanConditions cp first = Ok () ↔ first ≠ Some t ∧ prometheus_configured cfg (cp_Spec plan) = true.
Proof.
  intros Hc Ht. unfold validateCapacityPlanConditions. rewrite Ht, Hc, ready_status, prometheus_ready_status.
  cbn [negb String.eqb].
  destruct first as [f|]; [unfold t_equal; destruct (Z.eqb_spec t f)|];
    destruct (prometheus_configured _ _); cbn; split; intros; try done; naive_solver.
Qed.

Definition rule_of (w : write) : option PrometheusRule :=
  match w with Children.CreateRule r | Children.UpdateRule _ r => Some r | _ => None end.

Lemma rule_written cfg plan u d digest w rule :
  w ∈ reconcile_children cfg plan u d digest → rule_of w = Some rule →
  rule = buildPrometheusRuleUnstructured plan u d digest.
Proof.
  assert (Forall (λ w, ∀ r, rule_of w = Some r → r = buildPrometheusRuleUnstructured plan u d digest)
            (reconcile_children cfg plan u d digest)) as HF; [|rewrite Forall_forall in HF; eauto].
  unfold reconcile_children.
  assert (Forall (λ w, rule_of w = None) (reconcileGrafanaDashboard (OperatorNamespace cfg) (POD_NAMESPACE cfg) plan).2) as Hd
    by (unfold reconcileGrafanaDashboard; repeat case_match; repeat constructor).
  assert (Forall (λ w, ∀ r, rule_of w = Some r → r = buildPrometheusRuleUnstructured plan u d digest)
            (reconcilePrometheusRule plan u d digest).2) as Hr.
  { unfold reconcilePrometheusRule. repeat case_match; cbn [do_write snd]; (constructor || done); try constructor;
      intros r [= <-]; done. }
  destruct (reconcileGrafanaDashboard _ _ _) as [de dws].
  destruct (hasPrometheusOperator cfg); [destruct (reconcilePrometheusRule _ _ _ _) as [re rws]|];
    (apply Forall_app; split; [done || constructor|]); (eapply Forall_impl; [exact Hd|]); cbn; congruence.
Qed.

Lemma rule_text_of plan u d digest text :
  (∀ r, r ∈ pm_Rules (buildPrometheusRuleUnstructured plan u d digest) → contains text (ar_alert r) = true) →
  rule_text_ok text = Ok ().
Proof.
  intros Hall. unfold rule_text_ok.
  assert (∀ a, a ∈ map ar_alert (pm_Rules (buildPrometheusRuleUnstructured plan u d digest)) → contains text a = true)
    as Hin by (intros a (r & -> & Hr)%list_elem_of_fmap; by apply Hall).
  cbn [map pm_Rules buildPrometheusRuleUnstructured ar_alert buildAlertRule buildAlertRuleWithSummary] in Hin.
  cbn [List.find]. rewrite !Hin; [done|rewrite !elem_of_cons; tauto..].
Qed.

(** C13. Which plans pass the checks of the integration run.  Of the status a reconcile of
    the active plan publishes: the conditions are accepted exactly when the plan has a
    Prometheus client and the reconcile ended at another time than the first one seen;
    the content is accepted exactly when at least five claims are listed, the sample
    buffer of one of them grows over the last week, and both a namespace and a workload
    budget name their object and give a positive quantity.  And a text of the
    PrometheusRule the reconcile writes, whatever the format, is found at the name the
    run asks for and accepted as soon as it contains the names of the rule's alerts. *)
Theorem reconciled_plan_passes_the_checks ck cfg name wd plan active pvcs first :
  get_plan name = Ok plan → isActivePlan plan = Ok (true, active) →
  listScopedPVCs (sp_Namespaces (cp_Spec plan)) = Ok pvcs →
  let '(_, writes, _) := PlanReconcile ck cfg name wd in
  let w := configureWatcherForPlan cfg (cp_Spec plan) (wd_watcher wd) in
  let budgets := sp_Budgets (cp_Spec plan) in
  ∃ st, last writes = Some (UpdatePlanStatus (with_status plan st)) ∧
  (validateCapacityPlanConditions (with_status plan st) first = Ok () ↔
     first ≠ Some (ck_end ck) ∧ prometheus_configured cfg (cp_Spec plan) = true) ∧
  (validateCapacityPlanStatusContent (with_status plan st) = Ok () ↔
     (5 ≤ length pvcs)%nat ∧ (∃ s, s ∈ st_PVCs st ∧ claim_grows (ck_now ck) w s) ∧
     (∃ b, b ∈ NamespaceBudgets budgets ∧ valid_namespace_budget b) ∧
     (∃ b, b ∈ WorkloadBudgets budgets ∧ valid_workload_budget b)) ∧
  (∀ (rule : PrometheusRule) text, (Children.CreateRule rule ∈ writes ∨ ∃ rv, Children.UpdateRule rv rule ∈ writes) →
     (∀ r, r ∈ pm_Rules rule → contains text (ar_alert r) = true) →
     pm_Namespace rule = "default" ∧ pm_Name rule = "capacityplan-" +:+ cp_Name plan ∧ rule_text_ok text = Ok ()).
Proof.
  intros Hp Ha Hl. unfold PlanReconcile. rewrite Hp, Ha.
  destruct (reconcile_active_shape ck cfg plan wd pvcs Hl)
    as (st & m0 & -> & _ & Hpv & Hc & Hs & Htop & Hdig & _ & _ & Hfc & _ & Hans & Ht & _). cbv zeta in *.
  exists st. split_and!; [by rewrite last_snoc|by eapply conditions_ok| |].
  - rewrite status_content_ok. cbn [with_status cp_Status].
    assert (cs_TotalPVCs (st_Summary st) = Z.of_nat (length pvcs)) as ->.
    { rewrite Hs. unfold buildStatusSummary. cbn [cs_TotalPVCs]. rewrite Hpv.
      by rewrite <-(Forall2_length _ _ _ (summarize_pvcs_all _ _ _ _ _)). }
    rewrite Hans, Hdig. rewrite Hpv in Hfc. unfold buildBudgetForecasts in Hfc. injection Hfc as -> ->.
    rewrite (first_scope_of _ valid_namespace_budget "namespace") by (done || intros b; apply namespace_forecast_some).
    rewrite (first_scope_of _ valid_workload_budget "workload") by (done || intros b; apply workload_forecast_some).
    rewrite Htop, signals_of_summaries, <-Hpv.
    set (signals := map _ _). set (workloads := (buildPVCWorkloadIndex _).1).
    assert (enrichTopRisksWithWorkloads (buildTopRisks signals statusSummaryTopN) workloads ≠ [] ↔
            ∃ s, s ∈ st_PVCs st ∧ claim_grows (ck_now ck) (configureWatcherForPlan cfg (cp_Spec plan) (wd_watcher wd)) s)
      as ->.
    { apply risks_of_growing_claims. }
    pose proof digest_not_blank. pose proof anomaly_text_not_blank. split; [|naive_solver lia].
    intros (? & ? & ? & ? & ? & ?). split_and!; try done; lia.
  - intros rule text Hw Hall.
    assert (rule = buildPrometheusRuleUnstructured plan (thresholds (cp_Spec plan)).1 (thresholds (cp_Spec plan)).2
              (st_RiskDigest st)) as ->.
    { destruct Hw as [[Hw|[=]%list_elem_of_singleton]%elem_of_app|[rv [Hw|[=]%list_elem_of_singleton]%elem_of_app]];
        by eapply rule_written. }
    split_and!; [done|done|by eapply rule_text_of].
Qed.
End checks.

(** ** A plan that passes

    A watcher that holds the history a Prometheus server has of five claims, read through a
    client that can list them; the plan has a namespace and a workload budget. *)

Definition five_pvcs : list PersistentVolumeClaim :=
  map (λ n, mkPVC "apps" n n (Some 1000%Z)) ["a"; "b"; "c"; "d"; "e"].
Definition checked_plan : CapacityPlan :=
  mkCapacityPlan "ci" 1 1
    (mkCapacityPlanSpec [] 0 0 0 "" (mkThresholdSpec "" 0)
       (mkBudgetSpec [mkNamespaceBudgetSpec "apps" "100"] [mkWorkloadBudgetSpec "apps" "StatefulSet" "db" "100"]) 0
       (sp_LLM empty_spec) "") empty_status.

#[local] Instance checked_api : Api := {|
  get_pvc _ name := Err (not_found name); list_pvcs _ := Ok five_pvcs;
  list_pods _ := Ok []; get_replicaset _ name := Err (not_found name); get_job _ name := Err (not_found name);
  get_secret _ name := Err (not_found name); list_plans := Ok [checked_plan]; get_plan name := Ok checked_plan;
  get_notification _ name := Err (not_found name) |}.
#[local] Instance checked_server : ChildApi := {|
  get_rule _ name := Err (not_found name); get_configmap _ name := Err (not_found name); write_error _ := None |}.
#[local] Instance checked_backend : FastAPIEnv := {| fastapi_answers _ _ := mkAnswers 0 (Ok 200%Z) (Ok (200%Z, "")) 0 |}.
#[local] Existing Instances amd64 insertion_sorter demo_llm demo_quantities.
#[local] Instance checked_prom : PromEnv := demo_prom demo_used.
#[local] Instance checked_clients : PromClients := recovering_clients.

Definition started : watcher * settings :=
  let '(n, e, w) := BackfillAllPVCs 0 (60 * hour) defaultBackfillStep
    (NewPVCWatcherReconciler (Some (NewPrometheusClient "http://p")) defaultSampleRetention ∅) in
  (w, operator_settings "http://p" "ops" true true n match e with Some e => err_msg e | None => "" end).
Definition checked_world : PlanReconcile.world := PlanReconcile.mkWorld started.1 ∅ [].

Definition checked_run : res Result * list write * PlanReconcile.world :=
  PlanReconcile demo_clock started.2 "ci" checked_world.

(** Some claim of the published status grows. *)
Example checked_claims_grow : ∀ st, last checked_run.1.2 = Some (UpdatePlanStatus (with_status checked_plan st)) →
  ∃ s, s ∈ st_PVCs st ∧ claim_grows (ck_now demo_clock) (configureWatcherForPlan started.2 (cp_Spec checked_plan) started.1) s.
Proof.
  intros st Hst.
  assert (existsb (λ s, bool_decide (claim_grows (ck_now demo_clock)
    (configureWatcherForPlan started.2 (cp_Spec checked_plan) started.1) s))
    match last checked_run.1.2 with Some (UpdatePlanStatus p) => st_PVCs (cp_Status p) | _ => [] end = true) as Hex
    by (vm_compute; reflexivity).
  rewrite Hst in Hex. apply existsb_exists in Hex as (s & Hs & Hg%bool_decide_eq_true).
  exists s. split; [by apply list_elem_of_In|done].
Qed.

Lemma reconciled_plan_passes_the_checks_witness :
  ∃ st, last checked_run.1.2 = Some (UpdatePlanStatus (with_status checked_plan st)) ∧
  validateCapacityPlanConditions (with_status checked_plan st) (Some 1%Z) = Ok () ∧
  validateCapacityPlanStatusContent (with_status checked_plan st) = Ok ().
Proof.
  pose proof (reconciled_plan_passes_the_checks demo_clock started.2 "ci" checked_world checked_plan "ci"
    five_pvcs (Some 1%Z) eq_refl ltac:(by vm_compute) eq_refl) as X. cbv zeta in X.
  change (PlanReconcile demo_clock started.2 "ci" checked_world) with checked_run in X.
  pose proof checked_claims_grow as Hg. destruct checked_run as [[r ws] wd'].
  destruct X as (st & Hst & Hc & Hs & _). exists st. split_and!; [done|by apply Hc|]. apply Hs. split_and!.
  - simpl. lia.
  - by apply Hg.
  - eexists. split; [left|]. split; [done|]. exists 100%Z. by vm_compute.
  - eexists. split; [left|]. split_and!; [done..|]. exists 100%Z. by vm_compute.
Defined.
