(* ===== verification/RiskDigest.v ===== *)
(** * From the claims of a plan to the message that is sent

    The reconcile of the active plan ranks the growing claims and publishes them; the
    reconcile of a notification reads the plan back and sends what it says.  This file
    composes [PlanReconcile] and [Notification], which share only the status the API
    server keeps. *)

From stdpp Require Import base list strings gmap.
From Stdlib Require Import ZArith Lia Ascii.
From S2P Require Import Prelude GoSort GoFloat GoText GoJson GoStrconv JsonDoc GoStd GoSha256 RingBuffer Growth ApiTypes Metrics PromClient K8s Watcher.
From S2P Require Import Risk Summary Workload Budget Anomaly Llm Providers PlanLLM Children PlanReconcile OperatorStart Notification PlanChecks.

Local Open Scope string_scope.

(** ** What is read back

    The API server keeps times to the second.  Of a plan read back, a notification
    looks at the name, the texts, the hash and the top risks. *)

Definition stored_risk (r : PVCRiskSummary) : PVCRiskSummary :=
  mkPVCRiskSummary (rs_Namespace r) (rs_Name r) (rs_WorkloadKind r) (rs_WorkloadName r) (rs_WorkloadNamespace r)
    (rs_UsedBytes r) (rs_CapacityBytes r) (rs_UsageRatio r) (rs_WeeklyGrowthBytesPerDay r)
    (rs_DailyGrowthBytesPerDay r) (rs_GrowthAcceleration r) (rs_ConfidenceR2 r) (rs_DaysUntilFull r)
    (option_map stored_time (rs_ProjectedFullAt r)) (rs_LLMInsight r) (rs_AlertFiring r).

Definition reads_as (published p : CapacityPlan) : Prop :=
  let st := cp_Status published in
  let st' := cp_Status p in
  cp_Name p = cp_Name published ∧ st_RiskDigest st' = st_RiskDigest st ∧
  st_RiskChangeSummary st' = st_RiskChangeSummary st ∧ st_RiskSnapshotHash st' = st_RiskSnapshotHash st ∧
  st_TopRisks st' = map stored_risk (st_TopRisks st).

(** The line of a claim in the message starts with its name. *)
Definition mark (ns name : string) : string := "- " +:+ ns +:+ "/" +:+ name +:+ ":".
Definition names (message ns name : string) : Prop := contains message (mark ns name) = true.

(** ** Lemmas *)

Lemma contains_middle p q s : contains (p +:+ (q +:+ s)) q = true.
Proof.
  induction p as [|c p IH]; rewrite ?string_app_nil_l, ?string_app_cons; cbn [contains].
  - assert (String.prefix q (q +:+ s) = true) as Hp; [|destruct (q +:+ s); cbn [contains]; by rewrite Hp].
    induction q as [|c q IH]; [by destruct s|]. rewrite string_app_cons. simpl. by destruct (ascii_dec c c).
  - rewrite IH. apply orb_true_r.
Qed.

(** A cut time is on the same day. *)
Lemma format_stored_date t : format_date (stored_time t) = format_date t.
Proof. unfold format_date, t_unix, stored_time. rewrite Z.div_mul; [done|]. unfold second. lia. Qed.

Lemma stored_risk_line r : risk_line (stored_risk r) = risk_line r.
Proof.
  unfold risk_line. cbn [stored_risk rs_Namespace rs_Name rs_WeeklyGrowthBytesPerDay rs_ProjectedFullAt rs_WorkloadKind rs_WorkloadName].
  destruct (rs_ProjectedFullAt r) as [t|]; cbn [option_map]; by rewrite ?format_stored_date.
Qed.

(** The lines of the message are added one after another. *)
Definition add_lines (b : string) (l : list PVCRiskSummary) : string :=
  fold_left (λ b r, b +:+ risk_line r +:+ nl) l b.

Lemma add_stored_lines b l : add_lines b (map stored_risk l) = add_lines b l.
Proof.
  unfold add_lines. revert b. induction l as [|r l IH]; intros b; [done|]. cbn [map fold_left].
  by rewrite stored_risk_line, IH.
Qed.

(** The message is the one of the published plan. *)
Lemma same_message published p :
  reads_as published p → renderNotificationMessage p = renderNotificationMessage published.
Proof.
  intros (Hn & Hd & Hc & _ & Ht). unfold renderNotificationMessage. rewrite Hn, Hd, Hc, Ht.
  cbv zeta. f_equal. apply add_stored_lines.
Qed.

(** So is the snapshot. *)
Lemma same_snapshot `{SliceSorter} published p :
  st_RiskSnapshotHash (cp_Status published) = computeRiskSnapshotHash (st_TopRisks (cp_Status published)) →
  reads_as published p → plan_snapshot p = plan_snapshot published.
Proof.
  intros Hh (_ & _ & _ & Hs & Ht). unfold plan_snapshot. rewrite Hs, Ht, Hh.
  destruct (st_TopRisks (cp_Status published)) as [|r l]; [done|]. unfold computeRiskSnapshotHash.
  destruct (sha256_hex_head (snapshot_text (r :: l))) as (c & q & -> & Hc).
  by rewrite (proj2 (String.eqb_neq _ _)) by (rewrite <-(string_app_nil_l (String c q)); by apply visible_not_blank).
Qed.

(** Every listed risk is named. *)
Lemma add_lines_extends b l : ∃ q, add_lines b l = b +:+ q.
Proof.
  unfold add_lines. revert b. induction l as [|r l IH]; intros b; [exists ""; by rewrite string_app_nil_r|].
  cbn [fold_left]. destruct (IH (b +:+ risk_line r +:+ nl)) as [q ->]. eexists. by rewrite <-!string_app_assoc.
Qed.

Lemma lines_named r b l : r ∈ l → ∃ p q, add_lines b l = p +:+ risk_line r +:+ q.
Proof.
  unfold add_lines. revert b. induction l as [|x l IH]; intros b Hr; [by apply not_elem_of_nil in Hr|].
  cbn [fold_left]. apply elem_of_cons in Hr as [->|Hr]; [|by apply IH].
  destruct (add_lines_extends (b +:+ risk_line x +:+ nl) l) as [q Hq]. unfold add_lines in Hq. rewrite Hq.
  exists b, (nl +:+ q). by rewrite <-!string_app_assoc.
Qed.

Lemma extended m s t : (∃ u, s = m +:+ u) → ∃ u, s +:+ t = m +:+ u.
Proof. intros [u ->]. exists (u +:+ t). by rewrite string_app_assoc. Qed.

Lemma risk_line_starts r : ∃ u, risk_line r = mark (rs_Namespace r) (rs_Name r) +:+ u.
Proof.
  unfold risk_line. cbv zeta.
  assert (∀ t, ∃ u, "- " +:+ rs_Namespace r +:+ "/" +:+ rs_Name r +:+ ": " +:+ t = mark (rs_Namespace r) (rs_Name r) +:+ u)
    as Hl by (intros t; exists (" " +:+ t); unfold mark; by rewrite <-!string_app_assoc).
  destruct (rs_ProjectedFullAt r), (_ && _); repeat (apply Hl || apply extended).
Qed.

Lemma message_names plan r :
  r ∈ st_TopRisks (cp_Status plan) → names (renderNotificationMessage plan) (rs_Namespace r) (rs_Name r).
Proof.
  intros Hr. unfold renderNotificationMessage, names. cbv zeta.
  match goal with |- context [fold_left _ _ ?b] => destruct (lines_named r b _ Hr) as (p & q & Hpq) end.
  unfold add_lines in Hpq. rewrite Hpq. clear Hpq. destruct (risk_line_starts r) as [u ->].
  set (inner := " " +:+ rs_Namespace r +:+ "/" +:+ rs_Name r).
  assert (∀ t, mark (rs_Namespace r) (rs_Name r) +:+ t = String "-" (inner +:+ String ":" t)) as Hm.
  { intros t. unfold mark, inner. by rewrite <-!string_app_assoc. }
  rewrite <-string_app_assoc, Hm.
  destruct (trim_space_keeps "-" ":" p inner (u +:+ q)) as (p' & r' & ->); [done..|].
  rewrite <-Hm. apply contains_middle.
Qed.

Section digest.
Context `{MetricsLib} `{MapRange} `{SliceSorter} `{Platform} `{Api} `{ChildApi} `{LlmEnv}.
Context `{QuantityLib} `{ConditionLib} `{FastAPIEnv} `{PromEnv} `{!PromClients}.

(** The top risks are the front of the ranking of the growing claims. *)
Lemma top_risks_ranked now ss snaps workloads r :
  let growers := List.filter growing (buildPVCRiskSignals now ss snaps) in
  let top := take 3 (sort_slice risk_less growers) in
  let risks := enrichTopRisksWithWorkloads (buildTopRisks (buildPVCRiskSignals now ss snaps) statusSummaryTopN) workloads in
  r ∈ top → ∃ s, s ∈ risks ∧ rs_Namespace s = sg_Namespace r ∧ rs_Name s = sg_Name r.
Proof.
  intros growers top risks Hr. unfold risks, enrichTopRisksWithWorkloads, buildTopRisks.
  eexists. split; [apply list_elem_of_fmap_2, list_elem_of_fmap_2, Hr|].
  by destruct (workloads !! _).
Qed.

(** C15. A growing claim reaches the channels.  The active plan is reconciled; then a
    notification of it is reconciled any number of times, while the API server shows
    the published status (its times cut to the second), the services the notification
    needs are up, and at some point the cooldown since the last attempt is over.
    Unless the published snapshot is the one last sent, one of these reconciles
    delivers, and none before it sends anything: every enabled channel gets the message
    of the published plan and takes it, and the status records it.  The message has a
    line for the claims that lead the ranking of the growing ones by the samples the
    watcher holds: three, or all of them, and none that grows slower than one left out. *)
Theorem growing_claims_reach_the_channels ck cfg name wd plan active pvcs n os :
  get_plan name = Ok plan → isActivePlan plan = Ok (true, active) →
  listScopedPVCs (sp_Namespaces (cp_Spec plan)) = Ok pvcs →
  let '(_, writes, _) := PlanReconcile ck cfg name wd in
  let w := configureWatcherForPlan cfg (cp_Spec plan) (wd_watcher wd) in
  ∃ st, last writes = Some (UpdatePlanStatus (with_status plan st)) ∧
  let published := with_status plan st in
  let samples s := GetSnapshot (pvc_key (ps_Namespace s) (ps_Name s)) w in
  let growers := List.filter growing (map (λ s, buildPVCRiskSignal (ck_now ck) s (samples s)) (st_PVCs st)) in
  (st_RiskSnapshotHash st = "" ∨ nt_LastDigestHash (cn_Status n) ≠ plan_snapshot published →
   Forall (λ o, ∃ p, works (cn_Namespace n) o p ∧ reads_as published p) os → Exists (waited n) os →
   ∃ k o fs top rest, run n os !! k = Some (o, fs) ∧ delivered_at o n published fs ∧
     (∀ j r, (j < k)%nat → run n os !! j = Some r → deliveries r.2 = []) ∧
     (top ++ rest)%list ≡ₚ growers ∧ length top = min 3 (length growers) ∧
     (∀ x y, x ∈ top → y ∈ rest → risk_less y x = false) ∧
     ∀ x, x ∈ top → names (renderNotificationMessage published) (sg_Namespace x) (sg_Name x)).
Proof.
  intros Hp Ha Hl. unfold PlanReconcile. rewrite Hp, Ha.
  destruct (reconcile_active_shape ck cfg plan wd pvcs Hl)
    as (st & m0 & -> & _ & Hpv & _ & _ & Htop & _ & _ & Hhash & _). cbv zeta in *.
  exists st. split; [by rewrite last_snoc|]. intros Hnew Hos Hw.
  assert (∀ p, reads_as (with_status plan st) p → plan_snapshot p = plan_snapshot (with_status plan st)) as Hsnap
    by (intros p; by apply same_snapshot).
  assert (st_RiskSnapshotHash st = "" → plan_snapshot (with_status plan st) = "") as Hempty.
  { rewrite Hhash. intros He. unfold plan_snapshot. cbn [with_status cp_Status]. by rewrite Hhash, He. }
  set (published := with_status plan st) in *.
  destruct (changed_risks_are_eventually_sent (reads_as published) (plan_snapshot published) n os)
    as (k & o & p & fs & Hk & Hd & Hr & Hq); [done|destruct Hnew; [left; by apply Hempty|by right]|done..|].
  rewrite Hpv, <-signals_of_summaries, <-Hpv. rewrite <-Hpv in Htop.
  set (signals := buildPVCRiskSignals _ (st_PVCs st) _) in *.
  assert (Forall signal_ok (List.filter growing signals)) as Hok by (apply Forall_forall; intros s; apply built_growing_ok).
  destruct (written_top signal_ok risk_cmp risk_less risk_less_cmp 3 _ Hok) as (Ht1 & _ & Ht3 & Ht4).
  set (ranking := sort_slice risk_less (List.filter growing signals)) in *.
  exists k, o, fs, (take 3 ranking), (drop 3 ranking). split_and!; [done| |done..|].
  - unfold delivered_at in *. rewrite (Hsnap p Hr), (same_message published p Hr) in Hd.
    by destruct Hr as (<- & _).
  - intros x Hx.
    match type of Htop with _ = enrichTopRisksWithWorkloads _ ?wl =>
      destruct (top_risks_ranked _ _ _ wl x Hx) as (r & Hin & <- & <-) end.
    apply message_names. cbn [published with_status cp_Status]. by rewrite Htop.
Qed.
End digest.

(** ** A digest that is sent

    The plan of [PlanChecks] is reconciled; a Slack notification of it has sent another
    snapshot ten minutes before, and waits for the cooldown. *)

#[local] Existing Instances amd64 insertion_sorter demo_llm demo_quantities.
#[local] Existing Instances checked_api checked_server checked_backend checked_prom checked_clients.

Definition published_plan : CapacityPlan :=
  match last checked_run.1.2 with Some (UpdatePlanStatus p) => p | _ => checked_plan end.

Lemma published_of p : last checked_run.1.2 = Some (UpdatePlanStatus p) → published_plan = p.
Proof. unfold published_plan. intros E. rewrite E. reflexivity. Qed.

Definition read_back (p : CapacityPlan) : CapacityPlan :=
  let st := cp_Status p in
  with_status p
    (mkCapacityPlanStatus (st_Conditions st) (st_PVCs st) (st_Summary st) (map stored_risk (st_TopRisks st))
       (st_RiskDigest st) (st_RiskChanges st) (st_RiskChangeSummary st) (st_LLMRiskChangeSummary st)
       (st_LastLLMRiskChangeTime st) (st_RiskSnapshotHash st) (st_NamespaceForecasts st) (st_WorkloadForecasts st)
       (st_LLMBudgetRecommendations st) (st_LastLLMBudgetRecommendationsTime st) (st_Anomalies st)
       (st_AnomalySummary st) (st_LastReconcileTime st) (st_ObservedGeneration st)).

Definition digest_api (p : CapacityPlan) : Api := {|
  get_pvc _ name := Err (not_found name); list_pvcs _ := Ok []; list_pods _ := Ok [];
  get_replicaset _ name := Err (not_found name); get_job _ name := Err (not_found name);
  get_secret _ _ := webhook_secret; list_plans := Ok []; get_plan _ := Ok (read_back p);
  get_notification _ name := Err (not_found name) |}.
Definition digest_spec : CapacityPlanNotificationSpec :=
  mkCapacityPlanNotificationSpec "ci" 0 true false (mkSlackNotificationSpec true "hook" "")
    (mkEmailNotificationSpec false "" "" "" "" "" "" [] "").
Definition digest_notification : CapacityPlanNotification :=
  mkCapacityPlanNotification "ns" "slack" 1 digest_spec (mkCapacityPlanNotificationStatus [] (Some 0%Z) "old" "" []).
Definition digest_at (p : CapacityPlan) (t : Z) : occasion := mkOccasion t digest_spec (digest_api p) noted_env.
Definition digest_run (p : CapacityPlan) : list occasion := [digest_at p (10 * minute); digest_at p (31 * minute)].

Lemma digest_works p t : ∃ p', works "ns" (digest_at p t) p' ∧ reads_as p p'.
Proof. exists (read_back p). split; [|done]. constructor; done || by intros. Qed.

Lemma growers_not_empty {A} (f : A → pvcRiskSignal) l x :
  x ∈ l → growing (f x) = true → List.filter growing (map f l) ≠ [].
Proof.
  intros Hx Hg He. assert (f x ∈ List.filter growing (map f l)) as Hin
    by (apply elem_of_bfilter; split; [by apply list_elem_of_fmap_2|done]).
  rewrite He in Hin. by apply not_elem_of_nil in Hin.
Qed.

Lemma min_3_nil n : 0%nat = min 3 n → n = 0%nat.
Proof. lia. Qed.

Lemma growing_claims_reach_the_channels_witness :
  ∃ k o fs ns name, run digest_notification (digest_run published_plan) !! k = Some (o, fs) ∧
    delivered_at o digest_notification published_plan fs ∧
    names (renderNotificationMessage published_plan) ns name.
Proof.
  pose proof (growing_claims_reach_the_channels demo_clock started.2 "ci" checked_world checked_plan "ci" five_pvcs
    digest_notification (digest_run published_plan) eq_refl ltac:(by vm_compute) eq_refl) as X. cbv zeta in X.
  change (PlanReconcile demo_clock started.2 "ci" checked_world) with checked_run in X.
  assert ((plan_snapshot published_plan =? "old") = false) as Hnew by (vm_compute; reflexivity).
  pose proof checked_claims_grow as Hgrow.
  pose proof published_of as Hpub.
  destruct checked_run as [[r ws] wd']. destruct X as (st & Hst & X). cbn [fst snd] in Hgrow, Hpub.
  specialize (Hpub _ Hst). rewrite <-Hpub in X. destruct (Hgrow st Hst) as (s & Hs & Hg).
  destruct X as (k & o & fs & top & rest & Hk & Hd & _ & _ & Hlen & _ & Hn).
  - right. apply not_eq_sym. by apply String.eqb_neq.
  - apply Forall_cons; split; [apply digest_works|]. apply Forall_singleton, digest_works.
  - right; left. by intros t [= <-].
  - destruct top as [|x top].
    + by destruct (growers_not_empty _ _ s Hs Hg (nil_length_inv _ (min_3_nil _ Hlen))).
    + exists k, o, fs, (sg_Namespace x), (sg_Name x). split_and!; [done..|]. apply Hn. left.
Defined.
