(* ===== verification/CiSetup.v ===== *)
(** * internal/cirunner: setting the cluster up

    The part of integration.go that runs before anything is verified: the monitoring
    stack, the operator's deployment, the port forwards, the dedicated backends of
    the claims, the language model backend, and the workloads with their plan. *)

From stdpp Require Import base list strings gmap functions.
From Stdlib Require Import ZArith Lia Ascii.
From S2P Require Import Prelude GoSort GoFloat GoText GoStd GoStrconv GoJson JsonDoc ApiTypes Metrics PromClient CiVerify CiConfig.
From S2P Require Import CiWorld CiLogic CiWaits CiManifests CiImages CiRunner.

Local Open Scope string_scope.

(** ** Backends of the claims *)

(* go: internal/cirunner/integration.go pvcBackendMount *)
Record pvcBackendMount := mkMount { NodeName : string; Path : string }.

(* go: internal/cirunner/integration.go pvBackendPath *)
Definition pvBackendPath (pv : Volume) (namespace pvcName : string) : res string :=
  let path p := trim_space (default "" p) in
  if negb (path (pv_HostPath pv) =? "") then Ok (path (pv_HostPath pv))
  else if negb (path (pv_Local pv) =? "") then Ok (path (pv_Local pv))
  else Err (errorf ("pv " +:+ pv_Name pv +:+ " for pvc " +:+ namespace +:+ "/" +:+ pvcName
                      +:+ " is not hostPath/local-backed")).

(** The value of a requirement that names a host. *)
(* go: internal/cirunner/integration.go:450-454 pvTargetNode *)
Definition host_of (expr : NodeRequirement) : option string :=
  match nr_Values expr with
  | v :: _ => if (nr_Key expr =? "kubernetes.io/hostname") && (nr_Operator expr =? "In") then Some (trim_space v) else None
  | [] => None
  end.

(* go: internal/cirunner/integration.go pvTargetNode *)
Definition pvTargetNode (pv : Volume) : string :=
  match pv_Required pv with
  | None => ""
  | Some terms => hd "" (omap host_of (concat terms))
  end.

(* go: internal/cirunner/integration.go ensureUniqueBackendPath *)
Definition ensureUniqueBackendPath `{CiEnv} (pathOwner : gmap string string) (backendPath pvcName : string) :
    res (gmap string string) :=
  match pathOwner !! backendPath with
  | Some owner =>
      if negb (owner =? pvcName) then
        Err (errorf ("duplicate PV backend path " +:+ go_quote backendPath +:+ " resolved for pvc " +:+ owner
                       +:+ " and pvc " +:+ pvcName +:+ "; each PVC must have a unique backend path"))
      else Ok (<[backendPath := pvcName]> pathOwner)
  | None => Ok (<[backendPath := pvcName]> pathOwner)
  end.

(** The paths of a mount go to its node, or to every node when it names none of them. *)
(* go: internal/cirunner/integration.go:506-515 prepareDedicatedPVCBackends *)
Definition add_path (nodes : list string) (pathsByNode : gmap string (list string)) (m : pvcBackendMount) :
    gmap string (list string) :=
  let push n (acc : gmap string (list string)) := <[n := (default [] (acc !! n) ++ [Path m])%list]> acc in
  if bool_decide (NodeName m ∈ nodes) && negb (NodeName m =? "") then push (NodeName m) pathsByNode
  else foldl (λ acc n, push n acc) pathsByNode nodes.

(* go: internal/cirunner/integration.go:516-526 prepareDedicatedPVCBackends *)
Definition backend_script : string :=
  foldr (λ l s, l +:+ nl +:+ s) ""
    ["";
     "set -eu";
     "for dir in " +:+ dq +:+ "$@" +:+ dq +:+ "; do";
     "  mkdir -p " +:+ dq +:+ "$dir" +:+ dq;
     "  if grep -qs " +:+ dq +:+ " ${dir} " +:+ dq +:+ " /proc/mounts; then";
     "    umount " +:+ dq +:+ "$dir" +:+ dq;
     "  fi";
     "  mount -t tmpfs -o size=500m tmpfs " +:+ dq +:+ "$dir" +:+ dq;
     "  chmod 0777 " +:+ dq +:+ "$dir" +:+ dq;
     "done"].

(** ** The manager's deployment *)

(* go: internal/cirunner/integration.go:612-617 applyManagerDeploymentSettings *)
Definition needArgs (cfg : Config) : gmap string () :=
  list_to_map (map (λ a, (a, ()))
    ["--metrics-bind-address=:8080"; "--metrics-secure=false"; "--prometheus-url=" +:+ PromURL cfg; "--debug=true"]).

(** The arguments, and whether they changed. *)
(* go: internal/cirunner/integration.go:612-633 applyManagerDeploymentSettings *)
Definition manager_args `{SliceSorter} `{MapRange} (cfg : Config) (args : list string) : bool * list string :=
  let missing := foldl (λ need a, delete a need) (needArgs cfg) args in
  let added := map fst (map_range missing) in
  let args := (args ++ added)%list in
  let sorted := sort_strings args in
  (negb (length added =? 0)%nat || negb (bool_decide (args = sorted)), sorted).

(* go: internal/cirunner/integration.go applyManagerDeploymentSettings *)
Definition applyManagerDeploymentSettings `{SliceSorter} `{MapRange} (cfg : Config) (dep : Deployment) :
    res (bool * Deployment) :=
  match dep_Containers dep with
  | [] => Err (errorf "manager deployment has no containers")
  | c :: rest =>
      let image_changed := negb (ct_Image c =? OperatorImage cfg) in
      let policy_changed := negb (ct_ImagePullPolicy c =? "Never") in
      let '(args_changed, args) := manager_args cfg (ct_Args c) in
      let account_changed := dep_ServiceAccountName dep =? "" in
      let account := if account_changed then "k8s-operator-controller-manager" else dep_ServiceAccountName dep in
      Ok (image_changed || policy_changed || args_changed || account_changed,
          mkDeployment (dep_Name dep) (dep_Generation dep) (dep_Replicas dep)
            (mkContainer (ct_Name c) (OperatorImage cfg) "Never" args :: rest) account
            (dep_ObservedGeneration dep) (dep_UpdatedReplicas dep) (dep_ReadyReplicas dep)
            (dep_AvailableReplicas dep) (dep_UnavailableReplicas dep))
  end.

(** ** The language model *)

(* go: internal/cirunner/integration.go IntegrationRunner.llmEnabled *)
Definition llmEnabled (cfg : Config) : bool :=
  LLMEnabled cfg && negb (trim_space (LLMProvider cfg) =? "") && negb (trim_space (LLMProvider cfg) =? "disabled").

(* go: internal/cirunner/integration.go isTimeoutErr *)
Definition isTimeoutErr (e : error) : bool := err_timeout e.

(* go: internal/cirunner/integration.go IntegrationRunner.shouldHardFailLLMError *)
Definition shouldHardFailLLMError (cfg : Config) (e : error) : bool :=
  if isTimeoutErr e then LLMTimeoutHardFail cfg else negb (LLMSoftFail cfg).

(** The names of the models in the answer; [None] when it does not decode. *)
(* go: internal/cirunner/integration.go:2067-2072 ollamaTagsContainModel *)
Definition ollama_tags (tagsBody : string) : option (list string) :=
  let item v := dec_struct (λ k v old, if key_is k "name" then dec_string v old else Some old) v "" in
  match json_parse tagsBody with
  | Some v => dec_struct (λ k v old, if key_is k "models" then dec_list item v else Some old) v []
  | None => None
  end.

(* go: internal/cirunner/integration.go ollamaTagsContainModel *)
Definition ollamaTagsContainModel (tagsBody model : string) : bool :=
  let model := trim_space model in
  if model =? "" then false
  else
    existsb (λ name, let name := trim_space name in (name =? model) || has_prefix name (model +:+ ":"))
      (default [] (ollama_tags tagsBody))
    || contains tagsBody model.

(** A model whose name only begins another's counts as present. *)
Lemma model_of_longer_name :
  let body := render (JObj [("models", JArr [JObj [("name", JStr "mistral:7b-instruct")]])]) in
  ollama_tags body = Some ["mistral:7b-instruct"] ∧ ollamaTagsContainModel body "mistral:7b" = true.
Proof. vm_compute. by split. Qed.

(* go: internal/cirunner/integration.go isRetryableOllamaPullErr *)
Definition isRetryableOllamaPullErr (e : error) : bool :=
  isTimeoutErr e
  || existsb (contains (to_lower (err_msg e)))
       ["http 500"; "internal_error"; "internal error"; "connection reset"; "eof"; "too many requests"; "temporary"; "timeout"].

(* go: internal/cirunner/integration.go ollamaGenerateResult *)
Record ollamaGenerateResult := mkGenerate {
  og_Model : string; og_Response : string; og_PromptEvalCount : Z; og_EvalCount : Z; og_Done : bool;
  og_DoneReason : string; og_Error : string;
}.

(** The payload, with the field [error] the result does not have. *)
(* go: internal/cirunner/integration.go:2118-2126 parseOllamaGenerateResponse *)
Definition set_generate (k : string) (v : json) (p : ollamaGenerateResult) : option ollamaGenerateResult :=
  let 'mkGenerate m r pc ec d dr e := p in
  if key_is k "model" then m ← dec_string v m; Some (mkGenerate m r pc ec d dr e)
  else if key_is k "response" then r ← dec_string v r; Some (mkGenerate m r pc ec d dr e)
  else if key_is k "done" then d ← dec_bool v d; Some (mkGenerate m r pc ec d dr e)
  else if key_is k "done_reason" then dr ← dec_string v dr; Some (mkGenerate m r pc ec d dr e)
  else if key_is k "error" then e ← dec_string v e; Some (mkGenerate m r pc ec d dr e)
  else if key_is k "prompt_eval_count" then pc ← dec_int v pc; Some (mkGenerate m r pc ec d dr e)
  else if key_is k "eval_count" then ec ← dec_int v ec; Some (mkGenerate m r pc ec d dr e)
  else Some p.

(* go: internal/cirunner/integration.go parseOllamaGenerateResponse *)
Definition parseOllamaGenerateResponse `{GoLib} (body : string) : res ollamaGenerateResult :=
  match json_parse body ≫= λ v, dec_struct set_generate v (mkGenerate "" "" 0 0 false "" "") with
  | None => Err (wrap_error "decoding generate response: " (json_error body))
  | Some p =>
      if negb (trim_space (og_Error p) =? "") then Err (errorf ("generate response error: " +:+ trim_space (og_Error p)))
      else if trim_space (og_Response p) =? "" then Err (errorf "generate response was empty")
      else Ok (mkGenerate (trim_space (og_Model p)) (trim_space (og_Response p)) (og_PromptEvalCount p) (og_EvalCount p)
                 (og_Done p) (trim_space (og_DoneReason p)) (trim_space (og_Error p)))
  end.

Definition pull_payload (model : string) : string := render (JObj [("model", JStr model); ("stream", JBool false)]).

(* go: internal/cirunner/integration.go:2022-2032 deployLLMBackend *)
Definition generate_payload (model prompt : string) : string :=
  render (JObj [("model", JStr model);
                ("options", JObj [("num_predict", JNum "64"); ("repeat_penalty", JNum "1");
                                  ("temperature", JNum "0"); ("top_k", JNum "1")]);
                ("prompt", JStr prompt); ("stream", JBool false)]).

(* go: internal/cirunner/integration.go:1956-1959 deployLLMBackend *)
Definition pull_timeout (cfg : Config) : duration :=
  let t := seconds (LLMModelPullTimeoutSeconds cfg) in if (t <=? 0)%Z then (20 * minute)%Z else t.

(* go: internal/cirunner/integration.go:2008-2014 deployLLMBackend *)
Definition generate_timeout (cfg : Config) : duration :=
  let t := seconds (LLMTimeoutSeconds cfg) in
  let t := if (t <=? 0)%Z then (90 * second)%Z else t in
  if (t <? 30 * second)%Z then (30 * second)%Z else t.

(** How long the first reconcile may take: longer with a model, at most twenty minutes. *)
(* go: internal/cirunner/integration.go:2186-2199 deployWorkloadAndPlan *)
Definition reconcile_wait (cfg : Config) : duration :=
  if llmEnabled cfg then
    let perPVC := seconds (LLMTimeoutSeconds cfg) in
    let perPVC := if (perPVC <=? 0)%Z then (90 * second)%Z else perPVC in
    let estimated := wrap64 (wrap64 (Z.of_nat (length (CIWorkloads cfg)) * perPVC) + 2 * minute) in
    let wait := if (5 * minute <? estimated)%Z then estimated else (5 * minute)%Z in
    if (20 * minute <? wait)%Z then (20 * minute)%Z else wait
  else (5 * minute)%Z.

(** ** Operations *)

Section setup.
Context {W : Type} `{World W} `{SliceSorter} `{MapRange} `{YamlLib} `{RetryLib} `{CiEnv}.
Variable cfg : Config.
#[local] Notation R := (M W IntegrationRunner).

(* go: internal/cirunner/integration.go IntegrationRunner.selectProvisioningNode *)
Definition selectProvisioningNode : R string :=
  nodes ← wrap_err "discovering k3d nodes: " (discoverK3DNodes (ClusterName cfg));
  match nodes with
  | [] => fail (errorf ("no k3d nodes discovered for cluster " +:+ ClusterName cfg))
  | node :: _ => mret node
  end.

(* go: internal/cirunner/integration.go IntegrationRunner.annotatePVCSelectedNode *)
Definition annotatePVCSelectedNode (namespace : string) (pvcNames : list string) (nodeName : string) : R () :=
  let patch := "{" +:+ dq +:+ "metadata" +:+ dq +:+ ":{" +:+ dq +:+ "annotations" +:+ dq +:+ ":{" +:+ dq
    +:+ "volume.kubernetes.io/selected-node" +:+ dq +:+ ":" +:+ go_quote nodeName +:+ "}}}" in
  for_each pvcNames (λ pvcName,
    wrap_err ("annotating pvc " +:+ namespace +:+ "/" +:+ pvcName +:+ " with selected node " +:+ nodeName +:+ ": ")
      (ask_ok (PatchClaim namespace pvcName patch))).

(** The mounts of the claims, given the paths already taken. *)
(* go: internal/cirunner/integration.go:473-494 resolvePVCBackendMounts *)
Fixpoint resolve_mounts (namespace : string) (pathOwner : gmap string string) (pvcNames : list string) :
    R (list pvcBackendMount) :=
  match pvcNames with
  | [] => mret []
  | pvcName :: pvcNames =>
      let pvc_text := "pvc " +:+ namespace +:+ "/" +:+ pvcName in
      pvc ← wrap_err ("getting " +:+ pvc_text +:+ ": ") (ask_res (GetClaim namespace pvcName));
      (if cl_VolumeName pvc =? "" then fail (errorf (pvc_text +:+ " has no bound volumeName")) else mret ()) ;;
      pv ← wrap_err ("getting pv " +:+ cl_VolumeName pvc +:+ " for " +:+ pvc_text +:+ ": ")
             (ask_res (GetVolume (cl_VolumeName pvc)));
      backendPath ← lift (pvBackendPath pv namespace pvcName);
      pathOwner ← lift (ensureUniqueBackendPath pathOwner backendPath pvcName);
      mounts ← resolve_mounts namespace pathOwner pvcNames;
      mret (mkMount (pvTargetNode pv) backendPath :: mounts)
  end.

(* go: internal/cirunner/integration.go IntegrationRunner.resolvePVCBackendMounts *)
Definition resolvePVCBackendMounts (namespace : string) (pvcNames : list string) : R (list pvcBackendMount) :=
  resolve_mounts namespace ∅ pvcNames.

(* go: internal/cirunner/integration.go IntegrationRunner.prepareDedicatedPVCBackends *)
Definition prepareDedicatedPVCBackends (mounts : list pvcBackendMount) : R () :=
  nodes ← wrap_err "discovering k3d nodes: " (discoverK3DNodes (ClusterName cfg));
  let pathsByNode := foldl (add_path nodes) ∅ mounts in
  for_each nodes (λ node,
    match uniqueStrings (default [] (pathsByNode !! node)) with
    | [] => mret ()
    | paths =>
        _ ← wrap_err ("preparing PVC mount backends on " +:+ node +:+ ": ")
              (commandOutput "docker" (["exec"; node; "sh"; "-ceu"; backend_script; "--"] ++ paths)%list);
        mret ()
    end).

(* go: internal/cirunner/integration.go IntegrationRunner.installKubePrometheusStack *)
Definition installKubePrometheusStack : R () :=
  wrap_err "helm repo add failed: " (runCommand "helm"
    ["repo"; "add"; "prometheus-community"; "https://prometheus-community.github.io/helm-charts"]) ;;
  wrap_err "helm repo update failed: " (runCommand "helm" ["repo"; "update"]) ;;
  wrap_err "helm upgrade/install kube-prometheus-stack failed: " (runCommand "helm"
    (["upgrade"; "--install"; "kube-prometheus-stack"; "prometheus-community/kube-prometheus-stack";
      "--version"; KubePromChartVersion cfg;
      "--namespace"; MonitoringNamespace cfg;
      "--create-namespace"; "--wait"; "--timeout"; "12m";
      "-f"; KubePromValuesFile cfg]
     ++ if trim_space (KubePromValuesExtraFile cfg) =? "" then [] else ["-f"; KubePromValuesExtraFile cfg])%list).

(* go: internal/cirunner/integration.go IntegrationRunner.ensureManagerDeployment *)
Definition ensureManagerDeployment (dep : Deployment) : R () :=
  let name := trim_space (dep_Name dep) in
  if name =? "" then fail (errorf "manager deployment name is empty")
  else
    wrap_err "updating manager deployment: " (retry_on is_conflict conflict_retries 0 (
      current ← ask_res (GetDeployment (OpNamespace cfg) name);
      settings ← lift (applyManagerDeploymentSettings cfg current);
      let '(changed, updated) := settings : bool * Deployment in
      if negb changed then mret () else ask_ok (UpdateDeployment (OpNamespace cfg) updated))).

(* go: internal/cirunner/integration.go IntegrationRunner.startPrometheusPortForward *)
Definition startPrometheusPortForward : R () :=
  let wait := waitUntil (seconds (PromEndpointReadyTimeout cfg)) (PollInterval cfg) in
  i ← start_forward PromPF (MonitoringNamespace cfg) "prometheus-kube-prometheus-stack-prometheus-0" 19090 9090;
  wrap_err "prometheus port-forward not ready: " (WaitReady i (30 * second)) ;;
  wait "Prometheus /-/ready" (answers (prom_address +:+ "/-/ready") (λ _, true)) ;;
  set_promClient ;;
  wait "Prometheus API" (
    r ← try (prom_has_results "up");
    mret (match r with Ok ok => ok | Err _ => false end)).

(* go: internal/cirunner/integration.go IntegrationRunner.startManagerMetricsPortForward *)
Definition startManagerMetricsPortForward : R () :=
  pod ← getFirstPodByLabel (OpNamespace cfg) "control-plane" "controller-manager";
  i ← start_forward ManagerPF (OpNamespace cfg) (rp_Name pod) 18080 8080;
  WaitReady i (30 * second) ;;
  waitUntil (seconds (ManagerEndpointReadyTimeout cfg)) (PollInterval cfg) "operator metrics endpoint"
    (answers "http://127.0.0.1:18080/metrics" (λ body,
      contains body "capacityplan_namespace_budget_days_to_breach"
      && contains body "capacityplan_workload_budget_days_to_breach"
      && contains body "capacityplan_pvc_anomaly"
      && negb (llmEnabled cfg && negb (contains body "capacityplan_llm_requests_total")))).

(* go: internal/cirunner/integration.go IntegrationRunner.startAlertmanagerPortForward *)
Definition startAlertmanagerPortForward : R () :=
  let wait := waitUntil (seconds (AlertEndpointReadyTimeout cfg)) (PollInterval cfg) in
  i ← start_forward AlertPF (MonitoringNamespace cfg) "alertmanager-kube-prometheus-stack-alertmanager-0" 19093 9093;
  WaitReady i (30 * second) ;;
  wait "Alertmanager /-/ready" (answers (alertmanager_address +:+ "/-/ready") (λ _, true)) ;;
  wait "Alertmanager /api/v2/status" (answers (alertmanager_address +:+ "/api/v2/status") (λ body, contains body "cluster")) ;;
  set_alertVerifier.

(* go: internal/cirunner/integration.go IntegrationRunner.startAlertReceiverPortForward *)
Definition startAlertReceiverPortForward : R () :=
  pod ← getFirstPodByLabel (MonitoringNamespace cfg) "app" "alert-receiver";
  i ← start_forward AlertReceiverPF (MonitoringNamespace cfg) (rp_Name pod) 19094 8080;
  WaitReady i (30 * second) ;;
  waitUntil (seconds (AlertEndpointReadyTimeout cfg)) (PollInterval cfg) "alert-receiver /healthz"
    (answers "http://127.0.0.1:19094/healthz" (λ _, true)).

(* go: internal/cirunner/integration.go IntegrationRunner.setupMonitoring *)
Definition setupMonitoring : R () :=
  let rolloutTimeout := seconds (MonitoringRolloutTimeout cfg) in
  let rolloutTimeout := if (rolloutTimeout <=? 0)%Z then (10 * minute)%Z else rolloutTimeout in
  let bootstrapTimeout := if (rolloutTimeout <? 3 * minute)%Z then rolloutTimeout else (3 * minute)%Z in
  let poll := PollInterval cfg in
  let ns := MonitoringNamespace cfg in
  logStep "Waiting for kube-system bootstrap readiness" ;;
  waitForKubeSystemBootstrap bootstrapTimeout poll ;;
  logStep "Installing kube-prometheus-stack" ;;
  installKubePrometheusStack ;;
  logStep "Deploying Alertmanager webhook receiver" ;;
  ApplyAlertReceiverManifests (CIManifestDir cfg) cfg ;;
  waitForDeploymentRollout ns "alert-receiver" (5 * minute) poll ;;
  logStep "Waiting for monitoring CRDs and workloads" ;;
  waitForCRDsEstablished ["servicemonitors.monitoring.coreos.com"; "prometheusrules.monitoring.coreos.com"] (5 * minute) poll ;;
  waitForDeploymentRollout ns "kube-prometheus-stack-operator" rolloutTimeout poll ;;
  waitForStatefulSetRollout ns "prometheus-kube-prometheus-stack-prometheus" rolloutTimeout poll ;;
  waitForStatefulSetRollout ns "alertmanager-kube-prometheus-stack-alertmanager" rolloutTimeout poll ;;
  logStep "Validating Prometheus endpoint readiness" ;;
  startPrometheusPortForward ;;
  set_check CheckPromEndpoint "pass".

(* go: internal/cirunner/integration.go IntegrationRunner.deployOperator *)
Definition deployOperator : R () :=
  logStep "Deploying operator manifests" ;;
  ApplyOperatorManifests ;;
  managerDep ← getDeploymentByLabel (OpNamespace cfg) "control-plane" "controller-manager";
  ensureManagerDeployment managerDep ;;
  waitForDeploymentRollout (OpNamespace cfg) (dep_Name managerDep) (seconds (ManagerRolloutTimeout cfg)) (PollInterval cfg) ;;
  set_check CheckManagerRollout "pass".

(** At most three attempts; [further] are the further ones. *)
(* go: internal/cirunner/integration.go:1964-1994 deployLLMBackend *)
Fixpoint pull_model (attempt : Z) (further : nat) : R () :=
  let pulling := wrap_error ("pulling ollama model " +:+ go_quote (LLMModel cfg) +:+ ": ") in
  r ← try (with_timeout (pull_timeout cfg)
        (httpPostJSON "http://127.0.0.1:21134/api/pull" (pull_payload (LLMModel cfg)) (pull_timeout cfg)));
  match r with
  | Ok _ => mret ()
  | Err e =>
      match further with
      | O => fail (pulling e)
      | S further =>
          if negb (isRetryableOllamaPullErr e) then fail (pulling e)
          else
            say ("  ollama model pull retry " +:+ itoa attempt +:+ "/3 after error: " +:+ trimText (err_msg e) 220 +:+ nl) ;;
            done ← ask (Timer (attempt * 5 * second));
            match done with
            | Some ctxErr => fail (pulling ctxErr)
            | None => pull_model (attempt + 1) further
            end
      end
  end.

(** The tags the backend lists, asked for with ten seconds. *)
Definition tags_contain_model : R bool :=
  r ← try (httpBody "http://127.0.0.1:21134/api/tags" (10 * second));
  mret (match r with Ok body => ollamaTagsContainModel body (LLMModel cfg) | Err _ => false end).

(* go: internal/cirunner/integration.go:2042-2056 deployLLMBackend *)
Definition smoke_text (i : Z) (prompt : string) (result : ollamaGenerateResult) : string :=
  let totalTokens := wrap64 (og_PromptEvalCount result + og_EvalCount result) in
  "  ollama smoke request " +:+ itoa i +:+ "/2 prompt=" +:+ go_quote prompt +:+ " response="
    +:+ go_quote (trimText (og_Response result) 160) +:+ " model_tokens(prompt_eval=" +:+ itoa (og_PromptEvalCount result)
    +:+ " eval=" +:+ itoa (og_EvalCount result) +:+ " total=" +:+ itoa totalTokens +:+ ") done_reason="
    +:+ go_quote (og_DoneReason result) +:+ nl
    +:+ (if equal_fold (trim_space (og_DoneReason result)) "length"
         then "    note: completion hit token cap (num_predict=64)" +:+ nl else "").

(* go: internal/cirunner/integration.go:2021-2041 deployLLMBackend *)
Definition smoke_test (request : Z * string) : R () :=
  let '(i, prompt) := request in
  let timeout := wrap64 (generate_timeout cfg + 30 * second) in
  body ← wrap_err ("ollama generation smoke test failed for model " +:+ go_quote (LLMModel cfg) +:+ " prompt "
                     +:+ go_quote prompt +:+ ": ")
           (with_timeout timeout
             (httpPostJSON "http://127.0.0.1:21134/api/generate" (generate_payload (LLMModel cfg) prompt) timeout));
  result ← wrap_err ("ollama generation smoke test returned invalid payload for prompt " +:+ go_quote prompt +:+ ": ")
             (lift (parseOllamaGenerateResponse body));
  say (smoke_text i prompt result).

(* go: internal/cirunner/integration.go IntegrationRunner.deployLLMBackend *)
Definition deployLLMBackend : R () :=
  if negb (llmEnabled cfg) then set_check CheckLLMInsights "skipped (provider disabled)"
  else if negb (trim_space (LLMProvider cfg) =? "ollama") then
    fail (errorf ("unsupported CI LLM provider " +:+ go_quote (LLMProvider cfg)
                    +:+ " (only ollama is supported in CI runner)"))
  else
    let poll := PollInterval cfg in
    logStep "Deploying in-cluster LLM backend (Ollama)" ;;
    ApplyLLMManifests (CIManifestDir cfg) cfg ;;
    waitForDeploymentRollout (LLMNamespace cfg) (LLMDeploymentName cfg) (15 * minute) poll ;;
    pod ← getFirstPodByLabel (LLMNamespace cfg) "app.kubernetes.io/name" "ollama";
    i ← start_forward LlmPF (LLMNamespace cfg) (rp_Name pod) 21134 11434;
    WaitReady i (30 * second) ;;
    waitUntil (90 * second) poll "Ollama /api/tags"
      (answers "http://127.0.0.1:21134/api/tags" (λ body, contains body "models")) ;;
    logStep ("Preparing Ollama model " +:+ go_quote (LLMModel cfg)) ;;
    present ← tags_contain_model;
    (if (present : bool) then
       say ("  ollama model " +:+ go_quote (LLMModel cfg) +:+ " already present; skipping pull" +:+ nl)
     else pull_model 1 2) ;;
    waitUntil (2 * minute) poll ("Ollama model " +:+ go_quote (LLMModel cfg) +:+ " in /api/tags") tags_contain_model ;;
    logStep "Running Ollama generation smoke test" ;;
    for_each [(1%Z, "hello"); (2%Z, "how are you?")] smoke_test.

(* go: internal/cirunner/integration.go IntegrationRunner.setupLLMBackendForWorkload *)
Definition setupLLMBackendForWorkload : R () :=
  r ← try deployLLMBackend;
  match r with
  | Ok _ => mret ()
  | Err e =>
      if shouldHardFailLLMError cfg e then fail e
      else
        set_check CheckLLMInsights ("warn (backend setup failed: " +:+ err_msg e +:+ ")") ;;
        say ("LLM backend warning: " +:+ err_msg e +:+ nl)
  end.

(* go: internal/cirunner/integration.go IntegrationRunner.deployWorkloadAndPlan *)
Definition deployWorkloadAndPlan : R (option time) :=
  let poll := PollInterval cfg in
  let workloadsDir := WorkloadManifestDir cfg in
  let pvcList := pvcNames (CIWorkloads cfg) in
  logStep "Creating PVC workload and CapacityPlan" ;;
  setupLLMBackendForWorkload ;;
  ApplyWorkloadStorageManifestsFromDir workloadsDir ;;
  provisionNode ← selectProvisioningNode;
  logStep ("Pinning CI PVCs to node " +:+ provisionNode +:+ " for provisioning") ;;
  annotatePVCSelectedNode "default" pvcList provisionNode ;;
  waitForPVCsBound "default" pvcList (5 * minute) poll ;;
  logStep "Preparing dedicated PVC backends for kubelet volume metrics" ;;
  mounts ← resolvePVCBackendMounts "default" pvcList;
  prepareDedicatedPVCBackends mounts ;;
  ApplyWorkloadPodManifestsFromDir workloadsDir ;;
  waitForPodsScheduled "default" (CIWorkloads cfg) (3 * minute) poll ;;
  ApplyCapacityPlan cfg ;;
  logStep ("Waiting for CapacityPlan reconciliation (timeout " +:+ duration_text (reconcile_wait cfg) +:+ ")") ;;
  firstReconcile ← waitForCapacityPlanReconcile (PlanName cfg) (reconcile_wait cfg) poll;
  set_check CheckPlanReconcile "pass" ;;
  mret firstReconcile.

(** ** Every operation returns *)

Lemma runs_selectProvisioningNode : Runs selectProvisioningNode.
Proof. unfold selectProvisioningNode. runs_tac. Qed.
#[local] Hint Resolve runs_selectProvisioningNode : runs.
Lemma runs_annotatePVCSelectedNode ns l n : Runs (annotatePVCSelectedNode ns l n).
Proof. unfold annotatePVCSelectedNode. runs_tac. Qed.
#[local] Hint Resolve runs_annotatePVCSelectedNode : runs.
Lemma runs_resolve_mounts ns m l : Runs (resolve_mounts ns m l).
Proof. revert m. induction l as [|p l IH]; intros m; cbn [resolve_mounts]; runs_tac. Qed.
#[local] Hint Resolve runs_resolve_mounts : runs.
Lemma runs_resolvePVCBackendMounts ns l : Runs (resolvePVCBackendMounts ns l).
Proof. unfold resolvePVCBackendMounts. runs_tac. Qed.
#[local] Hint Resolve runs_resolvePVCBackendMounts : runs.
Lemma runs_prepareDedicatedPVCBackends l : Runs (prepareDedicatedPVCBackends l).
Proof. unfold prepareDedicatedPVCBackends. runs_tac. Qed.
#[local] Hint Resolve runs_prepareDedicatedPVCBackends : runs.
Lemma runs_installKubePrometheusStack : Runs installKubePrometheusStack.
Proof. unfold installKubePrometheusStack. runs_tac. Qed.
#[local] Hint Resolve runs_installKubePrometheusStack : runs.
Lemma runs_ensureManagerDeployment d : Runs (ensureManagerDeployment d).
Proof. unfold ensureManagerDeployment. runs_tac. Qed.
#[local] Hint Resolve runs_ensureManagerDeployment : runs.
Lemma runs_startPrometheusPortForward : Runs startPrometheusPortForward.
Proof. unfold startPrometheusPortForward. runs_tac. Qed.
#[local] Hint Resolve runs_startPrometheusPortForward : runs.
Lemma runs_startManagerMetricsPortForward : Runs startManagerMetricsPortForward.
Proof. unfold startManagerMetricsPortForward. runs_tac. Qed.
#[local] Hint Resolve runs_startManagerMetricsPortForward : runs.
Lemma runs_startAlertmanagerPortForward : Runs startAlertmanagerPortForward.
Proof. unfold startAlertmanagerPortForward. runs_tac. Qed.
#[local] Hint Resolve runs_startAlertmanagerPortForward : runs.
Lemma runs_startAlertReceiverPortForward : Runs startAlertReceiverPortForward.
Proof. unfold startAlertReceiverPortForward. runs_tac. Qed.
#[local] Hint Resolve runs_startAlertReceiverPortForward : runs.
Lemma runs_setupMonitoring : Runs setupMonitoring.
Proof. unfold setupMonitoring. runs_tac. Qed.
#[local] Hint Resolve runs_setupMonitoring : runs.
Lemma runs_deployOperator : Runs deployOperator.
Proof. unfold deployOperator. runs_tac. Qed.
#[local] Hint Resolve runs_deployOperator : runs.
Lemma runs_pull_model a n : Runs (pull_model a n).
Proof. revert a. induction n as [|n IH]; intros a; cbn [pull_model]; runs_tac. Qed.
#[local] Hint Resolve runs_pull_model : runs.
Lemma runs_tags_contain_model : Runs tags_contain_model.
Proof. unfold tags_contain_model. runs_tac. Qed.
#[local] Hint Resolve runs_tags_contain_model : runs.
Lemma runs_smoke_test p : Runs (smoke_test p).
Proof. unfold smoke_test. runs_tac. Qed.
#[local] Hint Resolve runs_smoke_test : runs.
Lemma runs_deployLLMBackend : Runs deployLLMBackend.
Proof. unfold deployLLMBackend. runs_tac. Qed.
#[local] Hint Resolve runs_deployLLMBackend : runs.
Lemma runs_setupLLMBackendForWorkload : Runs setupLLMBackendForWorkload.
Proof. unfold setupLLMBackendForWorkload. runs_tac. Qed.
#[local] Hint Resolve runs_setupLLMBackendForWorkload : runs.
Lemma runs_deployWorkloadAndPlan : Runs deployWorkloadAndPlan.
Proof. unfold deployWorkloadAndPlan. runs_tac. Qed.
#[local] Hint Resolve runs_deployWorkloadAndPlan : runs.
End setup.
#[export] Hint Resolve runs_selectProvisioningNode runs_annotatePVCSelectedNode runs_resolve_mounts
  runs_resolvePVCBackendMounts runs_prepareDedicatedPVCBackends runs_installKubePrometheusStack
  runs_ensureManagerDeployment runs_startPrometheusPortForward runs_startManagerMetricsPortForward
  runs_startAlertmanagerPortForward runs_startAlertReceiverPortForward runs_setupMonitoring
  runs_deployOperator runs_pull_model runs_tags_contain_model runs_smoke_test runs_deployLLMBackend
  runs_setupLLMBackendForWorkload runs_deployWorkloadAndPlan : runs.

(** They leave the runner's state alone. *)

Section frames.
Context {W : Type} `{World W} `{SliceSorter} `{MapRange} `{YamlLib} `{RetryLib} `{CiEnv} (cfg : Config) (R : rt IntegrationRunner → rt IntegrationRunner → Prop) `{!PreOrder R}.

Lemma frame_selectProvisioningNode : frame R (selectProvisioningNode cfg).
Proof. unfold selectProvisioningNode. frame_tac. Qed.
#[local] Hint Resolve frame_selectProvisioningNode : frames.

Lemma frame_annotatePVCSelectedNode ns l n : frame R (annotatePVCSelectedNode ns l n).
Proof. unfold annotatePVCSelectedNode. frame_tac. Qed.
#[local] Hint Resolve frame_annotatePVCSelectedNode : frames.

Lemma frame_resolve_mounts ns m l : frame R (resolve_mounts ns m l).
Proof. revert m. induction l as [|p l IH]; intros m; cbn [resolve_mounts]; frame_tac. Qed.
#[local] Hint Resolve frame_resolve_mounts : frames.

Lemma frame_resolvePVCBackendMounts ns l : frame R (resolvePVCBackendMounts ns l).
Proof. unfold resolvePVCBackendMounts. frame_tac. Qed.
#[local] Hint Resolve frame_resolvePVCBackendMounts : frames.

Lemma frame_prepareDedicatedPVCBackends l : frame R (prepareDedicatedPVCBackends cfg l).
Proof. unfold prepareDedicatedPVCBackends. frame_tac. Qed.
#[local] Hint Resolve frame_prepareDedicatedPVCBackends : frames.

Lemma frame_installKubePrometheusStack : frame R (installKubePrometheusStack cfg).
Proof. unfold installKubePrometheusStack. frame_tac. Qed.
#[local] Hint Resolve frame_installKubePrometheusStack : frames.

Lemma frame_ensureManagerDeployment d : frame R (ensureManagerDeployment cfg d).
Proof. unfold ensureManagerDeployment. frame_tac. Qed.
#[local] Hint Resolve frame_ensureManagerDeployment : frames.

Lemma frame_pull_model a n : frame R (pull_model cfg a n).
Proof. revert a. induction n as [|n IH]; intros a; cbn [pull_model]; frame_tac. Qed.
#[local] Hint Resolve frame_pull_model : frames.

Lemma frame_tags_contain_model : frame R (tags_contain_model cfg).
Proof. unfold tags_contain_model. frame_tac. Qed.
#[local] Hint Resolve frame_tags_contain_model : frames.

Lemma frame_smoke_test p : frame R (smoke_test cfg p).
Proof. unfold smoke_test. frame_tac. Qed.
#[local] Hint Resolve frame_smoke_test : frames.
End frames.
#[export] Hint Resolve frame_selectProvisioningNode frame_annotatePVCSelectedNode frame_resolve_mounts
  frame_resolvePVCBackendMounts frame_prepareDedicatedPVCBackends
  frame_installKubePrometheusStack frame_ensureManagerDeployment frame_pull_model
  frame_tags_contain_model frame_smoke_test : frames.

(** Of the runner's state they touch the checks and the port forwards. *)

Section tolerant.
Context {W : Type} `{World W} `{SliceSorter} `{MapRange} `{YamlLib} `{RetryLib} `{CiEnv} (cfg : Config)
  (R : rt IntegrationRunner → rt IntegrationRunner → Prop).

Context `{!Tolerates R}.

Lemma frame_deployOperator : frame R (deployOperator cfg).
Proof. unfold deployOperator. frame_tac. Qed.

Context `{!Starts R}.

Lemma frame_startPrometheusPortForward : frame R (startPrometheusPortForward cfg).
Proof. unfold startPrometheusPortForward. frame_tac. Qed.
#[local] Hint Resolve frame_startPrometheusPortForward : frames.
Lemma frame_startManagerMetricsPortForward : frame R (startManagerMetricsPortForward cfg).
Proof. unfold startManagerMetricsPortForward. frame_tac. Qed.
Lemma frame_startAlertmanagerPortForward : frame R (startAlertmanagerPortForward cfg).
Proof. unfold startAlertmanagerPortForward. frame_tac. Qed.
Lemma frame_startAlertReceiverPortForward : frame R (startAlertReceiverPortForward cfg).
Proof. unfold startAlertReceiverPortForward. frame_tac. Qed.
Lemma frame_setupMonitoring : frame R (setupMonitoring cfg).
Proof. unfold setupMonitoring. frame_tac. Qed.
Lemma frame_deployLLMBackend : frame R (deployLLMBackend cfg).
Proof. unfold deployLLMBackend. frame_tac. Qed.
#[local] Hint Resolve frame_deployLLMBackend : frames.
Lemma frame_setupLLMBackendForWorkload : frame R (setupLLMBackendForWorkload cfg).
Proof. unfold setupLLMBackendForWorkload. frame_tac. Qed.
#[local] Hint Resolve frame_setupLLMBackendForWorkload : frames.
Lemma frame_deployWorkloadAndPlan : frame R (deployWorkloadAndPlan cfg).
Proof. unfold deployWorkloadAndPlan. frame_tac. Qed.
End tolerant.
#[export] Hint Resolve frame_deployOperator frame_startPrometheusPortForward frame_startManagerMetricsPortForward
  frame_startAlertmanagerPortForward frame_startAlertReceiverPortForward frame_setupMonitoring
  frame_deployLLMBackend frame_setupLLMBackendForWorkload frame_deployWorkloadAndPlan : frames.
