(* ===== verification/CiSetupProps.v ===== *)
(** * internal/cirunner: what the setup leaves behind

    The settings of the manager's deployment converge, and every claim gets a backend
    directory of its own, mounted where its volume lives. *)

From stdpp Require Import base list strings gmap functions.
From Stdlib Require Import ZArith Lia Ascii.
From S2P Require Import Prelude GoSort GoFloat GoText GoStd GoStrconv ApiTypes Metrics PromClient CiVerify CiConfig.
From S2P Require Import CiWorld CiLogic CiWaits CiManifests CiImages CiRunner CiSetup.

Local Open Scope string_scope.

(** ** The arguments of the manager *)

Lemma delete_all_lookup {A} (l : list string) (m : gmap string A) k :
  foldl (λ m a, delete a m) m l !! k = if bool_decide (k ∈ l) then None else m !! k.
Proof.
  revert m. induction l as [|a l IH]; intros m; [done|]. cbn [foldl]. rewrite IH.
  destruct (decide (k = a)) as [->|Hne].
  - rewrite lookup_delete_eq. rewrite (bool_decide_eq_true_2 (a ∈ a :: l)) by (by left). by case_bool_decide.
  - rewrite lookup_delete_ne by done. do 2 case_bool_decide; set_solver.
Qed.

(** The needed arguments that are not among the given ones. *)
Definition missing_args (cfg : Config) (args : list string) : gmap string () :=
  foldl (λ need a, delete a need) (needArgs cfg) args.

Lemma missing_args_elem cfg args a (M : MapRange) :
  a ∈ map fst (map_range (missing_args cfg args)) ↔ a ∉ args ∧ is_Some (needArgs cfg !! a).
Proof.
  rewrite list_elem_of_fmap. setoid_rewrite map_range_perm. unfold missing_args. split.
  - intros ([b []] & -> & Hb%elem_of_map_to_list). cbn [fst]. rewrite delete_all_lookup in Hb.
    case_bool_decide; [done|]. by rewrite Hb.
  - intros [Ha [[] Hn]]. exists (a, ()). split; [done|]. apply elem_of_map_to_list.
    rewrite delete_all_lookup. by rewrite bool_decide_eq_false_2.
Qed.

Lemma missing_args_perm cfg args (M1 M2 : MapRange) :
  map fst (map_range (MapRange := M1) (missing_args cfg args)) ≡ₚ map fst (map_range (MapRange := M2) (missing_args cfg args)).
Proof. by rewrite !map_range_perm. Qed.

(** The arguments the deployment ends with do not depend on the two orders Go leaves open. *)
Lemma manager_args_canonical cfg args (S1 S2 : SliceSorter) (M1 M2 : MapRange) :
  manager_args (H := S1) (H0 := M1) cfg args = manager_args (H := S2) (H0 := M2) cfg args.
Proof.
  unfold manager_args. fold (missing_args cfg args). pose proof (missing_args_perm cfg args M1 M2) as Hp.
  assert (sort_strings (H := S1) (args ++ map fst (map_range (MapRange := M1) (missing_args cfg args))) =
    sort_strings (H := S2) (args ++ map fst (map_range (MapRange := M2) (missing_args cfg args)))) as E
    by (apply sort_strings_canonical; by rewrite Hp).
  rewrite E, (Permutation_length Hp). f_equal.
  destruct (length _ =? 0)%nat eqn:El; [|done]. cbn. apply Nat.eqb_eq in El.
  pose proof (Permutation_length Hp) as Hl. rewrite El in Hl. apply length_zero_iff_nil in El, Hl. by rewrite El, Hl.
Qed.

Lemma manager_args_settled cfg args (S : SliceSorter) (M : MapRange) :
  let '(changed, args') := manager_args cfg args in
  manager_args cfg args' = (false, args') ∧ (changed = false ↔ args' = args) ∧
  (∀ a, a ∈ args' ↔ a ∈ args ∨ is_Some (needArgs cfg !! a)).
Proof.
  unfold manager_args. fold (missing_args cfg args). set (added := map fst (map_range (missing_args cfg args))).
  set (args' := sort_strings (args ++ added)).
  assert (∀ a, a ∈ args' ↔ a ∈ args ∨ is_Some (needArgs cfg !! a)) as Hin.
  { intros a. unfold args'. rewrite sort_strings_perm, elem_of_app. unfold added. rewrite missing_args_elem.
    destruct (decide (a ∈ args)); tauto. }
  assert (sort_strings args' = args') as Hs by (apply sort_strings_canonical, sort_strings_perm).
  split_and!; [| |done].
  - fold (missing_args cfg args'). assert (map fst (map_range (missing_args cfg args')) = []) as ->.
    { apply elem_of_nil_inv. intros a. rewrite missing_args_elem, Hin. tauto. }
    rewrite app_nil_r, Hs. cbn. by rewrite bool_decide_eq_true_2.
  - rewrite orb_false_iff, !negb_false_iff, bool_decide_eq_true, Nat.eqb_eq. fold args'. split.
    + intros [Hl <-]. apply length_zero_iff_nil in Hl. by rewrite Hl, app_nil_r.
    + intros E. assert (length added = 0) as Hl; [|split; [done|]].
      { pose proof (f_equal length E) as Hl. unfold args' in Hl.
        rewrite (Permutation_length (sort_strings_perm _)), length_app in Hl. lia. }
      apply length_zero_iff_nil in Hl. by rewrite Hl, app_nil_r.
Qed.

(** ** Directories of the claims *)

(** [ensureUniqueBackendPath] keeps a table of owners. *)
Lemma ensure_unique_owner `{CiEnv} owners path claim owners' :
  ensureUniqueBackendPath owners path claim = Ok owners' → owners ⊆ owners' ∧ owners' !! path = Some claim.
Proof.
  unfold ensureUniqueBackendPath. destruct (owners !! path) as [o|] eqn:Eo.
  - destruct (String.eqb_spec o claim) as [->|]; [|done]. cbn. intros [= <-].
    rewrite insert_id by done. by split.
  - intros [= <-]. split; [by apply insert_subseteq|by rewrite lookup_insert_eq].
Qed.

Lemma backend_path_trimmed pv ns claim path :
  pvBackendPath pv ns claim = Ok path → trimmed_name path.
Proof.
  unfold pvBackendPath. intros Hp. split.
  - destruct (String.eqb_spec (trim_space (default "" (pv_HostPath pv))) ""); cbn [negb] in Hp; [|by injection Hp as <-].
    destruct (String.eqb_spec (trim_space (default "" (pv_Local pv))) ""); cbn [negb] in Hp; [done|by injection Hp as <-].
  - destruct (negb _); [injection Hp as <-; apply trim_space_trimmed|].
    destruct (negb _); [injection Hp as <-; apply trim_space_trimmed|done].
Qed.

Lemma yields_lift {W X A} (r : res A) : yields (W := W) (X := X) (lift r) (λ a, r = Ok a).
Proof. by destruct r; intros n s w b s' w' [= <- _ _]. Qed.

(** The table after all claims: it extends the given one, and says whose each directory is. *)
Lemma yields_resolve_mounts {W} `{World W} `{CiEnv} ns owners names :
  yields (W := W) (resolve_mounts ns owners names) (λ mounts, ∃ table : gmap string string,
    owners ⊆ table ∧ Forall2 (λ p m, table !! Path m = Some p ∧ trimmed_name (Path m)) names mounts).
Proof.
  revert owners. induction names as [|p names IH]; intros owners; cbn [resolve_mounts]; [apply yields_ret; exists owners; by split|].
  do 3 (apply yields_then; intros ?). eapply yields_bind; [apply yields_lift|]. cbv beta. intros path Hpath.
  eapply yields_bind; [apply yields_lift|]. intros owners' [Hsub Hp]%ensure_unique_owner.
  eapply yields_bind; [apply IH|]. intros mounts (table & Ht & Hm). apply yields_ret. exists table. split; [by etrans|].
  constructor; [|done]. cbn. split; [by eapply lookup_weaken|by eapply backend_path_trimmed].
Qed.

(** What [prepareDedicatedPVCBackends] collects for a node. *)
Definition paths_of (nodes : list string) (mounts : list pvcBackendMount) (node : string) : list string :=
  default [] (foldl (add_path nodes) ∅ mounts !! node).

Definition goes_to (nodes : list string) (m : pvcBackendMount) (node : string) : Prop :=
  NodeName m = node ∨ NodeName m ∉ nodes ∨ NodeName m = "".

Lemma push_all_elem (path p node : string) (l : list string) (acc : gmap string (list string)) :
  p ∈ default [] (foldl (λ acc n, <[n := (default [] (acc !! n) ++ [path])%list]> acc) acc l !! node) ↔
  p ∈ default [] (acc !! node) ∨ p = path ∧ node ∈ l.
Proof.
  revert acc. induction l as [|n l IH]; intros acc; cbn [foldl]; [set_solver|]. rewrite IH.
  destruct (decide (n = node)) as [->|Hne].
  - rewrite lookup_insert_eq. cbn. set_solver.
  - rewrite lookup_insert_ne by done. set_solver.
Qed.

Lemma add_path_elem nodes m acc node p :
  node ∈ nodes → node ≠ "" →
  p ∈ default [] (add_path nodes acc m !! node) ↔ p ∈ default [] (acc !! node) ∨ p = Path m ∧ goes_to nodes m node.
Proof.
  intros Hn Hne. unfold add_path, goes_to. case_bool_decide as Hm; cbn [andb].
  - destruct (String.eqb_spec (NodeName m) "") as [E|E]; cbn [negb]; [rewrite push_all_elem; naive_solver|].
    destruct (decide (NodeName m = node)) as [->|Hd].
    + rewrite lookup_insert_eq. cbn. set_solver.
    + rewrite lookup_insert_ne by done. naive_solver.
  - rewrite push_all_elem. naive_solver.
Qed.

Lemma paths_of_elem nodes mounts node p :
  node ∈ nodes → node ≠ "" → p ∈ paths_of nodes mounts node ↔ ∃ m, m ∈ mounts ∧ Path m = p ∧ goes_to nodes m node.
Proof.
  intros Hn Hne. unfold paths_of.
  assert (∀ acc, p ∈ default [] (foldl (add_path nodes) acc mounts !! node) ↔
    p ∈ default [] (acc !! node) ∨ ∃ m, m ∈ mounts ∧ Path m = p ∧ goes_to nodes m node) as Hall.
  { induction mounts as [|m ms IH]; intros acc; cbn [foldl]; [set_solver|].
    rewrite IH, add_path_elem by done. set_solver. }
  rewrite Hall, lookup_empty. set_solver.
Qed.

(** ** Properties *)

(** C23. The manager's settings converge.  Whatever order Go iterates the missing
    arguments in and however it sorts, [applyManagerDeploymentSettings] gives the same
    deployment; applying it again changes nothing, so the update loop ends; it reports
    a change exactly when the deployment became another one; and the container then
    runs the configured image, never pulled, with every argument it had and the four
    it needs. *)
Theorem manager_settings_converge cfg dep changed dep' (S1 S2 : SliceSorter) (M1 M2 : MapRange) :
  applyManagerDeploymentSettings (H := S1) (H0 := M1) cfg dep = Ok (changed, dep') →
  applyManagerDeploymentSettings (H := S2) (H0 := M2) cfg dep = Ok (changed, dep') ∧
  applyManagerDeploymentSettings (H := S2) (H0 := M2) cfg dep' = Ok (false, dep') ∧
  (changed = false ↔ dep' = dep) ∧
  ∃ c c' rest, dep_Containers dep = c :: rest ∧ dep_Containers dep' = c' :: rest ∧
    ct_Image c' = OperatorImage cfg ∧ ct_ImagePullPolicy c' = "Never" ∧ dep_ServiceAccountName dep' ≠ "" ∧
    ∀ a, a ∈ ct_Args c' ↔ a ∈ ct_Args c ∨ is_Some (needArgs cfg !! a).
Proof.
  unfold applyManagerDeploymentSettings. destruct (dep_Containers dep) as [|c rest] eqn:Ec; [done|].
  rewrite (manager_args_canonical cfg (ct_Args c) S2 S1 M2 M1).
  pose proof (manager_args_settled cfg (ct_Args c) S1 M1) as Hs.
  destruct (manager_args cfg (ct_Args c)) as [ac args] eqn:Ea. destruct Hs as (Hagain & Hac & Hin).
  intros [= <- <-]. cbn [dep_Containers]. split; [done|]. split_and!.
  - cbn [ct_Args ct_Image ct_ImagePullPolicy]. rewrite (manager_args_canonical cfg args S2 S1 M2 M1), Hagain.
    cbn [dep_ServiceAccountName]. rewrite !String.eqb_refl. cbn [negb orb].
    by destruct (String.eqb_spec (dep_ServiceAccountName dep) "") as [|Hne]; [|rewrite (proj2 (String.eqb_neq _ _) Hne)].
  - rewrite !orb_false_iff, !negb_false_iff, !String.eqb_eq, String.eqb_neq, Hac. split.
    + intros [[[Hi Hp] ->] Ha]. destruct dep as [? ? ? cs acc]. destruct c. cbn in *. subst.
      by rewrite (proj2 (String.eqb_neq _ _) Ha).
    + intros E. pose proof (f_equal dep_Containers E) as E1. pose proof (f_equal dep_ServiceAccountName E) as E2.
      cbn in E1, E2. rewrite Ec in E1. injection E1 as E1. destruct c; cbn in *. injection E1 as Hi Hp Ha. split_and!; [done..|].
      destruct (String.eqb_spec (dep_ServiceAccountName dep) ""); [|done]. by rewrite <-E2.
  - eexists c, _, rest. split_and!; [done..| |done]. cbn.
    destruct (String.eqb_spec (dep_ServiceAccountName dep) ""); done.
Qed.

Lemma manager_settings_converge_witness :
  let dep := mkDeployment "manager" 1 (Some 1%Z) [mkContainer "manager" "old" "Always" ["--debug=true"; "--a"]] "" 1 1 1 1 0 in
  let cfg := LoadConfig (λ _, "") in
  ∃ dep', applyManagerDeploymentSettings cfg dep = Ok (true, dep') ∧ applyManagerDeploymentSettings cfg dep' = Ok (false, dep').
Proof.
  intros dep cfg. eexists. split; [by vm_compute|].
  eapply (manager_settings_converge cfg dep true _ insertion_sorter insertion_sorter list_range list_range). by vm_compute.
Defined.

(** C24. No two claims share a directory.  When [resolvePVCBackendMounts] succeeds it
    gives one mount for each claim, in order, with a nonempty path, and two different
    claims never get the same path, whatever volumes the cluster bound; a node then
    mounts exactly the paths of the claims whose volume it holds, or whose volume names
    no known node, each once. *)
Theorem claims_get_their_own_directories {W} `{World W} `{CiEnv} `{SliceSorter} ns names n s w mounts s' w' :
  resolvePVCBackendMounts ns names n s w = Some (Ok mounts, s', w') →
  length mounts = length names ∧
  (∀ i j p q mi mj, names !! i = Some p → names !! j = Some q → mounts !! i = Some mi → mounts !! j = Some mj →
     p ≠ q → Path mi ≠ Path mj) ∧
  (∀ nodes node, node ∈ nodes → node ≠ "" →
     let paths := uniqueStrings (paths_of nodes mounts node) in
     NoDup paths ∧ ∀ path, path ∈ paths ↔ ∃ m, m ∈ mounts ∧ Path m = path ∧ goes_to nodes m node).
Proof.
  unfold resolvePVCBackendMounts. intros Hr.
  destruct (yields_resolve_mounts ns ∅ names _ _ _ _ _ _ Hr) as (table & _ & Hm). split_and!.
  - symmetry. by eapply Forall2_length.
  - intros i j p q mi mj Hp Hq Hi Hj Hne E. destruct (Forall2_lookup_lr _ _ _ _ _ _ Hm Hp Hi) as [Hip _].
    destruct (Forall2_lookup_lr _ _ _ _ _ _ Hm Hq Hj) as [Hjq _]. rewrite E, Hjq in Hip. congruence.
  - intros nodes node Hn Hne. split; [apply uniqueStrings_NoDup|]. intros path. rewrite uniqueStrings_elem.
    assert (∀ m, m ∈ mounts → trimmed_name (Path m)) as Ht.
    { intros m (i & Hi)%list_elem_of_lookup. destruct (Forall2_lookup_r _ _ _ _ _ Hm Hi) as (p & _ & _ & Ht). done. }
    setoid_rewrite paths_of_elem; [|done..]. split.
    + intros (_ & q & (m & Hmm & <- & Hg) & <-). exists m. split_and!; [done| |done]. symmetry. by apply Ht.
    + intros (m & Hmm & <- & Hg). destruct (Ht m Hmm) as [Hp Hq]. split; [done|]. exists (Path m). by eauto.
Qed.
