(* ===== verification/CiGrowth.v ===== *)
(** * internal/cirunner: trends and the growth cross-check

    The part of integration.go that watches the plan while the workloads write: the
    snapshots of the trend observation, the comparison of the growth rates with
    Prometheus and its second try with a wider window, and the checks of the plan and
    its PrometheusRule.  Of what it prints, the counts of the series used, the claims
    still awaited and the plan dumped when a ratio is invalid are left out. *)

From stdpp Require Import base list strings gmap functions.
From Stdlib Require Import ZArith Lia Ascii SpecFloat.
From S2P Require Import Prelude GoSort GoFloat GoText GoStd GoStrconv ApiTypes Metrics PromClient CiVerify CiConfig CiWorld.
From S2P Require Import CiLogic CiWaits CiRunner CiFigures CiSetup.

Local Open Scope string_scope.

Section growth.
Context {W : Type} `{World W} `{SliceSorter} `{CiEnv}.
Variable cfg : Config.
Notation R := (M W IntegrationRunner).

(* go: internal/cirunner/integration.go IntegrationRunner.prometheusScalar *)
Definition prometheusScalar (query : string) : R (option float) :=
  r ← get;
  if promClient r then
    v ← try (prom_scalar query); mret (match v with Ok v => v | Err _ => None end)
  else mret None.

(* go: internal/cirunner/integration.go IntegrationRunner.pvcRequestedBytes *)
Definition pvcRequestedBytes (pvcName : string) : R (option Z) :=
  pvc ← ask (GetClaim "default" pvcName);
  mret (match pvc with Ok pvc => cl_Request pvc | Err _ => None end).

(* go: internal/cirunner/integration.go IntegrationRunner.collectPromPVCRawRow *)
Definition collectPromPVCRawRow (pvc : string) : R promPVCRawRow :=
  used ← prometheusScalar (promUsedBytesQuery "default" pvc);
  cap ← prometheusScalar (promCapacityBytesQuery "default" pvc);
  series ← prometheusScalar
    ("count(kubelet_volume_stats_used_bytes" +:+ pvc_selector "namespace" "persistentvolumeclaim" "default" pvc +:+ ")");
  req ← pvcRequestedBytes pvc;
  mret (formatPromPVCRawRow (mkRawRow pvc used cap req series "" "" "" "" "" "" "" "" false)).

(** The rows, in the order of the claims. *)
Fixpoint collect_rows (pvcs : list string) : R (list promPVCRawRow) :=
  match pvcs with
  | [] => mret []
  | pvc :: pvcs => row ← collectPromPVCRawRow pvc; rows ← collect_rows pvcs; mret (row :: rows)
  end.

(** The number of mismatches among the rows. *)
(* go: internal/cirunner/integration.go IntegrationRunner.printPrometheusPVCRawSnapshot *)
Definition printPrometheusPVCRawSnapshot (pvcs : list string) : R Z :=
  now ← ask Now;
  rows ← collect_rows pvcs;
  let mismatchCount := Z.of_nat (length (List.filter Mismatch rows)) in
  say (raw_snapshot_text now rows mismatchCount) ;;
  mret mismatchCount.

(** The PVCs without a series of the operator. *)
(* go: internal/cirunner/integration.go:955-961 waitForOperatorPVCMetricsSeries *)
Fixpoint missing_series (pvcs : list string) : R (list string) :=
  match pvcs with
  | [] => mret []
  | pvc :: pvcs =>
      v ← try (prom_scalar (promOperatorPVCSeriesCountQuery "default" pvc));
      missing ← missing_series pvcs;
      mret (match v with
            | Ok (Some v) => if fltb v (f_of_Z 1) then pvc :: missing else missing
            | _ => pvc :: missing
            end)
  end.

(* go: internal/cirunner/integration.go:949-952 waitForOperatorPVCMetricsSeries *)
Definition series_timeout : duration :=
  let t := seconds (PromEndpointReadyTimeout cfg) in
  if (0 <? t)%Z && (t <? 2 * minute)%Z then t else (2 * minute)%Z.

(* go: internal/cirunner/integration.go IntegrationRunner.waitForOperatorPVCMetricsSeries *)
Definition waitForOperatorPVCMetricsSeries (pvcs : list string) : R () :=
  r ← get;
  if negb (promClient r) then fail (errorf "prometheus client is not initialized")
  else match pvcs with
  | [] => mret ()
  | _ =>
      waitUntil series_timeout (PollInterval cfg) "Prometheus operator PVC usage series"
        (missing ← missing_series pvcs; mret (match missing with [] => true | _ => false end))
  end.

(* go: internal/cirunner/integration.go IntegrationRunner.logOperatorMetricsIngestionDebug *)
Definition logOperatorMetricsIngestionDebug (pvcs : list string) : R () :=
  let debug text := say ("  operator-metrics debug: " +:+ text +:+ nl) in
  r ← get;
  if negb (promClient r) then mret ()
  else
    total ← try (prom_scalar "count(capacityplan_pvc_usage_bytes)");
    debug (match total with
           | Err e => "count(capacityplan_pvc_usage_bytes) query failed: " +:+ err_msg e
           | Ok (Some v) => "total capacityplan_pvc_usage_bytes series=" +:+ sprintf_f 0 v
           | Ok None => "total capacityplan_pvc_usage_bytes series query returned no data"
           end) ;;
    for_each pvcs (λ pvc,
      v ← try (prom_scalar (promOperatorPVCSeriesCountQuery "default" pvc));
      debug (match v with
             | Err e => pvc +:+ " query failed: " +:+ err_msg e
             | Ok None => pvc +:+ " series not found"
             | Ok (Some v) => pvc +:+ " series count=" +:+ sprintf_f 0 v
             end)) ;;
    up ← try (prom_has_results ("up{job=~" +:+ dq +:+ ".*controller-manager.*" +:+ dq +:+ "} == 1"));
    debug (match up with
           | Err e => "controller-manager up query failed: " +:+ err_msg e
           | Ok up => "controller-manager up targets present=" +:+ bool_text up
           end).

(* go: internal/cirunner/integration.go IntegrationRunner.hasPrometheusNonzeroUsage *)
Fixpoint hasPrometheusNonzeroUsage (pvcs : list string) : R bool :=
  match pvcs with
  | [] => mret false
  | pvc :: pvcs =>
      used ← prometheusScalar (promUsedBytesQuery "default" pvc);
      match used with
      | Some used => if fgtb used fzero then mret true else hasPrometheusNonzeroUsage pvcs
      | None => hasPrometheusNonzeroUsage pvcs
      end
  end.

(* go: internal/cirunner/integration.go IntegrationRunner.prometheusHasCapacityAlerts *)
Definition prometheusHasCapacityAlerts : R bool :=
  r ← get;
  if negb (promClient r) then mret false
  else ok ← try (prom_has_results BuildPrometheusCapacityAlertsQuery);
       mret (match ok with Ok ok => ok | Err _ => false end).

(** ** The cross-check *)

(** The rate of the operator's series, or of the kubelet's. *)
(* go: internal/cirunner/integration.go:1085-1103 compareGrowthCalculations *)
Definition growth_rate (compareWindow : Z) (pvcName : string) : R (option float) :=
  operator ← try (prom_scalar (BuildOperatorPVCGrowthDerivQuery "default" pvcName compareWindow));
  match operator with
  | Ok (Some v) => mret (Some v)
  | _ =>
      kubelet ← try (prom_scalar (BuildPVCGrowthDerivQuery "default" pvcName compareWindow));
      match kubelet, operator with
      | Ok v, _ => mret v
      | Err kubeletErr, Err operatorErr =>
          fail (mkError ("operator deriv query failed: " +:+ err_msg operatorErr +:+ "; kubelet deriv query failed: "
                           +:+ err_msg kubeletErr) (err_notfound operatorErr) (err_timeout operatorErr))
      | Err kubeletErr, Ok _ => fail kubeletErr
      end
  end.

(* go: internal/cirunner/integration.go:1066-1071 compareGrowthCalculations *)
Definition compare_options : CompareOptions :=
  mkCompareOptions (GrowthCompareRelTol cfg) (GrowthCompareAbsTolBytesDay cfg) (MinGrowthComparablePVCs cfg)
    (MinGrowthMatchingPVCs cfg).

(** civerify's comparison, every fetch a step of the run. *)
(* go: internal/cirunner/integration.go:1080-1105 compareGrowthCalculations *)
Definition run_comparison (cpGrowth : list PVCGrowth) (compareWindow : Z) : R (ComparisonSummary * option error) :=
  compare_growth (λ pvcName, try (growth_rate compareWindow pvcName)) compare_options cpGrowth.

(** After a failure that looks like too short a window, once more with a longer one. *)
(* go: internal/cirunner/integration.go:1107-1131 compareGrowthCalculations *)
Definition compare_with_retry (cpGrowth : list PVCGrowth) (window : Z) : R (ComparisonSummary * option error) :=
  first ← run_comparison cpGrowth window;
  let '(summary, compareErr) := first : ComparisonSummary * option error in
  say (PrintGrowthSummary summary window) ;;
  match compareErr with
  | None => mret (summary, None)
  | Some e =>
      let retryWindow := sampleRetentionWindowSeconds cfg in
      if negb (growthComparisonHint summary =? "") && (window <? retryWindow)%Z then
        say ("  growth-compare retry: widening lookback to " +:+ itoa retryWindow +:+ "s (previous="
               +:+ itoa window +:+ "s)" +:+ nl) ;;
        second ← run_comparison cpGrowth retryWindow;
        say (PrintGrowthSummary (fst second) retryWindow) ;;
        mret second
      else mret (summary, Some e)
  end.

(* go: internal/cirunner/integration.go:1072-1079 compareGrowthCalculations *)
Definition lookback_text (st : integrationState) : string :=
  let configuredWindow := GrowthCompareWindowSeconds cfg in
  let configuredWindow := if (configuredWindow <? 1)%Z then 1%Z else configuredWindow in
  "  growth-compare lookback window: " +:+ itoa (effectiveGrowthCompareWindowSeconds cfg st) +:+ "s (configured="
    +:+ itoa configuredWindow +:+ "s observedTrend=" +:+ itoa (observedTrendWindowSeconds st) +:+ "s sampleWindow="
    +:+ itoa (sampleRetentionWindowSeconds cfg) +:+ "s)" +:+ nl.

(* go: internal/cirunner/integration.go IntegrationRunner.compareGrowthCalculations *)
Definition compareGrowthCalculations : R () :=
  plan ← ask (GetPlan (PlanName cfg));
  cpGrowth ← lift (plan_growth (PlanName cfg) (match plan with Ok (cp, _) => Ok cp | Err e => Err e end));
  r ← get;
  say (lookback_text (state r)) ;;
  o ← compare_with_retry cpGrowth (effectiveGrowthCompareWindowSeconds cfg (state r));
  let '(summary, compareErr) := o : ComparisonSummary * option error in
  match compareErr with
  | Some e =>
      let hint := growthComparisonHint summary in
      fail (if hint =? "" then e
            else mkError (err_msg e +:+ " (" +:+ hint +:+ ")") (err_notfound e) (err_timeout e))
  | None =>
      say (growth_interpretation_text cpGrowth summary compare_options) ;;
      set_check CheckGrowthCompare
        ("pass (" +:+ itoa (sm_Matched summary) +:+ "/" +:+ itoa (sm_Comparable summary) +:+ " matched)")
  end.

(* go: internal/cirunner/integration.go IntegrationRunner.checkCapacityPlanPostConditions *)
Definition checkCapacityPlanPostConditions (firstReconcile : option time) : R () :=
  cp ← wrap_err "getting capacity plan: " (getCapacityPlan (PlanName cfg));
  lift (validateCapacityPlanConditions cp firstReconcile) ;;
  lift (validateCapacityPlanStatusContent cp).

(* go: internal/cirunner/integration.go IntegrationRunner.validatePrometheusRuleContent *)
Definition validatePrometheusRuleContent : R () :=
  let name := "capacityplan-" +:+ PlanName cfg in
  text ← wrap_err ("getting prometheusrule/" +:+ name +:+ ": ") (ask_res (GetRule "default" name));
  lift (rule_text_ok text).

(** ** Observing *)

(** The seconds since the observation began. *)
Definition observed_seconds : R Z :=
  now ← ask Now;
  r ← get;
  mret (whole_seconds (t_sub now (obsStartedAt (state r)))).

(** The plan at the time, printed with what Prometheus has. *)
(* go: internal/cirunner/integration.go:1657-1669 captureTrendSnapshot *)
Definition print_snapshot (pvcs : list string) (snapshots remaining : Z) : R CapacityPlan :=
  elapsed ← observed_seconds;
  say ("  snapshot=" +:+ itoa snapshots +:+ " elapsed=" +:+ itoa elapsed +:+ "s remaining=" +:+ itoa remaining +:+ "s" +:+ nl) ;;
  cp ← wrap_err "getting capacity plan during observation: " (getCapacityPlan (PlanName cfg));
  now ← ask Now;
  say (capacity_snapshot_text cfg now cp) ;;
  now ← ask Now;
  say (growth_summary_text now cp) ;;
  mismatchCount ← printPrometheusPVCRawSnapshot pvcs;
  (if (0 <? mismatchCount)%Z then take_note CapacityMismatch else mret ()) ;;
  mret cp.

(* go: internal/cirunner/integration.go IntegrationRunner.captureTrendSnapshot *)
Definition captureTrendSnapshot (pvcs : list string) (obs : trendObservation) : R trendObservation :=
  let interval := trendIntervalSeconds cfg (to_remaining obs) in
  ask (Sleep (seconds interval)) ;;
  cp ← print_snapshot pvcs (to_snapshots obs + 1) (to_remaining obs - interval);
  let growing := countGrowingPVCs cfg cp in
  say ("  growingPVCsAboveThreshold=" +:+ itoa growing +:+ " thresholdBytesPerMin="
         +:+ sprintf_f 0 (MinGrowthBytesPerMin cfg) +:+ nl) ;;
  used ← (if hasNonzeroUsage cp then mret true else hasPrometheusNonzeroUsage pvcs);
  alerts ← prometheusHasCapacityAlerts;
  (if (alerts : bool) then take_note CapacityAlertsSeen else mret ()) ;;
  for_each (invalid_ratio_lines cfg cp) warn ;;
  (if hasInvalidUsageRatio cfg cp then
     fail (errorf ("capacity plan usage ratio exceeded sanity limit (" +:+ sprintf_f 4 (UsageRatioSanityMax cfg) +:+ ")"))
   else mret ()) ;;
  mret (mkObs (to_remaining obs - interval) (to_snapshots obs + 1) (Z.max (to_maxGrowing obs) growing)
          (to_sawNonzeroUsage obs || (used : bool)) (Some cp)).

(* go: internal/cirunner/integration.go IntegrationRunner.shouldStopTrendObservation *)
Definition shouldStopTrendObservation (obs : trendObservation) : R (bool * Z) :=
  obsElapsed ← observed_seconds;
  mret (trend_confirmed cfg obs obsElapsed, obsElapsed).

(* go: internal/cirunner/integration.go IntegrationRunner.finalizeTrendObservation *)
Definition finalizeTrendObservation (obs : trendObservation) : R () :=
  if negb (to_sawNonzeroUsage obs) then
    fail (errorf "all PVC usedBytes remained 0 throughout trend observation; no growth signal detected from metrics")
  else if (to_maxGrowing obs <? MinGrowingPVCs cfg)%Z then
    fail (errorf ("peak growing PVC count was " +:+ itoa (to_maxGrowing obs) +:+ "; required at least "
                    +:+ itoa (MinGrowingPVCs cfg) +:+ " PVCs above " +:+ sprintf_f 0 (MinGrowthBytesPerMin cfg) +:+ " bytes/min"))
  else
    now ← ask Now;
    take_note (ObservationEnds now (to_snapshots obs) (to_maxGrowing obs)) ;;
    say (trend_interpretation_text cfg (to_lastCP obs) (to_snapshots obs) (to_maxGrowing obs)) ;;
    set_check CheckTrendSignal ("pass (nonzeroUsage=1, peakGrowingPVCs=" +:+ itoa (to_maxGrowing obs) +:+ ")").

(** The loop of the observation; its turns are taken from the fuel. *)
(* go: internal/cirunner/integration.go:1744-1752 observeTrends *)
Fixpoint observe_turns (pvcs : list string) (obs : trendObservation) (fuel : nat) : R trendObservation :=
  match fuel with
  | O => out_of_fuel
  | S fuel =>
      if (to_remaining obs <=? 0)%Z then mret obs
      else
        obs ← captureTrendSnapshot pvcs obs;
        stop ← shouldStopTrendObservation obs;
        if fst (stop : bool * Z) then
          say ("  earlyStop=true reason=trend-signals-confirmed elapsed=" +:+ itoa (snd stop) +:+ "s snapshots="
                 +:+ itoa (to_snapshots obs) +:+ nl) ;;
          mret obs
        else observe_turns pvcs obs fuel
  end.

(* go: internal/cirunner/integration.go IntegrationRunner.observeTrends *)
Definition observeTrends : R () :=
  logStep ("Observing storage trends for " +:+ itoa (TrendObserveSeconds cfg) +:+ "s") ;;
  now ← ask Now;
  take_note (ObservationStarts now) ;;
  obs ← with_fuel (observe_turns (pvcNames (CIWorkloads cfg)) (newTrendObservation (TrendObserveSeconds cfg)));
  finalizeTrendObservation obs.

(** ** Every operation returns *)

Lemma runs_prometheusScalar q : Runs (prometheusScalar q).
Proof. unfold prometheusScalar. runs_tac. Qed.
#[local] Hint Resolve runs_prometheusScalar : runs.
Lemma runs_pvcRequestedBytes p : Runs (pvcRequestedBytes p).
Proof. unfold pvcRequestedBytes. runs_tac. Qed.
#[local] Hint Resolve runs_pvcRequestedBytes : runs.
Lemma runs_collectPromPVCRawRow p : Runs (collectPromPVCRawRow p).
Proof. unfold collectPromPVCRawRow. runs_tac. Qed.
#[local] Hint Resolve runs_collectPromPVCRawRow : runs.
Lemma runs_collect_rows l : Runs (collect_rows l).
Proof. induction l; cbn [collect_rows]; runs_tac. Qed.
#[local] Hint Resolve runs_collect_rows : runs.
Lemma runs_printPrometheusPVCRawSnapshot l : Runs (printPrometheusPVCRawSnapshot l).
Proof. unfold printPrometheusPVCRawSnapshot. runs_tac. Qed.
#[local] Hint Resolve runs_printPrometheusPVCRawSnapshot : runs.
Lemma runs_missing_series l : Runs (missing_series l).
Proof. induction l; cbn [missing_series]; runs_tac. Qed.
#[local] Hint Resolve runs_missing_series : runs.
Lemma runs_waitForOperatorPVCMetricsSeries l : Runs (waitForOperatorPVCMetricsSeries l).
Proof. unfold waitForOperatorPVCMetricsSeries. runs_tac. Qed.
#[local] Hint Resolve runs_waitForOperatorPVCMetricsSeries : runs.
Lemma runs_logOperatorMetricsIngestionDebug l : Runs (logOperatorMetricsIngestionDebug l).
Proof. unfold logOperatorMetricsIngestionDebug. runs_tac. Qed.
#[local] Hint Resolve runs_logOperatorMetricsIngestionDebug : runs.
Lemma runs_hasPrometheusNonzeroUsage l : Runs (hasPrometheusNonzeroUsage l).
Proof. induction l; cbn [hasPrometheusNonzeroUsage]; runs_tac. Qed.
#[local] Hint Resolve runs_hasPrometheusNonzeroUsage : runs.
Lemma runs_prometheusHasCapacityAlerts : Runs prometheusHasCapacityAlerts.
Proof. unfold prometheusHasCapacityAlerts. runs_tac. Qed.
#[local] Hint Resolve runs_prometheusHasCapacityAlerts : runs.
Lemma runs_growth_rate n p : Runs (growth_rate n p).
Proof. unfold growth_rate. runs_tac. Qed.
#[local] Hint Resolve runs_growth_rate : runs.
Lemma runs_compare_growth {X} (F : string → M W X (option float)) o l :
  (∀ x, Runs (F x)) → Runs (compare_growth (F := M W X) (λ x, try (F x)) o l).
Proof.
  intros HF. unfold compare_growth. generalize (mkSummary [] 0 0).
  assert (∀ s, Runs (compare_loop (F := M W X) (λ x, try (F x)) o l s)); [|intros s; runs_tac].
  induction l as [|p l IH]; intros s; cbn [compare_loop]; runs_tac.
Qed.
#[local] Hint Resolve runs_compare_growth : runs.
Lemma runs_run_comparison l n : Runs (run_comparison l n).
Proof. unfold run_comparison. runs_tac. Qed.
#[local] Hint Resolve runs_run_comparison : runs.
Lemma runs_compare_with_retry l n : Runs (compare_with_retry l n).
Proof. unfold compare_with_retry. runs_tac. Qed.
#[local] Hint Resolve runs_compare_with_retry : runs.
Lemma runs_compareGrowthCalculations : Runs compareGrowthCalculations.
Proof. unfold compareGrowthCalculations. runs_tac. Qed.
#[local] Hint Resolve runs_compareGrowthCalculations : runs.
Lemma runs_checkCapacityPlanPostConditions t : Runs (checkCapacityPlanPostConditions t).
Proof. unfold checkCapacityPlanPostConditions. runs_tac. Qed.
#[local] Hint Resolve runs_checkCapacityPlanPostConditions : runs.
Lemma runs_validatePrometheusRuleContent : Runs validatePrometheusRuleContent.
Proof. unfold validatePrometheusRuleContent. runs_tac. Qed.
#[local] Hint Resolve runs_validatePrometheusRuleContent : runs.
Lemma runs_observed_seconds : Runs observed_seconds.
Proof. unfold observed_seconds. runs_tac. Qed.
#[local] Hint Resolve runs_observed_seconds : runs.
Lemma runs_print_snapshot l n m : Runs (print_snapshot l n m).
Proof. unfold print_snapshot. runs_tac. Qed.
#[local] Hint Resolve runs_print_snapshot : runs.
Lemma runs_captureTrendSnapshot l o : Runs (captureTrendSnapshot l o).
Proof. unfold captureTrendSnapshot. runs_tac. Qed.
#[local] Hint Resolve runs_captureTrendSnapshot : runs.
Lemma runs_shouldStopTrendObservation o : Runs (shouldStopTrendObservation o).
Proof. unfold shouldStopTrendObservation. runs_tac. Qed.
#[local] Hint Resolve runs_shouldStopTrendObservation : runs.
Lemma runs_finalizeTrendObservation o : Runs (finalizeTrendObservation o).
Proof. unfold finalizeTrendObservation. runs_tac. Qed.
#[local] Hint Resolve runs_finalizeTrendObservation : runs.

Lemma captured_remaining pvcs obs :
  yields (captureTrendSnapshot pvcs obs)
    (λ obs', to_remaining obs' = to_remaining obs - trendIntervalSeconds cfg (to_remaining obs))%Z.
Proof.
  unfold captureTrendSnapshot. cbv zeta. do 8 (apply yields_then; intros ?). by apply yields_ret.
Qed.

Lemma interval_positive remaining : (0 < remaining)%Z → (0 < trendIntervalSeconds cfg remaining <= remaining)%Z.
Proof.
  intros Hr. unfold trendIntervalSeconds. split_ifs; bool_to_prop; lia.
Qed.

(** The time that remains bounds the turns. *)
Lemma observe_returns pvcs k obs s w :
  (to_remaining obs <= Z.of_nat k)%Z →
  ∃ r s' w' n, (∀ f n', (n ≤ f)%nat → (n ≤ n')%nat → observe_turns pvcs obs f n' s w = Some (r, s', w')) ∧
    (w_clock w <= w_clock w')%Z ∧ w_deadlines w' = w_deadlines w.
Proof.
  revert obs s w. induction k as [|k IH]; intros obs s w Hk.
  all: destruct (Z.leb_spec (to_remaining obs) 0);
    [exists (Ok obs), s, w, 1%nat; split_and!; [|done..]; intros [|f] n' Hf Hn; [lia|]; cbn [observe_turns];
     by rewrite (proj2 (Z.leb_le _ _)) by done|].
  { lia. }
  destruct (runs_captureTrendSnapshot pvcs obs s w) as (r & s1 & w1 & n1 & E1 & Hc1 & Hd1). destruct r as [obs1|e].
  2: { exists (Err e), s1, w1, (S n1). split_and!; [|done..]. intros [|f] n' Hf Hn; [lia|]. cbn [observe_turns].
       rewrite (proj2 (Z.leb_gt _ _)) by done. unfold mbind, M_bind. by rewrite E1 by lia. }
  pose proof (captured_remaining pvcs obs _ _ _ _ _ _ (E1 n1 ltac:(lia))) as Hrem. cbn beta in Hrem.
  pose proof (interval_positive (to_remaining obs) ltac:(done)) as Hi.
  destruct (runs_shouldStopTrendObservation obs1 s1 w1) as (r & s2 & w2 & n2 & E2 & Hc2 & Hd2).
  destruct r as [stop|e].
  2: { exists (Err e), s2, w2, (S (n1 `max` n2)). split_and!; [|lia|congruence]. intros [|f] n' Hf Hn; [lia|].
       cbn [observe_turns]. rewrite (proj2 (Z.leb_gt _ _)) by done. unfold mbind, M_bind. by rewrite E1, E2 by lia. }
  destruct stop as [[] elapsed].
  { pose proof (runs_say (X := IntegrationRunner) ("  earlyStop=true reason=trend-signals-confirmed elapsed="
      +:+ itoa elapsed +:+ "s snapshots=" +:+ itoa (to_snapshots obs1) +:+ nl) s2 w2) as (r & s3 & w3 & n3 & E3 & Hc3 & Hd3).
    assert (∃ u, r = Ok u) as [u ->] by (specialize (E3 n3 ltac:(lia)); unfold say, ask in E3;
      destruct (w_do _ _); injection E3 as <- _ _; by eexists).
    exists (Ok obs1), s3, w3, (S (n1 `max` n2 `max` n3)). split_and!; [|lia|congruence]. intros [|f] n' Hf Hn; [lia|].
    cbn [observe_turns]. rewrite (proj2 (Z.leb_gt _ _)) by done. unfold mbind, M_bind. rewrite E1, E2 by lia.
    cbn [fst snd]. by rewrite E3 by lia. }
  destruct (IH obs1 s2 w2 ltac:(lia)) as (r & s3 & w3 & n3 & E3 & Hc3 & Hd3).
  exists r, s3, w3, (S (n1 `max` n2 `max` n3)). split_and!; [|lia|congruence]. intros [|f] n' Hf Hn; [lia|].
  cbn [observe_turns]. rewrite (proj2 (Z.leb_gt _ _)) by done. unfold mbind, M_bind. rewrite E1, E2 by lia.
  cbn [fst snd]. apply E3; lia.
Qed.

Lemma runs_observe pvcs obs : Runs (with_fuel (observe_turns pvcs obs)).
Proof.
  intros s w. destruct (observe_returns pvcs (Z.to_nat (to_remaining obs)) obs s w) as (r & s' & w' & n & E & ? & ?);
    [lia|]. exists r, s', w', n. split_and!; [|done..]. intros n' Hn. by apply E.
Qed.
#[local] Hint Resolve runs_observe : runs.

Lemma runs_observeTrends : Runs observeTrends.
Proof. unfold observeTrends. runs_tac. Qed.
End growth.
#[export] Hint Resolve runs_prometheusScalar runs_pvcRequestedBytes runs_collectPromPVCRawRow
  runs_printPrometheusPVCRawSnapshot runs_missing_series runs_waitForOperatorPVCMetricsSeries
  runs_logOperatorMetricsIngestionDebug runs_hasPrometheusNonzeroUsage
  runs_prometheusHasCapacityAlerts runs_growth_rate runs_compare_growth runs_run_comparison
  runs_compare_with_retry runs_compareGrowthCalculations runs_checkCapacityPlanPostConditions
  runs_validatePrometheusRuleContent runs_captureTrendSnapshot runs_shouldStopTrendObservation
  runs_finalizeTrendObservation runs_observeTrends : runs.

(** Of the runner's state they touch notes and checks. *)

Section frames.
Context {W : Type} `{World W} `{SliceSorter} `{CiEnv} (cfg : Config) (R : rt IntegrationRunner → rt IntegrationRunner → Prop).
Context `{!PreOrder R}.
Lemma frame_prometheusScalar q : frame R (prometheusScalar q).
Proof. unfold prometheusScalar. frame_tac. Qed.
#[local] Hint Resolve frame_prometheusScalar : frames.
Lemma frame_pvcRequestedBytes p : frame R (pvcRequestedBytes p).
Proof. unfold pvcRequestedBytes. frame_tac. Qed.
#[local] Hint Resolve frame_pvcRequestedBytes : frames.
Lemma frame_collectPromPVCRawRow p : frame R (collectPromPVCRawRow p).
Proof. unfold collectPromPVCRawRow. frame_tac. Qed.
#[local] Hint Resolve frame_collectPromPVCRawRow : frames.
Lemma frame_collect_rows l : frame R (collect_rows l).
Proof. induction l; cbn [collect_rows]; frame_tac. Qed.
#[local] Hint Resolve frame_collect_rows : frames.
Lemma frame_printPrometheusPVCRawSnapshot l : frame R (printPrometheusPVCRawSnapshot l).
Proof. unfold printPrometheusPVCRawSnapshot. frame_tac. Qed.
#[local] Hint Resolve frame_printPrometheusPVCRawSnapshot : frames.
Lemma frame_missing_series l : frame R (missing_series l).
Proof. induction l; cbn [missing_series]; frame_tac. Qed.
#[local] Hint Resolve frame_missing_series : frames.
Lemma frame_waitForOperatorPVCMetricsSeries l : frame R (waitForOperatorPVCMetricsSeries cfg l).
Proof. unfold waitForOperatorPVCMetricsSeries. frame_tac. Qed.
#[local] Hint Resolve frame_waitForOperatorPVCMetricsSeries : frames.
Lemma frame_logOperatorMetricsIngestionDebug l : frame R (logOperatorMetricsIngestionDebug l).
Proof. unfold logOperatorMetricsIngestionDebug. frame_tac. Qed.
#[local] Hint Resolve frame_logOperatorMetricsIngestionDebug : frames.
Lemma frame_hasPrometheusNonzeroUsage l : frame R (hasPrometheusNonzeroUsage l).
Proof. induction l; cbn [hasPrometheusNonzeroUsage]; frame_tac. Qed.
#[local] Hint Resolve frame_hasPrometheusNonzeroUsage : frames.
Lemma frame_prometheusHasCapacityAlerts : frame R prometheusHasCapacityAlerts.
Proof. unfold prometheusHasCapacityAlerts. frame_tac. Qed.
#[local] Hint Resolve frame_prometheusHasCapacityAlerts : frames.
Lemma frame_growth_rate n p : frame R (growth_rate n p).
Proof. unfold growth_rate. frame_tac. Qed.
#[local] Hint Resolve frame_growth_rate : frames.
Lemma frame_compare_growth (F : string → M W IntegrationRunner (option float)) o l :
  (∀ x, frame R (F x)) → frame R (compare_growth (F := M W IntegrationRunner) (λ x, try (F x)) o l).
Proof.
  intros HF. unfold compare_growth. generalize (mkSummary [] 0 0).
  assert (∀ s, frame R (compare_loop (F := M W IntegrationRunner) (λ x, try (F x)) o l s)); [|intros s; frame_tac].
  induction l as [|p l IH]; intros s; cbn [compare_loop]; frame_tac.
Qed.
#[local] Hint Resolve frame_compare_growth : frames.
Lemma frame_run_comparison l n : frame R (run_comparison cfg l n).
Proof. unfold run_comparison. frame_tac. Qed.
#[local] Hint Resolve frame_run_comparison : frames.
Lemma frame_compare_with_retry l n : frame R (compare_with_retry cfg l n).
Proof. unfold compare_with_retry. frame_tac. Qed.
#[local] Hint Resolve frame_compare_with_retry : frames.
Lemma frame_checkCapacityPlanPostConditions t : frame R (checkCapacityPlanPostConditions cfg t).
Proof. unfold checkCapacityPlanPostConditions. frame_tac. Qed.
#[local] Hint Resolve frame_checkCapacityPlanPostConditions : frames.
Lemma frame_validatePrometheusRuleContent : frame R (validatePrometheusRuleContent cfg).
Proof. unfold validatePrometheusRuleContent. frame_tac. Qed.
#[local] Hint Resolve frame_validatePrometheusRuleContent : frames.
Lemma frame_observed_seconds : frame R observed_seconds.
Proof. unfold observed_seconds. frame_tac. Qed.
#[local] Hint Resolve frame_observed_seconds : frames.
Lemma frame_shouldStopTrendObservation o : frame R (shouldStopTrendObservation cfg o).
Proof. unfold shouldStopTrendObservation. frame_tac. Qed.
#[local] Hint Resolve frame_shouldStopTrendObservation : frames.
Context `{!Tolerates R}.
Lemma frame_compareGrowthCalculations : frame R (compareGrowthCalculations cfg).
Proof. unfold compareGrowthCalculations. frame_tac. Qed.
#[local] Hint Resolve frame_compareGrowthCalculations : frames.
Lemma frame_print_snapshot l n m : frame R (print_snapshot cfg l n m).
Proof. unfold print_snapshot. frame_tac. Qed.
#[local] Hint Resolve frame_print_snapshot : frames.
Lemma frame_captureTrendSnapshot l o : frame R (captureTrendSnapshot cfg l o).
Proof. unfold captureTrendSnapshot. frame_tac. Qed.
#[local] Hint Resolve frame_captureTrendSnapshot : frames.
Lemma frame_finalizeTrendObservation o : frame R (finalizeTrendObservation cfg o).
Proof. unfold finalizeTrendObservation. frame_tac. Qed.
#[local] Hint Resolve frame_finalizeTrendObservation : frames.

Lemma frame_observe pvcs obs : frame R (with_fuel (observe_turns cfg pvcs obs)).
Proof.
  apply frame_with_fuel. intros n. revert obs. induction n as [|n IH]; intros obs; cbn [observe_turns]; frame_tac.
Qed.
#[local] Hint Resolve frame_observe : frames.

Lemma frame_observeTrends : frame R (observeTrends cfg).
Proof. unfold observeTrends. frame_tac. Qed.
End frames.
#[export] Hint Resolve frame_prometheusScalar frame_pvcRequestedBytes frame_collectPromPVCRawRow
  frame_printPrometheusPVCRawSnapshot frame_missing_series frame_waitForOperatorPVCMetricsSeries
  frame_logOperatorMetricsIngestionDebug frame_hasPrometheusNonzeroUsage
  frame_prometheusHasCapacityAlerts frame_growth_rate frame_compare_growth frame_run_comparison
  frame_compare_with_retry frame_checkCapacityPlanPostConditions
  frame_validatePrometheusRuleContent frame_shouldStopTrendObservation
  frame_compareGrowthCalculations frame_captureTrendSnapshot frame_finalizeTrendObservation
  frame_observeTrends : frames.
