(* ===== verification/CiGrowthProps.v ===== *)
(** * internal/cirunner: what the growth comparison decides

    The comparison of an integration run judges the rates Prometheus answered during the
    run, and the window it asks for stays inside what the operator has sampled. *)

From stdpp Require Import base list strings functions.
From Stdlib Require Import ZArith Lia Ascii.
From S2P Require Import Prelude GoSort GoFloat GoText GoStd GoStrconv ApiTypes Metrics PromClient CiVerify CiConfig.
From S2P Require Import CiWorld CiLogic CiRunner CiFigures CiGrowth.

Local Open Scope string_scope.

(** ** The loop over the claims *)

(** The claims with a name, and the names the loop asks for. *)
Definition named (l : list PVCGrowth) : list PVCGrowth := List.filter (λ p, negb (pg_Name p =? "")) l.
Definition asked (l : list PVCGrowth) : list string := List.filter (λ n, negb (n =? "")) (map pg_Name l).

Lemma asked_named l : asked l = map pg_Name (named l).
Proof.
  unfold asked, named. induction l as [|p l IH]; [done|]. simpl. by destruct (pg_Name p =? ""); simpl; rewrite IH.
Qed.

(** The loop looks at the answers for these names only. *)
Lemma compare_loop_ext f g opts l s :
  (∀ n, n ∈ asked l → f n = g n) → compare_loop (F := Pure) f opts l s = compare_loop (F := Pure) g opts l s.
Proof.
  revert s. induction l as [|p l IH]; intros s Hfg; [done|]. rewrite !compare_loop_cons.
  unfold asked in *. cbn [map List.filter] in *.
  destruct (pg_Name p =? ""); cbn [negb] in Hfg; [by apply IH|].
  assert (∀ n, n ∈ asked l → f n = g n) as Htail by (intros n Hn; apply Hfg; by right).
  rewrite Hfg by (by left). destruct (g (pg_Name p)); [by apply IH|done].
Qed.

Section loop.
Context {W X : Type}.

(** Every outcome of the loop with effects is the one without, for the answers given on
    the way. *)
Lemma yields_compare_loop (fetch : string → M W X (option float)) opts l s :
  NoDup (asked l) →
  yields (compare_loop (F := M W X) (λ n, try (fetch n)) opts l s) (λ o, ∃ f, o = compare_loop (F := Pure) f opts l s).
Proof.
  revert s. induction l as [|p l IH]; intros s Hnd; cbn [compare_loop].
  { apply yields_ret. by exists (λ _, Ok None). }
  unfold asked in Hnd. cbn [map List.filter] in Hnd.
  destruct (String.eqb_spec (pg_Name p) "") as [E|E]; cbn [negb] in Hnd; [by apply IH|].
  inversion_clear Hnd as [|? ? Hnot Hnd0]. rename Hnd0 into Hnd. apply yields_then. intros data. destruct data as [data|e].
  2: { apply yields_ret. by exists (λ _, Err e). }
  intros n s0 w o s' w' Hr. destruct (IH _ Hnd _ _ _ _ _ _ Hr) as [f ->].
  exists (λ k, if k =? pg_Name p then Ok data else f k). unfold mbind, Pure_bind. rewrite String.eqb_refl.
  apply compare_loop_ext. intros k Hk.
  destruct (String.eqb_spec k (pg_Name p)) as [->|]; [|done]. by destruct Hnot.
Qed.

Lemma yields_compare_growth (fetch : string → M W X (option float)) opts l :
  NoDup (asked l) →
  yields (compare_growth (F := M W X) (λ n, try (fetch n)) opts l) (λ o, ∃ f, o = CompareGrowth l f opts).
Proof.
  intros Hnd. unfold compare_growth. eapply yields_bind; [by apply yields_compare_loop|].
  intros o [f ->]. apply yields_ret. by exists f.
Qed.

(** Claims asked for one after the other, the world moving on: the answers until one
    fails. *)
Section turns.
Variable answers : string → W → res (option float) → W → Prop.

Inductive in_turn : list string → W → list (option float) → option error → W → Prop :=
| turn_end w : in_turn [] w [] None w
| turn_next name names w d w1 ds failed w2 :
    answers name w (Ok d) w1 → in_turn names w1 ds failed w2 → in_turn (name :: names) w (d :: ds) failed w2
| turn_failed name names w e w1 : answers name w (Err e) w1 → in_turn (name :: names) w [] (Some e) w1.

(** The error of a comparison whose last answer is an error. *)
Definition query_error (names : list string) (ds : list (option float)) (e : error) : error :=
  wrap_error ("querying Prometheus growth for " +:+ default "" (names !! length ds) +:+ ": ") e.

Variable fetch : string → M W X (option float).
Hypothesis fetch_answers : ∀ name n s w r s' w', fetch name n s w = Some (r, s', w') → s' = s ∧ answers name w r w'.

Lemma loop_in_turn opts l rows sum n s w r s' w' :
  counted rows sum → compare_loop (F := M W X) (λ p, try (fetch p)) opts l sum n s w = Some (r, s', w') →
  ∃ sum' ds failed, r = Ok (sum', option_map (query_error (asked l) ds) failed) ∧ s' = s ∧
    in_turn (asked l) w ds failed w' ∧ counted (rows ++ zip_with (row_for opts) (named l) ds) sum' ∧
    (failed = None → length ds = length (named l)).
Proof.
  revert rows sum w. induction l as [|p l IH]; intros rows sum w Hc; cbn [compare_loop].
  { intros [= <- <- <-]. exists sum, [], None. rewrite app_nil_r. split_and!; [done..|constructor|done|done]. }
  unfold asked, named. cbn [map List.filter]. destruct (pg_Name p =? "") eqn:En; cbn [negb]; [by apply IH|].
  unfold mbind, M_bind, try. destruct (fetch (pg_Name p) n s w) as [[[[d|e] s1] w1]|] eqn:Ef; [| |done];
    destruct (fetch_answers _ _ _ _ _ _ _ Ef) as [-> Ha].
  - intros Hl. destruct (IH _ _ _ (counted_add opts p d _ _ Hc) Hl) as (sum' & ds & failed & -> & -> & Ht & Hc' & Hn).
    exists sum', (d :: ds), failed. rewrite <-(assoc_L (++)%list) in Hc'.
    split_and!; [done|done|by econstructor|done|intros Hf; simpl; f_equal; by apply Hn].
  - intros [= <- <- <-]. exists sum, [], (Some e). rewrite app_nil_r. split_and!; [done..|by constructor|done|done].
Qed.
End turns.
End loop.

(** ** What Prometheus answers *)

Section prometheus.
Context {W : Type} `{World W} `{E : CiEnv}.

(** The answer to one query of the run's client, and the world after it. *)
Definition prometheus_says (query : string) (w : W) : res (option float) * W :=
  match ci_query_url (pc_baseURL run_client) query with
  | Err _ => (@QueryInstantScalar E (pc_baseURL run_client) query, w)
  | Ok u => let '(o, w) := w_do (HttpGet (5 * second) u) w in
      (@QueryInstantScalar (answering E o) (pc_baseURL run_client) query, w)
  end.

(** The rate of a claim over a window: that of the operator's series when Prometheus has
    one, else what it says of the kubelet's series; the kubelet's query alone can fail it. *)
Inductive rate_answered (window : Z) (name : string) : W → res (option float) → W → Prop :=
| by_operator w v w1 :
    prometheus_says (BuildOperatorPVCGrowthDerivQuery "default" name window) w = (Ok (Some v), w1) →
    rate_answered window name w (Ok (Some v)) w1
| by_kubelet w operator w1 d w2 :
    prometheus_says (BuildOperatorPVCGrowthDerivQuery "default" name window) w = (operator, w1) →
    (∀ v, operator ≠ Ok (Some v)) →
    prometheus_says (BuildPVCGrowthDerivQuery "default" name window) w1 = (Ok d, w2) →
    rate_answered window name w (Ok d) w2
| by_neither w operator w1 kubeletErr e w2 :
    prometheus_says (BuildOperatorPVCGrowthDerivQuery "default" name window) w = (operator, w1) →
    (∀ v, operator ≠ Ok (Some v)) →
    prometheus_says (BuildPVCGrowthDerivQuery "default" name window) w1 = (Err kubeletErr, w2) →
    err_msg e = (match operator with
                 | Err operatorErr => "operator deriv query failed: " +:+ err_msg operatorErr +:+
                     "; kubelet deriv query failed: " +:+ err_msg kubeletErr
                 | Ok _ => err_msg kubeletErr
                 end) →
    rate_answered window name w (Err e) w2.

Lemma prom_scalar_says query n (s : rt IntegrationRunner) w :
  prom_scalar query n s w = Some ((prometheus_says query w).1, s, (prometheus_says query w).2).
Proof.
  unfold prom_scalar, client_scalar, client_query, prometheus_says. destruct (ci_query_url _ _) as [u|]; [|done].
  unfold mbind, M_bind, ask. change (pc_timeout run_client) with (5 * second)%Z. by destruct (w_do _ w).
Qed.

Lemma growth_rate_answered window name n (s : rt IntegrationRunner) w r s' w' :
  growth_rate window name n s w = Some (r, s', w') → s' = s ∧ rate_answered window name w r w'.
Proof.
  unfold growth_rate, mbind, M_bind, try. rewrite prom_scalar_says.
  destruct (prometheus_says _ w) as [o w1] eqn:Eo. cbn [fst snd].
  destruct o as [[v|]|eo]; [intros [= <- <- <-]; split; [done|by econstructor]|..];
    rewrite prom_scalar_says; destruct (prometheus_says _ w1) as [[d|ek] w2] eqn:Ek; cbn [fst snd];
    intros [= <- <- <-]; (split; [done|]); by econstructor.
Qed.

(** ** The verdict *)

(** What the report says of a claim: comparable when Prometheus had a finite rate, and a
    match when moreover the two rates are no farther apart than the larger of the two
    tolerances, the relative one being that share of the larger rate, or of one byte. *)
Definition row_says (rel abs : float) (p : PVCGrowth) (d : option float) (row : ComparisonRow) : Prop :=
  let status := pg_StatusBytesPerDay p in
  row_Name row = pg_Name p ∧ row_StatusBytesPerDay row = status ∧
  (row_HasPromData row = true ↔ ∃ v, d = Some v ∧ is_nan v = false ∧ is_inf v = false) ∧
  (row_HasPromData row = true → d = Some (row_PromBytesPerDay row) ∧
     row_AbsDiff row = fabs (fsub status (row_PromBytesPerDay row))) ∧
  (row_Matched row = true ↔ ∃ v, d = Some v ∧ is_nan v = false ∧ is_inf v = false ∧
     fleb (fabs (fsub status v))
       (math_max abs
          (fmul rel (math_max (f_of_Z 1) (math_max (fabs status) (fabs v))))) = true).

Lemma row_for_says opts p d : row_says (RelativeTolerance opts) (AbsToleranceBytesDay opts) p d (row_for opts p d).
Proof.
  unfold row_says, row_for. destruct d as [v|].
  2: { split_and!; try done; (split; [done|by intros (? & [=] & _)]). }
  destruct (is_nan v) eqn:En, (is_inf v) eqn:Ei; cbn [orb].
  4: { split_and!; try done; (split; [by exists v|]); [done|]. by intros (v' & [= <-] & _ & _ & Hle). }
  all: split_and!; try done; (split; [done|]); intros (v' & [= <-] & Hn & Hi); intuition congruence.
Qed.

Lemma zip_rows_say opts ps ds :
  Forall2 (λ '(p, d) row, row_says (RelativeTolerance opts) (AbsToleranceBytesDay opts) p d row)
    (zip ps ds) (zip_with (row_for opts) ps ds).
Proof.
  revert ds. induction ps as [|p ps IH]; intros [|d ds]; simpl; constructor; [apply row_for_says|apply IH].
Qed.

(** C20. The growth comparison of a run judges what Prometheus answers.  It asks for the
    claims that have a name, in their order, and each answer is the one Prometheus gives
    at that moment: the rate of the operator's series, or of the kubelet's when the
    operator's has none.  The report has one row per answer, in order, that says exactly
    whether Prometheus had a finite rate and whether the rates agree within the tolerances
    of the configuration; the counts are those of the rows.  The first query that fails
    ends the comparison with an error that names its claim; when none fails every named
    claim has a row, and the comparison passes exactly when enough claims are comparable
    and enough of them match. *)
Theorem run_comparison_judges_the_answers cfg l window n s (w : W) r s' w' :
  run_comparison cfg l window n s w = Some (r, s', w') →
  ∃ summary err ds failed, r = Ok (summary, err) ∧ s' = s ∧
  in_turn (rate_answered window) (asked l) w ds failed w' ∧
  Forall2 (λ '(p, d) row, row_says (GrowthCompareRelTol cfg) (GrowthCompareAbsTolBytesDay cfg) p d row)
    (zip (named l) ds) (sm_Rows summary) ∧
  sm_Comparable summary = Z.of_nat (length (List.filter row_HasPromData (sm_Rows summary))) ∧
  sm_Matched summary = Z.of_nat (length (List.filter row_Matched (sm_Rows summary))) ∧
  match failed with
  | Some e => err = Some (query_error (asked l) ds e)
  | None => length (sm_Rows summary) = length (named l) ∧
      (err = None ↔ (MinGrowthComparablePVCs cfg ≤ sm_Comparable summary)%Z ∧
                    (MinGrowthMatchingPVCs cfg ≤ sm_Matched summary)%Z)
  end.
Proof.
  unfold run_comparison, compare_growth. intros Hr. set (opts := compare_options cfg) in *.
  match type of Hr with mbind _ ?m _ _ _ = _ => set (loop := m) in Hr end. unfold mbind, M_bind in Hr.
  destruct (loop n s w) as [[[o s1] w1]|] eqn:El; [|done]. subst loop.
  destruct (loop_in_turn (rate_answered window) _ (growth_rate_answered window) opts l [] (mkSummary [] 0 0) n s w o s1 w1)
    as (sum & ds & failed & -> & -> & Ht & (Hrows & Hc & Hm) & Hn); [done..|].
  injection Hr as <- <- <-. rewrite app_nil_l in Hrows, Hc, Hm.
  destruct (compare_verdict opts (sum, option_map (query_error (asked l) ds) failed)) as [sum' err] eqn:Ev.
  assert (sum' = sum) as ->.
  { unfold compare_verdict in Ev. destruct failed; cbn [option_map] in Ev; [by injection Ev|].
    by repeat case_match; injection Ev. }
  exists sum, err, ds, failed. rewrite Hrows.
  split; [exact (f_equal Ok Ev)|]. split; [done|]. split; [done|]. split; [apply (zip_rows_say opts)|].
  split; [done|]. split; [done|].
  unfold compare_verdict in Ev. destruct failed as [e|]; cbn [option_map] in Ev; [by injection Ev|].
  split; [rewrite length_zip_with, (Hn eq_refl); lia|].
  change (MinComparablePVCs opts) with (MinGrowthComparablePVCs cfg) in Ev.
  change (MinMatchingPVCs opts) with (MinGrowthMatchingPVCs cfg) in Ev.
  destruct (Z.ltb_spec (sm_Comparable sum) (MinGrowthComparablePVCs cfg)); [injection Ev as <-; split; [done|lia]|].
  destruct (Z.ltb_spec (sm_Matched sum) (MinGrowthMatchingPVCs cfg)); [injection Ev as <-; split; [done|lia]|].
  by injection Ev as <-.
Qed.
End prometheus.

(** ** The window *)

(** The comparison looks back a positive time, and never past the samples.  When the
    run's configuration keeps samples at all, the window asked of Prometheus is at least
    one second, at least the configured one or the observed one unless the retained
    samples are shorter, and at most the time the operator's buffer covers. *)
Theorem growth_window_is_covered cfg st :
  let window := effectiveGrowthCompareWindowSeconds cfg st in
  (0 < window)%Z ∧
  ((0 < sampleRetentionWindowSeconds cfg)%Z → (window <= sampleRetentionWindowSeconds cfg)%Z) ∧
  (window = sampleRetentionWindowSeconds cfg ∨
   (Z.max (GrowthCompareWindowSeconds cfg) (observedTrendWindowSeconds st) <= window)%Z).
Proof.
  unfold effectiveGrowthCompareWindowSeconds. cbv zeta. split_and!.
  all: destruct (Z.ltb_spec (GrowthCompareWindowSeconds cfg) 1);
    destruct (Z.ltb_spec 1 (observedTrendWindowSeconds st));
    destruct (Z.ltb_spec (GrowthCompareWindowSeconds cfg) (observedTrendWindowSeconds st));
    destruct (Z.ltb_spec 0 (sampleRetentionWindowSeconds cfg)); cbn [andb]; split_ifs; bool_to_prop; lia.
Qed.
