(* ===== verification/CiAlerts.v ===== *)
(** * internal/cirunner: the alert pipeline

    The part of integration.go that reads what Alertmanager and the alert receiver
    say: counters of the text exposition format, the routing configuration, the
    delivered payloads and their metadata; and the checks built on them, with the
    verification of the language model's texts. *)

From stdpp Require Import base list strings gmap functions.
From Stdlib Require Import ZArith Lia Ascii.
From S2P Require Import Prelude GoSort GoFloat GoText GoStd GoStrconv GoJson JsonDoc ApiTypes Metrics PromClient CiVerify CiConfig.
From S2P Require Import CiWorld CiLogic CiWaits CiRunner CiSetup.

Local Open Scope string_scope.

(** ** Counters *)

(** The first field and the value of every line of a metric. *)
(* go: internal/cirunner/integration.go:2365-2384 parseCounterSamples *)
Definition counter_line (metricName line : string) : option (string * float) :=
  let line := trim_space line in
  if (line =? "") || has_prefix line "#" then None
  else if negb (has_prefix line (metricName +:+ "{")) && negb (has_prefix line (metricName +:+ " ")) then None
  else
    match fields line with
    | first :: second :: rest => v ← parse_float (List.last rest second); Some (first, v)
    | _ => None
    end.

Definition counter_lines (body metricName : string) : list (string * float) :=
  omap (counter_line metricName) (split_on (chr 10) body).

(* go: internal/cirunner/integration.go parsePrometheusCounterSum *)
Definition parsePrometheusCounterSum (body metricName : string) : float :=
  foldl fadd fzero (map snd (counter_lines body metricName)).

(* go: internal/cirunner/integration.go parseMetricLabels *)
Definition parseMetricLabels (raw : string) : gmap string string :=
  let raw := trim_space raw in
  if raw =? "" then ∅
  else
    foldl (λ out pair,
      match split_2 (trim_space pair) "=" with
      | (key, Some val) =>
          let key := trim_space key in
          if key =? "" then out else <[key := trim_byte (chr 34) (trim_space val)]> out
      | (_, None) => out
      end) ∅ (split_on "," raw).

(** The labels of a line, from its first field. *)
(* go: internal/cirunner/integration.go:2369-2376 parseCounterSamples *)
Definition line_labels (metricName first : string) : gmap string string :=
  if has_prefix first (metricName +:+ "{") then
    match index_byte first "{", last_index_byte first "}" with
    | Some o, Some c => if (o <? c)%nat then parseMetricLabels (str_take (c - S o) (str_drop (S o) first)) else ∅
    | _, _ => ∅
    end
  else ∅.

Definition label_of (labels : gmap string string) (k : string) : string := default "" (labels !! k).

(* go: internal/cirunner/integration.go metricLabelsMatch *)
Definition metricLabelsMatch (labels want : gmap string string) : bool :=
  forallb (λ kv : string * string, label_of labels kv.1 =? kv.2) (map_to_list want).

(* go: internal/cirunner/integration.go metricCounterSample *)
Record metricCounterSample := mkCounter { mc_Labels : gmap string string; mc_Value : float }.

(* go: internal/cirunner/integration.go parseCounterSamples *)
Definition parseCounterSamples (body metricName : string) : list metricCounterSample :=
  map (λ l : string * float, mkCounter (line_labels metricName l.1) l.2) (counter_lines body metricName).

(* go: internal/cirunner/integration.go sumCounterSamples *)
Definition sumCounterSamples (samples : list metricCounterSample) (include : metricCounterSample → bool) : float :=
  foldl fadd fzero (map mc_Value (List.filter include samples)).

(* go: internal/cirunner/integration.go parseCounterSumWithLabels *)
Definition parseCounterSumWithLabels (body metricName : string) (requiredLabels : gmap string string) : float :=
  sumCounterSamples (parseCounterSamples body metricName) (λ s, metricLabelsMatch (mc_Labels s) requiredLabels).

(* go: internal/cirunner/integration.go alertmanagerNotificationCounters *)
Record alertmanagerNotificationCounters := mkCounters { nc_Sent : float; nc_Failed : float; nc_Basis : string }.

(** The four ways to choose the samples, from the exact one to all of them. *)
(* go: internal/cirunner/integration.go:2411-2467 resolveAlertmanagerNotificationCounters *)
Definition counter_bases (receiver integration : string) : list (string * (metricCounterSample → bool)) :=
  let label s k := label_of (mc_Labels s) k in
  [("exact", λ s, ((receiver =? "") || (label s "receiver" =? receiver))
                  && ((integration =? "") || (label s "integration" =? integration)));
   ("receiver_only", λ s, negb (receiver =? "") && (label s "receiver" =? receiver));
   ("integration_prefix", λ s, negb (integration =? "") && has_prefix (label s "integration") integration)].

Fixpoint first_counted (sent failed : list metricCounterSample) (bases : list (string * (metricCounterSample → bool))) :
    alertmanagerNotificationCounters :=
  match bases with
  | [] => mkCounters (sumCounterSamples sent (λ _, true)) (sumCounterSamples failed (λ _, true)) "any"
  | (name, include) :: bases =>
      let s := sumCounterSamples sent include in
      let f := sumCounterSamples failed include in
      if fgtb s fzero || fgtb f fzero then mkCounters s f name else first_counted sent failed bases
  end.

(* go: internal/cirunner/integration.go resolveAlertmanagerNotificationCounters *)
Definition resolveAlertmanagerNotificationCounters (metricsBody receiver integration : string) :
    alertmanagerNotificationCounters :=
  first_counted (parseCounterSamples metricsBody "alertmanager_notifications_total")
    (parseCounterSamples metricsBody "alertmanager_notifications_failed_total")
    (counter_bases (trim_space receiver) (trim_space integration)).

(** ** The routing configuration *)

(** A member of a decoded [map[string]any]: the last one of the name. *)
Definition member_of (k : string) (v : json) : option json :=
  match v with
  | JObj ms => option_map snd (head (reverse (List.filter (λ m : string * json, m.1 =? k) ms)))
  | _ => None
  end.

(* go: internal/cirunner/integration.go parseAlertmanagerOriginalConfig *)
Definition parseAlertmanagerOriginalConfig (statusBody : string) : string :=
  match (json_parse statusBody ≫= member_of "config") ≫= member_of "original" with
  | Some (JStr original) => trim_space original
  | _ => ""
  end.

(* go: internal/cirunner/integration.go validateAlertmanagerRouteConfig *)
Definition validateAlertmanagerRouteConfig `{CiEnv} (statusBody expectedReceiver expectedIntegration : string) : res () :=
  let configText := parseAlertmanagerOriginalConfig statusBody in
  if configText =? "" then Err (errorf "alertmanager status did not include config.original")
  else if negb (expectedReceiver =? "")
          && negb (contains configText ("receiver: " +:+ expectedReceiver)
                   && contains configText ("- name: " +:+ expectedReceiver)) then
    Err (errorf ("alertmanager config does not route to expected receiver " +:+ go_quote expectedReceiver))
  else
    let integration := trim_space expectedIntegration in
    if ((integration =? "") || (integration =? "webhook")) && negb (contains configText "webhook_configs:") then
      Err (errorf "alertmanager config does not include webhook integration for expected receiver")
    else Ok ().

(** ** Delivered payloads *)

(* go: internal/cirunner/integration.go alertReceiverRecords *)
Record alertReceiverRecords := mkRecords { ar_Count : Z; ar_Records : list string }.

Definition set_records (k : string) (v : json) (r : alertReceiverRecords) : option alertReceiverRecords :=
  if key_is k "count" then n ← dec_int v (ar_Count r); Some (mkRecords n (ar_Records r))
  else if key_is k "records" then l ← dec_list (λ v, dec_string v "") v; Some (mkRecords (ar_Count r) l)
  else Some r.

(* go: internal/cirunner/integration.go parseAlertReceiverRecords *)
Definition parseAlertReceiverRecords `{GoLib} (body : string) : res alertReceiverRecords :=
  match json_parse body ≫= λ v, dec_struct set_records v (mkRecords 0 []) with
  | Some r => Ok r
  | None => Err (wrap_error "decoding alert-receiver records: " (json_error body))
  end.

(** An alert of a payload, and a payload. *)
(* go: internal/cirunner/integration.go:2490-2496 alertmanagerWebhookPayload *)
Record webhookAlert := mkWebhookAlert {
  wa_Status : string; wa_Labels : gmap string string; wa_Annotations : gmap string string;
  wa_StartsAt : string; wa_EndsAt : string;
}.
(* go: internal/cirunner/integration.go alertmanagerWebhookPayload *)
Record alertmanagerWebhookPayload := mkWebhook { wp_Receiver : string; wp_Alerts : list webhookAlert }.

Definition set_alert (k : string) (v : json) (a : webhookAlert) : option webhookAlert :=
  let 'mkWebhookAlert st l an sa ea := a in
  if key_is k "status" then st ← dec_string v st; Some (mkWebhookAlert st l an sa ea)
  else if key_is k "labels" then l ← dec_map v l; Some (mkWebhookAlert st l an sa ea)
  else if key_is k "annotations" then an ← dec_map v an; Some (mkWebhookAlert st l an sa ea)
  else if key_is k "startsAt" then sa ← dec_string v sa; Some (mkWebhookAlert st l an sa ea)
  else if key_is k "endsAt" then ea ← dec_string v ea; Some (mkWebhookAlert st l an sa ea)
  else Some a.

Definition set_webhook (k : string) (v : json) (p : alertmanagerWebhookPayload) : option alertmanagerWebhookPayload :=
  if key_is k "receiver" then r ← dec_string v (wp_Receiver p); Some (mkWebhook r (wp_Alerts p))
  else if key_is k "alerts" then
    l ← dec_list (λ v, dec_struct set_alert v (mkWebhookAlert "" ∅ ∅ "" "")) v; Some (mkWebhook (wp_Receiver p) l)
  else Some p.

Definition decode_webhook (raw : string) : option alertmanagerWebhookPayload :=
  json_parse raw ≫= λ v, dec_struct set_webhook v (mkWebhook "" []).

(* go: internal/cirunner/integration.go:2523-2539 parseAlertReceiverDetails *)
Definition webhook_detail (a : webhookAlert) : option AlertDetail :=
  let label k := trim_space (label_of (wa_Labels a) k) in
  let annotation k := trim_space (label_of (wa_Annotations a) k) in
  if isCapacityAlertName (label "alertname") then
    Some (mkDetail (label "alertname") (trim_space (wa_Status a)) (label "severity") (label "namespace") (label "pvc")
            (label "kind") (label "workload") (annotation "summary") (annotation "description")
            (trim_space (wa_StartsAt a)) (trim_space (wa_EndsAt a)))
  else None.

(* go: internal/cirunner/integration.go:2510-2541 parseAlertReceiverDetails *)
Fixpoint record_details `{CiEnv} (expectedReceiver : string) (records : list string) : res (list AlertDetail) :=
  match records with
  | [] => Ok []
  | raw :: records =>
      let raw := trim_space raw in
      if raw =? "" then record_details expectedReceiver records
      else
        match decode_webhook raw with
        | None => Err (wrap_error "decoding alert-receiver record payload: " (json_error raw))
        | Some msg =>
            let receiver := trim_space (wp_Receiver msg) in
            if negb (expectedReceiver =? "") && negb (receiver =? expectedReceiver) then
              Err (errorf ("unexpected receiver in delivered payload: got " +:+ go_quote receiver +:+ " want "
                             +:+ go_quote expectedReceiver))
            else
              match record_details expectedReceiver records with
              | Ok rest => Ok (omap webhook_detail (wp_Alerts msg) ++ rest)%list
              | Err e => Err e
              end
        end
  end.

(* go: internal/cirunner/integration.go parseAlertReceiverDetails *)
Definition parseAlertReceiverDetails `{CiEnv} (payload : alertReceiverRecords) (expectedReceiver : string) :
    res (list AlertDetail) :=
  match record_details (trim_space expectedReceiver) (ar_Records payload) with
  | Ok [] => Err (errorf "alert-receiver payloads did not contain capacity alerts")
  | o => o
  end.

(** ** Metadata *)

(** [%+v] of the struct. *)
Definition detail_text (d : AlertDetail) : string :=
  "{AlertName:" +:+ ad_AlertName d +:+ " State:" +:+ ad_State d +:+ " Severity:" +:+ ad_Severity d
    +:+ " Namespace:" +:+ ad_Namespace d +:+ " PVC:" +:+ ad_PVC d +:+ " Kind:" +:+ ad_Kind d
    +:+ " Workload:" +:+ ad_Workload d +:+ " Summary:" +:+ ad_Summary d +:+ " Description:" +:+ ad_Description d
    +:+ " StartsAt:" +:+ ad_StartsAt d +:+ " UpdatedAt:" +:+ ad_UpdatedAt d +:+ "}".

Definition blank (s : string) : bool := trim_space s =? "".

(** What is missing in an alert, by its name. *)
(* go: internal/cirunner/integration.go:2573-2592 validateAlertMetadata *)
Definition metadata_problem (d : AlertDetail) : option error :=
  if blank (ad_Summary d) then Some (errorf ("alert " +:+ ad_AlertName d +:+ " missing summary annotation"))
  else if ad_AlertName d =? "WorkloadBudgetBreachSoon" then
    if blank (ad_Namespace d) || blank (ad_Workload d) || blank (ad_Kind d) then
      Some (errorf ("workload alert missing namespace/kind/workload labels: " +:+ detail_text d))
    else None
  else if ad_AlertName d =? "NamespaceBudgetBreachSoon" then
    if blank (ad_Namespace d) then Some (errorf ("namespace alert missing namespace label: " +:+ detail_text d)) else None
  else if (ad_AlertName d =? "PVCUsageHigh") || (ad_AlertName d =? "PVCUsageCritical") then
    if blank (ad_Namespace d) || blank (ad_PVC d) then
      Some (errorf ("pvc alert missing namespace/pvc labels: " +:+ detail_text d))
    else None
  else None.

(** The workloads with an alert of their own. *)
Definition workloads_seen (details : list AlertDetail) : list string :=
  map ad_Workload (List.filter (λ d, ad_AlertName d =? "WorkloadBudgetBreachSoon") details).

(* go: internal/cirunner/integration.go validateAlertMetadata *)
Definition validateAlertMetadata `{CiEnv} (details : list AlertDetail) (workloads : list string) : res () :=
  match details with
  | [] => Err (errorf "no Alertmanager capacity alert details returned")
  | _ =>
      match omap metadata_problem details with
      | e :: _ => Err e
      | [] =>
          match List.find (λ w, negb (bool_decide (w ∈ workloads_seen details))) workloads with
          | Some w => Err (errorf ("alertmanager missing WorkloadBudgetBreachSoon metadata for workload " +:+ go_quote w))
          | None => Ok ()
          end
      end
  end.

(** ** The checks *)

(** The variables of the wait for a delivery. *)
Record delivery := mkDelivery {
  dv_sent : float; dv_failed : float; dv_basis : string; dv_records : Z; dv_alerts : Z;
}.

Section alerts.
Context {W : Type} `{World W} `{CiEnv}.
Variable cfg : Config.
Notation R := (M W IntegrationRunner).

(* go: internal/cirunner/integration.go:1536-1540 verifyAlerts *)
Definition expected_integration : string :=
  let i := trim_space (AlertmanagerExpectedIntegration cfg) in if i =? "" then "webhook" else i.

(* go: internal/cirunner/integration.go:1605-1611 verifyAlerts *)
Definition pipeline_text (expectedReceiver : string) (d : delivery) : string :=
  let workloads := itoa (Z.of_nat (length (CIWorkloads cfg))) in
  text_lines (["Alert pipeline interpretation";
    "  routing: receiver=" +:+ expectedReceiver +:+ " integration=" +:+ expected_integration;
    "  alertmanager notifications: sent=" +:+ sprintf_f 0 (dv_sent d) +:+ " failed=" +:+ sprintf_f 0 (dv_failed d)
      +:+ " (metricMatch=" +:+ dv_basis d +:+ ")"] ++
    (if expected_integration =? "webhook" then
       ["  delivered payloads: records=" +:+ itoa (dv_records d) +:+ " capacityAlerts=" +:+ itoa (dv_alerts d)]
     else []) ++
    ["  metadata coverage: workload alerts validated for " +:+ workloads +:+ "/" +:+ workloads +:+ " workloads"])%list.

(* go: internal/cirunner/integration.go:1565-1592 verifyAlerts *)
Definition delivery_seen (expectedReceiver : string) {X} : M W (X * delivery) bool :=
  x ← get;
  let d := snd x in
  metricsBody ← try (httpBody (alertmanager_address +:+ "/metrics") (5 * second));
  let '(byMetrics, d) :=
    match metricsBody with
    | Ok body =>
        let m := resolveAlertmanagerNotificationCounters body expectedReceiver expected_integration in
        (fgtb (nc_Sent m) fzero && feqb (nc_Failed m) fzero,
         mkDelivery (nc_Sent m) (nc_Failed m) (nc_Basis m) (dv_records d) (dv_alerts d))
    | Err _ => (false, d)
    end in
  set_local d ;;
  if expected_integration =? "webhook" then
    body ← try (httpBody "http://127.0.0.1:19094/records" (5 * second));
    match (match body with Ok body => parseAlertReceiverRecords body | Err e => Err e end) with
    | Ok records =>
        match parseAlertReceiverDetails records expectedReceiver with
        | Ok details =>
            if (0 <? ar_Count records)%Z && negb (length (ar_Records records) =? 0)%nat
               && res_is_ok (validateAlertMetadata details (CIWorkloads cfg)) then
              set_local (mkDelivery (dv_sent d) (dv_failed d) (dv_basis d) (ar_Count records) (Z.of_nat (length details))) ;;
              mret true
            else mret byMetrics
        | Err _ => mret byMetrics
        end
    | Err _ => mret byMetrics
    end
  else mret byMetrics.

(* go: internal/cirunner/integration.go IntegrationRunner.verifyAlerts *)
Definition verifyAlerts : R () :=
  let poll := PollInterval cfg in
  let timeout := seconds (AlertPropagationTimeout cfg) in
  let after := " after " +:+ itoa (AlertPropagationTimeout cfg) +:+ "s" in
  let wait_or msg check :=
    r ← try (verifyUntil timeout poll check);
    match r with Ok _ => mret () | Err _ => fail (errorf msg) end in
  r ← get;
  (if sawCapacityAlerts (state r) then set_check CheckPromAlerts "pass (seen during trend observation)"
   else
     wait_or ("timed out waiting for capacity alerts in Prometheus ALERTS metric" +:+ after)
       (prom_has_results BuildPrometheusCapacityAlertsQuery) ;;
     set_check CheckPromAlerts "pass (after wait)") ;;
  wait_or "timed out waiting for WorkloadBudgetBreachSoon alerts for all workloads" (all_workload_alerts run_verifier (CIWorkloads cfg)) ;;
  for_each (CIWorkloads cfg) (λ w,
    ok ← prom_has_results (BuildPrometheusWorkloadAlertQuery w);
    if (ok : bool) then mret () else fail (errorf ("missing WorkloadBudgetBreachSoon for " +:+ w +:+ " after aggregate wait"))) ;;
  set_check CheckWorkloadAlerts ("pass (" +:+ itoa (Z.of_nat (length (CIWorkloads cfg))) +:+ " workloads)") ;;
  wait_or ("timed out waiting for capacity alerts in Alertmanager API" +:+ after)
    (alertmanager_request (λ E, @AlertmanagerHasCapacityAlerts E)) ;;
  let expectedReceiver := trim_space (AlertmanagerExpectedReceiver cfg) in
  wrap_err "alertmanager routing validation failed: "
    (waitUntil timeout poll "alertmanager route config for expected receiver"
      (answers (alertmanager_address +:+ "/api/v2/status")
        (λ body, res_is_ok (validateAlertmanagerRouteConfig body expectedReceiver expected_integration)))) ;;
  out ← with_local (mkDelivery fzero fzero "exact" 0 0)
          (waitUntil timeout poll "alertmanager receiver delivery" (delivery_seen expectedReceiver));
  let '(r, d) := out : res () * delivery in
  let counts := "sent=" +:+ sprintf_f 0 (dv_sent d) +:+ " failed=" +:+ sprintf_f 0 (dv_failed d) in
  (match r with
   | Ok _ => mret ()
   | Err _ =>
       fail (errorf ("alertmanager delivery validation failed for receiver=" +:+ go_quote expectedReceiver
                       +:+ " integration=" +:+ go_quote expected_integration +:+ ": " +:+ counts
                       +:+ " metricMatch=" +:+ dv_basis d +:+ " records=" +:+ itoa (dv_records d)
                       +:+ " payloadAlerts=" +:+ itoa (dv_alerts d)))
   end) ;;
  apiDetails ← wrap_err "fetching alertmanager capacity alert details: "
    (alertmanager_request (λ E, @AlertmanagerCapacityAlertDetails E));
  wrap_err "alertmanager metadata validation failed: " (lift (validateAlertMetadata apiDetails (CIWorkloads cfg))) ;;
  say (pipeline_text expectedReceiver d) ;;
  set_check CheckAlertmanager
    ("pass (receiver=" +:+ expectedReceiver +:+ " integration=" +:+ expected_integration +:+ " " +:+ counts
       +:+ " apiAlerts=" +:+ itoa (Z.of_nat (length apiDetails)) +:+ " payloadAlerts=" +:+ itoa (dv_alerts d)
       +:+ " records=" +:+ itoa (dv_records d) +:+ ")").

(* go: internal/cirunner/integration.go IntegrationRunner.verifyAlertPipeline *)
Definition verifyAlertPipeline : R () :=
  logStep "Checking Alertmanager readiness endpoint" ;;
  startAlertmanagerPortForward cfg ;;
  (if expected_integration =? "webhook" then startAlertReceiverPortForward cfg else mret ()) ;;
  logStep "Verifying alert pipeline (Prometheus + workload + Alertmanager)" ;;
  verifyAlerts.

(** ** The texts of the language model *)

(** The number of PVCs with an insight, and the plan's texts that are missing. *)
(* go: internal/cirunner/integration.go:2611-2628 verifyLLMInsights *)
Definition insight_counts (cp : CapacityPlan) : Z * list string :=
  (Z.of_nat (length (List.filter (λ p, negb (blank (ps_LLMInsight p))) (st_PVCs (cp_Status cp)))),
   (if blank (st_LLMRiskChangeSummary (cp_Status cp)) then ["llmRiskChangeSummary"] else [])
   ++ (if blank (st_LLMBudgetRecommendations (cp_Status cp)) then ["llmBudgetRecommendations"] else []))%list.

(* go: internal/cirunner/integration.go:2644-2659 verifyLLMInsights *)
Definition insight_reason (insights : Z) (missing : list string) (timeoutCount : float) (metricsErr : option error) : string :=
  join ", "
    ([if (insights <? LLMMinInsights cfg)%Z
      then "pvcInsights=" +:+ itoa insights +:+ " below required=" +:+ itoa (LLMMinInsights cfg)
      else "pvcInsights=" +:+ itoa insights]
     ++ (match missing with [] => [] | _ => ["missingPlanInsights=" +:+ join "," missing] end)
     ++ (if fgtb timeoutCount fzero then ["timeouts=" +:+ sprintf_f 0 timeoutCount] else [])
     ++ (match metricsErr with Some e => ["metricsReadErr=" +:+ err_msg e] | None => [] end))%list.

(* go: internal/cirunner/integration.go IntegrationRunner.verifyLLMInsights *)
Definition verifyLLMInsights : R () :=
  if negb (llmEnabled cfg) then set_check CheckLLMInsights "skipped (provider disabled)"
  else
    cp ← wrap_err "getting capacity plan for llm verification: " (getCapacityPlan (PlanName cfg));
    let '(insights, missing) := insight_counts cp in
    if (LLMMinInsights cfg <=? insights)%Z && (length missing =? 0)%nat then
      set_check CheckLLMInsights ("pass (pvcInsights=" +:+ itoa insights +:+ " planInsights=2/2)")
    else
      metricsBody ← try (httpBody "http://127.0.0.1:18080/metrics" (5 * second));
      let '(timeoutCount, metricsErr) :=
        match metricsBody with
        | Ok body => (parsePrometheusCounterSum body "capacityplan_llm_timeouts_total", None)
        | Err e => (fzero, Some e)
        end in
      if fgtb timeoutCount fzero && LLMTimeoutHardFail cfg then
        fail (errorf ("llm model timed out " +:+ sprintf_f 0 timeoutCount +:+ " times (hard-fail enabled)"))
      else
        let reason := insight_reason insights missing timeoutCount metricsErr in
        if LLMSoftFail cfg then
          set_check CheckLLMInsights ("warn (" +:+ reason +:+ ")") ;;
          say ("LLM verification warning: " +:+ reason +:+ nl)
        else fail (errorf ("llm verification failed: " +:+ reason)).

(** ** Every check returns *)

Lemma runs_delivery_seen {X} r : Runs (delivery_seen r (X := X)).
Proof. unfold delivery_seen. runs_tac. Qed.
#[local] Hint Resolve runs_delivery_seen : runs.
Lemma runs_verifyAlerts : Runs verifyAlerts.
Proof. unfold verifyAlerts. runs_tac. Qed.
#[local] Hint Resolve runs_verifyAlerts : runs.
Lemma runs_verifyAlertPipeline : Runs verifyAlertPipeline.
Proof. unfold verifyAlertPipeline. runs_tac. Qed.
Lemma runs_verifyLLMInsights : Runs verifyLLMInsights.
Proof. unfold verifyLLMInsights. runs_tac. Qed.
End alerts.
#[export] Hint Resolve runs_delivery_seen runs_verifyAlerts runs_verifyAlertPipeline
  runs_verifyLLMInsights : runs.

(** Of the runner's state they touch checks and port forwards. *)

Section frames.
Context {W : Type} `{World W} `{CiEnv} (cfg : Config)
  (R : rt IntegrationRunner → rt IntegrationRunner → Prop).

Lemma frame_delivery_seen {X} (R' : rt X → rt X → Prop) `{!PreOrder R'} r : frame (through R') (delivery_seen cfg r).
Proof. unfold delivery_seen. frame_tac. Qed.
#[local] Hint Resolve frame_delivery_seen : frames.

Context `{!Tolerates R}.

Lemma frame_verifyAlerts : frame R (verifyAlerts cfg).
Proof. unfold verifyAlerts. frame_tac. Qed.
#[local] Hint Resolve frame_verifyAlerts : frames.
Lemma frame_verifyLLMInsights : frame R (verifyLLMInsights cfg).
Proof. unfold verifyLLMInsights. frame_tac. Qed.
Lemma frame_verifyAlertPipeline `{!Starts R} : frame R (verifyAlertPipeline cfg).
Proof. unfold verifyAlertPipeline. frame_tac. Qed.
End frames.
#[export] Hint Resolve frame_delivery_seen frame_verifyAlerts frame_verifyLLMInsights
  frame_verifyAlertPipeline : frames.
