(* ===== verification/AlertPipeline.v ===== *)
(** * The alert receiver and its readers

    Payloads stored by [AlertReceiver] are fetched by internal/cirunner over HTTP and
    decoded by [parseAlertReceiverRecords] of [CiAlerts].  This file links the two
    ends: what is posted is what the checks look at. *)

From stdpp Require Import base list strings.
From Stdlib Require Import ZArith Lia Ascii.
From S2P Require Import Prelude GoFloat GoText GoStrconv GoJson JsonDoc AlertReceiver CiRunner CiAlerts.

Local Open Scope string_scope.

(** ** The document of an answer *)

Definition records_doc (rs : list string) : json :=
  JObj [("count", JNum (itoa (Z.of_nat (length rs)))); ("records", JArr (map JStr rs))].

Lemma json_of_records rs : json_of (recordsResponse (Z.of_nat (length rs)) rs) = render (records_doc rs).
Proof.
  assert (map render (map JStr rs) = map json_quote rs) as Hm by (rewrite map_map; by apply map_ext).
  unfold json_of, records_doc. cbn -[itoa json_quote]. change (map (λ x, render x)) with (map render). rewrite Hm.
  unfold member. by rewrite <-!string_app_assoc.
Qed.

Lemma records_doc_ok rs : Forall (λ r, valid_utf8 r = true) rs → doc_ok (records_doc rs).
Proof.
  intros Hrs. cbn [records_doc doc_ok foldr fst snd]. split_and!; [done|apply json_number_itoa|done| |done].
  induction Hrs as [|r rs Hr _ IH]; [done|]. by split.
Qed.

Lemma dec_strings rs : mapM (λ v, dec_string v "") (map JStr rs) = Some rs.
Proof. induction rs as [|r rs IH]; [done|]. cbn. cbn in IH. by rewrite IH. Qed.

Lemma decode_records_doc rs :
  is_int64 (Z.of_nat (length rs)) →
  dec_struct set_records (records_doc rs) (mkRecords 0 []) = Some (mkRecords (Z.of_nat (length rs)) rs).
Proof.
  intros Hn. unfold dec_struct, records_doc. cbn [foldl fst snd]. unfold set_records at 2.
  change (key_is "count" "count") with true. cbv iota. cbn [dec_int]. rewrite atoi_itoa by done.
  cbn [mbind option_bind]. unfold set_records. change (key_is "records" "count") with false.
  change (key_is "records" "records") with true. cbv iota. cbn [dec_list]. by rewrite dec_strings.
Qed.

(** ** Requests *)

(** A POST of a payload: Alertmanager declares its length; another client may send it in
    chunks, without the header. *)
Definition post (declared : bool) (body : string) : request :=
  mkRequest "POST" "/" (if declared then itoa (Z.of_nat (String.length body)) else "") body None.
Definition get_records : request := mkRequest "GET" "/records" "" "" None.

(** The limit a receiver started with [--max-body-bytes limit] enforces. *)
Definition enforced (limit : Z) : Z := if (limit <=? 0)%Z then (2 * 1024 * 1024)%Z else limit.

(** The log after a series of posts. *)
Definition post_all (limit : Z) (posts : list (bool * string)) (l : log) : log :=
  fold_left (λ l p, (serve limit AppendOk ReadOk (post p.1 p.2) l).2) posts l.

(** A limit that can be compared with, and a payload within it. *)
Definition within (limit : Z) (body : string) : Prop :=
  (Z.of_nat (String.length body) ≤ enforced limit < int64_max)%Z.

Lemma within_default body : fits body → within 0 body.
Proof. unfold fits, max_token, within, enforced, int64_max. simpl. lia. Qed.

Lemma read_post limit declared body :
  (Z.of_nat (String.length body) ≤ limit < int64_max)%Z → readBody limit (post declared body) = inl body.
Proof.
  intros [Hle Hlt]. assert (is_int64 (Z.of_nat (String.length body))) as Hn
    by (unfold is_int64, int64_min, int64_max in *; lia).
  unfold readBody, post. cbn [rq_ContentLength rq_Body rq_BodyError].
  assert (∀ r : string + body_error,
    match (if negb (trim_space (if declared then itoa (Z.of_nat (String.length body)) else "") =? "") then
             match atoi (trim_space (if declared then itoa (Z.of_nat (String.length body)) else "")) with
             | inr _ => Some errInvalidContentLength
             | inl length => if (length <? 0)%Z then Some errInvalidContentLength
                 else if (limit <? length)%Z then Some errPayloadTooLarge else None
             end else None) with Some e => inr e | None => r end = r) as ->.
  { intros r. destruct declared; [|done]. rewrite trim_space_itoa, atoi_itoa by (lia || done).
    rewrite (proj2 (Z.ltb_ge _ 0)), (proj2 (Z.ltb_ge limit _)) by lia. by destruct (negb _). }
  unfold read_limited. rewrite wrap64_id by (unfold is_int64, int64_min, int64_max in *; lia).
  rewrite (proj2 (Z.leb_gt _ _)) by lia. by rewrite (proj2 (Z.ltb_ge _ _)) by lia.
Qed.

Lemma serve_post limit declared body l :
  within limit body →
  serve limit AppendOk ReadOk (post declared body) l = (writeJSON 200 (okResponse true), (Append body AppendOk l).2).
Proof.
  intros Hw. unfold serve, handleRoot. cbn [post rq_Path rq_Method].
  change (("/" =? "/healthz")) with false. change (("/" =? "/records")) with false.
  cbv iota. change (if (limit <=? 0)%Z then DefaultMaxBodyBytes else limit) with (enforced limit).
  by rewrite (read_post (enforced limit) declared body Hw).
Qed.

Lemma post_all_appends limit posts l :
  Forall (λ p, within limit p.2) posts → post_all limit posts l = append_all (map snd posts) l.
Proof.
  intros Hf. unfold post_all, append_all. revert l. induction Hf as [|p ps Hp _ IH]; intros l; [done|].
  cbn [fold_left map]. by rewrite serve_post, IH.
Qed.

(** ** Properties *)

Section delivery.
Context `{GoLib}.

(** C19. Round trip from Alertmanager to the checks.  Payloads that are valid UTF-8 and
    short enough for the log's reader and the receiver's limit (the configured one, or
    2 MiB), posted one after the other - each with its length in the header, as
    Alertmanager posts, or in chunks without it - to a receiver whose log does not exist
    yet, are all accepted; the answer to GET /records has status 200 and decodes, in the
    checks, to exactly these payloads in order and to their number. *)
Theorem posted_payloads_reach_the_checks (limit : Z) (posts : list (bool * string)) (aio : append_io) :
  let bodies := map snd posts in
  Forall (λ b, valid_utf8 b = true ∧ fits b ∧ within limit b) bodies → is_int64 (Z.of_nat (length bodies)) →
  Forall (λ p, ∀ l, rw_Status (serve limit AppendOk ReadOk (post p.1 p.2) l).1 = 200%Z) posts ∧
  let answer := (serve limit aio ReadOk get_records (post_all limit posts None)).1 in
  rw_Status answer = 200%Z ∧
  parseAlertReceiverRecords (rw_Body answer) = Ok (mkRecords (Z.of_nat (length bodies)) bodies).
Proof.
  intros bodies Hb Hn. assert (Forall (λ p, within limit p.2) posts) as Hw.
  { apply Forall_map in Hb. eapply Forall_impl; [exact Hb|]. by intros p (_ & _ & ?). }
  split; [eapply Forall_impl; [exact Hw|]; intros p Hp l; by rewrite serve_post|].
  rewrite post_all_appends by done. fold bodies.
  assert (Records ReadOk (append_all bodies None) = Ok bodies) as Hr.
  { rewrite append_all_none. destruct bodies as [|b bs]; [done|]. rewrite append_all_content, string_app_nil_l.
    apply records_content. eapply Forall_impl; [exact Hb|]. by intros ? (? & ? & _). }
  unfold serve. cbn [get_records rq_Path]. change ("/records" =? "/healthz") with false.
  change ("/records" =? "/records") with true. unfold handleRecords. cbn [get_records rq_Method].
  change (negb ("GET" =? "GET")) with false. cbv iota. cbv zeta. rewrite Hr. split; [done|].
  cbn [fst rw_Body writeJSON]. rewrite json_of_records. unfold parseAlertReceiverRecords.
  rewrite json_parse_render by (apply records_doc_ok; eapply Forall_impl; [exact Hb|]; by intros b [? _]).
  cbn [mbind option_bind]. by rewrite decode_records_doc.
Qed.
End delivery.

#[local] Existing Instance demo_go.

Lemma posted_payloads_reach_the_checks_witness :
  parseAlertReceiverRecords
    (rw_Body (serve 100 AppendOk ReadOk get_records (post_all 100 [(true, "{}" +:+ nl); (false, "two")] None)).1) =
  Ok (mkRecords 2 ["{}" +:+ nl; "two"]).
Proof.
  apply (posted_payloads_reach_the_checks 100 [(true, "{}" +:+ nl); (false, "two")] AppendOk); [|done].
  repeat constructor; by vm_compute.
Defined.
