(* ===== verification/CiNightly.v ===== *)
(** * internal/cirunner: the nightly delivery check

    nightly_alert_delivery.go: a rule that always fires is applied, and the run waits
    until the alert receiver has stored more payloads than before, one of which
    mentions the alert.  The state of the runner is the handle of its port forward. *)

From stdpp Require Import base list strings gmap.
From Stdlib Require Import ZArith Lia Ascii.
From S2P Require Import Prelude GoSort GoFloat GoText GoStd GoStrconv GoJson JsonDoc ApiTypes PromClient CiVerify CiConfig.
From S2P Require Import CiWorld CiLogic CiWaits CiManifests CiRunner CiAlerts.

Local Open Scope string_scope.

(* go: internal/cirunner/nightly_alert_delivery.go containsSyntheticAlert *)
Definition containsSyntheticAlert (records : list string) (alertName : string) : bool :=
  existsb (λ record, contains record alertName) records.

(* go: internal/cirunner/nightly_alert_delivery.go:45-48 startAlertReceiverPortForward *)
Definition receiver_port (cfg : Config) : Z :=
  if (NightlyAlertReceiverPort cfg <=? 0)%Z then 29080%Z else NightlyAlertReceiverPort cfg.
Definition receiver_url (cfg : Config) (path : string) : string :=
  "http://127.0.0.1:" +:+ itoa (receiver_port cfg) +:+ path.

(* go: internal/cirunner/nightly_alert_delivery.go:100-103 applySyntheticRule *)
Definition synthetic_rule_name (cfg : Config) : string :=
  let ruleName := trim_space (NightlyRuleName cfg) in if ruleName =? "" then "ci-always-firing" else ruleName.

(* go: internal/cirunner/nightly_alert_delivery.go:105-138 applySyntheticRule *)
Definition synthetic_rule (cfg : Config) : json :=
  JObj [("apiVersion", JStr "monitoring.coreos.com/v1");
        ("kind", JStr "PrometheusRule");
        ("metadata", JObj [("name", JStr (synthetic_rule_name cfg));
                           ("namespace", JStr (MonitoringNamespace cfg));
                           ("labels", JObj [("release", JStr "kube-prometheus-stack")])]);
        ("spec", JObj [("groups", JArr [
          JObj [("name", JStr "ci.alert.delivery");
                ("rules", JArr [
                  JObj [("alert", JStr "CIAlwaysFiring");
                        ("expr", JStr "vector(1)");
                        ("for", JStr "1m");
                        ("labels", JObj [("severity", JStr "warning")]);
                        ("annotations", JObj [
                          ("summary", JStr "CI alert delivery test");
                          ("description", JStr "Synthetic alert for nightly Alertmanager delivery-path validation.")])]])]])])].

(** The field [alertReceiverPF]. *)
(* go: internal/cirunner/nightly_alert_delivery.go NightlyAlertDeliveryRunner *)
Definition NightlyAlertDeliveryRunner : Type := option nat.

(** Has the alert arrived, as the run decides it? *)
(* go: internal/cirunner/nightly_alert_delivery.go:199 Run *)
Definition delivered (baseline records : alertReceiverRecords) (alertName : string) : bool :=
  (ar_Count baseline <? ar_Count records)%Z && containsSyntheticAlert (ar_Records records) alertName.

Section nightly.
Context {W : Type} `{World W} `{GoLib}.
Variable cfg : Config.
#[local] Notation R := (M W NightlyAlertDeliveryRunner).

(** The clients are not kept: their calls are those of the world. *)
(* go: internal/cirunner/nightly_alert_delivery.go NewNightlyAlertDeliveryRunner *)
Definition NewNightlyAlertDeliveryRunner : NightlyAlertDeliveryRunner := None.

(* go: internal/cirunner/nightly_alert_delivery.go NightlyAlertDeliveryRunner.closePortForwards *)
Definition nightly_closePortForwards : R () := pf ← get; Close pf.

(* go: internal/cirunner/nightly_alert_delivery.go NightlyAlertDeliveryRunner.startAlertReceiverPortForward *)
Definition nightly_startPortForward : R () :=
  pod ← getFirstPodByLabel (MonitoringNamespace cfg) "app" "alert-receiver";
  pf ← StartPodPortForward (MonitoringNamespace cfg) (rp_Name pod) (receiver_port cfg) 8080;
  modify (λ _, Some pf) ;;
  WaitReady pf (30 * second) ;;
  waitUntil (seconds (AlertEndpointReadyTimeout cfg)) (PollInterval cfg) "alert-receiver /healthz"
    (answers (receiver_url cfg "/healthz") (λ _, true)).

(** The records, or the error, and the body when there is one. *)
(* go: internal/cirunner/nightly_alert_delivery.go NightlyAlertDeliveryRunner.fetchReceiverRecords *)
Definition fetchReceiverRecords {X} : M W X (alertReceiverRecords * string) :=
  body ← httpBody (receiver_url cfg "/records") (5 * second);
  records ← lift (parseAlertReceiverRecords body);
  mret (records, body).

(* go: internal/cirunner/nightly_alert_delivery.go NightlyAlertDeliveryRunner.applySyntheticRule *)
Definition applySyntheticRule : R () :=
  let ruleName := synthetic_rule_name cfg in
  let what := "prometheusrule/" +:+ ruleName +:+ ": " in
  current ← ask (GetObject (Some (MonitoringNamespace cfg)) "PrometheusRule" ruleName);
  match current with
  | Err e =>
      if err_notfound e
      then wrap_err ("create " +:+ what) (ask_ok (CreateRule (MonitoringNamespace cfg) (synthetic_rule cfg)))
      else fail (wrap_error ("get " +:+ what) e)
  | Ok resourceVersion =>
      wrap_err ("update " +:+ what) (ask_ok (UpdateRule (MonitoringNamespace cfg) resourceVersion (synthetic_rule cfg)))
  end.

(** One poll; the variables are [finalRecords] and [finalBody]. *)
(* go: internal/cirunner/nightly_alert_delivery.go:193-199 Run *)
Definition poll_delivery (baseline : alertReceiverRecords) :
    M W (NightlyAlertDeliveryRunner * (alertReceiverRecords * string)) bool :=
  r ← try fetchReceiverRecords;
  match r with
  | Err _ => mret false
  | Ok (records, body) => set_local (records, body) ;; mret (delivered baseline records "CIAlwaysFiring")
  end.

(* go: internal/cirunner/nightly_alert_delivery.go:186-200 Run *)
Definition wait_for_delivery (baseline : alertReceiverRecords) :
    R (res () * (alertReceiverRecords * string)) :=
  let timeout := seconds (AlertPropagationTimeout cfg) in
  let timeout := if (timeout <=? 0)%Z then (10 * minute)%Z else timeout in
  with_local (mkRecords 0 [], "") (waitUntil timeout (PollInterval cfg)
    "synthetic alert delivery via alert-receiver records" (poll_delivery baseline)).

(** Without a body the records are asked for once more. *)
(* go: internal/cirunner/nightly_alert_delivery.go:201-215 Run *)
Definition print_failed_delivery (finalBody : string) : R () :=
  say ("Alert-receiver port-forward logs:" +:+ nl) ;;
  pf ← get;
  (match pf with Some i => logs ← ask (ForwardLogs i); say logs | None => mret () end) ;;
  say ("Receiver records payload:" +:+ nl) ;;
  finalBody ← (if trim_space finalBody =? "" then
                 again ← try fetchReceiverRecords;
                 mret (match again with Ok (_, body) => body | Err _ => finalBody end)
               else mret finalBody);
  if trim_space finalBody =? "" then mret () else say (finalBody +:+ nl).

(** The keys of a map are sorted. *)
(* go: internal/cirunner/nightly_alert_delivery.go:218-222 Run *)
Definition confirmation (baseline finalRecords : alertReceiverRecords) : json :=
  JObj [("alertName", JStr "CIAlwaysFiring"); ("baselineCount", JNum (itoa (ar_Count baseline)));
        ("finalCount", JNum (itoa (ar_Count finalRecords)))].

(** The run; it ends with the records it compared. *)
(* go: internal/cirunner/nightly_alert_delivery.go:164-225 Run *)
Definition nightly_steps : R (alertReceiverRecords * alertReceiverRecords) :=
  logStep "Ensuring alert-receiver deployment is ready" ;;
  waitForDeploymentRollout (MonitoringNamespace cfg) "alert-receiver" (5 * minute) (PollInterval cfg) ;;
  logStep "Starting alert-receiver port-forward" ;;
  nightly_startPortForward ;;
  b ← wrap_err "fetch baseline alert-receiver records: " fetchReceiverRecords;
  let baseline := b.1 in
  logStep "Applying always-firing PrometheusRule" ;;
  applySyntheticRule ;;
  logStep "Waiting for webhook delivery" ;;
  o ← wait_for_delivery baseline;
  let '(r, (finalRecords, finalBody)) := o : res () * (alertReceiverRecords * string) in
  match r with
  | Err e =>
      print_failed_delivery finalBody ;; fail e
  | Ok _ =>
      say ("Alert delivery confirmed: " +:+ render (confirmation baseline finalRecords) +:+ nl) ;;
      mret (baseline, finalRecords)
  end.

(* go: internal/cirunner/nightly_alert_delivery.go NightlyAlertDeliveryRunner.Run *)
Definition NightlyRun : R () := defer nightly_closePortForwards (_ ← nightly_steps; mret ()).

Lemma runs_fetchReceiverRecords {X} : Runs (X := X) fetchReceiverRecords.
Proof. unfold fetchReceiverRecords. runs_tac. Qed.
#[local] Hint Resolve runs_fetchReceiverRecords : runs.
Lemma runs_poll_delivery b : Runs (poll_delivery b).
Proof. unfold poll_delivery. runs_tac. Qed.
#[local] Hint Resolve runs_poll_delivery : runs.
Lemma runs_wait_for_delivery b : Runs (wait_for_delivery b).
Proof. unfold wait_for_delivery. apply runs_with_local. runs_tac. Qed.
#[local] Hint Resolve runs_wait_for_delivery : runs.
Lemma runs_nightly_startPortForward : Runs nightly_startPortForward.
Proof. unfold nightly_startPortForward. runs_tac. Qed.
#[local] Hint Resolve runs_nightly_startPortForward : runs.
Lemma runs_applySyntheticRule : Runs applySyntheticRule.
Proof. unfold applySyntheticRule. runs_tac. Qed.
#[local] Hint Resolve runs_applySyntheticRule : runs.
Lemma runs_print_failed_delivery b : Runs (print_failed_delivery b).
Proof. unfold print_failed_delivery. runs_tac. Qed.
#[local] Hint Resolve runs_print_failed_delivery : runs.
Lemma runs_nightly_steps : Runs nightly_steps.
Proof. unfold nightly_steps. runs_tac. Qed.
#[local] Hint Resolve runs_nightly_steps : runs.
Lemma runs_NightlyRun : Runs NightlyRun.
Proof. unfold NightlyRun, nightly_closePortForwards. runs_tac. Qed.
End nightly.

(** ** What a confirmed delivery means *)

Section confirmed.
Context {W : Type} `{World W} `{GoLib} (cfg : Config).

(** The variables hold the records of the last poll that could be read. *)
Lemma sends_poll_delivery b (P : _ → Prop) :
  (∀ s l, P s → P (mkRt (rt_sessions s) (fst (rt_state s), l))) →
  sends P (poll_delivery (W := W) cfg b)
    (λ ok s, if ok : bool then delivered b (snd (rt_state s)).1 "CIAlwaysFiring" = true else P s) P.
Proof.
  intros Hloc. unfold poll_delivery. eapply sends_bind.
  { apply (sends_frame P). apply frame_try. unfold fetchReceiverRecords. frame_tac. }
  intros [[records body]|e]; [|intros n s w r s' w' HP Hr; by injection Hr as <- <- _].
  intros n s w r s' w' HP Hr. cbn in Hr. injection Hr as <- <- _. cbn.
  destruct (delivered b records "CIAlwaysFiring") eqn:E; [done|]. by apply Hloc.
Qed.

Lemma yields_wait_for_delivery b :
  yields (wait_for_delivery (W := W) cfg b)
    (λ o, match o.1 with Ok _ => delivered b o.2.1 "CIAlwaysFiring" = true | Err _ => True end).
Proof.
  unfold wait_for_delivery. cbv zeta.
  apply (yields_with_local (W := W) _ _ (λ (_ : ()) l, delivered b l.1 "CIAlwaysFiring" = true)).
  apply (sends_waitUntil (λ _, True)). by apply sends_poll_delivery.
Qed.

Lemma yields_nightly_steps :
  yields (nightly_steps (W := W) cfg) (λ o, delivered o.1 o.2 "CIAlwaysFiring" = true).
Proof.
  unfold nightly_steps. do 4 (apply yields_then; intros ?). apply yields_then. intros b. do 3 (apply yields_then; intros ?).
  eapply yields_bind; [apply yields_wait_for_delivery|]. intros [[u|e] [records body]]; cbn [fst snd].
  - intros Hd. apply yields_then. intros ?. by apply yields_ret.
  - intros _. apply yields_then. intros ?. apply yields_fail.
Qed.

(** C26. The nightly run checks what it says.  It always ends; and when it ends without
    an error, the last records it read from the receiver are more than those read
    before the rule was applied, and one of them mentions the alert. *)
Theorem nightly_run_confirms_delivery (s : rt NightlyAlertDeliveryRunner) (w : W) :
  ∃ r s' w' fuel, (∀ n, (fuel ≤ n)%nat → NightlyRun cfg n s w = Some (r, s', w')) ∧
    (r = Ok () → ∃ n baseline records s1 w1,
       nightly_steps cfg n s w = Some (Ok (baseline, records), s1, w1) ∧
       (ar_Count baseline < ar_Count records)%Z ∧
       ∃ record, record ∈ ar_Records records ∧ contains record "CIAlwaysFiring" = true).
Proof.
  destruct (runs_NightlyRun (W := W) cfg s w) as (r & s' & w' & n & Hn & _). exists r, s', w', n. split; [done|].
  intros ->. specialize (Hn n ltac:(lia)). unfold NightlyRun, defer in Hn.
  destruct ((_ ← nightly_steps cfg; mret ()) n s w) as [[[r1 s1] w1]|] eqn:E; [|done].
  destruct (nightly_closePortForwards n s1 w1) as [[[r2 s2] w2]|]; [|done].
  unfold mbind, M_bind in E. destruct (nightly_steps cfg n s w) as [[[[[b records]|e] s3] w3]|] eqn:Es; [| |done].
  - exists n, b, records, s3, w3. split; [done|]. pose proof (yields_nightly_steps _ _ _ _ _ _ Es) as Hd.
    cbn in Hd. apply andb_true_iff in Hd as [Hc Hr]. split; [by apply Z.ltb_lt|].
    apply existsb_exists in Hr as (record & Hin & Hm). exists record. split; [by apply list_elem_of_In|done].
  - injection E as <- <- <-. by injection Hn.
Qed.
End confirmed.

(** A confirmed delivery can be an old one.  The mention of the alert is looked for
    among all stored payloads, those from before the run included: once a payload with
    the alert is in the log, any other payload that arrives confirms the next run,
    although the new rule's alert was never delivered. *)
Theorem old_payload_confirms_delivery (old new : list string) (record : string) :
  record ∈ old → contains record "CIAlwaysFiring" = true → new ≠ [] →
  delivered (mkRecords (Z.of_nat (length old)) old)
    (mkRecords (Z.of_nat (length (old ++ new)%list)) (old ++ new)%list) "CIAlwaysFiring" = true.
Proof.
  intros Hin Hc Hne. unfold delivered. cbn [ar_Count ar_Records]. apply andb_true_iff. split.
  - apply Z.ltb_lt. rewrite length_app. destruct new; [done|]. cbn [length]. lia.
  - apply existsb_exists. exists record. split; [|done]. apply list_elem_of_In, elem_of_app. by left.
Qed.

Lemma old_payload_confirms_delivery_witness :
  delivered (mkRecords 1 ["alert CIAlwaysFiring"]) (mkRecords 2 ["alert CIAlwaysFiring"; "alert Watchdog"]) "CIAlwaysFiring" = true.
Proof. by apply (old_payload_confirms_delivery ["alert CIAlwaysFiring"] ["alert Watchdog"] "alert CIAlwaysFiring"); [left| |]. Defined.
