(* ===== verification/CiDiagnostics.v ===== *)
(** * internal/cirunner: collecting diagnostics

    diagnostics.go: a file for each thing worth knowing about the cluster, then the
    summary of [CiVerify].  A capture that fails leaves its error in its file; only a
    directory that cannot be made ends the run. *)

From stdpp Require Import base list strings gmap.
From Stdlib Require Import ZArith Lia Ascii.
From S2P Require Import Prelude GoSort GoFloat GoText GoStd GoStrconv GoJson JsonDoc ApiTypes PromClient CiVerify CiConfig.
From S2P Require Import CiWorld CiLogic CiWaits CiRunner.

Local Open Scope string_scope.

(** The fields [promPF] and [alertPF]. *)
(* go: internal/cirunner/diagnostics.go DiagnosticsRunner *)
Record DiagnosticsRunner := mkDiagnosticsRunner { dr_promPF : option nat; dr_alertPF : option nat }.

(* go: internal/cirunner/diagnostics.go llmConfigured *)
Definition llmConfigured (cfg : Config) : bool :=
  if negb (LLMEnabled cfg) then false
  else let provider := trim_space (LLMProvider cfg) in negb (provider =? "") && negb (provider =? "disabled").

(** The outcome of [yaml.Marshal] as a text. *)
(* go: internal/cirunner/diagnostics.go marshalYAML *)
Definition marshalYAML (r : res string) : string :=
  match r with Ok text => text | Err e => "marshal error: " +:+ err_msg e +:+ nl end.

(* go: internal/cirunner/diagnostics.go namespacedResourcesText *)
Definition namespacedResourcesText `{SliceSorter} (names : list string) : string :=
  match sort_strings names with [] => nl | sorted => join nl sorted +:+ nl end.

(* go: internal/cirunner/diagnostics.go:180-187 capturePrometheusAPI *)
Definition prometheus_queries : gmap string string :=
  list_to_map
    [("query_capacity_alerts.json",
      "ALERTS{alertname=~" +:+ dq +:+ "PVCUsageHigh|PVCUsageCritical|NamespaceBudgetBreachSoon|WorkloadBudgetBreachSoon"
        +:+ dq +:+ ",alertstate=~" +:+ dq +:+ "pending|firing" +:+ dq +:+ "}");
     ("query_up_controller_manager.json", "up{job=~" +:+ dq +:+ ".*controller-manager.*" +:+ dq +:+ "}");
     ("query_capacity_metrics.json", "{__name__=~" +:+ dq +:+ "capacityplan_.*" +:+ dq +:+ "}");
     ("query_kubelet_pvc_used.json", "kubelet_volume_stats_used_bytes{namespace=" +:+ dq +:+ "default" +:+ dq +:+ "}");
     ("query_kubelet_pvc_capacity.json", "kubelet_volume_stats_capacity_bytes{namespace=" +:+ dq +:+ "default" +:+ dq +:+ "}");
     ("query_pvc_request_bytes.json",
      "kube_persistentvolumeclaim_resource_requests_storage_bytes{namespace=" +:+ dq +:+ "default" +:+ dq +:+ "}")].

Definition smoke_payload (model : string) : string :=
  render (JObj [("model", JStr model); ("options", JObj [("num_predict", JNum "16")]);
                ("prompt", JStr "Reply with the single word OK."); ("stream", JBool false)]).

(** What the configuration of the language model looks like in its file. *)
(* go: internal/cirunner/diagnostics.go:230-241 captureLLM *)
Definition llm_config_text (cfg : Config) : string :=
  text_lines ["enabled=" +:+ bool_text (LLMEnabled cfg); "provider=" +:+ LLMProvider cfg; "model=" +:+ LLMModel cfg;
              "namespace=" +:+ LLMNamespace cfg; "deployment=" +:+ LLMDeploymentName cfg;
              "serviceURL=" +:+ LLMOllamaURL cfg; "timeoutSeconds=" +:+ itoa (LLMTimeoutSeconds cfg)].

Definition counts_text (l : list (string * Z)) : string :=
  text_lines (map (λ c : string * Z, c.1 +:+ "=" +:+ itoa c.2) l).

(** The files the summary reads, below the output directory. *)
(* go: internal/civerify/diagnostics.go:86-93 WriteDiagnosticsSummary *)
Definition summary_files (planName : string) : list string :=
  ["cluster/capacityplan-" +:+ planName +:+ ".yaml"; "prometheus/query_capacity_alerts.json";
   "prometheus/query_capacity_metrics.json"; "prometheus/query_up_controller_manager.json"; "prometheus/targets.json";
   "monitoring/prometheusrules-all.yaml"; "monitoring/servicemonitors-all.yaml"; "operator/servicemonitors.yaml"].

Section diagnostics.
Context {W : Type} `{World W} `{SliceSorter} `{MapRange} `{CiEnv}.

(** Helpers that leave the runner alone. *)
Section captures.
Context {X : Type}.
#[local] Notation P := (M W X).

(* go: internal/cirunner/util.go ensureDir *)
Definition ensureDir (path : string) : P () := ask_ok (MakeDir path).

(* go: internal/cirunner/util.go writeFile *)
Definition writeFile (path content : string) : P () := ensureDir (path_dir path) ;; ask_ok (WriteFile path content).

(** [_ = m]. *)
Definition ignore (m : P ()) : P () := _ ← try m; mret ().

(* go: internal/cirunner/diagnostics.go DiagnosticsRunner.writeCapture *)
Definition writeCapture (path : string) (fn : P string) : P () :=
  r ← try fn;
  ignore (writeFile path (match r with Ok content => content | Err e => "capture error: " +:+ err_msg e +:+ nl end)).

(* go: internal/cirunner/diagnostics.go getPodLogs *)
Definition getPodLogs (namespace pod container : string) (tail : Z) : P string :=
  ask_res (PodLogs namespace pod (if trim_space container =? "" then "" else container) tail).

(* go: internal/cirunner/diagnostics.go getPodLogsIfExists *)
Definition getPodLogsIfExists (namespace pod container : string) (tail : Z) : P string :=
  p ← ask (GetPod namespace pod);
  match p with
  | Err e =>
      if err_notfound e then mret ("pod " +:+ namespace +:+ "/" +:+ pod +:+ " not found" +:+ nl) else fail e
  | Ok currentPod =>
      if negb (trim_space container =? "") && negb (existsb (String.eqb container) (rp_Containers currentPod)) then
        mret ("container " +:+ go_quote container +:+ " not found in pod " +:+ namespace +:+ "/" +:+ pod
                +:+ " (available: " +:+ join ", " (sort_strings (rp_Containers currentPod)) +:+ ")" +:+ nl)
      else getPodLogs namespace pod container tail
  end.

(* go: internal/cirunner/diagnostics.go deploymentPodName *)
Definition deploymentPodName (namespace k v : string) : P string :=
  pod ← try (getFirstPodByLabel namespace k v);
  mret (match pod with Ok pod => rp_Name pod | Err _ => "" end).

(* go: internal/cirunner/diagnostics.go dynamicListYAML *)
Definition dynamicListYAML (resource namespace : string) : P string :=
  y ← ask_res (DynamicListYAML resource (if trim_space namespace =? "" then "" else namespace));
  mret (marshalYAML y).

(** A typed list, marshalled, and its length when it can be had. *)
Definition listYAML (resource namespace : string) : P string :=
  l ← ask_res (ListYAML resource namespace); mret (marshalYAML l.2).
Definition list_count (resource namespace : string) : P (string * Z) :=
  l ← ask (ListYAML resource namespace); mret (resource, match l with Ok (n, _) => n | Err _ => 0%Z end).

(** A GET into a file, with ten seconds. *)
Definition capture_url (outDir dir file url : string) : P () :=
  writeCapture (path_join [outDir; dir; file]) (httpGET url (10 * second)).

(** The output of a port forward, or the error that kept it from starting. *)
Definition keep_logs (outDir file : string) (pf : nat) : P () :=
  logs ← ask (ForwardLogs pf); ignore (writeFile (path_join [outDir; "logs"; file]) logs).
Definition keep_error (outDir file : string) (e : error) : P () :=
  writeCapture (path_join [outDir; "logs"; file]) (fail e).

(** The files that can be read; the others count as empty. *)
(* go: internal/civerify/diagnostics.go readFile *)
Fixpoint read_files (outDir : string) (files : list string) : P (list (string * string)) :=
  match files with
  | [] => mret []
  | f :: files =>
      c ← ask (ReadFile (path_join [outDir; f]));
      rest ← read_files outDir files;
      mret ((f, match c with Ok text => text | Err _ => "" end) :: rest)
  end.

Definition content_of (l : list (string * string)) (f : string) : string :=
  match find (λ e : string * string, e.1 =? f) l with Some e => e.2 | None => "" end.

(* go: internal/civerify/diagnostics.go WriteDiagnosticsSummary *)
Definition WriteDiagnosticsSummary (outDir planName : string) : P string :=
  let outDir := if outDir =? "" then "/tmp/cpo-ci-diagnostics" else outDir in
  let planName := if planName =? "" then "ci-plan" else planName in
  let summaryPath := path_join [outDir; "summary.txt"] in
  files ← read_files outDir (summary_files planName);
  now ← ask Now;
  wrap_err "writing summary file: "
    (ask_ok (WriteFile summaryPath (diagnostics_summary now (content_of files) planName))) ;;
  mret summaryPath.

Lemma runs_ensureDir p : Runs (ensureDir p).
Proof. unfold ensureDir. runs_tac. Qed.
#[local] Hint Resolve runs_ensureDir : runs.
Lemma runs_writeFile p c : Runs (writeFile p c).
Proof. unfold writeFile. runs_tac. Qed.
#[local] Hint Resolve runs_writeFile : runs.
Lemma runs_ignore m : Runs m → Runs (ignore m).
Proof. intros. unfold ignore. runs_tac. Qed.
Lemma runs_writeCapture p m : Runs m → Runs (writeCapture p m).
Proof. intros. unfold writeCapture. apply runs_bind; [runs_tac|]. intros r. apply runs_ignore. runs_tac. Qed.
Lemma runs_getPodLogsIfExists n p c t : Runs (getPodLogsIfExists n p c t).
Proof. unfold getPodLogsIfExists, getPodLogs. runs_tac. Qed.
Lemma runs_deploymentPodName n k v : Runs (deploymentPodName n k v).
Proof. unfold deploymentPodName. runs_tac. Qed.
Lemma runs_dynamicListYAML r n : Runs (dynamicListYAML r n).
Proof. unfold dynamicListYAML. runs_tac. Qed.
Lemma runs_listYAML r n : Runs (listYAML r n).
Proof. unfold listYAML. runs_tac. Qed.
Lemma runs_list_count r n : Runs (list_count r n).
Proof. unfold list_count. runs_tac. Qed.
Lemma runs_capture_url o d f u : Runs (capture_url o d f u).
Proof. unfold capture_url. apply runs_writeCapture. runs_tac. Qed.
Lemma runs_keep_logs o f pf : Runs (keep_logs o f pf).
Proof. unfold keep_logs. apply runs_bind; [runs_tac|]. intros l. apply runs_ignore. runs_tac. Qed.
Lemma runs_keep_error o f e : Runs (keep_error o f e).
Proof. unfold keep_error. apply runs_writeCapture. runs_tac. Qed.
Lemma runs_read_files o l : Runs (read_files o l).
Proof. induction l; cbn [read_files]; runs_tac. Qed.
#[local] Hint Resolve runs_read_files : runs.
Lemma runs_WriteDiagnosticsSummary o p : Runs (WriteDiagnosticsSummary o p).
Proof. unfold WriteDiagnosticsSummary. runs_tac. Qed.
End captures.
#[local] Hint Resolve runs_ensureDir runs_writeFile runs_ignore runs_writeCapture runs_getPodLogsIfExists
  runs_deploymentPodName runs_dynamicListYAML runs_listYAML runs_list_count runs_capture_url runs_keep_logs
  runs_keep_error runs_WriteDiagnosticsSummary : runs.

(** ** The captures *)

Variable cfg : Config.
#[local] Notation R := (M W DiagnosticsRunner).

(** The clients are parameters of the run. *)
(* go: internal/cirunner/diagnostics.go NewDiagnosticsRunner *)
Definition NewDiagnosticsRunner : DiagnosticsRunner := mkDiagnosticsRunner None None.

(* go: internal/cirunner/diagnostics.go DiagnosticsRunner.closePortForwards *)
Definition diagnostics_closePortForwards : R () := r ← get; Close (dr_promPF r) ;; Close (dr_alertPF r).

(** A port forward that is used by [m] and closed after it; when it does not come up,
    [m] is skipped and the error kept in [log]. *)
Definition forwarded (outDir log ns pod : string) (local remote : Z) (store : nat → R ()) (m : nat → R ()) : R () :=
  started ← try (StartPodPortForward ns pod local remote);
  match started with
  | Err e => keep_error outDir log e
  | Ok pf =>
      store pf ;;
      ready ← try (WaitReady pf (30 * second));
      match ready with
      | Err e => keep_error outDir log e
      | Ok _ => defer (Close (Some pf)) (m pf ;; keep_logs outDir log pf)
      end
  end.

(* go: internal/cirunner/diagnostics.go DiagnosticsRunner.capturePrometheusAPI *)
Definition capturePrometheusAPI (outDir : string) : R () :=
  let base := "http://127.0.0.1:19090" in
  let capture := capture_url outDir "prometheus" in
  forwarded outDir "prometheus-port-forward.log" (MonitoringNamespace cfg)
    "prometheus-kube-prometheus-stack-prometheus-0" 19090 9090
    (λ pf, modify (λ r, mkDiagnosticsRunner (Some pf) (dr_alertPF r)))
    (λ _,
      capture "ready.txt" (base +:+ "/-/ready") ;;
      capture "alerts.json" (base +:+ "/api/v1/alerts") ;;
      capture "rules.json" (base +:+ "/api/v1/rules") ;;
      capture "targets.json" (base +:+ "/api/v1/targets") ;;
      capture "status-config.json" (base +:+ "/api/v1/status/config") ;;
      for_each (map_range prometheus_queries) (λ q : string * string,
        capture q.1 (base +:+ "/api/v1/query?query=" +:+ query_escape q.2))).

(* go: internal/cirunner/diagnostics.go DiagnosticsRunner.captureAlertmanagerAPI *)
Definition captureAlertmanagerAPI (outDir : string) : R () :=
  let base := "http://127.0.0.1:19093" in
  let capture := capture_url outDir "alertmanager" in
  forwarded outDir "alertmanager-port-forward.log" (MonitoringNamespace cfg)
    "alertmanager-kube-prometheus-stack-alertmanager-0" 19093 9093
    (λ pf, modify (λ r, mkDiagnosticsRunner (dr_promPF r) (Some pf)))
    (λ _,
      capture "ready.txt" (base +:+ "/-/ready") ;;
      capture "status.json" (base +:+ "/api/v2/status") ;;
      capture "alerts.json" (base +:+ "/api/v2/alerts")).

(** The answer of a short generation. *)
(* go: internal/cirunner/diagnostics.go:309-327 captureLLM *)
Definition generate_smoke (base : string) : R string :=
  if trim_space (LLMModel cfg) =? "" then mret ("skipped: model is empty" +:+ nl)
  else
    let timeout := seconds (LLMTimeoutSeconds cfg) in
    let timeout := if (timeout <=? 0)%Z then (90 * second)%Z else timeout in
    httpPostJSON (base +:+ "/api/generate") (smoke_payload (LLMModel cfg)) timeout.

Definition no_ollama_pod : string := "ollama pod not found in namespace " +:+ LLMNamespace cfg +:+ nl.

(** The backend over a port forward that no field of the runner holds. *)
(* go: internal/cirunner/diagnostics.go:279-329 captureLLM *)
Definition captureLLM_api (outDir : string) : R () :=
  let base := "http://127.0.0.1:19114" in
  let file f := path_join [outDir; "llm"; f] in
  pod ← deploymentPodName (LLMNamespace cfg) "app.kubernetes.io/name" "ollama";
  if trim_space pod =? "" then writeCapture (file "api-status.txt") (mret no_ollama_pod)
  else
    forwarded outDir "ollama-port-forward.log" (LLMNamespace cfg) pod 19114 11434 (λ _, mret ())
      (λ _,
        writeCapture (file "api-tags.json") (httpGET (base +:+ "/api/tags") (15 * second)) ;;
        writeCapture (file "api-ps.json") (httpGET (base +:+ "/api/ps") (15 * second)) ;;
        writeCapture (file "api-generate-smoke.json") (generate_smoke base)).

(* go: internal/cirunner/diagnostics.go DiagnosticsRunner.captureLLM *)
Definition captureLLM (outDir : string) : R () :=
  let file f := path_join [outDir; "llm"; f] in
  let ns := LLMNamespace cfg in
  writeCapture (file "config.txt") (mret (llm_config_text cfg)) ;;
  if negb (llmConfigured cfg) then
    writeCapture (file "status.txt") (mret ("LLM provider is disabled in this run" +:+ nl))
  else
    writeCapture (file "deployments.yaml") (listYAML "deployments" ns) ;;
    writeCapture (file "pods.yaml") (listYAML "pods" ns) ;;
    writeCapture (file "services.yaml") (listYAML "services" ns) ;;
    writeCapture (file "ollama-logs.txt") (
      pod ← deploymentPodName ns "app.kubernetes.io/name" "ollama";
      if trim_space pod =? "" then mret no_ollama_pod else getPodLogsIfExists ns pod "ollama" 2000) ;;
    captureLLM_api outDir.

(* go: internal/cirunner/diagnostics.go DiagnosticsRunner.captureCoreResources *)
Definition captureCoreResources (outDir : string) : R () :=
  let file d f := path_join [outDir; d; f] in
  writeCapture (file "meta" "timestamp.txt") (now ← ask Now; mret (format_rfc3339 now +:+ nl)) ;;
  writeCapture (file "meta" "kubectl-version.txt")
    (context ← ask_res KubeContext; mret ("ci-runner" +:+ nl +:+ "context=" +:+ context +:+ nl)) ;;
  writeCapture (file "cluster" "nodes.txt") (listYAML "nodes" "") ;;
  writeCapture (file "cluster" "pods-all.txt") (listYAML "pods" "") ;;
  writeCapture (file "cluster" "events-all.txt") (listYAML "events" "") ;;
  writeCapture (file "cluster" "capacityplans.txt")
    (names ← ask_res ListPlanNames; mret (namespacedResourcesText names)) ;;
  writeCapture (file "cluster" ("capacityplan-" +:+ PlanName cfg +:+ ".yaml"))
    (y ← ask_res (PlanYAML (PlanName cfg)); mret (marshalYAML y)).

(** The log of the manager, or why there is none. *)
(* go: internal/cirunner/diagnostics.go:450-463 captureOperatorAndMonitoring *)
Definition manager_logs : R string :=
  let ns := OpNamespace cfg in
  pod ← deploymentPodName ns "control-plane" "controller-manager";
  if pod =? "" then
    deployments ← ask_res (ListYAML "deployments" ns);
    if (deployments.1 =? 0)%Z then mret ("operator deployment not found in namespace " +:+ ns +:+ nl)
    else mret ("manager pod not found in namespace " +:+ ns +:+ " for selector control-plane=controller-manager" +:+ nl)
  else getPodLogsIfExists ns pod "manager" 1200.

(* go: internal/cirunner/diagnostics.go:489-498 captureOperatorAndMonitoring *)
Definition monitoring_operator_logs : R string :=
  let ns := MonitoringNamespace cfg in
  pods ← ask_res (ListPods ns "app=kube-prometheus-stack-operator");
  match pods with
  | [] => mret ("monitoring operator pod not found in namespace " +:+ ns +:+ nl)
  | pod :: _ => getPodLogsIfExists ns (rp_Name pod) "kube-prometheus-stack" 1200
  end.

(** The number of objects of four kinds; a list that fails counts as empty. *)
(* go: internal/cirunner/diagnostics.go:418-424 captureOperatorAndMonitoring *)
Definition resource_counts (ns second_kind : string) : R string :=
  a ← list_count "deployments" ns;
  b ← list_count second_kind ns;
  c ← list_count "pods" ns;
  d ← list_count "services" ns;
  mret (counts_text [a; b; c; d]).

(* go: internal/cirunner/diagnostics.go DiagnosticsRunner.captureOperatorAndMonitoring *)
Definition captureOperatorAndMonitoring (outDir : string) : R () :=
  let file d f := path_join [outDir; d; f] in
  let op := OpNamespace cfg in
  let mon := MonitoringNamespace cfg in
  writeCapture (file "operator" "resources.txt") (resource_counts op "replicasets") ;;
  writeCapture (file "operator" "deploy.yaml") (listYAML "deployments" op) ;;
  writeCapture (file "operator" "pods.yaml") (listYAML "pods" op) ;;
  writeCapture (file "operator" "services.yaml") (listYAML "services" op) ;;
  writeCapture (file "operator" "servicemonitors.yaml") (dynamicListYAML "servicemonitors" op) ;;
  writeCapture (file "operator" "manager-logs.txt") manager_logs ;;
  writeCapture (file "monitoring" "resources.txt") (resource_counts mon "statefulsets") ;;
  writeCapture (file "monitoring" "prometheusrules.yaml") (dynamicListYAML "prometheusrules" mon) ;;
  writeCapture (file "monitoring" "servicemonitors.yaml") (dynamicListYAML "servicemonitors" mon) ;;
  writeCapture (file "monitoring" "prometheusrules-all.yaml") (dynamicListYAML "prometheusrules" "") ;;
  writeCapture (file "monitoring" "servicemonitors-all.yaml") (dynamicListYAML "servicemonitors" "") ;;
  writeCapture (file "monitoring" "operator-logs.txt") monitoring_operator_logs ;;
  writeCapture (file "monitoring" "prometheus-logs.txt")
    (getPodLogsIfExists mon "prometheus-kube-prometheus-stack-prometheus-0" "prometheus" 1200) ;;
  writeCapture (file "monitoring" "alertmanager-logs.txt")
    (getPodLogsIfExists mon "alertmanager-kube-prometheus-stack-alertmanager-0" "alertmanager" 1200).

(** What is written when the summary fails. *)
(* go: internal/cirunner/diagnostics.go:525-527 Run *)
Definition failed_summary (now : time) (e : error) : string :=
  text_lines ["Capacity Planning CI Diagnostics Summary"; "GeneratedAtUTC: " +:+ format_rfc3339 now;
              "PlanName: " +:+ PlanName cfg; ""; "[Summary]"; "- Summary generation failed: " +:+ err_msg e].

Definition diagnostics_dir : string :=
  let outDir := trim_space (DiagnosticsOutDir cfg) in if outDir =? "" then "/tmp/cpo-ci-diagnostics" else outDir.

(** The run without its deferred call. *)
(* go: internal/cirunner/diagnostics.go:509-530 Run *)
Definition diagnostics_steps : R () :=
  let outDir := diagnostics_dir in
  for_each ["cluster"; "operator"; "monitoring"; "prometheus"; "alertmanager"; "llm"; "logs"; "meta"]
    (λ sub, ensureDir (path_join [outDir; sub])) ;;
  captureCoreResources outDir ;;
  captureOperatorAndMonitoring outDir ;;
  capturePrometheusAPI outDir ;;
  captureAlertmanagerAPI outDir ;;
  captureLLM outDir ;;
  summary ← try (WriteDiagnosticsSummary outDir (PlanName cfg));
  (match summary with
   | Ok _ => mret ()
   | Err e => now ← ask Now; ignore (writeFile (path_join [outDir; "summary.txt"]) (failed_summary now e))
   end) ;;
  say ("Diagnostics collected in " +:+ outDir +:+ nl).

(* go: internal/cirunner/diagnostics.go DiagnosticsRunner.Run *)
Definition DiagnosticsRun : R () := defer diagnostics_closePortForwards diagnostics_steps.

(** ** It returns *)

Lemma runs_forwarded o l ns p a b st m : (∀ i, Runs (st i)) → (∀ i, Runs (m i)) → Runs (forwarded o l ns p a b st m).
Proof. intros. unfold forwarded. runs_tac. Qed.

Ltac captures_step :=
  lazymatch goal with
  | |- Runs (writeCapture _ _) => apply runs_writeCapture
  | |- Runs (ignore _) => apply runs_ignore
  | |- Runs (forwarded _ _ _ _ _ _ _ _) => apply runs_forwarded
  | |- _ => runs_step
  end.
Ltac captures_tac := repeat (intros; captures_step).

Lemma runs_capturePrometheusAPI o : Runs (capturePrometheusAPI o).
Proof. unfold capturePrometheusAPI. captures_tac. Qed.
Lemma runs_captureAlertmanagerAPI o : Runs (captureAlertmanagerAPI o).
Proof. unfold captureAlertmanagerAPI. captures_tac. Qed.
Lemma runs_generate_smoke b : Runs (generate_smoke b).
Proof. unfold generate_smoke. runs_tac. Qed.
#[local] Hint Resolve runs_generate_smoke : runs.
Lemma runs_captureLLM_api o : Runs (captureLLM_api o).
Proof. unfold captureLLM_api. captures_tac. Qed.
#[local] Hint Resolve runs_captureLLM_api : runs.
Lemma runs_captureLLM o : Runs (captureLLM o).
Proof. unfold captureLLM. captures_tac. Qed.
Lemma runs_captureCoreResources o : Runs (captureCoreResources o).
Proof. unfold captureCoreResources. captures_tac. Qed.
Lemma runs_manager_logs : Runs manager_logs.
Proof. unfold manager_logs. runs_tac. Qed.
Lemma runs_monitoring_operator_logs : Runs monitoring_operator_logs.
Proof. unfold monitoring_operator_logs. runs_tac. Qed.
Lemma runs_resource_counts ns k : Runs (resource_counts ns k).
Proof. unfold resource_counts. runs_tac. Qed.
#[local] Hint Resolve runs_manager_logs runs_monitoring_operator_logs runs_resource_counts : runs.
Lemma runs_captureOperatorAndMonitoring o : Runs (captureOperatorAndMonitoring o).
Proof. unfold captureOperatorAndMonitoring. captures_tac. Qed.
#[local] Hint Resolve runs_capturePrometheusAPI runs_captureAlertmanagerAPI runs_captureLLM runs_captureCoreResources
  runs_captureOperatorAndMonitoring : runs.
Lemma runs_diagnostics_steps : Runs diagnostics_steps.
Proof. unfold diagnostics_steps. captures_tac. Qed.
#[local] Hint Resolve runs_diagnostics_steps : runs.
Lemma runs_DiagnosticsRun : Runs DiagnosticsRun.
Proof. unfold DiagnosticsRun, diagnostics_closePortForwards. runs_tac. Qed.
End diagnostics.

(** ** Captures do not fail *)

Section never_fails.
Context {W : Type} `{World W} `{SliceSorter} `{MapRange} `{CiEnv} (cfg : Config).

Lemma succeeds_writeCapture {X} p (m : M W X string) : succeeds (writeCapture p m).
Proof. unfold writeCapture, ignore. succeeds_tac. Qed.
Lemma succeeds_keep_error {X} o f e : succeeds (W := W) (X := X) (keep_error o f e).
Proof. apply succeeds_writeCapture. Qed.
Lemma succeeds_forwarded o l ns p a b st m :
  (∀ i, succeeds (st i)) → (∀ i, succeeds (m i)) → succeeds (W := W) (forwarded o l ns p a b st m).
Proof. intros. unfold forwarded, keep_logs, keep_error, writeCapture, ignore. succeeds_tac. Qed.

Ltac capture_step :=
  lazymatch goal with
  | |- succeeds (writeCapture _ _) => apply succeeds_writeCapture
  | |- succeeds (capture_url _ _ _ _) => apply succeeds_writeCapture
  | |- succeeds (forwarded _ _ _ _ _ _ _ _) => apply succeeds_forwarded
  | |- _ => succeeds_step
  end.

(** After the directories, everything ends well. *)
Lemma succeeds_captures o :
  succeeds (W := W) (captureCoreResources cfg o) ∧ succeeds (W := W) (captureOperatorAndMonitoring cfg o) ∧
  succeeds (W := W) (capturePrometheusAPI cfg o) ∧ succeeds (W := W) (captureAlertmanagerAPI cfg o) ∧
  succeeds (W := W) (captureLLM cfg o).
Proof.
  unfold captureCoreResources, captureOperatorAndMonitoring, capturePrometheusAPI, captureAlertmanagerAPI, captureLLM,
    captureLLM_api, deploymentPodName.
  split_and!; repeat (intros; capture_step).
Qed.

(** C27. Collecting diagnostics survives a broken cluster.  Whatever the cluster, the
    port forwards and the file system answer, the run ends, and it fails only when one
    of its eight directories cannot be made: once they exist, no failing list, log,
    query, port forward, file or summary makes it return an error. *)
Theorem diagnostics_fail_only_without_directories (s : rt DiagnosticsRunner) (w : W) :
  ∃ r s' w' fuel, (∀ n, (fuel ≤ n)%nat → DiagnosticsRun cfg n s w = Some (r, s', w')) ∧
    ∀ e, r = Err e → ∃ n s1 w1,
      for_each ["cluster"; "operator"; "monitoring"; "prometheus"; "alertmanager"; "llm"; "logs"; "meta"]
        (λ sub, ensureDir (path_join [diagnostics_dir cfg; sub])) n s w = Some (Err e, s1, w1).
Proof.
  destruct (runs_DiagnosticsRun (W := W) cfg s w) as (r & s' & w' & n & Hn & _). exists r, s', w', n. split; [done|].
  intros e ->. specialize (Hn n ltac:(lia)). unfold DiagnosticsRun, defer in Hn.
  destruct (diagnostics_steps cfg n s w) as [[[r1 s1] w1]|] eqn:E; [|done].
  destruct (diagnostics_closePortForwards n s1 w1) as [[[r2 s2] w2]|]; [|done]. injection Hn as -> _ _.
  unfold diagnostics_steps in E. cbv zeta in E. unfold mbind at 1, M_bind in E.
  destruct (for_each _ _ n s w) as [[[[u|e1] s3] w3]|] eqn:Ed; [| |done].
  - destruct (succeeds_captures (diagnostics_dir cfg)) as (H1' & H2' & H3' & H4' & H5').
    match type of E with ?m n s3 w3 = _ => assert (succeeds m) as Hs end.
    { do 5 (apply succeeds_bind; [done|intros _]). unfold ignore, say. succeeds_tac. }
    by destruct (Hs _ _ _ _ _ _ E).
  - injection E as <- <- <-. by exists n, s3, w3.
Qed.
End never_fails.
