(* ===== verification/CiReport.v ===== *)
(** * internal/cirunner: the report of a run

    The rows of internal/civerify/report.go's JSON report and how integration.go
    fills them from the plan and from Alertmanager, and the JSON document of the report
    with its text. *)

From stdpp Require Import base list strings gmap functions.
From Stdlib Require Import ZArith Lia Ascii.
From S2P Require Import Prelude GoSort GoFloat GoText GoStd GoStrconv JsonDoc GoTab ApiTypes Metrics PromClient CiVerify CiConfig CiWorld.
From S2P Require Import CiLogic CiWaits CiRunner.

Local Open Scope string_scope.

(** ** The rows *)

(* go: internal/civerify/report.go PVCTrendDetail *)
Record PVCTrendDetail := mkTrendDetail {
  td_Namespace : string; td_Name : string; td_UsedBytes : Z; td_UsedMiB : float; td_UsageRatio : float;
  td_GrowthBytesPerDay : float; td_GrowthMiBPerMin : float; td_SamplesCount : Z; td_AlertFiring : bool;
  td_DaysUntilFull : option float;
}.

(* go: internal/civerify/report.go WorkloadBudgetDetail *)
Record WorkloadBudgetDetail := mkBudgetDetail {
  bd_Namespace : string; bd_Kind : string; bd_Name : string; bd_Target : string; bd_BudgetBytes : Z; bd_BudgetMiB : float;
  bd_UsedBytes : Z; bd_UsedMiB : float; bd_UsageRatio : float; bd_GrowthBytesPerDay : float; bd_GrowthMiBPerMin : float;
  bd_DaysUntilBreach : option float; bd_ProjectedBreachAt : string;
}.

(* go: internal/civerify/report.go AlertNotificationDetail *)
Record AlertNotificationDetail := mkNotificationDetail {
  nd_Alert : AlertDetail;
  nd_Target : string;
  nd_Why : string;
}.

(** The report with what the text does not show. *)
(* go: internal/civerify/report.go ValidationReport *)
Record ReportFile := mkReportFile {
  rf_GeneratedAtUTC : string;
  rf_Report : ValidationReport;
  rf_PVCTrendDetails : list PVCTrendDetail;
  rf_WorkloadBudgetDetails : list WorkloadBudgetDetail;
  rf_AlertmanagerNotifications : list AlertNotificationDetail;
}.

(** The documents of the rows and of the report, after the struct tags. *)
(* go: internal/civerify/report.go PVCTrendDetail *)
Definition trend_doc (d : PVCTrendDetail) : res json :=
  struct_doc [field_string "namespace" (td_Namespace d); field_string "name" (td_Name d);
    field_int "usedBytes" (td_UsedBytes d); field_float "usedMiB" (td_UsedMiB d);
    field_float "usageRatio" (td_UsageRatio d); field_float "growthBytesPerDay" (td_GrowthBytesPerDay d);
    field_float "growthMiBPerMin" (td_GrowthMiBPerMin d); field_int "samplesCount" (td_SamplesCount d);
    field_value "alertFiring" (JBool (td_AlertFiring d)); field_float_ptr "daysUntilFull" (td_DaysUntilFull d)].

(* go: internal/civerify/report.go WorkloadBudgetDetail *)
Definition budget_doc (d : WorkloadBudgetDetail) : res json :=
  struct_doc [field_string "namespace" (bd_Namespace d); field_string "kind" (bd_Kind d); field_string "name" (bd_Name d);
    field_string "target" (bd_Target d); field_int "budgetBytes" (bd_BudgetBytes d); field_float "budgetMiB" (bd_BudgetMiB d);
    field_int "usedBytes" (bd_UsedBytes d); field_float "usedMiB" (bd_UsedMiB d); field_float "usageRatio" (bd_UsageRatio d);
    field_float "growthBytesPerDay" (bd_GrowthBytesPerDay d); field_float "growthMiBPerMin" (bd_GrowthMiBPerMin d);
    field_float_ptr "daysUntilBreach" (bd_DaysUntilBreach d); field_text "projectedBreachAt" (bd_ProjectedBreachAt d)].

(* go: internal/civerify/report.go AlertNotificationDetail *)
Definition notification_doc (n : AlertNotificationDetail) : res json :=
  let d := nd_Alert n in
  struct_doc [field_string "alertName" (ad_AlertName d); field_string "state" (ad_State d);
    field_string "severity" (ad_Severity d); field_text "namespace" (ad_Namespace d); field_text "pvc" (ad_PVC d);
    field_text "kind" (ad_Kind d); field_text "workload" (ad_Workload d); field_string "target" (nd_Target n);
    field_string "why" (nd_Why n); field_text "summary" (ad_Summary d); field_text "description" (ad_Description d);
    field_text "startsAt" (ad_StartsAt d); field_text "updatedAt" (ad_UpdatedAt d)].

(* go: internal/civerify/report.go ValidationReport *)
Definition report_doc (f : ReportFile) : res json :=
  let r := rf_Report f in
  struct_doc [field_string "generatedAtUTC" (rf_GeneratedAtUTC f); field_string "context" (vr_Context r);
    field_string "prometheusEndpoint" (vr_PrometheusEndpoint r); field_string "managerRollout" (vr_ManagerRollout r);
    field_string "planReconcile" (vr_PlanReconcile r); field_string "trendSignal" (vr_TrendSignal r);
    field_string "growthMathCrosscheck" (vr_GrowthMathCrosscheck r); field_string "promRuleContent" (vr_PromRuleContent r);
    field_string "managerMetrics" (vr_ManagerMetrics r); field_text "llmInsights" (vr_LLMInsights r);
    field_text "llmRiskChangeSummary" (vr_LLMRiskChangeSummary r);
    field_text "llmBudgetRecommendations" (vr_LLMBudgetRecommendations r);
    field_string "prometheusCapacityAlerts" (vr_PrometheusCapacityAlerts r);
    field_string "workloadBudgetAlerts" (vr_WorkloadBudgetAlerts r);
    field_string "alertmanagerCapacityAlerts" (vr_AlertmanagerCapacityAlerts r);
    field_int "trendSeconds" (vr_TrendSeconds r); field_int "totalSeconds" (vr_TotalSeconds r);
    field_int "snapshots" (vr_Snapshots r); field_int "peakGrowingPVCs" (vr_PeakGrowingPVCs r);
    field_slice "pvcTrendDetails" trend_doc (rf_PVCTrendDetails f);
    field_slice "workloadBudgetDetails" budget_doc (rf_WorkloadBudgetDetails f);
    field_slice "alertmanagerNotifications" notification_doc (rf_AlertmanagerNotifications f)].

(** The document as indented text. *)
(* go: internal/civerify/report.go:174-177 WriteValidationReportJSON *)
Definition report_json (f : ReportFile) : res string :=
  res_bind (report_doc f) (λ d, Ok (render_indent 0 d)).

(** ** Filling them *)

(* go: internal/cirunner/integration.go forecastTarget *)
Definition forecastTarget (f : StorageBudgetForecast) : string :=
  if equal_fold (sf_Scope f) "workload" then sf_Namespace f +:+ "/" +:+ sf_Kind f +:+ "/" +:+ sf_Name f
  else sf_Namespace f.

(* go: internal/cirunner/integration.go alertTarget *)
Definition alertTarget (d : AlertDetail) : string :=
  let given s := negb (s =? "") in
  if given (ad_Namespace d) && given (ad_PVC d) then ad_Namespace d +:+ "/pvc/" +:+ ad_PVC d
  else if given (ad_Namespace d) && given (ad_Workload d) && given (ad_Kind d) then
    ad_Namespace d +:+ "/" +:+ ad_Kind d +:+ "/" +:+ ad_Workload d
  else if given (ad_Namespace d) then ad_Namespace d
  else "cluster".

(* go: internal/cirunner/integration.go alertReasonHint *)
Definition alertReasonHint (alertName : string) : string :=
  if alertName =? "PVCUsageHigh" then "usage ratio above warning threshold"
  else if alertName =? "PVCUsageCritical" then "usage ratio above critical threshold"
  else if alertName =? "NamespaceBudgetBreachSoon" then "namespace budget forecast under 7d"
  else if alertName =? "WorkloadBudgetBreachSoon" then "workload budget forecast under 7d"
  else "capacity rule matched".

(* go: internal/cirunner/integration.go:241-252 printCapacityPlanInsights *)
Definition trend_detail (p : PVCSummary) : PVCTrendDetail :=
  mkTrendDetail (ps_Namespace p) (ps_Name p) (ps_UsedBytes p) (mib (f_of_Z (ps_UsedBytes p))) (ps_UsageRatio p)
    (ps_GrowthBytesPerDay p) (mib (per_minute (ps_GrowthBytesPerDay p))) (ps_SamplesCount p) (ps_AlertFiring p)
    (ps_DaysUntilFull p).

(* go: internal/cirunner/integration.go:273-302 printCapacityPlanInsights *)
Definition budget_detail (f : StorageBudgetForecast) : WorkloadBudgetDetail :=
  mkBudgetDetail (sf_Namespace f) (sf_Kind f) (sf_Name f) (forecastTarget f)
    (sf_BudgetBytes f) (mib (f_of_Z (sf_BudgetBytes f))) (sf_UsedBytes f) (mib (f_of_Z (sf_UsedBytes f)))
    (sf_UsageRatio f) (sf_GrowthBytesPerDay f) (mib (per_minute (sf_GrowthBytesPerDay f))) (sf_DaysUntilBreach f)
    (match sf_ProjectedBreachAt f with Some t => format_rfc3339 t | None => "n/a" end).

(* go: internal/cirunner/integration.go:261-269 printCapacityPlanInsights *)
Definition forecast_less (a b : StorageBudgetForecast) : bool :=
  if negb (sf_Namespace a =? sf_Namespace b) then str_ltb (sf_Namespace a) (sf_Namespace b)
  else if negb (sf_Kind a =? sf_Kind b) then str_ltb (sf_Kind a) (sf_Kind b)
  else str_ltb (sf_Name a) (sf_Name b).

(* go: internal/cirunner/integration.go:333-338 printAlertmanagerInsights *)
Definition alert_less (a b : AlertDetail) : bool :=
  if negb (ad_AlertName a =? ad_AlertName b) then str_ltb (ad_AlertName a) (ad_AlertName b)
  else str_ltb (alertTarget a) (alertTarget b).

(* go: internal/cirunner/integration.go:344-370 printAlertmanagerInsights *)
Definition notification_detail (d : AlertDetail) : AlertNotificationDetail :=
  mkNotificationDetail d (alertTarget d) (alertReasonHint (ad_AlertName d)).

(** The report before the insights are read. *)
(* go: internal/cirunner/integration.go:115-140 renderValidationReport *)
Definition validation_report (now : time) (st : integrationState) : ValidationReport :=
  let trendSecs := whole_seconds (t_sub (obsFinishedAt st) (obsStartedAt st)) in
  let totalSecs := whole_seconds (t_sub now (startedAt st)) in
  let c := checks st in
  {|
    vr_Context := c CheckContext; vr_PrometheusEndpoint := c CheckPromEndpoint;
    vr_ManagerRollout := c CheckManagerRollout; vr_PlanReconcile := c CheckPlanReconcile;
    vr_TrendSignal := c CheckTrendSignal; vr_GrowthMathCrosscheck := c CheckGrowthCompare;
    vr_PromRuleContent := c CheckPromRule; vr_ManagerMetrics := c CheckManagerMetrics;
    vr_LLMInsights := c CheckLLMInsights; vr_LLMRiskChangeSummary := ""; vr_LLMBudgetRecommendations := "";
    vr_PrometheusCapacityAlerts := c CheckPromAlerts; vr_WorkloadBudgetAlerts := c CheckWorkloadAlerts;
    vr_AlertmanagerCapacityAlerts := c CheckAlertmanager;
    vr_TrendSeconds := if (trendSecs <? 0)%Z then 0%Z else trendSecs;
    vr_TotalSeconds := if (totalSecs <? 0)%Z then 0%Z else totalSecs;
    vr_Snapshots := snapshots st; vr_PeakGrowingPVCs := maxGrowingPVCs st
  |}.

(* go: internal/cirunner/integration.go:143 renderValidationReport *)
Definition mismatch_note : string :=
  "Note: Prometheus kubelet volume stats capacity appears to reflect backing filesystem size (not PVC request) "
    +:+ "for at least one PVC.".

Definition with_texts (risk budget : string) (r : ValidationReport) : ValidationReport :=
  mkReport (vr_Context r) (vr_PrometheusEndpoint r) (vr_ManagerRollout r) (vr_PlanReconcile r) (vr_TrendSignal r)
    (vr_GrowthMathCrosscheck r) (vr_PromRuleContent r) (vr_ManagerMetrics r) (vr_LLMInsights r) risk budget
    (vr_PrometheusCapacityAlerts r) (vr_WorkloadBudgetAlerts r) (vr_AlertmanagerCapacityAlerts r)
    (vr_TrendSeconds r) (vr_TotalSeconds r) (vr_Snapshots r) (vr_PeakGrowingPVCs r).

(** ** Tables *)

(* go: internal/cirunner/integration.go daysString *)
Definition daysString (days : option float) : string := match days with Some d => sprintf_f 2 d | None => "n/a" end.

(* go: internal/cirunner/integration.go:224-239 printCapacityPlanInsights *)
Definition trend_table (rows : list PVCTrendDetail) : string :=
  "Latest PVC trend summary" +:+ nl +:+
  table (["  pvc"; "usedMiB"; "usageRatio"; "growthMiBPerMin"; "samples"; "alertFiring"; "daysUntilFull"]
    :: map (λ d, ["  " +:+ td_Name d; sprintf_f 2 (td_UsedMiB d); sprintf_f 3 (td_UsageRatio d);
                  sprintf_f 2 (td_GrowthMiBPerMin d); itoa (td_SamplesCount d); bool_text (td_AlertFiring d);
                  daysString (td_DaysUntilFull d)]) rows).

(* go: internal/cirunner/integration.go:259-287 printCapacityPlanInsights *)
Definition budget_table (rows : list WorkloadBudgetDetail) : string :=
  "Latest workload budget forecast" +:+ nl +:+
  table (["  workload"; "budgetMiB"; "usedMiB"; "usageRatio"; "growthMiBPerMin"; "daysUntilBreach"; "projectedBreachAt"]
    :: map (λ d, ["  " +:+ bd_Target d; sprintf_f 2 (bd_BudgetMiB d); sprintf_f 2 (bd_UsedMiB d);
                  sprintf_f 3 (bd_UsageRatio d); sprintf_f 2 (bd_GrowthMiBPerMin d); daysString (bd_DaysUntilBreach d);
                  bd_ProjectedBreachAt d]) rows).

(* go: internal/cirunner/integration.go:339-356 printAlertmanagerInsights *)
Definition notification_table (rows : list AlertNotificationDetail) : string :=
  "Alertmanager capacity notifications" +:+ nl +:+
  table (["  alert"; "state"; "severity"; "target"; "why"; "summary"]
    :: map (λ n, let d := nd_Alert n in
                 ["  " +:+ ad_AlertName d; ad_State d; ad_Severity d; nd_Target n; nd_Why n; trimText (ad_Summary d) 110]) rows).

(** A text of the language model under its title. *)
(* go: internal/cirunner/integration.go:308-315 printCapacityPlanInsights *)
Definition insight_text (title text : string) : string :=
  if text =? "" then "" else title +:+ nl +:+ "  " +:+ text +:+ nl.

(** A table is printed when it has rows. *)
Definition when_rows {A} (table : list A → string) (rows : list A) : string :=
  match rows with [] => "" | _ => table rows end.

Section report.
Context {W : Type} `{World W} `{SliceSorter} `{CiEnv}.
Variable cfg : Config.
Notation R := (M W IntegrationRunner).

(** The rows, and the two texts of the language model. *)
(* go: internal/cirunner/integration.go IntegrationRunner.printCapacityPlanInsights *)
Definition printCapacityPlanInsights :
    R (list PVCTrendDetail * list WorkloadBudgetDetail * string * string) :=
  cp ← try (getCapacityPlan (PlanName cfg));
  match cp with
  | Err e =>
      say ("Detailed insights: unable to fetch CapacityPlan " +:+ go_quote (PlanName cfg) +:+ ": " +:+ err_msg e +:+ nl) ;;
      mret ([], [], "", "")
  | Ok cp =>
      let st := cp_Status cp in
      let pvcDetails := map trend_detail (sort_slice (λ a b, str_ltb (ps_Name a) (ps_Name b)) (st_PVCs st)) in
      let workloadDetails := map budget_detail (sort_slice forecast_less (st_WorkloadForecasts st)) in
      let riskChanges := trim_space (st_LLMRiskChangeSummary st) in
      let recommendations := trim_space (st_LLMBudgetRecommendations st) in
      say (when_rows trend_table pvcDetails +:+ when_rows budget_table workloadDetails +:+
           insight_text "Plan-level LLM risk-change insight" riskChanges +:+
           insight_text "Plan-level LLM budget recommendations" recommendations) ;;
      mret (pvcDetails, workloadDetails, riskChanges, recommendations)
  end.

(* go: internal/cirunner/integration.go IntegrationRunner.printAlertmanagerInsights *)
Definition printAlertmanagerInsights : R (list AlertNotificationDetail) :=
  let nothing why := say ("Alertmanager notification summary: " +:+ why +:+ nl) ;; mret [] in
  r ← get;
  if negb (alertVerifier r) then nothing "unavailable (alert verifier not initialized)"
  else
    details ← try (alertmanager_request (λ E, @AlertmanagerCapacityAlertDetails E));
    match details with
    | Err e => nothing ("unable to fetch alerts: " +:+ err_msg e)
    | Ok [] => nothing "no active capacity alerts at report time"
    | Ok l =>
        let rows := map notification_detail (sort_slice alert_less l) in
        say (notification_table rows) ;; mret rows
    end.

(* go: internal/civerify/report.go WriteValidationReportJSON *)
Definition WriteValidationReportJSON {X} (path : string) (r : ReportFile) : M W X () :=
  r ← (if rf_GeneratedAtUTC r =? "" then
         now ← ask Now;
         mret (mkReportFile (format_rfc3339 now) (rf_Report r) (rf_PVCTrendDetails r) (rf_WorkloadBudgetDetails r)
                 (rf_AlertmanagerNotifications r))
       else mret r);
  raw ← wrap_err "encoding report JSON: " (lift (report_json r));
  wrap_err "writing report JSON: " (ask_ok (WriteFile path (raw +:+ nl))).

(** The report is printed before the insights are read. *)
(* go: internal/cirunner/integration.go IntegrationRunner.renderValidationReport *)
Definition renderValidationReport : R () :=
  now ← ask Now;
  r ← get;
  let report := validation_report now (state r) in
  say (PrintValidationReport report) ;;
  (if sawCapacityToRequestMismatch (state r) then say (mismatch_note +:+ nl) else mret ()) ;;
  file ← with_timeout (10 * second) (
    insights ← printCapacityPlanInsights;
    notifications ← printAlertmanagerInsights;
    let '(trends, budgets, risk, recommendations) := insights
      : list PVCTrendDetail * list WorkloadBudgetDetail * string * string in
    mret (mkReportFile "" (with_texts risk recommendations report) trends budgets notifications));
  written ← try (WriteValidationReportJSON (ValidationReportJSON cfg) file);
  match written with
  | Ok _ => mret ()
  | Err e => warn ("failed to write validation report: " +:+ err_msg e +:+ nl)
  end.

Lemma runs_printCapacityPlanInsights : Runs printCapacityPlanInsights.
Proof. unfold printCapacityPlanInsights. runs_tac. Qed.
#[local] Hint Resolve runs_printCapacityPlanInsights : runs.
Lemma runs_printAlertmanagerInsights : Runs printAlertmanagerInsights.
Proof. unfold printAlertmanagerInsights. runs_tac. Qed.
#[local] Hint Resolve runs_printAlertmanagerInsights : runs.
Lemma runs_WriteValidationReportJSON {X} p r : Runs (X := X) (WriteValidationReportJSON p r).
Proof. unfold WriteValidationReportJSON. runs_tac. Qed.
#[local] Hint Resolve runs_WriteValidationReportJSON : runs.
Lemma runs_renderValidationReport : Runs renderValidationReport.
Proof. unfold renderValidationReport. runs_tac. Qed.
End report.
#[export] Hint Resolve runs_printCapacityPlanInsights runs_printAlertmanagerInsights runs_WriteValidationReportJSON
  runs_renderValidationReport : runs.

Section frames.
Context {W : Type} `{World W} `{SliceSorter} `{CiEnv} (cfg : Config)
  (R : rt IntegrationRunner → rt IntegrationRunner → Prop) `{!PreOrder R}.

Lemma frame_renderValidationReport : frame R (renderValidationReport cfg).
Proof.
  unfold renderValidationReport, printCapacityPlanInsights, printAlertmanagerInsights, WriteValidationReportJSON.
  frame_tac.
Qed.
End frames.
#[export] Hint Resolve frame_renderValidationReport : frames.

(** ** What the file holds *)

(** The numbers of a report that must be finite to be written. *)
Definition trend_finite (d : PVCTrendDetail) : Prop :=
  Forall finite [td_UsedMiB d; td_UsageRatio d; td_GrowthBytesPerDay d; td_GrowthMiBPerMin d] ∧
  from_option finite True (td_DaysUntilFull d).
Definition budget_finite (d : WorkloadBudgetDetail) : Prop :=
  Forall finite [bd_BudgetMiB d; bd_UsedMiB d; bd_UsageRatio d; bd_GrowthBytesPerDay d; bd_GrowthMiBPerMin d] ∧
  from_option finite True (bd_DaysUntilBreach d).
Definition report_finite (f : ReportFile) : Prop :=
  Forall trend_finite (rf_PVCTrendDetails f) ∧ Forall budget_finite (rf_WorkloadBudgetDetails f).

Lemma document_iff P Q d : document P d → (P ↔ Q) → document Q d.
Proof. intros [H1 H2] HPQ. split; [by rewrite H1|done]. Qed.

Ltac struct_tac :=
  eapply document_iff; [apply document_struct; repeat (constructor; [eauto with fields|]); constructor|];
  rewrite ?Forall_cons_iff, ?Forall_nil; cbn [foldr]; intuition.

Lemma trend_document d : document (trend_finite d) (trend_doc d).
Proof. unfold trend_doc, trend_finite. struct_tac. Qed.
Lemma budget_document d : document (budget_finite d) (budget_doc d).
Proof. unfold budget_doc, budget_finite. struct_tac. Qed.
Lemma notification_document n : document True (notification_doc n).
Proof. unfold notification_doc. struct_tac. Qed.
Lemma writable_notifications k l : writable True (field_slice k notification_doc l).
Proof.
  destruct (writable_slice k notification_doc (λ _, True) l notification_document) as [H1 H2].
  split; [|done]. rewrite H1. split; [done|]. intros _. by apply Forall_true.
Qed.
#[local] Hint Resolve trend_document budget_document writable_notifications : fields.

Lemma report_document f : document (report_finite f) (report_doc f).
Proof.
  unfold report_doc, report_finite. struct_tac.
Qed.

Section file.
Context {W : Type} `{World W} {X : Type}.

(** The report with its time, if it had none. *)
Definition timed (t : string) (f : ReportFile) : ReportFile :=
  mkReportFile t (rf_Report f) (rf_PVCTrendDetails f) (rf_WorkloadBudgetDetails f) (rf_AlertmanagerNotifications f).

Definition report_time (f : ReportFile) (w : W) : string * W :=
  if rf_GeneratedAtUTC f =? "" then let '(now, w1) := w_do Now w in (format_rfc3339 now, w1)
  else (rf_GeneratedAtUTC f, w).

(** The two steps of writing a report. *)
Lemma write_report_steps path f n (s : rt X) (w : W) :
  WriteValidationReportJSON path f n s w =
  let '(t, w1) := report_time f w in
  match report_json (timed t f) with
  | Err e => Some (Err (wrap_error "encoding report JSON: " e), s, w1)
  | Ok raw =>
      let '(e, w2) := w_do (WriteFile path (raw +:+ nl)) w1 in
      Some (match e with None => Ok () | Some e => Err (wrap_error "writing report JSON: " e) end, s, w2)
  end.
Proof.
  unfold WriteValidationReportJSON, report_time, mbind, M_bind. destruct (rf_GeneratedAtUTC f =? "").
  - unfold ask, mret, M_ret. destruct (w_do Now w) as [now w1]. unfold wrap_err, lift, timed.
    destruct (report_json _) as [raw|e]; [|done]. unfold ask_ok, ask, or_fail, fail, mbind, M_bind, mret, M_ret.
    by destruct (w_do (WriteFile _ _) w1) as [[e|] w2].
  - unfold mret, M_ret, wrap_err, lift. destruct f as [t r p b l]. cbn [timed rf_GeneratedAtUTC rf_Report rf_PVCTrendDetails
      rf_WorkloadBudgetDetails rf_AlertmanagerNotifications].
    destruct (report_json _) as [raw|e]; [|done]. unfold ask_ok, ask, or_fail, fail, mbind, M_bind, mret, M_ret.
    by destruct (w_do (WriteFile _ _) w) as [[e|] w2].
Qed.

(** C40. The report file is the report.  Writing the report encodes it and then writes
    one file to the given path: its text reads back as the document of the report -
    every field under its tag in the order of the struct, empty optional ones left out,
    with the time of the call when the report carried none - if its texts are valid
    UTF-8; the only error left is the file system's.  When a number of a row is infinite
    or NaN nothing is written and the error is that of the encoder. *)
Theorem report_file_reads_back path f n (s : rt X) (w : W) :
  let '(t, w1) := report_time f w in
  (report_finite f ∧ ∃ doc text,
     report_doc (timed t f) = Ok doc ∧ (texts_ok doc = true → json_parse text = Some doc) ∧
     WriteValidationReportJSON path f n s w =
       let '(e, w2) := w_do (WriteFile path text) w1 in
       Some (match e with None => Ok () | Some e => Err (wrap_error "writing report JSON: " e) end, s, w2)) ∨
  (¬ report_finite f ∧ ∃ e,
     WriteValidationReportJSON path f n s w = Some (Err (wrap_error "encoding report JSON: " e), s, w1)).
Proof.
  rewrite write_report_steps. destruct (report_time f w) as [t w1].
  destruct (report_document (timed t f)) as [Hf Hn]. unfold report_json.
  destruct (report_doc (timed t f)) as [doc|e]; cbn [res_bind res_is_ok] in *.
  - left. split; [by apply Hf|]. exists doc, (render_indent 0 doc +:+ nl). split_and!; [done| |done].
    intros Ht. apply json_parse_blank; [|done]. apply writes_render_indent, doc_ok_parts; auto.
  - right. split; [by intros Hr%Hf|]. by exists e.
Qed.
End file.
