(* ===== verification/CiIntegration.v ===== *)
(** * internal/cirunner: the integration run

    [Run] of integration.go: the steps in their order, what a failure stops, which
    failures the soft mode turns into warnings, and the two deferred calls that
    render the report and close the port forwards whatever happened. *)

From stdpp Require Import base list strings gmap functions.
From Stdlib Require Import ZArith Lia Ascii.
From S2P Require Import Prelude GoSort GoFloat GoText GoStd GoStrconv ApiTypes Metrics PromClient CiVerify CiConfig CiWorld.
From S2P Require Import CiLogic CiWaits CiManifests CiImages CiRunner CiFigures CiSetup CiGrowth CiAlerts CiReport.

Local Open Scope string_scope.

(** The libraries a run calls. *)
Class CiLibs := {
  libs_sorter : SliceSorter;
  libs_range : MapRange;
  libs_yaml : YamlLib;
  libs_retry : RetryLib;
  libs_env : CiEnv;
}.
#[export] Existing Instances libs_sorter libs_range libs_yaml libs_retry libs_env.

Section run.
Context {W : Type} `{World W} `{CiLibs}.
Variable cfg : Config.
(** [clients.CurrentContext]. *)
Variable CurrentContext : string.
Notation R := (M W IntegrationRunner).

(* go: internal/cirunner/integration.go IntegrationRunner.validateContext *)
Definition validateContext : R () :=
  logStep "Validating kubectl context" ;;
  if trim_space CurrentContext =? "" then fail (errorf "kube current context is empty")
  else if negb (CurrentContext =? ExpectedKubeContext cfg) then
    fail (errorf ("kubectl context mismatch: expected " +:+ ExpectedKubeContext cfg +:+ ", got " +:+ CurrentContext))
  else set_check CheckContext ("pass (" +:+ CurrentContext +:+ ")").

(* go: internal/cirunner/integration.go:2253-2259 runTrendAndPolicyChecks *)
Definition checked_insights : R () :=
  r ← try (verifyLLMInsights cfg);
  match r with
  | Ok _ => mret ()
  | Err e =>
      if shouldHardFailLLMError cfg e then fail e
      else
        set_check CheckLLMInsights ("warn (" +:+ err_msg e +:+ ")") ;;
        say ("LLM verification warning: " +:+ err_msg e +:+ nl)
  end.

(* go: internal/cirunner/integration.go IntegrationRunner.runTrendAndPolicyChecks *)
Definition runTrendAndPolicyChecks (firstReconcile : option time) : R () :=
  let pvcs := pvcNames (CIWorkloads cfg) in
  logStep "Waiting for Prometheus to ingest operator PVC metrics" ;;
  ingested ← try (waitForOperatorPVCMetricsSeries cfg pvcs);
  (match ingested with
   | Ok _ => mret ()
   | Err e =>
       say ("  operator metrics ingestion warning: " +:+ err_msg e +:+ nl) ;;
       logOperatorMetricsIngestionDebug pvcs
   end) ;;
  observeTrends cfg ;;
  logStep "Cross-checking growth calculations against Prometheus deriv()" ;;
  compareGrowthCalculations cfg ;;
  checkCapacityPlanPostConditions cfg firstReconcile ;;
  logStep "Validating generated PrometheusRule content" ;;
  validatePrometheusRuleContent cfg ;;
  set_check CheckPromRule "pass" ;;
  logStep "Checking operator metrics for new budget/anomaly metrics" ;;
  startManagerMetricsPortForward cfg ;;
  set_check CheckManagerMetrics "pass" ;;
  checked_insights.

(** A failure that the soft mode turns into a warning. *)
(* go: internal/cirunner/integration.go:1774-1781 Run *)
Definition soft (checks : string) (m : R ()) : R (list string) :=
  r ← try m;
  match r with
  | Ok _ => mret []
  | Err e =>
      if ValidationSoftFail cfg then
        let msg := checks +:+ ": " +:+ err_msg e in
        say ("Validation warning: " +:+ msg +:+ nl) ;; mret [msg]
      else fail e
  end.

(* go: internal/cirunner/integration.go:1791-1800 Run *)
Definition ending_lines (validationWarnings : list string) : R () :=
  match validationWarnings with
  | [] => logStep "K3s integration checks passed"
  | _ =>
      logStep "K3s integration checks completed with validation warnings (soft-fail mode)" ;;
      for_each validationWarnings (λ w, say ("  " +:+ w +:+ nl))
  end.

(** The steps, without the deferred calls. *)
(* go: internal/cirunner/integration.go:1760-1800 Run *)
Definition run_steps : R () :=
  validateContext ;;
  setupMonitoring cfg ;;
  deployOperator cfg ;;
  firstReconcile ← deployWorkloadAndPlan cfg;
  trendWarnings ← soft "trend/policy checks" (runTrendAndPolicyChecks firstReconcile);
  alertWarnings ← soft "alert pipeline checks" (verifyAlertPipeline cfg);
  ending_lines (trendWarnings ++ alertWarnings)%list.

(* go: internal/cirunner/integration.go IntegrationRunner.Run *)
Definition Run : R () := defer closePortForwards (defer (renderValidationReport cfg) run_steps).

(* go: internal/cirunner/integration.go ManagerDeploymentName *)
Definition ManagerDeploymentName {X} (namespace : string) : M W X string :=
  dep ← getDeploymentByLabel namespace "control-plane" "controller-manager"; mret (dep_Name dep).

(* go: internal/cirunner/integration.go CapacityPlanExists *)
Definition CapacityPlanExists {X} (name : string) : M W X bool :=
  cp ← try (getCapacityPlan name);
  match cp with
  | Ok _ => mret true
  | Err e => if contains (to_lower (err_msg e)) "not found" then mret false else fail e
  end.

(* go: internal/cirunner/integration.go WaitForCapacityPlan *)
Definition WaitForCapacityPlan {X} (name : string) (timeout : duration) : M W X () :=
  waitUntil timeout (5 * second) ("capacityplan/" +:+ name +:+ " exists") (when (GetPlan name) (λ _, true)).

Lemma runs_validateContext : Runs validateContext.
Proof. unfold validateContext. runs_tac. Qed.
#[local] Hint Resolve runs_validateContext : runs.
Lemma runs_checked_insights : Runs checked_insights.
Proof. unfold checked_insights. runs_tac. Qed.
#[local] Hint Resolve runs_checked_insights : runs.
Lemma runs_runTrendAndPolicyChecks t : Runs (runTrendAndPolicyChecks t).
Proof. unfold runTrendAndPolicyChecks. runs_tac. Qed.
#[local] Hint Resolve runs_runTrendAndPolicyChecks : runs.
Lemma runs_soft what m : Runs m → Runs (soft what m).
Proof. intros. unfold soft. runs_tac. Qed.
Lemma runs_ending_lines l : Runs (ending_lines l).
Proof. unfold ending_lines. runs_tac. Qed.
#[local] Hint Resolve runs_soft runs_ending_lines : runs.
Lemma runs_run_steps : Runs run_steps.
Proof. unfold run_steps. runs_tac. Qed.
#[local] Hint Resolve runs_run_steps : runs.
Lemma runs_Run : Runs Run.
Proof. unfold Run. runs_tac. Qed.
End run.
