(* ===== verification/CiDemo.v ===== *)
(** * internal/cirunner: a calm cluster

    A [World] and its libraries in which everything is ready, bound and growing, for
    evaluating the runners on.  Its clock moves with sleeps, timers and contexts; a
    timer fires unless a deadline comes first.  That it exists shows that the laws
    of [World] can hold. *)

From stdpp Require Import base list strings gmap functions.
From Stdlib Require Import ZArith Lia Ascii.
From S2P Require Import Prelude GoSort GoFloat GoText GoStd GoStrconv GoJson JsonDoc ApiTypes Metrics PromClient CiVerify CiConfig.
From S2P Require Import CiWorld CiManifests CiRunner CiReport CiIntegration.

Local Open Scope string_scope.

(** ** Time *)

(** The clock, the deadlines, and the requests that change the cluster. *)
Record calm := mkCalm { calm_clock : Z; calm_deadlines : list Z; calm_writes : list string }.

Definition later (d : Z) (w : calm) : calm := mkCalm (calm_clock w + Z.max 0 d) (calm_deadlines w) (calm_writes w).
Definition wrote (what : string) (w : calm) : calm :=
  mkCalm (calm_clock w) (calm_deadlines w) (calm_writes w ++ [what]).

Definition deadline_exceeded : error := mkError "context deadline exceeded" false true.

(** The earliest deadline that comes before a timer of [d]. *)
Definition expires (d : Z) (w : calm) : bool :=
  existsb (λ t, (t <? calm_clock w + d)%Z || (t <=? calm_clock w)%Z) (calm_deadlines w).

(** ** Answers *)

Record answers_of := mkAnswers {
  on_http : string → get_outcome;
  on_command : string → list string → string * string * option error;
  on_plan : Z → string → res (CapacityPlan * string);
  on_ready : nat → forward_event;
}.

Definition demo_deployment (name : string) : Deployment :=
  mkDeployment name 1 (Some 1%Z) [mkContainer "manager" "old" "Always" ["--leader-elect"]] "" 1 1 1 1 0.
Definition demo_flag (t : string) : StatusFlag := mkFlag t true.
Definition demo_pod (name : string) : RunPod := mkRunPod name "node" [demo_flag "PodScheduled"] ["manager"].

Section calm.
Variable a : answers_of.

Definition calm_do {A} (c : call A) (w : calm) : A * calm :=
  match c in call A return A * calm with
  | Now => (calm_clock w, w)
  | Sleep d => (tt, later d w)
  | Timer d => if expires d w then (Some deadline_exceeded, w) else (None, later d w)
  | CtxErr => (None, w)
  | WithTimeout d => (tt, mkCalm (calm_clock w) ((calm_clock w + d)%Z :: calm_deadlines w) (calm_writes w))
  | Cancel => (tt, mkCalm (calm_clock w) (tail (calm_deadlines w)) (calm_writes w))
  | Command n args => (on_command a n args, w)
  | CommandPass n args => (None, wrote (n +:+ " " +:+ join " " args) w)
  | ReadFile p => (Ok "", w)
  | WriteFile p s => (None, wrote ("write " +:+ p) w)
  | Print _ | PrintErr _ => (tt, w)
  | HttpGet _ url => (on_http a url, w)
  | HttpPost _ url _ => (on_http a url, w)
  | DialForward _ _ _ _ => (None, w)
  | AwaitReady i _ => (on_ready a i, w)
  | AwaitEnd _ _ => (tt, w)
  | GetCRD _ => (Ok [demo_flag "Established"], w)
  | GetDeployment _ n => (Ok (demo_deployment n), w)
  | ListDeployments _ _ => (Ok [demo_deployment "manager"], w)
  | UpdateDeployment _ d => (None, wrote ("update deployment " +:+ dep_Name d) w)
  | GetStatefulSet _ _ => (Ok (mkStatefulSet 1 (Some 1%Z) false 1 1 1 1 "r" "r"), w)
  | ListDaemonSets _ => (Ok [], w)
  | ListNodes => (Ok [[demo_flag "Ready"]], w)
  | GetPod _ n => (Ok (demo_pod n), w)
  | ListPods _ _ => (Ok [demo_pod "pod"], w)
  | GetClaim _ n => (Ok (mkClaim "Bound" n (Some 1000%Z)), w)
  | PatchClaim _ n _ => (None, wrote ("patch " +:+ n) w)
  | GetVolume n => (Ok (mkVolume n (Some ("/data/" +:+ n)) None None), w)
  | GetPlan n => (on_plan a (calm_clock w) n, w)
  | CreatePlan n _ => (None, wrote ("create plan " +:+ n) w)
  | UpdatePlan n _ _ => (None, wrote ("update plan " +:+ n) w)
  | GetNamespace _ => (None, w)
  | CreateNamespace _ => (None, w)
  | MapKind _ => (Ok true, w)
  | GetObject _ _ _ => (Ok "1", w)
  | CreateObject _ _ => (None, w)
  | UpdateObject _ _ => (None, w)
  | GetRule _ _ => (Ok "PVCGrowthAccelerationSpike PVCTrendInstability NamespaceBudgetBreachSoon WorkloadBudgetBreachSoon", w)
  | CreateRule _ _ => (None, wrote "create rule" w)
  | UpdateRule _ _ _ => (None, wrote "update rule" w)
  | MakeDir p => (None, w)
  | ForwardLogs _ => ("", w)
  | KubeContext => (Ok "k3d-cpo-ci", w)
  | ListYAML _ _ => (Ok (1%Z, Ok "items: []"), w)
  | DynamicListYAML _ _ => (Ok (Ok "kind: List"), w)
  | ListPlanNames => (Ok ["ci-plan"], w)
  | PlanYAML n => (Ok (Ok ("name: " +:+ n)), w)
  | PodLogs _ _ _ _ => (Ok "log", w)
  end.

#[program] Definition calm_world : World calm := {|
  w_clock := calm_clock;
  w_deadlines := calm_deadlines;
  w_do := @calm_do;
|}.
Next Obligation. intros A c w. destruct c; cbn; try destruct (expires _ _); cbn; lia. Qed.
Next Obligation. intros w. cbn. lia. Qed.
Next Obligation. intros d w. cbn. lia. Qed.
Next Obligation. intros d w. cbn. destruct (expires d w); cbn; [done|lia]. Qed.
Next Obligation. intros d w. exists (calm_clock w + d)%Z. cbn. split; [lia|done]. Qed.
Next Obligation. done. Qed.
Next Obligation. intros A c w. destruct c; cbn; try destruct (expires _ _); done. Qed.
Next Obligation.
  intros d w t Hin Hle Hd. cbn. assert (expires d w = true) as ->; [|done].
  unfold expires. apply existsb_exists. exists t. split; [by apply list_elem_of_In|].
  apply orb_true_iff. right. by apply Z.leb_le.
Qed.
End calm.

(** ** A run that succeeds *)

(** The documents Alertmanager and Prometheus answer with. *)
Definition demo_alert (w : string) : json :=
  JObj [("annotations", labels_doc [("summary", "budget")]);
        ("labels", labels_doc [("alertname", "WorkloadBudgetBreachSoon"); ("namespace", "default"); ("kind", "Pod"); ("workload", w)]);
        ("status", labels_doc [("state", "active")])].
Definition demo_alerts : string := Eval vm_compute in render (JArr (map demo_alert default_workloads)).
Definition demo_scalar : string := Eval vm_compute in render (instant_doc [] "1" (Some 100%Z)).

Definition demo_env : CiEnv := {|
  ci_query_url := λ base q, Ok (base +:+ "/api/v1/query?" +:+ q);
  ci_get := λ _, ReadFails (errorf "no server");
  ci_lib := demo_go;
|}.

(** The plan of a healthy run: five growing claims, reconciled now. *)
Definition demo_pvc (n : string) : PVCSummary :=
  mkPVCSummary "default" (n +:+ "-pvc") 1000 500 (f_of_ratio 1 2) (f_of_Z 10000000) None fzero 24 None "" None true.

Definition demo_forecast (scope : string) : StorageBudgetForecast :=
  mkStorageBudgetForecast scope "default" "Pod" "w" 1000 500 (f_of_ratio 1 2) (f_of_Z 1) None None.

Definition demo_risk : PVCRiskSummary :=
  mkPVCRiskSummary "default" "w-pvc" "" "" "" 500 1000 (f_of_ratio 1 2) (f_of_Z 1) (f_of_Z 1) fzero fzero None None "" true.

Definition demo_status (now : Z) : CapacityPlanStatus :=
  mkCapacityPlanStatus
    [mkCondition "Ready" ConditionTrue 1 "r" ""; mkCondition "PrometheusReady" ConditionTrue 1 "r" ""]
    (map demo_pvc default_workloads) (mkCapacityPlanSummary 5 5 [] [] []) [demo_risk] "digest" [] "" "" None ""
    [demo_forecast "namespace"] [demo_forecast "workload"] "" None [] "none" (Some now) 1.

Definition demo_plan (now : Z) : CapacityPlan := mkCapacityPlan "ci-plan" 1 0 empty_spec (demo_status now).

Definition demo_http (url : string) : get_outcome :=
  Answered 200
    (if contains url "/api/v1/query" then demo_scalar
     else if contains url "/api/v2/alerts" then demo_alerts
     else if contains url "/api/v2/status" then
       render (JObj [("cluster", JNull);
                     ("config", JObj [("original", JStr "receiver: ci-webhook - name: ci-webhook webhook_configs:")])])
     else if contains url "19093/metrics" then
       "alertmanager_notifications_total{receiver=ci-webhook,integration=webhook} 3"
     else if contains url "18080/metrics" then
       "capacityplan_namespace_budget_days_to_breach capacityplan_workload_budget_days_to_breach capacityplan_pvc_anomaly"
     else "ok").

Definition demo_answers : answers_of := mkAnswers demo_http
  (λ name _, if name =? "k3d" then ("k3d-cpo-ci-server-0 server cpo-ci running", "", None) else ("", "", None))
  (λ now _, Ok (demo_plan now, "1"))
  (λ _, ForwardReady).

Definition demo_libs : CiLibs := {|
  libs_sorter := insertion_sorter;
  libs_range := list_range;
  libs_yaml := {| yaml_documents := λ _, ([], None) |};
  libs_retry := {| conflict_retries := 4; backoff_retries := 3; retry_pause := λ _, (10 * 1000000)%Z;
                   is_conflict := λ e, contains (err_msg e) "conflict" |};
  libs_env := demo_env;
|}.

(** The configuration of an empty environment. *)
Definition demo_config : Config := LoadConfig (λ _, "").

Definition demo_start : calm := mkCalm 0 [] [].
Notation demo_runner := (mkRt [] (NewIntegrationRunner 0)).

(** The run; twenty turns are enough for each of its loops. *)
Notation demo_run := (@Run calm (calm_world demo_answers) demo_libs demo_config "k3d-cpo-ci" 20 demo_runner demo_start).
