(* ===== verification/CiRunProps.v ===== *)
(** * internal/cirunner: what an integration run guarantees

    Whatever the cluster does, [Run] of [CiIntegration] ends, closes every port
    forward it started exactly once, and reports success only when every check has
    passed. *)

From stdpp Require Import base list strings gmap functions.
From Stdlib Require Import ZArith Lia Ascii.
From S2P Require Import Prelude GoSort GoFloat GoText GoStd GoStrconv ApiTypes Metrics PromClient CiVerify CiConfig CiWorld.
From S2P Require Import CiLogic CiWaits CiManifests CiImages CiRunner CiFigures CiSetup CiGrowth CiAlerts CiReport.
From S2P Require Import CiIntegration CiDemo.

Local Open Scope string_scope.

(** ** Checks that stay settled *)

Definition settled (c : check) (s : rt IntegrationRunner) : Prop := reports c (checks (state (rt_state s)) c) = true.

#[export] Instance settled_tolerates c : Tolerates (λ s s', settled c s → settled c s').
Proof.
  split.
  - apply _.
  - intros c' text s Ht Hs. unfold settled in *. cbn. destruct (decide (c' = c)) as [->|].
    + by rewrite fn_lookup_insert.
    + by rewrite fn_lookup_insert_ne.
  - intros n s Hs. by destruct n.
  - by intros p a s.
Qed.

#[export] Hint Resolve settled_tolerates : frames.

Section settles.
Context {W : Type} `{World W}.
Notation R := (M W IntegrationRunner).

(** Starting a port forward touches no check. *)
#[local] Instance settled_starts c : Starts (W := W) (λ s s', settled c s → settled c s').
Proof.
  intros f ns pod l r. unfold start_forward, StartPodPortForward.
  apply frame_bind; [exact _| |intros i; apply frame_bind; [exact _| |intros []; apply frame_ret; exact _]].
  - apply frame_bind; [exact _|apply frame_ask; exact _|intros e].
    apply frame_bind; [exact _|apply frame_or_fail; exact _|intros _].
    apply frame_bind; [exact _|apply frame_get_sessions; exact _|intros ss].
    apply frame_bind; [exact _|by apply frame_set_sessions|intros _]. apply frame_ret. exact _.
  - by apply frame_modify.
Qed.

#[local] Hint Resolve settled_starts : frames.

(** Whoever returns without an error has settled the check. *)
Definition settles {A} (m : R A) (c : check) : Prop := sends (λ _, True) m (λ _, settled c) (λ _, True).

Lemma settles_last {A B} (m : R A) (k : A → R B) c : (∀ a, settles (k a) c) → settles (m ≫= k) c.
Proof.
  intros Hk. eapply sends_bind; [|exact Hk]. intros n s w r s' w' _ _. by destruct r.
Qed.

Lemma settles_first {A B} (m : R A) (k : A → R B) c :
  settles m c → (∀ a, frame (λ s s', settled c s → settled c s') (k a)) → settles (m ≫= k) c.
Proof.
  intros Hm Hk. eapply sends_bind; [exact Hm|]. intros a. eapply sends_weaken; [..|apply sends_frame, Hk]; done.
Qed.

Lemma settles_fail {A} e c : settles (A := A) (fail e) c.
Proof. by apply sends_fail. Qed.

Lemma settles_set c text : reports c text = true → settles (set_check c text) c.
Proof. intros Ht. apply sends_modify. intros s _. unfold settled. cbn. by rewrite fn_lookup_insert. Qed.

(** Down to the step that sets the check, which nothing after it undoes. *)
Ltac settles_tac :=
  repeat (intros; lazymatch goal with
    | |- settles (set_check _ _) _ => apply settles_set; reflexivity
    | |- settles (fail _) _ => apply settles_fail
    | |- settles (mbind (λ _, ?k) (set_check ?c _)) ?c => apply settles_first; [|frame_tac]
    | |- settles (mbind _ _) _ => apply settles_last
    | |- settles (match ?x with _ => _ end) _ => destruct x
    end).

Section steps.
Context `{CiLibs} (cfg : Config) (CurrentContext : string).

Lemma settles_validateContext : settles (validateContext cfg CurrentContext) CheckContext.
Proof. unfold validateContext. settles_tac. Qed.
Lemma settles_setupMonitoring : settles (setupMonitoring cfg) CheckPromEndpoint.
Proof. unfold setupMonitoring. settles_tac. Qed.
Lemma settles_deployOperator : settles (deployOperator cfg) CheckManagerRollout.
Proof. unfold deployOperator. settles_tac. Qed.
Lemma settles_deployWorkloadAndPlan : settles (deployWorkloadAndPlan cfg) CheckPlanReconcile.
Proof. unfold deployWorkloadAndPlan. settles_tac. Qed.
Lemma settles_observeTrends : settles (observeTrends cfg) CheckTrendSignal.
Proof. unfold observeTrends, finalizeTrendObservation. settles_tac. Qed.
Lemma settles_compareGrowth : settles (compareGrowthCalculations cfg) CheckGrowthCompare.
Proof. unfold compareGrowthCalculations. settles_tac. Qed.
Lemma settles_verifyLLMInsights : settles (verifyLLMInsights cfg) CheckLLMInsights.
Proof. unfold verifyLLMInsights. settles_tac. Qed.
Lemma settles_checked_insights : settles (checked_insights cfg) CheckLLMInsights.
Proof.
  unfold checked_insights. eapply sends_bind; [apply sends_try, settles_verifyLLMInsights|]. intros [[]|e]; [apply sends_ret|].
  change (settles (if shouldHardFailLLMError cfg e then fail e
                   else set_check CheckLLMInsights ("warn (" +:+ err_msg e +:+ ")") ;;
                        say ("LLM verification warning: " +:+ err_msg e +:+ nl)) CheckLLMInsights).
  settles_tac.
Qed.

Lemma frame_soft (R : rt IntegrationRunner → rt IntegrationRunner → Prop) `{!PreOrder R} what
    (m : M W IntegrationRunner ()) :
  frame R m → frame R (soft cfg what m).
Proof. intros. unfold soft. frame_tac. Qed.

Lemma frame_ending_lines (R : rt IntegrationRunner → rt IntegrationRunner → Prop) `{!PreOrder R} l :
  frame R (ending_lines (W := W) l).
Proof. unfold ending_lines. frame_tac. Qed.

#[local] Hint Resolve frame_soft frame_ending_lines : frames.

Lemma frame_checked_insights c : frame (λ s s', settled c s → settled c s') (checked_insights cfg).
Proof. unfold checked_insights. frame_tac. Qed.
#[local] Hint Resolve frame_checked_insights : frames.

Lemma frame_runTrend c t : frame (λ s s', settled c s → settled c s') (runTrendAndPolicyChecks cfg t).
Proof. unfold runTrendAndPolicyChecks. frame_tac. Qed.
#[local] Hint Resolve frame_runTrend : frames.

(** The checks of the trend and policy step, and of the alert pipeline. *)
Definition trend_checks : list check :=
  [CheckTrendSignal; CheckGrowthCompare; CheckPromRule; CheckManagerMetrics; CheckLLMInsights].
Definition alert_checks : list check := [CheckPromAlerts; CheckWorkloadAlerts; CheckAlertmanager].

Lemma settles_runTrend t c : c ∈ trend_checks → settles (runTrendAndPolicyChecks cfg t) c.
Proof.
  intros Hc. unfold runTrendAndPolicyChecks. do 3 (apply settles_last; intros ?).
  repeat (apply elem_of_cons in Hc as [->|Hc]); [..|by apply not_elem_of_nil in Hc].
  - apply settles_first; [apply settles_observeTrends|frame_tac].
  - do 2 (apply settles_last; intros ?). apply settles_first; [apply settles_compareGrowth|frame_tac].
  - settles_tac.
  - settles_tac.
  - do 10 (apply settles_last; intros ?). apply settles_checked_insights.
Qed.

Lemma settles_verifyAlerts c : c ∈ alert_checks → settles (verifyAlerts cfg) c.
Proof.
  intros Hc. unfold verifyAlerts. apply settles_last; intros r.
  repeat (apply elem_of_cons in Hc as [->|Hc]); [..|by apply not_elem_of_nil in Hc].
  - apply settles_first; [settles_tac|frame_tac].
  - settles_tac.
  - settles_tac.
Qed.

Lemma settles_soft what (m : M W IntegrationRunner ()) c :
  ValidationSoftFail cfg = false → settles m c → settles (soft cfg what m) c.
Proof.
  intros Hsoft Hm. unfold soft. rewrite Hsoft. eapply sends_bind; [apply sends_try, Hm|].
  intros [[]|e]; [apply sends_ret|]. by apply sends_fail.
Qed.

Lemma settles_run_steps c : ValidationSoftFail cfg = false → settles (run_steps cfg CurrentContext) c.
Proof.
  intros Hsoft. unfold run_steps.
  destruct (decide (c = CheckContext)) as [->|]; [apply settles_first; [apply settles_validateContext|frame_tac]|].
  apply settles_last; intros _.
  destruct (decide (c = CheckPromEndpoint)) as [->|]; [apply settles_first; [apply settles_setupMonitoring|frame_tac]|].
  apply settles_last; intros _.
  destruct (decide (c = CheckManagerRollout)) as [->|]; [apply settles_first; [apply settles_deployOperator|frame_tac]|].
  apply settles_last; intros _.
  destruct (decide (c = CheckPlanReconcile)) as [->|]; [apply settles_first; [apply settles_deployWorkloadAndPlan|frame_tac]|].
  apply settles_last; intros t. destruct (decide (c ∈ trend_checks)).
  { apply settles_first; [by apply settles_soft, settles_runTrend|frame_tac]. }
  apply settles_last; intros ?. apply settles_first; [|frame_tac]. apply settles_soft; [done|]. unfold verifyAlertPipeline.
  do 4 (apply settles_last; intros ?). apply settles_verifyAlerts. unfold trend_checks, alert_checks in *.
  destruct c; set_solver.
Qed.
End steps.
End settles.

(** ** Port forwards in use

    Every session that is not closed is held by a field of the runner, the fields in
    use are among the given ones, and a closed session was stopped once. *)
Definition held (used : list forward) (s : rt IntegrationRunner) : Prop :=
  (∀ i p, rt_sessions s !! i = Some p →
     pf_stops p = (if pf_closed p then 1 else 0) ∧ (pf_closed p = false → ∃ f, forwards (rt_state s) f = Some i)) ∧
  (∀ f i, forwards (rt_state s) f = Some i → f ∈ used) ∧
  (length (rt_sessions s) ≤ length used)%nat.

#[export] Instance held_tolerates used : Tolerates (λ s s', held used s → held used s').
Proof. split; [apply _|by intros|by intros|by intros]. Qed.
#[export] Hint Resolve held_tolerates : frames.

Lemma held_more l used s : held used s → held (l ++ used)%list s.
Proof.
  intros (H1 & H2 & H3). split_and!; [done| |rewrite length_app; lia].
  intros f i Hf. apply elem_of_app. right. by eapply H2.
Qed.

Section takes.
Context {W : Type} `{World W}.
Notation R := (M W IntegrationRunner).

(** Whatever it returns, the program has taken at most these fields into use. *)
Definition takes (l : list forward) {A} (m : R A) (used : list forward) : Prop :=
  sends (held used) m (λ _, held (l ++ used)%list) (held (l ++ used)%list).

Notation keeps_held used m := (frame (λ s s', held used s → held used s') m).

Lemma takes_frame l {A} (m : R A) used : keeps_held used m → takes l m used.
Proof. intros Hm. eapply sends_weaken; [..|by apply sends_frame]; [done|intros ?|]; intros s; apply held_more. Qed.

Lemma takes_last l {A B} (m : R A) (k : A → R B) used :
  keeps_held used m → (∀ a, takes l (k a) used) → takes l (m ≫= k) used.
Proof.
  intros Hm Hk. eapply sends_bind; [|exact Hk].
  eapply sends_weaken; [..|by apply sends_frame]; [done|done|]. intros s. apply held_more.
Qed.

Lemma takes_first l {A B} (m : R A) (k : A → R B) used :
  takes l m used → (∀ a, keeps_held (l ++ used)%list (k a)) → takes l (m ≫= k) used.
Proof. intros Hm Hk. eapply sends_bind; [exact Hm|]. intros a. apply sends_frame, Hk. Qed.

Lemma takes_both l1 l2 {A B} (m : R A) (k : A → R B) used :
  takes l1 m used → (∀ a, takes l2 (k a) (l1 ++ used)%list) → takes (l2 ++ l1)%list (m ≫= k) used.
Proof.
  intros Hm Hk. unfold takes. rewrite <-(assoc_L app). eapply sends_bind; [|exact Hk].
  eapply sends_weaken; [..|exact Hm]; [done|done|]. intros s. apply held_more.
Qed.

Lemma takes_try l {A} (m : R A) used : takes l m used → takes l (try m) used.
Proof. intros Hm. eapply sends_weaken; [..|by eapply sends_try]; [done| |by intros]. by intros []. Qed.

Lemma takes_start f ns pod local remote used : f ∉ used → takes [f] (start_forward f ns pod local remote) used.
Proof.
  intros Hf n s w r s' w' (H1 & H2 & H3). unfold start_forward, StartPodPortForward, mbind, M_bind, ask.
  destruct (w_do _ w) as [e w1]. destruct e as [e|]; cbn.
  { intros [= <- <- <-]. by apply (held_more [f]). }
  unfold get_sessions, set_sessions, modify, mret, M_ret. intros [= <- <- <-]. cbn. split_and!; cbn.
  - intros i p Hi. apply lookup_app_Some in Hi as [Hi|[Hle Hi]].
    + destruct (H1 i p Hi) as [Hs Hc]. split; [done|]. intros Ho. destruct (Hc Ho) as [g Hg]. exists g.
      rewrite fn_lookup_insert_ne; [done|]. intros ->. apply Hf. by eapply H2.
    + apply list_lookup_singleton_Some in Hi as [Hi <-]. split; [done|]. intros _. exists f.
      rewrite fn_lookup_insert. f_equal. lia.
  - intros g i Hg. destruct (decide (f = g)) as [->|Hne]; [by left|]. rewrite fn_lookup_insert_ne in Hg by done.
    right. by eapply H2.
  - rewrite length_app. cbn. lia.
Qed.

(** Frames up to the start of a port forward, and frames after it. *)
Ltac takes_tac :=
  repeat (intros; lazymatch goal with
    | |- takes _ (mbind _ (start_forward _ _ _ _ _)) _ => apply takes_first; [apply takes_start; set_solver|frame_tac]
    | |- takes _ (mbind _ (wrap_err _ _)) _ => apply takes_last; [frame_tac|]
    | |- takes _ (mbind _ _) _ => apply takes_last; [solve [frame_tac]|]
    end); intros.

Section steps.
Context `{CiLibs} (cfg : Config) (CurrentContext : string) (used : list forward).

Lemma takes_startPrometheus : PromPF ∉ used → takes [PromPF] (startPrometheusPortForward cfg) used.
Proof. intros. unfold startPrometheusPortForward. takes_tac. Qed.
Lemma takes_startManagerMetrics : ManagerPF ∉ used → takes [ManagerPF] (startManagerMetricsPortForward cfg) used.
Proof. intros. unfold startManagerMetricsPortForward. takes_tac. Qed.
Lemma takes_startAlertmanager : AlertPF ∉ used → takes [AlertPF] (startAlertmanagerPortForward cfg) used.
Proof. intros. unfold startAlertmanagerPortForward. takes_tac. Qed.
Lemma takes_startAlertReceiver : AlertReceiverPF ∉ used → takes [AlertReceiverPF] (startAlertReceiverPortForward cfg) used.
Proof. intros. unfold startAlertReceiverPortForward. takes_tac. Qed.

Lemma takes_setupMonitoring : PromPF ∉ used → takes [PromPF] (setupMonitoring cfg) used.
Proof.
  intros. unfold setupMonitoring. takes_tac. apply takes_first; [by apply takes_startPrometheus|frame_tac].
Qed.

Lemma takes_deployLLMBackend : LlmPF ∉ used → takes [LlmPF] (deployLLMBackend cfg) used.
Proof.
  intros. unfold deployLLMBackend. destruct (llmEnabled cfg); cbn [negb]; [|apply takes_frame; frame_tac].
  destruct (trim_space _ =? "ollama"); cbn [negb]; [takes_tac|apply takes_frame; frame_tac].
Qed.

Lemma takes_deployWorkloadAndPlan : LlmPF ∉ used → takes [LlmPF] (deployWorkloadAndPlan cfg) used.
Proof.
  intros. unfold deployWorkloadAndPlan, setupLLMBackendForWorkload. apply takes_last; [frame_tac|intros _].
  apply takes_first; [|frame_tac].
  apply takes_first; [by apply takes_try, takes_deployLLMBackend|frame_tac].
Qed.

Lemma takes_runTrend t : ManagerPF ∉ used → takes [ManagerPF] (runTrendAndPolicyChecks cfg t) used.
Proof.
  intros. unfold runTrendAndPolicyChecks, checked_insights. takes_tac.
  apply takes_first; [by apply takes_startManagerMetrics|frame_tac].
Qed.

Lemma takes_verifyAlertPipeline :
  AlertPF ∉ used → AlertReceiverPF ∉ used → takes [AlertReceiverPF; AlertPF] (verifyAlertPipeline cfg) used.
Proof.
  intros. unfold verifyAlertPipeline. apply takes_last; [frame_tac|intros _]. apply (takes_both [AlertPF] [AlertReceiverPF]); [by apply takes_startAlertmanager|].
  intros _. apply takes_first; [|frame_tac]. destruct (_ =? _); [|apply takes_frame; frame_tac].
  unfold startAlertReceiverPortForward. takes_tac.
Qed.

Lemma takes_soft l what (m : R ()) : takes l m used → takes l (soft cfg what m) used.
Proof. intros Hm. unfold soft. apply takes_first; [by apply takes_try|frame_tac]. Qed.
End steps.

Lemma takes_run_steps `{CiLibs} cfg context :
  takes [AlertReceiverPF; AlertPF; ManagerPF; LlmPF; PromPF] (run_steps cfg context) [].
Proof.
  unfold run_steps. apply takes_last; [unfold validateContext; frame_tac|intros _].
  apply (takes_both [PromPF] [AlertReceiverPF; AlertPF; ManagerPF; LlmPF]); [apply takes_setupMonitoring; set_solver|].
  intros _. apply takes_last; [frame_tac|intros _].
  apply (takes_both [LlmPF] [AlertReceiverPF; AlertPF; ManagerPF]); [apply takes_deployWorkloadAndPlan; set_solver|].
  intros t. apply (takes_both [ManagerPF] [AlertReceiverPF; AlertPF]).
  - apply takes_soft, takes_runTrend. set_solver.
  - intros ?. apply takes_first; [apply takes_soft, takes_verifyAlertPipeline; set_solver|].
    intros ?. by apply frame_ending_lines, _.
Qed.

(** ** Closing *)

(** The open sessions are held by the fields still to be closed. *)
Definition to_close (r : IntegrationRunner) (l : list forward) (s : rt IntegrationRunner) : Prop :=
  rt_state s = r ∧ (length (rt_sessions s) ≤ 5)%nat ∧
  ∀ i p, rt_sessions s !! i = Some p →
    pf_stops p = (if pf_closed p then 1 else 0) ∧ (pf_closed p = false → ∃ f, f ∈ l ∧ forwards r f = Some i).

(** A field that holds no open session needs no closing. *)
Lemma to_close_skip r f l s :
  (∀ i p, forwards r f = Some i → rt_sessions s !! i = Some p → pf_closed p = true) →
  to_close r (f :: l) s → to_close r l s.
Proof.
  intros Hf (Hr & Hlen & Hs). split_and!; [done..|]. intros i p Hi. destruct (Hs i p Hi) as [Hst Hc].
  split; [done|]. intros Ho. destruct (Hc Ho) as (g & [->|Hg]%elem_of_cons & Hg'); [|by exists g].
  by rewrite (Hf i p) in Ho.
Qed.

Lemma sends_Close r f l : sends (to_close r (f :: l)) (Close (forwards r f)) (λ _, to_close r l) (λ _, False).
Proof.
  intros n s w res s' w' Hs. unfold Close. destruct (forwards r f) as [i|] eqn:Ef.
  2: { intros [= <- <- <-]. eapply to_close_skip; [|done]. congruence. }
  unfold mbind, M_bind, get_sessions. destruct (rt_sessions s !! i) as [p|] eqn:Ei.
  2: { intros [= <- <- <-]. eapply to_close_skip; [|done]. congruence. }
  destruct (pf_closed p) eqn:Ep.
  { intros [= <- <- <-]. eapply to_close_skip; [|done]. congruence. }
  unfold set_sessions, ask. destruct (w_do _ w) as [u w1]. intros [= <- <- <-].
  destruct Hs as (Hr & Hlen & Hs). split_and!; [done|by cbn; rewrite length_insert|]. cbn. intros j q Hj.
  destruct (decide (i = j)) as [->|Hne].
  - rewrite list_lookup_insert_eq in Hj by (by eapply lookup_lt_Some). injection Hj as <-.
    unfold close_session. rewrite Ep. cbn. split; [|done]. destruct (Hs j p Ei) as [-> _]. by rewrite Ep.
  - rewrite list_lookup_insert_ne in Hj by done. destruct (Hs j q Hj) as [Hst Hc]. split; [done|].
    intros Ho. destruct (Hc Ho) as (g & [->|Hg]%elem_of_cons & Hf); [congruence|by exists g].
Qed.

Lemma sends_close_all r l : sends (to_close r l) (for_each l (λ f, Close (forwards r f))) (λ _, to_close r []) (λ _, False).
Proof.
  induction l as [|f l IH]; cbn [for_each]; [by apply sends_ret|].
  eapply sends_bind; [apply sends_Close|intros a; exact IH].
Qed.

(** Nothing stays open: what was held in the five fields is closed. *)
Definition all_closed (s : rt IntegrationRunner) : Prop :=
  (length (rt_sessions s) ≤ 5)%nat ∧ Forall (λ p, pf_closed p = true ∧ pf_stops p = 1) (rt_sessions s).

Lemma sends_closePortForwards used :
  (length used ≤ 5)%nat → sends (held used) closePortForwards (λ _, all_closed) (λ _, False).
Proof.
  intros Hu n s w r s' w' (H1 & H2 & H3) Hr. unfold closePortForwards, mbind, M_bind, get in Hr.
  apply (sends_close_all (rt_state s)) in Hr.
  - destruct r as [[]|]; [|done]. destruct Hr as (_ & Hlen & Hs). split; [done|]. apply Forall_lookup. intros i p Hi.
    destruct (Hs i p Hi) as [Hst Hc]. destruct (pf_closed p) eqn:Ep; [done|].
    destruct (Hc eq_refl) as (f & Hf & _). by apply not_elem_of_nil in Hf.
  - split_and!; [done|lia|]. intros i p Hi. destruct (H1 i p Hi) as [Hst Hc]. split; [done|]. intros Ho.
    destruct (Hc Ho) as [f Hf]. exists f. split; [|done]. destruct f; set_solver.
Qed.
End takes.

(** A deferred call that leaves it alone does not undo what success has settled. *)
Lemma sends_defer_ok {W A B} P (c : M W IntegrationRunner B) (m : M W IntegrationRunner A) (Q : rt IntegrationRunner → Prop) :
  sends P m (λ _, Q) (λ _, True) → frame (λ s s', Q s → Q s') c → sends P (defer c m) (λ _, Q) (λ _, True).
Proof.
  intros Hm Hc n s w r s' w' HP. unfold defer. destruct (m n s w) as [[[r1 s1] w1]|] eqn:Em; [|done].
  destruct (c n s1 w1) as [[[r2 s2] w2]|] eqn:Ec; [|done]. intros [= <- <- <-].
  apply (Hm _ _ _ _ _ _ HP) in Em. destruct r1; [|done]. by eapply Hc.
Qed.

Lemma frame_closePortForwards {W} `{World W} c : frame (W := W) (λ s s', settled c s → settled c s') closePortForwards.
Proof.
  unfold closePortForwards. apply frame_bind; [exact _|apply frame_get; exact _|intros r].
  apply frame_for_each; [exact _|]. intros f. unfold Close. destruct (forwards r f); [|frame_tac].
  apply frame_bind; [exact _|frame_tac|intros l]. destruct (l !! _); [|frame_tac]. destruct (pf_closed _); [frame_tac|].
  apply frame_bind; [exact _|by apply frame_set_sessions|frame_tac].
Qed.

(** ** Properties *)

Section properties.
Context {W : Type} `{World W} `{CiLibs} (cfg : Config) (context : string).

(** From a fresh state every forward is closed, and without the soft mode success settles
    every check. *)
Lemma sends_Run_closes : sends (held []) (Run cfg context) (λ _, all_closed) all_closed.
Proof.
  apply sends_defer with (P' := held [AlertReceiverPF; AlertPF; ManagerPF; LlmPF; PromPF]).
  - eapply sends_defer; [apply takes_run_steps|apply sends_frame; frame_tac].
  - eapply sends_weaken; [..|apply (sends_closePortForwards [AlertReceiverPF; AlertPF; ManagerPF; LlmPF; PromPF]); simpl; lia]; done.
Qed.

Lemma sends_Run_settles c :
  ValidationSoftFail cfg = false → sends (λ _, True) (Run cfg context) (λ _, settled c) (λ _, True).
Proof.
  intros Hsoft. apply sends_defer_ok; [|apply frame_closePortForwards].
  apply sends_defer_ok; [by apply settles_run_steps|frame_tac].
Qed.

Lemma held_fresh now : held [] (mkRt [] (NewIntegrationRunner now)).
Proof. split_and!; [done|done|simpl; lia]. Qed.

(** An integration run ends.  Whatever the cluster answers to the calls of a run,
    and however long its clock takes, [Run] returns once it has enough fuel, with the
    same result for any more of it; time has not gone back, and every context it made
    is cancelled. *)
Theorem integration_run_terminates (s : rt IntegrationRunner) (w : W) :
  ∃ r s' w' fuel, (∀ n, (fuel ≤ n)%nat → Run cfg context n s w = Some (r, s', w')) ∧
    (w_clock w <= w_clock w')%Z ∧ w_deadlines w' = w_deadlines w.
Proof. apply runs_Run. Qed.

(** C14. No port forward outlives a run.  A fresh runner starts at most five port
    forwards, and however its run ends, with success, an error or a soft failure, each
    of them has been closed, its stop channel exactly once (closing it twice would
    panic). *)
Theorem run_closes_every_port_forward now (n : nat) (w : W) r s' w' :
  Run cfg context n (mkRt [] (NewIntegrationRunner now)) w = Some (r, s', w') →
  (length (rt_sessions s') ≤ 5)%nat ∧ Forall (λ p, pf_closed p = true ∧ pf_stops p = 1) (rt_sessions s').
Proof.
  intros Hr. apply (sends_Run_closes _ _ _ _ _ _ (held_fresh now)) in Hr. by destruct r.
Qed.

(** Success means that everything was checked.  When a run without the soft mode
    returns no error, each of its checks has been settled: eleven of them report that
    they passed, and that of the language model that it passed, was skipped, or gave a
    warning. *)
Theorem successful_run_passed_every_check s (n : nat) (w : W) s' w' :
  ValidationSoftFail cfg = false →
  Run cfg context n s w = Some (Ok (), s', w') →
  ∀ c, reports c (checks (state (rt_state s')) c) = true.
Proof.
  intros Hsoft Hr c. by apply (sends_Run_settles c Hsoft _ _ _ _ _ _ I) in Hr.
Qed.
End properties.

(** The calm cluster, where the run succeeds. *)
Lemma demo_run_ok : ∃ s w, demo_run = Some (Ok (), s, w).
Proof. vm_compute. by eexists _, _. Qed.

Lemma run_closes_every_port_forward_witness :
  match demo_run with Some (_, s, _) => Forall (λ p, pf_closed p = true ∧ pf_stops p = 1) (rt_sessions s) | None => False end.
Proof.
  destruct demo_run as [[[r s] w]|] eqn:E; [|by destruct demo_run_ok as (? & ? & Hd); rewrite E in Hd].
  exact (proj2 (run_closes_every_port_forward (H := calm_world demo_answers) (H0 := demo_libs) demo_config "k3d-cpo-ci"
    0 20 demo_start r s w E)).
Defined.

Lemma successful_run_passed_every_check_witness :
  match demo_run with
  | Some (_, s, _) => ∀ c, reports c (checks (state (rt_state s)) c) = true
  | None => False
  end.
Proof.
  destruct demo_run as [[[r s] w]|] eqn:E; destruct demo_run_ok as (s1 & w1 & Hd); rewrite E in Hd; [|done].
  injection Hd as -> _ _.
  exact (successful_run_passed_every_check (H := calm_world demo_answers) (H0 := demo_libs) demo_config "k3d-cpo-ci"
    demo_runner 20 demo_start s w eq_refl E).
Defined.
