(* ===== verification/CiExamples.v ===== *)
(** * internal/cirunner: on a concrete cluster

    The calm cluster of [CiDemo] shows that what the other files assume of a run can
    hold, and a cluster whose Ollama pod never gets ready shows a port forward that
    the diagnostics leave open. *)

From stdpp Require Import base list strings gmap functions.
From Stdlib Require Import ZArith Lia Ascii.
From S2P Require Import Prelude GoSort GoFloat GoText GoStd GoStrconv ApiTypes Metrics PromClient CiVerify CiConfig CiWorld CiLogic.
From S2P Require Import CiWaitProps CiRunner CiFigures CiSetup CiSetupProps CiGrowth CiGrowthProps CiReport CiIntegration.
From S2P Require Import CiDiagnostics CiDemo.

Local Open Scope string_scope.

(** ** Waits *)

Notation no_wait := (@waitUntil calm (calm_world demo_answers) () (2 * second)%Z second "nothing" (mret false) 20 (mkRt [] ()) demo_start).

Lemma wait_until_ends_truthfully_witness :
  match no_wait with
  | Some (Err e, _, w') => e = timed_out "nothing" (2 * second) ∧ (2 * second <= calm_clock w')%Z
  | _ => False
  end.
Proof.
  destruct no_wait as [[[r s] w]|] eqn:E; [|by vm_compute in E].
  pose proof (wait_until_ends_truthfully (H := calm_world demo_answers) _ _ _ _ _ _ _ _ _ _ E) as Ht.
  destruct r as [[]|e]; [by vm_compute in E|].
  destruct Ht as [[ctx ->]|[[-> Hc]|(e0 & s0 & w0 & w1 & Hk & _)]]; [|by split|by injection Hk].
  exfalso. vm_compute in E. by injection E.
Defined.

(** ** Backends *)

Notation demo_mounts := (@resolvePVCBackendMounts calm (calm_world demo_answers) demo_env "default" ["a-pvc"; "b-pvc"]
  20 demo_runner demo_start).

Lemma claims_get_their_own_directories_witness :
  match demo_mounts with Some (Ok mounts, _, _) => length mounts = 2 | _ => False end.
Proof.
  destruct demo_mounts as [[[[mounts|e] s] w]|] eqn:E; [|by vm_compute in E|by vm_compute in E].
  exact (proj1 (claims_get_their_own_directories (H := calm_world demo_answers) (H0 := demo_env) (H1 := insertion_sorter)
    _ _ _ _ _ _ _ _ E)).
Defined.

(** ** Comparison *)

Notation demo_growth := [mkPVCGrowth "a-pvc" (f_of_Z 100); mkPVCGrowth "b-pvc" (f_of_Z 100)].
Notation demo_comparison := (@run_comparison calm (calm_world demo_answers) demo_env demo_config demo_growth 240
  20 demo_runner demo_start).

Lemma run_comparison_judges_the_answers_witness :
  match demo_comparison with
  | Some (Ok (summary, _), _, _) =>
      sm_Comparable summary = Z.of_nat (length (List.filter row_HasPromData (sm_Rows summary)))
  | _ => False
  end.
Proof.
  destruct demo_comparison as [[[[[summary err]|e] s] w]|] eqn:E; [|by vm_compute in E|by vm_compute in E].
  destruct (run_comparison_judges_the_answers (H := calm_world demo_answers) (E := demo_env) _ _ _ _ _ _ _ _ _ E)
    as (sum & err' & ds & failed & [= -> ->] & _ & _ & _ & Hc & _). exact Hc.
Defined.

(** Both claims are compared, and match. *)
Example demo_comparison_counts :
  match demo_comparison with Some (Ok (summary, _), _, _) => sm_Comparable summary = 2%Z ∧ sm_Matched summary = 2%Z
  | _ => False end.
Proof. vm_compute. done. Qed.

(** ** A port forward that stays *)

Definition slow_answers : answers_of :=
  mkAnswers demo_http (on_command demo_answers) (on_plan demo_answers)
    (λ i, if (i =? 2)%nat then ForwardTimeout else ForwardReady).

Definition llm_config : Config := LoadConfig (λ k, if k =? "CI_ENABLE_LLM" then "true" else "").


(** The diagnostics can leave a port forward open.  When the forward to the Ollama
    pod does not get ready in time, its error is written down, but unlike those to
    Prometheus and Alertmanager no field holds it and nothing closes it: the run ends
    without an error and with that session still open. *)
Theorem diagnostics_leave_a_port_forward_open :
  match @DiagnosticsRun calm (calm_world slow_answers) insertion_sorter list_range demo_env llm_config 20
    (mkRt [] NewDiagnosticsRunner) demo_start with
  | Some (r, s, _) => r = Ok () ∧ map pf_closed (rt_sessions s) = [true; true; false]
  | None => False
  end.
Proof. vm_compute. by split. Qed.
