(* ===== verification/Commands.v ===== *)
(** * Command line programs

    How the programs of cmd/ end, what they print, and how one runs a runner. *)

From stdpp Require Import base list strings gmap.
From Stdlib Require Import ZArith Lia Ascii.
From S2P Require Import Prelude CiWorld.

Local Open Scope string_scope.

(** ** Ends of a process *)

(** The exit code, and what the program writes to standard error. *)
Record ending := mkEnding { exit_code : Z; stderr : list string }.

(** The state of a program: what it has printed to standard output. *)
Abbreviation console := (list string) (only parsing).

(** A runner has its own memory; it begins without port forwards. *)
Definition running {W X Y A} (x : X) (m : M W X A) : M W Y A := λ n s w,
  match m n (mkRt [] x) w with
  | Some (r, _, w) => Some (r, s, w)
  | None => None
  end.

Definition print {W} (text : string) : M W console () := modify (λ out, (out ++ [text])%list).

(** [err] is printed and ends the process with 1. *)
Definition finish {W X} (m : M W X ()) : M W X ending :=
  r ← try m;
  mret (match r with Ok _ => mkEnding 0 [] | Err e => mkEnding 1 ["ERROR: " +:+ err_msg e] end).

(** A command that may end the process itself, with a code and without a text. *)
Definition finish_or_exit {W X} (m : M W X (option Z)) : M W X ending :=
  r ← try m;
  mret (match r with
        | Ok None => mkEnding 0 []
        | Ok (Some code) => mkEnding code []
        | Err e => mkEnding 1 ["ERROR: " +:+ err_msg e]
        end).

(** Arguments that ask for help. *)
Definition is_help (arg : string) : bool := existsb (String.eqb arg) ["-h"; "--help"; "help"].
