(* ===== verification/CmdVerify.v ===== *)
(** * cmd/ci-verify

    The commands of ci-verify with their flags.  What the flag package itself prints is
    left out. *)

From stdpp Require Import base list strings gmap.
From Stdlib Require Import ZArith Lia Ascii.
From S2P Require Import Prelude GoFloat GoText GoStd GoStrconv GoFlag ApiTypes PromClient CiVerify CiWorld CiRunner CiFigures CiGrowth CiReport CiDiagnostics Commands.

Local Open Scope go_scope.
Local Open Scope string_scope.

(** ** Flags *)

(* go: cmd/ci-verify/main.go:64-72 runCrosscheckGrowth *)
Definition crosscheck_flags : FlagSet := list_to_map [
  ("plan-name", FString "ci-plan");
  ("prom-url", FString "http://127.0.0.1:19090");
  ("namespace", FString "default");
  ("window-seconds", FInt 240);
  ("rel-tol", FFloat (f_of_ratio 65 100));
  ("abs-tol-bytes-per-day", FFloat (f_of_Z 15000000000));
  ("min-comparable", FInt 4);
  ("min-matching", FInt 4);
  ("request-timeout", FDuration (5 * second))].

Definition default_workload_list : string := "cpo-ci-steady,cpo-ci-bursty,cpo-ci-trickle,cpo-ci-churn,cpo-ci-delayed".

(* go: cmd/ci-verify/main.go:127-133 runVerifyAlerts *)
Definition alerts_flags : FlagSet := list_to_map [
  ("prom-url", FString "http://127.0.0.1:19090");
  ("alertmanager-url", FString "http://127.0.0.1:19093");
  ("capacity-already-seen", FBool false);
  ("workloads", FString default_workload_list);
  ("poll-interval", FDuration (5 * second));
  ("timeout", FDuration (15 * minute));
  ("request-timeout", FDuration (5 * second))].

(* go: cmd/ci-verify/main.go:186-201 runReport *)
Definition report_flags : FlagSet := list_to_map [
  ("context", FString "pending");
  ("prometheus-endpoint", FString "pending");
  ("manager-rollout", FString "pending");
  ("plan-reconcile", FString "pending");
  ("trend-signal", FString "pending");
  ("growth-math-crosscheck", FString "pending");
  ("prom-rule-content", FString "pending");
  ("manager-metrics", FString "pending");
  ("prometheus-capacity-alerts", FString "pending");
  ("workload-budget-alerts", FString "pending");
  ("alertmanager-capacity-alerts", FString "pending");
  ("snapshots", FInt 0);
  ("peak-growing-pvcs", FInt 0);
  ("trend-seconds", FInt 0);
  ("total-seconds", FInt 0);
  ("output-json", FString "/tmp/cpo-ci-validation-report.json")].

(* go: cmd/ci-verify/main.go:239-240 runSummarizeDiagnostics *)
Definition diagnostics_flags : FlagSet := list_to_map [
  ("out-dir", FString "/tmp/cpo-ci-diagnostics");
  ("plan-name", FString "ci-plan")].

(* go: cmd/ci-verify/main.go usage *)
Definition usage : list string := [
  "Usage:";
  "  ci-verify crosscheck-growth [flags]";
  "  ci-verify verify-alerts [flags]";
  "  ci-verify report [flags]";
  "  ci-verify summarize-diagnostics [flags]";
  "";
  "Flags for crosscheck-growth:";
  "  --plan-name string (default ci-plan)";
  "  --prom-url string (default http://127.0.0.1:19090)";
  "  --namespace string (default default)";
  "  --window-seconds int (default 240)";
  "  --rel-tol float (default 0.65)";
  "  --abs-tol-bytes-per-day float (default 15000000000)";
  "  --min-comparable int (default 4)";
  "  --min-matching int (default 4)";
  "  --request-timeout duration (default 5s)";
  "";
  "Flags for verify-alerts:";
  "  --prom-url string (default http://127.0.0.1:19090)";
  "  --alertmanager-url string (default http://127.0.0.1:19093)";
  "  --capacity-already-seen bool (default false)";
  "  --workloads csv (default cpo-ci-steady,cpo-ci-bursty,cpo-ci-trickle,cpo-ci-churn,cpo-ci-delayed)";
  "  --poll-interval duration (default 5s)";
  "  --timeout duration (default 15m)";
  "  --request-timeout duration (default 5s)";
  "";
  "Flags for report:";
  "  --context string";
  "  --prometheus-endpoint string";
  "  --manager-rollout string";
  "  --plan-reconcile string";
  "  --trend-signal string";
  "  --growth-math-crosscheck string";
  "  --prom-rule-content string";
  "  --manager-metrics string";
  "  --prometheus-capacity-alerts string";
  "  --workload-budget-alerts string";
  "  --alertmanager-capacity-alerts string";
  "  --snapshots int";
  "  --peak-growing-pvcs int";
  "  --trend-seconds int";
  "  --total-seconds int";
  "  --output-json path (default /tmp/cpo-ci-validation-report.json)";
  "";
  "Flags for summarize-diagnostics:";
  "  --out-dir path (default /tmp/cpo-ci-diagnostics)";
  "  --plan-name string (default ci-plan)"].

(** ** Commands *)

(* go: cmd/ci-verify/main.go parseWorkloadsCSV *)
Definition parseWorkloadsCSV (input : string) : list string :=
  List.filter (λ p, negb (p =? "")) (map trim_space (split_on "," input)).

(** *** The client of the cluster *)

(** The errors of controller-runtime when it looks for a kubeconfig and when it makes a
    client of it. *)
Record kube_lib := mkKube { kube_GetConfig : option error; kube_New : option error }.

(** [ctrl.GetConfigOrDie] gives its error to controller-runtime's logger, which these
    programs never set up, and ends the process with 1: nothing is printed. *)
Inductive kube_client := Died (code : Z) | Made (e : option error).

(* go: internal/civerify/capacityplan.go NewKubeClient *)
Definition NewKubeClient (k : kube_lib) : kube_client :=
  match kube_GetConfig k with
  | Some _ => Died 1
  | None => Made (kube_New k)
  end.

Section commands.
Context {W : Type} `{World W} `{E : CiEnv}.
Variable kube : kube_lib.
Notation C := (M W console).

(** The values of the flags; arguments after the first that is no flag are ignored. *)
Definition flags_of (fs : FlagSet) (args : list string) : C FlagSet :=
  r ← lift (Parse go_quote fs args); mret r.1.

(* go: cmd/ci-verify/main.go:90-95 runCrosscheckGrowth *)
Definition crosscheck_options (fs : FlagSet) : CompareOptions :=
  mkCompareOptions (flag_float fs "rel-tol") (flag_float fs "abs-tol-bytes-per-day")
    (flag_int fs "min-comparable") (flag_int fs "min-matching").

(** The comparison with the flags' tolerances, over queries with the flags' window. *)
(* go: cmd/ci-verify/main.go:89-100 runCrosscheckGrowth *)
Definition crosscheck (fs : FlagSet) (pvcGrowth : list PVCGrowth) : C (ComparisonSummary * option error) :=
  let promClient := NewPrometheusClient (flag_string fs "prom-url") (flag_duration fs "request-timeout") in
  compare_growth
    (λ pvcName, try (client_scalar promClient
       (BuildPVCGrowthDerivQuery (flag_string fs "namespace") pvcName (flag_int fs "window-seconds"))))
    (crosscheck_options fs) pvcGrowth.

(** After the client is made. *)
(* go: cmd/ci-verify/main.go:84-108 runCrosscheckGrowth *)
Definition crosscheck_plan (fs : FlagSet) : C () :=
  plan ← ask (GetPlan (flag_string fs "plan-name"));
  pvcGrowth ← lift (plan_growth (flag_string fs "plan-name") (match plan with Ok (cp, _) => Ok cp | Err e => Err e end));
  o ← crosscheck fs pvcGrowth;
  let '(summary, compareErr) := o : ComparisonSummary * option error in
  print (PrintGrowthSummary summary (flag_int fs "window-seconds")) ;;
  or_fail compareErr ;;
  print ("RESULT matched=" +:+ itoa (sm_Matched summary) +:+ " comparable=" +:+ itoa (sm_Comparable summary)).

(** The code with which the process ends on the way, if it does. *)
(* go: cmd/ci-verify/main.go runCrosscheckGrowth *)
Definition runCrosscheckGrowth (args : list string) : C (option Z) :=
  fs ← flags_of crosscheck_flags args;
  match NewKubeClient kube with
  | Died code => mret (Some code)
  | Made e => wrap_err "creating Kubernetes client: " (or_fail e) ;; crosscheck_plan fs ;; mret None
  end.

(** A poll; when it does not succeed in time, the text goes before its error. *)
Definition verify_wait (fs : FlagSet) (what : string) (check : C bool) : C () :=
  wrap_err ("timed out waiting for " +:+ what +:+ " after " +:+ duration_text (flag_duration fs "timeout") +:+ ": ")
    (verifyUntil (flag_duration fs "timeout") (flag_duration fs "poll-interval") check).

(** The waits, without the summary that is printed at the end. *)
(* go: cmd/ci-verify/main.go:144-173 runVerifyAlerts *)
Definition verify_steps (fs : FlagSet) (workloads : list string) : C () :=
  let promClient := NewPrometheusClient (flag_string fs "prom-url") (flag_duration fs "request-timeout") in
  let verifier := NewAlertVerifier promClient (flag_string fs "alertmanager-url") (flag_duration fs "request-timeout") in
  (if flag_bool fs "capacity-already-seen" then mret ()
   else verify_wait fs "capacity alerts in Prometheus ALERTS metric"
          (client_has_results promClient BuildPrometheusCapacityAlertsQuery)) ;;
  verify_wait fs "WorkloadBudgetBreachSoon alerts for all workloads" (all_workload_alerts verifier workloads) ;;
  for_each workloads (λ workload,
    ok ← wrap_err ("querying workload alert for " +:+ workload +:+ ": ")
           (client_has_results promClient (BuildPrometheusWorkloadAlertQuery workload));
    if (ok : bool) then mret ()
    else fail (errorf ("missing WorkloadBudgetBreachSoon for " +:+ workload +:+ " after aggregate wait"))) ;;
  verify_wait fs "capacity alerts in Alertmanager API"
    (verifier_request verifier (λ E, @AlertmanagerHasCapacityAlerts E)).

(* go: cmd/ci-verify/main.go runVerifyAlerts *)
Definition runVerifyAlerts (args : list string) : C () :=
  fs ← flags_of alerts_flags args;
  let workloads := parseWorkloadsCSV (flag_string fs "workloads") in
  (if (length workloads =? 0)%nat then fail (errorf "no workloads were provided") else mret ()) ;;
  verify_steps fs workloads ;;
  for_each ["Alert verification summary";
            "  prometheus_capacity_alerts: " +:+
              (if flag_bool fs "capacity-already-seen" then "pass (seen during trend observation)" else "pass (after wait)");
            "  workload_budget_alerts: pass (" +:+ itoa (Z.of_nat (length workloads)) +:+ " workloads)";
            "  alertmanager_capacity_alerts: pass"] print.

(* go: cmd/ci-verify/main.go:207-223 runReport *)
Definition report_of (fs : FlagSet) : ValidationReport :=
  let text := flag_string fs in
  mkReport (text "context") (text "prometheus-endpoint") (text "manager-rollout") (text "plan-reconcile")
    (text "trend-signal") (text "growth-math-crosscheck") (text "prom-rule-content") (text "manager-metrics") "" "" ""
    (text "prometheus-capacity-alerts") (text "workload-budget-alerts") (text "alertmanager-capacity-alerts")
    (flag_int fs "trend-seconds") (flag_int fs "total-seconds") (flag_int fs "snapshots") (flag_int fs "peak-growing-pvcs").

(* go: cmd/ci-verify/main.go runReport *)
Definition runReport (args : list string) : C () :=
  fs ← flags_of report_flags args;
  let report := report_of fs in
  print (PrintValidationReport report) ;;
  if flag_string fs "output-json" =? "" then mret ()
  else
    WriteValidationReportJSON (flag_string fs "output-json") (mkReportFile "" report [] [] []) ;;
    print ("REPORT_JSON " +:+ flag_string fs "output-json").

(* go: cmd/ci-verify/main.go runSummarizeDiagnostics *)
Definition runSummarizeDiagnostics (args : list string) : C () :=
  fs ← flags_of diagnostics_flags args;
  summaryPath ← WriteDiagnosticsSummary (flag_string fs "out-dir") (flag_string fs "plan-name");
  print ("SUMMARY_TXT " +:+ summaryPath).

(** [os.Args] begins with the program's own name. *)
(* go: cmd/ci-verify/main.go main *)
Definition main (os_Args : list string) : C ending :=
  match os_Args with
  | _ :: command :: args =>
      if command =? "crosscheck-growth" then finish_or_exit (runCrosscheckGrowth args)
      else if command =? "verify-alerts" then finish (runVerifyAlerts args)
      else if command =? "report" then finish (runReport args)
      else if command =? "summarize-diagnostics" then finish (runSummarizeDiagnostics args)
      else if is_help command then mret (mkEnding 0 usage)
      else mret (mkEnding 2 usage)
  | _ => mret (mkEnding 2 usage)
  end.
End commands.
