(* ===== verification/CiClients.v ===== *)
(** * internal/cirunner/kube.go: the clients of a run

    How a runner gets its clients from the kubeconfig.  Loading the file and making a
    client belong to client-go and controller-runtime ([KubeLib]); the clients
    themselves are handles whose calls are those of [CiWorld]. *)

From stdpp Require Import base list strings.
From Stdlib Require Import ZArith Lia.
From S2P Require Import Prelude GoFloat GoText.

Local Open Scope string_scope.
Local Open Scope go_scope.

(** The fields of [rest.Config] the code looks at; [rc_Server] stands for the others. *)
Record rest_config := mkRest { rc_Server : string; rc_QPS : float; rc_Burst : Z }.

(* go: internal/cirunner/kube.go Clients *)
Record Clients := mkClients { RESTConfig : rest_config; CurrentContext : string }.

(** What the libraries answer: the current context of the loaded file, the REST
    configuration made of it, and whether a client of a kind can be made. *)
Inductive client_kind := Typed | APIExtensions | Dynamic | Discovery | Controller.

Class KubeLib := {
  load_kubeconfig : res string;
  client_config : res rest_config;
  new_client : client_kind → rest_config → option error;
}.

Section build.
Context `{KubeLib}.

(* go: internal/cirunner/kube.go:46-52 BuildClients *)
Definition default_limits (cfg : rest_config) : rest_config :=
  mkRest (rc_Server cfg) (if feqb (rc_QPS cfg) fzero then f_of_Z 50 else rc_QPS cfg)
    (if (rc_Burst cfg =? 0)%Z then 100%Z else rc_Burst cfg).

(** A client that cannot be made ends the construction. *)
Definition made (what : string) (e : option error) : res () :=
  match e with Some e => Err (wrap_error what e) | None => Ok () end.

(* go: internal/cirunner/kube.go BuildClients *)
Definition BuildClients : res Clients :=
  match load_kubeconfig with
  | Err e => Err (wrap_error "loading kubeconfig: " e)
  | Ok context =>
      let currentContext := trim_space context in
      match client_config with
      | Err e => Err (wrap_error "building rest config: " e)
      | Ok restCfg =>
          let restCfg := default_limits restCfg in
          let? _ := made "creating typed client: " (new_client Typed restCfg) in
          let? _ := made "creating api extensions client: " (new_client APIExtensions restCfg) in
          let? _ := made "creating dynamic client: " (new_client Dynamic restCfg) in
          let? _ := made "creating discovery client: " (new_client Discovery restCfg) in
          let? _ := made "creating controller client: " (new_client Controller restCfg) in
          Ok (mkClients restCfg currentContext)
      end
  end.

(** Clients are rate limited, made of one configuration, and named after the context of
    the file. *)
Lemma built_clients c :
  BuildClients = Ok c →
  (∃ raw, load_kubeconfig = Ok raw ∧ CurrentContext c = trim_space raw) ∧
  (∃ cfg, client_config = Ok cfg ∧ RESTConfig c = default_limits cfg) ∧
  (∀ k, new_client k (RESTConfig c) = None) ∧ rc_Burst (RESTConfig c) ≠ 0%Z ∧
  feqb (rc_QPS (RESTConfig c)) fzero = false.
Proof.
  unfold BuildClients. destruct load_kubeconfig as [raw|]; [|done]. destruct client_config as [cfg|]; [|done].
  unfold made. set (rest := default_limits cfg).
  destruct (new_client Typed rest) eqn:?; [done|]. destruct (new_client APIExtensions rest) eqn:?; [done|].
  destruct (new_client Dynamic rest) eqn:?; [done|]. destruct (new_client Discovery rest) eqn:?; [done|].
  destruct (new_client Controller rest) eqn:?; [done|]. intros [= <-]. cbn [CurrentContext RESTConfig].
  split_and!; [by eexists|by eexists|by intros []| |]; subst rest; unfold default_limits; cbn [rc_Burst rc_QPS].
  - by destruct (Z.eqb_spec (rc_Burst cfg) 0).
  - destruct (feqb (rc_QPS cfg) fzero) eqn:E; [by vm_compute|done].
Qed.
End build.
