(* ===== verification/CmdRunner.v ===== *)
(** * cmd/ci-runner

    The commands of ci-runner: each loads the configuration from the environment, makes
    its clients and a runner, and runs it. *)

From stdpp Require Import base list strings gmap.
From Stdlib Require Import ZArith Lia Ascii.
From S2P Require Import Prelude GoSort GoText GoStrconv GoFlag PromClient CiVerify CiConfig CiWorld CiRunner CiReport CiSetup CiImages.
From S2P Require Import CiNightly CiDiagnostics CiIntegration Commands CiClients.

Local Open Scope go_scope.
Local Open Scope string_scope.

(* go: cmd/ci-runner/main.go usage *)
Definition usage : list string := [
  "Usage:";
  "  ci-runner integration";
  "  ci-runner collect-diagnostics";
  "  ci-runner import-image-k3d";
  "  ci-runner nightly-alert-delivery"].

Section commands.
Context {W : Type} `{World W} `{L : CiLibs} `{KubeLib}.
Variable Getenv : string → string.
Notation C := (M W ()).

(** No command has flags of its own. *)
Definition no_flags (args : list string) : C () :=
  _ ← lift (Parse go_quote ∅ args); mret ().

(* go: cmd/ci-runner/main.go runIntegration *)
Definition runIntegration (args : list string) : C () :=
  no_flags args ;;
  clients ← lift BuildClients;
  now ← ask Now;
  running (NewIntegrationRunner now) (Run (LoadConfig Getenv) (CurrentContext clients)).

(* go: cmd/ci-runner/main.go runCollectDiagnostics *)
Definition runCollectDiagnostics (args : list string) : C () :=
  no_flags args ;;
  _ ← lift BuildClients;
  running NewDiagnosticsRunner (DiagnosticsRun (LoadConfig Getenv)).

(* go: cmd/ci-runner/main.go runImportImageK3D *)
Definition runImportImageK3D (args : list string) : C () :=
  no_flags args ;;
  RunImportImageK3D Getenv (LoadConfig Getenv).

(* go: cmd/ci-runner/main.go runNightlyAlertDelivery *)
Definition runNightlyAlertDelivery (args : list string) : C () :=
  no_flags args ;;
  _ ← lift BuildClients;
  running None (NightlyRun (LoadConfig Getenv)).

(* go: cmd/ci-runner/main.go main *)
Definition main (os_Args : list string) : C ending :=
  match os_Args with
  | _ :: command :: args =>
      if command =? "integration" then finish (runIntegration args)
      else if command =? "collect-diagnostics" then finish (runCollectDiagnostics args)
      else if command =? "import-image-k3d" then finish (runImportImageK3D args)
      else if command =? "nightly-alert-delivery" then finish (runNightlyAlertDelivery args)
      else if is_help command then mret (mkEnding 0 usage)
      else mret (mkEnding 1 (usage ++ ["ERROR: " +:+ "unknown command: " +:+ command]))
  | _ => mret (mkEnding 2 usage)
  end.
End commands.
