(* ===== verification/CmdReceiver.v ===== *)
(** * cmd/alert-receiver

    The settings of the alert receiver's process and the handler it serves. *)

From stdpp Require Import base list strings gmap.
From Stdlib Require Import ZArith Lia Ascii.
From S2P Require Import Prelude GoText AlertReceiver.

Local Open Scope string_scope.

Section receiver.
Variable Getenv : string → string.

(* go: cmd/alert-receiver/main.go getenvDefault *)
Definition getenvDefault (key fallback : string) : string :=
  let v := trim_space (Getenv key) in if v =? "" then fallback else v.

(* go: cmd/alert-receiver/main.go getenvInt64 *)
Definition getenvInt64 (key : string) (fallback : Z) : Z :=
  let raw := trim_space (Getenv key) in
  if raw =? "" then fallback else match atoi raw with inl n => n | inr _ => fallback end.

(** Where it listens, the log it keeps, and the limit of a body. *)
(* go: cmd/alert-receiver/main.go:36-38 main *)
Definition settings : string * string * Z :=
  (getenvDefault "ALERT_RECEIVER_ADDR" ":8080",
   getenvDefault "ALERT_RECEIVER_LOG_PATH" "/tmp/alerts.log",
   getenvInt64 "ALERT_RECEIVER_MAX_BODY_BYTES" DefaultMaxBodyBytes).

(** The handler of the process. *)
(* go: cmd/alert-receiver/main.go:40-41 main *)
Definition handler (aio : append_io) (rio : read_io) (r : request) (l : log) : response * log :=
  let '(_, _, maxBodyBytes) := settings in serve maxBodyBytes aio rio r l.
End receiver.
