(* ===== verification/CommandProps.v ===== *)
(** * The command line programs: what they guarantee

    The programs of [CmdVerify] and [CmdRunner] end, their exit codes mean what they should, and the
    report command prints the report its flags describe. *)

From stdpp Require Import base list strings gmap.
From Stdlib Require Import ZArith Lia Ascii.
From S2P Require Import Prelude GoSort GoFloat GoText GoStd GoStrconv GoFlag ApiTypes PromClient CiVerify CiConfig CiWorld CiLogic CiRunner.
From S2P Require Import CiFigures CiGrowth CiGrowthProps CiReport CiSetup CiImages CiNightly CiDiagnostics CiIntegration CiDemo.
From S2P Require Import CiRunProps Commands CmdVerify CiClients CmdRunner.

Local Open Scope go_scope.
Local Open Scope string_scope.

(** ** Every command returns *)

Section runs.
Context {W : Type} `{World W}.

Lemma runs_running {X Y A} (x : X) (m : M W X A) : Runs m → Runs (running (Y := Y) x m).
Proof.
  intros Hm s w. destruct (Hm (mkRt [] x) w) as (r & s' & w' & n & E & Hc & Hd). exists r, s, w', n.
  split_and!; [|done..]. intros n' Hn. unfold running. by rewrite E.
Qed.

Lemma runs_print text : Runs (W := W) (print text).
Proof. apply runs_modify. Qed.

Lemma runs_finish_or_exit {X} (m : M W X (option Z)) : Runs m → Runs (finish_or_exit m).
Proof. intros. unfold finish_or_exit. runs_tac. Qed.

Lemma runs_finish {X} (m : M W X ()) : Runs m → Runs (finish m).
Proof. intros. unfold finish. runs_tac. Qed.
End runs.
#[export] Hint Resolve runs_running runs_print runs_finish runs_finish_or_exit : runs.

Section verify.
Context {W : Type} `{World W} `{CiEnv}.

Lemma runs_flags_of fs args : Runs (W := W) (CmdVerify.flags_of fs args).
Proof. unfold CmdVerify.flags_of. runs_tac. Qed.
#[local] Hint Resolve runs_flags_of : runs.
Lemma runs_crosscheck fs l : Runs (W := W) (CmdVerify.crosscheck fs l).
Proof. unfold CmdVerify.crosscheck. runs_tac. Qed.
#[local] Hint Resolve runs_crosscheck : runs.
Lemma runs_runCrosscheckGrowth k args : Runs (W := W) (CmdVerify.runCrosscheckGrowth k args).
Proof. unfold CmdVerify.runCrosscheckGrowth, CmdVerify.crosscheck_plan. runs_tac. Qed.
Lemma runs_verify_wait fs what check : Runs check → Runs (W := W) (CmdVerify.verify_wait fs what check).
Proof. intros. unfold CmdVerify.verify_wait. runs_tac. Qed.
#[local] Hint Resolve runs_verify_wait : runs.
Lemma runs_verify_steps fs l : Runs (W := W) (CmdVerify.verify_steps fs l).
Proof. unfold CmdVerify.verify_steps. runs_tac. Qed.
#[local] Hint Resolve runs_verify_steps : runs.
Lemma runs_runVerifyAlerts args : Runs (W := W) (CmdVerify.runVerifyAlerts args).
Proof. unfold CmdVerify.runVerifyAlerts. runs_tac. Qed.
Lemma runs_runReport args : Runs (W := W) (CmdVerify.runReport args).
Proof. unfold CmdVerify.runReport. runs_tac. Qed.
Lemma runs_runSummarizeDiagnostics args : Runs (W := W) (CmdVerify.runSummarizeDiagnostics args).
Proof. unfold CmdVerify.runSummarizeDiagnostics. runs_tac. apply runs_WriteDiagnosticsSummary. Qed.
Lemma runs_verify_main k args : Runs (W := W) (CmdVerify.main k args).
Proof.
  unfold CmdVerify.main. destruct args as [|p [|c args]]; [apply runs_ret..|].
  destruct (_ =? _); [apply runs_finish_or_exit, runs_runCrosscheckGrowth|].
  repeat (destruct (_ =? _); [apply runs_finish;
    solve [apply runs_runVerifyAlerts|apply runs_runReport|apply runs_runSummarizeDiagnostics]|]).
  destruct (is_help c); apply runs_ret.
Qed.
End verify.

Section runner.
Context {W : Type} `{World W} `{CiLibs} `{KubeLib}.

Lemma runs_no_flags args : Runs (W := W) (CmdRunner.no_flags args).
Proof. unfold CmdRunner.no_flags. runs_tac. Qed.
#[local] Hint Resolve runs_no_flags : runs.
Lemma runs_runner_main g args : Runs (W := W) (CmdRunner.main g args).
Proof.
  unfold CmdRunner.main. destruct args as [|p [|c args]]; [apply runs_ret..|].
  destruct (c =? "integration").
  { unfold CmdRunner.runIntegration. apply runs_finish. runs_tac. intros. apply runs_running, runs_Run. }
  destruct (c =? "collect-diagnostics").
  { unfold CmdRunner.runCollectDiagnostics. apply runs_finish. runs_tac. intros. apply runs_running, runs_DiagnosticsRun. }
  destruct (c =? "import-image-k3d").
  { unfold CmdRunner.runImportImageK3D. apply runs_finish. runs_tac. }
  destruct (c =? "nightly-alert-delivery").
  { unfold CmdRunner.runNightlyAlertDelivery. apply runs_finish. runs_tac. intros. apply runs_running, runs_NightlyRun. }
  destruct (is_help c); apply runs_ret.
Qed.
End runner.

(** ** Exit codes *)

(** A command ends with 0 when it succeeded and with 1, its error printed, otherwise. *)
Lemma finish_inv {W X} (m : M W X ()) n s w e s' w' :
  finish m n s w = Some (Ok e, s', w') →
  m n s w = Some (Ok (), s', w') ∧ e = mkEnding 0 [] ∨
  ∃ err, m n s w = Some (Err err, s', w') ∧ e = mkEnding 1 ["ERROR: " +:+ err_msg err].
Proof.
  unfold finish, mbind, M_bind, try. destruct (m n s w) as [[[[[]|err] s1] w1]|]; [| |done]; cbn; intros [= <- <- <-].
  - by left.
  - right. by exists err.
Qed.

Lemma finish_or_exit_inv {W X} (m : M W X (option Z)) n s w e s' w' :
  finish_or_exit m n s w = Some (Ok e, s', w') → exit_code e = 0%Z → m n s w = Some (Ok None, s', w') ∧ e = mkEnding 0 [] ∨
  m n s w = Some (Ok (Some 0%Z), s', w').
Proof.
  unfold finish_or_exit, mbind, M_bind, try. destruct (m n s w) as [[[[[code|]|err] s1] w1]|]; [| | |done]; cbn;
    intros [= <- <- <-] Hc; cbn in Hc; subst; auto. done.
Qed.

(** The end of a program: it succeeded, or it says why not, on an exit code of its own. *)
Definition honest (e : ending) : Prop :=
  exit_code e = 0%Z ∨ (exit_code e = 1%Z ∨ exit_code e = 2%Z) ∧ stderr e ≠ [].

Lemma finish_honest {W X} (m : M W X ()) : yields (finish m) honest.
Proof.
  intros n s w e s' w' Hr. apply finish_inv in Hr as [[_ ->]|(err & _ & ->)]; [by left|right]. split; [by left|done].
Qed.

Lemma finish_succeeds {W X} (m : M W X ()) : succeeds (finish m).
Proof.
  intros n s w r s' w'. unfold finish, mbind, M_bind, try. destruct (m n s w) as [[[r1 s1] w1]|]; [|done].
  cbn. intros [= <- _ _]. by eexists.
Qed.

Lemma running_inv {W X Y A} (x : X) (m : M W X A) n (s : rt Y) w r s' w' :
  running x m n s w = Some (r, s', w') → ∃ st, m n (mkRt [] x) w = Some (r, st, w').
Proof. unfold running. destruct (m n _ w) as [[[r1 s1] w1]|]; [|done]. intros [= <- _ <-]. by eexists. Qed.

Lemma bind_ok {W X A B} (m : M W X A) (k : A → M W X B) n s w b s' w' :
  (m ≫= k) n s w = Some (Ok b, s', w') → ∃ a s1 w1, m n s w = Some (Ok a, s1, w1) ∧ k a n s1 w1 = Some (Ok b, s', w').
Proof. unfold mbind, M_bind. destruct (m n s w) as [[[[a|e] s1] w1]|]; [|done|done]. intros. by eexists _, _, _. Qed.

Section ends.
Context {W : Type} `{World W} `{CiLibs} `{KubeLib}.

(** The one way in which ci-verify ends with nothing to read: its cross-check understood
    its arguments and finds no kubeconfig. *)
Definition dies_silently `{CiEnv} (kube : CmdVerify.kube_lib) (os_Args : list string) : Prop :=
  ∃ p args fs e, os_Args = p :: "crosscheck-growth" :: args ∧
    Parse go_quote CmdVerify.crosscheck_flags args = Ok fs ∧ CmdVerify.kube_GetConfig kube = Some e.

Definition verify_end `{CiEnv} (kube : CmdVerify.kube_lib) (os_Args : list string) (e : ending) : Prop :=
  honest e ∧ ¬ dies_silently kube os_Args ∨ e = mkEnding 1 [] ∧ dies_silently kube os_Args.

Lemma crosscheck_ends `{CiEnv} kube p args :
  yields (finish_or_exit (CmdVerify.runCrosscheckGrowth (W := W) kube args))
    (verify_end kube (p :: "crosscheck-growth" :: args)).
Proof.
  assert (∀ err, Parse go_quote CmdVerify.crosscheck_flags args = Err err ∨ CmdVerify.kube_GetConfig kube = None →
    ¬ dies_silently kube (p :: "crosscheck-growth" :: args)) as Hno.
  { intros err Hor (p' & args' & fs & e & [= <- <-] & Hp & Hk). destruct Hor; congruence. }
  intros n s w e s' w'. unfold finish_or_exit, CmdVerify.runCrosscheckGrowth, CmdVerify.flags_of, CmdVerify.NewKubeClient.
  unfold mbind, M_bind, try, lift. destruct (Parse go_quote _ args) as [[fs rest]|err] eqn:Hp.
  2: { intros [= <- _ _]. left. split; [right; split; [by left|done]|apply (Hno err); by left]. }
  cbn [mret M_ret fst]. destruct (CmdVerify.kube_GetConfig kube) as [ke|] eqn:Hk.
  { intros [= <- _ _]. right. split; [done|]. by exists p, args, (fs, rest), ke. }
  assert (¬ dies_silently kube (p :: "crosscheck-growth" :: args)) as Hd by (apply (Hno (errorf "")); by right).
  intros Hr. left. split; [|done]. revert Hr. unfold wrap_err, or_fail. destruct (CmdVerify.kube_New kube) as [ce|].
  { intros [= <- _ _]. right. by split; [left|]. }
  cbn. destruct (CmdVerify.crosscheck_plan fs n s w) as [[[[[]|err] s1] w1]|]; [| |done]; intros [= <- _ _];
    [by left|right; by split; [left|]].
Qed.

Lemma verify_main_ends `{CiEnv} kube args :
  yields (CmdVerify.main (W := W) kube args) (verify_end kube args) ∧ succeeds (CmdVerify.main (W := W) kube args).
Proof.
  assert ((∀ p rest, args ≠ p :: "crosscheck-growth" :: rest) → ¬ dies_silently kube args) as Hno.
  { intros Hne (p & rest & fs & e & -> & _). by destruct (Hne p rest). }
  assert (∀ c, (c = 0 ∨ c = 2)%Z → (∀ p rest, args ≠ p :: "crosscheck-growth" :: rest) →
    yields (W := W) (X := list string) (mret (mkEnding c CmdVerify.usage)) (verify_end kube args)
    ∧ succeeds (W := W) (X := list string) (mret (mkEnding c CmdVerify.usage))) as Hr.
  { intros c Hc Hne. split; [|apply succeeds_ret]. apply yields_ret. left. split; [|by apply Hno].
    unfold honest. cbn. destruct Hc as [->| ->]; [by left|right; split; [by right|done]]. }
  destruct args as [|p [|c rest]]; [apply Hr; auto..|]. cbn [CmdVerify.main].
  destruct (String.eqb_spec c "crosscheck-growth") as [->|Hc].
  { split; [apply crosscheck_ends|]. unfold finish_or_exit. apply succeeds_bind; [apply succeeds_try|intros; apply succeeds_ret]. }
  assert (∀ p' rest', p :: c :: rest ≠ p' :: "crosscheck-growth" :: rest') as Hne by congruence.
  repeat (destruct (_ =? _); [split; [intros n s w e s' w' E; left; split; [by eapply finish_honest|by apply Hno]
    |apply finish_succeeds]|]).
  destruct (is_help c); apply Hr; auto.
Qed.

Lemma runner_main_ends g args :
  yields (CmdRunner.main (W := W) g args) honest ∧ succeeds (CmdRunner.main (W := W) g args).
Proof.
  unfold CmdRunner.main.
  assert (∀ c l, (c = 0 ∨ c = 1 ∨ c = 2)%Z → l ≠ [] → yields (W := W) (X := ()) (mret (mkEnding c l)) honest
    ∧ succeeds (W := W) (X := ()) (mret (mkEnding c l))) as Hr.
  { intros c l Hc Hl. split; [|apply succeeds_ret]. apply yields_ret. unfold honest. cbn. tauto. }
  destruct args as [|p [|c args]]; [apply Hr; [lia|done]..|].
  repeat (destruct (_ =? _); [split; [apply finish_honest|apply finish_succeeds]|]).
  destruct (is_help c); apply Hr; (lia || done).
Qed.

(** What runs, ends in some way and never fails, ends so from everywhere. *)
Lemma process_ends {X} (m : M W X ending) (P : ending → Prop) s w :
  Runs m → yields m P → succeeds m →
  ∃ e s' w' fuel, (∀ n, (fuel ≤ n)%nat → m n s w = Some (Ok e, s', w')) ∧ P e.
Proof.
  intros Hr Hy Hs. destruct (Hr s w) as (r & s' & w' & n & E & _).
  destruct (Hs _ _ _ _ _ _ (E n (le_n n))) as [e ->]. exists e, s', w', n. split; [done|]. by eapply Hy, (E n).
Qed.

(** C16. The command line programs always end, and say so honestly - with one exception,
    which is exactly described.  Whatever their arguments, and whatever the cluster,
    Prometheus and Alertmanager answer, ci-verify and ci-runner return with enough fuel.
    They end with exit code 0, or with 1 or 2 and a text on standard error; except that
    [ci-verify crosscheck-growth], with arguments that parse, ends with 1 and without a
    word exactly when no kubeconfig is found. *)
Theorem programs_end_honestly `{CiEnv} kube Getenv os_Args :
  (∀ s (w : W), ∃ e s' w' fuel,
     (∀ n, (fuel ≤ n)%nat → CmdVerify.main kube os_Args n s w = Some (Ok e, s', w')) ∧
     (honest e ∧ ¬ dies_silently kube os_Args ∨ e = mkEnding 1 [] ∧ dies_silently kube os_Args)) ∧
  (∀ s (w : W), ∃ e s' w' fuel,
     (∀ n, (fuel ≤ n)%nat → CmdRunner.main Getenv os_Args n s w = Some (Ok e, s', w')) ∧ honest e).
Proof.
  split; intros s w; apply process_ends.
  - apply runs_verify_main.
  - apply verify_main_ends.
  - apply verify_main_ends.
  - apply runs_runner_main.
  - apply runner_main_ends.
  - apply runner_main_ends.
Qed.

(** C12. Exit code 0 of [ci-runner integration] means a verified operator.  When the
    process ends with 0 and the environment does not ask for the soft mode, the clients
    could be built and a run of a fresh runner succeeded, in which every check has
    passed (or, for the language model, was skipped or gave a warning) and every port
    forward it opened was closed exactly once. *)
Theorem integration_exit_zero_means_verified Getenv args n s (w : W) e s' w' :
  CmdRunner.main Getenv ("ci-runner" :: "integration" :: args) n s w = Some (Ok e, s', w') →
  exit_code e = 0%Z → ValidationSoftFail (LoadConfig Getenv) = false →
  ∃ clients now w1 st, BuildClients = Ok clients ∧
    Run (LoadConfig Getenv) (CurrentContext clients) n (mkRt [] (NewIntegrationRunner now)) w1 = Some (Ok (), st, w') ∧
    (∀ c, reports c (checks (state (rt_state st)) c) = true) ∧
    Forall (λ p, pf_closed p = true ∧ pf_stops p = 1%nat) (rt_sessions st).
Proof.
  change (CmdRunner.main _ _) with (finish (CmdRunner.runIntegration (W := W) Getenv args)).
  intros Hr He Hsoft. apply finish_inv in Hr as [[Hr _]|(err & _ & ->)]; [|done].
  unfold CmdRunner.runIntegration in Hr. apply bind_ok in Hr as (u & s1 & w1 & _ & Hr).
  apply bind_ok in Hr as (clients & s2 & w2 & Hc & Hr). apply bind_ok in Hr as (now & s3 & w3 & _ & Hr).
  destruct (running_inv _ _ _ _ _ _ _ _ Hr) as [st Hrun]. exists clients, now, w3, st. split_and!.
  - unfold lift in Hc. by injection Hc as -> _ _.
  - done.
  - intros c. by apply (sends_Run_settles _ _ c Hsoft _ _ _ _ _ _ I) in Hrun.
  - apply (sends_Run_closes _ _ _ _ _ _ _ _ (held_fresh now)) in Hrun. apply Hrun.
Qed.
End ends.

(** On the calm cluster, with an empty environment. *)
Definition demo_kube : KubeLib := {|
  load_kubeconfig := Ok "k3d-cpo-ci"; client_config := Ok (mkRest "https://127.0.0.1:6443" fzero 0); new_client _ _ := None |}.
Notation demo_process := (CmdRunner.main (H := calm_world demo_answers) (L := demo_libs) (H0 := demo_kube)
  (λ _, "") ["ci-runner"; "integration"] 20 (mkRt [] ()) demo_start).

Lemma demo_process_ok : ∃ s w, demo_process = Some (Ok (mkEnding 0 []), s, w).
Proof. vm_compute. by eexists _, _. Qed.

Lemma integration_exit_zero_means_verified_witness : ∃ st : rt IntegrationRunner,
  (∀ c, reports c (checks (state (rt_state st)) c) = true) ∧
  Forall (λ p, pf_closed p = true ∧ pf_stops p = 1%nat) (rt_sessions st).
Proof.
  destruct demo_process_ok as (s & w & E).
  destruct (integration_exit_zero_means_verified (H := calm_world demo_answers) (H0 := demo_libs) (H1 := demo_kube)
    (λ _, "") [] 20 (mkRt [] ()) demo_start _ s w E eq_refl eq_refl)
    as (context & now & w1 & st & _ & _ & Hc & Hf).
  exists st. exact (conj Hc Hf).
Defined.

(** ** The report command *)

(** The arguments that describe a report. *)
Definition report_args (r : ValidationReport) (path : string) : list (string * string) := [
  ("context", vr_Context r);
  ("prometheus-endpoint", vr_PrometheusEndpoint r);
  ("manager-rollout", vr_ManagerRollout r);
  ("plan-reconcile", vr_PlanReconcile r);
  ("trend-signal", vr_TrendSignal r);
  ("growth-math-crosscheck", vr_GrowthMathCrosscheck r);
  ("prom-rule-content", vr_PromRuleContent r);
  ("manager-metrics", vr_ManagerMetrics r);
  ("prometheus-capacity-alerts", vr_PrometheusCapacityAlerts r);
  ("workload-budget-alerts", vr_WorkloadBudgetAlerts r);
  ("alertmanager-capacity-alerts", vr_AlertmanagerCapacityAlerts r);
  ("snapshots", itoa (vr_Snapshots r));
  ("peak-growing-pvcs", itoa (vr_PeakGrowingPVCs r));
  ("trend-seconds", itoa (vr_TrendSeconds r));
  ("total-seconds", itoa (vr_TotalSeconds r));
  ("output-json", path)].

(** A report without the texts of a language model, with numbers of 64 bits. *)
Definition plain_report (r : ValidationReport) : Prop :=
  vr_LLMInsights r = "" ∧ vr_LLMRiskChangeSummary r = "" ∧ vr_LLMBudgetRecommendations r = "" ∧
  is_int64 (vr_Snapshots r) ∧ is_int64 (vr_PeakGrowingPVCs r) ∧
  is_int64 (vr_TrendSeconds r) ∧ is_int64 (vr_TotalSeconds r).

Lemma assign_string quote fs name old v :
  fs !! name = Some (FString old) → assign quote fs name v = Ok (<[name := FString v]> fs).
Proof. unfold assign. by intros ->. Qed.

Lemma assign_int quote fs name old z :
  is_int64 z → fs !! name = Some (FInt old) → assign quote fs name (itoa z) = Ok (<[name := FInt z]> fs).
Proof. unfold assign. intros Hz ->. cbn [set_value]. by rewrite parse_int_itoa. Qed.

Lemma assign_all_step quote fs name v l fs1 r :
  assign quote fs name v = Ok fs1 → assign_all quote fs1 l = r → assign_all quote fs ((name, v) :: l) = r.
Proof. intros E <-. cbn [assign_all]. by rewrite E. Qed.

Lemma report_flags_set quote r path : plain_report r →
  ∃ fs, assign_all quote CmdVerify.report_flags (report_args r path) = Ok fs ∧
    CmdVerify.report_of fs = r ∧ flag_string fs "output-json" = path.
Proof.
  intros (E1 & E2 & E3 & I1 & I2 & I3 & I4). unfold report_args.
  eexists. split_and!.
  - repeat (eapply assign_all_step;
      [first [eapply assign_int; [done|]|eapply assign_string]; rewrite ?lookup_insert_ne by done; reflexivity|]).
    reflexivity.
  - destruct r. unfold CmdVerify.report_of, flag_string, flag_int. cbn in *. subst.
    rewrite ?lookup_insert_eq, ?lookup_insert_ne, ?lookup_insert_eq by done. done.
  - unfold flag_string. by rewrite lookup_insert_eq.
Qed.

Section report.
Context {W : Type} `{World W} `{CiEnv}.

(** C22. [ci-verify report] prints the report its flags describe.  For every report
    without the texts of a language model, whatever its fields contain, the command
    called with one [--name=value] per field prints exactly that report and ends with 0;
    when a file is named it also writes the report there as JSON, with the time of the
    call, and says so, and a failure to write it gives exit code 1. *)
Theorem report_command_prints_its_report kube r path n ses out (w : W) :
  plain_report r →
  CmdVerify.main kube ("ci-verify" :: "report" :: map written (report_args r path)) n (mkRt ses out) w =
  let printed := mkRt ses (out ++ [PrintValidationReport r])%list in
  if path =? "" then Some (Ok (mkEnding 0 []), printed, w)
  else
    let '(now, w) := w_do Now w in
    match report_json (mkReportFile (format_rfc3339 now) r [] [] []) with
    | Err e => Some (Ok (mkEnding 1 ["ERROR: encoding report JSON: " +:+ err_msg e]), printed, w)
    | Ok raw =>
        match w_do (WriteFile path (raw +:+ nl)) w with
        | (Some e, w) => Some (Ok (mkEnding 1 ["ERROR: writing report JSON: " +:+ err_msg e]), printed, w)
        | (None, w) =>
            Some (Ok (mkEnding 0 []), mkRt ses ((out ++ [PrintValidationReport r]) ++ ["REPORT_JSON " +:+ path])%list, w)
        end
    end.
Proof.
  intros Hr. destruct (report_flags_set go_quote r path Hr) as (fs & Ha & Hf & Hp).
  assert (Parse go_quote CmdVerify.report_flags (map written (report_args r path)) = Ok (fs, [])) as Hparse.
  { rewrite <-(app_nil_r (map written _)), parse_written by (by repeat constructor). by rewrite Ha. }
  change (CmdVerify.main _ _) with (finish (CmdVerify.runReport (W := W) (map written (report_args r path)))).
  unfold finish, CmdVerify.runReport, CmdVerify.flags_of, mbind, M_bind, try, lift. rewrite Hparse.
  cbn [mret M_ret fst]. rewrite Hf, Hp. cbv zeta. unfold print, modify. cbn [rt_sessions rt_state].
  destruct (path =? ""); [done|].
  unfold WriteValidationReportJSON, mbind, M_bind. cbn [rf_GeneratedAtUTC String.eqb]. unfold ask, mret, M_ret.
  destruct (w_do Now w) as [now w1]. cbn [rf_Report rf_PVCTrendDetails rf_WorkloadBudgetDetails rf_AlertmanagerNotifications].
  unfold wrap_err, lift. destruct (report_json _) as [raw|e]; [|done].
  unfold ask_ok, ask, or_fail, fail, mbind, M_bind. by destruct (w_do (WriteFile _ _) w1) as [[e|] w2].
Qed.
End report.

Definition demo_report : ValidationReport :=
  mkReport "pass (k3d-cpo-ci)" "pass" "pass" "pass" "pass" "pass (5/5 matched)" "pass" "pass" "" "" ""
    "pass" "pass" "pass" 300 905 60 5.

Lemma report_command_prints_its_report_witness :
  CmdVerify.main (H := calm_world demo_answers) (E := demo_env)
    (CmdVerify.mkKube None None)
    ("ci-verify" :: "report" :: map written (report_args demo_report "")) 0 (mkRt [] []) demo_start =
  Some (Ok (mkEnding 0 []), mkRt [] [PrintValidationReport demo_report], demo_start).
Proof.
  exact (report_command_prints_its_report (H := calm_world demo_answers) (H0 := demo_env)
    (CmdVerify.mkKube None None) demo_report "" 0 [] [] demo_start
    ltac:(by repeat split)).
Defined.

(** ** The cross-check command *)

Section crosscheck.
Context {W : Type} `{World W} `{CiEnv}.

(** The comparison leaves what was printed alone. *)
Lemma still_pre : PreOrder (flip (@eq (rt (list string)))).
Proof. exact _. Qed.
#[local] Hint Resolve still_pre : frames.

Lemma crosscheck_keeps fs l n s (w : W) r s' w' : CmdVerify.crosscheck fs l n s w = Some (r, s', w') → s' = s.
Proof.
  assert (frame (W := W) (flip eq) (CmdVerify.crosscheck fs l)) as Hf; [|by apply Hf].
  unfold CmdVerify.crosscheck, compare_growth. apply frame_bind; [exact _| |intros; apply frame_ret; exact _].
  generalize (mkSummary [] 0 0). induction l as [|p l IH]; intros s0; cbn [compare_loop]; [frame_tac|].
  destruct (pg_Name p =? ""); [apply IH|]. apply frame_bind; [exact _|frame_tac|]. intros [d|e]; [apply IH|frame_tac].
Qed.

Lemma crosscheck_compares fs l :
  NoDup (asked l) →
  yields (CmdVerify.crosscheck (W := W) fs l) (λ o, ∃ answers, o = CompareGrowth l answers (CmdVerify.crosscheck_options fs)).
Proof.
  intros Hnd. by apply yields_compare_growth.
Qed.

Lemma compare_passes opts l answers summary :
  CompareGrowth l answers opts = (summary, None) →
  (MinComparablePVCs opts <= sm_Comparable summary)%Z ∧ (MinMatchingPVCs opts <= sm_Matched summary)%Z.
Proof.
  rewrite CompareGrowth_unfold. unfold compare_verdict. destruct (compare_loop _ _ _ _) as [sum [e|]]; [done|].
  destruct (_ <? _)%Z eqn:Ec; [done|]. destruct (sm_Matched sum <? _)%Z eqn:Em; [done|]. intros [= <-].
  apply Z.ltb_ge in Ec, Em. done.
Qed.

Lemma crosscheck_no_exit_0 kube args n s (w : W) s' w' :
  CmdVerify.runCrosscheckGrowth kube args n s w ≠ Some (Ok (Some 0%Z), s', w').
Proof.
  intros Hr. unfold CmdVerify.runCrosscheckGrowth in Hr. apply bind_ok in Hr as (fs & s1 & w1 & _ & Hr).
  unfold CmdVerify.NewKubeClient in Hr. destruct (CmdVerify.kube_GetConfig kube); [done|].
  apply bind_ok in Hr as (u & s2 & w2 & _ & Hr). by apply bind_ok in Hr as (u' & s3 & w3 & _ & Hr).
Qed.

(** C21. Exit code 0 of [ci-verify crosscheck-growth] means that enough growth rates agree.
    When the process ends with 0, its arguments were understood, the plan they name was
    read and has growth rates; and if it names each claim once, the comparison is
    [CompareGrowth] with the tolerances of the flags for some assignment of Prometheus
    answers to claims, without an error, at least as many claims as the flags demand are
    comparable and match, and exactly the table of that comparison and these two counts
    are printed. *)
Theorem crosscheck_exit_zero_means_agreement kube args n ses out (w : W) e s' w' :
  CmdVerify.main kube ("ci-verify" :: "crosscheck-growth" :: args) n (mkRt ses out) w = Some (Ok e, s', w') →
  exit_code e = 0%Z →
  ∃ fs rest cp version growth, Parse go_quote CmdVerify.crosscheck_flags args = Ok (fs, rest) ∧
    (∃ w1, (w_do (GetPlan (flag_string fs "plan-name")) w1).1 = Ok (cp, version)) ∧
    plan_growth (flag_string fs "plan-name") (Ok cp) = Ok growth ∧
    (NoDup (asked growth) → ∃ answers summary,
       CompareGrowth growth answers (CmdVerify.crosscheck_options fs) = (summary, None) ∧
       (flag_int fs "min-comparable" <= sm_Comparable summary)%Z ∧ (flag_int fs "min-matching" <= sm_Matched summary)%Z ∧
       rt_state s' = (out ++ [PrintGrowthSummary summary (flag_int fs "window-seconds");
                              "RESULT matched=" +:+ itoa (sm_Matched summary) +:+ " comparable=" +:+ itoa (sm_Comparable summary)])%list).
Proof.
  change (CmdVerify.main _ _) with (finish_or_exit (CmdVerify.runCrosscheckGrowth (W := W) kube args)).
  intros Hr He. apply finish_or_exit_inv in Hr as [[Hr ->]|Hr]; [|by destruct (crosscheck_no_exit_0 _ _ _ _ _ _ _ Hr)|done].
  unfold CmdVerify.runCrosscheckGrowth in Hr. apply bind_ok in Hr as (fs & s1 & w1 & Hfs & Hr).
  unfold CmdVerify.flags_of in Hfs. apply bind_ok in Hfs as ([fs0 rest] & s0 & w0 & Hparse & Hfs).
  injection Hparse as Hparse <- <-. injection Hfs as <- <- <-. cbn [fst] in *.
  destruct (CmdVerify.NewKubeClient kube) as [code|ke]; [done|].
  apply bind_ok in Hr as (u & s2 & w2 & Hk & Hr).
  assert (s2 = mkRt ses out) as ->.
  { unfold wrap_err, or_fail in Hk. destruct ke; [done|]. by injection Hk as _ <- _. }
  apply bind_ok in Hr as (u' & s9 & w9 & Hr & Hend). injection Hend as -> ->. unfold CmdVerify.crosscheck_plan in Hr.
  apply bind_ok in Hr as (plan & s3 & w3 & Hplan & Hr). unfold ask in Hplan.
  destruct (w_do _ w2) as [plan0 w4] eqn:Ew. injection Hplan as -> <- <-.
  apply bind_ok in Hr as (growth & s4 & w5 & Hg & Hr). injection Hg as Hg <- <-.
  destruct plan as [[cp version]|e0]; [|done].
  exists fs0, rest, cp, version, growth. split_and!; [done|by exists w2; rewrite Ew|done|]. intros Hnd.
  apply bind_ok in Hr as ([summary ce] & s6 & w6 & Hc & Hr). cbv beta iota in Hr.
  rewrite (crosscheck_keeps _ _ _ _ _ _ _ _ Hc) in Hr.
  destruct (crosscheck_compares _ _ Hnd _ _ _ _ _ _ Hc) as [answers Ha].
  apply bind_ok in Hr as (u1 & s5 & w8 & Hp & Hr). injection Hp as _ <- <-.
  apply bind_ok in Hr as (u2 & s7 & w7 & Hce & Hr). destruct ce as [ce|]; [done|]. injection Hce as _ <- <-.
  exists answers, summary. destruct (compare_passes _ _ _ _ (eq_sym Ha)) as [H1' H2'].
  split_and!; [done..|]. injection Hr as _ <- _. cbn [rt_state]. by rewrite <-(assoc_L app).
Qed.
End crosscheck.

(** The plan of the calm cluster passes with the default tolerances. *)
Notation demo_crosscheck := (CmdVerify.main (H := calm_world demo_answers) (E := demo_env)
  (CmdVerify.mkKube None None) ["ci-verify"; "crosscheck-growth"; "--min-matching=5"]
  0 (mkRt [] []) demo_start).

Lemma demo_crosscheck_ok : ∃ table w,
  demo_crosscheck = Some (Ok (mkEnding 0 []), mkRt [] [table; "RESULT matched=5 comparable=5"], w).
Proof. vm_compute. by do 2 eexists. Qed.

Lemma crosscheck_exit_zero_means_agreement_witness : ∃ fs rest,
  Parse (@go_quote demo_go) CmdVerify.crosscheck_flags ["--min-matching=5"] = Ok (fs, rest).
Proof.
  destruct demo_crosscheck_ok as (table & w & E).
  destruct (crosscheck_exit_zero_means_agreement (H := calm_world demo_answers) (H0 := demo_env)
    (CmdVerify.mkKube None None) ["--min-matching=5"] 0 [] [] demo_start _ _ w E eq_refl) as (fs & rest & cp & v & growth & Hp & _).
  exact (ex_intro _ fs (ex_intro _ rest Hp)).
Defined.

(** ** Help *)

(** The commands of ci-verify have no help of their own: the flag package prints their
    flags, but its error ends the process with 1, while the program's own help ends it
    with 0. *)
Lemma command_help_fails {W} `{World W} `{CiEnv} kube command n s (w : W) :
  command ∈ ["crosscheck-growth"; "verify-alerts"; "report"; "summarize-diagnostics"] →
  CmdVerify.main kube ["ci-verify"; command; "-h"] n s w = Some (Ok (mkEnding 1 ["ERROR: flag: help requested"]), s, w) ∧
  CmdVerify.main kube ["ci-verify"; "-h"] n s w = Some (Ok (mkEnding 0 CmdVerify.usage), s, w).
Proof. rewrite !elem_of_cons. intros [->|[->|[->|[->|Hc]]]]; [done..|by inversion Hc]. Qed.

(** The usage text names every flag of every command. *)
Example usage_names_every_flag :
  forallb (λ fs : gmap string flag_value,
      forallb (λ p : string * flag_value,
          existsb (λ line, has_prefix line ("  --" +:+ p.1 +:+ " ")) CmdVerify.usage) (map_to_list fs))
    [CmdVerify.crosscheck_flags; CmdVerify.alerts_flags; CmdVerify.report_flags; CmdVerify.diagnostics_flags] = true.
Proof. vm_compute. reflexivity. Qed.
